(* ===== verification/_CoqProject ===== *)
-Q . S2P
Prelude.v
Float64.v
Text.v
Values.v
Ops.v
Stack.v
Memory.v
Auth.v
Storage.v
InMemory.v
Economic.v
Executor.v
Ledger.v
Trace.v
Machine.v
Governance.v
VM.v
Preserve.v
Bytecode.v
BytecodeCorrect.v
Parser.v
Blocks.v
Dsl.v
DslTheorems.v
Layout.v
Parsed.v
ParseErrors.v
StdFunctions.v
Lifecycle.v
Comments.v
Proposals.v
Views.v
FileSystem.v
FileStorage.v
Federation.v
FederationNode.v
FederationCommands.v
FederationMain.v
Engine.v
Shell.v
Templates.v
TemplateCommands.v
Macros.v
Api.v
Handlers.v
TypedVm.v
Identities.v
Log.v
DagSync.v
VmFederation.v
CommandLine.v
Demo.v
LedgerFiles.v
