(* ===== verification/Prelude.v ===== *)
(** * ICN-COVM: a verification library

    ICN-COVM is a stack machine for cooperatives, written in Rust
    (src/crates/icn-covm).  A program is a tree of operations ([Op]) that a
    compiler reads from a small language; the machine runs it on an operand
    stack, a memory with call frames, a pluggable key/value storage with
    permissions, versions, quotas and transactions, and an event ledger
    (src/crates/icn-ledger).  On the storage sit resources and balances, and
    proposals with their votes and comments.  A second execution path compiles
    operations to bytecode.  This library translates those parts into executable
    definitions and proves what makes them correct, or exactly what they do
    where that is not what they mean to do.

    ** The files and the code they model (paths below src/crates/icn-covm/src)

    - [Prelude]: outcomes of Rust calls ([res]: [Ok], [Err], [Panic], out of
      fuel), state passing in which the state survives an error ([stm], the
      [&mut self] methods), 64-bit arithmetic, decimal texts, UTF-8, automation.
    - [Float64]: binary64 over the standard library's [SpecFloat], with the
      casts, rounding, parsing and printing of Rust's standard library.
    - [Text]: the string methods of Rust's standard library that the code uses,
      and the parameters for dates and Unicode.
    - [Values]: typed.rs ([TypedValue]: coercions, operators, texts).
    - [Ops]: storage/errors.rs, vm/errors.rs, vm/types.rs (errors with their
      texts, the operations of the machine, events).
    - [Stack], [Memory]: vm/stack.rs, vm/memory.rs.
    - [Auth]: identity.rs and storage/auth.rs (roles, memberships, delegations).
    - [Storage]: storage/resource.rs, versioning.rs, events.rs, namespaces.rs and
      traits.rs; the trait is the class [StorageBackend], what its clients may
      assume is the class [StorageLaws].
    - [InMemory]: storage/implementations/in_memory.rs, an instance of both.
    - [Economic]: trait [EconomicOperations], once for every backend.
    - [Executor]: vm/execution.rs ([VMExecution]), for every backend.
    - [Ledger], [LedgerFiles]: src/crates/icn-ledger/src/lib.rs ([DagLedger]), and
      the files of its namespaces.
    - [Trace], [Machine]: vm/typed_trace.rs and the state and interface of
      vm/vm.rs ([VM]: stack, memory, executor, modes, ledger, tracer).
    - [Governance]: governance/mod.rs and its four handlers.
    - [VM]: the interpreter of vm/vm.rs, [execute_inner] and [execute_call].
    - [Preserve]: relations between the machine before and after a run, kept by
      every program when every operation keeps them; two uses of it.
    - [Bytecode], [BytecodeCorrect]: bytecode.rs and its agreement with [VM].
    - [Parser], [Blocks], [Dsl]: compiler/: the errors with their texts, the
      parser of a line, the parsers of blocks over a shared line index, the main
      loop with governance settings and templates, the standard library.
    - [DslTheorems], [Layout], [Parsed], [ParseErrors], [StdFunctions]: parsing
      ends; programs are read back from their layout; what a parsed program can
      hold; what is reported; what the library's functions compute.
    - [Lifecycle]: governance/proposal_lifecycle.rs, states, transitions, votes,
      execution of attached logic.
    - [Comments]: governance/proposal.rs and governance/comments.rs.
    - [Proposals], [Views]: cli/proposal.rs and cli/utils.rs, the commands that
      create, discuss, vote on and execute proposals, and those that show them.
    - [FileSystem], [FileStorage]: the part of std::fs that
      storage/implementations/file_storage.rs uses, and that backend over it.
    - [Federation]: federation/messages.rs, error.rs and storage.rs, the store of
      federated proposals and votes, for every backend.
    - [FederationNode]: federation/node.rs, events.rs and behaviour.rs, the node
      as a state with its retries, handlers and loop.
    - [FederationCommands], [FederationMain]: cli/federation.rs with the methods
      of vm/vm.rs it calls, and the federation commands of main.rs.
    - [Engine]: lib.rs, programs run by options, with what is reported of them.
    - [Shell]: the rest of main.rs: running, comparing the two execution paths,
      the interactive shell, inspection of keys, registering identities.
    - [Templates], [TemplateCommands]: governance/templates/ and the commands of
      cli/governance.rs and cli/governance_template.rs.
    - [Macros]: compiler/proposal_block.rs and compiler/macros.rs.
    - [Api]: api/proposal_api.rs, the requests of the HTTP server.
    - [CommandLine]: what main.rs, cli/proposal.rs and cli/federation.rs declare
      to clap, what they read back, and which call follows.
    - [DagSync]: cli/dag_sync.rs and its dispatch in main.rs.
    - [Demo]: cli/proposal_demo.rs, the script of the demonstration.
    - [VmFederation]: vm/federation.rs and vm/federation_ext.rs, a machine with a
      node.
    - [Handlers]: vm/ops/, the handlers beside the executor.
    - [TypedVm]: the prototype machine at the end of typed.rs.
    - [Identities]: keys and signatures of identity.rs, and identity/.
    - [Log]: events.rs, over the disk of [FileSystem].

    A Rust module or struct is a [Module] of the same name whose record is [t];
    methods keep their names.  A [HashMap] is a [gmap], a [Vec] a list in the
    same order (the operand stack has its top first), an unsigned integer an [N]
    with its overflow written where it can occur, an [f64] a [spec_float].

    ** What the theorems show

    - Money ([Economic]): a transfer between two accounts moves the amount and
      touches no other account, so it conserves the total over accounts that hold
      both, unless the receiver's balance wraps in a build that does not check
      overflow; minting and burning cancel.  A transfer to oneself creates money.
    - Storage ([InMemory], [Storage]): quotas are never exceeded, writes need a
      role, the audit log only grows, versions have no gaps, rollback restores
      every value, in every state the requests can reach; the exact outcome of a
      write; an inner commit defeats the outer rollback.
    - The machine ([Memory], [VM], [Preserve]): variables read back; fuel is
      irrelevant once a run ends; a call that returns leaves its caller's
      variables alone; the call depth is restored; simulation leaves the storage
      alone.  Loops ignore [Break], and a true [While] never ends.
    - Bytecode ([BytecodeCorrect]): compiled code does what the interpreter does
      on operations, branches and loops, with simulation and the traces off;
      where it does not (loops of a thousand rounds, [IncrementReputation],
      [Negate], simulation) a theorem says so.
    - The compiler ([DslTheorems], [Layout], [Parsed], [ParseErrors],
      [StdFunctions]): parsing any source ends; every program in canonical
      layout is read back; every parsed program is well formed; unknown commands
      are reported at their line at the top level, and too far down inside
      blocks; an inner [if:] takes the outer [else:]; a lone quote panics; [max]
      and [min] of the standard library return their first argument.
    - Governance: ranked-choice voting ends with a candidate, and with two of
      them the majority wins, although a unanimous favourite loses; delegation
      refuses exactly what would close a cycle; thresholds push a falsey number
      when they are met.
    - Proposals ([Lifecycle], [Comments]): histories are paths through the state
      machine and final states stay; voting windows; the tally is not a count;
      logic never takes effect; comments that are created are lost.
    - The commands ([Proposals], [Views]): no proposal command has an effect on a
      machine without a transaction, but for [dag-import], which adds nodes to
      the ledger; a thread shows every comment once, but two comments of the same
      second can send it round in circles; the counts of a difference are right.
    - The file backend ([FileStorage]): what is written is read back, until the
      versions of a key nest to the depth that the JSON reader refuses; deleting
      a key deletes the keys below it; rolling back a deletion loses the history;
      quotas are never exceeded and usage is never released, but for an account
      that is created again; opening ends on every disk.
    - The federation: accepted votes passed every check ([Federation]), but the
      in-memory backend accepts none; a store that restarts shows other votes
      than before, and each cooperative has one ballot; delays between retries
      double, with at most a twentieth added, and the fifth failure forgets the
      operation; a node stores
      nothing, its loop ends only when it is stopped, and a large discovery
      blocks it ([FederationNode]); no command changes the machine
      ([FederationCommands]); the tally reads an abstention as a yes, and
      execution never finds a proposal ([FederationMain]).
    - Entry points ([Engine], [Shell]): asking for bytecode, without the special
      modes, only chooses the code that runs; sources run on an empty storage and report no ledger
      nodes; programs without privileges store nothing; switching the shell's
      mode forgets every variable.
    - Templates ([Templates], [TemplateCommands]): updates extend the history as
      long as the template can be read, and one with a quorum that is not finite
      cannot; deleting touches one template, a backup elsewhere keeps every
      template and a backup onto the registry itself empties them; only creating
      and editing change files.
    - The proposal macro ([Macros]): no macro expands, and a proposal block never
      has a part for a proposal that failed.
    - The command line ([CommandLine], [DagSync]): of an accepted line every
      command finds the options it reads, but [edit], which reads options that
      do not exist; the commands for proposals and the federation are unknown to
      the dispatch; the DAG commands answer with fixed figures; the
      demonstration ([Demo]) always fails.
    - The server ([Api]): a summary names the busiest authors; a server shows
      nothing that needs a caller.
    - The code around the machine ([Handlers], [TypedVm], [VmFederation],
      [Identities], [Log]): the handlers compute the executor's values, refuse
      negative amounts and load what they store; the prototype joins texts
      backwards; executing a federated proposal runs nothing; what an identity
      signs its published part verifies, and a registry holds each identity
      once; the log file is the events in their order, lines forged by line
      feeds included.
    - The ledger: export visits what is reachable once, on cycles too; importing
      a difference makes two ledgers agree.

    ** Fuel

    Four definitions recurse without a structural measure.  [Interp.run] takes
    fuel for nesting and for the rounds of [While]; [Interp.run_mono] shows that
    any run that ends gives the same result with more.  [BytecodeInterpreter]
    counts instructions; [compile_correct] produces the fuel from that of the
    interpreter.  The block parsers recurse over the lines that remain: twice
    the number of lines is enough ([parse_dsl_terminates]).  Walks that must end
    (namespace parents, delegation chains, the ledger's depth-first search,
    [RankedVote]'s rounds, the replies of a thread, the directories of a disk)
    take a bound computed from their data, and theorems show it is enough.
    The loop of a node recurses over the list of what happens to it.

    ** Parameters

    [Platform] gives the clock as a sequence of readings, the overflow mode of
    the build and the [Debug] text of a storage error.  [Renderings] gives
    derived [Debug] texts, the order of [HashMap] keys and the JSON of the
    delegation table.  [Chrono] and [Unicode] stand for chrono's dates and the
    Unicode tables, [LifecycleCalls] for methods the lifecycle calls and the
    source does not declare.  [ProposalCalls] and [FileCalls] do the same for the
    commands and the file backend, [FederationJson] and [FederationCommandCalls]
    for the federation, with the JSON of the records they store; [SwarmCalls] is
    what a node uses of libp2p; [TemplateCalls], [OutputCalls] and [MacroCalls]
    are those of the templates, their commands and the macro; [OpStorage] and
    [NodeLog] are methods that the handlers and the machine's federation call
    and nothing declares; [KeyCalls] is Ed25519 and multibase, [LogCalls] the
    JSON of an event, and [ArgMatches] clap.  JSON codecs, the ledger's hash and UUIDs are
    arguments.  The disk of [FileSystem] has no symbolic links, access rights,
    limits, locks or other processes.  Theorems that rely on a law of a parameter
    name it; their witnesses instantiate it.  The laws of JSON are those of
    serde_json as it is configured: numbers are read back when they are short
    decimals ([Float64]), a number that is not finite is written as null, and
    what nests 128 deep is written and not read.

    ** Readings of code that does not type-check

    The governance handlers use what [pop_one] returns as a float, and the
    bytecode's [Balance] and [IncrementReputation] disagree with the executor's
    types.  They are read by their evident meaning: numbers are popped and
    pushed, [Balance] pushes the value.  The case of a [match] is an [f64] where
    the operation holds a typed value: it is read as a number.  The
    commands use fields of a proposal's lifecycle that its struct does not have
    ([quorum], [threshold]): they are parameters, as is [count_proposals], which
    the federation store does not declare.  The machine logs a federation message
    through a shared reference: it is a write to its storage.  An opened storage
    is an argument of the commands that open one, and the parameters of a run
    are a list of names and texts.

    [TypedVM] takes the operand of [Push] for a float: the float is a parameter.
    vm/ops, vm/federation.rs and the files of identity/ use names that are not
    declared, or are in no module: they are read as they stand.

    ** Not modelled

    Console output where it is not what a command answers, help texts, routing
    and rejections of the HTTP server, the construction of a node's swarm, tests
    and examples.  The
    traits for events and transactions of vm/ops/mod.rs have no implementation. *)
From Stdlib Require Export Ascii Sorted.
From stdpp Require Export base gmap strings numbers fin_maps option.
From Stdlib Require Import DecimalString DecimalN.
From stdpp Require Export list.

(** ** Outcomes of Rust code

    A call returns ([Ok]), returns an error ([Err]), panics, or (in the model
    only) runs out of the fuel that bounds a recursion. *)
Inductive res (E A : Type) : Type :=
  | Ok (a : A)
  | Err (e : E)
  | Panic (msg : string)
  | OutOfFuel.
Arguments Ok {E A} a.
Arguments Err {E A} e.
Arguments Panic {E A} msg.
Arguments OutOfFuel {E A}.

(** [?] on a value: continue with the success, propagate everything else. *)
#[global] Instance res_ret {E} : MRet (res E) := fun A a => Ok a.
#[global] Instance res_bind {E} : MBind (res E) := fun A B k m =>
  match m with
  | Ok a => k a
  | Err e => Err e
  | Panic s => Panic s
  | OutOfFuel => OutOfFuel
  end.
#[global] Instance res_fmap {E} : FMap (res E) := fun A B f m =>
  match m with
  | Ok a => Ok (f a)
  | Err e => Err e
  | Panic s => Panic s
  | OutOfFuel => OutOfFuel
  end.

Definition map_err {E F A} (f : E -> F) (m : res E A) : res F A :=
  match m with
  | Ok a => Ok a
  | Err e => Err (f e)
  | Panic s => Panic s
  | OutOfFuel => OutOfFuel
  end.

Definition is_ok {E A} (m : res E A) : bool :=
  match m with Ok _ => true | _ => false end.

(** [unwrap]: an [Err] becomes a panic. *)
Definition unwrap {E F A} (m : res E A) : res F A :=
  match m with
  | Ok a => Ok a
  | Err _ => Panic "called `Result::unwrap()` on an `Err` value"
  | Panic s => Panic s
  | OutOfFuel => OutOfFuel
  end.

(** ** State passing for [&mut self] methods: the state survives an error. *)
Definition stm (S E A : Type) : Type := S -> S * res E A.

#[global] Instance stm_ret {S E} : MRet (stm S E) := fun A a s => (s, Ok a).
#[global] Instance stm_bind {S E} : MBind (stm S E) := fun A B k m s =>
  match m s with
  | (s', Ok a) => k a s'
  | (s', Err e) => (s', Err e)
  | (s', Panic msg) => (s', Panic msg)
  | (s', OutOfFuel) => (s', OutOfFuel)
  end.

Definition get_state {S E} : stm S E S := fun s => (s, Ok s).
Definition put_state {S E} (s' : S) : stm S E unit := fun _ => (s', Ok tt).
Definition modify {S E} (f : S -> S) : stm S E unit := fun s => (f s, Ok tt).
Definition lift {S E A} (m : res E A) : stm S E A := fun s => (s, m).
Definition throw {S E A} (e : E) : stm S E A := fun s => (s, Err e).

(** Run a method of a component of the state. *)
Definition zoom {S T E A} (get : S -> T) (set : T -> S -> S) (m : stm T E A) : stm S E A :=
  fun s => let '(t', r) := m (get s) in (set t' s, r).

(** ** Machine integers: [u64] and [usize] are [N] with the bound written out. *)
Definition u64_max : N := 18446744073709551615%N.
Definition u64_ok (n : N) : Prop := (n <= u64_max)%N.
Definition saturating_add (a b : N) : N := N.min (a + b) u64_max.
Definition saturating_sub (a b : N) : N := (a - b)%N.
Definition u64_wrap (n : N) : N := (n mod 18446744073709551616)%N.

(** [a + b] on [u64]: a debug build panics on overflow, a release build wraps. *)
Definition u64_add {E} (overflow_checks : bool) (a b : N) : res E N :=
  if (a + b <=? u64_max)%N then Ok (a + b)%N
  else if overflow_checks then Panic "attempt to add with overflow"
  else Ok (u64_wrap (a + b)).
(** [a - b] likewise. *)
Definition u64_sub {E} (overflow_checks : bool) (a b : N) : res E N :=
  if (b <=? a)%N then Ok (a - b)%N
  else if overflow_checks then Panic "attempt to subtract with overflow"
  else Ok (u64_wrap (a + u64_max + 1 - b)).

(** [n as i64] of a [u64], and [a + b] on [i64]. *)
Definition i64_wrap (z : Z) : Z := ((z + 2 ^ 63) mod 2 ^ 64 - 2 ^ 63)%Z.
Definition i64_of_u64 (n : N) : Z := i64_wrap (Z.of_N n).
Definition i64_ok (z : Z) : Prop := (- 2 ^ 63 <= z < 2 ^ 63)%Z.
Definition i64_add {E} (overflow_checks : bool) (a b : Z) : res E Z :=
  if ((- 2 ^ 63 <=? a + b) && (a + b <? 2 ^ 63))%Z then Ok (a + b)%Z
  else if overflow_checks then Panic "attempt to add with overflow"
  else Ok (i64_wrap (a + b)).

(** ** Strings

    A Rust [String] or byte vector is the list of its bytes. *)
Abbreviation bytes := string (only parsing).

Definition str_starts_with (p s : string) : bool := String.prefix p s.

Fixpoint str_contains (p s : string) : bool :=
  String.prefix p s ||
  match s with
  | EmptyString => false
  | String _ s' => str_contains p s'
  end.

Fixpoint str_repeat (n : nat) (s : string) : string :=
  match n with
  | O => EmptyString
  | S n' => String.append s (str_repeat n' s)
  end.

Definition str_len (s : string) : N := N.of_nat (String.length s).

(** [n.to_string()] and [s.parse::<u64>()]. *)
Definition u64_to_string (n : N) : string := NilZero.string_of_uint (N.to_uint n).

Definition parse_digits (s : string) : option N :=
  N.of_uint <$> NilZero.uint_of_string s.

Definition parse_uint (max : N) (s : string) : option N :=
  let digits := match s with
                | String "+"%char s' => s'
                | _ => s
                end in
  n ← parse_digits digits; if (n <=? max)%N then Some n else None.

Definition parse_u64 : string -> option N := parse_uint u64_max.

(** UTF-8 validity of a byte string ([String::from_utf8]). *)
Definition utf8_cont (c : ascii) : bool :=
  let n := N_of_ascii c in (128 <=? n)%N && (n <=? 191)%N.

Definition byte_in (lo hi : N) (c : ascii) : bool :=
  let n := N_of_ascii c in (lo <=? n)%N && (n <=? hi)%N.

Fixpoint utf8_valid (s : string) : bool :=
  match s with
  | EmptyString => true
  | String c s1 =>
      if byte_in 0 127 c then utf8_valid s1
      else
        match s1 with
        | EmptyString => false
        | String c1 s2 =>
            if byte_in 194 223 c then utf8_cont c1 && utf8_valid s2
            else
              match s2 with
              | EmptyString => false
              | String c2 s3 =>
                  if byte_in 224 224 c then byte_in 160 191 c1 && utf8_cont c2 && utf8_valid s3
                  else if byte_in 225 236 c || byte_in 238 239 c then
                    utf8_cont c1 && utf8_cont c2 && utf8_valid s3
                  else if byte_in 237 237 c then byte_in 128 159 c1 && utf8_cont c2 && utf8_valid s3
                  else
                    match s3 with
                    | EmptyString => false
                    | String c3 s4 =>
                        if byte_in 240 240 c then
                          byte_in 144 191 c1 && utf8_cont c2 && utf8_cont c3 && utf8_valid s4
                        else if byte_in 241 243 c then
                          utf8_cont c1 && utf8_cont c2 && utf8_cont c3 && utf8_valid s4
                        else if byte_in 244 244 c then
                          byte_in 128 143 c1 && utf8_cont c2 && utf8_cont c3 && utf8_valid s4
                        else false
                    end
              end
        end
  end.

Definition from_utf8 (b : bytes) : option string := if utf8_valid b then Some b else None.

Definition join (sep : string) (l : list string) : string := String.concat sep l.

(** ** Lemmas and automation shared by every component *)

(** Case analysis on a [stm] or [res] computation that is known to have
    succeeded, failed or panicked. *)
Lemma stm_bind_ok {S E A B} (m : stm S E A) (k : A -> stm S E B) s s' b :
  (m ≫= k) s = (s', Ok b) <-> exists s1 a, m s = (s1, Ok a) /\ k a s1 = (s', Ok b).
Proof.
  unfold mbind, stm_bind. destruct (m s) as [s1 r]. split.
  - destruct r; intros H; try discriminate. by exists s1, a.
  - by intros (? & ? & [= -> ->] & H).
Qed.

Lemma stm_bind_eq {S E A B} (m : stm S E A) (k : A -> stm S E B) s s1 a :
  m s = (s1, Ok a) -> (m ≫= k) s = k a s1.
Proof. unfold mbind, stm_bind. by intros ->. Qed.

Lemma stm_bind_err {S E A B} (m : stm S E A) (k : A -> stm S E B) s s1 e :
  m s = (s1, Err e) -> (m ≫= k) s = (s1, Err e).
Proof. unfold mbind, stm_bind. by intros ->. Qed.

Lemma stm_bind_panic {S E A B} (m : stm S E A) (k : A -> stm S E B) s s1 t :
  m s = (s1, Panic t) -> (m ≫= k) s = (s1, Panic t).
Proof. unfold mbind, stm_bind. by intros ->. Qed.

Lemma res_bind_ok {E A B} (m : res E A) (k : A -> res E B) b :
  (m ≫= k) = Ok b <-> exists a, m = Ok a /\ k a = Ok b.
Proof.
  split.
  - destruct m; intros H; try discriminate. by exists a.
  - by intros (? & -> & H).
Qed.

(** Destruct every [match] of the goal, innermost scrutinee first. *)
Ltac break_match :=
  match goal with
  | |- context [match ?x with _ => _ end] =>
      lazymatch x with
      | context [match _ with _ => _ end] => fail
      | _ => destruct x eqn:?
      end
  end.
Ltac break_match_in H :=
  match type of H with
  | context [match ?x with _ => _ end] =>
      lazymatch x with
      | context [match _ with _ => _ end] => fail
      | _ => destruct x eqn:?
      end
  end.

(** Prove an equation by running its left-hand side in the virtual machine. *)
Ltac evaluate := lazymatch goal with |- _ = ?y => vm_cast_no_check (eq_refl y) end.

Create HintDb covm.
Create Rewrite HintDb covm_eq.

(** *** Decimal strings *)
Lemma digits_string_head d s : NilZero.string_of_uint d = s ->
  match s with String c _ => (48 <= N_of_ascii c <= 57)%N | EmptyString => False end.
Proof. intros <-. destruct d; cbn; lia. Qed.

Lemma parse_digits_u64_to_string n : parse_digits (u64_to_string n) = Some n.
Proof.
  unfold parse_digits, u64_to_string. rewrite NilZero.usu.
  - cbn. f_equal. apply DecimalN.Unsigned.of_to.
  - destruct n as [|p]; [done|]. cbn. apply DecimalPos.Unsigned.to_uint_nonnil.
Qed.

Lemma parse_uint_digits max s :
  match s with String c _ => (48 <= N_of_ascii c <= 57)%N | EmptyString => False end ->
  parse_uint max s = (n ← parse_digits s; if (n <=? max)%N then Some n else None).
Proof.
  unfold parse_uint. destruct s as [|c s]; [done|]. intros Hc.
  destruct (decide (c = "+"%char)) as [->|Hne]; [cbn in Hc; lia|].
  destruct c as [[] [] [] [] [] [] [] []]; try reflexivity; by destruct Hne.
Qed.

(** Printing a [u64] and parsing it back. *)
Lemma parse_u64_to_string n : u64_ok n -> parse_u64 (u64_to_string n) = Some n.
Proof.
  intros Hn. unfold parse_u64.
  rewrite parse_uint_digits by (by eapply digits_string_head).
  rewrite parse_digits_u64_to_string. cbn.
  by rewrite (proj2 (N.leb_le _ _) Hn).
Qed.
#[export] Hint Resolve parse_u64_to_string : covm.

Lemma parse_uint_u64_to_string max n :
  parse_uint max (u64_to_string n) = if (n <=? max)%N then Some n else None.
Proof.
  rewrite parse_uint_digits by (by eapply digits_string_head).
  by rewrite parse_digits_u64_to_string.
Qed.

Lemma parse_uint_le max s n : parse_uint max s = Some n -> (n <= max)%N.
Proof.
  unfold parse_uint. intros (d & _ & Hd)%bind_Some.
  case_match eqn:Hle; simplify_eq. by apply N.leb_le in Hle.
Qed.
Lemma parse_u64_le s n : parse_u64 s = Some n -> u64_ok n.
Proof. apply parse_uint_le. Qed.

Lemma utf8_valid_digit c s :
  (N_of_ascii c <= 127)%N -> utf8_valid (String c s) = utf8_valid s.
Proof.
  intros Hc. cbn. unfold byte_in at 1.
  replace (0 <=? N_of_ascii c)%N with true by (symmetry; apply N.leb_le; lia).
  by replace (N_of_ascii c <=? 127)%N with true by (symmetry; apply N.leb_le; lia).
Qed.

Lemma utf8_valid_digits d : utf8_valid (NilEmpty.string_of_uint d) = true.
Proof. induction d; [done|..]; cbn [NilEmpty.string_of_uint]; by rewrite utf8_valid_digit. Qed.

Lemma utf8_valid_u64_to_string n : utf8_valid (u64_to_string n) = true.
Proof.
  unfold u64_to_string. destruct (N.to_uint n) eqn:Hd; [done|..];
    cbn [NilZero.string_of_uint]; apply utf8_valid_digits || idtac.
  all: rewrite utf8_valid_digit by done; apply utf8_valid_digits.
Qed.
#[export] Hint Resolve utf8_valid_u64_to_string : covm.

Lemma from_utf8_u64_to_string n : from_utf8 (u64_to_string n) = Some (u64_to_string n).
Proof. unfold from_utf8. by rewrite utf8_valid_u64_to_string. Qed.

(** *** Strings *)

(** Valid texts concatenate. *)
Lemma utf8_valid_app a b : utf8_valid a = true -> utf8_valid (String.append a b) = utf8_valid b.
Proof.
  remember (String.length a) as n eqn:Hn. assert (Hle : String.length a <= n) by lia. clear Hn.
  revert a Hle. induction n as [|n IH]; intros a Hle Ha.
  { destruct a; [reflexivity|cbn in Hle; lia]. }
  destruct a as [|c a]; [reflexivity|]. cbn [String.length] in Hle.
  change (String.append (String c a) b) with (String c (String.append a b)).
  cbn [utf8_valid] in Ha |- *.
  destruct (byte_in 0 127 c); [apply IH; [lia|done]|].
  destruct a as [|c1 a]; [done|]. cbn [String.length] in Hle.
  change (String.append (String c1 a) b) with (String c1 (String.append a b)). cbv iota beta.
  destruct (byte_in 194 223 c).
  { apply andb_true_iff in Ha as [-> Ha]. apply IH; [lia|done]. }
  destruct a as [|c2 a]; [done|]. cbn [String.length] in Hle.
  change (String.append (String c2 a) b) with (String c2 (String.append a b)). cbv iota beta.
  do 3 (match goal with
        | |- context [if ?x then _ else _] => destruct x;
          [apply andb_true_iff in Ha as [-> Ha]; apply IH; [lia|done]|]
        end).
  destruct a as [|c3 a]; [done|]. cbn [String.length] in Hle.
  change (String.append (String c3 a) b) with (String c3 (String.append a b)). cbv iota beta.
  do 3 (match goal with
        | |- context [if ?x then _ else _] => destruct x;
          [apply andb_true_iff in Ha as [-> Ha]; apply IH; [lia|done]|]
        end).
  done.
Qed.

Lemma str_app_cons x (a b : string) : String.append (String x a) b = String x (String.append a b).
Proof. reflexivity. Qed.

Lemma str_app_assoc (a b c : string) :
  String.append (String.append a b) c = String.append a (String.append b c).
Proof. induction a as [|x a IH]; [reflexivity|]. exact (f_equal (String x) IH). Qed.

Lemma str_app_inj_l (p a b : string) : String.append p a = String.append p b -> a = b.
Proof.
  induction p as [|x p IH]; [exact id|]. rewrite !str_app_cons. intros [= H]. by apply IH.
Qed.

Lemma str_app_nil_r (a : string) : String.append a EmptyString = a.
Proof. induction a as [|x a IH]; [reflexivity|]. exact (f_equal (String x) IH). Qed.

Lemma str_starts_with_app (p s : string) : str_starts_with p (String.append p s) = true.
Proof.
  unfold str_starts_with. induction p as [|c p IH]; [by destruct s|].
  rewrite str_app_cons. cbn [String.prefix]. by destruct (ascii_dec c c).
Qed.

Lemma str_starts_with_inv (p s : string) :
  str_starts_with p s = true -> exists r, s = String.append p r.
Proof.
  revert s. induction p as [|c p IH]; intros s H; [by exists s|].
  destruct s as [|d s]; [done|]. cbn in H. destruct (Ascii.ascii_dec c d) as [->|]; [|done].
  destruct (IH s H) as [r ->]. by exists r.
Qed.

Lemma str_contains_prefix (p s : string) : String.prefix p s = true -> str_contains p s = true.
Proof. intros H. destruct s; cbn [str_contains]; by rewrite H. Qed.

Lemma str_contains_app (p s t : string) :
  str_contains p (String.append s (String.append p t)) = true.
Proof.
  induction s as [|c s IH].
  - change (String.append EmptyString ?x) with x.
    apply str_contains_prefix. exact (str_starts_with_app p t).
  - rewrite str_app_cons. cbn [str_contains]. rewrite IH. apply orb_true_r.
Qed.
#[export] Hint Resolve str_starts_with_app str_contains_app : covm.


(** *** The numbers 1 to n *)
Definition up_to (n : N) : list N := N.of_nat <$> seq 1 (N.to_nat n).

Lemma up_to_succ n : up_to (n + 1) = up_to n ++ [(n + 1)%N].
Proof.
  unfold up_to. rewrite N.add_1_r, N2Nat.inj_succ, seq_S, fmap_app. cbn.
  do 2 f_equal. lia.
Qed.

(** ** Stable sorting

    [slice::sort_by]: an element goes before the first that is not smaller. *)
Fixpoint insert_by {A} (lt : A -> A -> bool) (x : A) (l : list A) : list A :=
  match l with
  | [] => [x]
  | y :: l' => if lt y x then y :: insert_by lt x l' else x :: y :: l'
  end.
Definition sort_by {A} (lt : A -> A -> bool) (l : list A) : list A := foldr (insert_by lt) [] l.

Lemma insert_by_perm {A} (lt : A -> A -> bool) x l : insert_by lt x l ≡ₚ x :: l.
Proof.
  induction l as [|y l IH]; [done|]. cbn. destruct (lt y x); [|done]. rewrite IH. apply Permutation_swap.
Qed.

Lemma sort_by_perm {A} (lt : A -> A -> bool) l : sort_by lt l ≡ₚ l.
Proof. induction l as [|x l IH]; [done|]. cbn. by rewrite insert_by_perm, IH. Qed.

Lemma sort_by_sorted {A} (lt : A -> A -> bool) l :
  (forall a b, lt a b = true -> lt b a = false) ->
  (forall a b c, lt b a = false -> lt c b = false -> lt c a = false) ->
  StronglySorted (fun a b => lt b a = false) (sort_by lt l).
Proof.
  intros Hasym Htrans. assert (forall x l, StronglySorted (fun a b => lt b a = false) l ->
    StronglySorted (fun a b => lt b a = false) (insert_by lt x l)) as Hins.
  { intros x k. induction k as [|y k IH]; cbn; intros Hk; [by repeat constructor|].
    apply StronglySorted_inv in Hk as [Hk Hy]. destruct (lt y x) eqn:E.
    - constructor; [by apply IH|]. rewrite insert_by_perm. constructor; [by apply Hasym|done].
    - constructor; [by constructor|]. constructor; [done|]. eapply Forall_impl; [exact Hy|]. intros z Hz. by eapply Htrans. }
  induction l as [|x l IH]; [constructor|]. by apply Hins.
Qed.

(** ** Codes as texts

    A positive number as its binary digits: with [Countable], a text for every
    value of a type, for instances of the codecs that are parameters.  *)
Fixpoint text_of_code (p : positive) : string :=
  match p with
  | xH => EmptyString
  | xO p => String "0" (text_of_code p)
  | xI p => String "1" (text_of_code p)
  end.
Fixpoint code_of_text (s : string) : positive :=
  match s with
  | EmptyString => xH
  | String a s => if Ascii.eqb a "0" then xO (code_of_text s) else xI (code_of_text s)
  end.

Lemma code_of_text_of_code p : code_of_text (text_of_code p) = p.
Proof. induction p as [p IH|p IH|]; cbn; congruence. Qed.
Lemma text_of_code_valid p : utf8_valid (text_of_code p) = true.
Proof. induction p as [p IH|p IH|]; done. Qed.

(** A codec for the values of a table: the text is the place in unary. *)
Fixpoint unary (n : nat) : string := match n with O => EmptyString | S n => String "1" (unary n) end.
Lemma length_unary n : String.length (unary n) = n.
Proof. induction n; cbn; congruence. Qed.

Section Table.

Context {A : Type} `{EqDecision A} (table : list A).

Definition table_to_vec (x : A) : res string bytes :=
  match list_find (x =.) table with Some (i, _) => Ok (unary i) | None => Err "not in the table" end.
Definition table_from_slice (b : bytes) : res string A :=
  match table !! String.length b with Some x => Ok x | None => Err "not in the table" end.

Lemma table_round_trip (x : A) b : table_to_vec x = Ok b -> table_from_slice b = Ok x.
Proof.
  unfold table_to_vec, table_from_slice. destruct (list_find _ _) as [[i y]|] eqn:E; [|done]. intros [= <-].
  apply list_find_Some in E as (Hi & <- & _). by rewrite length_unary, Hi.
Qed.

End Table.
