(* ===== verification/Float64.v ===== *)
(** * The [f64] arithmetic the program uses

    Rust's [f64] is IEEE-754 binary64.  Its values and its rounded operations
    are those of the standard library's [SpecFloat] at precision 53 and maximal
    exponent 1024; this file adds what Rust's standard library defines on top:
    [%], the saturating [as u64]/[as i64] casts, [round], [fract], [abs],
    [str::parse::<f64>] and the formatting traits ([{}], [{:.n}], [{:e}]).
    Everything is executable.  The last part bounds what rounding can add, and
    says which decimals every reader of JSON reads back. *)
From S2P Require Import Prelude.
From Stdlib Require Import SpecFloat DecimalString DecimalN DecimalFacts DecimalPos.
From stdpp Require Import list.

Abbreviation f64 := spec_float.

#[global] Instance f64_eq_dec : EqDecision f64.
Proof. solve_decision. Defined.

Definition f64_prec : Z := 53.
Definition f64_emax : Z := 1024.

Definition f64_add : f64 -> f64 -> f64 := SFadd f64_prec f64_emax.
Definition f64_sub : f64 -> f64 -> f64 := SFsub f64_prec f64_emax.
Definition f64_mul : f64 -> f64 -> f64 := SFmul f64_prec f64_emax.
Definition f64_div : f64 -> f64 -> f64 := SFdiv f64_prec f64_emax.
Definition f64_abs : f64 -> f64 := SFabs.
Definition f64_neg : f64 -> f64 := SFopp.
Definition f64_eqb : f64 -> f64 -> bool := SFeqb.
Definition f64_ltb : f64 -> f64 -> bool := SFltb.
Definition f64_leb : f64 -> f64 -> bool := SFleb.

Definition f64_round_dyadic (m e : Z) (zero_sign : bool) : f64 :=
  binary_normalize f64_prec f64_emax m e zero_sign.

(** [n as f64] for an integer [n]. *)
Definition f64_of_Z (n : Z) : f64 := f64_round_dyadic n 0 false.

Definition f64_zero : f64 := S754_zero false.
Definition f64_one : f64 := f64_of_Z 1.
(** [f64::EPSILON] is 2^-52. *)
Definition f64_epsilon : f64 := f64_round_dyadic 1 (-52) false.

Definition f64_is_nan (x : f64) : bool :=
  match x with S754_nan => true | _ => false end.
Definition f64_is_infinite (x : f64) : bool :=
  match x with S754_infinity _ => true | _ => false end.
(** The sign of a NaN is not observable here; Rust's canonical NaN is positive. *)
Definition f64_is_sign_negative (x : f64) : bool :=
  match x with
  | S754_zero s | S754_infinity s | S754_finite s _ _ => s
  | S754_nan => false
  end.

(** The finite value m * 2^e truncated toward zero. *)
Definition trunc_dyadic (m e : Z) : Z :=
  if (0 <=? e)%Z then Z.shiftl m e else (m / 2 ^ (- e))%Z.

(** [x % y]: exact remainder with the sign of the dividend. *)
Definition f64_rem (x y : f64) : f64 :=
  match x, y with
  | S754_nan, _ | _, S754_nan => S754_nan
  | S754_infinity _, _ => S754_nan
  | _, S754_zero _ => S754_nan
  | S754_zero _, _ => x
  | S754_finite _ _ _, S754_infinity _ => x
  | S754_finite sx mx ex, S754_finite _ my ey =>
      let e := Z.min ex ey in
      let r := (Z.shiftl (Zpos mx) (ex - e) mod Z.shiftl (Zpos my) (ey - e))%Z in
      f64_round_dyadic (cond_Zopp sx r) e sx
  end.

(** [x as u64] (and [x as usize] on a 64-bit target): truncates and saturates. *)
Definition f64_to_u64 (x : f64) : N :=
  match x with
  | S754_zero _ | S754_nan => 0
  | S754_infinity s => if s then 0 else u64_max
  | S754_finite true _ _ => 0
  | S754_finite false m e => N.min (Z.to_N (trunc_dyadic (Zpos m) e)) u64_max
  end.

Definition f64_to_i64 (x : f64) : Z :=
  let bound := (2 ^ 63)%Z in
  match x with
  | S754_zero _ | S754_nan => 0
  | S754_infinity s => if s then - bound else bound - 1
  | S754_finite s m e =>
      Z.max (- bound) (Z.min (bound - 1) (cond_Zopp s (trunc_dyadic (Zpos m) e)))
  end%Z.

(** [x.round()]: to the nearest integer, halves away from zero. *)
Definition f64_round (x : f64) : f64 :=
  match x with
  | S754_finite s m e =>
      if (0 <=? e)%Z then x
      else
        let r := ((Zpos m + 2 ^ (- e - 1)) / 2 ^ (- e))%Z in
        f64_round_dyadic (cond_Zopp s r) 0 s
  | _ => x
  end.

(** [x.trunc()] and [x.fract() = x - x.trunc()]. *)
Definition f64_trunc (x : f64) : f64 :=
  match x with
  | S754_finite s m e =>
      if (0 <=? e)%Z then x else f64_round_dyadic (cond_Zopp s (trunc_dyadic (Zpos m) e)) 0 s
  | _ => x
  end.
Definition f64_fract (x : f64) : f64 := f64_sub x (f64_trunc x).

(** ** Decimal conversion: the value [d * 10^s], correctly rounded

    A scale above 310 overflows whatever the digits, and a value below
    10^-330 underflows: both are decided before any power is computed. *)

Definition decimal_digits (n : N) : Z := Z.of_nat (String.length (u64_to_string n)).

Definition f64_of_decimal (neg : bool) (d : N) (s : Z) : f64 :=
  match d with
  | N0 => S754_zero neg
  | Npos p =>
      if (310 <? s)%Z then S754_infinity neg
      else if (0 <=? s)%Z then
        f64_round_dyadic (cond_Zopp neg (Zpos p * 10 ^ s)) 0 neg
      else if (decimal_digits d + s <? -330)%Z then S754_zero neg
      else
        let '(m, e, l) := SFdiv_core_binary f64_prec f64_emax (Zpos p) 0 (10 ^ (- s)) 0 in
        binary_round_aux f64_prec f64_emax neg m e l
  end.

(** *** [str::parse::<f64>] *)

Definition is_digit (c : ascii) : bool :=
  let n := N_of_ascii c in (48 <=? n)%N && (n <=? 57)%N.

Fixpoint span_digits (s : string) : string * string :=
  match s with
  | String c s' =>
      if is_digit c then let '(a, b) := span_digits s' in (String c a, b) else (EmptyString, s)
  | EmptyString => (EmptyString, EmptyString)
  end.

Definition ascii_lower (c : ascii) : ascii :=
  let n := N_of_ascii c in
  if (65 <=? n)%N && (n <=? 90)%N then ascii_of_N (n + 32) else c.
Fixpoint str_ascii_lower (s : string) : string :=
  match s with
  | EmptyString => EmptyString
  | String c s' => String (ascii_lower c) (str_ascii_lower s')
  end.

Fixpoint digits_value_acc (acc : N) (s : string) : N :=
  match s with
  | EmptyString => acc
  | String c s' => digits_value_acc (acc * 10 + (N_of_ascii c - 48)) s'
  end.
Definition digits_value : string -> N := digits_value_acc 0.

(** The exponent part, or nothing. *)
Definition parse_exponent (s : string) : option Z :=
  match s with
  | EmptyString => Some 0%Z
  | String c s1 =>
      if (N_of_ascii c =? 101)%N || (N_of_ascii c =? 69)%N then
        let '(neg, s2) :=
          match s1 with
          | String "-"%char s2 => (true, s2)
          | String "+"%char s2 => (false, s2)
          | _ => (false, s1)
          end in
        let '(ds, rest) := span_digits s2 in
        match ds, rest with
        | EmptyString, _ => None
        | _, EmptyString => Some (cond_Zopp neg (Z.of_N (digits_value ds)))
        | _, _ => None
        end
      else None
  end.

Definition parse_f64_unsigned (neg : bool) (s : string) : option f64 :=
  let l := str_ascii_lower s in
  if String.eqb l "inf" || String.eqb l "infinity" then Some (S754_infinity neg)
  else if String.eqb l "nan" then Some S754_nan
  else
    let '(int, rest) := span_digits s in
    let '(frac, tail) :=
      match rest with
      | String "."%char r => span_digits r
      | _ => (EmptyString, rest)
      end in
    match String.append int frac with
    | EmptyString => None
    | digits =>
        e ← parse_exponent tail;
        Some (f64_of_decimal neg (digits_value digits) (e - Z.of_nat (String.length frac)))
    end.

Definition parse_f64 (s : string) : option f64 :=
  match s with
  | String "-"%char s' => parse_f64_unsigned true s'
  | String "+"%char s' => parse_f64_unsigned false s'
  | _ => parse_f64_unsigned false s
  end.

(** *** [Display] for [f64]: the shortest decimal that reads back *)

(** Floor of m * 2^e / 10^s and whether the candidate above is closer. *)
Definition scaled_floor (m e s : Z) : Z * bool :=
  let num := ((if 0 <=? e then Z.shiftl m e else m) * (if 0 <=? s then 1 else 10 ^ (- s)))%Z in
  let den := ((if 0 <=? e then 1 else 2 ^ (- e)) * (if 0 <=? s then 10 ^ s else 1))%Z in
  let '(q, r) := Z.div_eucl num den in
  (q, (den <? 2 * r)%Z).

(** k with 10^(k-1) <= m * 2^e < 10^k. *)
Definition decimal_exponent (m e : Z) : Z :=
  let n := trunc_dyadic m e in
  if (0 <? n)%Z then decimal_digits (Z.to_N n)
  else (1 - decimal_digits (Z.to_N (2 ^ (- e) / m)))%Z.

(** Drop the trailing zeros of d while the scale is negative. *)
Fixpoint strip_zeros (fuel : nat) (d : N) (s : Z) : N * Z :=
  match fuel with
  | O => (d, s)
  | S fuel' =>
      if (s <? 0)%Z && (d mod 10 =? 0)%N && (0 <? d)%N then strip_zeros fuel' (d / 10) (s + 1)
      else (d, s)
  end.

Definition candidate (d s : Z) : N * Z :=
  strip_zeros (String.length (u64_to_string (Z.to_N d))) (Z.to_N d) s.

Definition reads_back (neg : bool) (x : f64) (c : N * Z) : bool :=
  bool_decide (f64_of_decimal neg c.1 c.2 = x).

Fixpoint shortest_from (fuel : nat) (n : Z) (neg : bool) (m e : Z) (x : f64) : option (N * Z) :=
  match fuel with
  | O => None
  | S fuel' =>
      let s := (decimal_exponent m e - n)%Z in
      let '(lo, closer_hi) := scaled_floor m e s in
      let first := candidate (if closer_hi then lo + 1 else lo)%Z s in
      let second := candidate (if closer_hi then lo else lo + 1)%Z s in
      if reads_back neg x first then Some first
      else if reads_back neg x second then Some second
      else shortest_from fuel' (n + 1) neg m e x
  end.

(** The shortest digits d and scale s with d * 10^s reading back as the float;
    17 digits are enough for binary64. *)
Definition f64_shortest (x : f64) : option (N * Z) :=
  match x with
  | S754_finite neg m e => shortest_from 17 1 neg (Zpos m) e x
  | _ => None
  end.

Definition zeros (n : Z) : string := str_repeat (Z.to_nat n) "0".

(** Write d * 10^s without an exponent. *)
Definition decimal_to_string (d : N) (s : Z) : string :=
  let ds := u64_to_string d in
  let len := Z.of_nat (String.length ds) in
  if (0 <=? s)%Z then String.append ds (zeros s)
  else if (0 <? len + s)%Z then
    let i := Z.to_nat (len + s) in
    String.append (String.substring 0 i ds)
      (String.append "." (String.substring i (String.length ds - i) ds))
  else String.append "0." (String.append (zeros (- s - len)) ds).

(** The exact decimal expansion of m * 2^e. *)
Definition exact_decimal (m e : Z) : N * Z :=
  if (0 <=? e)%Z then (Z.to_N (Z.shiftl m e), 0%Z)
  else (Z.to_N (m * 5 ^ (- e)), e).

Definition sign_string (neg : bool) : string := if neg then "-" else EmptyString.

Definition f64_to_string (x : f64) : string :=
  match x with
  | S754_nan => "NaN"
  | S754_infinity neg => String.append (sign_string neg) "inf"
  | S754_zero neg => String.append (sign_string neg) "0"
  | S754_finite neg m e =>
      let '(d, s) := default (exact_decimal (Zpos m) e) (f64_shortest x) in
      String.append (sign_string neg) (decimal_to_string d s)
  end.

(** [{:.p}]: p decimals of the exact value, ties to even. *)
Definition fixed_decimal (m e : Z) (p : Z) : N :=
  let num := ((if 0 <=? e then Z.shiftl m e else m) * 10 ^ p)%Z in
  let den := (if 0 <=? e then 1 else 2 ^ (- e))%Z in
  let '(q, r) := Z.div_eucl num den in
  Z.to_N (if (2 * r <? den)%Z then q
          else if (den <? 2 * r)%Z then q + 1
          else if Z.even q then q else q + 1)%Z.

Definition pad_decimal (d : N) (p : Z) : string :=
  let ds := u64_to_string d in
  let len := Z.of_nat (String.length ds) in
  let padded := String.append (zeros (p + 1 - len)) ds in
  let i := Z.to_nat (Z.of_nat (String.length padded) - p) in
  if (p =? 0)%Z then padded
  else String.append (String.substring 0 i padded)
         (String.append "." (String.substring i (String.length padded - i) padded)).

Definition f64_to_fixed (p : Z) (x : f64) : string :=
  match x with
  | S754_nan => "NaN"
  | S754_infinity neg => String.append (sign_string neg) "inf"
  | S754_zero neg => String.append (sign_string neg) (pad_decimal 0 p)
  | S754_finite neg m e =>
      String.append (sign_string neg) (pad_decimal (fixed_decimal (Zpos m) e p) p)
  end.

(** [{:e}]. *)
Definition f64_to_exp_string (x : f64) : string :=
  match x with
  | S754_nan => "NaN"
  | S754_infinity neg => String.append (sign_string neg) "inf"
  | S754_zero neg => String.append (sign_string neg) "0e0"
  | S754_finite neg m e =>
      let '(d, s) := default (exact_decimal (Zpos m) e) (f64_shortest x) in
      let '(d', s') := strip_zeros (String.length (u64_to_string d)) d (s - 400) in
      let s'' := (s' + 400)%Z in
      let ds := u64_to_string d' in
      let rest := String.substring 1 (String.length ds - 1) ds in
      let exponent := (s'' + Z.of_nat (String.length ds) - 1)%Z in
      String.append (sign_string neg)
        (String.append (String.substring 0 1 ds)
          (String.append (if String.eqb rest EmptyString then EmptyString else String.append "." rest)
            (String.append "e"
              (String.append (sign_string (exponent <? 0)%Z)
                 (u64_to_string (Z.to_N (Z.abs exponent)))))))
  end.

(** ** Reading back what [Display] prints *)

Fixpoint all_digits (s : string) : bool :=
  match s with
  | EmptyString => true
  | String c s' => is_digit c && all_digits s'
  end.

Definition head_is_digit (s : string) : bool :=
  match s with String c _ => is_digit c | EmptyString => false end.

Lemma all_digits_app a b : all_digits (String.append a b) = all_digits a && all_digits b.
Proof.
  induction a as [|c a IH]; [done|]. rewrite str_app_cons. cbn [all_digits].
  by rewrite IH, andb_assoc.
Qed.

Lemma digits_value_acc_app a b acc :
  digits_value_acc acc (String.append a b) = digits_value_acc (digits_value_acc acc a) b.
Proof.
  revert acc. induction a as [|c a IH]; intros acc; [done|].
  rewrite str_app_cons. cbn [digits_value_acc]. by rewrite IH.
Qed.

Lemma span_digits_app a b :
  all_digits a = true -> head_is_digit b = false -> span_digits (String.append a b) = (a, b).
Proof.
  induction a as [|c a IH]; intros Ha Hb.
  - change (String.append EmptyString b) with b. destruct b as [|c b]; [done|].
    cbn [span_digits head_is_digit] in *. by rewrite Hb.
  - rewrite str_app_cons. cbn [span_digits all_digits] in *.
    apply andb_true_iff in Ha as [-> Ha]. by rewrite IH.
Qed.

Lemma span_digits_all a : all_digits a = true -> span_digits a = (a, EmptyString).
Proof. intros Ha. rewrite <- (str_app_nil_r a) at 1. by apply span_digits_app. Qed.

Lemma all_digits_string_of_uint d : all_digits (NilEmpty.string_of_uint d) = true.
Proof. induction d; cbn; auto. Qed.

Lemma all_digits_u64_to_string n : all_digits (u64_to_string n) = true.
Proof.
  unfold u64_to_string. destruct (N.to_uint n) as [|u|u|u|u|u|u|u|u|u|u]; [done|..];
    apply all_digits_string_of_uint.
Qed.

Lemma u64_to_string_cons n : exists c s, u64_to_string n = String c s /\ is_digit c = true.
Proof.
  pose proof (all_digits_u64_to_string n) as H.
  unfold u64_to_string in *. destruct (N.to_uint n); cbn in *; eauto.
Qed.

Lemma digits_value_acc_uint d p :
  digits_value_acc (Npos p) (NilEmpty.string_of_uint d) = Npos (Pos.of_uint_acc d p).
Proof.
  revert p. induction d as [|d IH|d IH|d IH|d IH|d IH|d IH|d IH|d IH|d IH|d IH]; intros p;
    [done|..]; cbn [NilEmpty.string_of_uint digits_value_acc Pos.of_uint_acc];
    rewrite <- IH; f_equal; cbn; lia.
Qed.

Lemma digits_value_string_of_uint d : digits_value (NilEmpty.string_of_uint d) = N.of_uint d.
Proof.
  unfold digits_value. change (N.of_uint d) with (Pos.of_uint d).
  induction d; [done|..]; cbn [NilEmpty.string_of_uint digits_value_acc Pos.of_uint];
    try (rewrite <- digits_value_acc_uint; reflexivity).
  exact IHd.
Qed.

Lemma digits_value_u64_to_string n : digits_value (u64_to_string n) = n.
Proof.
  unfold u64_to_string. rewrite <- (DecimalN.Unsigned.of_to n) at 2.
  destruct (N.to_uint n) eqn:E; [done|..]; cbn [NilZero.string_of_uint];
    by rewrite digits_value_string_of_uint.
Qed.

Lemma str_repeat_S n s : str_repeat (S n) s = String.append s (str_repeat n s).
Proof. reflexivity. Qed.

Lemma all_digits_zeros n : all_digits (zeros n) = true.
Proof.
  unfold zeros. induction (Z.to_nat n) as [|k IH]; [done|].
  by rewrite str_repeat_S, all_digits_app, IH.
Qed.

Lemma length_zeros n : String.length (zeros n) = Z.to_nat n.
Proof. unfold zeros. induction (Z.to_nat n) as [|k IH]; [done|]. cbn. by rewrite <- IH at 2. Qed.

Lemma digits_value_zeros n acc : (0 <= n)%Z ->
  digits_value_acc acc (zeros n) = (acc * 10 ^ Z.to_N n)%N.
Proof.
  intros Hn. unfold zeros. rewrite <- Z_N_nat. generalize (Z.to_N n) as k.
  intros k. rewrite <- (N2Nat.id k) at 2. revert acc. induction (N.to_nat k) as [|j IH]; intros acc.
  - cbn. lia.
  - rewrite str_repeat_S, digits_value_acc_app, IH, Nat2N.inj_succ, N.pow_succ_r'. cbn. lia.
Qed.

Lemma digits_value_leading_zeros n s : digits_value_acc 0 (String.append (zeros n) s) = digits_value s.
Proof.
  rewrite digits_value_acc_app. destruct (decide (0 <= n)%Z).
  - by rewrite digits_value_zeros, N.mul_0_l.
  - unfold zeros. replace (Z.to_nat n) with 0 by lia. reflexivity.
Qed.

Lemma length_str_app a b : String.length (String.append a b) = String.length a + String.length b.
Proof. induction a as [|c a IH]; [done|]. rewrite str_app_cons. cbn. by rewrite IH. Qed.

Lemma substring_split (s : string) i : i <= String.length s ->
  String.append (String.substring 0 i s) (String.substring i (String.length s - i) s) = s /\
  String.length (String.substring i (String.length s - i) s) = String.length s - i.
Proof.
  revert i. induction s as [|c s IH]; intros i Hi.
  - destruct i; cbn in *; [done|lia].
  - destruct i as [|i].
    + cbn [String.substring String.length Nat.sub]. destruct (IH 0) as [H1 H2]; [lia|].
      replace (String.substring 0 0 s) with EmptyString in H1 by (by destruct s).
      rewrite Nat.sub_0_r in *. split; [|cbn; by rewrite H2].
      exact (f_equal (String c) H1).
    + cbn in Hi. destruct (IH i) as [H1 H2]; [lia|]. cbn [String.substring String.length Nat.sub].
      split; [|done]. exact (f_equal (String c) H1).
Qed.

Lemma ascii_lower_digit c : is_digit c = true -> ascii_lower c = c.
Proof.
  unfold ascii_lower, is_digit. intros [_ H]%andb_true_iff. apply N.leb_le in H.
  by replace (65 <=? N_of_ascii c)%N with false by (symmetry; apply N.leb_gt; lia).
Qed.

Lemma digit_head_neq c x s t : is_digit c = true -> is_digit x = false ->
  String.eqb (String c s) (String x t) = false.
Proof. intros Hc Hx. cbn. destruct (Ascii.eqb_spec c x); [congruence|done]. Qed.

(** A numeral that starts with a digit is not one of the keywords. *)
Lemma parse_f64_unsigned_digits neg a b :
  all_digits a = true -> all_digits b = true -> head_is_digit a = true ->
  parse_f64_unsigned neg (String.append a (String.append "." b)) =
  Some (f64_of_decimal neg (digits_value (String.append a b)) (- Z.of_nat (String.length b))).
Proof.
  intros Ha Hb Hd. unfold parse_f64_unsigned.
  destruct a as [|c a]; [done|]. cbn [head_is_digit] in Hd.
  rewrite str_app_cons. cbn [str_ascii_lower]. rewrite ascii_lower_digit by done.
  rewrite !digit_head_neq by done. cbn [orb].
  rewrite <- str_app_cons, (span_digits_app _ _ Ha) by done.
  change (String.append "." b) with (String "."%char b). cbv iota beta.
  rewrite (span_digits_all b Hb). rewrite str_app_cons. reflexivity.
Qed.

Lemma parse_f64_unsigned_int neg a :
  all_digits a = true -> head_is_digit a = true ->
  parse_f64_unsigned neg a = Some (f64_of_decimal neg (digits_value a) 0).
Proof.
  intros Ha Hd. unfold parse_f64_unsigned.
  destruct a as [|c a]; [done|]. cbn [head_is_digit] in Hd.
  cbn [str_ascii_lower]. rewrite ascii_lower_digit by done.
  rewrite !digit_head_neq by done. cbn [orb].
  rewrite (span_digits_all _ Ha). rewrite str_app_nil_r. reflexivity.
Qed.

(** Dispatch on the sign: a numeral never starts with one. *)
Lemma parse_f64_sign neg s : head_is_digit s = true ->
  parse_f64 (String.append (sign_string neg) s) = parse_f64_unsigned neg s.
Proof.
  intros Hs. destruct neg; [done|]. cbn [sign_string].
  change (String.append EmptyString s) with s. destruct s as [|c s]; [done|].
  destruct c as [[] [] [] [] [] [] [] []]; try done; discriminate Hs.
Qed.

Lemma f64_of_decimal_shift neg d s : (0 <= s <= 310)%Z ->
  f64_of_decimal neg (d * 10 ^ Z.to_N s) 0 = f64_of_decimal neg d s.
Proof.
  intros Hs. unfold f64_of_decimal. destruct d as [|p]; [done|].
  destruct (Npos p * 10 ^ Z.to_N s)%N as [|q] eqn:E; [lia|].
  replace (310 <? s)%Z with false by (symmetry; apply Z.ltb_ge; lia).
  replace (0 <=? s)%Z with true by (symmetry; apply Z.leb_le; lia).
  cbn. do 2 f_equal. apply (f_equal Z.of_N) in E.
  rewrite N2Z.inj_mul, N2Z.inj_pow, Z2N.id in E by lia. cbn in E. lia.
Qed.

Lemma parse_decimal_to_string neg d s : (s <= 310)%Z ->
  head_is_digit (decimal_to_string d s) = true /\
  parse_f64_unsigned neg (decimal_to_string d s) = Some (f64_of_decimal neg d s).
Proof.
  intros Hs. unfold decimal_to_string.
  pose proof (all_digits_u64_to_string d) as Hd. pose proof (digits_value_u64_to_string d) as Hv.
  destruct (u64_to_string_cons d) as (c & t & Hc & Hcd).
  set (ds := u64_to_string d) in *. case_match eqn:E1; [|case_match eqn:E2].
  - apply Z.leb_le in E1. split; [by rewrite Hc|].
    rewrite parse_f64_unsigned_int.
    + unfold digits_value. rewrite digits_value_acc_app. fold (digits_value ds). rewrite Hv.
      by rewrite digits_value_zeros, f64_of_decimal_shift by lia.
    + by rewrite all_digits_app, Hd, all_digits_zeros.
    + by rewrite Hc.
  - apply Z.leb_gt in E1. apply Z.ltb_lt in E2.
    set (i := Z.to_nat (Z.of_nat (String.length ds) + s)).
    destruct (substring_split ds i) as [Ha Hl]; [lia|].
    assert (Hi : exists j, i = S j) by (exists (pred i); lia). destruct Hi as [j Hj].
    rewrite <- Ha, all_digits_app in Hd. apply andb_true_iff in Hd as [Hd1 Hd2].
    assert (Hh : head_is_digit (String.substring 0 i ds) = true) by (rewrite Hc, Hj; exact Hcd).
    split; [destruct (String.substring 0 i ds); [done|exact Hh]|].
    rewrite parse_f64_unsigned_digits by done. rewrite Ha, Hl, Hv. do 2 f_equal. lia.
  - apply Z.leb_gt in E1. apply Z.ltb_ge in E2. split; [done|].
    change ("0." +:+ ?x) with ("0" +:+ ("." +:+ x)). rewrite parse_f64_unsigned_digits; try done.
    + change (digits_value ("0" +:+ ?x)) with (digits_value_acc 0 x).
      rewrite digits_value_leading_zeros, Hv. do 2 f_equal.
      rewrite length_str_app, length_zeros. lia.
    + by rewrite all_digits_app, Hd, all_digits_zeros.
Qed.

Lemma shortest_from_reads fuel n neg m e x d s :
  shortest_from fuel n neg m e x = Some (d, s) -> f64_of_decimal neg d s = x.
Proof.
  revert n. induction fuel as [|fuel IH]; intros n; cbn [shortest_from]; [done|].
  destruct (scaled_floor m e _) as [lo hi].
  unfold reads_back. cbv zeta.
  do 2 (case_match eqn:E; [intros [= Hc]; apply bool_decide_eq_true in E; by rewrite Hc in E|
                           clear E]).
  apply IH.
Qed.

(** A finite float whose shortest decimal is found prints to a text that
    parses to the same float, bit for bit. *)
Lemma parse_f64_to_string x :
  f64_shortest x <> None -> parse_f64 (f64_to_string x) = Some x.
Proof.
  destruct x as [| | |neg m e]; try done. intros Hx. cbn [f64_to_string].
  destruct (f64_shortest _) as [[d s]|] eqn:Hds; [|done]. cbn [from_option id].
  apply shortest_from_reads in Hds.
  assert (Hs : (s <= 310)%Z).
  { destruct (decide (s <= 310)%Z) as [|Hgt]; [done|]. exfalso. revert Hds.
    unfold f64_of_decimal. destruct d as [|p]; [done|].
    by replace (310 <? s)%Z with true by (symmetry; apply Z.ltb_lt; lia). }
  destruct (parse_decimal_to_string neg d s Hs) as [Hh Hp].
  by rewrite parse_f64_sign, Hp, Hds.
Qed.

Lemma parse_f64_to_string_special :
  parse_f64 (f64_to_string (S754_zero true)) = Some (S754_zero true) /\
  parse_f64 (f64_to_string (S754_zero false)) = Some (S754_zero false) /\
  parse_f64 (f64_to_string (S754_infinity true)) = Some (S754_infinity true) /\
  parse_f64 (f64_to_string (S754_infinity false)) = Some (S754_infinity false) /\
  parse_f64 (f64_to_string S754_nan) = Some S754_nan.
Proof. by vm_compute. Qed.

(** Comparing floats. *)
Lemma f64_eqb_refl x : f64_is_nan x = false -> f64_eqb x x = true.
Proof.
  unfold f64_eqb, SFeqb. destruct x as [[]|[]| |[] m e]; try done; intros _; cbn;
    rewrite Z.compare_refl; change (Pos.compare_cont Eq m m) with (m ?= m)%positive;
    by rewrite Pos.compare_refl.
Qed.

Lemma f64_to_u64_ok x : u64_ok (f64_to_u64 x).
Proof. unfold u64_ok. destruct x as [[]|[]| |[] m e]; cbn; try lia. Qed.
#[export] Hint Resolve f64_to_u64_ok : covm.

(** *** Integers below 2^53 are exact *)

Lemma digits2_pos_iter_xO p d :
  Zpos (digits2_pos (Pos.iter xO p d)) = (Zpos (digits2_pos p) + Zpos d)%Z.
Proof.
  induction d as [|d IH] using Pos.peano_ind.
  - cbn. lia.
  - rewrite Pos.iter_succ. cbn [digits2_pos]. lia.
Qed.

Lemma iter_xO_shiftl p d : Zpos (Pos.iter xO p d) = (Zpos p * 2 ^ Zpos d)%Z.
Proof.
  induction d as [|d IH] using Pos.peano_ind.
  - cbn. lia.
  - rewrite Pos.iter_succ, Pos2Z.inj_succ, Z.pow_succ_r by lia. lia.
Qed.

Lemma digits2_pos_bound p : (Zpos p < 2 ^ Zpos (digits2_pos p) /\ 2 ^ (Zpos (digits2_pos p) - 1) <= Zpos p)%Z.
Proof.
  induction p as [p [IH1 IH2]|p [IH1 IH2]|]; cbn [digits2_pos]; [| |cbn; lia].
  all: rewrite Pos2Z.inj_succ, Z.pow_succ_r by lia.
  all: replace (Z.succ (Zpos (digits2_pos p)) - 1)%Z with (Z.succ (Zpos (digits2_pos p) - 1)) by lia.
  all: rewrite Z.pow_succ_r by lia; lia.
Qed.

Lemma digits2_pos_le p k : (0 <= k)%Z -> (Zpos p < 2 ^ k)%Z -> (Zpos (digits2_pos p) <= k)%Z.
Proof.
  intros Hk Hp. destruct (digits2_pos_bound p) as [_ H].
  assert (Zpos (digits2_pos p) - 1 < k)%Z; [|lia].
  apply (Z.pow_lt_mono_r_iff 2); lia.
Qed.

(** A full mantissa in range is already rounded. *)
Lemma binary_round_aux_full neg q e :
  Zpos (digits2_pos q) = 53%Z -> (-1074 <= e <= 971)%Z ->
  binary_round_aux f64_prec f64_emax neg (Zpos q) e loc_Exact = S754_finite neg q e.
Proof.
  intros Hq He. unfold binary_round_aux, shr_fexp.
  assert (Hfexp : (fexp f64_prec f64_emax (53 + e) - e = 0)%Z)
    by (unfold fexp, emin, f64_prec, f64_emax; lia).
  cbn [Zdigits2 shr_record_of_loc]. rewrite Hq, Hfexp.
  cbn [shr shr_m loc_of_shr_record round_nearest_even Zdigits2 shr_record_of_loc].
  rewrite Hq, Hfexp. cbn [shr shr_m].
  by replace (e <=? f64_emax - f64_prec)%Z with true
    by (symmetry; apply Z.leb_le; unfold f64_emax, f64_prec; lia).
Qed.

(** A positive integer below 2^53 is represented exactly. *)
Lemma f64_of_pos_exact p : (Zpos p < 2 ^ 53)%Z ->
  exists m e, f64_of_Z (Zpos p) = S754_finite false m e /\ (e <= 0)%Z /\
              Zpos m = (Zpos p * 2 ^ (- e))%Z.
Proof.
  intros Hp. apply digits2_pos_le in Hp as Hd; [|lia].
  unfold f64_of_Z, f64_round_dyadic, binary_normalize, binary_round.
  assert (Hfexp : fexp f64_prec f64_emax (Zpos (digits2_pos p) + 0) = (Zpos (digits2_pos p) - 53)%Z).
  { unfold fexp, emin, f64_prec, f64_emax. lia. }
  rewrite Hfexp. unfold shl_align. rewrite Z.sub_0_r.
  destruct (Zpos (digits2_pos p) - 53)%Z as [|k|k] eqn:Hk; [|lia|].
  - exists p, 0%Z. split; [|lia]. apply binary_round_aux_full; lia.
  - exists (Pos.iter xO p k), (Zneg k). split; [|split; [lia|apply iter_xO_shiftl]].
    apply binary_round_aux_full; [|lia]. rewrite digits2_pos_iter_xO. lia.
Qed.

(** Casting such an integer to [f64] and back loses nothing. *)
Lemma f64_to_u64_of_Z n : (n < 2 ^ 53)%N -> f64_to_u64 (f64_of_Z (Z.of_N n)) = n.
Proof.
  intros Hn. destruct n as [|p]; [done|]. cbn [Z.of_N].
  destruct (f64_of_pos_exact p) as (m & e & -> & He & Hm); [lia|].
  cbn [f64_to_u64]. unfold trunc_dyadic.
  assert (Hpow : (0 < 2 ^ (- e))%Z) by lia.
  replace (if (0 <=? e)%Z then Z.shiftl (Zpos m) e else (Zpos m / 2 ^ (- e))%Z) with (Zpos p).
  - unfold u64_max. cbn. lia.
  - rewrite Hm. case_match eqn:E.
    + apply Z.leb_le in E. replace e with 0%Z by lia. rewrite Z.mul_1_r. by rewrite Z.shiftl_0_r.
    + by rewrite Z.div_mul by lia.
Qed.

(** Subtracting in the other order flips the sign, so distances agree. *)
Lemma binary_round_abs neg m e :
  SFabs (binary_round f64_prec f64_emax neg m e) = SFabs (binary_round f64_prec f64_emax (negb neg) m e).
Proof.
  unfold binary_round. destruct (shl_align _ _ _) as [mz ez].
  unfold binary_round_aux. destruct (shr_fexp _ _ _ _ _) as [mrs e1].
  destruct (shr_fexp _ _ _ _ _) as [mrs2 e2]. destruct (shr_m mrs2); [done| |done].
  by destruct (_ <=? _)%Z.
Qed.

Lemma binary_normalize_abs_opp m e s :
  SFabs (binary_normalize f64_prec f64_emax (- m) e s) = SFabs (binary_normalize f64_prec f64_emax m e s).
Proof. destruct m as [|p|p]; cbn; [done|apply (binary_round_abs true)|apply (binary_round_abs false)]. Qed.

Lemma f64_distance_comm a b : f64_abs (f64_sub a b) = f64_abs (f64_sub b a).
Proof.
  unfold f64_abs, f64_sub.
  destruct a as [[]|[]| |sa ma ea], b as [[]|[]| |sb mb eb]; try done; cbn [SFsub].
  rewrite (Z.min_comm eb ea), <- binary_normalize_abs_opp. do 2 f_equal. lia.
Qed.

(** *** What is printed is valid text *)

Lemma utf8_valid_app_both a b :
  utf8_valid a = true -> utf8_valid b = true -> utf8_valid (String.append a b) = true.
Proof. intros Ha Hb. by rewrite utf8_valid_app. Qed.

Lemma utf8_valid_all_digits s : all_digits s = true -> utf8_valid s = true.
Proof.
  induction s as [|c s IH]; [done|]. cbn [all_digits]. intros [Hc Hs]%andb_true_iff.
  rewrite utf8_valid_digit; [by apply IH|]. unfold is_digit in Hc.
  apply andb_true_iff in Hc as [_ Hc]. apply N.leb_le in Hc. lia.
Qed.

Lemma utf8_valid_decimal_to_string d s : utf8_valid (decimal_to_string d s) = true.
Proof.
  unfold decimal_to_string. pose proof (all_digits_u64_to_string d) as Hd.
  set (ds := u64_to_string d) in *. case_match eqn:E1; [|case_match eqn:E2].
  - apply utf8_valid_all_digits. by rewrite all_digits_app, Hd, all_digits_zeros.
  - set (i := Z.to_nat (Z.of_nat (String.length ds) + s)). apply Z.leb_gt in E1.
    destruct (substring_split ds i) as [Ha _]; [lia|].
    rewrite <- Ha, all_digits_app in Hd. apply andb_true_iff in Hd as [Hd1 Hd2].
    apply utf8_valid_app_both; [by apply utf8_valid_all_digits|].
    apply (utf8_valid_app_both "."); [done|by apply utf8_valid_all_digits].
  - apply (utf8_valid_app_both "0."); [done|]. apply utf8_valid_all_digits.
    by rewrite all_digits_app, Hd, all_digits_zeros.
Qed.

Lemma utf8_valid_f64_to_string x : utf8_valid (f64_to_string x) = true.
Proof.
  destruct x as [s|s| |neg m e]; [by destruct s|by destruct s|done|]. cbn [f64_to_string].
  destruct (from_option id _ _) as [d s].
  apply utf8_valid_app_both; [by destruct neg|apply utf8_valid_decimal_to_string].
Qed.
#[export] Hint Resolve utf8_valid_f64_to_string : covm.

(** A float whose text reads back: every special value, and every finite one
    whose shortest decimal is found. *)
Definition prints_exactly (x : f64) : Prop :=
  match x with S754_finite _ _ _ => f64_shortest x <> None | _ => True end.

Lemma parse_f64_to_string_exact x : prints_exactly x -> parse_f64 (f64_to_string x) = Some x.
Proof.
  destruct x as [s|s| |neg m e]; intros H; try (by destruct s); [done|].
  by apply parse_f64_to_string.
Qed.

(** A text that starts with a double quote is no number. *)
Lemma parse_f64_quote s : parse_f64 (String (ascii_of_nat 34) s) = None.
Proof. reflexivity. Qed.

(** *** Numbers in JSON

    serde_json without its feature [float_roundtrip] reads a number as its
    digits, multiplied or divided by a power of ten.  That is exact for the
    decimals of at most fifteen digits and 22 places; others may come back as a
    neighbour, and numbers that are not finite are written as [null]. *)
Definition f64_is_finite (x : f64) : bool := negb (f64_is_nan x || f64_is_infinite x).
Definition short_decimal (x : f64) : Prop :=
  f64_is_finite x = true /\
  exists neg d k, (d < 10 ^ 15)%N /\ (k <= 22)%N /\ x = f64_of_decimal neg d (- Z.of_N k).

(** *** Rounding stays within a bound

    [at_most B b x]: [x] is negative, zero or not a number, or at most
    [B * 2^b].  A product or a difference whose exact value is within such a
    bound is so after rounding, because the bound is itself representable. *)
Definition at_most (B b : Z) (x : f64) : Prop :=
  match x with
  | S754_finite false m e => (e <= b)%Z /\ (Zpos m <= B * 2 ^ (b - e))%Z
  | S754_infinity false => False
  | _ => True
  end.

(** After [k] shifts of [m0]: the quotient, and whether something was lost. *)
Definition shifted (m0 k : Z) (mrs : shr_record) : Prop :=
  (0 <= k)%Z /\ (0 <= shr_m mrs)%Z /\ (shr_m mrs * 2 ^ k <= m0)%Z /\
  (shr_r mrs || shr_s mrs = true -> (shr_m mrs * 2 ^ k < m0)%Z).

Lemma shifted_1 m0 k mrs : shifted m0 k mrs -> shifted m0 (k + 1) (shr_1 mrs).
Proof.
  destruct mrs as [m r s]. unfold shifted. cbn [shr_m shr_r shr_s]. intros (Hk & Hm & Hle & Hlt).
  pose proof (Z.pow_pos_nonneg 2 k ltac:(lia) Hk). rewrite Z.pow_add_r, Z.pow_1_r by lia.
  destruct m as [|[p|p|]|p]; [| | | |lia]; cbn [shr_1 shr_m shr_r shr_s]; repeat split; try lia.
  all: intros Hlost; try (specialize (Hlt Hlost)); nia.
Qed.

Lemma shifted_iter m0 p : forall k mrs, shifted m0 k mrs -> shifted m0 (k + Zpos p) (SpecFloat.iter_pos shr_1 p mrs).
Proof.
  induction p as [p IH|p IH|]; intros k mrs H; cbn [SpecFloat.iter_pos].
  - replace (k + Zpos p~1)%Z with (k + 1 + Zpos p + Zpos p)%Z by lia. by apply IH, IH, shifted_1.
  - replace (k + Zpos p~0)%Z with (k + Zpos p + Zpos p)%Z by lia. by apply IH, IH.
  - by apply shifted_1.
Qed.

Lemma shr_shifted m e n mrs e' : (0 <= m)%Z -> shr {| shr_m := m; shr_r := false; shr_s := false |} e n = (mrs, e') ->
  shifted m (Z.max n 0) mrs /\ e' = (e + Z.max n 0)%Z.
Proof.
  intros Hm H. assert (shifted m 0 {| shr_m := m; shr_r := false; shr_s := false |}) as H0
    by (unfold shifted; cbn; repeat split; lia).
  destruct n as [|p|p]; cbn [shr] in H; injection H as <- <-; [by split; [|lia]| |by split; [|lia]].
  split; [|lia]. exact (shifted_iter m p 0 _ H0).
Qed.

Lemma round_up_lost m mrs k : shifted m k mrs ->
  (0 <= round_nearest_even (shr_m mrs) (loc_of_shr_record mrs))%Z /\
  forall c, (m <= c * 2 ^ k)%Z -> (round_nearest_even (shr_m mrs) (loc_of_shr_record mrs) <= c)%Z.
Proof.
  destruct mrs as [q r s]. unfold shifted. cbn [shr_m shr_r shr_s]. intros (Hk & Hq & Hle & Hlt).
  pose proof (Z.pow_pos_nonneg 2 k ltac:(lia) Hk).
  assert (forall c, (m <= c * 2 ^ k)%Z -> (q <= c)%Z) as Hdown by (intros c Hc; nia).
  assert (r || s = true -> forall c, (m <= c * 2 ^ k)%Z -> (q + 1 <= c)%Z) as Hup
    by (intros Hl c Hc; specialize (Hlt Hl); nia).
  destruct r, s; cbn [loc_of_shr_record round_nearest_even]; try destruct (Z.even q); split; auto; lia.
Qed.

(** The exponent that rounding picks does not pass that of the bound. *)
Lemma fexp_bounded m e B b : (0 < B < 2 ^ 53)%Z -> (-1074 <= b)%Z -> (e <= b)%Z -> (Zpos m <= B * 2 ^ (b - e))%Z ->
  (e + Z.max (fexp f64_prec f64_emax (Zdigits2 (Zpos m) + e) - e) 0 <= b)%Z.
Proof.
  intros HB Hb He Hm. assert (Zpos (digits2_pos m) <= 53 + (b - e))%Z as Hd.
  { apply digits2_pos_le; [lia|]. rewrite Z.pow_add_r by lia.
    pose proof (Z.pow_pos_nonneg 2 (b - e) ltac:(lia) ltac:(lia)). nia. }
  unfold fexp, emin, f64_prec, f64_emax. cbn [Zdigits2]. lia.
Qed.

Lemma bound_shift B b e k : (0 <= k)%Z -> (e + k <= b)%Z -> (B * 2 ^ (b - e) = B * 2 ^ (b - (e + k)) * 2 ^ k)%Z.
Proof. intros. rewrite <- Z.mul_assoc, <- Z.pow_add_r by lia. do 2 f_equal. lia. Qed.

Lemma binary_round_aux_at_most sx m e B b :
  (0 < B < 2 ^ 53)%Z -> (-1074 <= b <= 971)%Z -> (e <= b)%Z -> (Zpos m <= B * 2 ^ (b - e))%Z ->
  at_most B b (binary_round_aux f64_prec f64_emax sx (Zpos m) e loc_Exact).
Proof.
  intros HB Hb He Hm. unfold binary_round_aux, shr_fexp. cbn [shr_record_of_loc].
  pose proof (fexp_bounded m e B b HB ltac:(lia) He Hm) as He1.
  destruct (shr _ e _) as [mrs1 e1] eqn:E1. apply shr_shifted in E1 as [Hs1 ->]; [|lia].
  pose proof Hs1 as (Hk1 & _). rewrite (bound_shift B b e _ Hk1 He1) in Hm.
  destruct (round_up_lost _ _ _ Hs1) as [Hr0 Hr]. specialize (Hr _ Hm).
  set (e1 := (e + _)%Z) in *. clearbody e1.
  destruct (round_nearest_even _ _) as [|q|q]; [| |lia].
  - destruct (shr _ e1 _) as [mrs2 e2] eqn:E2. apply shr_shifted in E2 as [(Hk2 & Hm0 & Hle & _) _]; [|lia].
    pose proof (Z.pow_pos_nonneg 2 _ ltac:(lia) Hk2). by replace (shr_m mrs2) with 0%Z by nia.
  - pose proof (fexp_bounded q e1 B b HB ltac:(lia) He1 Hr) as He2.
    destruct (shr _ e1 _) as [mrs2 e2] eqn:E2. apply shr_shifted in E2 as [(Hk2 & Hm0 & Hle & _) ->]; [|lia].
    rewrite (bound_shift B b e1 _ Hk2 He2) in Hr.
    pose proof (Z.pow_pos_nonneg 2 _ ltac:(lia) Hk2).
    destruct (shr_m mrs2) as [|m2|m2]; [done| |lia].
    match goal with |- context [(?e2 <=? f64_emax - f64_prec)%Z] => assert (e2 <= f64_emax - f64_prec)%Z as Hmax end.
    { change (f64_emax - f64_prec)%Z with 971%Z. lia. }
    apply Z.leb_le in Hmax as ->. destruct sx; [done|]. split; [done|]. nia.
Qed.

Lemma binary_round_aux_negative m e B b : at_most B b (binary_round_aux f64_prec f64_emax true m e loc_Exact).
Proof.
  unfold binary_round_aux. destruct (shr_fexp _ _ _ _ _) as [mrs e1]. destruct (shr_fexp _ _ _ _ _) as [mrs2 e2].
  destruct (shr_m mrs2); [done| |done]. by destruct (_ <=? _)%Z.
Qed.

Lemma shl_align_value m e e' : let '(m', e1) := shl_align m e e' in e1 = Z.min e e' /\ Zpos m' = (Zpos m * 2 ^ (e - e1))%Z.
Proof.
  unfold shl_align. destruct (e' - e)%Z as [|p|p] eqn:E; [split; [lia|]..|].
  - rewrite Z.sub_diag. lia.
  - rewrite Z.sub_diag. lia.
  - split; [lia|]. rewrite iter_xO_shiftl. do 2 f_equal. lia.
Qed.

Lemma f64_mul_at_most mc ec x B b B' :
  at_most B b x -> (0 < B' < 2 ^ 53)%Z -> (b + ec <= 0)%Z -> (B * Zpos mc <= B' * 2 ^ (- (b + ec)))%Z ->
  at_most B' 0 (f64_mul (S754_finite false mc ec) x).
Proof.
  intros Hx HB' He Hm. destruct x as [s|[]| |[] m e]; try done; [apply binary_round_aux_negative|].
  destruct Hx as [He' Hm']. apply binary_round_aux_at_most; [done|lia|lia|]. rewrite Pos2Z.inj_mul.
  replace (0 - (ec + e))%Z with (- (b + ec) + (b - e))%Z by lia. rewrite Z.pow_add_r by lia.
  pose proof (Z.pow_pos_nonneg 2 (b - e) ltac:(lia) ltac:(lia)). nia.
Qed.

Lemma f64_to_u64_at_most B x : (0 <= B)%Z -> at_most B 0 x -> (f64_to_u64 x <= Z.to_N B)%N.
Proof.
  intros HB. destruct x as [s|[]| |[] m e]; cbn [f64_to_u64]; try lia; [done|]. intros [He Hm]. cbn in Hm.
  assert (trunc_dyadic (Zpos m) e <= B)%Z; [|lia]. unfold trunc_dyadic.
  destruct (Z.leb_spec 0 e); [assert (e = 0)%Z as -> by lia; rewrite Z.shiftl_0_r; cbn in Hm; lia|].
  replace (0 - e)%Z with (- e)%Z in Hm by lia. pose proof (Z.pow_pos_nonneg 2 (- e) ltac:(lia) ltac:(lia)).
  apply Z.div_le_upper_bound; lia.
Qed.

(** *** Random numbers

    A number from 0 up to, but not including, 1. *)
Definition in_unit_interval (x : f64) : Prop :=
  match x with
  | S754_zero _ => True
  | S754_finite false m e => (e <= 0)%Z /\ (Zpos m < 2 ^ (- e))%Z
  | _ => False
  end.

Lemma half_eq : f64_round_dyadic 1 (-1) false = S754_finite false 4503599627370496 (-53).
Proof. by vm_compute. Qed.

(** Such a number less a half is at most a half. *)
Lemma unit_minus_half x : in_unit_interval x -> at_most (2 ^ 52) (-53) (f64_sub x (f64_round_dyadic 1 (-1) false)).
Proof.
  rewrite half_eq. destruct x as [s| | |[] m e]; try done. intros [He Hm]. cbn [f64_sub SFsub].
  unfold f64_sub, SFsub. set (ez := Z.min e (-53)).
  pose proof (shl_align_value m e ez) as H1. pose proof (shl_align_value 4503599627370496 (-53) ez) as H2.
  destruct (shl_align m e ez) as [m1 e1], (shl_align 4503599627370496 (-53) ez) as [m2 e2]. cbn [fst].
  destruct H1 as [-> H1], H2 as [-> H2]. replace (Z.min e ez) with ez in H1 by lia. replace (Z.min (-53) ez) with ez in H2 by lia.
  cbn [cond_Zopp]. rewrite H1, H2. change 4503599627370496%Z with (2 ^ 52)%Z.
  set (d := (_ - _)%Z). assert (d <= 2 ^ 52 * 2 ^ (-53 - ez))%Z as Hd.
  { subst d. assert (Zpos m * 2 ^ (e - ez) <= 2 * (2 ^ 52 * 2 ^ (-53 - ez)))%Z; [|lia].
    replace (2 * (2 ^ 52 * 2 ^ (-53 - ez)))%Z with (2 ^ (- e) * 2 ^ (e - ez))%Z.
    - pose proof (Z.pow_pos_nonneg 2 (e - ez) ltac:(lia) ltac:(lia)). nia.
    - rewrite <- Z.pow_add_r by lia. rewrite <- (Z.pow_1_r 2) at 2. rewrite <- !Z.pow_add_r by lia. f_equal. lia. }
  clearbody d. destruct d as [|p|p]; [done| |].
  - unfold binary_normalize, binary_round.
    pose proof (shl_align_value p ez (fexp f64_prec f64_emax (Zpos (digits2_pos p) + ez))) as H3.
    destruct (shl_align p ez _) as [p' e']. destruct H3 as [He' H3].
    apply binary_round_aux_at_most; [lia|lia|lia|]. rewrite H3.
    replace (-53 - e')%Z with (-53 - ez + (ez - e'))%Z by lia. rewrite Z.pow_add_r by lia.
    pose proof (Z.pow_pos_nonneg 2 (ez - e') ltac:(lia) ltac:(lia)). nia.
  - unfold binary_normalize, binary_round. destruct (shl_align p ez _). apply binary_round_aux_negative.
Qed.
