(* ===== verification/Text.v ===== *)
(** * Text and dates

    What the compiler and the governance code use of Rust's [str]: Unicode white
    space, lines and words, searching, trimming and slicing, on byte strings
    that hold UTF-8.  Searched characters are ASCII, so byte positions are the
    ones Rust uses.  Case mapping beyond ASCII and chrono's dates are
    parameters. *)
From S2P Require Import Prelude Float64.

(** [c] is the character with this code. *)
Definition quote : ascii := ascii_of_nat 34.
Definition code (c : ascii) : N := N_of_ascii c.

(** ** White space *)

(** The number of bytes of the Unicode [White_Space] character a string starts
    with, if it starts with one. *)
Definition white_len (s : string) : option nat :=
  match s with
  | String a s1 =>
      if ((9 <=? code a) && (code a <=? 13) || (code a =? 32))%N then Some 1
      else if (code a <? 128)%N then None
      else
      match s1 with
      | String b s2 =>
          if ((code a =? 194) && ((code b =? 133) || (code b =? 160)))%N then Some 2 else
          match s2 with
          | String c _ =>
              if ((code a =? 225) && (code b =? 154) && (code c =? 128) ||
                  (code a =? 226) && (code b =? 128) && (128 <=? code c) && (code c <=? 138) ||
                  (code a =? 226) && (code b =? 128) && ((code c =? 168) || (code c =? 169) || (code c =? 175)) ||
                  (code a =? 226) && (code b =? 129) && (code c =? 159) ||
                  (code a =? 227) && (code b =? 128) && (code c =? 128))%N then Some 3 else None
          | EmptyString => None
          end
      | EmptyString => None
      end
  | EmptyString => None
  end.

(** [skip] bytes of a white-space character are left to drop. *)
Fixpoint trim_start_from (skip : nat) (s : string) : string :=
  match s with
  | EmptyString => EmptyString
  | String _ s' =>
      match skip with
      | S skip => trim_start_from skip s'
      | O =>
          match white_len s with
          | Some n => trim_start_from (n - 1) s'
          | None => s
          end
      end
  end.
Definition trim_start : string -> string := trim_start_from 0.

Definition is_empty (s : string) : bool := match s with EmptyString => true | _ => false end.

(** [s.trim().is_empty()]. *)
Definition is_blank (s : string) : bool := is_empty (trim_start s).

Fixpoint trim_end (s : string) : string :=
  match s with
  | EmptyString => EmptyString
  | String c s' => if is_blank s then EmptyString else String c (trim_end s')
  end.
Definition trim (s : string) : string := trim_end (trim_start s).

(** The number of white-space characters at the start. *)
Fixpoint count_white (skip : nat) (s : string) : nat :=
  match s with
  | EmptyString => 0
  | String _ s' =>
      match skip with
      | S skip => count_white skip s'
      | O =>
          match white_len s with
          | Some n => S (count_white (n - 1) s')
          | None => 0
          end
      end
  end.

(** [s.split_whitespace()], with the word read so far. *)
Fixpoint words (skip : nat) (cur s : string) : list string :=
  let close := if is_empty cur then [] else [cur] in
  match s with
  | EmptyString => close
  | String c s' =>
      match skip with
      | S skip => words skip cur s'
      | O =>
          match white_len s with
          | Some n => close ++ words (n - 1) EmptyString s'
          | None => words 0 (cur +:+ String c EmptyString) s'
          end
      end
  end.
Definition split_whitespace : string -> list string := words 0 EmptyString.

(** ** Lines and parts *)

(** [s.split(c)]: one part more than there are separators. *)
Fixpoint split_char (c : ascii) (s : string) : list string :=
  match s with
  | EmptyString => [EmptyString]
  | String a s' =>
      match split_char c s' with
      | [] => []
      | part :: parts => if Ascii.eqb a c then EmptyString :: part :: parts else String a part :: parts
      end
  end.

(** [s.splitn(2, c)]: the part before the first separator, and the rest. *)
Fixpoint split_once (c : ascii) (s : string) : option (string * string) :=
  match s with
  | EmptyString => None
  | String a s' =>
      if Ascii.eqb a c then Some (EmptyString, s')
      else '(l, r) ← split_once c s'; Some (String a l, r)
  end.

Definition newline : ascii := ascii_of_nat 10.
Definition carriage_return : ascii := ascii_of_nat 13.

Fixpoint strip_last_char (c : ascii) (s : string) : string :=
  match s with
  | EmptyString => EmptyString
  | String a EmptyString => if Ascii.eqb a c then EmptyString else s
  | String a s' => String a (strip_last_char c s')
  end.

(** What the parts between line feeds become: a carriage return before a line
    feed goes, and so does an empty last part. *)
Fixpoint close_lines (parts : list string) : list string :=
  match parts with
  | [] => []
  | [last] => if is_empty last then [] else [last]
  | part :: parts => strip_last_char carriage_return part :: close_lines parts
  end.

(** [s.lines()]. *)
Definition lines (s : string) : list string := close_lines (split_char newline s).

(** ** Searching and slicing *)

Definition contains_char (c : ascii) (s : string) : bool := bool_decide (c ∈ String.list_ascii_of_string s).

Fixpoint find_char (c : ascii) (s : string) : option nat :=
  match s with
  | EmptyString => None
  | String a s' => if Ascii.eqb a c then Some 0 else S <$> find_char c s'
  end.

Fixpoint rfind_char (c : ascii) (s : string) : option nat :=
  match s with
  | EmptyString => None
  | String a s' =>
      match rfind_char c s' with
      | Some i => Some (S i)
      | None => if Ascii.eqb a c then Some 0 else None
      end
  end.

(** [s.find(p)]. *)
Fixpoint find_str (p s : string) : option nat :=
  if str_starts_with p s then Some 0
  else match s with
       | EmptyString => None
       | String _ s' => S <$> find_str p s'
       end.

Definition drop_str (n : nat) (s : string) : string := String.substring n (String.length s) s.

(** [&s[i..j]]: panics when the range is reversed or ends past the string. *)
Definition slice {E} (i j : nat) (s : string) : res E string :=
  if (i <=? j) && (j <=? String.length s) then Ok (String.substring i (j - i) s)
  else Panic "slice index out of range".

Definition starts_with_char (c : ascii) (s : string) : bool :=
  match s with String a _ => Ascii.eqb a c | EmptyString => false end.
Fixpoint ends_with_char (c : ascii) (s : string) : bool :=
  match s with
  | EmptyString => false
  | String a EmptyString => Ascii.eqb a c
  | String _ s' => ends_with_char c s'
  end.

Definition str_ends_with (p s : string) : bool :=
  (String.length p <=? String.length s) && String.eqb (drop_str (String.length s - String.length p) s) p.

(** [s.strip_prefix(p)], and [s.trim_start_matches(p)], which repeats it. *)
Definition strip_prefix (p s : string) : option string :=
  if str_starts_with p s then Some (drop_str (String.length p) s) else None.
Fixpoint trim_start_matches_within (fuel : nat) (p s : string) : string :=
  match fuel with
  | O => s
  | S fuel =>
      match strip_prefix p s with
      | Some s' => trim_start_matches_within fuel p s'
      | None => s
      end
  end.
Definition trim_start_matches (p s : string) : string := trim_start_matches_within (String.length s) p s.

(** [s.trim_end_matches(c)] and [s.trim_matches(c)]. *)
Fixpoint trim_end_matches (c : ascii) (s : string) : string :=
  match s with
  | EmptyString => EmptyString
  | String a s' =>
      match trim_end_matches c s' with
      | EmptyString => if Ascii.eqb a c then EmptyString else String a EmptyString
      | s'' => String a s''
      end
  end.
Fixpoint trim_start_char (c : ascii) (s : string) : string :=
  match s with
  | String a s' => if Ascii.eqb a c then trim_start_char c s' else s
  | EmptyString => EmptyString
  end.
Definition trim_matches (c : ascii) (s : string) : string := trim_end_matches c (trim_start_char c s).

(** A word in double quotes without them; [&w[1..w.len() - 1]] panics on a lone
    quote. *)
Definition quoted (w : string) : bool := starts_with_char quote w && ends_with_char quote w.
Definition unquote {E} (w : string) : res E string := slice 1 (String.length w - 1) w.

(** [s.replace(c, by)]. *)
Fixpoint replace_char (c : ascii) (by_ s : string) : string :=
  match s with
  | EmptyString => EmptyString
  | String a s' => if Ascii.eqb a c then by_ +:+ replace_char c by_ s' else String a (replace_char c by_ s')
  end.

Fixpoint count_char (c : ascii) (s : string) : nat :=
  match s with
  | EmptyString => 0
  | String a s' => (if Ascii.eqb a c then 1 else 0) + count_char c s'
  end.
(** [s.split(c).count()]. *)
Definition split_count (c : ascii) (s : string) : nat := Datatypes.S (count_char c s).

(** [s.parse::<i64>()]. *)
Definition parse_i64 (s : string) : option Z :=
  match s with
  | String "-"%char d =>
      n ← parse_digits d; if (n <=? 9223372036854775808)%N then Some (- Z.of_N n)%Z else None
  | _ => Z.of_N <$> parse_uint 9223372036854775807 s
  end.

(** ** Parameters *)

Definition i64_to_string (z : Z) : string :=
  if (z <? 0)%Z then "-" +:+ u64_to_string (Z.to_N (- z)) else u64_to_string (Z.to_N z).

(** [s.strip_suffix(p)]. *)
Definition strip_suffix (p s : string) : option string :=
  if str_ends_with p s then Some (String.substring 0 (String.length s - String.length p) s) else None.

(** chrono's [DateTime<Utc>] and [Duration]: a sum or a
    duration is [None] when it overflows, which panics. *)
Class Chrono : Type := {
  DateTime : Type;
  Duration : Type;
  dt_ltb : DateTime -> DateTime -> bool;
  dt_add : DateTime -> Duration -> option DateTime;
  dt_timestamp : DateTime -> Z;
  dur_ltb : Duration -> Duration -> bool;
  minutes : Z -> option Duration;
  hours : Z -> option Duration;
  days : Z -> option Duration;
  weeks : Z -> option Duration;
}.

(** The order of dates is total, and adding a longer duration ends no earlier. *)
Class ChronoLaws `{!Chrono} : Prop := {
  dt_ltb_irrefl : forall a, dt_ltb a a = false;
  dt_ltb_trans : forall a b c, dt_ltb a b = true -> dt_ltb b c = true -> dt_ltb a c = true;
  dt_ltb_total : forall a b, dt_ltb a b = true \/ a = b \/ dt_ltb b a = true;
  dur_ltb_asym : forall a b, dur_ltb a b = true -> dur_ltb b a = false;
  dt_add_mono : forall t d d' e e', dur_ltb d' d = false -> dt_add t d = Some e -> dt_add t d' = Some e' ->
    dt_ltb e' e = false;
}.

(** [str::to_lowercase]: ASCII letters are mapped as one expects; the other
    characters are mapped by the Unicode tables, which are a parameter, as is the
    text of [FromUtf8Error]. *)
Class Unicode : Type := {
  to_lowercase : string -> string;
  to_lowercase_ascii : forall s,
    forallb (fun c => (N_of_ascii c <? 128)%N) (String.list_ascii_of_string s) = true ->
    to_lowercase s = str_ascii_lower s;
  utf8_error : bytes -> string;
}.

(** ** Lemmas *)

Lemma count_char_app c a b : count_char c (String.append a b) = count_char c a + count_char c b.
Proof. induction a as [|x a IH]; [done|]. rewrite str_app_cons. cbn. rewrite IH. lia. Qed.

Lemma forallb_ascii_app (a b : string) (P : ascii -> bool) :
  forallb P (String.list_ascii_of_string (String.append a b)) =
  forallb P (String.list_ascii_of_string a) && forallb P (String.list_ascii_of_string b).
Proof. induction a as [|x a IH]; [done|]. rewrite str_app_cons. cbn. by rewrite IH, andb_assoc. Qed.

Lemma all_digits_ascii s : all_digits s = true ->
  forallb (fun c => (N_of_ascii c <? 128)%N) (String.list_ascii_of_string s) = true /\ str_ascii_lower s = s.
Proof.
  induction s as [|c s IH]; [done|]. cbn. intros [Hc Hs]%andb_prop. destruct (IH Hs) as [H1 H2].
  rewrite H1, H2, ascii_lower_digit by done. split; [|done]. unfold is_digit in Hc.
  apply andb_prop in Hc as [_ Hc]. apply N.leb_le in Hc. rewrite andb_true_r. apply N.ltb_lt. lia.
Qed.

Lemma str_ascii_lower_app a b : str_ascii_lower (String.append a b) = String.append (str_ascii_lower a) (str_ascii_lower b).
Proof. induction a as [|x a IH]; [done|]. rewrite !str_app_cons. cbn. by rewrite IH. Qed.

Lemma strip_prefix_app p s : strip_prefix p (String.append p s) = Some s.
Proof.
  unfold strip_prefix, drop_str. rewrite str_starts_with_app, length_str_app. f_equal.
  assert (String.length s <= String.length p + String.length s) as Hle by lia.
  revert Hle. generalize (String.length p + String.length s). intros m Hle.
  induction p as [|c p IH]; [|by rewrite str_app_cons].
  change (String.append EmptyString s) with s. cbn [String.length].
  revert m Hle. induction s as [|c s IH]; intros m Hle; [by destruct m|].
  destruct m as [|m]; cbn in Hle |- *; [lia|]. by rewrite IH by lia.
Qed.

(** Dates and durations in seconds, for the concrete runs. *)
Module ClockSamples.

#[local] Instance seconds : Chrono :=
  {| DateTime := Z; Duration := Z; dt_ltb := Z.ltb; dt_add := fun t d => Some (t + d)%Z;
     dt_timestamp := fun t => t; dur_ltb := Z.ltb; minutes := fun n => Some (n * 60)%Z;
     hours := fun n => Some (n * 3600)%Z; days := fun n => Some (n * 86400)%Z; weeks := fun n => Some (n * 604800)%Z |}.
Lemma seconds_laws : ChronoLaws.
Proof.
  split; cbn; intros; repeat match goal with
  | H : Some _ = Some _ |- _ => injection H as <-
  | H : Z.ltb _ _ = true |- _ => apply Z.ltb_lt in H
  | H : Z.ltb _ _ = false |- _ => apply Z.ltb_ge in H
  end; rewrite ?Z.ltb_lt, ?Z.ltb_ge; try lia.
Qed.

End ClockSamples.
