(* ===== verification/Values.v ===== *)
(** * Typed values: src/crates/icn-covm/src/typed.rs

    [TypedValue] with its coercions, arithmetic, comparison and logic, and the
    [Display] and [describe] renderings.  The operations return the source's
    [TypedValueError]; none of them panics except [describe], which slices a
    long string at byte 77. *)
From S2P Require Import Prelude Float64.
From Stdlib Require Import SpecFloat.

Module TypedValueError.

Inductive t : Type :=
  | TypeMismatch (expected found : string)
  | InvalidOperationForType (op types : string)
  | CoercionError (from to : string)
  | ValueOutOfBounds.

#[export] Instance eq_dec : EqDecision t.
Proof. solve_decision. Defined.

(** [thiserror] messages. *)
Definition display (e : t) : string :=
  match e with
  | TypeMismatch expected found =>
      "Type mismatch: expected " +:+ expected +:+ ", found " +:+ found
  | InvalidOperationForType op types =>
      "Invalid operation " +:+ op +:+ " for types " +:+ types
  | CoercionError from to => "Cannot coerce from " +:+ from +:+ " to " +:+ to
  | ValueOutOfBounds => "Value out of bounds"
  end.

End TypedValueError.

Module TypedValue.

Inductive t : Type :=
  | Number (n : f64)
  | Boolean (b : bool)
  | String (s : string)
  | Null.

#[export] Instance eq_dec : EqDecision t.
Proof. solve_decision. Defined.

Abbreviation error := TypedValueError.t (only parsing).

Definition type_name (v : t) : string :=
  match v with
  | Number _ => "Number"
  | Boolean _ => "Boolean"
  | String _ => "String"
  | Null => "Null"
  end.

Definition str_is_empty (s : string) : bool := String.eqb s EmptyString.

Definition is_falsey (v : t) : bool :=
  match v with
  | Number n => f64_eqb n f64_zero
  | Boolean b => negb b
  | String s => str_is_empty s
  | Null => true
  end.

Definition bool_to_string (b : bool) : string := if b then "true" else "false".

Definition as_number (v : t) : res error f64 :=
  match v with
  | Number n => Ok n
  | Boolean b => Ok (if b then f64_one else f64_zero)
  | String s =>
      match parse_f64 s with
      | Some n => Ok n
      | None => Err (TypedValueError.CoercionError "String" "Number")
      end
  | Null => Ok f64_zero
  end.

Definition as_boolean (v : t) : res error bool :=
  match v with
  | Number n => Ok (negb (f64_eqb n f64_zero))
  | Boolean b => Ok b
  | String s => Ok (negb (str_is_empty s))
  | Null => Ok false
  end.

Definition as_string (v : t) : res error string :=
  match v with
  | Number n => Ok (f64_to_string n)
  | Boolean b => Ok (bool_to_string b)
  | String s => Ok s
  | Null => Ok "null"
  end.

Definition add (self other : t) : res error t :=
  match self, other with
  | Number a, Number b => Ok (Number (f64_add a b))
  | String a, String b => Ok (String (a +:+ b))
  | String a, b => b_str ← as_string b; Ok (String (a +:+ b_str))
  | a, String b => a_str ← as_string a; Ok (String (a_str +:+ b))
  | _, _ =>
      a_num ← as_number self; b_num ← as_number other;
      Ok (Number (f64_add a_num b_num))
  end.

Definition sub (self other : t) : res error t :=
  a_num ← as_number self; b_num ← as_number other;
  Ok (Number (f64_sub a_num b_num)).

Definition repeat_string (s : string) (n : f64) : res error t :=
  let repeat := f64_to_u64 n in
  if (1000 <? repeat)%N then Err TypedValueError.ValueOutOfBounds
  else Ok (String (str_repeat (N.to_nat repeat) s)).

Definition mul (self other : t) : res error t :=
  match self, other with
  | Number a, Number b => Ok (Number (f64_mul a b))
  | String s, Number n | Number n, String s => repeat_string s n
  | _, _ =>
      a_num ← as_number self; b_num ← as_number other;
      Ok (Number (f64_mul a_num b_num))
  end.

Definition div (self other : t) : res error t :=
  a_num ← as_number self; b_num ← as_number other;
  if f64_eqb b_num f64_zero then
    Err (TypedValueError.InvalidOperationForType "division" "by zero")
  else Ok (Number (f64_div a_num b_num)).

Definition modulo (self other : t) : res error t :=
  a_num ← as_number self; b_num ← as_number other;
  if f64_eqb b_num f64_zero then
    Err (TypedValueError.InvalidOperationForType "modulo" "by zero")
  else Ok (Number (f64_rem a_num b_num)).

Definition equals (self other : t) : res error t :=
  match self, other with
  | Number a, Number b => Ok (Boolean (f64_ltb (f64_abs (f64_sub a b)) f64_epsilon))
  | Boolean a, Boolean b => Ok (Boolean (Bool.eqb a b))
  | String a, String b => Ok (Boolean (String.eqb a b))
  | Null, Null => Ok (Boolean true)
  | Null, _ | _, Null => Ok (Boolean false)
  | _, _ =>
      a_str ← as_string self; b_str ← as_string other;
      Ok (Boolean (String.eqb a_str b_str))
  end.

(** Rust compares strings byte by byte. *)
Definition str_ltb (a b : string) : bool :=
  match String.compare a b with Lt => true | _ => false end.

Definition greater_than (self other : t) : res error t :=
  match self, other with
  | Number a, Number b => Ok (Boolean (f64_ltb b a))
  | String a, String b => Ok (Boolean (str_ltb b a))
  | _, _ =>
      a_num ← as_number self; b_num ← as_number other;
      Ok (Boolean (f64_ltb b_num a_num))
  end.

Definition less_than (self other : t) : res error t :=
  match self, other with
  | Number a, Number b => Ok (Boolean (f64_ltb a b))
  | String a, String b => Ok (Boolean (str_ltb a b))
  | _, _ =>
      a_num ← as_number self; b_num ← as_number other;
      Ok (Boolean (f64_ltb a_num b_num))
  end.

Definition logical_not (self : t) : res error t :=
  b ← as_boolean self; Ok (Boolean (negb b)).

Definition logical_and (self other : t) : res error t :=
  a ← as_boolean self; b ← as_boolean other; Ok (Boolean (a && b)).

Definition logical_or (self other : t) : res error t :=
  a ← as_boolean self; b ← as_boolean other; Ok (Boolean (a || b)).

(** The double quote and the line feed, by code. *)
Definition dquote : string := Strings.String.String (ascii_of_nat 34) EmptyString.
Definition newline : string := Strings.String.String (ascii_of_nat 10) EmptyString.

(** [&s[..n]] panics inside a UTF-8 sequence. *)
Definition str_slice_to (n : nat) (s : string) : res error string :=
  match String.get n s with
  | Some c =>
      if utf8_cont c then Panic "byte index is not a char boundary"
      else Ok (String.substring 0 n s)
  | None =>
      if Nat.eqb n (String.length s) then Ok s else Panic "byte index is out of bounds"
  end.

Definition describe (v : t) : res error string :=
  match v with
  | Number n =>
      let million := f64_of_Z 1000000 in
      let tiny := f64_of_decimal false 1 (-4) in
      Ok (if f64_eqb (f64_fract n) f64_zero && f64_ltb (f64_abs n) million then
            let i := f64_to_i64 (f64_trunc n) in
            "Number(" +:+ sign_string (i <? 0)%Z +:+ u64_to_string (Z.to_N (Z.abs i)) +:+ ")"
          else if f64_ltb million (f64_abs n) || f64_ltb (f64_abs n) tiny then
            "Number(" +:+ f64_to_exp_string n +:+ ")"
          else
            let precision := if f64_eqb (f64_fract n) f64_zero then 0%Z else 6%Z in
            "Number(" +:+ f64_to_fixed precision n +:+ ")")
  | Boolean b => Ok ("Boolean(" +:+ bool_to_string b +:+ ")")
  | String s =>
      if str_contains newline s then
        Ok ("String(" +:+ newline +:+ "'''" +:+ newline +:+ s +:+ newline +:+ "''')")
      else if (80 <? str_len s)%N then
        head ← str_slice_to 77 s;
        Ok ("String(" +:+ dquote +:+ head +:+ "..." +:+ dquote +:+ " [" +:+
            u64_to_string (str_len s) +:+ " chars])")
      else Ok ("String(" +:+ dquote +:+ s +:+ dquote +:+ ")")
  | Null => Ok "Null"
  end.

Definition as_u64_safe (self : t) (operation : string) : res error N :=
  num ← as_number self;
  if f64_is_sign_negative num || f64_is_nan num || f64_is_infinite num
     || f64_ltb (f64_of_Z (Z.of_N u64_max)) num
  then Err TypedValueError.ValueOutOfBounds
  else Ok (f64_to_u64 (f64_round num)).

Definition as_f64_safe (self : t) : res error f64 := as_number self.

(** [impl Display for TypedValue]. *)
Definition to_string (v : t) : string :=
  match v with
  | Number n => f64_to_string n
  | Boolean b => bool_to_string b
  | String s => dquote +:+ s +:+ dquote
  | Null => "null"
  end.

(** The derived [PartialEq]: bitwise on everything but floats, IEEE on floats. *)
Definition eq (a b : t) : bool :=
  match a, b with
  | Number x, Number y => f64_eqb x y
  | Boolean x, Boolean y => Bool.eqb x y
  | String x, String y => String.eqb x y
  | Null, Null => true
  | _, _ => false
  end.

(** ** Properties *)

(** A value is a number or coerces to one, or it is a string that does not
    read as a number: the only way an arithmetic coercion fails. *)
Definition numeric (v : t) : bool :=
  match v with
  | String s => bool_decide (is_Some (parse_f64 s))
  | _ => true
  end.

Lemma as_number_numeric v : numeric v = true -> exists n, as_number v = Ok n.
Proof.
  destruct v as [n|b|s|]; cbn; eauto. rewrite bool_decide_eq_true.
  intros [n ->]. eauto.
Qed.

Lemma as_number_not_numeric v : numeric v = false ->
  as_number v = Err (TypedValueError.CoercionError "String" "Number").
Proof.
  destruct v as [n|b|s|]; cbn; try done. rewrite bool_decide_eq_false.
  destruct (parse_f64 s); [|done]. intros []. by eexists.
Qed.

Lemma as_boolean_total v : as_boolean v = Ok (negb (is_falsey v)).
Proof. destruct v as [n|b|s|]; cbn; by rewrite ?negb_involutive. Qed.

Lemma as_string_total v : exists s, as_string v = Ok s.
Proof. destruct v; cbn; eauto. Qed.

Lemma str_repeat_length n s : String.length (str_repeat n s) = n * String.length s.
Proof.
  induction n as [|n IH]; [done|]. rewrite str_repeat_S, length_str_app, IH. lia.
Qed.

(** Equality never fails and does not depend on the order of its operands. *)
Theorem equals_total_symmetric a b :
  exists r, equals a b = Ok (Boolean r) /\ equals b a = Ok (Boolean r).
Proof.
  destruct a as [x|x|x|], b as [y|y|y|]; cbn; eexists; (split; [reflexivity|]).
  all: do 2 f_equal; first [done | by rewrite f64_distance_comm | apply String.eqb_sym | by destruct x, y].
Qed.

(** Division and remainder: a result exactly when both operands are numeric
    and the divisor is not zero; the left operand's coercion error, then the
    right one's, then the division error. *)
Theorem div_modulo_outcome a b :
  match as_number a, as_number b with
  | Ok x, Ok y =>
      if f64_eqb y f64_zero then
        div a b = Err (TypedValueError.InvalidOperationForType "division" "by zero") /\
        modulo a b = Err (TypedValueError.InvalidOperationForType "modulo" "by zero")
      else div a b = Ok (Number (f64_div x y)) /\ modulo a b = Ok (Number (f64_rem x y))
  | _, _ => (numeric a && numeric b)%bool = false /\
            div a b = Err (TypedValueError.CoercionError "String" "Number") /\
            modulo a b = Err (TypedValueError.CoercionError "String" "Number")
  end.
Proof.
  unfold div, modulo.
  destruct (numeric a) eqn:Ha; [apply as_number_numeric in Ha as [x ->]|
                                apply as_number_not_numeric in Ha as ->; done].
  destruct (numeric b) eqn:Hb; [apply as_number_numeric in Hb as [y ->]|
                                apply as_number_not_numeric in Hb as ->; done].
  cbn. by destruct (f64_eqb y f64_zero).
Qed.

(** Multiplying a string and a number repeats the string at most 1000 times. *)
Theorem mul_string_bounded s n v :
  mul (String s) (Number n) = Ok v ->
  exists r, v = String r /\ mul (Number n) (String s) = Ok v /\
    (str_len r = f64_to_u64 n * str_len s)%N /\ (str_len r <= 1000 * str_len s)%N.
Proof.
  cbn [mul]. unfold repeat_string. case_match eqn:E; [done|]. intros [= <-].
  apply N.ltb_ge in E. eexists. do 2 (split; [done|]).
  assert (str_len (str_repeat (N.to_nat (f64_to_u64 n)) s) = f64_to_u64 n * str_len s)%N as ->.
  { unfold str_len. rewrite str_repeat_length. lia. }
  split; [done|]. by apply N.mul_le_mono_r.
Qed.

Lemma mul_string_bounded_witness :
  exists r, String "ababab" = String r /\ mul (Number (f64_of_Z 3)) (String "ab") = Ok (String "ababab") /\
    (str_len r = f64_to_u64 (f64_of_Z 3) * str_len "ab")%N /\ (str_len r <= 1000 * str_len "ab")%N.
Proof. apply (mul_string_bounded "ab" (f64_of_Z 3)). vm_compute. reflexivity. Defined.

End TypedValue.
