(* ===== verification/Ops.v ===== *)
(** * Errors and operations

    [StorageError] and its messages (storage/errors.rs), [VMError] with its
    conversions (vm/errors.rs), and the operation type of the machine with its
    rendering and the events it logs (vm/types.rs). *)
From S2P Require Import Prelude Float64 Values.

Module StorageError.

Inductive t : Type :=
  | AuthenticationError (details : string)
  | PermissionDenied (user_id action key : string)
  | NotFound (key : string)
  | TransactionError (details : string)
  | ConflictError (resource details : string)
  | ConnectionError (backend details : string)
  | SerializationError (data_type details : string)
  | InvalidDataFormat (expected received details : string)
  | QuotaExceeded (limit_type : string) (current maximum : N)
  | TimeoutError (operation : string) (timeout_secs : N)
  | ResourceLocked (resource details : string)
  | ValidationError (rule details : string)
  | TimeError (details : string)
  | IoError (operation details : string)
  | IOError (operation details : string)
  | SchemaVersionError (current_version required_version details : string)
  | Other (details : string)
  | ResourceNotFound (key : string)
  | InsufficientBalance (reason : string)
  | VersionConflict (current expected : N) (resource : string).

#[export] Instance eq_dec : EqDecision t.
Proof. solve_decision. Defined.

(** [impl Display for StorageError]. *)
Definition to_string (e : t) : string :=
  match e with
  | AuthenticationError details => "Authentication error: " +:+ details
  | PermissionDenied user_id action key =>
      "Permission denied for user '" +:+ user_id +:+ "' to perform '" +:+ action +:+
      "' on '" +:+ key +:+ "'"
  | NotFound key => "Key not found: " +:+ key
  | TransactionError details => "Transaction error: " +:+ details
  | ConflictError resource details =>
      "Conflict error on resource '" +:+ resource +:+ "': " +:+ details
  | ConnectionError backend details =>
      "Connection error to backend '" +:+ backend +:+ "': " +:+ details
  | SerializationError data_type details =>
      "Serialization error for " +:+ data_type +:+ ": " +:+ details
  | InvalidDataFormat expected received details =>
      "Invalid data format: expected " +:+ expected +:+ ", received " +:+ received +:+
      ": " +:+ details
  | QuotaExceeded limit_type current maximum =>
      limit_type +:+ " quota exceeded: " +:+ u64_to_string current +:+ " of " +:+
      u64_to_string maximum +:+ " used"
  | TimeoutError operation timeout_secs =>
      "Operation '" +:+ operation +:+ "' timed out after " +:+ u64_to_string timeout_secs +:+
      " seconds"
  | ResourceLocked resource details => "Resource '" +:+ resource +:+ "' is locked: " +:+ details
  | ValidationError rule details =>
      "Validation failed for rule '" +:+ rule +:+ "': " +:+ details
  | TimeError details => "Time error: " +:+ details
  | SchemaVersionError current_version required_version details =>
      "Schema version error: current " +:+ current_version +:+ ", required " +:+
      required_version +:+ ": " +:+ details
  | Other details => "Storage error: " +:+ details
  | IoError operation details | IOError operation details =>
      "IO error: " +:+ details +:+ " (" +:+ operation +:+ ")"
  | ResourceNotFound key => "Resource not found: " +:+ key
  | InsufficientBalance reason => "Insufficient balance: " +:+ reason
  | VersionConflict current expected resource =>
      "Version conflict: current " +:+ u64_to_string current +:+ ", expected " +:+
      u64_to_string expected +:+ ": " +:+ resource
  end.

End StorageError.

Module VMError.

Inductive t : Type :=
  | StorageUnavailable
  | InvalidSignature (identity_id reason : string)
  | UndefinedOperation (op : string)
  | DivisionByZero
  | StackUnderflow
  | RegisterError (s : string)
  | InvalidBytecode (s : string)
  | Deserialization (s : string)
  | TransactionError (s : string)
  | SyntaxError (s : string)
  | ValidationError (s : string)
  | ArithmeticError (s : string)
  | AccountNotFound (s : string)
  | UndefinedState (s : string)
  | StepLimitExceeded (steps : N)
  | StackOverflow (depth : N)
  | NamespaceError (s : string)
  | AuthorizationError (s : string)
  | GovernanceError (s : string)
  | ParseError (s : string)
  | ContextMismatch (s : string)
  | MemoryLimitExceeded (attempted_allocation max_allowed : N)
  | LoopLimitExceeded (iterations max_allowed : N)
  | TimeoutError (s : string)
  | TimeError (s : string)
  | IoError (details : string)
  | PolicyViolation (s : string)
  | StorageError (details : string)
  | Other (s : string)
  | NotImplemented (s : string)
  | AssertionFailed (message : string)
  | StorageNotAvailable
  | VariableNotFound (s : string)
  | FunctionNotFound (s : string)
  | ParameterNotFound (s : string)
  | IdentityContextUnavailable
  | PermissionDenied (user action resource : string)
  | TypeMismatch (expected found operation : string)
  | InvalidOperation (operation : string)
  | ResourceNotFound (resource namespace : string)
  | ResourceAlreadyExists (resource namespace : string)
  | InsufficientBalance (resource account : string) (required available : f64)
  | InvalidAmount (amount : f64)
  | IdentityNotFound (identity_id : string)
  | InvalidIdentity (reason : string)
  | VersionNotFound (key : string) (version : N)
  | ConfigurationError (details : string)
  | InvalidFormat (reason : string)
  | NoStorageBackend
  | SerializationError (details : string)
  | TypedValueError (s : string)
  | TypeError (expected found op_name : string)
  | UndefinedVariable (name : string)
  | UndefinedFunction (name : string)
  | UndefinedParameter (name : string).

#[export] Instance eq_dec : EqDecision t.
Proof. solve_decision. Defined.

(** [Display], from the [#[error]] attributes of thiserror. *)
Definition to_string (e : t) : string :=
  match e with
  | StorageUnavailable => "Storage backend not available"
  | InvalidSignature identity_id reason =>
      "Invalid signature for identity " +:+ identity_id +:+ ": " +:+ reason
  | UndefinedOperation op => "Undefined operation: " +:+ op
  | DivisionByZero => "Division by zero"
  | StackUnderflow => "Stack underflow"
  | RegisterError s => "Register error: " +:+ s
  | InvalidBytecode s => "Invalid bytecode: " +:+ s
  | Deserialization s => "Deserialization error: " +:+ s
  | TransactionError s => "Transaction error: " +:+ s
  | SyntaxError s => "Syntax error: " +:+ s
  | ValidationError s => "Validation error: " +:+ s
  | ArithmeticError s => "Arithmetic error: " +:+ s
  | AccountNotFound s => "Account not found: " +:+ s
  | UndefinedState s => "Undefined state: " +:+ s
  | StepLimitExceeded steps => "Step limit exceeded: " +:+ u64_to_string steps +:+ " steps"
  | StackOverflow depth => "Stack overflow at depth " +:+ u64_to_string depth
  | NamespaceError s => "Namespace error: " +:+ s
  | AuthorizationError s => "Authorization error: " +:+ s
  | GovernanceError s => "Governance error: " +:+ s
  | ParseError s => "Parse error: " +:+ s
  | ContextMismatch s => "Context mismatch: " +:+ s
  | MemoryLimitExceeded attempted_allocation max_allowed =>
      "Memory limit exceeded: attempted " +:+ u64_to_string attempted_allocation +:+ " bytes, max allowed " +:+ u64_to_string max_allowed
  | LoopLimitExceeded iterations max_allowed =>
      "Loop limit exceeded: " +:+ u64_to_string iterations +:+ " iterations, max allowed " +:+ u64_to_string max_allowed
  | TimeoutError s => "Timeout: " +:+ s
  | TimeError s => "Time error: " +:+ s
  | IoError details => "IO error: " +:+ details
  | PolicyViolation s => "Policy violation: " +:+ s
  | StorageError details => "Storage error: " +:+ details
  | Other s => "VM error: " +:+ s
  | NotImplemented s => "Operation not implemented: " +:+ s
  | AssertionFailed message => "Assertion failed: " +:+ message
  | StorageNotAvailable => "Storage backend not available"
  | VariableNotFound s => "Variable not found: " +:+ s
  | FunctionNotFound s => "Function not found: " +:+ s
  | ParameterNotFound s => "Parameter not found: " +:+ s
  | IdentityContextUnavailable => "Identity context not available"
  | PermissionDenied user action resource =>
      "Permission denied for " +:+ user +:+ " to " +:+ action +:+ " on " +:+ resource
  | TypeMismatch expected found operation =>
      "Type mismatch in operation " +:+ operation +:+ ": expected " +:+ expected +:+ ", found " +:+ found
  | InvalidOperation operation => "Invalid operation: " +:+ operation
  | ResourceNotFound resource namespace =>
      "Resource " +:+ resource +:+ " not found in namespace " +:+ namespace
  | ResourceAlreadyExists resource namespace =>
      "Resource " +:+ resource +:+ " already exists in namespace " +:+ namespace
  | InsufficientBalance resource account required available =>
      "Insufficient balance for account " +:+ account +:+ " in resource " +:+ resource +:+ ": required " +:+ f64_to_string required +:+ ", available " +:+ f64_to_string available
  | InvalidAmount amount => "Invalid amount: " +:+ f64_to_string amount
  | IdentityNotFound identity_id => "Identity not found: " +:+ identity_id
  | InvalidIdentity reason => "Invalid identity: " +:+ reason
  | VersionNotFound key version => "Version " +:+ u64_to_string version +:+ " not found for key " +:+ key
  | ConfigurationError details => "Configuration error: " +:+ details
  | InvalidFormat reason => "Invalid format: " +:+ reason
  | NoStorageBackend => "No storage backend available"
  | SerializationError details => "Serialization error: " +:+ details
  | TypedValueError s => "TypedValue error: " +:+ s
  | TypeError expected found op_name =>
      "Type error in " +:+ op_name +:+ ": expected " +:+ expected +:+ ", found " +:+ found
  | UndefinedVariable name => "Undefined variable: " +:+ name
  | UndefinedFunction name => "Undefined function: " +:+ name
  | UndefinedParameter name => "Undefined parameter: " +:+ name
  end.

(** [impl From<StorageError> for VMError]. *)
Definition from_storage_error (err : StorageError.t) : t :=
  match err with
  | StorageError.AuthenticationError details => InvalidSignature "unknown" details
  | StorageError.PermissionDenied user_id action key => PermissionDenied user_id action key
  | StorageError.NotFound key => ResourceNotFound key "unknown"
  | StorageError.ResourceNotFound resource => ResourceNotFound resource "unknown"
  | StorageError.TransactionError details => TransactionError details
  | StorageError.InsufficientBalance details => StorageError ("Insufficient balance: " +:+ details)
  | StorageError.ValidationError rule details =>
      ValidationError ("Validation failed for rule '" +:+ rule +:+ "': " +:+ details)
  | StorageError.IoError operation details | StorageError.IOError operation details =>
      StorageError ("IO error during '" +:+ operation +:+ "': " +:+ details)
  | StorageError.TimeError details => TimeError details
  | StorageError.ConflictError resource details =>
      StorageError ("Conflict error on resource '" +:+ resource +:+ "': " +:+ details)
  | StorageError.ConnectionError backend details =>
      StorageError ("Connection error to backend '" +:+ backend +:+ "': " +:+ details)
  | StorageError.SerializationError data_type details =>
      SerializationError ("Serialization error for " +:+ data_type +:+ ": " +:+ details)
  | StorageError.VersionConflict current expected resource =>
      StorageError ("Version conflict on '" +:+ resource +:+ "': current " +:+
        u64_to_string current +:+ ", expected " +:+ u64_to_string expected)
  | StorageError.ResourceLocked resource details =>
      StorageError ("Resource '" +:+ resource +:+ "' is locked: " +:+ details)
  | StorageError.SchemaVersionError current_version required_version details =>
      StorageError ("Schema version error: current " +:+ current_version +:+ ", required " +:+
        required_version +:+ ": " +:+ details)
  | StorageError.TimeoutError operation timeout_secs =>
      TimeoutError ("Operation '" +:+ operation +:+ "' timed out after " +:+
        u64_to_string timeout_secs +:+ " seconds")
  | StorageError.QuotaExceeded limit_type current maximum =>
      StorageError (limit_type +:+ " quota exceeded: " +:+ u64_to_string current +:+ " of " +:+
        u64_to_string maximum +:+ " used")
  | StorageError.InvalidDataFormat expected received details =>
      InvalidFormat ("Invalid data format: expected " +:+ expected +:+ ", received " +:+
        received +:+ ": " +:+ details)
  | StorageError.Other details => Other details
  end.

(** [impl From<TypedValueError> for VMError]. *)
Definition from_typed_value_error (err : TypedValueError.t) : t :=
  match err with
  | TypedValueError.TypeMismatch expected found => TypeMismatch expected found "unknown"
  | TypedValueError.InvalidOperationForType op types => InvalidOperation (op +:+ " on " +:+ types)
  | TypedValueError.CoercionError from to => TypeMismatch to from "coercion"
  | TypedValueError.ValueOutOfBounds => InvalidAmount (f64_of_Z (-1))
  end.

End VMError.

Module Op.

(** [chrono::Duration] is a number of nanoseconds. *)
Inductive t : Type :=
  | Push (v : TypedValue.t)
  | Add
  | Sub
  | Mul
  | Div
  | Mod
  | Store (name : string)
  | Load (name : string)
  | If (condition then_ : list t) (else_ : option (list t))
  | Loop (count : N) (body : list t)
  | While (condition body : list t)
  | Emit (msg : string)
  | Negate
  | AssertTop (v : TypedValue.t)
  | DumpStack
  | DumpMemory
  | AssertMemory (key : string) (expected : TypedValue.t)
  | Pop
  | Eq
  | Gt
  | Lt
  | Not
  | And
  | Or
  | Dup
  | Swap
  | Over
  | Def (name : string) (params : list string) (body : list t)
  | Call (name : string)
  | Return
  | Nop
  | Match (value : list t) (cases : list (TypedValue.t * list t)) (default : option (list t))
  | Break
  | Continue
  | EmitEvent (category message : string)
  | AssertEqualStack (depth : N)
  | DumpState
  | RankedVote (candidates ballots : N)
  | LiquidDelegate (from to : string)
  | VoteThreshold (threshold : f64)
  | QuorumThreshold (threshold : f64)
  | MinDeliberation (period : Z)
  | ExpiresIn (period : Z)
  | RequireRole (role : string)
  | StoreP (key : string)
  | LoadP (key : string)
  | LoadVersionP (key : string) (version : N)
  | ListVersionsP (key : string)
  | DiffVersionsP (key : string) (v1 v2 : N)
  | VerifyIdentity (identity_id message signature : string)
  | CheckMembership (identity_id namespace : string)
  | CheckDelegation (delegator_id delegate_id : string)
  | VerifySignature
  | CreateResource (resource : string)
  | Mint (resource account : string) (amount : f64) (reason : option string)
  | Transfer (resource from to : string) (amount : f64) (reason : option string)
  | Burn (resource account : string) (amount : f64) (reason : option string)
  | Balance (resource account : string)
  | GetIdentity (identity_id : string)
  | RequireValidSignature (voter message signature : string)
  | IfPassed (body : list t)
  | Else (body : list t)
  | IncrementReputation (identity_id : string) (amount : option f64) (reason : option string)
  | Macro (name : string).

(** The blocks inside an operation, and induction over them. *)
Definition blocks (op : t) : list (list t) :=
  match op with
  | If condition then_ else_ => condition :: then_ :: match else_ with Some b => [b] | None => [] end
  | Loop _ body | Def _ _ body | IfPassed body | Else body => [body]
  | While condition body => [condition; body]
  | Match value cases default => value :: cases.*2 ++ match default with Some b => [b] | None => [] end
  | _ => []
  end.

Lemma blocks_ind (P : t -> Prop) :
  (forall op, (forall b, b ∈ blocks op -> Forall P b) -> P op) -> forall op, P op.
Proof.
  intros H. fix IH 1.
  pose (all := fix go (l : list t) : Forall P l :=
          match l with [] => Forall_nil_2 P | o :: l' => Forall_cons_2 P o l' (IH o) (go l') end).
  intros op. apply H.
  destruct op; intros b Hb; cbn [blocks] in Hb; try exact (False_ind _ (not_elem_of_nil _ Hb)).
  1: { destruct else_ as [e|]; repeat (apply elem_of_cons in Hb as [->|Hb]; [apply all|]);
      exact (False_ind _ (not_elem_of_nil _ Hb)). }
  1: { apply elem_of_cons in Hb as [->|Hb]; [apply all|exact (False_ind _ (not_elem_of_nil _ Hb))]. }
  1: { do 2 (apply elem_of_cons in Hb as [->|Hb]; [apply all|]). exact (False_ind _ (not_elem_of_nil _ Hb)). }
  1: { apply elem_of_cons in Hb as [->|Hb]; [apply all|exact (False_ind _ (not_elem_of_nil _ Hb))]. }
  1: { apply elem_of_cons in Hb as [->|Hb]; [apply all|]. apply elem_of_app in Hb as [Hb|Hb].
       - induction cases as [|[v c] cases IHc]; [exact (False_ind _ (not_elem_of_nil _ Hb))|].
         apply elem_of_cons in Hb as [->|Hb]; [apply all|exact (IHc Hb)].
       - destruct default as [e|]; [|exact (False_ind _ (not_elem_of_nil _ Hb))].
         apply elem_of_cons in Hb as [->|Hb]; [apply all|exact (False_ind _ (not_elem_of_nil _ Hb))]. }
  all: apply elem_of_cons in Hb as [->|Hb]; [apply all|exact (False_ind _ (not_elem_of_nil _ Hb))].
Qed.

Section Display.

(** [{:?}] of a [chrono::Duration] and of an [Option<f64>]. *)
Context (debug_duration : Z -> string) (debug_option_f64 : option f64 -> string).

Definition paren (name arg : string) : string := name +:+ "(" +:+ arg +:+ ")".

(** [impl Display for Op]. *)
Definition to_string (op : t) : string :=
  match op with
  | Push v => paren "Push" (TypedValue.to_string v)
  | Add => "Add"
  | Sub => "Sub"
  | Mul => "Mul"
  | Div => "Div"
  | Mod => "Mod"
  | Store name => paren "Store" name
  | Load name => paren "Load" name
  | If _ _ _ => "If"
  | Loop count _ => paren "Loop" (u64_to_string count)
  | While _ _ => "While"
  | Emit msg => paren "Emit" msg
  | Negate => "Negate"
  | AssertTop v => paren "AssertTop" (TypedValue.to_string v)
  | DumpStack => "DumpStack"
  | DumpMemory => "DumpMemory"
  | AssertMemory key expected =>
      paren "AssertMemory" (key +:+ ", " +:+ TypedValue.to_string expected)
  | Pop => "Pop"
  | Eq => "Eq"
  | Gt => "Gt"
  | Lt => "Lt"
  | Not => "Not"
  | And => "And"
  | Or => "Or"
  | Dup => "Dup"
  | Swap => "Swap"
  | Over => "Over"
  | Def name _ _ => paren "Def" name
  | Call name => paren "Call" name
  | Return => "Return"
  | Nop => "Nop"
  | Match _ _ _ => "Match"
  | Break => "Break"
  | Continue => "Continue"
  | EmitEvent category message => paren "EmitEvent" (category +:+ ", " +:+ message)
  | AssertEqualStack depth => paren "AssertEqualStack" (u64_to_string depth)
  | DumpState => "DumpState"
  | RankedVote candidates ballots =>
      paren "RankedVote" (u64_to_string candidates +:+ " candidates, " +:+
        u64_to_string ballots +:+ " ballots")
  | LiquidDelegate from to => paren "LiquidDelegate" (from +:+ " -> " +:+ to)
  | VoteThreshold threshold => paren "VoteThreshold" (f64_to_string threshold)
  | QuorumThreshold threshold => paren "QuorumThreshold" (f64_to_string threshold)
  | MinDeliberation period => paren "MinDeliberation" (debug_duration period)
  | ExpiresIn period => paren "ExpiresIn" (debug_duration period)
  | RequireRole role => paren "RequireRole" role
  | StoreP key => paren "StoreP" key
  | LoadP key => paren "LoadP" key
  | LoadVersionP key version => paren "LoadVersionP" (key +:+ ", v" +:+ u64_to_string version)
  | ListVersionsP key => paren "ListVersionsP" key
  | DiffVersionsP key v1 v2 =>
      paren "DiffVersionsP" (key +:+ ", v" +:+ u64_to_string v1 +:+ ", v" +:+ u64_to_string v2)
  | VerifyIdentity identity_id _ _ => paren "VerifyIdentity" identity_id
  | CheckMembership identity_id namespace =>
      paren "CheckMembership" (identity_id +:+ ", " +:+ namespace)
  | CheckDelegation delegator_id delegate_id =>
      paren "CheckDelegation" (delegator_id +:+ " -> " +:+ delegate_id)
  | VerifySignature => "VerifySignature"
  | CreateResource resource => paren "CreateResource" resource
  | Mint resource account amount _ =>
      paren "Mint" (f64_to_string amount +:+ " of " +:+ resource +:+ " to " +:+ account)
  | Transfer resource from to amount _ =>
      paren "Transfer" (f64_to_string amount +:+ " of " +:+ resource +:+ " from " +:+ from +:+
        " to " +:+ to)
  | Burn resource account amount _ =>
      paren "Burn" (f64_to_string amount +:+ " of " +:+ resource +:+ " from " +:+ account)
  | Balance resource account => paren "Balance" (resource +:+ " for " +:+ account)
  | GetIdentity id => paren "GetIdentity" id
  | RequireValidSignature voter _ _ => paren "RequireValidSignature" voter
  | IfPassed _ => "IfPassed"
  | Else _ => "Else"
  | IncrementReputation identity_id amount _ =>
      paren "IncrementReputation" (identity_id +:+ ", " +:+ debug_option_f64 amount)
  | Macro name => paren "Macro" name
  end.

End Display.

End Op.

Module LoopControl.

Inductive t : Type := None | Break | Continue.

#[export] Instance eq_dec : EqDecision t.
Proof. solve_decision. Defined.

End LoopControl.

Record VMEvent : Type := {
  category : string;
  message : string;
  timestamp : N;
}.

#[global] Instance VMEvent_eq_dec : EqDecision VMEvent.
Proof. solve_decision. Defined.

(** The frame of vm/types.rs, which nothing uses. *)
Record CallFrame : Type := {
  frame_memory : gmap string TypedValue.t;
  frame_params : gmap string TypedValue.t;
  frame_return_value : option TypedValue.t;
  frame_function_name : string;
}.

(** Errors of the standard library and of serde, by their texts. *)
Module ErrorConversions.

Definition storage_from_io (err : string) : StorageError.t := StorageError.IoError "unknown" err.
Definition storage_from_json (err : string) : StorageError.t := StorageError.SerializationError "JSON" err.
Definition storage_from_time (err : string) : StorageError.t := StorageError.TimeError ("System time error: " +:+ err).
Definition vm_from_io (err : string) : VMError.t := VMError.IoError err.
Definition vm_from_time (err : string) : VMError.t := VMError.TimeError err.
Definition vm_from_json (err : string) : VMError.t := VMError.Deserialization err.

(** The maximum is what is available together with what was asked for. *)
Definition quota_exceeded {E} (overflow_checks : bool) (account_id : string) (requested available : N) :
    res E StorageError.t :=
  maximum ← u64_add overflow_checks available requested;
  Ok (StorageError.QuotaExceeded ("Account '" +:+ account_id +:+ "'") requested maximum).

End ErrorConversions.
