(* ===== verification/Stack.v ===== *)
(** * The operand stack: src/crates/icn-covm/src/vm/stack.rs

    [VMStack] holds a [Vec] whose last element is the top; here the top is the
    head of a list.  The methods that take [&mut self] are state computations,
    so what an underflow has already popped stays popped. *)
From S2P Require Import Prelude Float64 Values Ops.

Module VMStack.

Definition t : Type := list TypedValue.t.

Abbreviation M := (stm t VMError.t).

Definition new : t := [].

Definition push (value : TypedValue.t) : M unit := fun st => (value :: st, Ok tt).

Definition pop (op_name : string) : M TypedValue.t := fun st =>
  match st with
  | v :: st' => (st', Ok v)
  | [] => ([], Err VMError.StackUnderflow)
  end.

Definition pop_two (op_name : string) : M (TypedValue.t * TypedValue.t) :=
  b ← pop op_name; a ← pop op_name; mret (a, b).

Definition top (st : t) : option TypedValue.t := head st.

Definition get_stack (st : t) : list TypedValue.t := rev st.

Definition dup (op_name : string) : M unit := fun st =>
  match top st with
  | Some value => push value st
  | None => (st, Err VMError.StackUnderflow)
  end.

Definition swap (op_name : string) : M unit := fun st =>
  match st with
  | b :: a :: st' => (a :: b :: st', Ok tt)
  | _ => (st, Err VMError.StackUnderflow)
  end.

Definition over (op_name : string) : M unit := fun st =>
  match st with
  | b :: a :: st' => push a st
  | _ => (st, Err VMError.StackUnderflow)
  end.

(** The loop over the [depth - 1] values below the top; it stops at the first
    difference. *)
Fixpoint all_equal_to (v : TypedValue.t) (l : list TypedValue.t) : bool :=
  match l with
  | [] => true
  | x :: l' => if TypedValue.eq x v then all_equal_to v l' else false
  end.

Definition len (st : t) : N := N.of_nat (length st).

Definition is_empty (st : t) : bool := match st with [] => true | _ => false end.

Definition assert_equal_stack (depth : N) (op_name : string) (st : t) : res VMError.t bool :=
  if (len st <? depth)%N then Err VMError.StackUnderflow
  else
    match st with
    | [] => Panic "called `Option::unwrap()` on a `None` value"
    | top_value :: below => Ok (all_equal_to top_value (take (N.to_nat depth - 1) below))
    end.

Fixpoint format_lines (i : N) (l : list TypedValue.t) : string :=
  match l with
  | [] => EmptyString
  | v :: l' =>
      u64_to_string i +:+ ": " +:+ TypedValue.to_string v +:+ TypedValue.newline +:+
      format_lines (i + 1) l'
  end.

Definition format_stack (st : t) : string := format_lines 0 (get_stack st).

Definition clear : M unit := put_state [].

Definition type_mismatch (expected op_name : string) (v : TypedValue.t) : VMError.t :=
  VMError.TypeMismatch expected (TypedValue.type_name v) op_name.

Definition pop_number (op_name : string) : M f64 :=
  value ← pop op_name;
  lift (map_err (fun _ => type_mismatch "Number" op_name value) (TypedValue.as_number value)).

Definition pop_bool (op_name : string) : M bool :=
  value ← pop op_name;
  lift (map_err (fun _ => type_mismatch "Boolean" op_name value) (TypedValue.as_boolean value)).

Definition pop_string (op_name : string) : M string :=
  value ← pop op_name;
  lift (map_err (fun _ => type_mismatch "String" op_name value) (TypedValue.as_string value)).

Definition peek_type (st : t) : option TypedValue.t := head st.

(** ** Equations the machine's proofs rewrite with *)

Lemma push_eq v st : push v st = (v :: st, Ok tt).
Proof. reflexivity. Qed.
Lemma pop_cons op v st : pop op (v :: st) = (st, Ok v).
Proof. reflexivity. Qed.
Lemma pop_nil op : pop op [] = ([], Err VMError.StackUnderflow).
Proof. reflexivity. Qed.
Lemma pop_two_cons op a b st : pop_two op (b :: a :: st) = (st, Ok (a, b)).
Proof. reflexivity. Qed.
Lemma pop_two_short op st : length st < 2 -> pop_two op st = ([], Err VMError.StackUnderflow).
Proof. destruct st as [|x [|y st]]; cbn; intros; [done|done|lia]. Qed.
#[export] Hint Rewrite push_eq pop_cons pop_nil pop_two_cons : covm_eq.

(** Popping a number fails on an empty stack or a string that is no number, and
    the value is gone either way. *)
Lemma pop_number_outcome op st :
  pop_number op st =
  match st with
  | [] => ([], Err VMError.StackUnderflow)
  | v :: st' =>
      (st', match TypedValue.as_number v with
            | Ok n => Ok n
            | Err _ => Err (VMError.TypeMismatch "Number" "String" op)
            | Panic m => Panic m
            | OutOfFuel => OutOfFuel
            end)
  end.
Proof.
  destruct st as [|v st]; [done|].
  unfold pop_number, mbind, stm_bind, pop, lift. f_equal.
  destruct v as [n|b|s|]; try reflexivity.
Qed.

Lemma pop_bool_cons op v st : pop_bool op (v :: st) = (st, Ok (negb (TypedValue.is_falsey v))).
Proof.
  unfold pop_bool, mbind, stm_bind, pop, lift. rewrite TypedValue.as_boolean_total. reflexivity.
Qed.

Lemma all_equal_to_forall v l :
  all_equal_to v l = true <-> Forall (fun x => TypedValue.eq x v = true) l.
Proof.
  induction l as [|x l IH]; cbn; [by split|]. rewrite Forall_cons, <- IH.
  destruct (TypedValue.eq x v); [tauto|]. split; [done|by intros [? _]].
Qed.

(** [assert_equal_stack depth] reports whether the top [depth] values are all
    equal to the top; a shallower stack is an underflow, and depth 0 on an
    empty stack panics. *)
Theorem assert_equal_stack_outcome depth op st :
  match st with
  | [] => assert_equal_stack depth op st =
          if (depth =? 0)%N then Panic "called `Option::unwrap()` on a `None` value"
          else Err VMError.StackUnderflow
  | v :: below =>
      if (len st <? depth)%N then assert_equal_stack depth op st = Err VMError.StackUnderflow
      else exists b, assert_equal_stack depth op st = Ok b /\
             (b = true <-> Forall (fun x => TypedValue.eq x v = true) (take (N.to_nat depth - 1) below))
  end.
Proof.
  unfold assert_equal_stack. destruct st as [|v below].
  - unfold len. cbn. destruct depth; reflexivity.
  - destruct (_ <? _)%N; [done|]. eexists. split; [done|]. apply all_equal_to_forall.
Qed.

End VMStack.
