(* ===== verification/Memory.v ===== *)
(** * Variables, functions and call frames: src/crates/icn-covm/src/vm/memory.rs

    A [HashMap<String, _>] is a [gmap string _], a [Vec] a list in the same
    order.  The call stack holds indices into the frames; indexing out of range
    panics, and [wf] is the invariant under which it does not. *)
From S2P Require Import Prelude Float64 Values Ops.

(** Call frame of a function: [TypedCallFrame]. *)
Record TypedCallFrame : Type := {
  frame_memory : gmap string TypedValue.t;
  frame_params : gmap string TypedValue.t;
  return_value : option TypedValue.t;
  function_name : string;
}.

Module VMMemory.

Record t : Type := {
  memory : gmap string TypedValue.t;
  functions : gmap string (list string * list Op.t);
  call_stack : list nat;
  call_frames : list TypedCallFrame;
  parameters : gmap string string;
  string_metadata : gmap string string;
}.

Definition new : t :=
  {| memory := ∅; functions := ∅; call_stack := []; call_frames := [];
     parameters := ∅; string_metadata := ∅ |}.

Definition set_memory (m : gmap string TypedValue.t) (s : t) : t :=
  {| memory := m; functions := functions s; call_stack := call_stack s;
     call_frames := call_frames s; parameters := parameters s;
     string_metadata := string_metadata s |}.
Definition set_functions (f : gmap string (list string * list Op.t)) (s : t) : t :=
  {| memory := memory s; functions := f; call_stack := call_stack s;
     call_frames := call_frames s; parameters := parameters s;
     string_metadata := string_metadata s |}.
Definition set_frames (cs : list nat) (fs : list TypedCallFrame) (s : t) : t :=
  {| memory := memory s; functions := functions s; call_stack := cs;
     call_frames := fs; parameters := parameters s;
     string_metadata := string_metadata s |}.
Definition set_params (p : gmap string string) (s : t) : t :=
  {| memory := memory s; functions := functions s; call_stack := call_stack s;
     call_frames := call_frames s; parameters := p;
     string_metadata := string_metadata s |}.

Definition get_string_metadata (key : string) (s : t) : option string := string_metadata s !! key.

Definition set_string_metadata (key value : string) (s : t) : t :=
  {| memory := memory s; functions := functions s; call_stack := call_stack s;
     call_frames := call_frames s; parameters := parameters s;
     string_metadata := <[key := value]> (string_metadata s) |}.

Definition param_string (value : TypedValue.t) : string :=
  match value with
  | TypedValue.Number n => f64_to_string n
  | TypedValue.Boolean b => TypedValue.bool_to_string b
  | TypedValue.String s => s
  | TypedValue.Null => "null"
  end.

Definition store_param (key : string) (value : TypedValue.t) (s : t) : t :=
  set_params (<[key := param_string value]> (parameters s)) s.

(** Indexing a vector. *)
Definition index {A} (l : list A) (i : nat) : res VMError.t A :=
  match l !! i with
  | Some x => Ok x
  | None => Panic "index out of bounds"
  end.

Definition frame_insert (name : string) (value : TypedValue.t) (f : TypedCallFrame) : TypedCallFrame :=
  {| frame_memory := <[name := value]> (frame_memory f); frame_params := frame_params f;
     return_value := return_value f; function_name := function_name f |}.

Definition store (name : string) (value : TypedValue.t) : stm t VMError.t unit := fun s =>
  match last (call_stack s) with
  | Some frame_idx =>
      match index (call_frames s) frame_idx with
      | Ok frame =>
          (set_frames (call_stack s)
             (<[frame_idx := frame_insert name value frame]> (call_frames s)) s, Ok tt)
      | Err e => (s, Err e)
      | Panic m => (s, Panic m)
      | OutOfFuel => (s, OutOfFuel)
      end
  | None => (set_memory (<[name := value]> (memory s)) s, Ok tt)
  end.

Definition load_global (name : string) (s : t) : res VMError.t TypedValue.t :=
  match memory s !! name with
  | Some value => Ok value
  | None => Err (VMError.UndefinedVariable name)
  end.

Definition load (name : string) (s : t) : res VMError.t TypedValue.t :=
  match last (call_stack s) with
  | Some frame_idx =>
      frame ← index (call_frames s) frame_idx;
      match frame_memory frame !! name with
      | Some value => Ok value
      | None =>
          match frame_params frame !! name with
          | Some value => Ok value
          | None => load_global name s
          end
      end
  | None => load_global name s
  end.

Definition define_function (name : string) (params : list string) (body : list Op.t) (s : t) : t :=
  set_functions (<[name := (params, body)]> (functions s)) s.

Definition get_function (name : string) (s : t) : res VMError.t (list string * list Op.t) :=
  match functions s !! name with
  | Some f => Ok f
  | None => Err (VMError.UndefinedFunction name)
  end.

Definition push_call_frame (name : string) (params : gmap string TypedValue.t) (s : t) : t * nat :=
  let frame := {| frame_memory := ∅; frame_params := params; return_value := None;
                  function_name := name |} in
  let frames := call_frames s ++ [frame] in
  (set_frames (call_stack s ++ [length frames - 1]) frames s, length frames - 1).

Definition pop_call_frame (s : t) : t * option TypedCallFrame :=
  (set_frames (removelast (call_stack s)) (removelast (call_frames s)) s, last (call_frames s)).

Definition current_call_frame (s : t) : option TypedCallFrame := last (call_frames s).

Definition frame_set_return (value : TypedValue.t) (f : TypedCallFrame) : TypedCallFrame :=
  {| frame_memory := frame_memory f; frame_params := frame_params f;
     return_value := Some value; function_name := function_name f |}.

Definition set_return_value (value : TypedValue.t) : stm t VMError.t unit := fun s =>
  match current_call_frame s with
  | Some frame =>
      (set_frames (call_stack s) (removelast (call_frames s) ++ [frame_set_return value frame]) s,
       Ok tt)
  | None => (s, Err (VMError.NotImplemented "Cannot return outside a function"))
  end.

Definition get_return_value (s : t) : option TypedValue.t :=
  frame ← current_call_frame s; return_value frame.

(** The typed value of a textual parameter. *)
Definition typed_param (value : string) : TypedValue.t :=
  match parse_f64 value with
  | Some num => TypedValue.Number num
  | None =>
      if String.eqb value "true" then TypedValue.Boolean true
      else if String.eqb value "false" then TypedValue.Boolean false
      else if String.eqb value "null" then TypedValue.Null
      else TypedValue.String value
  end.

Definition set_parameters (ps : gmap string string) (s : t) : t :=
  set_memory ((typed_param <$> ps) ∪ memory s) (set_params ps s).

Definition get_parameter (name : string) (s : t) : res VMError.t string :=
  match parameters s !! name with
  | Some v => Ok v
  | None => Err (VMError.UndefinedParameter name)
  end.

Definition get_memory_map (s : t) : res VMError.t (gmap string TypedValue.t) :=
  match last (call_stack s) with
  | Some frame_idx =>
      frame ← index (call_frames s) frame_idx;
      Ok (frame_memory frame ∪ (frame_params frame ∪ memory s))
  | None => Ok (memory s)
  end.

(** [items.sort()] on strings. *)
Definition sort_strings (l : list string) : list string := sort_by TypedValue.str_ltb l.

Definition format_item (kv : string * TypedValue.t) : string :=
  kv.1 +:+ ": " +:+ TypedValue.to_string kv.2.

Definition format_memory (s : t) : res VMError.t string :=
  mem_map ← get_memory_map s;
  if decide (mem_map = ∅) then Ok "Memory: {}"
  else
    let items := sort_strings (format_item <$> map_to_list mem_map) in
    Ok ("Memory: {" +:+ TypedValue.newline +:+ "  " +:+
        join ("," +:+ TypedValue.newline +:+ "  ") items +:+ TypedValue.newline +:+ "}").

Fixpoint format_frames (s : t) (i : N) (l : list nat) : res VMError.t (list string) :=
  match l with
  | [] => Ok []
  | idx :: l' =>
      frame ← index (call_frames s) idx;
      rest ← format_frames s (i + 1) l';
      Ok ((u64_to_string i +:+ ". " +:+ function_name frame) :: rest)
  end.

Definition format_call_stack (s : t) : res VMError.t string :=
  match call_frames s with
  | [] => Ok "Call Stack: []"
  | _ => items ← format_frames s 0 (call_stack s);
         Ok ("Call Stack: [" +:+ join ", " items +:+ "]")
  end.

(** [impl Display for VMMemory]; the order in which a [HashMap] gives its keys
    is an argument. *)
Definition to_string (key_order : list string -> list string) (s : t) : res VMError.t string :=
  mem ← format_memory s;
  calls ← format_call_stack s;
  let line x := x +:+ TypedValue.newline in
  Ok (line mem +:+ line calls +:+
      if decide (functions s = ∅) then EmptyString
      else line "Functions: [" +:+
           String.concat EmptyString
             (map (fun name => line ("  " +:+ name)) (key_order (elements (dom (functions s))))) +:+
           line "]").

Definition clear_memory (s : t) : t := set_memory ∅ s.
Definition in_function_call (s : t) : bool := match call_stack s with [] => false | _ => true end.
Definition call_stack_depth (s : t) : N := N.of_nat (length (call_stack s)).

(** ** The frame invariant: the call stack lists the frames in order. *)
Definition wf (s : t) : Prop := call_stack s = seq 0 (length (call_frames s)).

(** The frame names are resolved in, if any. *)
Definition active_frame (s : t) : option TypedCallFrame := last (call_frames s).

Lemma wf_new : wf new.
Proof. reflexivity. Qed.

Lemma last_seq n : last (seq 0 n) = match n with O => None | S k => Some k end.
Proof. destruct n as [|k]; [done|]. by rewrite seq_S, last_snoc. Qed.

Lemma removelast_snoc {A} (l : list A) x : removelast (l ++ [x]) = l.
Proof. apply removelast_last. Qed.

Lemma wf_cases s : wf s ->
  (call_stack s = [] /\ call_frames s = []) \/
  exists fs f, call_frames s = fs ++ [f] /\ last (call_stack s) = Some (length fs) /\
          call_frames s !! length fs = Some f.
Proof.
  intros Hwf. unfold wf in Hwf.
  destruct (call_frames s) as [|f fs _] eqn:Hf using rev_ind.
  - left. by rewrite Hwf.
  - right. exists fs, f. split; [done|]. rewrite Hwf, length_app, Nat.add_1_r. cbn [seq length].
    change (0 :: seq 1 (length fs)) with (seq 0 (S (length fs))). rewrite last_seq.
    split; [done|]. by apply list_lookup_middle.
Qed.

Lemma wf_push_call_frame name params s : wf s -> wf (push_call_frame name params s).1.
Proof.
  unfold wf, push_call_frame. intros H. cbn. rewrite length_app. cbn.
  rewrite Nat.add_sub, H, Nat.add_1_r. by rewrite seq_S.
Qed.

Lemma wf_pop_call_frame s : wf s -> wf (pop_call_frame s).1.
Proof.
  intros H. unfold wf in *. cbn. rewrite H.
  destruct (call_frames s) as [|f fs _] using rev_ind; [done|].
  rewrite removelast_snoc, length_app, Nat.add_1_r, seq_S. apply removelast_snoc.
Qed.

Lemma wf_store name v s : wf s -> wf (store name v s).1.
Proof.
  intros H. unfold store. destruct (wf_cases s H) as [[Hc Hf]|(fs & f & Hf & Hl & Hi)].
  - by rewrite Hc.
  - rewrite Hl. unfold index. rewrite Hi. unfold wf in *. cbn. by rewrite length_insert.
Qed.

Lemma wf_set_return_value v s : wf s -> wf (set_return_value v s).1.
Proof.
  intros H. unfold set_return_value, current_call_frame.
  destruct (wf_cases s H) as [[Hc Hf]|(fs & f & Hf & Hl & Hi)]; rewrite Hf; [exact H|].
  rewrite last_snoc, removelast_snoc. unfold wf in *. cbn.
  by rewrite H, Hf, !length_app.
Qed.

Lemma wf_define_function name ps body s : wf s -> wf (define_function name ps body s).
Proof. done. Qed.
Lemma wf_set_parameters ps s : wf s -> wf (set_parameters ps s).
Proof. done. Qed.
#[export] Hint Resolve wf_new wf_push_call_frame wf_pop_call_frame wf_store wf_set_return_value
  wf_define_function wf_set_parameters : covm.

(** Under the invariant a name resolves in the top frame's locals, then its
    parameters, then the globals. *)
Definition resolve (name : string) (s : t) : option TypedValue.t :=
  match active_frame s with
  | Some f =>
      match frame_memory f !! name with
      | Some v => Some v
      | None => match frame_params f !! name with Some v => Some v | None => memory s !! name end
      end
  | None => memory s !! name
  end.

Lemma load_resolve name s : wf s ->
  load name s = match resolve name s with Some v => Ok v | None => Err (VMError.UndefinedVariable name) end.
Proof.
  intros H. unfold load, resolve, active_frame, load_global.
  destruct (wf_cases s H) as [[Hc Hf]|(fs & f & Hf & Hl & Hi)].
  - rewrite Hc, Hf. reflexivity.
  - rewrite Hl, Hf, last_snoc. unfold index. rewrite <- Hf, Hi. cbn.
    destruct (frame_memory f !! name); [done|]. by destruct (frame_params f !! name).
Qed.

Lemma store_eq name v s : wf s ->
  store name v s =
  (match active_frame s with
   | Some f => set_frames (call_stack s) (removelast (call_frames s) ++ [frame_insert name v f]) s
   | None => set_memory (<[name := v]> (memory s)) s
   end, Ok tt).
Proof.
  intros H. unfold store, active_frame.
  destruct (wf_cases s H) as [[Hc Hf]|(fs & f & Hf & Hl & Hi)].
  - by rewrite Hc, Hf.
  - rewrite Hl. unfold index. rewrite Hi, Hf, last_snoc, removelast_snoc.
    do 2 f_equal. rewrite insert_app_r_alt by lia. by rewrite Nat.sub_diag.
Qed.

(** The map handed to [DumpMemory] is exactly what [load] sees. *)
Theorem memory_map_agrees_with_load name s : wf s ->
  exists m, get_memory_map s = Ok m /\
    load name s = match m !! name with
                  | Some v => Ok v
                  | None => Err (VMError.UndefinedVariable name)
                  end.
Proof.
  intros H. rewrite load_resolve by done. unfold get_memory_map, resolve, active_frame.
  destruct (wf_cases s H) as [[Hc Hf]|(fs & f & Hf & Hl & Hi)].
  - rewrite Hc, Hf. cbn. eauto.
  - rewrite Hl. unfold index. rewrite Hi, Hf, last_snoc. cbn. eexists. split; [done|].
    rewrite !lookup_union. destruct (frame_memory f !! name) as [v|]; cbn; [by destruct (_ !! name ∪ _)|].
    destruct (frame_params f !! name); cbn; destruct (memory s !! name); done.
Qed.

(** Storing succeeds, the name reads back, and no other name changes. *)
Theorem store_load name v s : wf s ->
  exists s', store name v s = (s', Ok tt) /\ wf s' /\ load name s' = Ok v /\
    (forall name', name' <> name -> load name' s' = load name' s) /\ functions s' = functions s.
Proof.
  intros H. pose proof (wf_store name v s H) as Hwf. rewrite store_eq in * by done.
  eexists. split; [done|]. split; [exact Hwf|]. cbn in Hwf.
  rewrite load_resolve by done. unfold resolve.
  unfold active_frame in *. destruct (last (call_frames s)) as [f|] eqn:Hlast; cbn in *.
  - rewrite last_snoc in *. cbn. rewrite lookup_insert_eq. split; [done|]. split; [|done].
    intros name' Hn. rewrite !load_resolve by done. unfold resolve, active_frame. cbn.
    rewrite last_snoc, Hlast. cbn. by rewrite lookup_insert_ne by done.
  - rewrite Hlast in *. rewrite lookup_insert_eq. split; [done|]. split; [|done].
    intros name' Hn. rewrite !load_resolve by done. unfold resolve, active_frame. cbn.
    rewrite Hlast. by rewrite lookup_insert_ne by done.
Qed.

(** A run of stores, as a function body performs them. *)
Definition store_all (kvs : list (string * TypedValue.t)) : stm t VMError.t unit :=
  foldr (fun kv m => store kv.1 kv.2 ≫= fun _ => m) (mret tt) kvs.

Lemma store_all_in_frame kvs s fs f : wf s -> call_frames s = fs ++ [f] ->
  exists f', store_all kvs s = (set_frames (call_stack s) (fs ++ [f']) s, Ok tt) /\
        frame_params f' = frame_params f.
Proof.
  revert s f. induction kvs as [|[k v] kvs IH]; intros s f H Hf.
  - exists f. split; [|done]. rewrite <- Hf. by destruct s.
  - cbn [store_all foldr]. pose proof (wf_store k v s H) as Hwf.
    rewrite (stm_bind_eq _ _ _ _ _ (store_eq k v s H)).
    rewrite (store_eq k v s H) in Hwf. cbn [fst snd] in Hwf |- *.
    unfold active_frame in *. rewrite Hf, last_snoc, removelast_snoc in *.
    destruct (IH _ (frame_insert k v f) Hwf eq_refl) as (f' & Hrun & Hp).
    exists f'. split; [exact Hrun|exact Hp].
Qed.

(** A function call cannot change the caller's variables by storing: after any
    stores in the callee's frame, popping it gives back the caller's memory. *)
Theorem call_frame_isolation name params kvs s : wf s ->
  exists s1 f, store_all kvs (push_call_frame name params s).1 = (s1, Ok tt) /\
    pop_call_frame s1 = (s, Some f) /\ frame_params f = params.
Proof.
  intros H. pose proof (wf_push_call_frame name params s H) as Hwf.
  destruct (store_all_in_frame kvs _ (call_frames s) _ Hwf eq_refl) as (f' & Hrun & Hp).
  eexists _, f'. split; [exact Hrun|]. split; [|exact Hp].
  unfold pop_call_frame. cbn. rewrite !removelast_snoc, last_snoc. by destruct s.
Qed.

(** A memory with one global and one open call. *)
Definition sample : t :=
  (push_call_frame "f" {["p" := TypedValue.Boolean true]}
     (set_memory {["x" := TypedValue.Null]} new)).1.

Lemma memory_map_agrees_with_load_witness :
  exists m, get_memory_map sample = Ok m /\
    load "p" sample = match m !! "p" with
                      | Some v => Ok v
                      | None => Err (VMError.UndefinedVariable "p")
                      end.
Proof. apply (memory_map_agrees_with_load "p" sample). reflexivity. Defined.

Lemma store_load_witness :
  exists s', store "x" (TypedValue.Boolean false) sample = (s', Ok tt) /\ wf s' /\
    load "x" s' = Ok (TypedValue.Boolean false) /\
    (forall name', name' <> "x" -> load name' s' = load name' sample) /\
    functions s' = functions sample.
Proof. apply (store_load "x" (TypedValue.Boolean false) sample). reflexivity. Defined.

Lemma call_frame_isolation_witness :
  exists s1 f, store_all [("x", TypedValue.Boolean true)] (push_call_frame "g" ∅ sample).1 = (s1, Ok tt) /\
    pop_call_frame s1 = (sample, Some f) /\ frame_params f = ∅.
Proof. apply (call_frame_isolation "g" ∅ [("x", TypedValue.Boolean true)] sample). reflexivity. Defined.

End VMMemory.
