(* ===== verification/Auth.v ===== *)
(** * Identities and authorization: identity.rs and storage/auth.rs

    [Identity] keeps its key material as bytes; key generation, signing and
    verification call third-party cryptography and are not defined here.  A
    profile field is a JSON value of which the program only reads strings. *)
From S2P Require Import Prelude.

(** [serde_json::Value], as far as the program looks into it: a string or some
    other value, kept as its text. *)
Inductive json_value : Type := JString (s : string) | JOther (text : string).

Record Profile : Type := {
  public_username : string;
  full_name : option string;
  other_fields : gmap string json_value;
}.

Module Identity.

Record t : Type := {
  did : string;
  public_key_bytes : string;
  private_key_bytes : option string;
  public_key_multibase : string;
  profile : Profile;
  identity_type : string;
}.

Definition get_metadata (key : string) (self : t) : option string :=
  match other_fields (profile self) !! key with
  | Some (JString s) => Some s
  | _ => None
  end.

Definition add_metadata (key value : string) (self : t) : t :=
  {| did := did self; public_key_bytes := public_key_bytes self;
     private_key_bytes := private_key_bytes self;
     public_key_multibase := public_key_multibase self;
     profile := {| public_username := public_username (profile self);
                   full_name := full_name (profile self);
                   other_fields := <[key := JString value]> (other_fields (profile self)) |};
     identity_type := identity_type self |}.

Definition belongs_to (coop_id : string) (self : t) : bool :=
  match get_metadata "coop_id" self with
  | Some id => String.eqb id coop_id
  | None => false
  end.

Definition get_public_username (self : t) : string := public_username (profile self).
Definition crypto_scheme (self : t) : option string := Some "ed25519".
Definition public_key (self : t) : option string := Some (public_key_bytes self).

Lemma belongs_to_add_metadata coop self coop' :
  belongs_to coop (add_metadata "coop_id" coop' self) = String.eqb coop' coop.
Proof. unfold belongs_to, get_metadata, add_metadata. cbn. by rewrite lookup_insert_eq. Qed.

End Identity.

Record RoleAssignment : Type := { ra_namespace : string; ra_role : string }.

Record Membership : Type := {
  m_identity_did : string;
  m_namespace : string;
  m_metadata : gmap string string;
}.

Definition Membership_to_string (m : Membership) : string :=
  "Member " +:+ m_identity_did m +:+ " of " +:+ m_namespace m.

Record Delegation : Type := {
  delegator_did : string;
  delegate_did : string;
  delegation_type : string;
  d_metadata : gmap string string;
}.

Module AuthContext.

Record t : Type := {
  current_identity_did : string;
  identity_registry : gmap string Identity.t;
  roles : gmap string (gmap string (gset string));
  memberships : list Membership;
  delegations : list Delegation;
}.

Definition new (current_identity_did : string) : t :=
  {| current_identity_did := current_identity_did; identity_registry := ∅; roles := ∅;
     memberships := []; delegations := [] |}.

(** [s.trim_start_matches(p)] removes every leading copy of p. *)
Fixpoint trim_start_matches (fuel : nat) (p s : string) : string :=
  match fuel with
  | O => s
  | S fuel' =>
      if str_starts_with p s then
        trim_start_matches fuel' p
          (String.substring (String.length p) (String.length s - String.length p) s)
      else s
  end.

Definition get_coop_id (identity_did : string) (self : t) : option string :=
  m ← head (filter (fun m => m_identity_did m = identity_did /\
                             str_starts_with "coops/" (m_namespace m) = true) (memberships self));
  Some (trim_start_matches (String.length (m_namespace m)) "coops/" (m_namespace m)).

Definition register_identity (identity : Identity.t) (self : t) : t :=
  {| current_identity_did := current_identity_did self;
     identity_registry := <[Identity.did identity := identity]> (identity_registry self);
     roles := roles self; memberships := memberships self; delegations := delegations self |}.

Definition add_role_to_identity (identity_did namespace role : string) (self : t) : t :=
  let namespace_roles : gmap string (gset string) := default ∅ (roles self !! namespace) in
  let role_identities : gset string := default ∅ (namespace_roles !! role) in
  {| current_identity_did := current_identity_did self;
     identity_registry := identity_registry self;
     roles := <[namespace := <[role := {[identity_did]} ∪ role_identities]> namespace_roles]>
                (roles self);
     memberships := memberships self; delegations := delegations self |}.

Definition add_role (namespace role : string) (self : t) : t :=
  add_role_to_identity (current_identity_did self) namespace role self.

Definition add_membership (identity_did namespace : string) (self : t) : t :=
  {| current_identity_did := current_identity_did self;
     identity_registry := identity_registry self; roles := roles self;
     memberships := memberships self ++
       [{| m_identity_did := identity_did; m_namespace := namespace; m_metadata := ∅ |}];
     delegations := delegations self |}.

Definition add_delegation (delegator delegate dtype : string) (self : t) : t :=
  {| current_identity_did := current_identity_did self;
     identity_registry := identity_registry self; roles := roles self;
     memberships := memberships self;
     delegations := delegations self ++
       [{| delegator_did := delegator; delegate_did := delegate; delegation_type := dtype;
           d_metadata := ∅ |}] |}.

Definition has_role_for_identity (identity_did namespace role : string) (self : t) : bool :=
  match roles self !! namespace with
  | Some namespace_roles =>
      match namespace_roles !! role with
      | Some role_identities => bool_decide (identity_did ∈ role_identities)
      | None => false
      end
  | None => false
  end.

Definition has_role (namespace role : string) (self : t) : bool :=
  has_role_for_identity (current_identity_did self) namespace role self.

Definition is_member (identity_did namespace : string) (self : t) : bool :=
  existsb (fun m => String.eqb (m_identity_did m) identity_did &&
                    String.eqb (m_namespace m) namespace) (memberships self).

Definition has_delegation (delegator delegate : string) (self : t) : bool :=
  existsb (fun d => String.eqb (delegator_did d) delegator &&
                    String.eqb (delegate_did d) delegate) (delegations self).

Definition get_identity (identity_did : string) (self : t) : option Identity.t :=
  identity_registry self !! identity_did.

(** Every signature of a registered identity is accepted. *)
Definition verify_signature (identity_did : string) (message : bytes) (signature : string)
    (self : t) : bool :=
  match get_identity identity_did self with Some _ => true | None => false end.

Definition identity_did (self : t) : string := current_identity_did self.
Definition user_id (self : t) : string := current_identity_did self.
Definition user_id_string (self : t) : string := current_identity_did self.
Definition user_id_cloneable (self : t) : string := current_identity_did self.

(** Granting a role grants that role in that namespace to that identity, and
    nothing else. *)
Theorem add_role_grants_exactly did ns role did' ns' role' self :
  has_role_for_identity did' ns' role' (add_role_to_identity did ns role self) =
  (String.eqb did' did && String.eqb ns' ns && String.eqb role' role)
  || has_role_for_identity did' ns' role' self.
Proof.
  unfold has_role_for_identity, add_role_to_identity. cbn.
  destruct (String.eqb_spec ns' ns) as [->|Hns]; [|rewrite andb_false_r; by rewrite lookup_insert_ne by done].
  rewrite lookup_insert_eq, andb_true_r.
  destruct (String.eqb_spec role' role) as [->|Hrole].
  - rewrite lookup_insert_eq, andb_true_r.
    set (ids := default ∅ _ : gset string).
    assert (Hin : bool_decide (did' ∈ {[did]} ∪ ids) = String.eqb did' did || bool_decide (did' ∈ ids)).
    { destruct (String.eqb_spec did' did) as [->|Hd].
      - apply bool_decide_eq_true, elem_of_union_l, elem_of_singleton_2. done.
      - apply bool_decide_ext. rewrite elem_of_union, elem_of_singleton. tauto. }
    rewrite Hin. unfold ids. f_equal. destruct (roles self !! ns) as [nr|]; cbn; [by destruct (nr !! role)|].
    done.
  - rewrite lookup_insert_ne by done. rewrite andb_false_r. cbn.
    destruct (roles self !! ns) as [nr|]; cbn; [done|]. by rewrite lookup_empty.
Qed.

Lemma is_member_add_membership did ns did' ns' self :
  is_member did' ns' (add_membership did ns self) =
  is_member did' ns' self || (String.eqb did did' && String.eqb ns ns').
Proof.
  unfold is_member, add_membership. cbn [memberships]. rewrite existsb_app. f_equal.
  apply orb_false_r.
Qed.

End AuthContext.
