(* ===== verification/Storage.v ===== *)
(** * Storage data model and the backend interface

    Accounts with byte quotas (storage/resource.rs), version histories and the
    bounded version store (storage/versioning.rs), audit events
    (storage/events.rs), the namespace registry (storage/namespaces.rs), and the
    [StorageBackend] trait (storage/traits.rs) as a type class with the laws its
    clients rely on.  A method that reads the clock takes the time as [now]: the
    clock is constant during one storage call. *)
From S2P Require Import Prelude Float64 Values Ops Auth.

Module ResourceAccount.

Record t : Type := {
  owner_id : string;
  storage_quota_bytes : N;
  storage_used_bytes : N;
  last_updated : N;
}.

Definition new (now : N) (owner_id : string) (storage_quota_bytes : N) : t :=
  {| owner_id := owner_id; storage_quota_bytes := storage_quota_bytes;
     storage_used_bytes := 0; last_updated := now |}.

Definition can_store (additional_bytes : N) (self : t) : bool :=
  (saturating_add (storage_used_bytes self) additional_bytes <=? storage_quota_bytes self)%N.

Definition set_usage (now used : N) (self : t) : t :=
  {| owner_id := owner_id self; storage_quota_bytes := storage_quota_bytes self;
     storage_used_bytes := used; last_updated := now |}.

Definition add_usage (now bytes : N) : stm t StorageError.t unit := fun self =>
  if negb (can_store bytes self) then
    (self, Err (StorageError.QuotaExceeded ("Storage for account '" +:+ owner_id self +:+ "'")
                  (storage_used_bytes self) (storage_quota_bytes self)))
  else (set_usage now (saturating_add (storage_used_bytes self) bytes) self, Ok tt).

Definition reduce_usage (now bytes : N) (self : t) : t :=
  set_usage now (saturating_sub (storage_used_bytes self) bytes) self.

(** The quota invariant: no account uses more than its quota. *)
Definition within_quota (self : t) : Prop := (storage_used_bytes self <= storage_quota_bytes self)%N.

Lemma add_usage_within_quota now bytes self :
  within_quota self -> within_quota (add_usage now bytes self).1.
Proof.
  unfold add_usage, can_store, within_quota. intros H.
  destruct (_ <=? _)%N eqn:E; cbn; [by apply N.leb_le in E|done].
Qed.
Lemma reduce_usage_within_quota now bytes self :
  within_quota self -> within_quota (reduce_usage now bytes self).
Proof. unfold reduce_usage, within_quota, saturating_sub. cbn. lia. Qed.
#[export] Hint Resolve add_usage_within_quota reduce_usage_within_quota : covm.

End ResourceAccount.

Record StorageEvent : Type := {
  event_type : string;
  event_user_id : string;
  event_namespace : string;
  event_key : string;
  event_timestamp : N;
  event_details : string;
}.

Module VersionInfo.

Inductive t : Type := Mk (version : N) (created_by : string) (timestamp : N) (prev_version : option t).

Definition version (v : t) : N := let 'Mk n _ _ _ := v in n.
Definition created_by (v : t) : string := let 'Mk _ c _ _ := v in c.
Definition timestamp (v : t) : N := let 'Mk _ _ ts _ := v in ts.
Definition prev_version (v : t) : option t := let 'Mk _ _ _ p := v in p.

Definition new (now : N) (created_by : string) : t := Mk 1 created_by now None.

Definition next_version (now : N) (created_by : string) (self : t) : t :=
  Mk (saturating_add (version self) 1) created_by now (Some self).

(** The loop from the newest version back to the first. *)
Fixpoint chain (v : t) : list t :=
  match v with
  | Mk _ _ _ None => [v]
  | Mk _ _ _ (Some p) => v :: chain p
  end.

Definition get_version_history (self : t) : list t := rev (chain self).

Fixpoint find_version (n : N) (l : list t) : option t :=
  match l with
  | [] => None
  | v :: l' => if (version v =? n)%N then Some v else find_version n l'
  end.

Definition get_version (version_number : N) (self : t) : option t :=
  if (version_number =? version self)%N then Some self
  else if (version self <? version_number)%N then None
  else find_version version_number (tail (chain self)).

(** Histories the code builds: numbered 1, 2, ... without gaps. *)
Inductive numbered : t -> Prop :=
  | numbered_new c ts : numbered (Mk 1 c ts None)
  | numbered_next n c ts p : numbered p -> n = (version p + 1)%N -> numbered (Mk n c ts (Some p)).

Lemma new_numbered now c : numbered (new now c).
Proof. constructor. Qed.

Lemma next_version_numbered now c v :
  numbered v -> (version v < u64_max)%N -> numbered (next_version now c v).
Proof. intros H Hlt. constructor; [done|]. unfold saturating_add. lia. Qed.
#[export] Hint Resolve new_numbered next_version_numbered : covm.

Lemma chain_cons v : chain v = v :: match prev_version v with Some p => chain p | None => [] end.
Proof. by destruct v as [? ? ? []]. Qed.

Lemma numbered_pos v : numbered v -> (1 <= version v)%N.
Proof. induction 1; cbn in *; lia. Qed.

Lemma chain_versions v : numbered v ->
  version <$> chain v = rev (up_to (version v)).
Proof.
  induction 1 as [c ts|n c ts p Hp IH Hn]; [done|].
  rewrite chain_cons, fmap_cons. cbn [prev_version version]. rewrite IH, Hn.
  by rewrite up_to_succ, rev_app_distr.
Qed.

Lemma history_versions v : numbered v -> version <$> get_version_history v = up_to (version v).
Proof.
  intros Hv. unfold get_version_history. rewrite <- (rev_involutive (up_to (version v))).
  rewrite <- chain_versions by done. apply map_rev.
Qed.

Lemma find_version_chain n v : numbered v -> (1 <= n <= version v)%N ->
  exists w, find_version n (chain v) = Some w /\ version w = n.
Proof.
  induction 1 as [c ts|m c ts p Hp IH Hm]; intros Hn; rewrite chain_cons; cbn in *.
  - replace n with 1%N by lia. cbn. eauto.
  - destruct (N.eqb_spec m n) as [->|Hne]; [eauto|]. apply IH. lia.
Qed.

(** A stored history lists the versions 1 to n in order, and each number in
    that range, and no other, can be looked up. *)
Theorem version_history_complete v n : numbered v ->
  version <$> get_version_history v = up_to (version v) /\
  ((1 <= n <= version v)%N -> exists w, get_version n v = Some w /\ version w = n) /\
  (~ (1 <= n <= version v)%N -> get_version n v = None).
Proof.
  intros Hv. split; [by apply history_versions|split].
  - intros Hn. destruct (find_version_chain n v Hv Hn) as (w & Hw & Hwn).
    exists w. split; [|done]. unfold get_version. revert Hw. rewrite chain_cons. cbn [find_version tail].
    rewrite (N.eqb_sym n). destruct (N.eqb_spec (version v) n); [done|].
    destruct (N.ltb_spec (version v) n); [lia|]. done.
  - intros Hn. unfold get_version. destruct (N.eqb_spec n (version v)) as [->|Hne].
    + apply numbered_pos in Hv. lia.
    + destruct (N.ltb_spec (version v) n); [done|]. assert (n = 0)%N as -> by lia. clear Hne Hn H.
      induction Hv as [c ts|m c ts p Hp IH Hm]; [done|]. rewrite chain_cons. cbn [tail prev_version].
      rewrite chain_cons. cbn [find_version]. apply numbered_pos in Hp.
      destruct (N.eqb_spec (version p) 0); [lia|]. rewrite chain_cons in IH. exact IH.
Qed.

Lemma version_history_complete_witness :
  let v := next_version 7 "b" (new 5 "a") in
  version <$> get_version_history v = up_to (version v) /\
  ((1 <= 1 <= version v)%N -> exists w, get_version 1 v = Some w /\ version w = 1%N) /\
  (~ (1 <= 1 <= version v)%N -> get_version 1 v = None).
Proof. apply version_history_complete. apply next_version_numbered; [apply new_numbered|reflexivity]. Defined.

End VersionInfo.

(** What a diff of two versions reports. *)
Inductive DiffChange (T : Type) : Type :=
  | ValueChanged (path : string) (old_value new_value : T)
  | Added (path : string) (value : T)
  | Removed (path : string) (value : T)
  | Modified (path : string) (changes : list (DiffChange T)).

Record VersionDiff (T : Type) : Type := {
  old_version : N;
  new_version : N;
  diff_created_by : string;
  diff_timestamp : N;
  changes : list (DiffChange T);
}.

(** ** A bounded history: [VersionStore] *)
Module VersionStore.

Section Store.

Context {T : Type}.

(** Front of the deque first: oldest to newest. *)
Record t : Type := { versions : list (VersionInfo.t * T); max_versions : nat }.

Definition new (max_versions : nat) : t := {| versions := []; max_versions := max_versions |}.

(** [while len > max { pop_front }]. *)
Fixpoint trim (max : nat) (l : list (VersionInfo.t * T)) : list (VersionInfo.t * T) :=
  if length l <=? max then l else match l with [] => [] | _ :: l' => trim max l' end.

Definition add_version (info : VersionInfo.t) (data : T) (self : t) : t :=
  {| versions := trim (max_versions self) (versions self ++ [(info, data)]);
     max_versions := max_versions self |}.

Definition get_current (self : t) : option (VersionInfo.t * T) := last (versions self).

Definition get_version (n : N) (self : t) : option (VersionInfo.t * T) :=
  head (filter (fun p => VersionInfo.version p.1 = n) (versions self)).

Definition list_versions (self : t) : list VersionInfo.t := (versions self).*1.

Lemma trim_drop max l : trim max l = drop (length l - max) l.
Proof.
  induction l as [|x l IH]; [by destruct max|]. cbn [trim].
  destruct (Nat.leb_spec (length (x :: l)) max) as [Hle|Hgt].
  - by replace (length (x :: l) - max) with 0 by lia.
  - cbn [length] in *. replace (S (length l) - max) with (S (length l - max)) by lia. exact IH.
Qed.

(** The store never holds more than [max] versions, and what it drops is the
    oldest: the kept versions are the last ones added. *)
Theorem add_version_keeps_newest info data self :
  length (versions (add_version info data self)) <= max_versions self /\
  (exists dropped, versions self ++ [(info, data)] = dropped ++ versions (add_version info data self)) /\
  (0 < max_versions self -> get_current (add_version info data self) = Some (info, data)).
Proof.
  unfold add_version, get_current. cbn. rewrite trim_drop. set (l := versions self ++ [(info, data)]).
  split; [rewrite length_drop; lia|]. split.
  - exists (take (length l - max_versions self) l). by rewrite take_drop.
  - intros Hmax. unfold l. rewrite length_app, drop_app_le by (cbn; lia). apply last_snoc.
Qed.

End Store.

Arguments t T : clear implicits.

End VersionStore.

(** ** Namespaces *)
Record NamespaceMetadata : Type := {
  path : string;
  owner : string;
  quota_bytes : N;
  used_bytes : N;
  parent : option string;
  attributes : gmap string string;
}.

Module NamespaceRegistry.

Definition t : Type := gmap string NamespaceMetadata.

Definition new : t := ∅.

Definition register_namespace (p o : string) (quota : N) (par : option string) : stm t string unit :=
  fun self =>
  match self !! p with
  | Some _ => (self, Err ("Namespace " +:+ p +:+ " already exists"))
  | None =>
      let insert_it :=
        (<[p := {| path := p; owner := o; quota_bytes := quota; used_bytes := 0;
                   parent := par; attributes := ∅ |}]> self, Ok tt) in
      match par with
      | Some parent_path =>
          match self !! parent_path with
          | None => (self, Err ("Parent namespace " +:+ parent_path +:+ " does not exist"))
          | Some _ => insert_it
          end
      | None => insert_it
      end
  end.

Definition get_namespace (p : string) (self : t) : option NamespaceMetadata := self !! p.

(** [path.rfind('/')]. *)
Fixpoint rfind_slash (s : string) : option nat :=
  match s with
  | EmptyString => None
  | String c s' =>
      match rfind_slash s' with
      | Some i => Some (S i)
      | None => if Ascii.eqb c "/"%char then Some 0 else None
      end
  end.

Definition parent_namespace (p : string) : string :=
  match rfind_slash p with
  | Some (S i) => String.substring 0 (S i) p
  | _ => EmptyString
  end.

(** The loop toward the root; the path shortens each time, so its length
    bounds the number of iterations. *)
Fixpoint find_loop (fuel : nat) (p : string) (self : t) : res string (option NamespaceMetadata) :=
  match fuel with
  | O => OutOfFuel
  | S fuel' =>
      match self !! p with
      | Some metadata => Ok (Some metadata)
      | None =>
          let parent_path := parent_namespace p in
          if String.eqb parent_path p then Ok None else find_loop fuel' parent_path self
      end
  end.

Definition find_namespace_or_parent (p : string) (self : t) : res string (option NamespaceMetadata) :=
  find_loop (S (String.length p)) p self.

Definition has_permission (user action p : string) (self : t) : res string bool :=
  found ← find_namespace_or_parent p self;
  Ok match found with
     | Some metadata =>
         if String.eqb (owner metadata) user then true
         else if String.eqb action "read" then true
         else if String.eqb action "write" then String.eqb (owner metadata) user
         else false
     | None => false
     end.

Definition set_used (n : N) (m : NamespaceMetadata) : NamespaceMetadata :=
  {| path := path m; owner := owner m; quota_bytes := quota_bytes m; used_bytes := n;
     parent := parent m; attributes := attributes m |}.

(** [bytes_delta] is an [i64]; negating its minimum overflows. *)
Definition update_resource_usage (overflow_checks : bool) (p : string) (bytes_delta : Z) :
    stm t string unit := fun self =>
  match self !! p with
  | Some metadata =>
      if (0 <=? bytes_delta)%Z then
        let new_usage := saturating_add (used_bytes metadata) (Z.to_N bytes_delta) in
        if (quota_bytes metadata <? new_usage)%N then
          (self, Err ("Quota exceeded for namespace " +:+ p +:+ ": " +:+ u64_to_string new_usage +:+
                      " of " +:+ u64_to_string (quota_bytes metadata) +:+ " bytes"))
        else (<[p := set_used new_usage metadata]> self, Ok tt)
      else if (bytes_delta =? - 2 ^ 63)%Z && overflow_checks then
        (self, Panic "attempt to negate with overflow")
      else
        (<[p := set_used (saturating_sub (used_bytes metadata) (Z.to_N (- bytes_delta))) metadata]> self,
         Ok tt)
  | None => (self, Err ("Namespace " +:+ p +:+ " does not exist"))
  end.

(** A [HashMap] is iterated in an unspecified order: the list is meant up to
    permutation. *)
Definition list_children (parent_path : string) (self : t) : list NamespaceMetadata :=
  filter (fun m => parent m = Some parent_path) (map_to_list self).*2.

Definition exists_ (p : string) (self : t) : bool := bool_decide (is_Some (self !! p)).

Lemma rfind_slash_lt s i : rfind_slash s = Some i -> i < String.length s.
Proof.
  revert i. induction s as [|c s IH]; intros i; cbn; [done|].
  destruct (rfind_slash s) as [j|]; [intros [= <-]; specialize (IH j eq_refl); lia|].
  destruct (Ascii.eqb c "/"); [|done]. intros [= <-]. lia.
Qed.

Lemma parent_namespace_shorter p : p <> EmptyString ->
  String.length (parent_namespace p) < String.length p.
Proof.
  intros Hp. unfold parent_namespace.
  assert (0 < String.length p) by (destruct p; cbn; [done|lia]).
  destruct (rfind_slash p) as [[|i]|] eqn:E; cbn [String.length]; try lia.
  apply rfind_slash_lt in E.
  destruct (substring_split p (S i)) as [Hs Hl]; [lia|].
  apply (f_equal String.length) in Hs. rewrite length_str_app, Hl in Hs. lia.
Qed.

(** The search for the closest registered ancestor always ends, and finds it:
    either a registered namespace on the parent chain, or nothing because no
    path of the chain is registered. *)
Theorem find_namespace_terminates p self :
  exists r, find_namespace_or_parent p self = Ok r /\
    match r with
    | Some m => exists a, rtc (fun x y => self !! x = None /\ y = parent_namespace x) p a /\
                          self !! a = Some m
    | None => forall a, rtc (fun x y => y = parent_namespace x) p a -> self !! a = None
    end.
Proof.
  unfold find_namespace_or_parent.
  assert (Hfuel : String.length p < S (String.length p)) by lia.
  revert Hfuel. generalize (S (String.length p)) as fuel. intros fuel. revert p.
  induction fuel as [|fuel IH]; intros p Hfuel; [lia|]. cbn [find_loop].
  destruct (self !! p) as [m|] eqn:Hp.
  - exists (Some m). split; [done|]. exists p. split; [apply rtc_refl|done].
  - destruct (String.eqb_spec (parent_namespace p) p) as [Heq|Hne].
    + exists None. split; [done|]. intros a Ha.
      induction Ha as [x|x y z Hxy _ IHa]; [done|]. subst y. rewrite Heq in IHa. by apply IHa.
    + assert (Hshort : String.length (parent_namespace p) < String.length p).
      { apply parent_namespace_shorter. by intros ->. }
      destruct (IH (parent_namespace p)) as (r & Hr & Hspec); [lia|].
      exists r. split; [done|]. destruct r as [m|].
      * destruct Hspec as (a & Ha & Hm). exists a. split; [|done]. by eapply rtc_l.
      * intros a Ha. inversion Ha as [|x y z Hy Hrest]; subst; [done|]. by apply Hspec.
Qed.

End NamespaceRegistry.

(** ** The backend interface: trait [StorageBackend] *)
Class StorageBackend (S : Type) : Type := {
  sb_get : option AuthContext.t -> string -> string -> S -> res StorageError.t bytes;
  sb_get_versioned : option AuthContext.t -> string -> string -> S ->
    res StorageError.t (bytes * VersionInfo.t);
  sb_get_version : option AuthContext.t -> string -> string -> N -> S ->
    res StorageError.t (bytes * VersionInfo.t);
  sb_list_versions : option AuthContext.t -> string -> string -> S ->
    res StorageError.t (list VersionInfo.t);
  sb_diff_versions : option AuthContext.t -> string -> string -> N -> N -> S ->
    res StorageError.t (VersionDiff bytes);
  sb_set : N -> option AuthContext.t -> string -> string -> bytes -> stm S StorageError.t unit;
  sb_contains : option AuthContext.t -> string -> string -> S -> res StorageError.t bool;
  sb_list_keys : option AuthContext.t -> string -> option string -> S ->
    res StorageError.t (list string);
  sb_list_namespaces : option AuthContext.t -> string -> S ->
    res StorageError.t (list NamespaceMetadata);
  sb_create_account : N -> option AuthContext.t -> string -> N -> stm S StorageError.t unit;
  sb_create_namespace : N -> option AuthContext.t -> string -> N -> option string ->
    stm S StorageError.t unit;
  sb_check_permission : option AuthContext.t -> string -> string -> S -> res StorageError.t unit;
  sb_begin_transaction : stm S StorageError.t unit;
  sb_commit_transaction : stm S StorageError.t unit;
  sb_rollback_transaction : stm S StorageError.t unit;
  sb_get_audit_log : option AuthContext.t -> option string -> option string -> nat -> S ->
    res StorageError.t (list StorageEvent);
  sb_delete : N -> option AuthContext.t -> string -> string -> stm S StorageError.t unit;
  sb_get_usage : option AuthContext.t -> string -> S -> res StorageError.t N;
}.

(** What the clients rely on: a backend presents a map from namespace and key
    to bytes; reads return it under a permission that does not depend on the
    contents; a successful write changes one entry, a failed one none. *)
Class StorageLaws (S : Type) `{!StorageBackend S} : Type := {
  view : S -> string -> string -> option bytes;
  permitted : option AuthContext.t -> string -> string -> res StorageError.t unit;
  law_check : forall auth action ns s, sb_check_permission auth action ns s = permitted auth action ns;
  law_get : forall auth ns k s,
    sb_get auth ns k s =
    (permitted auth "read" ns ≫= fun _ =>
     match view s ns k with
     | Some v => Ok v
     | None => Err (StorageError.NotFound (ns +:+ ":" +:+ k))
     end);
  law_contains : forall auth ns k s b,
    sb_contains auth ns k s = Ok b -> b = bool_decide (is_Some (view s ns k));
  law_set_ok : forall now auth ns k v s s',
    sb_set now auth ns k v s = (s', Ok tt) ->
    forall ns' k', view s' ns' k' = if decide (ns' = ns /\ k' = k) then Some v else view s ns' k';
  law_set_fail : forall now auth ns k v s s' r,
    sb_set now auth ns k v s = (s', r) -> r <> Ok tt ->
    forall ns' k', view s' ns' k' = view s ns' k';
  law_set_denied : forall now auth ns k v s e,
    permitted auth "write" ns = Err e -> sb_set now auth ns k v s = (s, Err e);
}.

(** Two states of a backend that show the same contents. *)
Definition view_equiv {S} `{StorageLaws S} (s s' : S) : Prop :=
  forall ns k, view s ns k = view s' ns k.

#[global] Instance view_equiv_equivalence {S} `{StorageLaws S} : Equivalence view_equiv.
Proof.
  split; [by intros s ns k|by intros s s' H1 ns k|].
  intros s1 s2 s3 H1 H2 ns k. by rewrite (H1 ns k), (H2 ns k).
Qed.

(** Reading respects it. *)
#[global] Instance sb_get_proper {S} `{StorageLaws S} auth ns k :
  Proper (view_equiv ==> (=)) (sb_get auth ns k).
Proof. intros s s' Hs. rewrite !law_get. by rewrite (Hs ns k). Qed.

(** ** Trait [StorageExtensions]: JSON values over any backend

    [serde_json] is a parameter: [to_vec] and [from_slice] with their error
    texts, and the type name used in error values. *)
Module StorageExtensions.

Section Json.

Context {S : Type} `{StorageBackend S} {T : Type}.
Context (to_vec : T -> res string bytes) (from_slice : bytes -> res string T) (type_name : string).

Definition ser_error (details : string) : StorageError.t :=
  StorageError.SerializationError type_name details.

Definition get_json (auth : option AuthContext.t) (ns k : string) (s : S) : res StorageError.t T :=
  b ← sb_get auth ns k s; map_err ser_error (from_slice b).

Definition set_json (now : N) (auth : option AuthContext.t) (ns k : string) (value : T) :
    stm S StorageError.t unit :=
  b ← lift (map_err ser_error (to_vec value)); sb_set now auth ns k b.

Definition get_version_json (auth : option AuthContext.t) (ns k : string) (version : N) (s : S) :
    res StorageError.t (option T) :=
  match sb_get_version auth ns k version s with
  | Ok (b, _) => map_err ser_error (Some <$> from_slice b)
  | Err (StorageError.NotFound _) => Ok None
  | Err e => Err e
  | Panic m => Panic m
  | OutOfFuel => OutOfFuel
  end.

Definition set_json_authed (now : N) (auth_context : AuthContext.t) (ns k : string) (value : T) :
    stm S StorageError.t unit := set_json now (Some auth_context) ns k value.
Definition get_json_authed (auth_context : AuthContext.t) (ns k : string) (s : S) :
    res StorageError.t T := get_json (Some auth_context) ns k s.

(** The version check made when a version is expected and the key exists. *)
Definition check_expected (auth : option AuthContext.t) (ns k : string) (expected : N) (s : S) :
    res StorageError.t unit :=
  sb_contains auth ns k s ≫= fun present : bool =>
  if present then
    sb_get_versioned auth ns k s ≫= fun p : bytes * VersionInfo.t =>
    let info := p.2 in
    if (VersionInfo.version info =? expected)%N then Ok tt
    else Err (StorageError.VersionConflict (VersionInfo.version info) expected k)
  else Ok tt.

Definition set_json_versioned (now : N) (auth : option AuthContext.t) (ns k : string) (value : T)
    (expected_version : option N) : stm S StorageError.t N :=
  let check_version : stm S StorageError.t unit := fun s =>
    match expected_version with
    | Some expected => (s, check_expected auth ns k expected s)
    | None => (s, Ok tt)
    end in
  let read_version : stm S StorageError.t N := fun s =>
    (s, (fun p => VersionInfo.version p.2) <$> sb_get_versioned auth ns k s) in
  check_version ≫= fun _ => set_json now auth ns k value ≫= fun _ =>
  read_version.

End Json.

Definition contains_authed {S} `{StorageBackend S} (auth_context : AuthContext.t) (ns k : string)
    (s : S) : res StorageError.t bool := sb_contains (Some auth_context) ns k s.
Definition list_keys_authed {S} `{StorageBackend S} (auth_context : AuthContext.t) (ns : string)
    (prefix : option string) (s : S) : res StorageError.t (list string) :=
  sb_list_keys (Some auth_context) ns prefix s.
Definition delete_authed {S} `{StorageBackend S} (now : N) (auth_context : AuthContext.t)
    (ns k : string) : stm S StorageError.t unit := sb_delete now (Some auth_context) ns k.

(** The identity lookup passes no authentication context. *)
Definition get_identity {S} `{StorageBackend S} (from_slice : bytes -> res string Identity.t)
    (identity_id : string) (s : S) : res StorageError.t Identity.t :=
  b ← sb_get None "identity" ("identities/" +:+ identity_id) s;
  map_err (StorageError.SerializationError "Identity") (from_slice b).

End StorageExtensions.
