(* ===== verification/InMemory.v ===== *)
(** * The in-memory backend: storage/implementations/in_memory.rs

    Namespaces of keys of bytes, version histories, quota accounts, an audit
    log, and a stack of undo logs for nested transactions.  Every method of the
    trait is here, in the order of the file; the [StorageBackend] instance and
    its laws follow, then the theorems about quotas, permissions, versions and
    transactions. *)
From S2P Require Import Prelude Float64 Values Ops Auth Storage.

Module InMemoryStorage.

Record t : Type := {
  data : gmap string (gmap string bytes);
  versions : gmap string (gmap string VersionInfo.t);
  accounts : gmap string ResourceAccount.t;
  audit_log : list StorageEvent;
  transaction_stack : list (list (string * string * option bytes));
}.

Definition new : t :=
  {| data := ∅; versions := ∅; accounts := ∅; audit_log := []; transaction_stack := [] |}.

Definition set_data (d : gmap string (gmap string bytes)) (s : t) : t :=
  {| data := d; versions := versions s; accounts := accounts s; audit_log := audit_log s;
     transaction_stack := transaction_stack s |}.
Definition set_versions (v : gmap string (gmap string VersionInfo.t)) (s : t) : t :=
  {| data := data s; versions := v; accounts := accounts s; audit_log := audit_log s;
     transaction_stack := transaction_stack s |}.
Definition set_accounts (a : gmap string ResourceAccount.t) (s : t) : t :=
  {| data := data s; versions := versions s; accounts := a; audit_log := audit_log s;
     transaction_stack := transaction_stack s |}.
Definition set_audit_log (l : list StorageEvent) (s : t) : t :=
  {| data := data s; versions := versions s; accounts := accounts s; audit_log := l;
     transaction_stack := transaction_stack s |}.
Definition set_transactions (ts : list (list (string * string * option bytes))) (s : t) : t :=
  {| data := data s; versions := versions s; accounts := accounts s; audit_log := audit_log s;
     transaction_stack := ts |}.

Definition make_internal_key (ns k : string) : string := ns +:+ ":" +:+ k.

(** The innermost transaction is the head of the stack here; its log is in the
    order of the writes. *)
Definition record_for_rollback (ns k : string) (old_value : option bytes) (s : t) : t :=
  match transaction_stack s with
  | current :: outer => set_transactions ((current ++ [(ns, k, old_value)]) :: outer) s
  | [] => s
  end.

Definition emit_event (now : N) (ty : string) (auth : AuthContext.t) (ns k details : string) (s : t) : t :=
  set_audit_log (audit_log s ++
    [{| event_type := ty; event_user_id := AuthContext.user_id_cloneable auth;
        event_namespace := ns; event_key := k; event_timestamp := now; event_details := details |}]) s.

(** [self.data.get(namespace).and_then(|ns| ns.get(key))]. *)
Definition lookup_data (ns k : string) (s : t) : option bytes :=
  ns_data ← data s !! ns; ns_data !! k.
Definition lookup_version (ns k : string) (s : t) : option VersionInfo.t :=
  ns_versions ← versions s !! ns; ns_versions !! k.

Definition permission_denied {A} (user action key : string) : res StorageError.t A :=
  Err (StorageError.PermissionDenied user action key).

Definition check_permission (auth : option AuthContext.t) (action ns : string) :
    res StorageError.t unit :=
  match auth with
  | None => permission_denied "anonymous" action ns
  | Some auth =>
      if AuthContext.has_role "global" "admin" auth then Ok tt
      else if AuthContext.has_role ns "admin" auth then Ok tt
      else
        let check required_role :=
          if existsb (fun role => AuthContext.has_role ns role auth) required_role then Ok tt
          else permission_denied (AuthContext.user_id_cloneable auth) action ns in
        if String.eqb action "read" then check ["reader"; "writer"; "admin"]
        else if String.eqb action "write" then check ["writer"; "admin"]
        else permission_denied (AuthContext.user_id_cloneable auth)
               ("unknown action: " +:+ action) ns
  end.

Definition get (auth : option AuthContext.t) (ns k : string) (s : t) : res StorageError.t bytes :=
  check_permission auth "read" ns ≫= fun _ =>
  match lookup_data ns k s with
  | Some v => Ok v
  | None => Err (StorageError.NotFound (make_internal_key ns k))
  end.

Definition get_versioned (auth : option AuthContext.t) (ns k : string) (s : t) :
    res StorageError.t (bytes * VersionInfo.t) :=
  check_permission auth "read" ns ≫= fun _ =>
  match lookup_data ns k s with
  | None => Err (StorageError.NotFound (make_internal_key ns k))
  | Some v =>
      match lookup_version ns k s with
      | Some version => Ok (v, version)
      | None => Err (StorageError.TransactionError ("No version info for existing key " +:+ k))
      end
  end.

Definition size_of (v : option bytes) : N := match v with Some b => str_len b | None => 0 end.

(** The quota step of [set]: charge the growth to the writer's account, refund
    a shrinking value if there is an account. *)
Definition account_write (now : N) (user internal_key : string) (value_size existing_size : N) :
    stm t StorageError.t unit := fun s =>
  if (existing_size <? value_size)%N then
    match accounts s !! user with
    | None => (s, permission_denied user "write (no account)" internal_key)
    | Some account =>
        let '(account', r) := ResourceAccount.add_usage now (value_size - existing_size) account in
        (set_accounts (<[user := account']> (accounts s)) s, r)
    end
  else if (value_size <? existing_size)%N then
    match accounts s !! user with
    | Some account =>
        (set_accounts
           (<[user := ResourceAccount.reduce_usage now (existing_size - value_size) account]>
              (accounts s)) s, Ok tt)
    | None => (s, Ok tt)
    end
  else (s, Ok tt).

Definition insert_data (ns k : string) (v : bytes) (s : t) : t :=
  set_data (<[ns := <[k := v]> (default ∅ (data s !! ns))]> (data s)) s.

Definition bump_version (now : N) (user ns k : string) (s : t) : t :=
  let next := match lookup_version ns k s with
              | Some v => VersionInfo.next_version now user v
              | None => VersionInfo.new now user
              end in
  set_versions (<[ns := <[k := next]> (default ∅ (versions s !! ns))]> (versions s)) s.

Definition set (now : N) (auth : option AuthContext.t) (ns k : string) (value : bytes) :
    stm t StorageError.t unit := fun s0 =>
  match check_permission auth "write" ns with
  | Ok _ =>
      let value_size := str_len value in
      let internal_key := make_internal_key ns k in
      let existing_value := lookup_data ns k s0 in
      let existing_size := size_of existing_value in
      let s1 := record_for_rollback ns k existing_value s0 in
      match auth with
      | None => (s1, permission_denied "anonymous" "write" internal_key)
      | Some auth_context =>
          let user := AuthContext.user_id_cloneable auth_context in
          (account_write now user internal_key value_size existing_size ≫= fun _ =>
           modify (insert_data ns k value) ≫= fun _ =>
           modify (bump_version now user ns k) ≫= fun _ =>
           modify (emit_event now "write" auth_context ns k
             ("Value updated (" +:+ u64_to_string value_size +:+ " bytes)"))) s1
      end
  | Err e => (s0, Err e)
  | Panic m => (s0, Panic m)
  | OutOfFuel => (s0, OutOfFuel)
  end.

Definition create_account (now : N) (auth : option AuthContext.t) (user_id : string) (quota : N) :
    stm t StorageError.t unit := fun s =>
  match auth with
  | None => (s, permission_denied "anonymous" "create_account" user_id)
  | Some auth_context =>
      if negb (AuthContext.has_role "global" "admin" auth_context) then
        (s, permission_denied (AuthContext.user_id_cloneable auth_context) "create_account" user_id)
      else
        match accounts s !! user_id with
        | Some _ =>
            (s, Err (StorageError.TransactionError ("Account already exists for user " +:+ user_id)))
        | None =>
            (emit_event now "account_created" auth_context "global" user_id
               ("Account created with quota " +:+ u64_to_string quota +:+ " bytes")
               (set_accounts (<[user_id := ResourceAccount.new now user_id quota]> (accounts s)) s),
             Ok tt)
        end
  end.

Definition begin_transaction : stm t StorageError.t unit := fun s =>
  (set_transactions ([] :: transaction_stack s) s, Ok tt).

Definition commit_transaction : stm t StorageError.t unit := fun s =>
  match transaction_stack s with
  | [] => (s, Err (StorageError.TransactionError "No active transaction to commit"))
  | _ :: outer => (set_transactions outer s, Ok tt)
  end.

(** Undo one recorded write; the namespace entry is created if missing. *)
Definition undo (op : string * string * option bytes) (s : t) : t :=
  let '(ns, k, old_value_opt) := op in
  let ns_data := default ∅ (data s !! ns) in
  match old_value_opt with
  | Some old_value => set_data (<[ns := <[k := old_value]> ns_data]> (data s)) s
  | None => set_data (<[ns := base.delete k ns_data]> (data s)) s
  end.

Definition rollback_transaction : stm t StorageError.t unit := fun s =>
  match transaction_stack s with
  | ops :: outer => (foldr undo (set_transactions outer s) ops, Ok tt)
  | [] => (s, Err (StorageError.TransactionError "No active transaction to rollback"))
  end.

Definition opt_match (filter_by : option string) (value : string) : bool :=
  match filter_by with Some x => String.eqb value x | None => true end.

Definition get_audit_log (auth : option AuthContext.t) (ns ty : option string) (limit : nat) (s : t) :
    res StorageError.t (list StorageEvent) :=
  let effective_ns := default "global" ns in
  match auth with
  | None =>
      Err (StorageError.AuthenticationError
             ("Authentication required for view_audit_log on " +:+ effective_ns))
  | Some auth =>
      if negb (AuthContext.has_role "global" "admin" auth) &&
         negb (AuthContext.has_role effective_ns "admin" auth)
      then permission_denied (AuthContext.user_id_cloneable auth) "view_audit_log" effective_ns
      else
        Ok (take limit (rev (filter (fun e =>
              opt_match ns (event_namespace e) && opt_match ty (event_type e) = true)
              (audit_log s))))
  end.

(** The history of a key, or the error both version queries return. *)
Definition version_info (ns k : string) (s : t) : res StorageError.t VersionInfo.t :=
  match versions s !! ns with
  | None => Err (StorageError.NotFound k)
  | Some ns_versions =>
      match ns_versions !! k with
      | None => Err (StorageError.NotFound k)
      | Some v => Ok v
      end
  end.

(** Past contents are not stored: versions 1 to 3 return fixed texts and any
    other existing version the current value. *)
Definition get_version (auth : option AuthContext.t) (ns k : string) (version : N) (s : t) :
    res StorageError.t (bytes * VersionInfo.t) :=
  check_permission auth "read" ns ≫= fun _ =>
  version_info ns k s ≫= fun info =>
  let missing := k +:+ " (version " +:+ u64_to_string version +:+ ")" in
  match VersionInfo.find_version version (VersionInfo.get_version_history info) with
  | None => Err (StorageError.NotFound missing)
  | Some target_version =>
      match lookup_data ns k s with
      | None => Err (StorageError.NotFound missing)
      | Some current =>
          Ok (if (version =? 1)%N then "Initial draft"
              else if (version =? 2)%N then "Revised draft"
              else if (version =? 3)%N then "Final version"
              else current, target_version)
      end
  end.

Definition list_versions (auth : option AuthContext.t) (ns k : string) (s : t) :
    res StorageError.t (list VersionInfo.t) :=
  check_permission auth "read" ns ≫= fun _ =>
  VersionInfo.get_version_history <$> version_info ns k s.

Definition diff_versions (auth : option AuthContext.t) (ns k : string) (v1 v2 : N) (s : t) :
    res StorageError.t (VersionDiff bytes) :=
  check_permission auth "read" ns ≫= fun _ =>
  Err (StorageError.TransactionError "Version diffing not implemented for InMemoryStorage").

(** Keys and namespaces come out of a [HashMap] in an unspecified order; the
    lists are meant up to permutation. *)
Definition list_keys (auth : option AuthContext.t) (ns : string) (prefix : option string) (s : t) :
    res StorageError.t (list string) :=
  check_permission auth "read" ns ≫= fun _ =>
  Ok match data s !! ns with
     | Some ns_data =>
         filter (fun k => match prefix with Some p => str_starts_with p k | None => true end = true)
           (map_to_list ns_data).*1
     | None => []
     end.

Definition list_namespaces (auth : option AuthContext.t) (parent_namespace : string) (s : t) :
    res StorageError.t (list NamespaceMetadata) :=
  check_permission auth "read" "global" ≫= fun _ =>
  Ok ((fun ns =>
         {| path := ns;
            owner := match auth with Some a => AuthContext.user_id_cloneable a | None => "system" end;
            quota_bytes := 1000000; used_bytes := 0; parent := Some parent_namespace;
            attributes := ∅ |}) <$>
      filter (fun ns => str_starts_with parent_namespace ns && negb (String.eqb ns parent_namespace) = true)
        (map_to_list (data s)).*1).

Definition create_namespace (now : N) (auth : option AuthContext.t) (ns : string) (quota : N)
    (parent_namespace : option string) : stm t StorageError.t unit := fun s =>
  match auth with
  | None => (s, Panic "called `Option::unwrap()` on a `None` value")
  | Some auth =>
      if negb (AuthContext.has_role "global" "admin" auth) then
        (s, permission_denied (AuthContext.user_id_cloneable auth) "create_namespace" ns)
      else
        let create s :=
          match data s !! ns with
          | Some _ => (s, Ok tt)
          | None =>
              (emit_event now "namespace_created" auth "global" ns
                 ("Namespace created with quota " +:+ u64_to_string quota +:+ " bytes")
                 (set_versions (<[ns := ∅]> (versions s)) (set_data (<[ns := ∅]> (data s)) s)),
               Ok tt)
          end in
        match parent_namespace with
        | Some parent_ns =>
            match data s !! parent_ns with
            | None => (s, Err (StorageError.NotFound parent_ns))
            | Some _ => create s
            end
        | None => create s
        end
  end.

Definition refund (now : N) (user : string) (bytes : N) (s : t) : t :=
  match accounts s !! user with
  | Some account =>
      set_accounts (<[user := ResourceAccount.reduce_usage now bytes account]> (accounts s)) s
  | None => s
  end.

Definition delete_data (ns k : string) (s : t) : t :=
  match data s !! ns with
  | Some ns_data => set_data (<[ns := base.delete k ns_data]> (data s)) s
  | None => s
  end.
Definition delete_version (ns k : string) (s : t) : t :=
  match versions s !! ns with
  | Some ns_versions => set_versions (<[ns := base.delete k ns_versions]> (versions s)) s
  | None => s
  end.

Definition delete (now : N) (auth : option AuthContext.t) (ns k : string) :
    stm t StorageError.t unit := fun s =>
  match check_permission auth "write" ns with
  | Ok _ =>
      match lookup_data ns k s with
      | None => (s, Err (StorageError.NotFound (make_internal_key ns k)))
      | Some value =>
          let s1 := record_for_rollback ns k (Some value) s in
          match auth with
          | None => (s1, Panic "called `Option::unwrap()` on a `None` value")
          | Some auth_context =>
              let user := AuthContext.user_id_cloneable auth_context in
              (emit_event now "delete" auth_context ns k "Key deleted"
                 (delete_version ns k (delete_data ns k (refund now user (str_len value) s1))), Ok tt)
          end
      end
  | Err e => (s, Err e)
  | Panic m => (s, Panic m)
  | OutOfFuel => (s, OutOfFuel)
  end.

Definition get_usage (auth : option AuthContext.t) (ns : string) (s : t) : res StorageError.t N :=
  check_permission auth "read" ns ≫= fun _ =>
  Ok match data s !! ns with
     | Some ns_data => foldr N.add 0%N (str_len <$> (map_to_list ns_data).*2)
     | None => 0%N
     end.

Definition contains (auth : option AuthContext.t) (ns k : string) (s : t) : res StorageError.t bool :=
  Ok match data s !! ns with
     | Some ns_data => bool_decide (is_Some (ns_data !! k))
     | None => false
     end.

#[global] Instance backend : StorageBackend t := {|
  sb_get := get;
  sb_get_versioned := get_versioned;
  sb_get_version := get_version;
  sb_list_versions := list_versions;
  sb_diff_versions := diff_versions;
  sb_set := set;
  sb_contains := contains;
  sb_list_keys := list_keys;
  sb_list_namespaces := list_namespaces;
  sb_create_account := create_account;
  sb_create_namespace := create_namespace;
  sb_check_permission := fun auth action ns _ => check_permission auth action ns;
  sb_begin_transaction := begin_transaction;
  sb_commit_transaction := commit_transaction;
  sb_rollback_transaction := rollback_transaction;
  sb_get_audit_log := get_audit_log;
  sb_delete := delete;
  sb_get_usage := get_usage;
|}.

(** ** Requests, as a client sends them *)
Inductive request : Type :=
  | Set_ (now : N) (auth : option AuthContext.t) (ns k : string) (v : bytes)
  | Delete (now : N) (auth : option AuthContext.t) (ns k : string)
  | CreateAccount (now : N) (auth : option AuthContext.t) (user : string) (quota : N)
  | CreateNamespace (now : N) (auth : option AuthContext.t) (ns : string) (quota : N) (par : option string)
  | Begin
  | Commit
  | Rollback.

Definition run (r : request) : stm t StorageError.t unit :=
  match r with
  | Set_ now auth ns k v => set now auth ns k v
  | Delete now auth ns k => delete now auth ns k
  | CreateAccount now auth user quota => create_account now auth user quota
  | CreateNamespace now auth ns quota par => create_namespace now auth ns quota par
  | Begin => begin_transaction
  | Commit => commit_transaction
  | Rollback => rollback_transaction
  end.

(** The state after some requests, whatever they returned. *)
Definition after (rs : list request) (s : t) : t := foldl (fun s r => (run r s).1) s rs.

Definition transactional (r : request) : bool :=
  match r with Begin | Commit | Rollback => true | _ => false end.

(** ** The parts of a state *)

Lemma check_permission_cases auth action ns :
  check_permission auth action ns = Ok tt \/ exists e, check_permission auth action ns = Err e.
Proof.
  unfold check_permission, permission_denied. destruct auth as [a|]; [|eauto].
  repeat (case_match; eauto).
Qed.

Lemma lookup_insert_data ns k v s ns' k' :
  lookup_data ns' k' (insert_data ns k v s) =
  if decide (ns' = ns /\ k' = k) then Some v else lookup_data ns' k' s.
Proof.
  unfold lookup_data, insert_data. cbn. destruct (decide (ns' = ns)) as [->|Hns].
  - rewrite lookup_insert_eq. cbn. destruct (decide (k' = k)) as [->|Hk].
    + rewrite lookup_insert_eq. by rewrite decide_True.
    + rewrite lookup_insert_ne by done. rewrite decide_False by tauto.
      destruct (data s !! ns); cbn; [done|apply lookup_empty].
  - rewrite lookup_insert_ne by done. by rewrite decide_False by tauto.
Qed.

Lemma lookup_delete_data ns k s ns' k' :
  lookup_data ns' k' (delete_data ns k s) =
  if decide (ns' = ns /\ k' = k) then None else lookup_data ns' k' s.
Proof.
  unfold lookup_data, delete_data. destruct (data s !! ns) as [d|] eqn:Hd; cbn.
  - destruct (decide (ns' = ns)) as [->|Hns].
    + rewrite lookup_insert_eq, Hd. cbn. destruct (decide (k' = k)) as [->|Hk].
      * rewrite lookup_delete_eq. by rewrite decide_True.
      * rewrite lookup_delete_ne by done. by rewrite decide_False by tauto.
    + rewrite lookup_insert_ne by done. by rewrite decide_False by tauto.
  - destruct (decide (ns' = ns /\ k' = k)) as [[-> ->]|]; [by rewrite Hd|done].
Qed.

Lemma lookup_undo ns k old s ns' k' :
  lookup_data ns' k' (undo (ns, k, old) s) =
  if decide (ns' = ns /\ k' = k) then old else lookup_data ns' k' s.
Proof.
  unfold lookup_data, undo. destruct old as [v|]; cbn.
  all: destruct (decide (ns' = ns)) as [->|Hns];
    [|rewrite lookup_insert_ne by done; by rewrite decide_False by tauto].
  all: rewrite lookup_insert_eq; cbn; destruct (decide (k' = k)) as [->|Hk].
  - rewrite lookup_insert_eq. by rewrite decide_True.
  - rewrite lookup_insert_ne by done. rewrite decide_False by tauto.
    destruct (data s !! ns); cbn; [done|apply lookup_empty].
  - rewrite lookup_delete_eq. by rewrite decide_True.
  - rewrite lookup_delete_ne by done. rewrite decide_False by tauto.
    destruct (data s !! ns); cbn; [done|apply lookup_empty].
Qed.

Lemma lookup_record ns k old s ns' k' :
  lookup_data ns' k' (record_for_rollback ns k old s) = lookup_data ns' k' s.
Proof. unfold record_for_rollback. by destruct (transaction_stack s). Qed.

Lemma data_account_write now user key n m s : data (account_write now user key n m s).1 = data s.
Proof.
  unfold account_write. repeat case_match; try done. Qed.

Lemma account_write_frame now user key n m s :
  let s' := (account_write now user key n m s).1 in
  data s' = data s /\ versions s' = versions s /\ audit_log s' = audit_log s /\
  transaction_stack s' = transaction_stack s /\
  (forall u, u <> user -> accounts s' !! u = accounts s !! u).
Proof.
  unfold account_write. repeat case_match; cbn; split_and?; try done;
    intros u Hu; by rewrite lookup_insert_ne.
Qed.

Lemma account_write_err now user key n m s s' r :
  account_write now user key n m s = (s', r) -> r = Ok tt \/ exists e, r = Err e.
Proof.
  unfold account_write, ResourceAccount.add_usage, permission_denied.
  repeat case_match; intros [= <- <-]; simplify_eq; eauto.
Qed.

(** Every outcome of [set]: refused by the permission check, refused by the
    quota, or done. *)
Lemma set_cases now auth ns k v s s' r : set now auth ns k v s = (s', r) ->
  (exists e, check_permission auth "write" ns = Err e /\ r = Err e /\ s' = s) \/
  (exists a, auth = Some a /\ check_permission auth "write" ns = Ok tt /\
   let user := AuthContext.user_id_cloneable a in
   let old := lookup_data ns k s in
   let s0 := record_for_rollback ns k old s in
   let charged := account_write now user (make_internal_key ns k) (str_len v) (size_of old) s0 in
   (exists e, charged.2 = Err e /\ r = Err e /\ s' = charged.1) \/
   (charged.2 = Ok tt /\ r = Ok tt /\
    s' = emit_event now "write" a ns k ("Value updated (" +:+ u64_to_string (str_len v) +:+ " bytes)")
           (bump_version now user ns k (insert_data ns k v charged.1)))).
Proof.
  unfold set. destruct (check_permission_cases auth "write" ns) as [Hc|[e Hc]]; rewrite Hc.
  - destruct auth as [a|]; [|done]. intros Hset. right. exists a. do 2 (split; [done|]). cbv zeta.
    unfold mbind, stm_bind in Hset.
    destruct (account_write _ _ _ _ _ _) as [s1 r1] eqn:Hacc. cbn [fst snd].
    destruct (account_write_err _ _ _ _ _ _ _ _ Hacc) as [->|[e ->]].
    + right. unfold modify in Hset. simplify_eq. done.
    + left. simplify_eq. eauto.
  - intros [= <- <-]. left. eauto.
Qed.

Lemma lookup_data_of_data s s' ns k : data s' = data s -> lookup_data ns k s' = lookup_data ns k s.
Proof. unfold lookup_data. by intros ->. Qed.

Lemma lookup_set_ok now auth ns k v s s' : set now auth ns k v s = (s', Ok tt) ->
  forall ns' k', lookup_data ns' k' s' = if decide (ns' = ns /\ k' = k) then Some v else lookup_data ns' k' s.
Proof.
  intros H ns' k'. destruct (set_cases _ _ _ _ _ _ _ _ H) as [(e & _ & He & _)|(a & -> & _ & [(e & _ & He & _)|(_ & _ & ->)])];
    [done|done|].
  cbv zeta. set (charged := account_write _ _ _ _ _ _).
  transitivity (lookup_data ns' k' (insert_data ns k v charged.1)); [done|].
  rewrite lookup_insert_data. case_decide; [done|].
  erewrite lookup_data_of_data by apply data_account_write. apply lookup_record.
Qed.

Lemma lookup_set_fail now auth ns k v s s' r : set now auth ns k v s = (s', r) -> r <> Ok tt ->
  forall ns' k', lookup_data ns' k' s' = lookup_data ns' k' s.
Proof.
  intros H Hr ns' k'. destruct (set_cases _ _ _ _ _ _ _ _ H) as [(e & _ & _ & ->)|(a & -> & _ & [(e & _ & _ & ->)|(_ & -> & _)])];
    [done| |done].
  cbv zeta. erewrite lookup_data_of_data by apply data_account_write. apply lookup_record.
Qed.

#[global] Instance laws : StorageLaws t.
Proof.
  refine {| view := fun s ns k => lookup_data ns k s; permitted := check_permission |}.
  - reflexivity.
  - reflexivity.
  - intros auth ns k s b [= <-]. cbn. unfold lookup_data. destruct (data s !! ns); [done|].
    by rewrite bool_decide_eq_false_2 by (intros []; done).
  - apply lookup_set_ok.
  - apply lookup_set_fail.
  - intros now auth ns k v s e He. unfold sb_set, backend, set. by rewrite He.
Defined.

(** ** What [set] does, on every branch *)

(** The writer can pay for the growth of the value. *)
Definition charge_ok (user : string) (new_size old_size : N) (s : t) : bool :=
  if (old_size <? new_size)%N then
    match accounts s !! user with
    | Some account => ResourceAccount.can_store (new_size - old_size) account
    | None => false
    end
  else true.

Lemma account_write_outcome now user key n m s :
  if charge_ok user n m s then (account_write now user key n m s).2 = Ok tt
  else (exists e, (account_write now user key n m s).2 = Err e) /\
       accounts (account_write now user key n m s).1 = accounts s.
Proof.
  unfold charge_ok, account_write, ResourceAccount.add_usage, permission_denied.
  destruct (m <? n)%N; [|by repeat case_match].
  destruct (accounts s !! user) as [acc|] eqn:Hacc; [|by split; [eexists|]].
  destruct (ResourceAccount.can_store _ acc); cbn; [done|].
  split; [by eexists|]. by apply insert_id.
Qed.

Lemma charge_ok_record user n m ns k old s :
  charge_ok user n m (record_for_rollback ns k old s) = charge_ok user n m s.
Proof. unfold charge_ok, record_for_rollback. by destruct (transaction_stack s). Qed.

Lemma record_frame ns k old s :
  let s' := record_for_rollback ns k old s in
  data s' = data s /\ versions s' = versions s /\ accounts s' = accounts s /\ audit_log s' = audit_log s.
Proof. unfold record_for_rollback. by destruct (transaction_stack s). Qed.

Lemma versions_account_write now user key n m s :
  versions (account_write now user key n m s).1 = versions s.
Proof. apply (account_write_frame now user key n m s). Qed.

(** The version recorded by a successful write. *)
Lemma set_ok_version now a ns k v s s' : set now (Some a) ns k v s = (s', Ok tt) ->
  lookup_version ns k s' =
    Some (match lookup_version ns k s with
          | Some ver => VersionInfo.next_version now (AuthContext.user_id_cloneable a) ver
          | None => VersionInfo.new now (AuthContext.user_id_cloneable a)
          end).
Proof.
  intros H. destruct (set_cases _ _ _ _ _ _ _ _ H) as [(e & _ & He & _)|(a' & [= <-] & _ & [(e & _ & He & _)|(_ & _ & ->)])];
    [done|done|].
  unfold lookup_version at 1. cbn. rewrite lookup_insert_eq. cbn. rewrite lookup_insert_eq.
  unfold lookup_version. cbn. rewrite versions_account_write.
  by destruct (record_frame ns k (lookup_data ns k s) s) as (_ & -> & _).
Qed.

(** C10. A permitted write succeeds exactly when the writer's quota covers the
    growth.  Then the key reads the new value and nothing else changes, its
    version is the successor of the previous one (or 1), and one event is
    logged; otherwise contents, versions, accounts and log are as before. *)
Theorem set_outcome now a ns k v s :
  check_permission (Some a) "write" ns = Ok tt ->
  let s' := (set now (Some a) ns k v s).1 in
  let r := (set now (Some a) ns k v s).2 in
  if charge_ok (AuthContext.user_id_cloneable a) (str_len v) (size_of (lookup_data ns k s)) s then
    r = Ok tt /\
    (forall ns' k', lookup_data ns' k' s' =
       if decide (ns' = ns /\ k' = k) then Some v else lookup_data ns' k' s) /\
    lookup_version ns k s' =
      Some (match lookup_version ns k s with
            | Some ver => VersionInfo.next_version now (AuthContext.user_id_cloneable a) ver
            | None => VersionInfo.new now (AuthContext.user_id_cloneable a)
            end) /\
    (exists e, audit_log s' = audit_log s ++ [e] /\ event_key e = k /\ event_namespace e = ns)
  else
    (exists e, r = Err e) /\ data s' = data s /\ versions s' = versions s /\
    accounts s' = accounts s /\ audit_log s' = audit_log s.
Proof.
  intros Hp. destruct (set now (Some a) ns k v s) as [s' r] eqn:Hset. cbn [fst snd].
  pose proof (set_cases _ _ _ _ _ _ _ _ Hset) as [(e & He & _)|(a' & [= <-] & _ & Hcase)]; [congruence|].
  cbv zeta in Hcase.
  set (user := AuthContext.user_id_cloneable a) in *. set (old := lookup_data ns k s) in *.
  set (s0 := record_for_rollback ns k old s) in *.
  pose proof (account_write_outcome now user (make_internal_key ns k) (str_len v) (size_of old) s0) as Hout.
  pose proof (account_write_frame now user (make_internal_key ns k) (str_len v) (size_of old) s0) as
    (Hd & Hv & Hl & _).
  pose proof (record_frame ns k old s) as (Hd0 & Hv0 & Ha0 & Hl0). fold s0 in Hd0, Hv0, Ha0, Hl0.
  unfold s0 in Hout at 1. rewrite charge_ok_record in Hout. destruct (charge_ok user _ _ s).
  - destruct Hcase as [(e & He & _)|(_ & -> & ->)]; [congruence|]. split; [done|].
    split; [by apply (lookup_set_ok _ _ _ _ _ _ _ Hset)|]. split.
    + by eapply set_ok_version.
    + eexists. split; [cbn; by rewrite Hl, Hl0|done].
  - destruct Hout as [[e He] Ha]. destruct Hcase as [(e' & He' & -> & ->)|(Hok & _)]; [|congruence].
    split; [by eexists|]. rewrite Hd, Hv, Hl, Ha. done.
Qed.

(** ** Quotas *)
Definition quota_inv (s : t) : Prop :=
  map_Forall (fun _ a => ResourceAccount.within_quota a) (accounts s).

Lemma account_write_quota now user key n m s : quota_inv s -> quota_inv (account_write now user key n m s).1.
Proof.
  intros H. unfold account_write, quota_inv in *.
  destruct (m <? n)%N; [|destruct (n <? m)%N; [|done]];
    (destruct (accounts s !! user) as [acc|] eqn:Hacc; [|done]).
  - pose proof (ResourceAccount.add_usage_within_quota now (n - m) acc (H _ _ Hacc)) as Hw.
    destruct (ResourceAccount.add_usage _ _ _). by apply map_Forall_insert_2.
  - cbn. apply map_Forall_insert_2; [|done].
    apply ResourceAccount.reduce_usage_within_quota, (H _ _ Hacc).
Qed.

Lemma accounts_undo ops s : accounts (foldr undo s ops) = accounts s.
Proof. induction ops as [|[[ns k] [v|]] ops IH]; [done|..]; cbn; done. Qed.

Lemma quota_run r s : quota_inv s -> quota_inv (run r s).1.
Proof.
  intros H. destruct r as [now auth ns k v|now auth ns k|now auth u q|now auth ns q p| | |]; cbn [run].
  - destruct (set now auth ns k v s) as [s' r] eqn:E. unfold quota_inv in *.
    destruct (set_cases _ _ _ _ _ _ _ _ E) as [(e & _ & _ & ->)|(a & -> & _ & Hc)]; [done|].
    pose proof (record_frame ns k (lookup_data ns k s) s) as (_ & _ & Ha & _).
    cbv zeta in Hc. destruct Hc as [(e & _ & _ & ->)|(_ & _ & ->)]; cbn;
      apply account_write_quota; unfold quota_inv; by rewrite Ha.
  - unfold delete. destruct (check_permission_cases auth "write" ns) as [->|[e ->]]; [|done].
    destruct (lookup_data ns k s) as [b|]; [|done].
    destruct auth as [a|]; cbn; pose proof (record_frame ns k (Some b) s) as (_ & _ & Ha & _); unfold quota_inv in *; [|by rewrite Ha].
    unfold delete_version, delete_data, refund. cbn. rewrite Ha.
    destruct (accounts s !! _) as [acc|] eqn:Hacc; repeat case_match; cbn; rewrite ?Ha; try done.
    all: apply map_Forall_insert_2; [apply ResourceAccount.reduce_usage_within_quota, (H _ _ Hacc)|done].
  - unfold create_account. repeat case_match; try done. cbn. apply map_Forall_insert_2; [|done].
    unfold ResourceAccount.within_quota. cbn. lia.
  - unfold create_namespace. by repeat case_match.
  - done.
  - unfold commit_transaction. by destruct (transaction_stack s).
  - unfold rollback_transaction. destruct (transaction_stack s); [done|]. unfold quota_inv. cbn.
    by rewrite accounts_undo.
Qed.

(** C16. No account ever uses more than its quota, whatever requests are made. *)
Theorem quota_never_exceeded rs user account :
  accounts (after rs new) !! user = Some account ->
  (ResourceAccount.storage_used_bytes account <= ResourceAccount.storage_quota_bytes account)%N.
Proof.
  assert (H : forall s, quota_inv s -> quota_inv (after rs s)).
  { unfold after. induction rs as [|r rs IH]; intros s Hs; [done|]. apply IH, quota_run, Hs. }
  intros Ha. exact (H new (map_Forall_empty _) _ _ Ha).
Qed.

(** ** Permissions *)
Definition can_write (ns : string) (a : AuthContext.t) : bool :=
  AuthContext.has_role "global" "admin" a || AuthContext.has_role ns "admin" a
  || AuthContext.has_role ns "writer" a.
Definition can_read (ns : string) (a : AuthContext.t) : bool :=
  can_write ns a || AuthContext.has_role ns "reader" a.

Lemma check_permission_write a ns :
  check_permission (Some a) "write" ns =
  if can_write ns a then Ok tt else permission_denied (AuthContext.user_id_cloneable a) "write" ns.
Proof.
  unfold check_permission, can_write. cbn.
  by destruct (AuthContext.has_role "global" "admin" a), (AuthContext.has_role ns "admin" a),
    (AuthContext.has_role ns "writer" a).
Qed.

Lemma check_permission_read a ns :
  check_permission (Some a) "read" ns =
  if can_read ns a then Ok tt else permission_denied (AuthContext.user_id_cloneable a) "read" ns.
Proof.
  unfold check_permission, can_read, can_write. cbn.
  by destruct (AuthContext.has_role "global" "admin" a), (AuthContext.has_role ns "admin" a),
    (AuthContext.has_role ns "writer" a), (AuthContext.has_role ns "reader" a).
Qed.

Lemma check_write auth ns : check_permission auth "write" ns = Ok tt ->
  exists a, auth = Some a /\ can_write ns a = true.
Proof.
  destruct auth as [a|]; [|done]. rewrite check_permission_write.
  destruct (can_write ns a) eqn:E; [by eauto|done].
Qed.

Lemma check_read auth ns : check_permission auth "read" ns = Ok tt ->
  exists a, auth = Some a /\ can_read ns a = true.
Proof.
  destruct auth as [a|]; [|done]. rewrite check_permission_read.
  destruct (can_read ns a) eqn:E; [by eauto|done].
Qed.

Definition request_auth (r : request) : option AuthContext.t :=
  match r with
  | Set_ _ auth _ _ _ | Delete _ auth _ _ | CreateAccount _ auth _ _ | CreateNamespace _ auth _ _ _ => auth
  | _ => None
  end.

Lemma lookup_refund now u n s ns k : lookup_data ns k (refund now u n s) = lookup_data ns k s.
Proof. unfold refund. by destruct (accounts s !! u). Qed.
Lemma lookup_delete_version ns k s ns' k' : lookup_data ns' k' (delete_version ns k s) = lookup_data ns' k' s.
Proof. unfold delete_version. by destruct (versions s !! ns). Qed.

(** A deletion removes one key and leaves every other alone. *)
Lemma lookup_delete now auth ns k s ns' k' :
  lookup_data ns' k' (delete now auth ns k s).1 = lookup_data ns' k' s \/
  (check_permission auth "write" ns = Ok tt /\ ns' = ns /\ k' = k /\
   lookup_data ns' k' (delete now auth ns k s).1 = None).
Proof.
  unfold delete. destruct (check_permission_cases auth "write" ns) as [->|[e ->]]; [|by left].
  destruct (lookup_data ns k s) as [b|] eqn:Hb; [|by left].
  destruct auth as [a|]; cbn [fst]; [|left; apply lookup_record].
  assert (Hl : lookup_data ns' k' (emit_event now "delete" a ns k "Key deleted"
     (delete_version ns k (delete_data ns k
        (refund now (AuthContext.user_id_cloneable a) (str_len b) (record_for_rollback ns k (Some b) s))))) =
    if decide (ns' = ns /\ k' = k) then None else lookup_data ns' k' s).
  { transitivity (lookup_data ns' k' (delete_data ns k
      (refund now (AuthContext.user_id_cloneable a) (str_len b) (record_for_rollback ns k (Some b) s)))).
    - apply lookup_delete_version.
    - rewrite lookup_delete_data, lookup_refund, lookup_record. done. }
  rewrite Hl. case_decide as Hd; [|by left]. right. by destruct Hd.
Qed.

Lemma lookup_create_namespace now auth ns q p s ns' k' :
  lookup_data ns' k' (create_namespace now auth ns q p s).1 = lookup_data ns' k' s.
Proof.
  unfold create_namespace, permission_denied. repeat case_match; try done; cbn;
    unfold lookup_data; cbn; (destruct (decide (ns' = ns)) as [->|]; [|by rewrite lookup_insert_ne]);
    rewrite lookup_insert_eq; cbn; rewrite lookup_empty; by match goal with H : data s !! ns = None |- _ => rewrite H end.
Qed.

(** C15. Contents change only for a caller who may write in that namespace. *)
Theorem write_requires_permission r s ns k :
  transactional r = false ->
  lookup_data ns k (run r s).1 <> lookup_data ns k s ->
  exists a, request_auth r = Some a /\ can_write ns a = true.
Proof.
  intros Ht Hne. destruct r as [now auth n k0 v|now auth n k0|now auth u q|now auth n q p| | |];
    try discriminate; cbn [run request_auth] in *.
  - apply check_write. destruct (set now auth n k0 v s) as [s' r] eqn:E. cbn in Hne.
    destruct (set_cases _ _ _ _ _ _ _ _ E) as [(e & _ & _ & ->)|(a & -> & Hp & Hc)]; [done|].
    cbv zeta in Hc. destruct Hc as [(e & _ & Hr & _)|(_ & -> & _)].
    + exfalso. apply Hne. eapply lookup_set_fail; [exact E|]. by rewrite Hr.
    + rewrite (lookup_set_ok _ _ _ _ _ _ _ E) in Hne. by case_decide as Hd; [destruct Hd as [-> _]|].
  - apply check_write. destruct (lookup_delete now auth n k0 s ns k) as [Heq|(Hp & -> & _)]; [|done].
    by rewrite Heq in Hne.
  - exfalso. apply Hne. unfold create_account. by repeat case_match.
  - exfalso. apply Hne. apply lookup_create_namespace.
Qed.

(** A read returns a value only to a caller who may read in that namespace, and
    it is the stored value. *)
Theorem read_requires_permission auth ns k s v :
  get auth ns k s = Ok v ->
  lookup_data ns k s = Some v /\ exists a, auth = Some a /\ can_read ns a = true.
Proof.
  unfold get. rewrite res_bind_ok. intros ([] & Hp & Hv). split; [|by apply check_read].
  destruct (lookup_data ns k s); [by simplify_eq|done].
Qed.

(** ** Transactions *)

Definition same_view (s s' : t) : Prop := forall ns k, lookup_data ns k s = lookup_data ns k s'.

Lemma undo_view_proper op s s' : same_view s s' -> same_view (undo op s) (undo op s').
Proof. intros H ns k. destruct op as [[n k0] old]. rewrite !lookup_undo. by case_decide. Qed.

Lemma undo_all_view_proper ops s s' : same_view s s' -> same_view (foldr undo s ops) (foldr undo s' ops).
Proof. intros H. induction ops as [|op ops IH]; [done|]. by apply undo_view_proper. Qed.

(** The log of the open transaction undoes the writes made so far. *)
Definition undoes (s0 s : t) : Prop :=
  exists log, transaction_stack s = log :: transaction_stack s0 /\ same_view (foldr undo s log) s0.

(** A step that changes at most one key, and whose log entry, if any, has the
    key's old value, keeps the log correct. *)
Lemma undoes_logged s0 s s' ns k :
  undoes s0 s ->
  transaction_stack s' = transaction_stack (record_for_rollback ns k (lookup_data ns k s) s) ->
  (forall ns' k', ~ (ns' = ns /\ k' = k) -> lookup_data ns' k' s' = lookup_data ns' k' s) ->
  undoes s0 s'.
Proof.
  intros (log & Hst & Hlog) Hst' Hother. unfold record_for_rollback in Hst'. rewrite Hst in Hst'.
  cbn in Hst'. eexists. split; [exact Hst'|]. rewrite foldr_app. cbn [foldr].
  intros ns' k'. rewrite <- Hlog. apply undo_all_view_proper. clear ns' k'. intros ns' k'.
  rewrite lookup_undo. case_decide as Hd; [by destruct Hd as [-> ->]|]. by apply Hother.
Qed.

Lemma undoes_same s0 s s' :
  undoes s0 s -> transaction_stack s' = transaction_stack s -> same_view s' s -> undoes s0 s'.
Proof.
  intros (log & Hst & Hlog) Hst' Hv. exists log. rewrite Hst'. split; [done|].
  intros ns k. rewrite <- Hlog. by apply undo_all_view_proper.
Qed.

Lemma transactions_charge now user key n m s :
  transaction_stack (account_write now user key n m s).1 = transaction_stack s.
Proof. apply (account_write_frame now user key n m s). Qed.

Lemma undoes_run s0 s r : transactional r = false -> undoes s0 s -> undoes s0 (run r s).1.
Proof.
  intros Ht H. destruct r as [now auth ns k v|now auth ns k|now auth u q|now auth ns q p| | |];
    try discriminate; cbn [run].
  - destruct (set now auth ns k v s) as [s' r] eqn:E.
    destruct (set_cases _ _ _ _ _ _ _ _ E) as [(e & _ & _ & ->)|(a & -> & _ & Hc)]; [done|].
    cbv zeta in Hc. destruct Hc as [(e & _ & Hr & Hs)|(_ & Hr & Hs)].
    + apply (undoes_logged s0 s _ ns k H); [subst s'; apply transactions_charge|].
      intros ns' k' _. eapply lookup_set_fail; [exact E|]. by rewrite Hr.
    + apply (undoes_logged s0 s _ ns k H); [subst s'; apply transactions_charge|].
      intros ns' k' Hne. subst r. rewrite (lookup_set_ok _ _ _ _ _ _ _ E). by rewrite decide_False.
  - pose proof (lookup_delete now auth ns k s) as Hl. revert Hl. unfold delete.
    destruct (check_permission_cases auth "write" ns) as [->|[e ->]]; [|done].
    destruct (lookup_data ns k s) as [b|] eqn:Hb; [|done].
    intros Hl. apply (undoes_logged s0 s _ ns k H).
    + rewrite Hb. destruct auth as [a|]; [|done]. unfold delete_version, delete_data, refund. cbn.
      destruct (accounts _ !! _); repeat case_match; done.
    + intros ns' k' Hne. destruct (Hl ns' k') as [Heq|(_ & -> & -> & _)]; [exact Heq|by destruct Hne].
  - apply (undoes_same s0 s); [done|..]; unfold create_account; by repeat case_match.
  - apply (undoes_same s0 s); [done| |intros n k; apply lookup_create_namespace].
    unfold create_namespace. by repeat case_match.
Qed.

Lemma undoes_after s0 s rs : Forall (fun r => transactional r = false) rs ->
  undoes s0 s -> undoes s0 (after rs s).
Proof.
  intros Hrs. revert s. induction Hrs as [|r rs Hr _ IH]; intros s H; [done|].
  apply IH. by apply undoes_run.
Qed.

(** C7. Rolling back restores every key to what it was when the transaction began,
    whatever writes, deletions and account or namespace creations (successful
    or not) happened in between, and leaves the enclosing transactions open. *)
Theorem rollback_restores rs s :
  Forall (fun r => transactional r = false) rs ->
  exists s', rollback_transaction (after rs (begin_transaction s).1) = (s', Ok tt) /\
    (forall ns k, lookup_data ns k s' = lookup_data ns k s) /\
    transaction_stack s' = transaction_stack s.
Proof.
  intros Hrs.
  assert (H0 : undoes s (begin_transaction s).1) by (exists []; split; [done|by intros ns k]).
  destruct (undoes_after s _ rs Hrs H0) as (log & Hst & Hlog).
  unfold rollback_transaction. rewrite Hst. eexists. split; [reflexivity|]. split.
  - intros ns k. rewrite <- Hlog. apply undo_all_view_proper. by intros n k'.
  - clear. induction log as [|[[n k] [v|]] log IH]; [done|..]; cbn; exact IH.
Qed.

(** An administrator with an account. *)
Definition admin : AuthContext.t := AuthContext.add_role "global" "admin" (AuthContext.new "root").
Definition with_account : t := after [CreateAccount 0 (Some admin) "root" 1000] new.

(** A committed inner transaction forgets how to undo its writes: rolling back
    the outer transaction keeps them. *)
Theorem nested_commit_defeats_outer_rollback :
  let s := after [Begin; Set_ 1 (Some admin) "ns" "outer" "1"; Begin;
                  Set_ 2 (Some admin) "ns" "inner" "2"; Commit; Rollback] with_account in
  lookup_data "ns" "outer" s = None /\ lookup_data "ns" "inner" s = Some "2" /\
  transaction_stack s = [].
Proof. vm_compute. done. Qed.

(** Rolling back a deletion restores the value but not its version history, so
    the key can be read but no longer with its version. *)
Theorem rollback_of_delete_loses_version :
  let s := after [Set_ 1 (Some admin) "ns" "k" "v"; Begin; Delete 2 (Some admin) "ns" "k"; Rollback]
             with_account in
  get (Some admin) "ns" "k" s = Ok "v" /\
  get_versioned (Some admin) "ns" "k" s =
    Err (StorageError.TransactionError "No version info for existing key k").
Proof. by vm_compute. Qed.

(** ** The audit log only grows, by at most one event per request *)
Lemma audit_account_write now user key n m s :
  audit_log (account_write now user key n m s).1 = audit_log s.
Proof. apply (account_write_frame now user key n m s). Qed.

Lemma audit_run r s : exists l, audit_log (run r s).1 = audit_log s ++ l /\ length l <= 1.
Proof.
  assert (Hnone : forall s', audit_log s' = audit_log s ->
    exists l, audit_log s' = audit_log s ++ l /\ length l <= 1).
  { intros s' ->. exists []. split; [by rewrite app_nil_r|cbn; lia]. }
  assert (Hone : forall s' e, audit_log s' = audit_log s ++ [e] ->
    exists l, audit_log s' = audit_log s ++ l /\ length l <= 1).
  { intros s' e ->. exists [e]. split; [done|cbn; lia]. }
  destruct r as [now auth ns k v|now auth ns k|now auth u q|now auth ns q p| | |]; cbn [run].
  - destruct (set now auth ns k v s) as [s' r] eqn:E.
    destruct (set_cases _ _ _ _ _ _ _ _ E) as [(e & _ & _ & ->)|(a & -> & _ & Hc)]; [by apply Hnone|].
    pose proof (record_frame ns k (lookup_data ns k s) s) as (_ & _ & _ & Hl).
    cbv zeta in Hc. destruct Hc as [(e & _ & _ & ->)|(_ & _ & ->)].
    + apply Hnone. cbn [fst]. by rewrite audit_account_write.
    + eapply Hone. unfold emit_event. cbn [fst audit_log set_audit_log]. f_equal.
      etransitivity; [apply audit_account_write|exact Hl].
  - unfold delete. destruct (check_permission_cases auth "write" ns) as [->|[e ->]]; [|by apply Hnone].
    destruct (lookup_data ns k s) as [b|]; [|by apply Hnone].
    pose proof (record_frame ns k (Some b) s) as (_ & _ & _ & Hl).
    destruct auth as [a|]; [|by apply Hnone]. eapply Hone.
    unfold emit_event. cbn [fst audit_log set_audit_log]. f_equal.
    unfold delete_version, delete_data, refund. repeat case_match; cbn; by rewrite Hl.
  - unfold create_account. repeat case_match; try (by apply Hnone). by eapply Hone.
  - unfold create_namespace. repeat case_match; try (by apply Hnone); by eapply Hone.
  - by apply Hnone.
  - unfold commit_transaction. destruct (transaction_stack s); by apply Hnone.
  - unfold rollback_transaction. destruct (transaction_stack s) as [|ops outer]; [by apply Hnone|].
    apply Hnone. cbn. induction ops as [|[[n k] [v|]] ops IH]; [done|..]; cbn; exact IH.
Qed.

(** C34. No request, not even a rollback, removes or rewrites an audit event. *)
Theorem audit_log_append_only rs s : exists l, audit_log (after rs s) = audit_log s ++ l /\
  length l <= length rs.
Proof.
  revert s. induction rs as [|r rs IH]; intros s.
  { exists []. split; [by rewrite app_nil_r|cbn; lia]. }
  destruct (audit_run r s) as (l1 & H1 & Hl1). destruct (IH (run r s).1) as (l2 & H2 & Hl2).
  exists (l1 ++ l2). cbn [after foldl]. unfold after in H2. rewrite H2, H1, app_assoc.
  split; [done|]. rewrite length_app. cbn. lia.
Qed.

(** ** Versions *)

(** The version of every key is numbered without gaps and no higher than the
    number of requests made. *)
Definition versions_inv (n : N) (s : t) : Prop :=
  forall ns k v, lookup_version ns k s = Some v -> VersionInfo.numbered v /\ (VersionInfo.version v <= n)%N.

Lemma lookup_bump_version now user ns k s ns' k' :
  lookup_version ns' k' (bump_version now user ns k s) =
  if decide (ns' = ns /\ k' = k) then
    Some (match lookup_version ns k s with
          | Some v => VersionInfo.next_version now user v
          | None => VersionInfo.new now user
          end)
  else lookup_version ns' k' s.
Proof.
  unfold bump_version. set (nv := match _ with Some v => _ | None => _ end).
  unfold lookup_version. cbn. destruct (decide (ns' = ns)) as [->|Hns].
  - rewrite lookup_insert_eq. cbn. destruct (decide (k' = k)) as [->|Hk].
    + rewrite lookup_insert_eq. by rewrite decide_True.
    + rewrite lookup_insert_ne by done. rewrite decide_False by tauto.
      destruct (versions s !! ns); cbn; [done|apply lookup_empty].
  - rewrite lookup_insert_ne by done. by rewrite decide_False by tauto.
Qed.

Lemma versions_run n r s : (n < u64_max)%N -> versions_inv n s -> versions_inv (n + 1) (run r s).1.
Proof.
  intros Hn H.
  assert (Hsame : forall s', versions s' = versions s -> versions_inv (n + 1) s').
  { intros s' Hv ns k v Hl. unfold lookup_version in Hl. rewrite Hv in Hl.
    destruct (H ns k v Hl). split; [done|lia]. }
  destruct r as [now auth ns k v|now auth ns k|now auth u q|now auth ns q p| | |]; cbn [run].
  - destruct (set now auth ns k v s) as [s' r] eqn:E.
    destruct (set_cases _ _ _ _ _ _ _ _ E) as [(e & _ & _ & ->)|(a & -> & _ & Hc)]; [by apply Hsame|].
    pose proof (record_frame ns k (lookup_data ns k s) s) as (_ & Hv & _ & _).
    cbv zeta in Hc. set (charged := account_write _ _ _ _ _ _) in Hc.
    assert (Hcv : versions charged.1 = versions s).
    { unfold charged. by destruct (account_write_frame now (AuthContext.user_id_cloneable a)
        (make_internal_key ns k) (str_len v) (size_of (lookup_data ns k s))
        (record_for_rollback ns k (lookup_data ns k s) s)) as (_ & -> & _). }
    destruct Hc as [(e & _ & _ & ->)|(_ & _ & ->)]; [by apply Hsame|].
    intros ns' k' v' Hl.
    change (lookup_version ns' k' (bump_version now (AuthContext.user_id_cloneable a) ns k
      (insert_data ns k v charged.1)) = Some v') in Hl.
    rewrite lookup_bump_version in Hl. unfold lookup_version in Hl. cbn in Hl. rewrite Hcv in Hl.
    case_decide as Hd; [|destruct (H ns' k' v' Hl); split; [done|lia]].
    injection Hl as <-. destruct (_ ≫= _) as [w|] eqn:Hw; [|split; [constructor|cbn; lia]].
    destruct (H ns k w Hw) as [Hnum Hle].
    split; [apply VersionInfo.next_version_numbered; [done|lia]|]. cbn. unfold saturating_add. lia.
  - unfold delete. destruct (check_permission_cases auth "write" ns) as [->|[e ->]]; [|by apply Hsame].
    destruct (lookup_data ns k s) as [b|]; [|by apply Hsame].
    pose proof (record_frame ns k (Some b) s) as (_ & Hv & _ & _).
    destruct auth as [a|]; [|by apply Hsame]. cbn.
    set (s1 := delete_data ns k _). assert (Hv1 : versions s1 = versions s).
    { unfold s1, delete_data, refund. by repeat case_match. }
    unfold delete_version. destruct (versions s1 !! ns) as [nv|] eqn:Hnv; [|by apply Hsame].
    intros ns' k' v' Hl. unfold lookup_version in Hl. cbn in Hl. rewrite Hv1 in Hl, Hnv.
    assert (Hold : lookup_version ns' k' s = Some v').
    { unfold lookup_version. destruct (decide (ns' = ns)) as [->|].
      - rewrite lookup_insert_eq in Hl. cbn in Hl. rewrite Hnv. cbn. by apply lookup_delete_Some in Hl as [_ ?].
      - by rewrite lookup_insert_ne in Hl. }
    destruct (H ns' k' v' Hold). split; [done|lia].
  - apply Hsame. unfold create_account. by repeat case_match.
  - unfold create_namespace. repeat case_match; try (by apply Hsame).
    all: intros ns' k' v' Hl; unfold lookup_version in Hl; cbn in Hl.
    all: destruct (decide (ns' = ns)) as [->|];
      [rewrite lookup_insert_eq in Hl; cbn in Hl; by rewrite lookup_empty in Hl|].
    all: rewrite lookup_insert_ne in Hl by done; destruct (H ns' k' v' Hl); split; [done|lia].
  - by apply Hsame.
  - apply Hsame. unfold commit_transaction. by destruct (transaction_stack s).
  - apply Hsame. unfold rollback_transaction. destruct (transaction_stack s) as [|ops outer]; [done|].
    cbn. induction ops as [|[[n' k] [v|]] ops IH]; [done|..]; cbn; exact IH.
Qed.

(** C35. However the backend is used (for fewer than 2^64 requests), a listed
    version history is 1, 2, ..., n. *)
Theorem version_history_has_no_gaps rs auth ns k l :
  (N.of_nat (length rs) < u64_max)%N ->
  list_versions auth ns k (after rs new) = Ok l ->
  VersionInfo.version <$> l = up_to (N.of_nat (length l)).
Proof.
  intros Hlen Hl.
  assert (Hinv : forall n s rs', (n + N.of_nat (length rs') < u64_max)%N -> versions_inv n s ->
    versions_inv (n + N.of_nat (length rs')) (after rs' s)).
  { intros n s rs'. revert n s. induction rs' as [|r rs' IH]; intros n s Hb Hs.
    - by rewrite N.add_0_r.
    - cbn [length] in *. rewrite Nat2N.inj_succ in *.
      replace (n + N.succ (N.of_nat (length rs')))%N with (n + 1 + N.of_nat (length rs'))%N by lia.
      apply IH; [lia|]. apply versions_run; [lia|done]. }
  specialize (Hinv 0%N new rs). rewrite N.add_0_l in Hinv.
  unfold list_versions in Hl. apply res_bind_ok in Hl as ([] & _ & Hl).
  unfold version_info in Hl. destruct (versions (after rs new) !! ns) as [nv|] eqn:Hns; [|done].
  destruct (nv !! k) as [v|] eqn:Hk; [|done]. injection Hl as <-.
  destruct (Hinv Hlen (fun _ _ _ (H : lookup_version _ _ new = Some _) => ltac:(done)) ns k v) as [Hnum _].
  { unfold lookup_version. rewrite Hns. exact Hk. }
  pose proof (VersionInfo.history_versions v Hnum) as Hh. rewrite Hh.
  apply (f_equal length) in Hh. rewrite length_fmap in Hh. rewrite Hh. unfold up_to.
  rewrite length_fmap, length_seq. by rewrite N2Nat.id.
Qed.

(** [get_version] does not return what was stored: versions 1 to 3 of any key
    read as fixed texts, later ones as the current value. *)
Theorem get_version_fixed_texts auth ns k n s b info :
  get_version auth ns k n s = Ok (b, info) ->
  b = if (n =? 1)%N then "Initial draft" else if (n =? 2)%N then "Revised draft"
      else if (n =? 3)%N then "Final version" else default EmptyString (lookup_data ns k s).
Proof.
  unfold get_version. intros ([] & _ & H)%res_bind_ok.
  apply res_bind_ok in H as (info' & _ & H). case_match; [|done]. case_match; [|done]. by simplify_eq/=.
Qed.

(** ** Optimistic concurrency over this backend *)

(** [set_json_versioned] with an expected version never overwrites another
    version: it succeeds only when the key is absent or at that version. *)
Theorem set_json_versioned_no_lost_update {T} (to_vec : T -> res string bytes) type_name
    now auth ns k (value : T) expected s s' n :
  StorageExtensions.set_json_versioned to_vec type_name now auth ns k value (Some expected) s
    = (s', Ok n) ->
  match lookup_data ns k s with
  | None => True
  | Some _ => exists v, lookup_version ns k s = Some v /\ VersionInfo.version v = expected /\
                   n = saturating_add expected 1
  end.
Proof.
  unfold StorageExtensions.set_json_versioned. intros H.
  apply stm_bind_ok in H as (s1 & [] & Hcheck & H). injection Hcheck as -> Hcheck.
  apply stm_bind_ok in H as (s2 & [] & Hset & H). injection H as -> Hread.
  unfold StorageExtensions.check_expected in Hcheck. cbn in Hcheck.
  destruct (lookup_data ns k s1) as [old|] eqn:Hold; [|done].
  assert (Hcont : match data s1 !! ns with
                  | Some ns_data => bool_decide (is_Some (ns_data !! k))
                  | None => false
                  end = true).
  { unfold lookup_data in Hold. destruct (data s1 !! ns) as [d|]; [|done]. cbn in Hold.
    rewrite Hold. by apply bool_decide_eq_true_2. }
  rewrite Hcont in Hcheck. apply res_bind_ok in Hcheck as ([b v] & Hget & Hv).
  unfold get_versioned in Hget. apply res_bind_ok in Hget as ([] & _ & Hget). rewrite Hold in Hget.
  destruct (lookup_version ns k s1) as [w|] eqn:Hw; [|done]. injection Hget as -> ->. cbn in Hv.
  destruct (N.eqb_spec (VersionInfo.version v) expected) as [He|]; [|done].
  exists v. split; [done|]. split; [done|].
  unfold StorageExtensions.set_json in Hset. apply stm_bind_ok in Hset as (s3 & bytes & Hser & Hset).
  unfold lift in Hser. injection Hser as -> _. cbn in Hset.
  destruct (set_cases _ _ _ _ _ _ _ _ Hset) as [(e & _ & ? & _)|(a & -> & _ & _)]; [done|].
  pose proof (set_ok_version _ _ _ _ _ _ _ Hset) as Hver. rewrite Hw in Hver. cbn in Hread.
  change ((fun p => VersionInfo.version p.2) <$> get_versioned (Some a) ns k s' = Ok n) in Hread.
  unfold get_versioned in Hread.
  rewrite (lookup_set_ok _ _ _ _ _ _ _ Hset), decide_True, Hver in Hread by done.
  destruct (check_permission_cases (Some a) "read" ns) as [Hr|[e Hr]]; rewrite Hr in Hread; [|done].
  injection Hread as <-. by rewrite <- He.
Qed.

(** The identity lookup passes no authentication context, and this backend
    denies every unauthenticated read. *)
Theorem get_identity_always_denied from_slice id s :
  StorageExtensions.get_identity from_slice id s =
  Err (StorageError.PermissionDenied "anonymous" "read" "identity").
Proof. reflexivity. Qed.

(** ** Concrete instances *)
Lemma set_outcome_witness :
  check_permission (Some admin) "write" "ns" = Ok tt /\
  let s' := (set 1 (Some admin) "ns" "k" "v" with_account).1 in
  let r := (set 1 (Some admin) "ns" "k" "v" with_account).2 in
  r = Ok tt /\
  (forall ns' k', lookup_data ns' k' s' =
     if decide (ns' = "ns" /\ k' = "k") then Some "v" else lookup_data ns' k' with_account) /\
  lookup_version "ns" "k" s' = Some (VersionInfo.new 1 "root") /\
  (exists e, audit_log s' = audit_log with_account ++ [e] /\ event_key e = "k" /\ event_namespace e = "ns").
Proof.
  split; [reflexivity|].
  exact (set_outcome 1 admin "ns" "k" "v" with_account eq_refl).
Defined.

Lemma quota_never_exceeded_witness :
  let rs := [CreateAccount 0 (Some admin) "root" 10; Set_ 1 (Some admin) "ns" "k" "12345678";
             Set_ 2 (Some admin) "ns" "k2" "12345678"] in
  let account := {| ResourceAccount.owner_id := "root"; ResourceAccount.storage_quota_bytes := 10;
                    ResourceAccount.storage_used_bytes := 8; ResourceAccount.last_updated := 1 |} in
  accounts (after rs new) !! "root" = Some account /\
  (ResourceAccount.storage_used_bytes account <= ResourceAccount.storage_quota_bytes account)%N.
Proof.
  split; [vm_compute; reflexivity|].
  apply (quota_never_exceeded
    [CreateAccount 0 (Some admin) "root" 10; Set_ 1 (Some admin) "ns" "k" "12345678";
     Set_ 2 (Some admin) "ns" "k2" "12345678"] "root"). vm_compute. reflexivity.
Defined.

Lemma write_requires_permission_witness :
  exists a, request_auth (Set_ 1 (Some admin) "ns" "k" "v") = Some a /\ can_write "ns" a = true.
Proof.
  apply (write_requires_permission (Set_ 1 (Some admin) "ns" "k" "v") with_account "ns" "k").
  - reflexivity.
  - vm_compute. discriminate.
Defined.

Lemma read_requires_permission_witness :
  let s := after [Set_ 1 (Some admin) "ns" "k" "v"] with_account in
  lookup_data "ns" "k" s = Some "v" /\ exists a, Some admin = Some a /\ can_read "ns" a = true.
Proof.
  apply (read_requires_permission (Some admin) "ns" "k"
    (after [Set_ 1 (Some admin) "ns" "k" "v"] with_account)). vm_compute. reflexivity.
Defined.

Lemma rollback_restores_witness :
  let rs := [Set_ 1 (Some admin) "ns" "k" "v"; Delete 2 (Some admin) "ns" "k"] in
  exists s', rollback_transaction (after rs (begin_transaction with_account).1) = (s', Ok tt) /\
    (forall ns k, lookup_data ns k s' = lookup_data ns k with_account) /\
    transaction_stack s' = transaction_stack with_account.
Proof. apply rollback_restores. repeat constructor. Defined.

Lemma version_history_has_no_gaps_witness :
  let rs := [CreateAccount 0 (Some admin) "root" 10; Set_ 1 (Some admin) "ns" "k" "1";
             Set_ 2 (Some admin) "ns" "k" "2"] in
  exists l, list_versions (Some admin) "ns" "k" (after rs new) = Ok l /\
       VersionInfo.version <$> l = up_to (N.of_nat (length l)).
Proof.
  eexists. split; [vm_compute; reflexivity|].
  apply (version_history_has_no_gaps
    [CreateAccount 0 (Some admin) "root" 10; Set_ 1 (Some admin) "ns" "k" "1";
     Set_ 2 (Some admin) "ns" "k" "2"] (Some admin) "ns" "k"); vm_compute; reflexivity.
Defined.

Lemma set_json_versioned_no_lost_update_witness :
  let s := after [Set_ 1 (Some admin) "ns" "k" "1"] with_account in
  match lookup_data "ns" "k" s with
  | None => True
  | Some _ => exists v, lookup_version "ns" "k" s = Some v /\ VersionInfo.version v = 1%N /\
                   2%N = saturating_add 1 1
  end.
Proof.
  eapply (set_json_versioned_no_lost_update (fun b : bytes => Ok b) "bytes" 2 (Some admin) "ns" "k" "22" 1
    (after [Set_ 1 (Some admin) "ns" "k" "1"] with_account)). vm_compute. reflexivity.
Defined.

End InMemoryStorage.
