(* ===== verification/Economic.v ===== *)
(** * Economic operations: trait [EconomicOperations] of storage/traits.rs

    Resources, balances and reputation kept as decimal texts in any
    [StorageBackend].  The default methods are written once over the interface,
    and so are their theorems, from the backend laws alone; the last part runs
    them on the in-memory backend.  [overflow_checks] says whether the build
    panics on integer overflow (debug) or wraps (release). *)
From S2P Require Import Prelude Float64 Values Ops Auth Storage InMemory.

Module Economic.

Section Operations.

Context {S : Type} `{SB : StorageBackend S} (overflow_checks : bool).

Abbreviation M := (stm S StorageError.t).
Abbreviation auth_t := (option AuthContext.t) (only parsing).

Definition resource_key (resource : string) : string := "resources/" +:+ resource +:+ "/metadata".
Definition balance_key (resource account : string) : string :=
  "resources/" +:+ resource +:+ "/accounts/" +:+ account.
Definition rep_key (identity_id : string) : string := "identities/" +:+ identity_id +:+ "/reputation".

(** The number a stored text denotes; anything unreadable counts as 0. *)
Definition amount_of_bytes (b : bytes) : N :=
  match from_utf8 b with
  | Some s => default 0%N (parse_u64 s)
  | None => 0%N
  end.

(** [if contains { parse(get) } else { 0 }]. *)
Definition read_amount (auth : auth_t) (ns key : string) (s : S) : res StorageError.t N :=
  sb_contains auth ns key s ≫= fun present : bool =>
  if present then amount_of_bytes <$> sb_get auth ns key s else Ok 0%N.

Definition require_resource (auth : auth_t) (ns resource : string) (s : S) : res StorageError.t unit :=
  sb_contains auth ns (resource_key resource) s ≫= fun present : bool =>
  if present then Ok tt else Err (StorageError.ResourceNotFound resource).

Definition event (now : N) (auth : auth_t) (ns key ty details : string) : StorageEvent :=
  {| event_type := ty;
     event_user_id := match auth with Some a => AuthContext.user_id_string a | None => "system" end;
     event_namespace := ns; event_key := key; event_timestamp := now; event_details := details |}.

Definition create_resource (now : N) (auth : auth_t) (ns resource : string) : M unit :=
  let metadata := "{" +:+ TypedValue.dquote +:+ "id" +:+ TypedValue.dquote +:+ ": " +:+
    TypedValue.dquote +:+ resource +:+ TypedValue.dquote +:+ ", " +:+ TypedValue.dquote +:+
    "namespace" +:+ TypedValue.dquote +:+ ": " +:+ TypedValue.dquote +:+ ns +:+
    TypedValue.dquote +:+ "}" in
  sb_set now auth ns (resource_key resource) metadata.

(** Read-only computations on the current state. *)
Definition query {A} (q : S -> res StorageError.t A) : M A := fun s => (s, q s).

Definition mint (now : N) (auth : auth_t) (ns resource account : string) (amount : N) (reason : string) :
    M (option StorageEvent) :=
  query (require_resource auth ns resource) ≫= fun _ =>
  let key := balance_key resource account in
  query (read_amount auth ns key) ≫= fun current_balance =>
  lift (u64_add overflow_checks current_balance amount) ≫= fun new_balance =>
  sb_set now auth ns key (u64_to_string new_balance) ≫= fun _ =>
  mret (Some (event now auth ns key "mint"
    ("Minted " +:+ u64_to_string amount +:+ " of " +:+ resource +:+ " for " +:+ account +:+ ": " +:+
     reason))).

Definition insufficient {A} (account resource : string) : res StorageError.t A :=
  Err (StorageError.InsufficientBalance
    ("Account " +:+ account +:+ " has insufficient balance for resource " +:+ resource)).

Definition transfer (now : N) (auth : auth_t) (ns resource from to : string) (amount : N)
    (reason : string) : M (option StorageEvent) :=
  query (require_resource auth ns resource) ≫= fun _ =>
  let from_key := balance_key resource from in
  query (read_amount auth ns from_key) ≫= fun from_balance =>
  if (from_balance <? amount)%N then lift (insufficient from resource)
  else
    let to_key := balance_key resource to in
    query (read_amount auth ns to_key) ≫= fun to_balance =>
    let new_from_balance := (from_balance - amount)%N in
    lift (u64_add overflow_checks to_balance amount) ≫= fun new_to_balance =>
    sb_set now auth ns from_key (u64_to_string new_from_balance) ≫= fun _ =>
    sb_set now auth ns to_key (u64_to_string new_to_balance) ≫= fun _ =>
    mret (Some (event now auth ns (from_key +:+ "->" +:+ to_key) "transfer"
      ("Transferred " +:+ u64_to_string amount +:+ " of " +:+ resource +:+ " from " +:+ from +:+
       " to " +:+ to +:+ ": " +:+ reason))).

Definition burn (now : N) (auth : auth_t) (ns resource account : string) (amount : N) (reason : string) :
    M (option StorageEvent) :=
  query (require_resource auth ns resource) ≫= fun _ =>
  let key := balance_key resource account in
  query (read_amount auth ns key) ≫= fun current_balance =>
  if (current_balance <? amount)%N then lift (insufficient account resource)
  else
    sb_set now auth ns key (u64_to_string (current_balance - amount)) ≫= fun _ =>
    mret (Some (event now auth ns key "burn"
      ("Burned " +:+ u64_to_string amount +:+ " of " +:+ resource +:+ " from " +:+ account +:+ ": " +:+
       reason))).

Definition get_balance (now : N) (auth : auth_t) (ns resource account : string) (s : S) :
    res StorageError.t (N * option StorageEvent) :=
  require_resource auth ns resource s ≫= fun _ =>
  let key := balance_key resource account in
  read_amount auth ns key s ≫= fun balance =>
  Ok (balance, Some (event now auth ns key "get_balance"
    ("Retrieved balance of " +:+ resource +:+ " for " +:+ account +:+ ": " +:+ u64_to_string balance))).

Definition get_reputation (auth : auth_t) (ns identity_id : string) (s : S) :
    res StorageError.t (N * option StorageEvent) :=
  read_amount auth ns (rep_key identity_id) s ≫= fun reputation => Ok (reputation, None).

Definition set_reputation (now : N) (auth : auth_t) (ns identity_id : string) (value : N) :
    M (option StorageEvent) :=
  let key := rep_key identity_id in
  sb_set now auth ns key (u64_to_string value) ≫= fun _ =>
  mret (Some (event now auth ns key "set_reputation"
    ("Set reputation for " +:+ identity_id +:+ " to " +:+ u64_to_string value))).

Definition store (now : N) (auth : auth_t) (ns key : string) (value : bytes) : M (option StorageEvent) :=
  sb_set now auth ns key value ≫= fun _ =>
  mret (Some (event now auth ns key "store" ("Stored data for key " +:+ key))).

Definition load (now : N) (auth : auth_t) (ns key : string) (s : S) :
    res StorageError.t (bytes * option StorageEvent) :=
  sb_get auth ns key s ≫= fun data =>
  Ok (data, Some (event now auth ns key "load" ("Loaded data for key " +:+ key))).

(** ** Balances as the laws present them *)

Context `{SL : !StorageLaws S}.

Definition amount_at (s : S) (ns key : string) : N :=
  match view s ns key with Some b => amount_of_bytes b | None => 0%N end.
Definition balance (s : S) (ns resource account : string) : N :=
  amount_at s ns (balance_key resource account).

Lemma amount_of_u64 n : u64_ok n -> amount_of_bytes (u64_to_string n) = n.
Proof. intros H. unfold amount_of_bytes. by rewrite from_utf8_u64_to_string, parse_u64_to_string. Qed.

Lemma amount_of_bytes_ok b : u64_ok (amount_of_bytes b).
Proof.
  unfold amount_of_bytes. destruct (from_utf8 b) as [s|]; [|unfold u64_ok; lia].
  destruct (parse_u64 s) eqn:E; cbn; [by eapply parse_u64_le|unfold u64_ok; lia].
Qed.

Lemma amount_at_ok s ns key : u64_ok (amount_at s ns key).
Proof. unfold amount_at. destruct (view s ns key); [apply amount_of_bytes_ok|unfold u64_ok; lia]. Qed.

Lemma read_amount_ok auth ns key s n : read_amount auth ns key s = Ok n -> n = amount_at s ns key.
Proof.
  unfold read_amount, amount_at. intros Hr. apply res_bind_ok in Hr as (b & Hc & Hr).
  apply law_contains in Hc. rewrite law_get in Hr.
  destruct b; [|destruct (view s ns key); [done|by simplify_eq]].
  destruct (permitted auth "read" ns); [|done..]. cbn in Hr.
  destruct (view s ns key); [by simplify_eq/=|done].
Qed.

Lemma balance_key_inj resource a b : balance_key resource a = balance_key resource b -> a = b.
Proof. unfold balance_key. by intros H%str_app_inj_l%str_app_inj_l%str_app_inj_l. Qed.

Lemma amount_at_set now auth ns key n s s' ns' key' : u64_ok n ->
  sb_set now auth ns key (u64_to_string n) s = (s', Ok tt) ->
  amount_at s' ns' key' = if decide (ns' = ns /\ key' = key) then n else amount_at s ns' key'.
Proof.
  intros Hn Hset. unfold amount_at. rewrite (law_set_ok _ _ _ _ _ _ _ Hset).
  case_decide; [by apply amount_of_u64|done].
Qed.

Lemma u64_add_inv {E} a b r : u64_ok a -> u64_ok b ->
  u64_add (E := E) overflow_checks a b = Ok r ->
  u64_ok r /\ r = u64_wrap (a + b) /\ (overflow_checks = true -> r = (a + b)%N).
Proof.
  unfold u64_add, u64_ok, u64_max, u64_wrap. intros Ha Hb.
  destruct (N.leb_spec (a + b) 18446744073709551615) as [Hle|Hgt]; intros Hr.
  - simplify_eq. split; [lia|]. split; [|done]. symmetry. apply N.mod_small. lia.
  - destruct overflow_checks; simplify_eq.
    pose proof (N.mod_lt (a + b) 18446744073709551616). split; [lia|]. by split.
Qed.

(** What a successful transfer did, in terms of the state before. *)
Lemma transfer_steps now auth ns resource from to amount reason s s' e :
  transfer now auth ns resource from to amount reason s = (s', Ok e) ->
  exists s1 nb, (amount <= balance s ns resource from)%N /\
    u64_add (E := StorageError.t) overflow_checks (balance s ns resource to) amount = Ok nb /\
    sb_set now auth ns (balance_key resource from) (u64_to_string (balance s ns resource from - amount)) s
      = (s1, Ok tt) /\
    sb_set now auth ns (balance_key resource to) (u64_to_string nb) s1 = (s', Ok tt).
Proof.
  unfold transfer. intros H. apply stm_bind_ok in H as (? & [] & [= <- _] & H).
  apply stm_bind_ok in H as (? & fb & [= <- Hfb] & H). apply read_amount_ok in Hfb as ->.
  fold (balance s ns resource from) in *.
  destruct (N.ltb_spec (balance s ns resource from) amount); [done|].
  apply stm_bind_ok in H as (? & tb & [= <- Htb] & H). apply read_amount_ok in Htb as ->.
  fold (balance s ns resource to) in *.
  apply stm_bind_ok in H as (? & nb & [= <- Hnb] & H).
  apply stm_bind_ok in H as (s1 & [] & Hset1 & H).
  apply stm_bind_ok in H as (s2 & [] & Hset2 & [= -> _]). eauto 10.
Qed.

Lemma balance_ok s ns resource account : u64_ok (balance s ns resource account).
Proof. apply amount_at_ok. Qed.

Definition total (s : S) (ns resource : string) (accounts : list string) : N :=
  foldr (fun a n => (balance s ns resource a + n)%N) 0%N accounts.

Lemma total_cons s ns resource a l :
  total s ns resource (a :: l) = (balance s ns resource a + total s ns resource l)%N.
Proof. reflexivity. Qed.

Lemma if_member_cons (x a : string) l (u v : N) :
  (if decide (x ∈ a :: l) then u else v) = if decide (x = a) then u else if decide (x ∈ l) then u else v.
Proof. rewrite (decide_ext _ _ _ _ (elem_of_cons l x a)). repeat case_decide; naive_solver. Qed.

(** A list without repetitions of which only [x] and [y] change. *)
Lemma total_change s s' ns resource x y accounts :
  NoDup accounts -> x <> y ->
  (forall a, a <> x -> a <> y -> balance s' ns resource a = balance s ns resource a) ->
  let part s a := if decide (a ∈ accounts) then balance s ns resource a else 0%N in
  (total s' ns resource accounts + part s x + part s y = total s ns resource accounts + part s' x + part s' y)%N.
Proof.
  cbn beta zeta. intros Hnd Hxy Hother. induction Hnd as [|a l Ha Hl IH].
  - by rewrite !decide_False by apply not_elem_of_nil.
  - rewrite !total_cons, !if_member_cons.
    destruct (decide (a = x)) as [->|Hax]; [|destruct (decide (a = y)) as [->|Hay]].
    + rewrite !(decide_False (P := x ∈ l)) in IH by done.
      rewrite !(decide_True (P := x = x)), !(decide_False (P := y = x)) by done. lia.
    + rewrite !(decide_False (P := y ∈ l)) in IH by done.
      rewrite !(decide_True (P := y = y)), !(decide_False (P := x = y)) by done. lia.
    + rewrite (Hother a Hax Hay), !(decide_False (P := x = a)), !(decide_False (P := y = a)) by done. lia.
Qed.

(** One account of a list without repetitions changes. *)
Lemma total_change_one s s' ns resource x accounts :
  NoDup accounts -> x ∈ accounts ->
  (forall a, a <> x -> balance s' ns resource a = balance s ns resource a) ->
  (total s' ns resource accounts + balance s ns resource x = total s ns resource accounts + balance s' ns resource x)%N.
Proof.
  intros Hnd Hx Hother.
  assert (exists y, x <> y /\ y ∉ accounts) as (y & Hxy & Hy).
  { destruct (exist_fresh (list_to_set accounts : gset string)) as [y Hy]. exists y. set_solver. }
  pose proof (total_change s s' ns resource x y accounts Hnd Hxy ltac:(auto)) as H. cbn beta zeta in H.
  repeat case_decide; done || lia.
Qed.

(** Every balance after a successful transfer.  The receiver's is written last. *)
Lemma transfer_balances now auth ns resource from to amount reason s s' e :
  transfer now auth ns resource from to amount reason s = (s', Ok e) ->
  (amount <= balance s ns resource from)%N /\
  (overflow_checks = true -> u64_wrap (balance s ns resource to + amount) = (balance s ns resource to + amount)%N) /\
  forall a, balance s' ns resource a =
    if decide (a = to) then u64_wrap (balance s ns resource to + amount)
    else if decide (a = from) then (balance s ns resource from - amount)%N
    else balance s ns resource a.
Proof.
  intros (s1 & nb & Hle & Hadd & Hset1 & Hset2)%transfer_steps.
  pose proof (balance_ok s ns resource from) as Hbf.
  assert (Hba : u64_ok amount) by (unfold u64_ok in *; lia).
  destruct (u64_add_inv _ _ _ (balance_ok s ns resource to) Hba Hadd) as (Hnb & Hw & Hsum).
  split; [done|]. split; [intros Hoc; by rewrite <- Hw, Hsum|]. intros a. rewrite <- Hw.
  assert (Hsub : u64_ok (balance s ns resource from - amount)) by (unfold u64_ok in *; lia).
  unfold balance at 1. rewrite (amount_at_set _ _ _ _ _ _ _ _ _ Hnb Hset2).
  destruct (decide (a = to)) as [->|Hat]; [by rewrite decide_True|].
  rewrite decide_False by (intros [_ ?%balance_key_inj]; done).
  rewrite (amount_at_set _ _ _ _ _ _ _ ns _ Hsub Hset1).
  destruct (decide (a = from)) as [->|Haf]; [by rewrite decide_True|].
  by rewrite decide_False by (intros [_ ?%balance_key_inj]; done).
Qed.

Lemma u64_wrap_small n : u64_ok n -> u64_wrap n = n.
Proof. unfold u64_ok, u64_max, u64_wrap. intros H. apply N.mod_small. lia. Qed.

(** The sum fits, or the build would have panicked. *)
Definition no_wrap (b amount : N) : Prop := overflow_checks = true \/ u64_ok (b + amount).

(** C1. A successful transfer between two different accounts takes exactly the
    amount from the one and adds it to the other, modulo 2^64 in a build that
    does not check overflow, and leaves every other account alone.  Unless the
    receiver's balance wraps, the total over any accounts changes by what leaves
    them and what enters them: it is kept over accounts that contain both
    parties, or neither. *)
Theorem transfer_conserves now auth ns resource from to amount reason s s' e :
  from <> to ->
  transfer now auth ns resource from to amount reason s = (s', Ok e) ->
  (amount <= balance s ns resource from)%N /\
  balance s' ns resource from = (balance s ns resource from - amount)%N /\
  balance s' ns resource to = u64_wrap (balance s ns resource to + amount) /\
  (forall a, a <> from -> a <> to -> balance s' ns resource a = balance s ns resource a) /\
  (no_wrap (balance s ns resource to) amount ->
   balance s' ns resource to = (balance s ns resource to + amount)%N /\
   forall accounts, NoDup accounts ->
     (total s' ns resource accounts + (if decide (from ∈ accounts) then amount else 0) =
      total s ns resource accounts + (if decide (to ∈ accounts) then amount else 0))%N).
Proof.
  intros Hne (Hle & Hchecked & Hbal)%transfer_balances.
  assert (H1 : balance s' ns resource from = (balance s ns resource from - amount)%N)
    by (rewrite Hbal, decide_False, decide_True; done).
  assert (H2 : balance s' ns resource to = u64_wrap (balance s ns resource to + amount))
    by (rewrite Hbal, decide_True; done).
  assert (H3 : forall a, a <> from -> a <> to -> balance s' ns resource a = balance s ns resource a)
    by (intros a Ha1 Ha2; rewrite Hbal, !decide_False; done).
  do 4 (split; [done|]). intros Hfits.
  assert (H4 : balance s' ns resource to = (balance s ns resource to + amount)%N)
    by (rewrite H2; destruct Hfits; auto using u64_wrap_small).
  split; [done|]. intros accounts Hnd.
  pose proof (total_change s s' ns resource from to accounts Hnd Hne H3) as H. cbn beta zeta in H.
  rewrite H1, H4 in H. repeat case_decide; lia.
Qed.

(** C3. A successful transfer to oneself creates the amount: both balances are
    read before either is written, and the second write wins.  The balance grows
    by the amount, modulo 2^64 in a build that does not check overflow; unless
    it wraps so does the total over any accounts that contain this one. *)
Theorem self_transfer_inflates now auth ns resource account amount reason s s' e :
  transfer now auth ns resource account account amount reason s = (s', Ok e) ->
  balance s' ns resource account = u64_wrap (balance s ns resource account + amount) /\
  (forall a, a <> account -> balance s' ns resource a = balance s ns resource a) /\
  (no_wrap (balance s ns resource account) amount ->
   balance s' ns resource account = (balance s ns resource account + amount)%N /\
   forall accounts, NoDup accounts -> account ∈ accounts ->
     total s' ns resource accounts = (total s ns resource accounts + amount)%N).
Proof.
  intros (Hle & Hchecked & Hbal)%transfer_balances.
  assert (H1 : balance s' ns resource account = u64_wrap (balance s ns resource account + amount))
    by (rewrite Hbal, decide_True; done).
  assert (H2 : forall a, a <> account -> balance s' ns resource a = balance s ns resource a)
    by (intros a Ha; rewrite Hbal, !decide_False; done).
  do 2 (split; [done|]). intros Hfits.
  assert (H3 : balance s' ns resource account = (balance s ns resource account + amount)%N)
    by (rewrite H1; destruct Hfits; auto using u64_wrap_small).
  split; [done|]. intros accounts Hnd Hin.
  pose proof (total_change_one s s' ns resource account accounts Hnd Hin H2). lia.
Qed.

(** A transfer or a burn of more than the balance is refused and touches
    nothing. *)
Theorem overdraft_refused now auth ns resource from to amount reason s :
  (balance s ns resource from < amount)%N ->
  (exists r, transfer now auth ns resource from to amount reason s = (s, r) /\ is_ok r = false) /\
  (exists r, burn now auth ns resource from amount reason s = (s, r) /\ is_ok r = false).
Proof.
  intros Hlt. unfold transfer, burn, mbind, stm_bind, query.
  destruct (require_resource auth ns resource s) as [[]|e|m|]; [|split; (eexists; split; reflexivity)..].
  destruct (read_amount auth ns (balance_key resource from) s) as [b|e|m|] eqn:Hr;
    [|split; (eexists; split; reflexivity)..].
  apply read_amount_ok in Hr as ->. fold (balance s ns resource from).
  rewrite (proj2 (N.ltb_lt _ _) Hlt). split; (eexists; split; reflexivity).
Qed.

Lemma mint_steps now auth ns resource account amount reason s s' e :
  mint now auth ns resource account amount reason s = (s', Ok e) ->
  exists nb, u64_add (E := StorageError.t) overflow_checks (balance s ns resource account) amount = Ok nb /\
    sb_set now auth ns (balance_key resource account) (u64_to_string nb) s = (s', Ok tt).
Proof.
  unfold mint. intros Hm. apply stm_bind_ok in Hm as (? & [] & [= <- _] & Hm).
  apply stm_bind_ok in Hm as (? & b & [= <- Hb] & Hm). apply read_amount_ok in Hb as ->.
  apply stm_bind_ok in Hm as (? & nb & [= <- Hnb] & Hm).
  apply stm_bind_ok in Hm as (s2 & [] & Hset & [= -> _]). eauto.
Qed.

Lemma burn_steps now auth ns resource account amount reason s s' e :
  burn now auth ns resource account amount reason s = (s', Ok e) ->
  (amount <= balance s ns resource account)%N /\
  sb_set now auth ns (balance_key resource account)
    (u64_to_string (balance s ns resource account - amount)) s = (s', Ok tt).
Proof.
  unfold burn. intros Hm. apply stm_bind_ok in Hm as (? & [] & [= <- _] & Hm).
  apply stm_bind_ok in Hm as (? & b & [= <- Hb] & Hm). apply read_amount_ok in Hb as ->.
  fold (balance s ns resource account) in *.
  destruct (N.ltb_spec (balance s ns resource account) amount); [done|].
  apply stm_bind_ok in Hm as (s2 & [] & Hset & [= -> _]). done.
Qed.

(** Minting adds and burning removes exactly the amount, on one account only;
    a mint followed by a burn of the same amount restores every balance. *)
Theorem mint_burn_round_trip now now' auth auth' ns resource account amount reason reason' s s1 s2 e e' :
  overflow_checks = true -> u64_ok amount ->
  mint now auth ns resource account amount reason s = (s1, Ok e) ->
  burn now' auth' ns resource account amount reason' s1 = (s2, Ok e') ->
  balance s1 ns resource account = (balance s ns resource account + amount)%N /\
  (forall a, a <> account -> balance s1 ns resource a = balance s ns resource a) /\
  (forall a, balance s2 ns resource a = balance s ns resource a).
Proof.
  intros Hoc Ha Hm Hb.
  destruct (mint_steps _ _ _ _ _ _ _ _ _ _ Hm) as (nb & Hadd & Hset1).
  destruct (burn_steps _ _ _ _ _ _ _ _ _ _ Hb) as (Hle & Hset2).
  destruct (u64_add_inv _ _ _ (balance_ok s ns resource account) Ha Hadd) as (Hnb & _ & Hsum).
  specialize (Hsum Hoc). subst nb.
  assert (H1 : forall a, balance s1 ns resource a =
    if decide (a = account) then (balance s ns resource account + amount)%N else balance s ns resource a).
  { intros a. unfold balance at 1. rewrite (amount_at_set _ _ _ _ _ _ _ _ _ Hnb Hset1).
    destruct (decide (a = account)) as [->|Hne]; [by rewrite decide_True|].
    by rewrite decide_False by (intros [_ ?%balance_key_inj]; done). }
  assert (Hacc : balance s1 ns resource account = (balance s ns resource account + amount)%N)
    by (rewrite H1, decide_True; done).
  split; [done|]. split; [intros a Hne; by rewrite H1, decide_False|].
  intros a. rewrite Hacc in Hset2.
  replace (balance s ns resource account + amount - amount)%N with (balance s ns resource account)
    in Hset2 by lia.
  unfold balance at 1. rewrite (amount_at_set _ _ _ _ _ _ _ _ _ (balance_ok s ns resource account) Hset2).
  destruct (decide (a = account)) as [->|Hne]; [by rewrite decide_True|].
  rewrite decide_False by (intros [_ ?%balance_key_inj]; done).
  fold (balance s1 ns resource a). by rewrite H1, decide_False.
Qed.

End Operations.

(** ** On the in-memory backend *)
Section InMemoryExamples.

Import InMemoryStorage.

(** A ledger where alice holds 100 coins; its owner may store [quota] bytes. *)
Definition ledger (quota : N) : t :=
  let s0 := after [CreateAccount 0 (Some admin) "root" quota] new in
  let s1 := (create_resource 1 (Some admin) "ns" "coin" s0).1 in
  (mint true 2 (Some admin) "ns" "coin" "alice" 100 "init" s1).1.

(** The two writes of a transfer are not atomic: when the second is refused for
    quota the first stays, and the amount is gone from the total. *)
Theorem failed_transfer_loses_amount :
  let s := ledger 36 in
  let s' := (transfer true 3 (Some admin) "ns" "coin" "alice" "bob" 30 "rent" s).1 in
  let r := (transfer true 3 (Some admin) "ns" "coin" "alice" "bob" 30 "rent" s).2 in
  is_ok r = false /\
  total s "ns" "coin" ["alice"; "bob"] = 100%N /\ total s' "ns" "coin" ["alice"; "bob"] = 70%N.
Proof. vm_compute. done. Qed.

Definition rent_event : StorageEvent :=
  event 3 (Some admin) "ns" (balance_key "coin" "alice" +:+ "->" +:+ balance_key "coin" "bob") "transfer"
    "Transferred 30 of coin from alice to bob: rent".

Lemma transfer_conserves_witness :
  let s := ledger 1000 in
  let s' := (transfer true 3 (Some admin) "ns" "coin" "alice" "bob" 30 "rent" s).1 in
  balance s' "ns" "coin" "alice" = (balance s "ns" "coin" "alice" - 30)%N /\
  balance s' "ns" "coin" "bob" = (balance s "ns" "coin" "bob" + 30)%N /\
  (forall a, a <> "alice" -> a <> "bob" -> balance s' "ns" "coin" a = balance s "ns" "coin" a) /\
  (total s' "ns" "coin" ["alice"; "bob"] + 30 = total s "ns" "coin" ["alice"; "bob"] + 30)%N.
Proof.
  intros s s'.
  destruct (transfer_conserves true 3 (Some admin) "ns" "coin" "alice" "bob" 30 "rent" s s' (Some rent_event))
    as (_ & H1 & _ & H3 & H4).
  - discriminate.
  - vm_compute. reflexivity.
  - destruct (H4 (or_introl eq_refl)) as [H2 Htotal].
    split; [exact H1|]. split; [exact H2|]. split; [exact H3|].
    exact (Htotal ["alice"; "bob"] (bool_decide_unpack (NoDup ["alice"; "bob"]) I)).
Defined.

Lemma self_transfer_inflates_witness :
  let s := ledger 1000 in
  let s' := (transfer true 3 (Some admin) "ns" "coin" "alice" "alice" 30 "loop" s).1 in
  balance s' "ns" "coin" "alice" = (balance s "ns" "coin" "alice" + 30)%N.
Proof.
  intros s s'.
  destruct (self_transfer_inflates true 3 (Some admin) "ns" "coin" "alice" 30 "loop" s s'
    (Some (event 3 (Some admin) "ns" (balance_key "coin" "alice" +:+ "->" +:+ balance_key "coin" "alice") "transfer"
             "Transferred 30 of coin from alice to alice: loop"))) as (_ & _ & H).
  - vm_compute. reflexivity.
  - exact (proj1 (H (or_introl eq_refl))).
Defined.

Lemma overdraft_refused_witness :
  let s := ledger 1000 in
  (exists r, transfer true 3 (Some admin) "ns" "coin" "alice" "bob" 101 "x" s = (s, r) /\ is_ok r = false) /\
  (exists r, burn 3 (Some admin) "ns" "coin" "alice" 101 "x" s = (s, r) /\ is_ok r = false).
Proof.
  apply (overdraft_refused true 3 (Some admin) "ns" "coin" "alice" "bob" 101 "x" (ledger 1000)).
  vm_compute. reflexivity.
Defined.

Lemma mint_burn_round_trip_witness :
  let s := ledger 1000 in
  let s1 := (mint true 3 (Some admin) "ns" "coin" "bob" 7 "m" s).1 in
  let s2 := (burn 4 (Some admin) "ns" "coin" "bob" 7 "b" s1).1 in
  balance s1 "ns" "coin" "bob" = (balance s "ns" "coin" "bob" + 7)%N /\
  (forall a, a <> "bob" -> balance s1 "ns" "coin" a = balance s "ns" "coin" a) /\
  (forall a, balance s2 "ns" "coin" a = balance s "ns" "coin" a).
Proof.
  eapply (mint_burn_round_trip true 3 4 (Some admin) (Some admin) "ns" "coin" "bob" 7 "m" "b" (ledger 1000)).
  - reflexivity.
  - vm_compute. discriminate.
  - vm_compute. reflexivity.
  - vm_compute. reflexivity.
Defined.

End InMemoryExamples.

End Economic.
