(* ===== verification/Executor.v ===== *)
(** * The executor: src/crates/icn-covm/src/vm/execution.rs

    [VMExecution] owns the storage backend, the authentication context, the
    namespace, the output and the event log.  Its methods are computations on
    that record, over any backend of the interface.  The clock is a sequence of
    readings; every executor method that needs the time takes the next one and
    passes it to the storage call it makes.  The derived [Debug] text of a
    storage error and the overflow mode of the build are parameters. *)
From S2P Require Import Prelude Float64 Values Ops Auth Storage InMemory Economic.

(** What the machine takes from its environment. *)
Class Platform : Type := {
  clock : nat -> N;
  overflow_checks : bool;
  debug_storage_error : StorageError.t -> string;
}.

(** [MissingKeyBehavior] of vm/vm.rs. *)
Inductive MissingKeyBehavior : Type := MissingDefault | MissingError.

Module VMExecution.

Record t (S : Type) : Type := {
  storage_backend : option S;
  auth_context : option AuthContext.t;
  namespace : string;
  output : string;
  events : list VMEvent;
  transaction_active : bool;
  ticks : nat;
}.
Arguments storage_backend {S} _.
Arguments auth_context {S} _.
Arguments namespace {S} _.
Arguments output {S} _.
Arguments events {S} _.
Arguments transaction_active {S} _.
Arguments ticks {S} _.

Section Executor.

Context {S : Type} `{SB : StorageBackend S} `{PL : Platform}.

Abbreviation state := (t S).
Abbreviation M := (stm (t S) VMError.t).

Definition new : state :=
  {| storage_backend := None; auth_context := None; namespace := "default"; output := EmptyString;
     events := []; transaction_active := false; ticks := 0 |}.

Definition with_backend (b : option S) (s : state) : state :=
  {| storage_backend := b; auth_context := auth_context s; namespace := namespace s;
     output := output s; events := events s; transaction_active := transaction_active s;
     ticks := ticks s |}.
Definition set_storage_backend (b : S) (s : state) : state := with_backend (Some b) s.
Definition set_auth_context (a : AuthContext.t) (s : state) : state :=
  {| storage_backend := storage_backend s; auth_context := Some a; namespace := namespace s;
     output := output s; events := events s; transaction_active := transaction_active s;
     ticks := ticks s |}.
Definition set_namespace (ns : string) (s : state) : state :=
  {| storage_backend := storage_backend s; auth_context := auth_context s; namespace := ns;
     output := output s; events := events s; transaction_active := transaction_active s;
     ticks := ticks s |}.
Definition with_output (o : string) (s : state) : state :=
  {| storage_backend := storage_backend s; auth_context := auth_context s; namespace := namespace s;
     output := o; events := events s; transaction_active := transaction_active s;
     ticks := ticks s |}.
Definition push_event (e : VMEvent) (s : state) : state :=
  {| storage_backend := storage_backend s; auth_context := auth_context s; namespace := namespace s;
     output := output s; events := events s ++ [e]; transaction_active := transaction_active s;
     ticks := ticks s |}.
Definition set_transaction_active (b : bool) (s : state) : state :=
  {| storage_backend := storage_backend s; auth_context := auth_context s; namespace := namespace s;
     output := output s; events := events s; transaction_active := b; ticks := ticks s |}.

(** [SystemTime::now()] in seconds. *)
Definition now : M N := fun s =>
  ({| storage_backend := storage_backend s; auth_context := auth_context s; namespace := namespace s;
      output := output s; events := events s; transaction_active := transaction_active s;
      ticks := Datatypes.S (ticks s) |}, Ok (clock (ticks s))).

(** The error a failed storage call turns into. *)
Definition storage_operation_error (operation_name : string) (err : StorageError.t) : VMError.t :=
  match err with
  | StorageError.AuthenticationError details => VMError.InvalidSignature "unknown" details
  | StorageError.PermissionDenied user_id action key =>
      VMError.StorageError ("Permission denied for user '" +:+ user_id +:+ "' during " +:+
        operation_name +:+ ": operation '" +:+ action +:+ "' on '" +:+ key +:+ "'")
  | StorageError.NotFound key =>
      VMError.StorageError ("Key '" +:+ key +:+ "' not found during " +:+ operation_name)
  | _ => VMError.StorageError ("Error during " +:+ operation_name +:+ ": " +:+ debug_storage_error err)
  end.

Definition storage_operation {A} (operation_name : string)
    (f : option AuthContext.t -> string -> stm S StorageError.t A) : M A := fun s =>
  match storage_backend s with
  | None => (s, Err VMError.StorageUnavailable)
  | Some backend =>
      let '(backend', r) := f (auth_context s) (namespace s) backend in
      (with_backend (Some backend') s, map_err (storage_operation_error operation_name) r)
  end.

Definition storage_event_to_vm_event (e : StorageEvent) (cat : string) : VMEvent :=
  {| category := cat; message := event_type e +:+ ": " +:+ event_details e;
     timestamp := event_timestamp e |}.

(** Log the machine event made from a storage event, if there is one. *)
Definition log_storage_event (cat label : string) (e : option StorageEvent) : M unit :=
  match e with
  | Some e =>
      modify (push_event {| category := cat; message := label +:+ ": " +:+ event_details e;
                            timestamp := event_timestamp e |})
  | None => mret tt
  end.

Definition emit (msg : string) : M unit :=
  modify (fun s => with_output (output s +:+ msg +:+ TypedValue.newline) s).

Definition emit_event (cat msg : string) : M unit :=
  now ≫= fun ts => modify (push_event {| category := cat; message := msg; timestamp := ts |}).

Definition get_output (s : state) : string := output s.
Definition get_events (s : state) : list VMEvent := events s.
Definition clear_output (s : state) : state := with_output EmptyString s.
Definition get_auth_context (s : state) : option AuthContext.t := auth_context s.

Definition execute_create_resource (resource : string) : M unit :=
  now ≫= fun ts =>
  storage_operation "create_resource" (fun auth ns => Economic.create_resource ts auth ns resource) ≫= fun _ =>
  modify (push_event {| category := "economic"; message := "Resource created: " +:+ resource;
                        timestamp := ts |}).

(** [amount.as_number().unwrap() as u64]. *)
Definition amount_u64 (amount : TypedValue.t) : res StorageError.t N :=
  f64_to_u64 <$> unwrap (TypedValue.as_number amount).

Definition reason_or_default (reason : option string) : string :=
  default "No reason provided" reason.

Definition execute_mint (resource account : string) (amount : TypedValue.t) (reason : option string) :
    M unit :=
  now ≫= fun ts =>
  storage_operation "mint" (fun auth ns =>
    lift (amount_u64 amount) ≫= fun n =>
    Economic.mint overflow_checks ts auth ns resource account n (reason_or_default reason)) ≫=
  log_storage_event "economic" "mint".

Definition execute_transfer (resource from to : string) (amount : TypedValue.t)
    (reason : option string) : M unit :=
  now ≫= fun ts =>
  storage_operation "transfer" (fun auth ns =>
    lift (amount_u64 amount) ≫= fun n =>
    Economic.transfer overflow_checks ts auth ns resource from to n (reason_or_default reason)) ≫=
  log_storage_event "economic" "transfer".

Definition execute_burn (resource account : string) (amount : TypedValue.t) (reason : option string) :
    M unit :=
  now ≫= fun ts =>
  storage_operation "burn" (fun auth ns =>
    lift (amount_u64 amount) ≫= fun n =>
    Economic.burn ts auth ns resource account n (reason_or_default reason)) ≫=
  log_storage_event "economic" "burn".

Definition execute_balance (resource account : string) : M TypedValue.t :=
  now ≫= fun ts =>
  storage_operation "get_balance" (fun auth ns =>
    Economic.query (Economic.get_balance ts auth ns resource account)) ≫= fun p =>
  log_storage_event "economic" "balance" p.2 ≫= fun _ =>
  mret (TypedValue.Number (f64_of_Z (Z.of_N p.1))).

(** The amount of an [IncrementReputation], rounded and range-checked. *)
Definition reputation_amount (amount : option TypedValue.t) : res VMError.t N :=
  match amount with
  | Some value =>
      map_err (fun err => match err with
        | TypedValueError.CoercionError from to => VMError.TypeMismatch to from "increment_reputation"
        | _ => VMError.TypeMismatch "number" (TypedValue.type_name value) "increment_reputation"
        end) (TypedValue.as_number value) ≫= fun num =>
      let rounded := f64_round num in
      if f64_ltb rounded f64_zero then Err (VMError.InvalidAmount rounded)
      else if f64_ltb (f64_of_Z (Z.of_N u64_max)) rounded then Err (VMError.InvalidAmount rounded)
      else Ok (f64_to_u64 rounded)
  | None => Ok 1%N
  end.

(** Persist the change when there is a backend. *)
Definition persist_reputation (identity_id : string) (amount_val : N) : M unit := fun s =>
  match storage_backend s with
  | None => (s, Ok tt)
  | Some _ =>
      (storage_operation "get_reputation" (fun auth ns =>
         Economic.query (Economic.get_reputation auth ns identity_id)) ≫= fun p =>
       log_storage_event "reputation" "get_reputation" p.2 ≫= fun _ =>
       now ≫= fun ts =>
       storage_operation "set_reputation" (fun auth ns =>
         lift (u64_add overflow_checks p.1 amount_val) ≫= fun new_value =>
         Economic.set_reputation ts auth ns identity_id new_value) ≫=
       log_storage_event "reputation" "set_reputation") s
  end.

Definition reputation_payload (identity_id : string) (amount_val : N) : string :=
  let q := TypedValue.dquote in
  "{" +:+ q +:+ "identity_id" +:+ q +:+ ": " +:+ q +:+ identity_id +:+ q +:+ ", " +:+
  q +:+ "amount" +:+ q +:+ ": " +:+ u64_to_string amount_val +:+ "}".

Definition execute_increment_reputation (identity_id : string) (amount : option TypedValue.t) : M unit :=
  lift (reputation_amount amount) ≫= fun amount_val =>
  emit_event "reputation" (reputation_payload identity_id amount_val) ≫= fun _ =>
  persist_reputation identity_id amount_val.

Definition execute_store_p (key : string) (value : TypedValue.t) : M unit :=
  now ≫= fun ts =>
  storage_operation "store_p" (fun auth ns =>
    Economic.store ts auth ns key (TypedValue.to_string value)) ≫=
  log_storage_event "storage" "store".

(** How a stored text is read back as a value. *)
Definition parse_stored (value_str : string) : TypedValue.t :=
  match parse_f64 value_str with
  | Some num => TypedValue.Number num
  | None =>
      if String.eqb value_str "true" then TypedValue.Boolean true
      else if String.eqb value_str "false" then TypedValue.Boolean false
      else if String.eqb value_str "null" then TypedValue.Null
      else TypedValue.String value_str
  end.

Definition load_p_storage (key : string) : M (bytes * option StorageEvent) :=
  now ≫= fun ts =>
  storage_operation "load_p" (fun auth ns => Economic.query (Economic.load ts auth ns key)).

Definition execute_load_p (key : string) (missing_key_behavior : MissingKeyBehavior) : M TypedValue.t :=
  fun s =>
  let '(s', r) := load_p_storage key s in
  match r with
  | Ok (data, event_opt) =>
      (log_storage_event "storage" "load" event_opt ≫= fun _ =>
       lift match from_utf8 data with
            | None => Err (VMError.Deserialization ("Failed to parse value for key '" +:+ key +:+ "'"))
            | Some value_str => Ok (parse_stored value_str)
            end) s'
  | Err (VMError.StorageError err_msg) =>
      if str_contains "not found" err_msg then
        (s', match missing_key_behavior with
             | MissingDefault => Ok (TypedValue.Number f64_zero)
             | MissingError =>
                 Err (VMError.StorageError ("Key '" +:+ key +:+ "' not found during load_p"))
             end)
      else (s', Err (VMError.StorageError err_msg))
  | Err e => (s', Err e)
  | Panic m => (s', Panic m)
  | OutOfFuel => (s', OutOfFuel)
  end.

(** The fork owns a clone of the backend, with a transaction begun on it; the
    original is unchanged. *)
Definition fork (s : state) : res VMError.t state :=
  match storage_backend s with
  | None => Err VMError.StorageUnavailable
  | Some backend =>
      let '(backend', r) := sb_begin_transaction backend in
      match r with
      | Ok _ =>
          Ok {| storage_backend := Some backend'; auth_context := auth_context s;
                namespace := namespace s; output := output s; events := [];
                transaction_active := true; ticks := ticks s |}
      | Err e => Err (VMError.StorageError ("Failed to begin transaction: " +:+ debug_storage_error e))
      | Panic m => Panic m
      | OutOfFuel => OutOfFuel
      end
  end.

Definition end_transaction (verb : string) (op : stm S StorageError.t unit) : M unit := fun s =>
  if negb (transaction_active s) then
    (s, Err (VMError.StorageError ("No active transaction to " +:+ verb)))
  else
    match storage_backend s with
    | None => (set_transaction_active false s, Ok tt)
    | Some backend =>
        let '(backend', r) := op backend in
        let s' := with_backend (Some backend') s in
        match r with
        | Ok _ => (set_transaction_active false s', Ok tt)
        | Err e =>
            (s', Err (VMError.StorageError ("Failed to " +:+ verb +:+ " transaction: " +:+
                        debug_storage_error e)))
        | Panic m => (s', Panic m)
        | OutOfFuel => (s', OutOfFuel)
        end
    end.

Definition commit_fork_transaction : M unit := end_transaction "commit" sb_commit_transaction.
Definition rollback_fork_transaction : M unit := end_transaction "rollback" sb_rollback_transaction.

(** ** Operators *)

Definition mismatch (op expected found : string) : VMError.t := VMError.TypeMismatch expected found op.

Definition both_types (a b : TypedValue.t) : string :=
  TypedValue.type_name a +:+ " and " +:+ TypedValue.type_name b.

(** Coercion failures name the operation; the rest is the operation's own. *)
Definition operator_error (op : string) (other : TypedValueError.t -> VMError.t) (err : TypedValueError.t) :
    VMError.t :=
  match err with
  | TypedValueError.CoercionError from to => mismatch op to from
  | _ => other err
  end.

Definition division_error (op expected : string) (a b : TypedValue.t) (err : TypedValueError.t) : VMError.t :=
  match err with
  | TypedValueError.InvalidOperationForType o types =>
      if String.eqb types "by zero" then VMError.DivisionByZero
      else VMError.InvalidOperation (o +:+ " on " +:+ types)
  | _ => operator_error op (fun _ => mismatch op expected (both_types a b)) err
  end.

Definition execute_arithmetic (a b : TypedValue.t) (op : string) : res VMError.t TypedValue.t :=
  if String.eqb op "add" then
    map_err (operator_error "add" (fun _ =>
      mismatch "add" "compatible types for addition" (both_types a b))) (TypedValue.add a b)
  else if String.eqb op "sub" then
    map_err (operator_error "sub" (fun _ =>
      mismatch "sub" "compatible types for subtraction" (both_types a b))) (TypedValue.sub a b)
  else if String.eqb op "mul" then
    map_err (operator_error "mul" (fun err =>
      match err with
      | TypedValueError.ValueOutOfBounds => VMError.InvalidAmount (f64_of_Z (-1))
      | _ => mismatch "mul" "compatible types for multiplication" (both_types a b)
      end)) (TypedValue.mul a b)
  else if String.eqb op "div" then
    map_err (division_error "div" "compatible types for division" a b) (TypedValue.div a b)
  else if String.eqb op "mod" then
    map_err (division_error "mod" "compatible types for modulo" a b) (TypedValue.modulo a b)
  else Err (VMError.NotImplemented ("Unknown arithmetic operation: " +:+ op)).

Definition execute_comparison (a b : TypedValue.t) (op : string) : res VMError.t TypedValue.t :=
  let err name := operator_error name (fun _ => mismatch name "comparable types" (both_types a b)) in
  if String.eqb op "eq" then map_err (err "equals") (TypedValue.equals a b)
  else if String.eqb op "lt" then map_err (err "less_than") (TypedValue.less_than a b)
  else if String.eqb op "gt" then map_err (err "greater_than") (TypedValue.greater_than a b)
  else Err (VMError.NotImplemented ("Unknown comparison operation: " +:+ op)).

Definition execute_logical (a : TypedValue.t) (op : string) : res VMError.t TypedValue.t :=
  if String.eqb op "not" then
    map_err (operator_error "not" (fun _ =>
      mismatch "not" "any type that can be coerced to boolean" (TypedValue.type_name a)))
      (TypedValue.logical_not a)
  else Err (VMError.NotImplemented ("Unknown logical operation: " +:+ op)).

Definition execute_binary_logical (a b : TypedValue.t) (op : string) : res VMError.t TypedValue.t :=
  let err name := operator_error name (fun _ =>
    mismatch name "values that can be coerced to boolean" (both_types a b)) in
  if String.eqb op "and" then map_err (err "and") (TypedValue.logical_and a b)
  else if String.eqb op "or" then map_err (err "or") (TypedValue.logical_or a b)
  else Err (VMError.NotImplemented ("Unknown binary logical operation: " +:+ op)).

(** ** Properties *)

Context `{SL : !StorageLaws S}.

(** Two executors that act on the same storage, for the same caller, in the same
    namespace. *)
Definition same_access (s s' : state) : Prop :=
  storage_backend s = storage_backend s' /\ auth_context s = auth_context s' /\ namespace s = namespace s'.

(** What a stored value is read back as: a string keeps the quotes it was
    written with. *)
Definition reloaded (v : TypedValue.t) : TypedValue.t :=
  match v with
  | TypedValue.String s => TypedValue.String (TypedValue.dquote +:+ s +:+ TypedValue.dquote)
  | _ => v
  end.

(** Values whose text is valid and, for numbers, exact. *)
Definition storable (v : TypedValue.t) : Prop :=
  match v with
  | TypedValue.Number x => prints_exactly x
  | TypedValue.String s => utf8_valid s = true
  | _ => True
  end.

Lemma parse_stored_to_string v : storable v ->
  utf8_valid (TypedValue.to_string v) = true /\ parse_stored (TypedValue.to_string v) = reloaded v.
Proof.
  destruct v as [x|b|s|]; cbn [storable TypedValue.to_string reloaded].
  - intros H. split; [apply utf8_valid_f64_to_string|]. unfold parse_stored.
    by rewrite parse_f64_to_string_exact.
  - by destruct b.
  - intros H. split; [|reflexivity]. unfold TypedValue.dquote.
    apply (utf8_valid_app_both (String (ascii_of_nat 34) EmptyString)); [done|].
    by apply utf8_valid_app_both.
  - done.
Qed.

Lemma store_p_steps key v s s1 :
  execute_store_p key v s = (s1, Ok tt) ->
  exists b b1, storage_backend s = Some b /\ storage_backend s1 = Some b1 /\
    auth_context s1 = auth_context s /\ namespace s1 = namespace s /\
    view b1 (namespace s) key = Some (TypedValue.to_string v).
Proof.
  unfold execute_store_p. intros Hst.
  apply stm_bind_ok in Hst as (s2 & ts & [= <- <-] & Hst).
  apply stm_bind_ok in Hst as (s3 & e & Hop & Hlog). unfold storage_operation in Hop. cbn in Hop.
  destruct (storage_backend s) as [b|]; [|done].
  destruct (Economic.store _ _ _ _ _ _) as [b1 r] eqn:Hstore. injection Hop as <- Hr.
  destruct r as [e'|?|?|]; try done. cbn in Hr. injection Hr as ->.
  unfold Economic.store in Hstore. apply stm_bind_ok in Hstore as (b2 & [] & Hset & [= -> <-]).
  exists b, b1. split; [done|].
  unfold log_storage_event, modify in Hlog. injection Hlog as <-. cbn.
  do 3 (split; [done|]). rewrite (law_set_ok _ _ _ _ _ _ _ Hset). by rewrite decide_True.
Qed.

(** [StoreP] then [LoadP] on the same key, by a caller who may read: numbers,
    booleans and null come back unchanged, a string comes back in quotes. *)
Theorem store_load_p_round_trip key v s s1 behavior :
  storable v ->
  permitted (auth_context s) "read" (namespace s) = Ok tt ->
  execute_store_p key v s = (s1, Ok tt) ->
  exists s2, execute_load_p key behavior s1 = (s2, Ok (reloaded v)).
Proof.
  intros Hv Hp Hst.
  destruct (store_p_steps key v s s1 Hst) as (b & b1 & Hb & Hb1 & Ha & Hn & Hview).
  destruct (parse_stored_to_string v Hv) as [Hutf Hparse].
  unfold execute_load_p, load_p_storage.
  set (ts := clock (ticks s1)). set (s1' := (now s1).1).
  rewrite (stm_bind_eq now _ s1 s1' ts) by reflexivity.
  unfold storage_operation. cbn [storage_backend auth_context namespace now fst].
  unfold s1'. cbn. rewrite Hb1, Ha, Hn. unfold Economic.query, Economic.load.
  rewrite law_get, Hp. cbn [mbind res_bind]. rewrite Hview. cbn.
  unfold from_utf8. rewrite Hutf. eexists. unfold lift. rewrite Hparse. reflexivity.
Qed.

End Executor.

(** ** Concrete runs *)
Section Examples.

#[local] Instance test_platform : Platform :=
  {| clock := fun _ => 7%N; overflow_checks := true; debug_storage_error := StorageError.to_string |}.

Definition with_ledger : t InMemoryStorage.t :=
  set_storage_backend (Economic.ledger 1000)
    (set_auth_context InMemoryStorage.admin (set_namespace "ns" new)).

Lemma store_load_p_round_trip_witness :
  let s1 := (execute_store_p "x" (TypedValue.Number (f64_of_Z 42)) with_ledger).1 in
  exists s2, execute_load_p "x" MissingError s1 = (s2, Ok (TypedValue.Number (f64_of_Z 42))).
Proof.
  apply (store_load_p_round_trip "x" (TypedValue.Number (f64_of_Z 42)) with_ledger).
  - vm_compute. discriminate.
  - reflexivity.
  - vm_compute. reflexivity.
Defined.

(** Amounts are cast, not checked: minting -5 mints nothing and succeeds. *)
Example negative_mint_is_zero :
  let r := execute_mint "coin" "alice" (TypedValue.Number (f64_of_Z (-5))) None with_ledger in
  r.2 = Ok tt /\
  option_map (fun b => Economic.balance b "ns" "coin" "alice") (storage_backend r.1) = Some 100%N.
Proof. vm_compute. done. Qed.

End Examples.

End VMExecution.
