(* ===== verification/Ledger.v ===== *)
(** * The event DAG: src/crates/icn-ledger/src/lib.rs

    An append-only list of nodes that name their parents.  The node hash (SHA-256
    of the serialized node), the JSON codec of a line and the [Debug] text of a
    node come from outside and are parameters; a file is the list of its lines,
    or nothing when it does not exist. *)
From S2P Require Import Prelude Float64.

Module NodeData.

Inductive t : Type :=
  | ProposalCreated (proposal_id title : string)
  | VoteCast (proposal_id voter : string) (vote : f64)
  | ProposalExecuted (proposal_id : string) (success : bool)
  | TokenMinted (resource recipient : string) (amount : f64).

#[export] Instance eq_dec : EqDecision t.
Proof. solve_decision. Defined.

End NodeData.

Module DagNode.

Record t : Type := {
  id : string;
  parent_ids : list string;
  timestamp : N;
  namespace : string;
  data : NodeData.t;
}.

Definition with_namespace (parent_ids : list string) (data : NodeData.t) (timestamp : N)
    (namespace : string) : t :=
  {| id := EmptyString; parent_ids := parent_ids; timestamp := timestamp; namespace := namespace;
     data := data |}.
Definition with_default_namespace (parent_ids : list string) (data : NodeData.t) (timestamp : N) : t :=
  with_namespace parent_ids data timestamp "default".

Definition set_id (i : string) (n : t) : t :=
  {| id := i; parent_ids := parent_ids n; timestamp := timestamp n; namespace := namespace n;
     data := data n |}.

#[export] Instance eq_dec : EqDecision t.
Proof. pose proof NodeData.eq_dec. solve_decision. Defined.

End DagNode.

Module DagLedger.

Record t : Type := { nodes : list DagNode.t; file_path : option string }.

Record DagDiff : Type := {
  added : list DagNode.t;
  removed : list DagNode.t;
  common : gset string;
}.

Definition new : t := {| nodes := []; file_path := None |}.
Definition set_path (path : string) (l : t) : t := {| nodes := nodes l; file_path := Some path |}.
Definition push (n : DagNode.t) (l : t) : t := {| nodes := nodes l ++ [n]; file_path := file_path l |}.

Definition find_by_id (i : string) (l : t) : option DagNode.t :=
  head (filter (fun n => DagNode.id n = i) (nodes l)).
Definition find_by_id_nodes : string -> t -> option DagNode.t := find_by_id.

Definition nodes_by_namespace (ns : string) (l : t) : list DagNode.t :=
  filter (fun n => DagNode.namespace n = ns) (nodes l).

Definition trace_all_nodes (l : t) : list DagNode.t := nodes l.
Definition export_all (l : t) : list DagNode.t := nodes l.
Definition all_node_ids (l : t) : list string := DagNode.id <$> nodes l.
Definition export_nodes (ids : list string) (l : t) : list DagNode.t :=
  filter (fun n => DagNode.id n ∈ ids) (nodes l).

Definition find_proposal_node_id (proposal_id : string) (l : t) : option string :=
  head (omap (fun n => match DagNode.data n with
                       | NodeData.ProposalCreated i _ =>
                           if String.eqb i proposal_id then Some (DagNode.id n) else None
                       | _ => None
                       end) (nodes l)).

Definition is_vote_for (proposal_id : string) (n : DagNode.t) : bool :=
  match DagNode.data n with
  | NodeData.VoteCast i _ _ => String.eqb i proposal_id
  | _ => false
  end.
Definition find_vote_nodes_for (proposal_id : string) (l : t) : list DagNode.t :=
  filter (fun n => is_vote_for proposal_id n = true) (nodes l).

Definition related_to (proposal_id : string) (n : DagNode.t) : bool :=
  match DagNode.data n with
  | NodeData.ProposalCreated i _ | NodeData.VoteCast i _ _ | NodeData.ProposalExecuted i _ =>
      String.eqb i proposal_id
  | NodeData.TokenMinted _ _ _ => false
  end.
Definition find_proposal_related_nodes (proposal_id : string) (l : t) : list DagNode.t :=
  filter (fun n => related_to proposal_id n = true) (nodes l).

Definition type_name (n : DagNode.t) : string :=
  match DagNode.data n with
  | NodeData.ProposalCreated _ _ => "ProposalCreated"
  | NodeData.VoteCast _ _ _ => "VoteCast"
  | NodeData.ProposalExecuted _ _ => "ProposalExecuted"
  | NodeData.TokenMinted _ _ _ => "TokenMinted"
  end.
Definition get_node_type_summary (l : t) : gmap string N :=
  foldl (fun summary n => <[type_name n := (default 0 (summary !! type_name n) + 1)%N]> summary)
    ∅ (nodes l).

Definition id_set (l : t) : gset string := list_to_set (all_node_ids l).

Definition diff_with (other this : t) : DagDiff :=
  {| added := filter (fun n => DagNode.id n ∉ id_set other) (nodes this);
     removed := filter (fun n => DagNode.id n ∉ id_set this) (nodes other);
     common := id_set this ∩ id_set other |}.

(** One node of [import_from_file]: pushed unless its id is present. *)
Definition import_node (n : DagNode.t) (l : t) : t * N :=
  if existsb (fun existing => String.eqb (DagNode.id existing) (DagNode.id n)) (nodes l)
  then (l, 0%N) else (push n l, 1%N).

Fixpoint import_nodes (ns : list DagNode.t) (l : t) : t * N :=
  match ns with
  | [] => (l, 0%N)
  | n :: ns' =>
      let '(l1, a) := import_node n l in
      let '(l2, b) := import_nodes ns' l1 in
      (l2, (a + b)%N)
  end.

(** The depth-first export: a node, then its parents, skipping ids seen. *)
Fixpoint export_recursive (fuel : nat) (l : t) (node_id : string)
    (st : list DagNode.t * gset string) : res string (list DagNode.t * gset string) :=
  match fuel with
  | O => OutOfFuel
  | S fuel' =>
      let '(result, visited) := st in
      if bool_decide (node_id ∈ visited) then Ok (result, visited)
      else
        let visited := {[node_id]} ∪ visited in
        match find_by_id_nodes node_id l with
        | None => Ok (result, visited)
        | Some node =>
            foldl (fun acc parent_id => acc ≫= export_recursive fuel' l parent_id)
              (Ok (result ++ [node], visited)) (DagNode.parent_ids node)
        end
  end.

Definition export_selected (start_ids : list string) (l : t) : res string (list DagNode.t) :=
  fst <$> foldl (fun acc start_id => acc ≫= export_recursive (length (nodes l) + 2) l start_id)
            (Ok ([], ∅)) start_ids.

Section Codec.

Context (compute_id : DagNode.t -> string) (debug_node : DagNode.t -> string).
Context (to_line : DagNode.t -> string) (from_line : string -> option DagNode.t).

(** The hash covers the node as given, its old id included. *)
Definition append (node : DagNode.t) (l : t) : t * string :=
  let i := compute_id node in (push (DagNode.set_id i node) l, i).

Fixpoint trace_recursive (fuel : nat) (l : t) (node : DagNode.t) (st : string * gset string) :
    res string (string * gset string) :=
  match fuel with
  | O => OutOfFuel
  | S fuel' =>
      let '(result, visited) := st in
      if bool_decide (DagNode.id node ∈ visited) then Ok (result, visited)
      else
        foldl (fun acc parent_id =>
                 acc ≫= fun st =>
                 match find_by_id parent_id l with
                 | Some parent_node => trace_recursive fuel' l parent_node st
                 | None => Err ("Parent node " +:+ parent_id +:+ " not found")
                 end)
          (Ok (result +:+ debug_node node +:+ String (ascii_of_nat 10) EmptyString,
               {[DagNode.id node]} ∪ visited))
          (DagNode.parent_ids node)
  end.

Definition trace (node : DagNode.t) (l : t) : res string string :=
  fst <$> trace_recursive (length (nodes l) + 2) l node (EmptyString, ∅).

Definition trace_list (ns : list DagNode.t) (l : t) : res string string :=
  foldl (fun acc n => acc ≫= fun s => (fun x => s +:+ x +:+ String (ascii_of_nat 10) EmptyString) <$> trace n l)
    (Ok EmptyString) ns.
Definition trace_all (l : t) : res string string := trace_list (nodes l) l.
Definition trace_namespace (ns : string) (l : t) : res string string :=
  trace_list (nodes_by_namespace ns l) l.

(** [line.trim().is_empty()]: only white space. *)
Definition is_blank (line : string) : bool :=
  forallb (fun c => let n := N_of_ascii c in ((9 <=? n) && (n <=? 13) || (n =? 32))%N)
    (String.list_ascii_of_string line).

(** The nodes of a file: blank and unreadable lines are skipped. *)
Definition read_nodes (lines : list string) : list DagNode.t :=
  omap (fun line => if is_blank line then None else from_line line) lines.

Definition load_from_file (file : option (list string)) : t :=
  match file with
  | None => new
  | Some lines => {| nodes := read_nodes lines; file_path := None |}
  end.

Definition with_path (path : string) (file : option (list string)) : t :=
  set_path path (load_from_file file).

Definition export_to_file (l : t) : res string (list string) :=
  match file_path l with
  | Some _ => Ok (map to_line (nodes l))
  | None => Err "File path is not set"
  end.

Definition import_from_file (file : option (list string)) (l : t) : t * N :=
  match file with
  | None => (l, 0%N)
  | Some lines => import_nodes (read_nodes lines) l
  end.

Definition append_and_persist (node : DagNode.t) (l : t) : t * res string (string * list string) :=
  match file_path l with
  | None => (l, Err "File path is not set")
  | Some _ =>
      let '(l', i) := append node l in
      (l', (fun lines => (i, lines)) <$> export_to_file l')
  end.

Definition export_selected_to_file (start_ids : list string) (l : t) : res string (list string) :=
  map to_line <$> export_selected start_ids l.

Definition diff_with_file (file : option (list string)) (l : t) : DagDiff :=
  diff_with (load_from_file file) l.
Definition export_diff_to_file (d : DagDiff) : list string := map to_line (added d).

End Codec.

(** ** Lookup *)

Lemma find_by_id_Some i l n : find_by_id i l = Some n -> n ∈ nodes l /\ DagNode.id n = i.
Proof.
  unfold find_by_id. intros H. apply head_Some_elem_of in H. apply list_elem_of_filter in H. tauto.
Qed.

Lemma find_by_id_None i l : find_by_id i l = None <-> i ∉ all_node_ids l.
Proof.
  unfold find_by_id, all_node_ids. rewrite list_elem_of_fmap. split.
  - intros H (n & -> & Hn).
    assert (Hin : n ∈ filter (fun m => DagNode.id m = DagNode.id n) (nodes l))
      by (apply list_elem_of_filter; done).
    destruct (filter _ _); [by apply not_elem_of_nil in Hin|done].
  - intros H. destruct (filter _ _) as [|n ns] eqn:E; [done|]. exfalso. apply H.
    assert (Hin : n ∈ filter (fun m => DagNode.id m = i) (nodes l)) by (rewrite E; apply elem_of_cons; by left).
    apply list_elem_of_filter in Hin as [Hi Hn]. by exists n.
Qed.

(** A node whose hash is new is found under that hash. *)
Theorem append_find compute_id node l :
  let i := compute_id node in
  i ∉ all_node_ids l ->
  find_by_id i (append compute_id node l).1 = Some (DagNode.set_id i node) /\
  (forall j, j <> i -> find_by_id j (append compute_id node l).1 = find_by_id j l).
Proof.
  cbn. intros Hi. unfold find_by_id, append, push. cbn. split.
  - rewrite filter_app. apply find_by_id_None in Hi. unfold find_by_id in Hi.
    destruct (filter _ (nodes l)); [|done]. cbn. by rewrite decide_True.
  - intros j Hj. rewrite filter_app. rewrite filter_cons_False by (cbn; congruence).
    by rewrite filter_nil, app_nil_r.
Qed.

(** ** Export of a sub-DAG *)

Definition parent_edge (l : t) (a b : string) : Prop :=
  exists n, find_by_id a l = Some n /\ b ∈ DagNode.parent_ids n.

(** What a search from [starts] that had already seen [vis] adds. *)
Record explored (l : t) (starts : list string) (vis : gset string) (out : list DagNode.t)
    (vis' : gset string) : Prop := {
  ex_mono : vis ⊆ vis';
  ex_starts : forall i, i ∈ starts -> i ∈ vis';
  ex_closed : forall x n, x ∈ vis' -> x ∉ vis -> find_by_id x l = Some n ->
    n ∈ out /\ forall p, p ∈ DagNode.parent_ids n -> p ∈ vis';
  ex_out : forall n, n ∈ out ->
    find_by_id (DagNode.id n) l = Some n /\ DagNode.id n ∈ vis' /\ DagNode.id n ∉ vis;
  ex_nodup : NoDup (DagNode.id <$> out);
  ex_reach : forall x, x ∈ vis' -> x ∉ vis -> exists i, i ∈ starts /\ rtc (parent_edge l) i x;
}.

Lemma explored_nil l vis : explored l [] vis [] vis.
Proof.
  split; try done.
  - intros i Hi. by apply not_elem_of_nil in Hi.
  - intros n Hn. by apply not_elem_of_nil in Hn.
  - constructor.
Qed.

Lemma explored_app l s1 s2 vis out1 v1 out2 v2 :
  explored l s1 vis out1 v1 -> explored l s2 v1 out2 v2 ->
  explored l (s1 ++ s2) vis (out1 ++ out2) v2.
Proof.
  intros [M1 S1 C1 O1 N1 R1] [M2 S2 C2 O2 N2 R2]. split.
  - set_solver.
  - intros i [Hi|Hi]%elem_of_app; [apply M2; by apply S1|by apply S2].
  - intros x n Hx Hnx Hf. destruct (decide (x ∈ v1)) as [Hx1|Hx1].
    + destruct (C1 x n Hx1 Hnx Hf) as [Ho Hp]. split; [apply elem_of_app; by left|].
      intros p Hp'. apply M2. by apply Hp.
    + destruct (C2 x n Hx Hx1 Hf) as [Ho Hp]. split; [apply elem_of_app; by right|done].
  - intros n [Hn|Hn]%elem_of_app.
    + destruct (O1 n Hn) as (Hf & Hin & Hout). split; [done|]. split; [by apply M2|done].
    + destruct (O2 n Hn) as (Hf & Hin & Hout). split; [done|]. split; [done|]. intros H. by apply Hout, M1.
  - rewrite fmap_app. apply NoDup_app. split; [done|]. split; [|done].
    intros x (n & -> & Hn)%list_elem_of_fmap (m & Hm & Hm')%list_elem_of_fmap.
    destruct (O1 n Hn) as (_ & Hin & _). destruct (O2 m Hm') as (_ & _ & Hout). by rewrite Hm in Hin.
  - intros x Hx Hnx. destruct (decide (x ∈ v1)) as [Hx1|Hx1].
    + destruct (R1 x Hx1 Hnx) as (i & Hi & Hr). exists i. split; [apply elem_of_app; by left|done].
    + destruct (R2 x Hx Hx1) as (i & Hi & Hr). exists i. split; [apply elem_of_app; by right|done].
Qed.

Definition remaining (l : t) (vis : gset string) : nat := size (id_set l ∖ vis).

Lemma remaining_mono l vis vis' : vis ⊆ vis' -> remaining l vis' <= remaining l vis.
Proof. intros H. apply subseteq_size. set_solver. Qed.

Lemma remaining_visit l vis i n : find_by_id i l = Some n -> i ∉ vis ->
  remaining l ({[i]} ∪ vis) < remaining l vis.
Proof.
  intros Hf Hi. apply subset_size. apply find_by_id_Some in Hf as [Hn <-].
  assert (DagNode.id n ∈ id_set l).
  { apply elem_of_list_to_set. apply list_elem_of_fmap. by exists n. }
  set_solver.
Qed.

(** A list of searches, given that each single search is correct. *)
Lemma export_list_spec fuel l :
  (forall i out vis, remaining l vis < fuel -> exists new vis',
     export_recursive fuel l i (out, vis) = Ok (out ++ new, vis') /\ explored l [i] vis new vis') ->
  forall ids out vis, remaining l vis < fuel -> exists new vis',
    foldl (fun acc i => acc ≫= export_recursive fuel l i) (Ok (out, vis)) ids = Ok (out ++ new, vis') /\
    explored l ids vis new vis'.
Proof.
  intros Hone ids. induction ids as [|i ids IH]; intros out vis Hrem.
  - exists [], vis. rewrite app_nil_r. split; [done|apply explored_nil].
  - destruct (Hone i out vis Hrem) as (n1 & v1 & Hrun & Hex). cbn [foldl].
    change (Ok (out, vis) ≫= export_recursive fuel l i) with (export_recursive fuel l i (out, vis)).
    rewrite Hrun. destruct (IH (out ++ n1) v1) as (n2 & v2 & Hrun2 & Hex2).
    { pose proof (remaining_mono l vis v1 (ex_mono _ _ _ _ _ Hex)). lia. }
    exists (n1 ++ n2), v2. rewrite Hrun2, app_assoc. split; [done|].
    by apply (explored_app l [i] ids vis n1 v1 n2 v2).
Qed.

(** A visited node followed by its parents. *)
Lemma explored_node l i n vis out vis' :
  i ∉ vis -> find_by_id i l = Some n ->
  explored l (DagNode.parent_ids n) ({[i]} ∪ vis) out vis' -> explored l [i] vis (n :: out) vis'.
Proof.
  intros Hi Hf [M S C O N R]. apply find_by_id_Some in Hf as Hid. destruct Hid as [_ Hid]. split.
  - set_solver.
  - intros j ->%list_elem_of_singleton. set_solver.
  - intros x m Hx Hnx Hfx. destruct (decide (x = i)) as [->|Hxi].
    + rewrite Hf in Hfx. injection Hfx as <-. split; [apply elem_of_cons; by left|exact S].
    + destruct (C x m Hx) as [Ho Hp]; [set_solver|done|]. split; [apply elem_of_cons; by right|done].
  - intros m [->|Hm]%elem_of_cons; [rewrite Hid; set_solver|].
    destruct (O m Hm) as (Hfm & Hin & Hout). split; [done|]. set_solver.
  - cbn. constructor; [|done]. rewrite Hid. intros (m & Hm & Hm')%list_elem_of_fmap.
    destruct (O m Hm') as (_ & _ & Hout). set_solver.
  - intros x Hx Hnx. exists i. split; [by apply list_elem_of_singleton|].
    destruct (decide (x = i)) as [->|Hxi]; [apply rtc_refl|].
    destruct (R x Hx) as (p & Hp & Hr); [set_solver|]. apply rtc_l with p; [|done]. by exists n.
Qed.

Lemma export_recursive_spec fuel l i out vis : remaining l vis < fuel -> exists new vis',
  export_recursive fuel l i (out, vis) = Ok (out ++ new, vis') /\ explored l [i] vis new vis'.
Proof.
  revert i out vis. induction fuel as [|fuel IH]; intros i out vis Hrem; [lia|].
  cbn [export_recursive]. case_bool_decide as Hi.
  - exists [], vis. rewrite app_nil_r. split; [done|]. split; try done.
    + intros j ->%list_elem_of_singleton. done.
    + intros n Hn. by apply not_elem_of_nil in Hn.
    + constructor.
  - unfold find_by_id_nodes. destruct (find_by_id i l) as [n|] eqn:Hf.
    + pose proof (remaining_visit l vis i n Hf Hi) as Hlt.
      destruct (export_list_spec fuel l IH (DagNode.parent_ids n) (out ++ [n]) ({[i]} ∪ vis))
        as (new & vis' & Hrun & Hex); [lia|].
      exists (n :: new), vis'. rewrite Hrun, <- app_assoc. split; [done|]. by apply explored_node.
    + exists [], ({[i]} ∪ vis). rewrite app_nil_r. split; [done|]. split.
      * set_solver.
      * intros j ->%list_elem_of_singleton. set_solver.
      * intros x n Hx Hnx Hfx. assert (x = i) as -> by set_solver. congruence.
      * intros n Hn. by apply not_elem_of_nil in Hn.
      * constructor.
      * intros x Hx Hnx. assert (x = i) as -> by set_solver. exists i.
        split; [by apply list_elem_of_singleton|apply rtc_refl].
Qed.

Lemma remaining_bound l vis : remaining l vis <= length (nodes l).
Proof.
  transitivity (size (id_set l)); [apply subseteq_size; set_solver|].
  unfold id_set, all_node_ids. rewrite <- (length_fmap DagNode.id (nodes l)).
  generalize (DagNode.id <$> nodes l) as ids. intros ids. induction ids as [|i ids IH].
  - cbn. rewrite size_empty. lia.
  - cbn. rewrite size_union_alt. rewrite size_singleton.
    pose proof (subseteq_size (list_to_set ids ∖ {[i]}) (list_to_set ids : gset string) ltac:(set_solver)). lia.
Qed.

(** The export always terminates, cycles and missing parents included, and
    returns, once each, exactly the stored nodes reachable from the start ids
    through parent links. *)
Theorem export_selected_reachable start_ids l :
  exists out, export_selected start_ids l = Ok out /\ NoDup (DagNode.id <$> out) /\
    forall n, n ∈ out <->
      find_by_id (DagNode.id n) l = Some n /\
      exists i, i ∈ start_ids /\ rtc (parent_edge l) i (DagNode.id n).
Proof.
  unfold export_selected.
  destruct (export_list_spec (length (nodes l) + 2) l
              (fun i out vis H => export_recursive_spec _ l i out vis H) start_ids [] ∅)
    as (out & vis & Hrun & Hex).
  { pose proof (remaining_bound l ∅). lia. }
  exists out. rewrite Hrun. split; [done|]. split; [exact (ex_nodup _ _ _ _ _ Hex)|].
  intros n. split.
  - intros Hn. destruct (ex_out _ _ _ _ _ Hex n Hn) as (Hf & Hin & _). split; [done|].
    apply (ex_reach _ _ _ _ _ Hex); [done|set_solver].
  - intros (Hf & i & Hi & Hr).
    assert (Hv : DagNode.id n ∈ vis).
    { pose proof (ex_starts _ _ _ _ _ Hex i Hi) as Hiv. clear Hi.
      induction Hr as [x|x y z (m & Hm & Hy) _ IHr]; [done|]. apply IHr; [done|].
      destruct (ex_closed _ _ _ _ _ Hex x m Hiv ltac:(set_solver) Hm) as [_ Hp]. by apply Hp. }
    by apply (ex_closed _ _ _ _ _ Hex (DagNode.id n) n Hv ltac:(set_solver) Hf).
Qed.

(** ** Import *)

Lemma import_node_ids n l : id_set (import_node n l).1 = {[DagNode.id n]} ∪ id_set l.
Proof.
  unfold import_node. destruct (existsb _ (nodes l)) eqn:E; cbn.
  - apply existsb_exists in E as (m & Hm & He). apply String.eqb_eq in He.
    assert (DagNode.id n ∈ id_set l); [|set_solver].
    apply elem_of_list_to_set, list_elem_of_fmap. exists m. split; [done|]. by apply list_elem_of_In.
  - unfold id_set, all_node_ids, push. cbn. rewrite fmap_app, list_to_set_app_L. cbn. set_solver.
Qed.

Lemma import_node_present n l : DagNode.id n ∈ id_set l -> import_node n l = (l, 0%N).
Proof.
  intros (m & Hm & Hin)%elem_of_list_to_set%list_elem_of_fmap. unfold import_node.
  replace (existsb _ (nodes l)) with true; [done|]. symmetry. apply existsb_exists. exists m.
  split; [by apply list_elem_of_In|]. by rewrite <- Hm, String.eqb_refl.
Qed.

Lemma import_nodes_ids ns l : id_set (import_nodes ns l).1 = list_to_set (DagNode.id <$> ns) ∪ id_set l.
Proof.
  revert l. induction ns as [|n ns IH]; intros l; cbn; [set_solver|].
  destruct (import_node n l) as [l1 a] eqn:E1. destruct (import_nodes ns l1) as [l2 b] eqn:E2. cbn.
  specialize (IH l1). rewrite E2 in IH. cbn in IH. rewrite IH.
  pose proof (import_node_ids n l) as H1. rewrite E1 in H1. cbn in H1. rewrite H1. set_solver.
Qed.

Lemma import_nodes_present ns l : (forall n, n ∈ ns -> DagNode.id n ∈ id_set l) ->
  import_nodes ns l = (l, 0%N).
Proof.
  induction ns as [|n ns IH]; intros H; [done|]. cbn.
  rewrite import_node_present by (apply H, elem_of_cons; by left).
  rewrite IH; [done|]. intros m Hm. apply H, elem_of_cons. by right.
Qed.

(** C37. Sending a peer the [added] side of a diff brings it every id of this ledger,
    and importing the same nodes again adds nothing. *)
Theorem diff_import_synchronizes this other :
  let '(other', k) := import_nodes (added (diff_with other this)) other in
  id_set other' = id_set this ∪ id_set other /\
  import_nodes (added (diff_with other this)) other' = (other', 0%N).
Proof.
  destruct (import_nodes _ other) as [other' k] eqn:E.
  pose proof (import_nodes_ids (added (diff_with other this)) other) as H. rewrite E in H. cbn [fst] in H.
  split.
  - rewrite H. apply set_eq. intros x. rewrite !elem_of_union, elem_of_list_to_set, list_elem_of_fmap.
    cbn [added diff_with]. split.
    + intros [(n & -> & Hn)|Hx]; [|by right]. apply list_elem_of_filter in Hn as [_ Hn]. left.
      apply elem_of_list_to_set, list_elem_of_fmap. by exists n.
    + intros [Hx|Hx]; [|by right]. destruct (decide (x ∈ id_set other)) as [|Hno]; [by right|]. left.
      apply elem_of_list_to_set, list_elem_of_fmap in Hx as (n & -> & Hn).
      exists n. split; [done|]. by apply list_elem_of_filter.
  - apply import_nodes_present. intros n Hn. rewrite H. apply elem_of_union_l, elem_of_list_to_set.
    apply list_elem_of_fmap. by exists n.
Qed.

Lemma append_find_witness :
  let node := DagNode.with_default_namespace [] (NodeData.ProposalExecuted "p" true) 1 in
  find_by_id "h" (append (fun _ => "h") node new).1 = Some (DagNode.set_id "h" node) /\
  (forall j, j <> "h" -> find_by_id j (append (fun _ => "h") node new).1 = find_by_id j new).
Proof.
  apply (append_find (fun _ => "h") (DagNode.with_default_namespace [] (NodeData.ProposalExecuted "p" true) 1) new).
  apply not_elem_of_nil.
Defined.

End DagLedger.
