(* ===== verification/Trace.v ===== *)
(** * Execution traces: src/crates/icn-covm/src/vm/typed_trace.rs

    The frames a tracer records, the report it prints, and the derived [Debug]
    text of an operation as a parameter. *)
From S2P Require Import Prelude Float64 Values Ops Stack.

(** Renderings the machine takes from the standard library and from the crates
    it links: derived [Debug] texts, the unspecified order of [HashMap] keys,
    and the JSON codec of the delegation table. *)
Class Renderings : Type := {
  debug_op : Op.t -> string;
  debug_value : TypedValue.t -> string;
  debug_duration : Z -> string;
  debug_option_f64 : option f64 -> string;
  key_order : list string -> list string;
  delegations_to_json : gmap string string -> res string string;
  delegations_from_json : string -> option (gmap string string);
}.

(** [HashMap::values], in the order of the map's keys. *)
Definition hash_values `{Renderings} {A} (m : gmap string A) : list A :=
  omap (fun k => m !! k) (key_order (map_to_list m).*1).

Lemma hash_values_spec `{Renderings} {A} (m : gmap string A) :
  (forall l, key_order l ≡ₚ l) ->
  exists ks, NoDup ks /\ (forall k, k ∈ ks <-> is_Some (m !! k)) /\
             Forall2 (fun k x => m !! k = Some x) ks (hash_values m).
Proof.
  intros Hperm. exists (key_order (map_to_list m).*1). split; [|split].
  - rewrite Hperm. apply NoDup_fst_map_to_list.
  - intros k. rewrite (Hperm (map_to_list m).*1), list_elem_of_fmap. split.
    + intros ([k' x] & -> & Hx%elem_of_map_to_list). by exists x.
    + intros [x Hx]. exists (k, x). by rewrite elem_of_map_to_list.
  - unfold hash_values. assert (Hall : Forall (fun k => is_Some (m !! k)) (key_order (map_to_list m).*1)).
    { apply Forall_forall. intros k. rewrite (Hperm (map_to_list m).*1), list_elem_of_fmap.
      intros ([k' x] & -> & Hx%elem_of_map_to_list). by exists x. }
    induction Hall as [|k ks [x Hx] _ IH]; [constructor|]. cbn. rewrite Hx. by constructor.
Qed.

Module TypedFrameTrace.

Record t : Type := {
  op : Op.t;
  stack_before : list TypedValue.t;
  stack_after : option (list TypedValue.t);
  memory_changes : list (string * TypedValue.t);
  events_emitted : list VMEvent;
  pc : N;
  error : option string;
}.

Definition new (op : Op.t) (stack : VMStack.t) (pc : N) : t :=
  {| op := op; stack_before := VMStack.get_stack stack; stack_after := None; memory_changes := [];
     events_emitted := []; pc := pc; error := None |}.

Definition record_stack_after (stack : VMStack.t) (f : t) : t :=
  {| op := op f; stack_before := stack_before f; stack_after := Some (VMStack.get_stack stack);
     memory_changes := memory_changes f; events_emitted := events_emitted f; pc := pc f;
     error := error f |}.
Definition record_memory_change (name : string) (value : TypedValue.t) (f : t) : t :=
  {| op := op f; stack_before := stack_before f; stack_after := stack_after f;
     memory_changes := memory_changes f ++ [(name, value)]; events_emitted := events_emitted f;
     pc := pc f; error := error f |}.
Definition record_events (events : list VMEvent) (f : t) : t :=
  {| op := op f; stack_before := stack_before f; stack_after := stack_after f;
     memory_changes := memory_changes f; events_emitted := events_emitted f ++ events;
     pc := pc f; error := error f |}.
Definition record_error (e : string) (f : t) : t :=
  {| op := op f; stack_before := stack_before f; stack_after := stack_after f;
     memory_changes := memory_changes f; events_emitted := events_emitted f; pc := pc f;
     error := Some e |}.

(** The texts describe each value, which panics on a long string cut inside a
    character; hence the results. *)
Fixpoint describe_all (l : list TypedValue.t) : res TypedValueError.t (list string) :=
  match l with
  | [] => Ok []
  | v :: l' => x ← TypedValue.describe v; xs ← describe_all l'; Ok (x :: xs)
  end.

Definition format_stack (stack : list TypedValue.t) : res TypedValueError.t string :=
  join ", " <$> describe_all stack.

Section Text.

Context `{RD : Renderings}.

Definition op_description (f : t) : res TypedValueError.t string :=
  match op f with
  | Op.Push val => d ← TypedValue.describe val; Ok ("Push " +:+ d)
  | Op.Pop => Ok "Pop value from stack"
  | Op.Add => Ok "Add top two values"
  | Op.Sub => Ok "Subtract top value from second value"
  | Op.Mul => Ok "Multiply top two values"
  | Op.Div => Ok "Divide second value by top value"
  | Op.Mod => Ok "Modulo second value by top value"
  | Op.Store name => Ok ("Store value in variable '" +:+ name +:+ "'")
  | Op.Load name => Ok ("Load variable '" +:+ name +:+ "' onto stack")
  | Op.Eq => Ok "Check if top two values are equal"
  | Op.Lt => Ok "Check if second value is less than top value"
  | Op.Gt => Ok "Check if second value is greater than top value"
  | Op.And => Ok "Logical AND of top two values"
  | Op.Or => Ok "Logical OR of top two values"
  | Op.Not => Ok "Logical NOT of top value"
  | Op.If _ _ _ => Ok "Conditional block"
  | Op.Loop _ _ => Ok "Loop block"
  | Op.Call name => Ok ("Call function '" +:+ name +:+ "'")
  | _ => Ok (debug_op (op f))
  end.

Definition line (s : string) : string := s +:+ TypedValue.newline.

Definition explain_changes (f : t) : res TypedValueError.t string :=
  match memory_changes f with
  | [] => Ok EmptyString
  | changes =>
      values ← describe_all (snd <$> changes);
      Ok (line "  Memory changes:" +:+
          String.concat EmptyString
            (zip_with (fun c v => line ("    " +:+ fst c +:+ " = " +:+ v)) changes values))
  end.

Definition explain_events (f : t) : string :=
  match events_emitted f with
  | [] => EmptyString
  | events =>
      line "  Events:" +:+
      String.concat EmptyString
        (map (fun e => line ("    [" +:+ category e +:+ "] " +:+ message e)) events)
  end.

Definition explain (f : t) : res TypedValueError.t string :=
  description ← op_description f;
  before ← format_stack (stack_before f);
  after ← match stack_after f with
          | Some s => (fun x => line ("  Stack after: [" +:+ x +:+ "]")) <$> format_stack s
          | None => Ok EmptyString
          end;
  changes ← explain_changes f;
  Ok (line ("Step " +:+ u64_to_string (pc f) +:+ ": " +:+ description) +:+
      line ("  Stack before: [" +:+ before +:+ "]") +:+ after +:+ changes +:+ explain_events f +:+
      match error f with Some e => line ("  ERROR: " +:+ e) | None => EmptyString end).

End Text.

End TypedFrameTrace.

(** The simplified frame kept for external use. *)
Record TypedTraceFrame : Type := {
  traced_op : Op.t;
  traced_before : list TypedValue.t;
  traced_after : list TypedValue.t;
}.

Module VMTracer.

Record t : Type := {
  frames : list TypedFrameTrace.t;
  enabled : bool;
  verbosity : N;
  external_frames : list TypedTraceFrame;
}.

Definition new (enabled : bool) (verbosity : N) : t :=
  {| frames := []; enabled := enabled; verbosity := verbosity; external_frames := [] |}.

Definition with_frames (fs : list TypedFrameTrace.t) (tr : t) : t :=
  {| frames := fs; enabled := enabled tr; verbosity := verbosity tr;
     external_frames := external_frames tr |}.
Definition with_external (fs : list TypedTraceFrame) (tr : t) : t :=
  {| frames := frames tr; enabled := enabled tr; verbosity := verbosity tr; external_frames := fs |}.

Definition trace_op (op : Op.t) (stack : VMStack.t) (pc : N) (tr : t) : t * option nat :=
  if negb (enabled tr) then (tr, None)
  else
    let fs := frames tr ++ [TypedFrameTrace.new op stack pc] in
    (with_frames fs tr, Some (length fs - 1)).

(** The other recorders change the frame at an index, when there is one. *)
Definition update (frame_idx : option nat) (f : TypedFrameTrace.t -> TypedFrameTrace.t) (tr : t) : t :=
  match frame_idx with
  | Some idx => with_frames (alter f idx (frames tr)) tr
  | None => tr
  end.
Definition trace_stack_after (frame_idx : option nat) (stack : VMStack.t) : t -> t :=
  update frame_idx (TypedFrameTrace.record_stack_after stack).
Definition trace_memory_change (frame_idx : option nat) (name : string) (value : TypedValue.t) : t -> t :=
  update frame_idx (TypedFrameTrace.record_memory_change name value).
Definition trace_events (frame_idx : option nat) (events : list VMEvent) : t -> t :=
  update frame_idx (TypedFrameTrace.record_events events).
Definition trace_error (frame_idx : option nat) (error : string) : t -> t :=
  update frame_idx (TypedFrameTrace.record_error error).

Definition record_trace_frame (op : Op.t) (stack_before stack_after : list TypedValue.t) (tr : t) : t :=
  if enabled tr then
    with_external (external_frames tr ++
      [{| traced_op := op; traced_before := stack_before; traced_after := stack_after |}]) tr
  else tr.

(** Set the stack of the last simplified frame. *)
Definition set_last_after (stack : list TypedValue.t) (tr : t) : t :=
  match last (external_frames tr) with
  | Some f =>
      with_external (removelast (external_frames tr) ++
        [{| traced_op := traced_op f; traced_before := traced_before f; traced_after := stack |}]) tr
  | None => tr
  end.

Fixpoint explain_all `{RD : Renderings} (fs : list TypedFrameTrace.t) : res TypedValueError.t string :=
  match fs with
  | [] => Ok EmptyString
  | f :: fs' =>
      x ← TypedFrameTrace.explain f;
      xs ← explain_all fs';
      Ok (TypedFrameTrace.line x +:+ xs)
  end.

Definition generate_report `{RD : Renderings} (tr : t) : res TypedValueError.t string :=
  if negb (enabled tr) || match frames tr with [] => true | _ => false end then
    Ok "Tracing not enabled or no execution frames recorded."
  else
    body ← explain_all (frames tr);
    Ok (TypedFrameTrace.line (TypedFrameTrace.line "=== VM Execution Trace ===") +:+ body +:+
        TypedFrameTrace.line "=== End of Trace ===").

(** Recording after the frame of an operation names that operation: the index
    [trace_op] returns is the frame it added, and later updates reach only it. *)
Lemma trace_op_update op stack pc tr idx f :
  (trace_op op stack pc tr).2 = Some idx ->
  frames (update (Some idx) f (trace_op op stack pc tr).1) =
  frames tr ++ [f (TypedFrameTrace.new op stack pc)].
Proof.
  unfold trace_op. destruct (enabled tr); cbn; [|done]. intros [= <-].
  rewrite length_app. cbn. replace (length (frames tr) + 1 - 1) with (length (frames tr) + 0) by lia.
  by rewrite alter_app_r.
Qed.

End VMTracer.
