(* ===== verification/Machine.v ===== *)
(** * The machine's state: src/crates/icn-covm/src/vm/vm.rs

    The [VM] record with its stack, memory and executor, the accessors and
    switches of its interface, transactions through a fork, and the tracing and
    explanation an operation is wrapped in.  The interpreter is in VM.v.  What
    tracing prints to the console is not kept. *)
From S2P Require Import Prelude Float64 Values Ops Stack Memory Auth Storage Economic Executor Ledger Trace.

Module VM.

Record t (S : Type) : Type := {
  stack : VMStack.t;
  memory : VMMemory.t;
  executor : VMExecution.t S;
  missing_key_behavior : MissingKeyBehavior;
  dag : option DagLedger.t;
  trace_enabled : bool;
  explain_enabled : bool;
  simulation_mode : bool;
  verbose_storage_trace : bool;
  tracer : option VMTracer.t;
}.
Arguments stack {S} _.
Arguments memory {S} _.
Arguments executor {S} _.
Arguments missing_key_behavior {S} _.
Arguments dag {S} _.
Arguments trace_enabled {S} _.
Arguments explain_enabled {S} _.
Arguments simulation_mode {S} _.
Arguments verbose_storage_trace {S} _.
Arguments tracer {S} _.

Section Machine.

Context {S : Type} `{SB : StorageBackend S} `{PL : Platform} `{RD : Renderings}.

Abbreviation state := (t S).
Abbreviation M := (stm (t S) VMError.t).

Definition new : state :=
  {| stack := VMStack.new; memory := VMMemory.new; executor := VMExecution.new;
     missing_key_behavior := MissingDefault; dag := Some DagLedger.new; trace_enabled := false;
     explain_enabled := false; simulation_mode := false; verbose_storage_trace := false;
     tracer := None |}.

Definition with_stack (st : VMStack.t) (s : state) : state :=
  {| stack := st; memory := memory s; executor := executor s;
     missing_key_behavior := missing_key_behavior s; dag := dag s; trace_enabled := trace_enabled s;
     explain_enabled := explain_enabled s; simulation_mode := simulation_mode s;
     verbose_storage_trace := verbose_storage_trace s; tracer := tracer s |}.
Definition with_memory (m : VMMemory.t) (s : state) : state :=
  {| stack := stack s; memory := m; executor := executor s;
     missing_key_behavior := missing_key_behavior s; dag := dag s; trace_enabled := trace_enabled s;
     explain_enabled := explain_enabled s; simulation_mode := simulation_mode s;
     verbose_storage_trace := verbose_storage_trace s; tracer := tracer s |}.
Definition with_executor (e : VMExecution.t S) (s : state) : state :=
  {| stack := stack s; memory := memory s; executor := e;
     missing_key_behavior := missing_key_behavior s; dag := dag s; trace_enabled := trace_enabled s;
     explain_enabled := explain_enabled s; simulation_mode := simulation_mode s;
     verbose_storage_trace := verbose_storage_trace s; tracer := tracer s |}.
Definition with_dag (d : option DagLedger.t) (s : state) : state :=
  {| stack := stack s; memory := memory s; executor := executor s;
     missing_key_behavior := missing_key_behavior s; dag := d; trace_enabled := trace_enabled s;
     explain_enabled := explain_enabled s; simulation_mode := simulation_mode s;
     verbose_storage_trace := verbose_storage_trace s; tracer := tracer s |}.
Definition with_tracer (enabled : bool) (tr : option VMTracer.t) (s : state) : state :=
  {| stack := stack s; memory := memory s; executor := executor s;
     missing_key_behavior := missing_key_behavior s; dag := dag s; trace_enabled := enabled;
     explain_enabled := explain_enabled s; simulation_mode := simulation_mode s;
     verbose_storage_trace := verbose_storage_trace s; tracer := tr |}.
Definition with_modes (behavior : MissingKeyBehavior) (explain simulation verbose : bool) (s : state) : state :=
  {| stack := stack s; memory := memory s; executor := executor s;
     missing_key_behavior := behavior; dag := dag s; trace_enabled := trace_enabled s;
     explain_enabled := explain; simulation_mode := simulation;
     verbose_storage_trace := verbose; tracer := tracer s |}.

(** Methods of the components, run on the whole machine. *)
Definition on_stack {A} (m : stm VMStack.t VMError.t A) : M A := zoom stack with_stack m.
Definition on_memory {A} (m : stm VMMemory.t VMError.t A) : M A := zoom memory with_memory m.
Definition on_executor {A} (m : stm (VMExecution.t S) VMError.t A) : M A := zoom executor with_executor m.

(** ** Interface *)

Definition set_storage_backend (backend : S) (s : state) : state :=
  with_executor (VMExecution.set_storage_backend backend (executor s)) s.
Definition with_storage_backend (backend : S) : state := set_storage_backend backend new.

Definition set_auth_context (auth : AuthContext.t) (s : state) : state :=
  with_executor (VMExecution.set_auth_context auth (executor s)) s.
Definition set_namespace (ns : string) (s : state) : state :=
  with_executor (VMExecution.set_namespace ns (executor s)) s.
Definition set_missing_key_behavior (b : MissingKeyBehavior) (s : state) : state :=
  with_modes b (explain_enabled s) (simulation_mode s) (verbose_storage_trace s) s.

(** The lines of the file at [path], if there is one, come from the file system. *)
Definition with_dag_path (from_line : string -> option DagNode.t) (path : string)
    (file : option (list string)) (s : state) : state :=
  with_dag (Some (DagLedger.with_path from_line path file)) s.
Definition set_dag_path (from_line : string -> option DagNode.t) (path : string)
    (file : option (list string)) (s : state) : state :=
  match dag s with
  | Some d => with_dag (Some (DagLedger.set_path path d)) s
  | None => with_dag (Some (DagLedger.with_path from_line path file)) s
  end.
Definition get_dag (s : state) : option DagLedger.t := dag s.

Definition get_auth_context (s : state) : option AuthContext.t :=
  VMExecution.get_auth_context (executor s).
Definition get_storage_backend (s : state) : option S := VMExecution.storage_backend (executor s).
Definition get_namespace (s : state) : option string := Some (VMExecution.namespace (executor s)).

Definition with_storage {R} (f : S -> R) (s : state) : res VMError.t R :=
  match get_storage_backend s with
  | Some storage => Ok (f storage)
  | None => Err VMError.StorageNotAvailable
  end.
Definition with_storage_mut {R} (f : S -> S * R) : M R := fun s =>
  match get_storage_backend s with
  | Some storage => let '(storage', r) := f storage in (set_storage_backend storage' s, Ok r)
  | None => (s, Err VMError.StorageNotAvailable)
  end.

Definition fork (s : state) : res VMError.t state :=
  forked_executor ← VMExecution.fork (executor s); Ok (with_executor forked_executor s).
Definition try_clone (s : state) : option state := Some (with_executor VMExecution.new s).

Definition commit_fork_transaction : M unit := on_executor VMExecution.commit_fork_transaction.
Definition rollback_fork_transaction : M unit := on_executor VMExecution.rollback_fork_transaction.

Definition top (s : state) : option TypedValue.t := VMStack.top (stack s).
Definition pop_one (op_name : string) : M TypedValue.t := on_stack (VMStack.pop op_name).
Definition pop_two (op_name : string) : M (TypedValue.t * TypedValue.t) := on_stack (VMStack.pop_two op_name).
Definition push (v : TypedValue.t) : M unit := on_stack (VMStack.push v).

(** The value a parameter's text stands for. *)
Definition parameter_value (value : string) : TypedValue.t :=
  if String.eqb (str_ascii_lower value) "true" then TypedValue.Boolean true
  else if String.eqb (str_ascii_lower value) "false" then TypedValue.Boolean false
  else match parse_f64 value with
       | Some num => TypedValue.Number num
       | None => TypedValue.String value
       end.
Definition set_parameters (parameters : list (string * string)) : M unit :=
  modify (fun s => with_memory
    (foldl (fun m kv => VMMemory.store_param kv.1 (parameter_value kv.2) m) (memory s) parameters) s).

Definition get_stack (s : state) : list TypedValue.t := VMStack.get_stack (stack s).
Definition get_memory_map (s : state) : res VMError.t (gmap string TypedValue.t) :=
  VMMemory.get_memory_map (memory s).
Definition get_output (s : state) : string := VMExecution.get_output (executor s).
Definition get_events (s : state) : list VMEvent := VMExecution.get_events (executor s).

Definition with_tracing (s : state) : state := with_tracer true (tracer s) s.
Definition with_explanation (s : state) : state :=
  with_modes (missing_key_behavior s) true (simulation_mode s) (verbose_storage_trace s) s.
Definition in_simulation_mode (s : state) : state :=
  with_modes (missing_key_behavior s) (explain_enabled s) true (verbose_storage_trace s) s.
Definition with_verbose_storage_trace (s : state) : state :=
  with_modes (missing_key_behavior s) (explain_enabled s) (simulation_mode s) true s.

Definition set_tracing (enabled : bool) (s : state) : state :=
  with_tracer enabled
    (match enabled, tracer s with
     | true, None => Some (VMTracer.new true 1)
     | true, Some tr => Some tr
     | false, _ => None
     end) s.
Definition set_explanation (enabled : bool) (s : state) : state :=
  with_modes (missing_key_behavior s) enabled (simulation_mode s) (verbose_storage_trace s) s.
Definition set_simulation_mode (enabled : bool) (s : state) : state :=
  with_modes (missing_key_behavior s) (explain_enabled s) enabled (verbose_storage_trace s) s.
Definition set_verbose_storage_trace (enabled : bool) (s : state) : state :=
  with_modes (missing_key_behavior s) (explain_enabled s) (simulation_mode s) enabled s.

Definition is_verbose_storage_tracing (s : state) : bool := verbose_storage_trace s.
Definition is_tracing (s : state) : bool := trace_enabled s.
Definition is_explaining (s : state) : bool := explain_enabled s.
Definition is_simulation_mode (s : state) : bool := simulation_mode s.

(** ** Tracing *)

Definition emit (msg : string) : M unit := on_executor (VMExecution.emit msg).
Definition emit_event (cat msg : string) : M unit := on_executor (VMExecution.emit_event cat msg).

Definition log_trace (op : Op.t) : M unit := modify (fun s =>
  if trace_enabled s then
    with_tracer true (VMTracer.record_trace_frame op (get_stack s) [] <$> tracer s) s
  else s).

Definition record_stack_after : M unit := modify (fun s =>
  if trace_enabled s then with_tracer true (VMTracer.set_last_after (get_stack s) <$> tracer s) s
  else s).

Definition display_op : Op.t -> string := Op.to_string debug_duration debug_option_f64.

(** Every arm that names an operation of the enum. *)
Definition explain_op (op : Op.t) : string :=
  match op with
  | Op.Push value => "Push value " +:+ debug_value value +:+ " onto the stack"
  | Op.Add => "Add the top two values on the stack"
  | Op.Sub => "Subtract the top value from the second value on the stack"
  | Op.Mul => "Multiply the top two values on the stack"
  | Op.Div => "Divide the second value by the top value on the stack"
  | Op.Mod => "Calculate the remainder of the second value divided by the top value"
  | Op.Store key => "Store the top value in memory with key '" +:+ key +:+ "'"
  | Op.Load key => "Load value with key '" +:+ key +:+ "' from memory"
  | Op.If _ _ else_ =>
      "If the condition is true, execute 'then' branch" +:+
      match else_ with Some _ => ", otherwise execute 'else' branch" | None => EmptyString end
  | Op.Loop count _ => "Execute the body " +:+ u64_to_string count +:+ " times"
  | Op.While _ _ => "While the condition is true, execute the body"
  | Op.Pop => "Remove the top value from the stack"
  | Op.Eq => "Check if the top two values are equal"
  | Op.Gt => "Check if the second value is greater than the top value"
  | Op.Lt => "Check if the second value is less than the top value"
  | Op.Not => "Logical NOT of the top value"
  | Op.And => "Logical AND of the top two values"
  | Op.Or => "Logical OR of the top two values"
  | Op.Dup => "Duplicate the top value on the stack"
  | Op.Swap => "Swap the top two values on the stack"
  | Op.Over => "Copy the second value to the top of the stack"
  | Op.Def name _ _ => "Define a function named '" +:+ name +:+ "'"
  | Op.Call name => "Call the function named '" +:+ name +:+ "'"
  | Op.Return => "Return from the current function"
  | Op.Nop => "No operation (do nothing)"
  | Op.Match _ _ _ => "Match a value against several cases"
  | Op.Break => "Break out of the innermost loop"
  | Op.Continue => "Continue to the next iteration of the innermost loop"
  | Op.EmitEvent cat msg =>
      "Emit an event with category '" +:+ cat +:+ "' and message '" +:+ msg +:+ "'"
  | Op.AssertEqualStack depth =>
      "Assert that the top " +:+ u64_to_string depth +:+ " values on the stack are equal"
  | Op.DumpState => "Display the entire VM state"
  | Op.StoreP key => "Store the top stack value in persistent storage under key '" +:+ key +:+ "'"
  | Op.LoadP key =>
      "Load value from persistent storage with key '" +:+ key +:+ "' and push it onto the stack"
  | _ => "Execute operation: " +:+ display_op op
  end.

Definition log_explanation (op : Op.t) : M unit := fun s =>
  if explain_enabled s then emit ("[EXPLAIN] " +:+ explain_op op) s else (s, Ok tt).

Definition log_storage_operation (operation key : string) (value : TypedValue.t) : M unit := fun s =>
  if verbose_storage_trace s then
    emit_event "storage_trace" (operation +:+ " " +:+ key +:+ " = " +:+ TypedValue.to_string value) s
  else (s, Ok tt).

End Machine.

End VM.

(** An environment the concrete runs share. *)
Module Samples.

Definition platform : Platform :=
  {| clock := fun _ => 7%N; overflow_checks := true; debug_storage_error := StorageError.to_string |}.
Definition renderings : Renderings :=
  {| debug_op := fun _ => "op"; debug_value := TypedValue.to_string; debug_duration := fun _ => "duration";
     debug_option_f64 := fun _ => "amount"; key_order := fun l => l;
     delegations_to_json := fun _ => Ok "{}"; delegations_from_json := fun _ => Some ∅ |}.

End Samples.
