(* ===== verification/Governance.v ===== *)
(** * Governance operations: src/crates/icn-covm/src/governance/

    The four handlers [try_handle_governance_op] dispatches to: ranked-choice
    voting, liquid delegation, and the two thresholds.  They treat what
    [VM::pop_one] returns as a float and push floats, which is read here as
    popping and pushing numbers ([pop_number], [TypedValue.Number]). *)
From S2P Require Import Prelude Float64 Values Ops Stack Memory Auth Storage InMemory Economic Executor Ledger Trace Machine.

Section Handlers.

Context {S : Type} `{SB : StorageBackend S} `{PL : Platform} `{RD : Renderings}.

Abbreviation M := (stm (VM.t S) VMError.t).

Definition pop_one_number (op_name : string) : M f64 := VM.on_stack (VMStack.pop_number op_name).
Definition push_number (x : f64) : M unit := VM.push (TypedValue.Number x).
Definition governance_event (msg : string) : M unit := VM.emit_event "governance" msg.

End Handlers.

(** ** governance/ranked_vote.rs *)
Module RankedVote.

(** A ballot is its choices, best first. *)
Abbreviation ballot := (list f64) (only parsing).

(** The first choice of a ballot that names a standing candidate. *)
Fixpoint first_standing (eliminated : list bool) (b : ballot) : option nat :=
  match b with
  | [] => None
  | choice :: b' =>
      let candidate := N.to_nat (f64_to_u64 choice) in
      match eliminated !! candidate with
      | Some false => Some candidate
      | _ => first_standing eliminated b'
      end
  end.

Definition count_votes (eliminated : list bool) (ballots : list ballot) : list N :=
  foldl (fun votes b => match first_standing eliminated b with
                        | Some candidate => alter (N.add 1) candidate votes
                        | None => votes
                        end)
    (replicate (length eliminated) 0%N) ballots.

(** The scan for the fewest votes above zero: the first such candidate, or
    candidate 0 when nobody has a vote. *)
Fixpoint weakest (eliminated : list bool) (votes : list N) (candidate : nat) (best : N * nat) : N * nat :=
  match eliminated, votes with
  | e :: eliminated', vote_count :: votes' =>
      weakest eliminated' votes' (candidate + 1)
        (if negb e && (vote_count <? best.1)%N && (0 <? vote_count)%N then (vote_count, candidate) else best)
  | _, _ => best
  end.

(** One round: the candidate eliminated and its votes. *)
Definition round (ballots : list ballot) (eliminated : list bool) : list bool * (N * nat) :=
  let votes := count_votes eliminated ballots in
  let '(min_votes, min_candidate) :=
    weakest eliminated votes 0 ((N.of_nat (length ballots) + 1)%N, 0) in
  (<[min_candidate := true]> eliminated, (min_votes, min_candidate)).

Definition position_standing (eliminated : list bool) : option nat :=
  fst <$> list_find (fun e => e = false) eliminated.

Section Handler.

Context {S : Type} `{SB : StorageBackend S} `{PL : Platform} `{RD : Renderings}.

Abbreviation M := (stm (VM.t S) VMError.t).

Fixpoint pop_ballot (candidates : nat) : M ballot :=
  match candidates with
  | O => mret []
  | Datatypes.S n => choice ← pop_one_number "RankedVote"; b ← pop_ballot n; mret (choice :: b)
  end.
Fixpoint pop_ballots (ballots candidates : nat) : M (list ballot) :=
  match ballots with
  | O => mret []
  | Datatypes.S n => b ← pop_ballot candidates; bs ← pop_ballots n candidates; mret (b :: bs)
  end.

(** The rounds, each with its event, until one candidate remains. *)
Fixpoint rounds (n : nat) (all_ballots : list ballot) (eliminated : list bool) : M (list bool) :=
  match n with
  | O => mret eliminated
  | Datatypes.S n' =>
      let '(eliminated', (min_votes, min_candidate)) := round all_ballots eliminated in
      governance_event ("Eliminated candidate " +:+ u64_to_string (N.of_nat min_candidate) +:+
        " with " +:+ u64_to_string min_votes +:+ " votes") ≫= fun _ =>
      rounds n' all_ballots eliminated'
  end.

Definition handle (candidates ballots : N) : M unit :=
  if (candidates <? 2)%N then
    throw (VMError.GovernanceError "RankedVote requires at least 2 candidates")
  else if (ballots <? 1)%N then
    throw (VMError.GovernanceError "RankedVote requires at least 1 ballot")
  else
    pop_ballots (N.to_nat ballots) (N.to_nat candidates) ≫= fun all_ballots =>
    governance_event ("Running ranked-choice vote with " +:+ u64_to_string candidates +:+
      " candidates and " +:+ u64_to_string ballots +:+ " ballots") ≫= fun _ =>
    rounds (N.to_nat candidates - 1) all_ballots (replicate (N.to_nat candidates) false) ≫= fun eliminated =>
    let winner := N.of_nat (default 0 (position_standing eliminated)) in
    governance_event ("Winner of ranked-choice vote: candidate " +:+ u64_to_string winner) ≫= fun _ =>
    push_number (f64_of_Z (Z.of_N winner)).

End Handler.

End RankedVote.

(** ** governance/liquid_delegate.rs *)
Module LiquidDelegate.

Definition delegations_key : string := "governance_delegations".

(** The walk from [current] along the delegations; [false] on a repeated name. *)
Fixpoint walk (fuel : nat) (delegations : gmap string string) (visited : gset string) (current : string) :
    res VMError.t bool :=
  match fuel with
  | O => OutOfFuel
  | Datatypes.S fuel' =>
      if TypedValue.str_is_empty current then Ok true
      else if bool_decide (current ∈ visited) then Ok false
      else walk fuel' delegations ({[current]} ∪ visited) (default EmptyString (delegations !! current))
  end.

(** The table after the operation and the text of its event. *)
Definition update (delegations : gmap string string) (from to : string) :
    res VMError.t (gmap string string * string) :=
  if TypedValue.str_is_empty to then
    match delegations !! from with
    | Some _ => Ok (delete from delegations, "Delegation revoked for " +:+ from)
    | None => Ok (delegations, "No delegation found to revoke for " +:+ from)
    end
  else
    walk (size delegations + 2) delegations {[from]} to ≫= fun ok : bool =>
    if ok then
      Ok (<[from := to]> delegations, "Delegation created from " +:+ from +:+ " to " +:+ to)
    else Err (VMError.GovernanceError ("Delegation from " +:+ from +:+ " to " +:+ to +:+
                " would create a cycle")).

Section Handler.

Context {S : Type} `{SB : StorageBackend S} `{PL : Platform} `{RD : Renderings}.

Abbreviation M := (stm (VM.t S) VMError.t).

(** The table is read only when memory holds its marker variable. *)
Definition read_delegations (m : VMMemory.t) : res VMError.t (gmap string string) :=
  match VMMemory.load delegations_key m with
  | Ok _ =>
      Ok (match VMMemory.get_string_metadata delegations_key m with
          | Some metadata => default ∅ (delegations_from_json metadata)
          | None => ∅
          end)
  | Err _ => Ok ∅
  | Panic msg => Panic msg
  | OutOfFuel => OutOfFuel
  end.

Definition handle (from to : string) : M unit :=
  if TypedValue.str_is_empty from then
    throw (VMError.GovernanceError "LiquidDelegate requires a non-empty 'from' parameter")
  else
    get_state ≫= fun s =>
    lift (read_delegations (VM.memory s)) ≫= fun delegations =>
    lift (update delegations from to) ≫= fun p =>
    governance_event p.2 ≫= fun _ =>
    lift (map_err (fun e => VMError.Deserialization ("Failed to serialize delegations: " +:+ e))
            (delegations_to_json p.1)) ≫= fun serialized =>
    modify (fun s => VM.with_memory
      (VMMemory.set_string_metadata delegations_key serialized (VM.memory s)) s) ≫= fun _ =>
    VM.on_memory (VMMemory.store delegations_key
      (TypedValue.Number (f64_of_Z (Z.of_nat (size p.1))))).

End Handler.

End LiquidDelegate.

(** ** governance/quorum_threshold.rs and governance/vote_threshold.rs *)
Module Thresholds.

Section Handler.

Context {S : Type} `{SB : StorageBackend S} `{PL : Platform} `{RD : Renderings}.

Abbreviation M := (stm (VM.t S) VMError.t).

Definition hundred : f64 := f64_of_Z 100.

Definition quorum (threshold : f64) : M unit :=
  if f64_ltb threshold f64_zero || f64_ltb f64_one threshold then
    throw (VMError.GovernanceError "QuorumThreshold must be between 0.0 and 1.0")
  else
    pop_one_number "QuorumThreshold:total_possible" ≫= fun total_possible =>
    pop_one_number "QuorumThreshold:votes_cast" ≫= fun votes_cast =>
    if f64_leb total_possible f64_zero then
      throw (VMError.GovernanceError "Total possible votes must be greater than zero")
    else
      let participation_ratio := f64_div votes_cast total_possible in
      governance_event ("Quorum check: " +:+ f64_to_string votes_cast +:+ "/" +:+
        f64_to_string total_possible +:+ " = " +:+
        f64_to_fixed 2 (f64_mul participation_ratio hundred) +:+ "%, threshold: " +:+
        f64_to_fixed 2 (f64_mul threshold hundred) +:+ "%") ≫= fun _ =>
      if f64_leb threshold participation_ratio then
        push_number f64_zero ≫= fun _ => governance_event "Quorum threshold met"
      else push_number f64_one ≫= fun _ => governance_event "Quorum threshold not met".

Definition vote (threshold : f64) : M unit :=
  if f64_ltb threshold f64_zero then
    throw (VMError.GovernanceError "VoteThreshold must be non-negative")
  else
    pop_one_number "VoteThreshold" ≫= fun total_votes =>
    governance_event ("Vote threshold check: " +:+ f64_to_fixed 2 total_votes +:+
      " votes, threshold: " +:+ f64_to_fixed 2 threshold) ≫= fun _ =>
    if f64_leb threshold total_votes then
      push_number f64_zero ≫= fun _ => governance_event "Vote threshold met"
    else push_number f64_one ≫= fun _ => governance_event "Vote threshold not met".

End Handler.

End Thresholds.

(** [try_handle_governance_op]: [None] when the operation is not one of the four. *)
Definition try_handle_governance_op {S : Type} `{SB : StorageBackend S} `{PL : Platform} `{RD : Renderings}
    (op : Op.t) : stm (VM.t S) VMError.t (option unit) :=
  match op with
  | Op.RankedVote candidates ballots => RankedVote.handle candidates ballots ≫= fun _ => mret (Some tt)
  | Op.LiquidDelegate from to => LiquidDelegate.handle from to ≫= fun _ => mret (Some tt)
  | Op.QuorumThreshold threshold => Thresholds.quorum threshold ≫= fun _ => mret (Some tt)
  | Op.VoteThreshold threshold => Thresholds.vote threshold ≫= fun _ => mret (Some tt)
  | _ => mret None
  end.

(** * Ranked voting: which candidate a round eliminates, and who can win *)
Module RankedVoteFacts.

Import RankedVote.

Lemma count_votes_spec eliminated ballots :
  length (count_votes eliminated ballots) = length eliminated /\
  (forall i x, count_votes eliminated ballots !! i = Some x -> (x <= N.of_nat (length ballots))%N) /\
  (forall i x, count_votes eliminated ballots !! i = Some x -> (0 < x)%N ->
     exists b, b ∈ ballots /\ first_standing eliminated b = Some i).
Proof.
  unfold count_votes. induction ballots as [|b ballots IH] using rev_ind.
  - cbn. rewrite length_replicate. split; [done|].
    split; intros i x H; apply lookup_replicate in H as [-> _]; lia.
  - rewrite foldl_app. cbn [foldl]. set (votes := foldl _ _ ballots) in *. clearbody votes.
    destruct IH as (Hlen & Hle & Hpos). rewrite length_app. cbn [length].
    destruct (first_standing eliminated b) as [c|] eqn:Hc.
    + rewrite length_alter. split; [done|]. split; intros i x H.
      * destruct (decide (c = i)) as [<-|Hn].
        -- rewrite list_lookup_alter_eq in H. destruct (votes !! c) as [y|] eqn:E; [|done].
           injection H as <-. specialize (Hle _ _ E). lia.
        -- rewrite list_lookup_alter_ne in H by done. specialize (Hle _ _ H). lia.
      * intros Hx. destruct (decide (c = i)) as [<-|Hn].
        -- exists b. split; [apply elem_of_app; right; by apply elem_of_cons; left|done].
        -- rewrite list_lookup_alter_ne in H by done. destruct (Hpos _ _ H Hx) as (b' & Hb & Hf).
           exists b'. split; [apply elem_of_app; by left|done].
    + split; [done|]. split; intros i x H.
      * specialize (Hle _ _ H). lia.
      * intros Hx. destruct (Hpos _ _ H Hx) as (b' & Hb & Hf). exists b'. split; [apply elem_of_app; by left|done].
Qed.

(** The scan returns a standing candidate with the fewest votes above zero, or
    its starting value when no standing candidate improves on it. *)
Lemma weakest_spec eliminated votes off best :
  let '(v, c) := weakest eliminated votes off best in
  ((v, c) = best /\
   forall i x, eliminated !! i = Some false -> votes !! i = Some x -> (0 < x)%N -> (best.1 <= x)%N) \/
  (exists i, c = off + i /\ eliminated !! i = Some false /\ votes !! i = Some v /\ (0 < v < best.1)%N /\
   forall j x, eliminated !! j = Some false -> votes !! j = Some x -> (0 < x)%N -> (v <= x)%N).
Proof.
  revert votes off best. induction eliminated as [|e es IH]; intros votes off best.
  - cbn. destruct best. left. split; [done|]. done.
  - destruct votes as [|x votes]; cbn [weakest]; [destruct best; left; split; done|].
    destruct (negb e && (x <? best.1)%N && (0 <? x)%N) eqn:Hcond.
    + apply andb_prop in Hcond as [[He%negb_true_iff Hlt%N.ltb_lt]%andb_prop Hpos%N.ltb_lt]. subst e.
      specialize (IH votes (off + 1) (x, off)). destruct (weakest es votes (off + 1) (x, off)) as [v c].
      right. destruct IH as [[[= -> ->] Hall]|(i & -> & Hs & Hv & Hlt' & Hall)].
      * exists 0. split; [lia|]. do 2 (split; [done|]). split; [lia|].
        intros [|j] y Hj Hy Hp; [injection Hy as <-; lia|by apply (Hall j)].
      * exists (Datatypes.S i). cbn in Hlt'. split; [lia|]. do 2 (split; [done|]). split; [lia|].
        intros [|j] y Hj Hy Hp; [injection Hy as <-; lia|by apply (Hall j)].
    + specialize (IH votes (off + 1) best). destruct (weakest es votes (off + 1) best) as [v c].
      assert (Hhead : forall y, Some e = Some false -> Some x = Some y -> (0 < y)%N -> (best.1 <= y)%N).
      { intros y [= ->] [= <-] Hp. cbn in Hcond. apply andb_false_iff in Hcond as [H%N.ltb_ge|H%N.ltb_ge]; lia. }
      destruct IH as [[Hb Hall]|(i & -> & Hs & Hv & Hlt' & Hall)].
      * left. split; [done|]. intros [|i] y; [apply Hhead|apply Hall].
      * right. exists (Datatypes.S i). split; [lia|]. do 3 (split; [done|]).
        intros [|j] y Hj Hy Hp; [specialize (Hhead y Hj Hy Hp); lia|by apply (Hall j)].
Qed.

(** A round in which some standing candidate has a vote eliminates the standing
    candidate with the fewest votes among those that have any: a candidate
    without votes is never the one eliminated. *)
Lemma round_spec ballots eliminated :
  let votes := count_votes eliminated ballots in
  let '(eliminated', (v, c)) := round ballots eliminated in
  eliminated' = <[c := true]> eliminated /\
  ((c = 0 /\ forall i x, eliminated !! i = Some false -> votes !! i = Some x -> x = 0%N) \/
   (eliminated !! c = Some false /\ votes !! c = Some v /\ (0 < v)%N /\
    forall j x, eliminated !! j = Some false -> votes !! j = Some x -> (0 < x)%N -> (v <= x)%N)).
Proof.
  unfold round. destruct (count_votes_spec eliminated ballots) as (_ & Hle & _).
  pose proof (weakest_spec eliminated (count_votes eliminated ballots) 0 ((N.of_nat (length ballots) + 1)%N, 0)) as H.
  destruct (weakest _ _ _ _) as [v c]. split; [done|].
  destruct H as [[[= -> ->] Hall]|(i & -> & Hs & Hv & Hlt & Hall)].
  - left. split; [done|]. intros i x Hi Hx. specialize (Hall i x Hi Hx). specialize (Hle i x Hx). cbn in Hall. lia.
  - right. cbn. split; [done|]. split; [done|]. split; [lia|done].
Qed.

Fixpoint run_rounds (n : nat) (ballots : list (list f64)) (eliminated : list bool) : list bool :=
  match n with
  | O => eliminated
  | Datatypes.S n' => run_rounds n' ballots (round ballots eliminated).1
  end.

Definition standing (eliminated : list bool) : nat := length (filter (fun e => e = false) eliminated).

Lemma standing_insert c eliminated : standing eliminated <= standing (<[c := true]> eliminated) + 1.
Proof.
  unfold standing. revert c. induction eliminated as [|e es IH]; intros c; [cbn; lia|].
  destruct c as [|c].
  - change (<[0 := true]> (e :: es)) with (true :: es). rewrite !filter_cons. destruct e; cbn [length]; repeat case_decide; try done; cbn [length]; lia.
  - change (<[Datatypes.S c := true]> (e :: es)) with (e :: <[c := true]> es).
    rewrite !filter_cons. specialize (IH c). destruct (decide (e = false)); cbn [length]; lia.
Qed.

Lemma round_shape ballots eliminated : exists c, (round ballots eliminated).1 = <[c := true]> eliminated.
Proof. unfold round. destruct (weakest _ _ _ _) as [v c]. by exists c. Qed.

Lemma run_rounds_shape n ballots eliminated :
  length (run_rounds n ballots eliminated) = length eliminated /\
  standing eliminated <= standing (run_rounds n ballots eliminated) + n /\
  (forall i, eliminated !! i = Some true -> run_rounds n ballots eliminated !! i = Some true).
Proof.
  revert eliminated. induction n as [|n IH]; intros e; cbn [run_rounds]; [split; [done|]; split; [lia|done]|].
  destruct (round_shape ballots e) as [c ->]. destruct (IH (<[c := true]> e)) as (Hl & Hs & Hk).
  rewrite length_insert in Hl. pose proof (standing_insert c e). split; [done|]. split; [lia|].
  intros i Hi. apply Hk. destruct (decide (c = i)) as [->|Hn].
  - apply list_lookup_insert_eq. by apply lookup_lt_Some in Hi.
  - by rewrite list_lookup_insert_ne.
Qed.

(** After all rounds somebody stands, and the winner is a standing candidate. *)
Lemma winner_stands candidates ballots : 2 <= candidates ->
  let eliminated := run_rounds (candidates - 1) ballots (replicate candidates false) in
  let w := default 0 (position_standing eliminated) in
  w < candidates /\ eliminated !! w = Some false.
Proof.
  intros Hc. cbn zeta. destruct (run_rounds_shape (candidates - 1) ballots (replicate candidates false)) as (Hl & Hs & _).
  set (e := run_rounds _ _ _) in *. clearbody e. rewrite length_replicate in Hl.
  assert (Hst : standing (replicate candidates false) = candidates).
  { unfold standing. clear. induction candidates as [|n IH]; [done|].
    cbn [replicate]. rewrite filter_cons_True by done. cbn [length]. by rewrite IH. }
  unfold position_standing. destruct (list_find (fun x => x = false) e) as [[w x]|] eqn:E.
  - cbn. apply list_find_Some in E as (Hw & -> & _). split; [|done]. apply lookup_lt_Some in Hw. lia.
  - exfalso. apply list_find_None in E. assert (standing e = 0); [|lia].
    unfold standing. clear -E. induction e as [|x e IH]; [done|]. inversion E; subst.
    rewrite filter_cons_False by done. by apply IH.
Qed.

(** When every ballot names the same first choice, that candidate is the only
    one with votes, and so the first to be eliminated. *)
Lemma unanimous_eliminated candidates ballots k rounds :
  k < candidates -> ballots <> [] -> 1 <= rounds ->
  (forall b, b ∈ ballots -> exists x b', b = x :: b' /\ N.to_nat (f64_to_u64 x) = k) ->
  run_rounds rounds ballots (replicate candidates false) !! k = Some true.
Proof.
  intros Hk Hne Hr Hall. destruct rounds as [|n]; [lia|]. cbn [run_rounds].
  set (e0 := replicate candidates false).
  assert (Hfirst : forall b, b ∈ ballots -> first_standing e0 b = Some k).
  { intros b Hb. destruct (Hall b Hb) as (x & b' & -> & Hx). cbn [first_standing]. rewrite Hx.
    unfold e0. by rewrite lookup_replicate_2 by done. }
  apply run_rounds_shape. pose proof (round_spec ballots e0) as H.
  destruct (round ballots e0) as [e1 [v c]]. cbn [fst]. destruct H as [-> H].
  assert (Hc : c = k); [|subst c; apply list_lookup_insert_eq; unfold e0; by rewrite length_replicate].
  destruct (count_votes_spec e0 ballots) as (Hlen & _ & Hpos).
  destruct H as [[_ Hzero]|(_ & Hv & Hp & _)].
  - exfalso. assert (Hvk : exists x, count_votes e0 ballots !! k = Some x /\ (0 < x)%N).
    { clear -Hfirst Hne Hk. unfold count_votes. destruct ballots as [|b bs _] using rev_ind; [done|].
      rewrite foldl_app. cbn [foldl]. rewrite Hfirst by (apply elem_of_app; right; by apply elem_of_cons; left).
      rewrite list_lookup_alter_eq. pose proof (count_votes_spec e0 bs) as (Hl & _). unfold count_votes in Hl.
      destruct (lookup_lt_is_Some_2 (foldl (fun votes b => match first_standing e0 b with
          | Some candidate => alter (N.add 1) candidate votes | None => votes end)
          (replicate (length e0) 0%N) bs) k) as [y Hy].
      - rewrite Hl. unfold e0. by rewrite length_replicate.
      - rewrite Hy. cbn. eexists. split; [done|lia]. }
    destruct Hvk as (x & Hx & Hpx). rewrite (Hzero k x) in Hpx; [lia| |done]. unfold e0. by rewrite lookup_replicate_2.
  - destruct (Hpos c v Hv Hp) as (b & Hb & Hf). rewrite Hfirst in Hf by done. by injection Hf.
Qed.

Section Handler.

Context {S : Type} `{SB : StorageBackend S} `{PL : Platform} `{RD : Renderings}.

Lemma governance_event_eq msg (s : VM.t S) : exists e, governance_event msg s = (VM.with_executor e s, Ok tt).
Proof. eexists. reflexivity. Qed.

Lemma with_stack_same (s : VM.t S) st : VM.stack s = st -> VM.with_stack st s = s.
Proof. intros <-. by destruct s. Qed.

Lemma pop_ballot_eq b rest (s : VM.t S) : VM.stack s = (TypedValue.Number <$> b) ++ rest ->
  pop_ballot (length b) s = (VM.with_stack rest s, Ok b).
Proof.
  revert s. induction b as [|x b IH]; intros s Hs; cbn [length pop_ballot].
  - cbn in Hs. by rewrite with_stack_same.
  - cbn in Hs. rewrite (stm_bind_eq _ _ s (VM.with_stack ((TypedValue.Number <$> b) ++ rest) s) x).
    + rewrite (stm_bind_eq _ _ _ _ _ (IH (VM.with_stack _ s) eq_refl)). reflexivity.
    + unfold pop_one_number, VM.on_stack, zoom. rewrite Hs. reflexivity.
Qed.

Lemma pop_ballots_eq c bs rest (s : VM.t S) : Forall (fun b => length b = c) bs ->
  VM.stack s = (TypedValue.Number <$> concat bs) ++ rest ->
  pop_ballots (length bs) c s = (VM.with_stack rest s, Ok bs).
Proof.
  revert s. induction bs as [|b bs IH]; intros s Hb Hs; cbn [length pop_ballots].
  - cbn in Hs. by rewrite with_stack_same.
  - apply Forall_cons in Hb as [<- Hb]. cbn in Hs. rewrite fmap_app, <- app_assoc in Hs.
    rewrite (stm_bind_eq _ _ _ _ _ (pop_ballot_eq b _ s Hs)).
    by rewrite (stm_bind_eq _ _ _ _ _ (IH (VM.with_stack _ s) Hb eq_refl)).
Qed.

Lemma rounds_eq n bs e (s : VM.t S) : exists x, rounds n bs e s = (VM.with_executor x s, Ok (run_rounds n bs e)).
Proof.
  revert e s. induction n as [|n IH]; intros e s; cbn [rounds run_rounds].
  - exists (VM.executor s). by destruct s.
  - destruct (round bs e) as [e' [v c]]. destruct (governance_event_eq ("Eliminated candidate " +:+
      u64_to_string (N.of_nat c) +:+ " with " +:+ u64_to_string v +:+ " votes") s) as [x Hx].
    rewrite (stm_bind_eq _ _ _ _ _ Hx). destruct (IH e' (VM.with_executor x s)) as [y ->]. by exists y.
Qed.

(** The stack holds the ballots, one after the other, best choice on top. *)
Definition ballots_on (c : nat) (bs : list (list f64)) (rest : VMStack.t) (s : VM.t S) : Prop :=
  Forall (fun b => length b = c) bs /\ VM.stack s = (TypedValue.Number <$> concat bs) ++ rest.

Lemma handle_eq c bs rest (s : VM.t S) : 2 <= c -> bs <> [] -> ballots_on c bs rest s ->
  let w := default 0 (position_standing (run_rounds (c - 1) bs (replicate c false))) in
  exists s', handle (N.of_nat c) (N.of_nat (length bs)) s = (s', Ok tt) /\
    VM.stack s' = TypedValue.Number (f64_of_Z (Z.of_nat w)) :: rest /\ VM.memory s' = VM.memory s.
Proof.
  intros Hc Hbs [Hlen Hst]. unfold handle.
  replace (N.of_nat c <? 2)%N with false by (symmetry; apply N.ltb_ge; lia).
  replace (N.of_nat (length bs) <? 1)%N with false
    by (symmetry; apply N.ltb_ge; destruct bs; [done|cbn [length]; lia]).
  rewrite !Nat2N.id. rewrite (stm_bind_eq _ _ _ _ _ (pop_ballots_eq c bs rest s Hlen Hst)).
  erewrite stm_bind_eq; [|reflexivity].
  match goal with |- context [rounds ?n ?b ?e ≫= ?k] =>
    edestruct (rounds_eq n b e) as [x Hx]; rewrite (stm_bind_eq (rounds n b e) k _ _ _ Hx) end.
  erewrite stm_bind_eq; [|reflexivity]. eexists. split; [reflexivity|]. cbn.
  rewrite nat_N_Z. done.
Qed.

End Handler.

End RankedVoteFacts.

Module RankedVoteTheorems.

Section Handler.

Context {S : Type} `{SB : StorageBackend S} `{PL : Platform} `{RD : Renderings}.

(** C36. With enough numeric ballots a ranked vote always completes: the ballots are
    consumed and one number is pushed, which names a candidate. *)
Theorem ranked_vote_winner c bs rest (s : VM.t S) :
  2 <= c -> bs <> [] -> RankedVoteFacts.ballots_on c bs rest s ->
  exists s' w, RankedVote.handle (N.of_nat c) (N.of_nat (length bs)) s = (s', Ok tt) /\
    VM.stack s' = TypedValue.Number (f64_of_Z (Z.of_nat w)) :: rest /\ w < c.
Proof.
  intros Hc Hbs Hs. destruct (RankedVoteFacts.handle_eq c bs rest s Hc Hbs Hs) as (s' & Hrun & Hst & _).
  eexists s', _. split; [done|]. split; [done|]. by apply RankedVoteFacts.winner_stands.
Qed.

(** A candidate that every voter ranks first loses: only candidates with votes
    are ever eliminated, so the unanimous favourite is the first to go. *)
Theorem unanimous_favourite_loses c bs rest k (s : VM.t S) :
  2 <= c -> bs <> [] -> RankedVoteFacts.ballots_on c bs rest s -> k < c ->
  (forall b, b ∈ bs -> exists x b', b = x :: b' /\ N.to_nat (f64_to_u64 x) = k) ->
  exists s' w, RankedVote.handle (N.of_nat c) (N.of_nat (length bs)) s = (s', Ok tt) /\
    VM.stack s' = TypedValue.Number (f64_of_Z (Z.of_nat w)) :: rest /\ w <> k.
Proof.
  intros Hc Hbs Hs Hk Hall. destruct (RankedVoteFacts.handle_eq c bs rest s Hc Hbs Hs) as (s' & Hrun & Hst & _).
  eexists s', _. split; [done|]. split; [done|]. intros He.
  destruct (RankedVoteFacts.winner_stands c bs Hc) as [_ Hw]. rewrite He in Hw.
  rewrite (RankedVoteFacts.unanimous_eliminated c bs k (c - 1)) in Hw; [done|done|done|lia|done].
Qed.

(** Between two candidates that both have votes, the one with more wins. *)
Theorem two_candidate_majority bs rest v0 v1 (s : VM.t S) :
  bs <> [] -> RankedVoteFacts.ballots_on 2 bs rest s ->
  RankedVote.count_votes [false; false] bs = [v0; v1] ->
  (0 < v0)%N -> (0 < v1)%N -> v0 <> v1 ->
  exists s', RankedVote.handle 2 (N.of_nat (length bs)) s = (s', Ok tt) /\
    VM.stack s' = TypedValue.Number (f64_of_Z (if (v1 <? v0)%N then 0 else 1)) :: rest.
Proof.
  intros Hbs Hs Hv H0 H1 Hne.
  destruct (RankedVoteFacts.handle_eq 2 bs rest s ltac:(lia) Hbs Hs) as (s' & Hrun & Hst & _).
  exists s'. split; [exact Hrun|]. rewrite Hst. clear Hst Hrun.
  cbn [Nat.sub replicate RankedVoteFacts.run_rounds].
  pose proof (RankedVoteFacts.round_spec bs [false; false]) as Hr. cbn zeta in Hr. rewrite Hv in Hr.
  destruct (RankedVote.round bs [false; false]) as [e' [v c]]. destruct Hr as [-> Hr]. cbn [fst].
  destruct Hr as [[_ Hz]|(Hc & Hvc & _ & Hmin)]; [by rewrite (Hz 0 v0) in H0|].
  destruct c as [|[|c]]; [| |done]; injection Hvc as <-.
  - specialize (Hmin 1 v1 eq_refl eq_refl H1). destruct (N.ltb_spec v1 v0); [lia|done].
  - specialize (Hmin 0 v0 eq_refl eq_refl H0). destruct (N.ltb_spec v1 v0); [done|lia].
Qed.

End Handler.

End RankedVoteTheorems.

(** * Liquid delegation: no cycles *)
Module LiquidDelegateFacts.

Import LiquidDelegate.

(** A delegation the walk follows. *)
Definition edge (d : gmap string string) (a b : string) : Prop :=
  a <> EmptyString /\ b <> EmptyString /\ d !! a = Some b.
Definition acyclic (d : gmap string string) : Prop := forall x, ~ tc (edge d) x x.

Lemma str_is_empty_spec s : TypedValue.str_is_empty s = true <-> s = EmptyString.
Proof. apply String.eqb_eq. Qed.

(** The walk ends: every step but the last uses up a key of the table. *)
Lemma walk_terminates fuel d visited current :
  size (dom d ∖ visited) + 2 <= fuel -> exists b, walk fuel d visited current = Ok b.
Proof.
  revert visited current. induction fuel as [|fuel IH]; intros visited current Hf; [lia|].
  cbn [walk]. destruct (TypedValue.str_is_empty current); [eauto|]. case_bool_decide as Hv; [eauto|].
  destruct (d !! current) as [next|] eqn:E; cbn [default].
  - apply IH. assert (size (dom d ∖ ({[current]} ∪ visited)) < size (dom d ∖ visited)); [|lia].
    apply subset_size. apply elem_of_dom_2 in E. set_solver.
  - destruct fuel as [|fuel]; [lia|]. cbn. eauto.
Qed.

(** On a table without cycles the walk from [current] fails exactly when it
    reaches [from]. *)
Lemma walk_outcome fuel d from visited current b :
  acyclic d -> from <> EmptyString -> from ∈ visited ->
  (forall x, x ∈ visited -> x <> from -> tc (edge d) x current \/ current = EmptyString) ->
  walk fuel d visited current = Ok b ->
  b = false <-> rtc (edge d) current from.
Proof.
  intros Hac Hfrom. revert visited current. induction fuel as [|fuel IH]; intros visited current Hin Hpath; [done|].
  cbn [walk]. destruct (TypedValue.str_is_empty current) eqn:Ec.
  - intros [= <-]. apply str_is_empty_spec in Ec as ->. split; [done|].
    intros H. exfalso. inversion H as [|? y ? He]; subst; [done|]. by destruct He as (He & _).
  - assert (Hc : current <> EmptyString) by (intros ->; done). case_bool_decide as Hv.
    + intros [= <-]. split; [intros _|done]. destruct (decide (current = from)) as [->|Hn]; [apply rtc_refl|].
      destruct (Hpath current Hv Hn) as [H|]; [by apply Hac in H|done].
    + assert (Hcf : current <> from) by congruence. intros Hw.
      destruct (d !! current) as [next|] eqn:E; cbn [default] in Hw.
      * destruct (decide (next = EmptyString)) as [->|Hnext].
        { assert (b = true) as ->.
          { destruct fuel; cbn in Hw; [done|]. by injection Hw as <-. }
          split; [done|]. intros H. exfalso. inversion H as [|? y ? (_ & Hy & Hl)]; subst; [done|]. congruence. }
        assert (He : edge d current next) by done.
        rewrite (IH ({[current]} ∪ visited) next); [|set_solver| |exact Hw].
        2: { intros x [->%elem_of_singleton|Hx]%elem_of_union Hxf; left; [by apply tc_once|].
             destruct (Hpath x Hx Hxf) as [H|H]; [by eapply tc_r|done]. }
        split; [by apply rtc_l|]. intros H. inversion H as [|? y ? (_ & _ & Hl) Hr]; subst; [done|].
        rewrite E in Hl. by injection Hl as <-.
      * assert (b = true) as -> by (destruct fuel; cbn in Hw; [done|by injection Hw as <-]).
        split; [done|]. intros H. exfalso. inversion H as [|? y ? (_ & _ & Hl)]; subst; [done|]. congruence.
Qed.

Lemma edge_insert d from to a b : edge (<[from := to]> d) a b -> edge d a b \/ (a = from /\ b = to).
Proof.
  intros (Ha & Hb & Hl). destruct (decide (from = a)) as [<-|Hn].
  - rewrite lookup_insert_eq in Hl. injection Hl as <-. by right.
  - rewrite lookup_insert_ne in Hl by done. by left.
Qed.

Lemma tc_insert d from to a b : ~ rtc (edge d) to from -> tc (edge (<[from := to]> d)) a b ->
  tc (edge d) a b \/ (rtc (edge d) a from /\ rtc (edge d) to b).
Proof.
  intros Hno. induction 1 as [a b He|a c b He _ IH]; apply edge_insert in He as [He|[-> ->]].
  - left. by apply tc_once.
  - right. split; apply rtc_refl.
  - destruct IH as [H|[H1 H2]]; [left; by eapply tc_l|right; split; [by eapply rtc_l|done]].
  - destruct IH as [H|[H1 H2]]; [right; split; [apply rtc_refl|by apply tc_rtc]|done].
Qed.

Lemma acyclic_insert d from to : acyclic d -> ~ rtc (edge d) to from -> acyclic (<[from := to]> d).
Proof.
  intros Hac Hno x H. apply tc_insert in H as [H|[H1 H2]]; [by apply Hac in H| |done].
  apply Hno. by etransitivity.
Qed.

Lemma acyclic_delete d from : acyclic d -> acyclic (delete from d).
Proof.
  intros Hac x H. apply (Hac x). revert H. generalize x at 2 4. intros y H.
  assert (Hsub : forall a b, edge (delete from d) a b -> edge d a b).
  { intros a b (Ha & Hb & Hl). apply lookup_delete_Some in Hl as [_ Hl]. done. }
  induction H; [apply tc_once; auto|eapply tc_l; eauto].
Qed.

(** The outcome of the table update on a table without cycles. *)
Lemma update_outcome d from to : acyclic d -> from <> EmptyString -> to <> EmptyString ->
  (rtc (edge d) to from /\ exists msg, update d from to = Err (VMError.GovernanceError msg)) \/
  (~ rtc (edge d) to from /\ exists msg, update d from to = Ok (<[from := to]> d, msg)).
Proof.
  intros Hac Hf Ht. unfold update.
  destruct (TypedValue.str_is_empty to) eqn:E; [by apply str_is_empty_spec in E|].
  destruct (walk_terminates (size d + 2) d {[from]} to) as [b Hb].
  { pose proof (subseteq_size (dom d ∖ {[from]}) (dom d) ltac:(set_solver)). rewrite size_dom in H. lia. }
  pose proof (walk_outcome _ d from {[from]} to b Hac Hf ltac:(set_solver) ltac:(set_solver) Hb) as Hw.
  rewrite Hb. cbn. destruct b; [right|left].
  - split; [|eauto]. intros H. by apply Hw in H.
  - split; [by apply Hw|eauto].
Qed.

Section Handler.

Context {S : Type} `{SB : StorageBackend S} `{PL : Platform} `{RD : Renderings}.

(** What is assumed of the JSON codec: a table reads back as it was written. *)
Definition codec_round_trips : Prop :=
  forall d, exists j, delegations_to_json d = Ok j /\ delegations_from_json j = Some d.

Lemma handle_steps from to (s : VM.t S) d d' msg :
  codec_round_trips -> VMMemory.wf (VM.memory s) -> from <> EmptyString ->
  read_delegations (VM.memory s) = Ok d -> update d from to = Ok (d', msg) ->
  exists s', handle from to s = (s', Ok tt) /\ VMMemory.wf (VM.memory s') /\
    read_delegations (VM.memory s') = Ok d'.
Proof.
  intros Hcodec Hwf Hf Hd Hu. unfold handle.
  destruct (TypedValue.str_is_empty from) eqn:E; [by apply str_is_empty_spec in E|].
  erewrite stm_bind_eq; [|reflexivity]. erewrite stm_bind_eq; [|unfold lift; by rewrite Hd].
  erewrite stm_bind_eq; [|unfold lift; by rewrite Hu]. erewrite stm_bind_eq; [|reflexivity].
  destruct (Hcodec d') as (j & Hto & Hfrom). cbn [fst].
  erewrite stm_bind_eq; [|unfold lift; by rewrite Hto]. erewrite stm_bind_eq; [|reflexivity].
  unfold VM.on_memory, zoom. set (s1 := VM.with_memory _ _).
  set (v := TypedValue.Number _). pose proof (VMMemory.wf_store delegations_key v (VM.memory s1) Hwf) as Hwf'.
  assert (Hwf1 : VMMemory.wf (VM.memory s1)) by exact Hwf.
  pose proof (VMMemory.store_eq delegations_key v (VM.memory s1) Hwf1) as Hst.
  rewrite Hst in *. eexists. split; [reflexivity|]. cbn [VM.memory VM.with_memory fst] in *. split; [exact Hwf'|].
  unfold read_delegations. rewrite VMMemory.load_resolve by done.
  unfold VMMemory.resolve, VMMemory.active_frame in *.
  destruct (last (VMMemory.call_frames (VM.memory s1))) as [f|] eqn:Hl; cbn [VMMemory.set_frames VMMemory.set_memory VMMemory.call_frames VMMemory.memory] in *.
  - rewrite last_snoc. unfold VMMemory.get_string_metadata. cbn. rewrite !lookup_insert_eq. cbn. by rewrite Hfrom.
  - rewrite Hl. unfold VMMemory.get_string_metadata. cbn. rewrite !lookup_insert_eq. by rewrite Hfrom.
Qed.

End Handler.

End LiquidDelegateFacts.

Module DelegationTheorems.

Import LiquidDelegateFacts.

Section Handler.

Context {S : Type} `{SB : StorageBackend S} `{PL : Platform} `{RD : Renderings}.

(** C26. Delegations never form a cycle: on a cycle-free table a delegation is
    refused, with nothing changed, exactly when the delegate already delegates
    (through any number of others) to the delegator; otherwise it is added and
    the table the next operation reads is cycle-free again. *)
Theorem delegation_outcome from to (s : VM.t S) d :
  codec_round_trips -> VMMemory.wf (VM.memory s) ->
  LiquidDelegate.read_delegations (VM.memory s) = Ok d -> acyclic d ->
  from <> EmptyString -> to <> EmptyString ->
  (rtc (edge d) to from /\ exists msg, LiquidDelegate.handle from to s = (s, Err (VMError.GovernanceError msg))) \/
  (~ rtc (edge d) to from /\ exists s', LiquidDelegate.handle from to s = (s', Ok tt) /\
     LiquidDelegate.read_delegations (VM.memory s') = Ok (<[from := to]> d) /\ acyclic (<[from := to]> d)).
Proof.
  intros Hcodec Hwf Hd Hac Hf Ht.
  destruct (update_outcome d from to Hac Hf Ht) as [[Hr [msg Hu]]|[Hr [msg Hu]]]; [left|right]; (split; [done|]).
  - exists msg. unfold LiquidDelegate.handle.
    destruct (TypedValue.str_is_empty from) eqn:E; [by apply str_is_empty_spec in E|].
    erewrite stm_bind_eq; [|reflexivity]. erewrite stm_bind_eq; [|unfold lift; by rewrite Hd].
    unfold mbind, stm_bind, lift. by rewrite Hu.
  - destruct (handle_steps from to s d _ msg Hcodec Hwf Hf Hd Hu) as (s' & Hrun & _ & Hd').
    exists s'. do 2 (split; [done|]). by apply acyclic_insert.
Qed.

(** Revoking removes the delegator's own entry and nothing else. *)
Theorem revocation_outcome from (s : VM.t S) d :
  codec_round_trips -> VMMemory.wf (VM.memory s) ->
  LiquidDelegate.read_delegations (VM.memory s) = Ok d -> acyclic d -> from <> EmptyString ->
  exists s', LiquidDelegate.handle from EmptyString s = (s', Ok tt) /\
    LiquidDelegate.read_delegations (VM.memory s') = Ok (delete from d) /\ acyclic (delete from d).
Proof.
  intros Hcodec Hwf Hd Hac Hf.
  assert (Hu : exists msg, LiquidDelegate.update d from EmptyString = Ok (delete from d, msg)).
  { unfold LiquidDelegate.update. cbn. destruct (d !! from) eqn:E; [eauto|].
    rewrite delete_id by done. eauto. }
  destruct Hu as [msg Hu].
  destruct (handle_steps from EmptyString s d _ msg Hcodec Hwf Hf Hd Hu) as (s' & Hrun & _ & Hd').
  exists s'. do 2 (split; [done|]). by apply acyclic_delete.
Qed.

End Handler.

End DelegationTheorems.

(** * Thresholds: the value pushed *)
Module ThresholdTheorems.

Section Handler.

Context {S : Type} `{SB : StorageBackend S} `{PL : Platform} `{RD : Renderings}.

Lemma pop_one_number_eq op v st x (s : VM.t S) : VM.stack s = v :: st -> TypedValue.as_number v = Ok x ->
  pop_one_number op s = (VM.with_stack st s, Ok x).
Proof.
  intros Hs Hx. unfold pop_one_number, VM.on_stack, zoom. rewrite VMStack.pop_number_outcome, Hs, Hx. done.
Qed.

(** A quorum check consumes its two operands and pushes a number that is falsey
    exactly when the quorum is met: zero for met, one for not met. *)
Theorem quorum_met_pushes_falsey threshold total cast rest x y (s : VM.t S) :
  f64_ltb threshold f64_zero = false -> f64_ltb f64_one threshold = false ->
  VM.stack s = total :: cast :: rest -> TypedValue.as_number total = Ok x -> TypedValue.as_number cast = Ok y ->
  f64_leb x f64_zero = false ->
  exists s' v, Thresholds.quorum threshold s = (s', Ok tt) /\ VM.stack s' = v :: rest /\
    TypedValue.is_falsey v = f64_leb threshold (f64_div y x).
Proof.
  intros H1 H2 Hs Hx Hy Hpos. unfold Thresholds.quorum. rewrite H1, H2. cbn [orb].
  erewrite stm_bind_eq; [|by apply (pop_one_number_eq _ _ _ _ _ Hs Hx)].
  erewrite stm_bind_eq; [|by apply (pop_one_number_eq _ cast rest y)]. rewrite Hpos.
  erewrite stm_bind_eq; [|reflexivity].
  destruct (f64_leb threshold (f64_div y x)); (eexists _, _; split; [reflexivity|]; split; [reflexivity|]);
    vm_compute; reflexivity.
Qed.

(** The vote threshold follows the same convention. *)
Theorem vote_threshold_met_pushes_falsey threshold v rest x (s : VM.t S) :
  f64_ltb threshold f64_zero = false -> VM.stack s = v :: rest -> TypedValue.as_number v = Ok x ->
  exists s' w, Thresholds.vote threshold s = (s', Ok tt) /\ VM.stack s' = w :: rest /\
    TypedValue.is_falsey w = f64_leb threshold x.
Proof.
  intros H1 Hs Hx. unfold Thresholds.vote. rewrite H1.
  erewrite stm_bind_eq; [|by apply (pop_one_number_eq _ _ _ _ _ Hs Hx)].
  erewrite stm_bind_eq; [|reflexivity].
  destruct (f64_leb threshold x); (eexists _, _; split; [reflexivity|]; split; [reflexivity|]);
    vm_compute; reflexivity.
Qed.

End Handler.

End ThresholdTheorems.

(** * Concrete runs *)
Module GovernanceExamples.

#[local] Existing Instance Samples.platform.
(** The table as a number, through [Countable]. *)
#[local] Instance sample_renderings : Renderings :=
  {| debug_op := fun _ => "op"; debug_value := TypedValue.to_string; debug_duration := fun _ => "duration";
     debug_option_f64 := fun _ => "amount"; key_order := fun l => l;
     delegations_to_json := fun d => Ok (u64_to_string (Npos (encode d)));
     delegations_from_json := fun j => match parse_digits j with Some (Npos p) => decode p | _ => None end |}.

Lemma sample_codec : LiquidDelegateFacts.codec_round_trips.
Proof.
  intros d. eexists. split; [reflexivity|]. cbn [delegations_from_json sample_renderings].
  rewrite parse_digits_u64_to_string. apply decode_encode.
Qed.

Definition blank : VM.t InMemoryStorage.t := VM.new.
Definition num (n : Z) : TypedValue.t := TypedValue.Number (f64_of_Z n).

(** Three ballots over three candidates: 1 first, then 0, then 2. *)
Definition sample_ballots : list (list f64) := replicate 3 (f64_of_Z <$> [1; 0; 2]%Z).
Definition balloting : VM.t InMemoryStorage.t :=
  VM.with_stack (TypedValue.Number <$> concat sample_ballots) blank.

Lemma sample_ballots_on : RankedVoteFacts.ballots_on 3 sample_ballots [] balloting.
Proof. split; [repeat constructor|]. by rewrite app_nil_r. Qed.

Lemma ranked_vote_winner_witness :
  exists s' w, RankedVote.handle 3 3 balloting = (s', Ok tt) /\
    VM.stack s' = [TypedValue.Number (f64_of_Z (Z.of_nat w))] /\ w < 3.
Proof. apply (RankedVoteTheorems.ranked_vote_winner 3 sample_ballots []); [lia|done|apply sample_ballots_on]. Defined.

Lemma unanimous_favourite_loses_witness :
  exists s' w, RankedVote.handle 3 3 balloting = (s', Ok tt) /\
    VM.stack s' = [TypedValue.Number (f64_of_Z (Z.of_nat w))] /\ w <> 1.
Proof.
  apply (RankedVoteTheorems.unanimous_favourite_loses 3 sample_ballots [] 1); [lia|done|apply sample_ballots_on|lia|].
  intros b Hb. exists (f64_of_Z 1), (f64_of_Z <$> [0; 2]%Z).
  repeat (apply elem_of_cons in Hb as [->|Hb]; [split; [reflexivity|vm_compute; reflexivity]|]).
  by apply not_elem_of_nil in Hb.
Defined.

Definition contested : list (list f64) :=
  [f64_of_Z <$> [1; 0]%Z; f64_of_Z <$> [0; 1]%Z; f64_of_Z <$> [1; 0]%Z].

Lemma two_candidate_majority_witness :
  exists s', RankedVote.handle 2 3 (VM.with_stack (TypedValue.Number <$> concat contested) blank) = (s', Ok tt) /\
    VM.stack s' = [num 1].
Proof.
  apply (RankedVoteTheorems.two_candidate_majority contested [] 1 2); [done| |vm_compute; reflexivity|lia|lia|lia].
  split; [repeat constructor|]. by rewrite app_nil_r.
Defined.

Lemma blank_delegations : LiquidDelegate.read_delegations (VM.memory blank) = Ok ∅.
Proof. reflexivity. Qed.
Lemma empty_acyclic : LiquidDelegateFacts.acyclic ∅.
Proof. intros x H. inversion H as [? ? He|? ? ? He]; subst; destruct He as (_ & _ & He); by rewrite lookup_empty in He. Qed.

Lemma delegation_outcome_witness :
  (rtc (LiquidDelegateFacts.edge ∅) "bob" "alice" /\
   exists msg, LiquidDelegate.handle "alice" "bob" blank = (blank, Err (VMError.GovernanceError msg))) \/
  (~ rtc (LiquidDelegateFacts.edge ∅) "bob" "alice" /\
   exists s', LiquidDelegate.handle "alice" "bob" blank = (s', Ok tt) /\
     LiquidDelegate.read_delegations (VM.memory s') = Ok (<["alice" := "bob"]> ∅) /\
     LiquidDelegateFacts.acyclic (<["alice" := "bob"]> ∅)).
Proof.
  apply DelegationTheorems.delegation_outcome;
    [apply sample_codec|reflexivity|apply blank_delegations|apply empty_acyclic|done|done].
Defined.

Lemma revocation_outcome_witness :
  exists s', LiquidDelegate.handle "alice" EmptyString blank = (s', Ok tt) /\
    LiquidDelegate.read_delegations (VM.memory s') = Ok (delete "alice" ∅) /\
    LiquidDelegateFacts.acyclic (delete "alice" ∅).
Proof.
  apply DelegationTheorems.revocation_outcome;
    [apply sample_codec|reflexivity|apply blank_delegations|apply empty_acyclic|done].
Defined.

(** Eight of ten voted, and half was asked. *)
Lemma quorum_met_pushes_falsey_witness :
  exists s' v, Thresholds.quorum (f64_div (f64_of_Z 1) (f64_of_Z 2)) (VM.with_stack [num 10; num 8] blank) = (s', Ok tt) /\
    VM.stack s' = [v] /\ TypedValue.is_falsey v = true.
Proof.
  edestruct (ThresholdTheorems.quorum_met_pushes_falsey (f64_div (f64_of_Z 1) (f64_of_Z 2)) (num 10) (num 8) []
    (f64_of_Z 10) (f64_of_Z 8) (VM.with_stack [num 10; num 8] blank)) as (s' & v & H1 & H2 & H3);
    [vm_compute; reflexivity|vm_compute; reflexivity|reflexivity|reflexivity|reflexivity|vm_compute; reflexivity|].
  exists s', v. split; [exact H1|]. split; [exact H2|]. rewrite H3. vm_compute. reflexivity.
Defined.

Lemma vote_threshold_met_pushes_falsey_witness :
  exists s' v, Thresholds.vote (f64_of_Z 5) (VM.with_stack [num 8] blank) = (s', Ok tt) /\
    VM.stack s' = [v] /\ TypedValue.is_falsey v = true.
Proof.
  edestruct (ThresholdTheorems.vote_threshold_met_pushes_falsey (f64_of_Z 5) (num 8) [] (f64_of_Z 8)
    (VM.with_stack [num 8] blank)) as (s' & v & H1 & H2 & H3);
    [vm_compute; reflexivity|reflexivity|reflexivity|].
  exists s', v. split; [exact H1|]. split; [exact H2|]. rewrite H3. vm_compute. reflexivity.
Defined.

End GovernanceExamples.
