(* ===== verification/VM.v ===== *)
(** * The interpreter: src/crates/icn-covm/src/vm/vm.rs

    [execute_inner] walks a list of operations with a local loop-control signal;
    blocks, branches, loops and calls run it again on their bodies.  The fuel of
    [run] bounds the nesting depth and the iterations of a [While]; what a
    finished run returns does not depend on it ([Interp.run_mono]). *)
From S2P Require Import Prelude Float64 Values Ops Stack Memory Auth Storage InMemory Economic Executor.
From S2P Require Import Ledger Trace Machine Governance.

Module Interp.

(** What an operation does to the list it is in. *)
Inductive flow : Type := Next | Leave.

Section Interpreter.

Context {S : Type} `{SB : StorageBackend S} `{PL : Platform} `{RD : Renderings}.

Abbreviation M := (stm (VM.t S) VMError.t).

(** The storage operations simulation mode replaces. *)
Definition simulated (op : Op.t) : bool :=
  match op with
  | Op.StoreP _ | Op.LoadP _ | Op.LoadVersionP _ _ | Op.ListVersionsP _ | Op.DiffVersionsP _ _ _
  | Op.CreateResource _ | Op.Mint _ _ _ _ | Op.Transfer _ _ _ _ _ | Op.Burn _ _ _ _
  | Op.Balance _ _ => true
  | _ => false
  end.
Definition simulation_placeholder (op : Op.t) : bool :=
  match op with
  | Op.LoadP _ | Op.LoadVersionP _ _ | Op.Balance _ _ => true
  | _ => false
  end.
Definition simulate (op : Op.t) : M unit :=
  VM.emit ("[SIMULATION] Would execute: " +:+ VM.display_op op) ≫= fun _ =>
  if simulation_placeholder op then VM.push (TypedValue.Number f64_zero) else mret tt.

(** ** Operations without a block *)

Definition arithmetic (name op : string) : M unit :=
  VM.pop_two name ≫= fun p =>
  lift (VMExecution.execute_arithmetic p.1 p.2 op) ≫= VM.push.
Definition comparison (name op : string) : M unit :=
  VM.pop_two name ≫= fun p =>
  lift (VMExecution.execute_comparison p.1 p.2 op) ≫= VM.push.
Definition binary_logical (name op : string) : M unit :=
  VM.pop_two name ≫= fun p =>
  lift (VMExecution.execute_binary_logical p.1 p.2 op) ≫= VM.push.
Definition logical_not : M unit :=
  VM.pop_one "Not" ≫= fun value =>
  lift (VMExecution.execute_logical value "not") ≫= VM.push.

Definition negate : M unit :=
  VM.pop_one "Negate" ≫= fun value =>
  match value with
  | TypedValue.Number num => VM.push (TypedValue.Number (f64_neg num))
  | _ => throw (VMError.TypeMismatch "number" (TypedValue.type_name value) "negate")
  end.

(** [a.equals(&b).unwrap_or(Boolean(false)).as_boolean().unwrap_or(false)]. *)
Definition holds_equal (a b : TypedValue.t) : bool :=
  match TypedValue.equals a b with
  | Ok v => match TypedValue.as_boolean v with Ok r => r | _ => false end
  | _ => false
  end.
(** [a.equals(&b).unwrap_or(Boolean(false)) == Boolean(true)]. *)
Definition matches (a b : TypedValue.t) : bool :=
  match TypedValue.equals a b with
  | Ok v => TypedValue.eq v (TypedValue.Boolean true)
  | _ => false
  end.

Definition expected_got (expected actual : TypedValue.t) : string :=
  TypedValue.to_string expected +:+ ", got " +:+ TypedValue.to_string actual.
Definition assert_top (expected : TypedValue.t) : M unit :=
  VM.pop_one "AssertTop" ≫= fun actual =>
  if holds_equal actual expected then mret tt
  else throw (VMError.AssertionFailed ("Expected " +:+ expected_got expected actual)).
Definition load (name : string) : M TypedValue.t := fun s => (s, VMMemory.load name (VM.memory s)).
Definition assert_memory (key : string) (expected : TypedValue.t) : M unit :=
  load key ≫= fun actual =>
  if holds_equal actual expected then mret tt
  else throw (VMError.AssertionFailed
                ("Memory '" +:+ key +:+ "': expected " +:+ expected_got expected actual)).
Definition assert_equal_stack (depth : N) : M unit :=
  get_state ≫= fun s =>
  lift (VMStack.assert_equal_stack depth "AssertEqualStack" (VM.stack s)) ≫= fun equal : bool =>
  if equal then mret tt
  else throw (VMError.AssertionFailed
                ("Stack depth " +:+ u64_to_string depth +:+ " values are not equal")).

Definition dump_stack : M unit :=
  get_state ≫= fun s => VM.emit (VMStack.format_stack (VM.stack s)).
Definition dump_memory : M unit :=
  get_state ≫= fun s =>
  lift (VMMemory.to_string key_order (VM.memory s)) ≫= VM.emit.

Definition store_p (key : string) : M unit :=
  VM.pop_one "StoreP" ≫= fun value =>
  VM.log_storage_operation "StoreP" key value ≫= fun _ =>
  VM.on_executor (VMExecution.execute_store_p key value).
Definition load_p (key : string) : M unit :=
  get_state ≫= fun s =>
  VM.on_executor (VMExecution.execute_load_p key (VM.missing_key_behavior s)) ≫= fun value =>
  VM.log_storage_operation "LoadP" key value ≫= fun _ =>
  VM.push value.

Definition not_implemented (op : Op.t) : M flow :=
  throw (VMError.NotImplemented ("Operation not implemented: " +:+ debug_op op)).

(** The last arm: a governance operation, and then the whole list is done. *)
Definition other (op : Op.t) : M flow :=
  try_handle_governance_op op ≫= fun handled =>
  match handled with
  | Some _ => mret Leave
  | None => not_implemented op
  end.

Definition return_op : M unit := fun s =>
  if VMMemory.in_function_call (VM.memory s) then
    VM.on_memory (VMMemory.set_return_value (default TypedValue.Null (VM.top s))) s
  else (s, Ok tt).

(** [Next] after the computation. *)
Definition next (m : M unit) : M flow := m ≫= fun _ => mret Next.

Definition basic (op : Op.t) : M flow :=
  match op with
  | Op.Push value => next (VM.push value)
  | Op.Add => next (arithmetic "Add" "add")
  | Op.Sub => next (arithmetic "Sub" "sub")
  | Op.Mul => next (arithmetic "Mul" "mul")
  | Op.Div => next (arithmetic "Div" "div")
  | Op.Mod => next (arithmetic "Mod" "mod")
  | Op.Store name => next (VM.pop_one "Store" ≫= fun v => VM.on_memory (VMMemory.store name v))
  | Op.Load name => next (load name ≫= VM.push)
  | Op.Emit msg => next (VM.emit msg)
  | Op.Negate => next negate
  | Op.AssertTop expected => next (assert_top expected)
  | Op.DumpStack => next dump_stack
  | Op.DumpMemory => next dump_memory
  | Op.AssertMemory key expected => next (assert_memory key expected)
  | Op.Pop => next (VM.pop_one "Pop" ≫= fun _ => mret tt)
  | Op.Eq => next (comparison "Eq" "eq")
  | Op.Gt => next (comparison "Gt" "gt")
  | Op.Lt => next (comparison "Lt" "lt")
  | Op.Not => next logical_not
  | Op.And => next (binary_logical "And" "and")
  | Op.Or => next (binary_logical "Or" "or")
  | Op.Dup => next (VM.on_stack (VMStack.dup "Dup"))
  | Op.Swap => next (VM.on_stack (VMStack.swap "Swap"))
  | Op.Over => next (VM.on_stack (VMStack.over "Over"))
  | Op.Def name params body =>
      next (modify (fun s => VM.with_memory (VMMemory.define_function name params body (VM.memory s)) s))
  | Op.Return => return_op ≫= fun _ => mret Leave
  | Op.Nop => next (mret tt)
  | Op.EmitEvent cat msg => next (VM.emit_event cat msg)
  | Op.AssertEqualStack depth => next (assert_equal_stack depth)
  | Op.DumpState => next (dump_stack ≫= fun _ => dump_memory)
  | Op.CreateResource resource => next (VM.on_executor (VMExecution.execute_create_resource resource))
  | Op.Mint resource account amount reason =>
      next (VM.on_executor (VMExecution.execute_mint resource account (TypedValue.Number amount) reason))
  | Op.Transfer resource from to amount reason =>
      next (VM.on_executor (VMExecution.execute_transfer resource from to (TypedValue.Number amount) reason))
  | Op.Burn resource account amount reason =>
      next (VM.on_executor (VMExecution.execute_burn resource account (TypedValue.Number amount) reason))
  | Op.Balance resource account =>
      next (VM.on_executor (VMExecution.execute_balance resource account) ≫= VM.push)
  | Op.IncrementReputation identity_id amount _ =>
      next (VM.on_executor
              (VMExecution.execute_increment_reputation identity_id (TypedValue.Number <$> amount)))
  | Op.StoreP key => next (store_p key)
  | Op.LoadP key => next (load_p key)
  | _ => other op
  end.

(** ** Blocks *)

(** The arguments of a call, popped for the parameters from the last to the
    first; a repeated name keeps the value popped last. *)
Fixpoint pop_params (name : string) (params : list string) : M (gmap string TypedValue.t) :=
  match params with
  | [] => mret ∅
  | param_name :: params' =>
      pop_params name params' ≫= fun param_values =>
      VM.pop_one ("Call(" +:+ name +:+ ")") ≫= fun value =>
      mret (<[param_name := value]> param_values)
  end.

Definition pop_frame (name : string) : M TypedCallFrame := fun s =>
  let '(m, frame) := VMMemory.pop_call_frame (VM.memory s) in
  (VM.with_memory m s,
   match frame with
   | Some f => Ok f
   | None => Err (VMError.ContextMismatch
               ("Expected call frame for function '" +:+ name +:+ "' but none found"))
   end).

Section Blocks.

(** [inner] is [execute_inner] on a body. *)
Variable inner : list Op.t -> M unit.

Definition execute_call (name : string) : M unit :=
  get_state ≫= fun s =>
  lift (VMMemory.get_function name (VM.memory s)) ≫= fun f =>
  pop_params name f.1 ≫= fun param_values =>
  modify (fun s => VM.with_memory (VMMemory.push_call_frame name param_values (VM.memory s)).1 s) ≫= fun _ =>
  inner f.2 ≫= fun _ =>
  pop_frame name ≫= fun frame =>
  match return_value frame with
  | Some v => VM.push v
  | None => mret tt
  end.

Fixpoint loop (n : nat) (body : list Op.t) (loop_control : LoopControl.t) : M LoopControl.t :=
  match n with
  | O => mret loop_control
  | Datatypes.S n' =>
      inner body ≫= fun _ =>
      match loop_control with
      | LoopControl.Break => mret LoopControl.None
      | LoopControl.Continue => loop n' body LoopControl.None
      | LoopControl.None => loop n' body loop_control
      end
  end.

Fixpoint while (fuel : nat) (condition body : list Op.t) (loop_control : LoopControl.t) : M LoopControl.t :=
  match fuel with
  | O => lift OutOfFuel
  | Datatypes.S fuel' =>
      inner condition ≫= fun _ =>
      VM.pop_one "While" ≫= fun cond_result =>
      if TypedValue.is_falsey cond_result then mret loop_control
      else
        inner body ≫= fun _ =>
        match loop_control with
        | LoopControl.Break => mret LoopControl.None
        | LoopControl.Continue => while fuel' condition body LoopControl.None
        | LoopControl.None => while fuel' condition body loop_control
        end
  end.

Fixpoint find_case (match_value : TypedValue.t) (cases : list (TypedValue.t * list Op.t)) :
    option (list Op.t) :=
  match cases with
  | [] => None
  | (case_value, case_body) :: cases' =>
      if matches match_value case_value then Some case_body else find_case match_value cases'
  end.

(** A block that is there. *)
Definition optional (b : option (list Op.t)) : M unit :=
  match b with Some body => inner body | None => mret tt end.

(** One operation: the new loop-control signal, and whether to go on. *)
Definition exec_op (fuel : nat) (loop_control : LoopControl.t) (op : Op.t) : M (LoopControl.t * flow) :=
  let keep (m : M unit) := m ≫= fun _ => mret (loop_control, Next) in
  match op with
  | Op.If condition then_ else_ =>
      keep (inner condition ≫= fun _ =>
            VM.pop_one "If" ≫= fun cond_result =>
            if TypedValue.is_falsey cond_result then optional else_ else inner then_)
  | Op.Loop count body =>
      loop (N.to_nat count) body loop_control ≫= fun lc => mret (lc, Next)
  | Op.While condition body =>
      while fuel condition body loop_control ≫= fun lc => mret (lc, Next)
  | Op.Match value cases default =>
      keep (inner value ≫= fun _ =>
            VM.pop_one "Match" ≫= fun match_value =>
            match find_case match_value cases with
            | Some case_body => inner case_body
            | None => optional default
            end)
  | Op.Call name => keep (execute_call name)
  | Op.Break => mret (LoopControl.Break, Leave)
  | Op.Continue => mret (LoopControl.Continue, Leave)
  | _ => basic op ≫= fun f => mret (loop_control, f)
  end.

Fixpoint exec_list (fuel : nat) (loop_control : LoopControl.t) (ops : list Op.t) : M unit :=
  match ops with
  | [] => mret tt
  | op :: ops' =>
      VM.log_trace op ≫= fun _ =>
      VM.log_explanation op ≫= fun _ =>
      get_state ≫= fun s =>
      if VM.simulation_mode s && simulated op then
        simulate op ≫= fun _ => exec_list fuel loop_control ops'
      else
        exec_op fuel loop_control op ≫= fun p =>
        match p.2 with
        | Leave => mret tt
        | Next => VM.record_stack_after ≫= fun _ => exec_list fuel p.1 ops'
        end
  end.

End Blocks.

Fixpoint run (fuel : nat) (ops : list Op.t) : M unit :=
  match fuel with
  | O => lift OutOfFuel
  | Datatypes.S fuel' => exec_list (run fuel') fuel' LoopControl.None ops
  end.

Definition execute_inner : nat -> list Op.t -> M unit := run.
Definition execute (fuel : nat) (ops : list Op.t) : M unit := execute_inner fuel ops.

(** ** Fuel *)

(** [m2] does what [m1] does wherever [m1] does not run out of fuel. *)
Definition extends {A} (m1 m2 : M A) : Prop := forall s, (m1 s).2 = OutOfFuel \/ m1 s = m2 s.

Lemma extends_refl {A} (m : M A) : extends m m.
Proof. intros s. by right. Qed.

Lemma extends_bind {A B} (m1 m2 : M A) (k1 k2 : A -> M B) :
  extends m1 m2 -> (forall a, extends (k1 a) (k2 a)) -> extends (m1 ≫= k1) (m2 ≫= k2).
Proof.
  intros Hm Hk s. unfold mbind, stm_bind. destruct (Hm s) as [H|H].
  - left. by destruct (m1 s) as [s1 []].
  - rewrite <- H. destruct (m1 s) as [s1 [a|?|?|]]; [apply Hk| | |]; by right.
Qed.

#[local] Hint Resolve extends_refl extends_bind : covm.

Lemma extends_loop inner1 inner2 n body lc :
  (forall ops, extends (inner1 ops) (inner2 ops)) -> extends (loop inner1 n body lc) (loop inner2 n body lc).
Proof.
  intros Hi. revert lc. induction n as [|n IH]; intros lc; cbn [loop]; [apply extends_refl|].
  apply extends_bind; [apply Hi|intros _]. destruct lc; auto with covm.
Qed.

Lemma extends_while inner1 inner2 f1 f2 condition body lc :
  (forall ops, extends (inner1 ops) (inner2 ops)) -> f1 <= f2 ->
  extends (while inner1 f1 condition body lc) (while inner2 f2 condition body lc).
Proof.
  intros Hi. revert f2 lc. induction f1 as [|f1 IH]; intros f2 lc Hle; [intros s; by left|].
  destruct f2 as [|f2]; [lia|]. cbn [while]. apply extends_bind; [apply Hi|intros _].
  apply extends_bind; [apply extends_refl|intros v]. destruct (TypedValue.is_falsey v); [apply extends_refl|].
  apply extends_bind; [apply Hi|intros _]. destruct lc; [apply IH; lia|apply extends_refl|apply IH; lia].
Qed.

Lemma extends_exec_op inner1 inner2 f1 f2 lc op :
  (forall ops, extends (inner1 ops) (inner2 ops)) -> f1 <= f2 ->
  extends (exec_op inner1 f1 lc op) (exec_op inner2 f2 lc op).
Proof.
  intros Hi Hle.
  assert (Ho : forall b, extends (optional inner1 b) (optional inner2 b)).
  { intros [b|]; [apply Hi|apply extends_refl]. }
  destruct op; unfold exec_op; try apply extends_refl;
    (apply extends_bind; [|intros ?; apply extends_refl]).
  - apply extends_bind; [apply Hi|intros _]. apply extends_bind; [apply extends_refl|intros v].
    by destruct (TypedValue.is_falsey v).
  - by apply extends_loop.
  - by apply extends_while.
  - unfold execute_call. repeat (apply extends_bind; [first [apply Hi|apply extends_refl]|intros ?]).
    apply extends_refl.
  - apply extends_bind; [apply Hi|intros _]. apply extends_bind; [apply extends_refl|intros v].
    by destruct (find_case _ _).
Qed.

Lemma extends_exec_list inner1 inner2 f1 f2 lc ops :
  (forall ops, extends (inner1 ops) (inner2 ops)) -> f1 <= f2 ->
  extends (exec_list inner1 f1 lc ops) (exec_list inner2 f2 lc ops).
Proof.
  intros Hi Hle. revert lc. induction ops as [|op ops IH]; intros lc; cbn [exec_list]; [apply extends_refl|].
  do 3 (apply extends_bind; [apply extends_refl|intros ?]).
  destruct (_ && _); apply extends_bind; auto using extends_refl, extends_exec_op.
  intros [lc' []]; [|apply extends_refl]. cbn. apply extends_bind; [apply extends_refl|auto].
Qed.

Lemma run_extends f1 f2 ops : f1 <= f2 -> extends (run f1 ops) (run f2 ops).
Proof.
  revert f2 ops. induction f1 as [|f1 IH]; intros f2 ops Hle; [intros s; by left|].
  destruct f2 as [|f2]; [lia|]. cbn [run]. apply extends_exec_list; [|lia]. intros. apply IH. lia.
Qed.

(** The fuel only decides whether there is an answer: two runs that finish give
    the same state and result. *)
Theorem run_mono f1 f2 ops s :
  (run f1 ops s).2 <> OutOfFuel -> f1 <= f2 -> run f2 ops s = run f1 ops s.
Proof. intros H Hle. destruct (run_extends f1 f2 ops Hle s); [done|by symmetry]. Qed.

(** ** Loops *)

Fixpoint repeat_m (n : nat) (m : M unit) : M unit :=
  match n with
  | O => mret tt
  | Datatypes.S n' => m ≫= fun _ => repeat_m n' m
  end.

Lemma loop_repeat inner n body s :
  loop inner n body LoopControl.None s = (repeat_m n (inner body) ≫= fun _ => mret LoopControl.None) s.
Proof.
  revert s. induction n as [|n IH]; intros s; [done|]. cbn [loop repeat_m].
  unfold mbind, stm_bind. destruct (inner body s) as [s1 [[]|?|?|]]; first [exact (IH s1)|done].
Qed.

(** A [Loop] runs its body [count] times, whatever the body does: a [Break] or
    [Continue] in the body ends that run of the body and nothing else. *)
Theorem loop_runs_count fuel count body s :
  run (Datatypes.S fuel) [Op.Loop count body] s =
  (VM.log_trace (Op.Loop count body) ≫= fun _ =>
   VM.log_explanation (Op.Loop count body) ≫= fun _ =>
   repeat_m (N.to_nat count) (run fuel body) ≫= fun _ =>
   VM.record_stack_after) s.
Proof.
  cbn [run exec_list exec_op simulated]. unfold mbind, stm_bind, get_state, VM.log_trace, modify.
  set (s1 := if VM.trace_enabled s then _ else s). clearbody s1.
  destruct (VM.log_explanation _ s1) as [s2 [[]|?|?|]]; try done. rewrite andb_false_r, loop_repeat.
  unfold mbind, stm_bind. by destruct (repeat_m _ _ s2) as [s3 [[]|?|?|]].
Qed.

(** A condition that pushes a truthy constant. *)
Lemma push_condition_pop fuel v s s1 r :
  run (Datatypes.S fuel) [Op.Push v] s = (s1, r) ->
  r = Ok tt /\ VM.pop_one "While" s1 = (VM.with_stack (VM.stack s) s1, Ok v).
Proof.
  cbn [run exec_list exec_op basic simulated]. unfold VM.log_explanation, VM.log_trace, modify.
  unfold mbind, stm_bind, get_state. set (s2 := if VM.trace_enabled s then _ else s).
  assert (VM.stack s2 = VM.stack s) as <- by (unfold s2; by destruct (VM.trace_enabled s)).
  clearbody s2. unfold next, VM.record_stack_after, modify, mbind, stm_bind.
  destruct (VM.explain_enabled s2); cbn; rewrite andb_false_r; cbn;
    destruct (VM.trace_enabled s2); by intros [= <- <-].
Qed.

(** C33. A [While] on a constant that is true never completes, whatever its body:
    it fails with an error of the body or goes on for ever.  [Break] and
    [Return] only leave the body. *)
Theorem while_true_never_ends fuel v body s :
  TypedValue.is_falsey v = false ->
  is_ok (run fuel [Op.While [Op.Push v] body] s).2 = false.
Proof.
  intros Hv. destruct fuel as [|fuel]; [done|]. cbn [run exec_list exec_op simulated].
  unfold mbind, stm_bind, get_state, VM.log_trace, modify.
  set (s1 := if VM.trace_enabled s then _ else s). clearbody s1.
  destruct (VM.log_explanation _ s1) as [s2 [[]|?|?|]]; try done. rewrite andb_false_r.
  assert (Hw : forall f lc s, is_ok (while (run fuel) f [Op.Push v] body lc s).2 = false \/ lc <> LoopControl.None).
  { clear s s1 s2. intros f. induction f as [|f IH]; intros lc s; [by left|]. cbn [while].
    destruct lc; [left|by right|by right].
    destruct fuel as [|fuel]; [done|]. unfold mbind, stm_bind.
    destruct (run (Datatypes.S fuel) [Op.Push v] s) as [s1 r] eqn:E.
    apply push_condition_pop in E as [-> E]. rewrite E, Hv.
    destruct (run (Datatypes.S fuel) body _) as [s2 [[]|?|?|]]; try done.
    destruct (IH LoopControl.None s2); done. }
  destruct (Hw fuel LoopControl.None s2) as [H|H]; [|done].
  by destruct (while _ _ _ _ _ s2) as [s3 []].
Qed.

Definition is_governance (op : Op.t) : bool :=
  match op with
  | Op.RankedVote _ _ | Op.LiquidDelegate _ _ | Op.QuorumThreshold _ | Op.VoteThreshold _ => true
  | _ => false
  end.

(** A governance operation ends the block it is in: the operations after it
    never run. *)
Theorem governance_ends_block fuel op rest s : is_governance op = true ->
  run fuel (op :: rest) s = run fuel [op] s.
Proof.
  intros Hg. destruct fuel as [|fuel]; [done|]. cbn [run exec_list].
  unfold mbind, stm_bind, get_state, VM.log_trace, modify.
  set (s1 := if VM.trace_enabled s then _ else s). clearbody s1.
  destruct (VM.log_explanation op s1) as [s2 [[]|?|?|]]; try done.
  destruct op; try discriminate; cbn [simulated]; rewrite andb_false_r;
    cbn [exec_op basic]; unfold other; cbn [try_handle_governance_op];
    unfold mbind, stm_bind;
    match goal with |- context [match ?m s2 with _ => _ end] => by destruct (m s2) as [s3 [[]|?|?|]] end.
Qed.

End Interpreter.

(** ** Concrete runs *)
Section Examples.

#[local] Existing Instance Samples.platform.
#[local] Existing Instance Samples.renderings.

Definition num (n : Z) : TypedValue.t := TypedValue.Number (f64_of_Z n).
Definition blank : VM.t InMemoryStorage.t := VM.new.

(** 1 + ... : three times around a loop that ends each time at [Break]. *)
Definition counting : list Op.t :=
  [Op.Push (num 0); Op.Loop 3 [Op.Push (num 1); Op.Add; Op.Break; Op.Push (num 9)]].

Example counting_result : VM.stack (run 5 counting blank).1 = [num 3].
Proof. vm_compute. reflexivity. Qed.

Lemma run_mono_witness :
  (run 5 counting blank).2 <> OutOfFuel /\ run 9 counting blank = run 5 counting blank.
Proof. split; [vm_compute; discriminate|apply run_mono; [vm_compute; discriminate|lia]]. Defined.

Lemma while_true_never_ends_witness :
  is_ok (run 20 [Op.While [Op.Push (num 1)] [Op.Break]] blank).2 = false.
Proof. apply while_true_never_ends. vm_compute. reflexivity. Defined.

(** An error inside a call leaves the call's frame behind: a later [Store] at
    top level writes to it, and the global is not defined. *)
Theorem failed_call_leaves_frame :
  let s := (run 5 [Op.Def "f" [] [Op.Pop]; Op.Call "f"] blank).1 in
  let s' := (run 5 [Op.Push (num 1); Op.Store "x"] s).1 in
  VMMemory.in_function_call (VM.memory s) = true /\
  VMMemory.memory (VM.memory s') !! "x" = None /\
  VMMemory.load "x" (VM.memory s') = Ok (num 1).
Proof. vm_compute. done. Qed.

(** [Return] inside a branch ends the branch, not the function. *)
Theorem return_in_branch_continues :
  (run 9 [Op.Def "f" [] [Op.If [Op.Push (num 1)] [Op.Push (num 5); Op.Return] None; Op.Push (num 6); Op.Return];
          Op.Call "f"] blank).1.(VM.stack) = [num 6; num 6; num 5].
Proof. vm_compute. reflexivity. Qed.

Lemma governance_ends_block_witness :
  run 5 [Op.VoteThreshold (f64_of_Z 1); Op.Emit "after"] (VM.with_stack [num 5] blank) =
  run 5 [Op.VoteThreshold (f64_of_Z 1)] (VM.with_stack [num 5] blank).
Proof. apply governance_ends_block. reflexivity. Defined.

(** Eight of ten members voted and half was asked: the [else] branch runs. *)
Theorem quorum_met_runs_else :
  VM.get_output (run 9 [Op.If [Op.Push (num 8); Op.Push (num 10);
                               Op.QuorumThreshold (f64_div (f64_of_Z 1) (f64_of_Z 2))]
                          [Op.Emit "accepted"] (Some [Op.Emit "rejected"])] blank).1 =
  "rejected" +:+ TypedValue.newline.
Proof. vm_compute. reflexivity. Qed.

End Examples.

End Interp.
