(* ===== verification/Preserve.v ===== *)
(** * Invariants of runs

    A relation between the state before and the state after a run, indexed by
    whether the run succeeded, is kept by every program when every operation
    keeps it.  Two uses: calls are isolated from their caller's variables, and
    simulation mode leaves the storage backend alone. *)
From S2P Require Import Prelude Float64 Values Ops Stack Memory Auth Storage InMemory Economic Executor.
From S2P Require Import Ledger Trace Machine Governance VM.

Create HintDb keeps.

Module Preservation.

(** [p] of an operation and of every operation nested in it. *)
Fixpoint all_ops (p : Op.t -> bool) (op : Op.t) : bool :=
  let block := forallb (all_ops p) in
  let opt b := match b with Some body => block body | None => true end in
  p op &&
  match op with
  | Op.If condition then_ else_ => block condition && block then_ && opt else_
  | Op.Loop _ body => block body
  | Op.While condition body => block condition && block body
  | Op.Def _ _ body => block body
  | Op.Match value cases default => block value && forallb (fun c => block c.2) cases && opt default
  | Op.IfPassed body | Op.Else body => block body
  | _ => true
  end.
Definition all_block (p : Op.t -> bool) (ops : list Op.t) : bool := forallb (all_ops p) ops.

Lemma forallb_all {A} (f : A -> bool) (F : forall x, f x = true) : forall l, forallb f l = true.
Proof. fix go 1. intros [|x l]; [reflexivity|]. exact (andb_true_intro (conj (F x) (go l))). Defined.

(** The trivial predicate holds of every operation. *)
Lemma all_ops_true : forall op, all_ops (fun _ => true) op = true.
Proof.
  fix IH 1. pose (block := forallb_all _ IH).
  destruct op; try reflexivity.
  - destruct else_ as [b|]; [exact (andb_true_intro (conj (andb_true_intro (conj (block _) (block _))) (block b)))|].
    exact (andb_true_intro (conj (andb_true_intro (conj (block _) (block _))) eq_refl)).
  - exact (block body).
  - exact (andb_true_intro (conj (block _) (block _))).
  - exact (block body).
  - pose (bodies := forallb_all (fun c : TypedValue.t * list Op.t => forallb (all_ops (fun _ => true)) c.2)
                      (fun c => block c.2) cases).
    destruct default as [b|]; [exact (andb_true_intro (conj (andb_true_intro (conj (block _) bodies)) (block b)))|].
    exact (andb_true_intro (conj (andb_true_intro (conj (block _) bodies)) eq_refl)).
  - exact (block body).
  - exact (block body).
Qed.

Lemma all_block_true ops : all_block (fun _ => true) ops = true.
Proof. apply forallb_all, all_ops_true. Qed.

Section Generic.

Context {S : Type} `{SB : StorageBackend S} `{PL : Platform} `{RD : Renderings}.

Abbreviation M := (stm (VM.t S) VMError.t).

(** A preorder indexed by success. *)
Class Outcome (R : VM.t S -> bool -> VM.t S -> Prop) : Prop := {
  out_refl s : R s true s;
  out_weaken s s' : R s true s' -> R s false s';
  out_trans s s1 b s2 : R s true s1 -> R s1 b s2 -> R s b s2;
}.

(** The parts of the machine no relation here looks at. *)
Class Indifferent (R : VM.t S -> bool -> VM.t S -> Prop) : Prop := {
  ind_stack st s : R s true (VM.with_stack st s);
  ind_executor e s :
    VMExecution.same_access e (VM.executor s) -> R s true (VM.with_executor e s);
  ind_tracer tr s : VM.trace_enabled s = true -> R s true (VM.with_tracer true tr s);
}.

Context (R : VM.t S -> bool -> VM.t S -> Prop) `{HO : !Outcome R} `{HI : !Indifferent R}.

Definition keeps {A} (m : M A) : Prop := forall s, R s (is_ok (m s).2) (m s).1.

Lemma out_any b s s' : R s true s' -> R s b s'.
Proof. destruct b; [done|apply out_weaken]. Qed.

Lemma keeps_bind_at {A B} (m : M A) (k : A -> M B) s :
  R s (is_ok (m s).2) (m s).1 ->
  (forall a s1, m s = (s1, Ok a) -> R s1 (is_ok (k a s1).2) (k a s1).1) ->
  R s (is_ok ((m ≫= k) s).2) ((m ≫= k) s).1.
Proof.
  intros Hm Hk. unfold mbind, stm_bind. destruct (m s) as [s1 [a|e|p|]] eqn:E; try done.
  cbn in Hm. eapply out_trans; [exact Hm|]. by apply Hk.
Qed.

Lemma keeps_bind {A B} (m : M A) (k : A -> M B) : keeps m -> (forall a, keeps (k a)) -> keeps (m ≫= k).
Proof. intros Hm Hk s. apply keeps_bind_at; [apply Hm|intros; apply Hk]. Qed.

Lemma keeps_state {A} (m : M A) : (forall s, R s true (m s).1) -> keeps m.
Proof. intros H s. by apply out_any. Qed.

Lemma keeps_ret {A} (a : A) : keeps (mret a).
Proof. intros s. apply out_refl. Qed.
Lemma keeps_lift {A} (r : res VMError.t A) : keeps (lift r).
Proof. apply keeps_state. intros s. apply out_refl. Qed.
Lemma keeps_throw {A} e : keeps (throw (A := A) e).
Proof. apply keeps_state. intros s. apply out_refl. Qed.
Lemma keeps_get : keeps get_state.
Proof. intros s. apply out_refl. Qed.
Lemma keeps_stack {A} (m : stm VMStack.t VMError.t A) : keeps (VM.on_stack m).
Proof.
  apply keeps_state. intros s. unfold VM.on_stack, zoom. destruct (m (VM.stack s)). apply ind_stack.
Qed.
Lemma keeps_push v : keeps (VM.push v).
Proof. apply keeps_stack. Qed.
Lemma keeps_pop name : keeps (VM.pop_one name).
Proof. apply keeps_stack. Qed.
Lemma keeps_executor {A} (m : stm (VMExecution.t S) VMError.t A) :
  (forall e, VMExecution.same_access (m e).1 e) -> keeps (VM.on_executor m).
Proof.
  intros Hm. apply keeps_state. intros s. unfold VM.on_executor, zoom.
  specialize (Hm (VM.executor s)). destruct (m (VM.executor s)). by apply ind_executor.
Qed.
Lemma keeps_emit msg : keeps (VM.emit msg).
Proof. by apply keeps_executor. Qed.
Lemma keeps_emit_event cat msg : keeps (VM.emit_event cat msg).
Proof. by apply keeps_executor. Qed.
Lemma keeps_load name : keeps (Interp.load name).
Proof. apply keeps_state. intros s. apply out_refl. Qed.

End Generic.

#[export] Hint Resolve keeps_ret keeps_lift keeps_throw keeps_get keeps_stack keeps_push keeps_pop
  keeps_emit keeps_emit_event keeps_load : keeps.

(** Split a computation into its steps, then use the hints. *)
Ltac keep :=
  repeat match goal with
  | |- keeps _ (_ ≫= _) => apply keeps_bind; [typeclasses eauto|..|intros ?]
  | |- keeps _ (if ?b then _ else _) => destruct b
  | |- keeps _ (match ?x with _ => _ end) => destruct x
  end; eauto with keeps typeclass_instances.

Section Programs.

Context {S : Type} `{SB : StorageBackend S} `{PL : Platform} `{RD : Renderings}.
Abbreviation M := (stm (VM.t S) VMError.t).
Context (R : VM.t S -> bool -> VM.t S -> Prop) `{HO : !Outcome R} `{HI : !Indifferent R}.

Lemma keeps_log_trace op : keeps R (VM.log_trace op).
Proof.
  apply keeps_state; [done|]. intros s. cbn.
  destruct (VM.trace_enabled s) eqn:E; [by apply ind_tracer|apply out_refl].
Qed.
Lemma keeps_record : keeps R VM.record_stack_after.
Proof.
  apply keeps_state; [done|]. intros s. cbn.
  destruct (VM.trace_enabled s) eqn:E; [by apply ind_tracer|apply out_refl].
Qed.
Lemma keeps_log_explanation op : keeps R (VM.log_explanation op).
Proof.
  intros s. unfold VM.log_explanation. destruct (VM.explain_enabled s); [|apply out_refl].
  by apply keeps_emit.
Qed.
Lemma keeps_log_storage op key v : keeps R (VM.log_storage_operation op key v).
Proof.
  intros s. unfold VM.log_storage_operation. destruct (VM.verbose_storage_trace s); [|apply out_refl].
  by apply keeps_emit_event.
Qed.

(** Operations that call the executor's storage methods. *)
Definition touches_storage (op : Op.t) : bool :=
  Interp.simulated op || match op with Op.IncrementReputation _ _ _ => true | _ => false end.

(** What is left to show of a relation: its variables, and the storage calls. *)
Class Variables : Prop := {
  keeps_store name v : keeps R (VM.on_memory (VMMemory.store name v));
  keeps_return : keeps R Interp.return_op;
  keeps_metadata k x :
    keeps R (modify (fun s => VM.with_memory (VMMemory.set_string_metadata k x (VM.memory s)) s));
}.

Context `{HV : !Variables}.

#[local] Hint Resolve keeps_log_trace keeps_record keeps_log_explanation keeps_log_storage
  keeps_store keeps_return keeps_metadata : keeps.

Lemma keeps_pop_ballots n m : keeps R (RankedVote.pop_ballots n m).
Proof.
  assert (Hb : keeps R (RankedVote.pop_ballot m)).
  { induction m as [|m IH]; cbn [RankedVote.pop_ballot]; unfold pop_one_number; keep. }
  induction n as [|n IH]; cbn [RankedVote.pop_ballots]; keep.
Qed.
Lemma keeps_rounds n bs e : keeps R (RankedVote.rounds n bs e).
Proof.
  revert e. induction n as [|n IH]; intros e; cbn [RankedVote.rounds]; [keep|].
  destruct (RankedVote.round bs e) as [e' [v c]]. unfold governance_event. keep.
Qed.
#[local] Hint Resolve keeps_pop_ballots keeps_rounds : keeps.

Lemma keeps_governance op : keeps R (try_handle_governance_op op).
Proof.
  destruct op; cbn [try_handle_governance_op];
    unfold RankedVote.handle, LiquidDelegate.handle, Thresholds.vote, Thresholds.quorum,
      governance_event, push_number, pop_one_number; keep.
Qed.
#[local] Hint Resolve keeps_governance : keeps.

Lemma keeps_basic op : touches_storage op = false ->
  (forall name params body, op = Op.Def name params body ->
     keeps R (modify (fun s => VM.with_memory (VMMemory.define_function name params body (VM.memory s)) s))) ->
  keeps R (Interp.basic op).
Proof.
  intros Ht Hd. destruct op; try discriminate; cbn [Interp.basic];
    unfold Interp.next, Interp.arithmetic, Interp.comparison, Interp.binary_logical, Interp.logical_not,
      Interp.negate, Interp.assert_top, Interp.assert_memory, Interp.assert_equal_stack,
      Interp.dump_stack, Interp.dump_memory, Interp.other, Interp.not_implemented, VM.pop_two; keep.
Qed.

(** ** Every program *)

Context (p : Op.t -> bool).

Definition keeps_blocks (inner : list Op.t -> M unit) : Prop :=
  forall ops, all_block p ops = true -> keeps R (inner ops).

Class Controls : Prop := {
  keeps_call inner name : keeps_blocks inner -> keeps R (Interp.execute_call inner name);
  keeps_define name params body : all_ops p (Op.Def name params body) = true ->
    keeps R (modify (fun s => VM.with_memory (VMMemory.define_function name params body (VM.memory s)) s));
  keeps_storage op s : p op = true -> touches_storage op = true ->
    VM.simulation_mode s && Interp.simulated op = false ->
    R s (is_ok (Interp.basic op s).2) (Interp.basic op s).1;
}.

Context `{HC : !Controls}.

Lemma all_ops_here op : all_ops p op = true -> p op = true.
Proof. destruct op; cbn; intros H; apply andb_prop in H as [H _]; exact H. Qed.

Lemma keeps_at {A} (m : M A) s : keeps R m -> R s (is_ok (m s).2) (m s).1.
Proof. intros H. apply H. Qed.

Section Blocks.

Context (inner : list Op.t -> M unit) (Hinner : keeps_blocks inner).

Lemma keeps_loop n body lc : all_block p body = true -> keeps R (Interp.loop inner n body lc).
Proof.
  intros Hb. revert lc. induction n as [|n IH]; intros lc; cbn [Interp.loop]; [keep|].
  apply keeps_bind; [done|by apply Hinner|intros _]. destruct lc; keep.
Qed.

Lemma keeps_while fuel condition body lc :
  all_block p condition = true -> all_block p body = true ->
  keeps R (Interp.while inner fuel condition body lc).
Proof.
  intros Hc Hb. revert lc. induction fuel as [|fuel IH]; intros lc; cbn [Interp.while]; [keep|].
  apply keeps_bind; [done|by apply Hinner|intros _]. apply keeps_bind; [done|keep|intros v].
  destruct (TypedValue.is_falsey v); [keep|].
  apply keeps_bind; [done|by apply Hinner|intros _]. destruct lc; keep.
Qed.

Lemma keeps_optional b :
  match b with Some body => all_block p body | None => true end = true -> keeps R (Interp.optional inner b).
Proof. destruct b; cbn; [by apply Hinner|keep]. Qed.

Lemma find_case_good v cases body : Interp.find_case v cases = Some body ->
  forallb (fun c => all_block p c.2) cases = true -> all_block p body = true.
Proof.
  induction cases as [|[x b] cases IH]; [done|]. cbn. intros H [H1 H2]%andb_prop.
  destruct (Interp.matches v x); [by injection H as <-|auto].
Qed.

Lemma keeps_exec_op fuel lc op s : all_ops p op = true ->
  VM.simulation_mode s && Interp.simulated op = false ->
  R s (is_ok (Interp.exec_op inner fuel lc op s).2) (Interp.exec_op inner fuel lc op s).1.
Proof.
  intros Hg Hs. pose proof (all_ops_here op Hg) as Hp.
  assert (Hbasic : R s (is_ok (Interp.basic op s).2) (Interp.basic op s).1).
  { destruct (touches_storage op) eqn:Ht; [by apply keeps_storage|].
    apply keeps_basic; [done|]. intros name params body ->. by apply keeps_define. }
  destruct op; cbn [Interp.exec_op];
    try (apply keeps_bind_at; [done|exact Hbasic|intros; apply out_refl]); clear Hbasic Hp Hs;
    cbn in Hg; repeat match goal with H : _ && _ = true |- _ => apply andb_prop in H as [? ?] end;
    apply keeps_at.
  - apply keeps_bind; [done| |keep]. apply keeps_bind; [done|by apply Hinner|intros _].
    apply keeps_bind; [done|keep|intros v]. destruct (TypedValue.is_falsey v); [by apply keeps_optional|by apply Hinner].
  - apply keeps_bind; [done|by apply keeps_loop|keep].
  - apply keeps_bind; [done|by apply keeps_while|keep].
  - apply keeps_bind; [done|by apply keeps_call|keep].
  - apply keeps_bind; [done| |keep]. apply keeps_bind; [done|by apply Hinner|intros _].
    apply keeps_bind; [done|keep|intros v].
    destruct (Interp.find_case v cases) eqn:E; [|by apply keeps_optional]. eapply Hinner, find_case_good; eauto.
  - keep.
  - keep.
Qed.

Lemma keeps_exec_list fuel lc ops : all_block p ops = true -> keeps R (Interp.exec_list inner fuel lc ops).
Proof.
  revert lc. induction ops as [|op ops IH]; intros lc; cbn [Interp.exec_list]; [keep|].
  cbn. intros [Hop Hops]%andb_prop.
  do 2 (apply keeps_bind; [done|keep|intros _]). intros s.
  apply keeps_bind_at; [done|apply keeps_get; done|]. intros s0 s1 [= <- <-].
  destruct (VM.simulation_mode s && Interp.simulated op) eqn:Hs.
  - apply keeps_at, keeps_bind; [done| |intros _; by apply IH]. unfold Interp.simulate. keep.
  - apply keeps_bind_at; [done|by apply keeps_exec_op|]. intros [lc' f] s1 _. cbn.
    apply keeps_at. destruct f; [|keep]. apply keeps_bind; [done|keep|intros _; by apply IH].
Qed.

End Blocks.

Lemma keeps_run fuel ops : all_block p ops = true -> keeps R (Interp.run fuel ops).
Proof.
  revert ops. induction fuel as [|fuel IH]; intros ops Hg; cbn [Interp.run]; [keep|].
  by apply keeps_exec_list.
Qed.

End Programs.

(** ** Calls are isolated *)

Section Frames.

Context {S : Type} `{SB : StorageBackend S} `{PL : Platform} `{RD : Renderings}.

(** The frames stay in order; a run that succeeds leaves the frames below the
    current one as they were, and inside a function the globals too. *)
Definition frames_kept (s : VM.t S) (b : bool) (s' : VM.t S) : Prop :=
  let m := VM.memory s in let m' := VM.memory s' in
  VMMemory.wf m -> VMMemory.wf m' /\
    (b = true ->
     length (VMMemory.call_frames m') = length (VMMemory.call_frames m) /\
     removelast (VMMemory.call_frames m') = removelast (VMMemory.call_frames m) /\
     (VMMemory.call_frames m <> [] -> VMMemory.memory m' = VMMemory.memory m)).

Lemma frames_kept_same b (s s' : VM.t S) : VM.memory s' = VM.memory s -> frames_kept s b s'.
Proof. unfold frames_kept. intros ->. done. Qed.

#[local] Instance frames_outcome : Outcome frames_kept.
Proof.
  split.
  - intros s. by apply frames_kept_same.
  - intros s s' H Hwf. destruct (H Hwf) as [H1 _]. done.
  - intros s s1 b s2 H1 H2 Hwf. destruct (H1 Hwf) as (Hwf1 & Hf1). destruct (H2 Hwf1) as (Hwf2 & Hf2).
    split; [done|]. intros Hb. destruct (Hf1 eq_refl) as (L1 & R1 & M1). destruct (Hf2 Hb) as (L2 & R2 & M2).
    split; [congruence|]. split; [congruence|]. intros Hn. rewrite M2, M1; [done|done|].
    intros He. apply Hn. rewrite He in L1. by destruct (VMMemory.call_frames (VM.memory s)).
Qed.
#[local] Instance frames_indifferent : Indifferent frames_kept.
Proof. split; intros; by apply frames_kept_same. Qed.

Lemma frames_kept_top s m' : VMMemory.wf m' ->
  (VMMemory.wf (VM.memory s) ->
   (VMMemory.call_frames (VM.memory s) = [] /\ VMMemory.call_frames m' = []) \/
   (exists fs f f', VMMemory.call_frames (VM.memory s) = fs ++ [f] /\ VMMemory.call_frames m' = fs ++ [f'] /\
      VMMemory.memory m' = VMMemory.memory (VM.memory s))) ->
  frames_kept s true (VM.with_memory m' s).
Proof.
  intros Hwf' H Hwf. split; [done|]. intros _. cbn.
  destruct (H Hwf) as [[-> ->]|(fs & f & f' & -> & -> & ->)]; [done|].
  rewrite !length_app, !VMMemory.removelast_snoc. done.
Qed.

#[local] Instance frames_variables : Variables frames_kept.
Proof.
  split.
  - intros name v. apply keeps_state; [exact _|]. intros s Hwf. revert Hwf. unfold VM.on_memory, zoom.
    destruct (VMMemory.store name v (VM.memory s)) as [m' r] eqn:E. cbn. intros Hwf.
    apply frames_kept_top; [|intros _|done].
    { change m' with (m', r).1. rewrite <- E. by apply VMMemory.wf_store. }
    rewrite VMMemory.store_eq in E by done. unfold VMMemory.active_frame in E.
    destruct (VMMemory.wf_cases _ Hwf) as [[_ Hf]|(fs & f & Hf & _)]; rewrite Hf in E; [left|right].
    + injection E as <- _. by rewrite Hf.
    + rewrite last_snoc, VMMemory.removelast_snoc in E. injection E as <- _. eauto 7.
  - apply keeps_state; [exact _|]. intros s Hwf. revert Hwf. unfold Interp.return_op.
    destruct (VMMemory.in_function_call _) eqn:Hin; [|intros; by apply frames_kept_same].
    unfold VM.on_memory, zoom. set (v := default _ _).
    destruct (VMMemory.set_return_value v (VM.memory s)) as [m' r] eqn:E. cbn. intros Hwf.
    apply frames_kept_top; [|intros _|done].
    { change m' with (m', r).1. rewrite <- E. by apply VMMemory.wf_set_return_value. }
    unfold VMMemory.set_return_value, VMMemory.current_call_frame in E.
    destruct (VMMemory.wf_cases _ Hwf) as [[_ Hf]|(fs & f & Hf & _)]; rewrite Hf in E; [left|right].
    + injection E as <- _. by rewrite Hf.
    + rewrite last_snoc, VMMemory.removelast_snoc in E. injection E as <- _. eauto 7.
  - intros k x. apply keeps_state; [exact _|]. done.
Qed.

Lemma pop_params_memory name params (s : VM.t S) :
  VM.memory (Interp.pop_params name params s).1 = VM.memory s.
Proof.
  revert s. induction params as [|x params IH]; intros s; [done|]. cbn [Interp.pop_params].
  unfold mbind, stm_bind. specialize (IH s). destruct (Interp.pop_params name params s) as [s1 [m|?|?|]]; try done.
  cbn in IH. unfold VM.pop_one, VM.on_stack, zoom. destruct (VMStack.pop _ _) as [st [v|?|?|]]; done.
Qed.

(** A call: its frame is pushed, the body runs, the frame is popped. *)
Lemma call_outcome inner name (s s' : VM.t S) r : keeps_blocks frames_kept (fun _ => true) inner ->
  VMMemory.wf (VM.memory s) -> Interp.execute_call inner name s = (s', r) ->
  VMMemory.wf (VM.memory s') /\
  (is_ok r = true ->
   VMMemory.call_frames (VM.memory s') = VMMemory.call_frames (VM.memory s) /\
   VMMemory.memory (VM.memory s') = VMMemory.memory (VM.memory s)).
Proof.
  intros Hi Hwf. unfold Interp.execute_call, mbind, stm_bind, get_state, lift, modify.
  destruct (VMMemory.get_function name _) as [f|?|?|]; try (intros [= <- <-]; by split).
  pose proof (pop_params_memory name f.1 s) as Hm.
  destruct (Interp.pop_params name f.1 s) as [s1 [ps|?|?|]]; cbn in Hm;
    try (intros [= <- <-]; rewrite Hm; by split).
  set (s2 := VM.with_memory _ s1). pose proof (Hi f.2) as Hb.
  specialize (Hb (all_block_true _) s2).
  assert (Hwf2 : VMMemory.wf (VM.memory s2)) by (apply VMMemory.wf_push_call_frame; by rewrite Hm).
  destruct (Hb Hwf2) as [Hwf3 Hf]. destruct (inner f.2 s2) as [s3 [[]|?|?|]]; cbn in Hwf3, Hf;
    try (intros [= <- <-]; by split).
  destruct (Hf eq_refl) as (_ & Hr & Hg). rewrite Hm, VMMemory.removelast_snoc in Hr.
  assert (Hmem : VMMemory.memory (VM.memory s3) = VMMemory.memory (VM.memory s)).
  { rewrite Hg; [by rewrite Hm|]. cbn. by destruct (VMMemory.call_frames (VM.memory s1)). }
  unfold Interp.pop_frame. cbn. pose proof (VMMemory.wf_pop_call_frame _ Hwf3) as Hwf4.
  destruct (last (VMMemory.call_frames (VM.memory s3))) as [fr|]; [|by intros [= <- <-]].
  destruct (return_value fr); intros [= <- <-]; done.
Qed.

Lemma frames_kept_executor {A} (m : stm (VMExecution.t S) VMError.t A) : keeps frames_kept (VM.on_executor m).
Proof.
  intros s. unfold VM.on_executor, zoom. destruct (m (VM.executor s)). by apply frames_kept_same.
Qed.
#[local] Hint Resolve frames_kept_executor : keeps.

Lemma frames_kept_storage op : touches_storage op = true -> keeps frames_kept (Interp.basic op).
Proof.
  pose proof (keeps_log_storage frames_kept). intros Ht. destruct op; try discriminate; cbn [Interp.basic];
    unfold Interp.next, Interp.store_p, Interp.load_p, Interp.other, Interp.not_implemented; keep.
Qed.

#[local] Instance frames_controls : Controls frames_kept (fun _ => true).
Proof.
  split.
  - intros inner name Hi s Hwf. destruct (Interp.execute_call inner name s) as [s' r] eqn:E.
    destruct (call_outcome inner name s s' r Hi Hwf E) as [Hwf' H]. split; [done|].
    cbn. intros Hr. by destruct (H Hr) as [-> ->].
  - intros name params body _. apply keeps_state; [exact _|]. done.
  - intros op s _ Ht _. by apply frames_kept_storage.
Qed.

Lemma frames_kept_run fuel : keeps_blocks frames_kept (fun _ => true) (Interp.run fuel).
Proof. intros ops H. by apply (keeps_run frames_kept (fun _ => true)). Qed.

(** What the two theorems below say of the memory before and after. *)
Definition same_variables (m m' : VMMemory.t) : Prop :=
  forall x, VMMemory.load x m' = VMMemory.load x m.
Definition same_depth (m m' : VMMemory.t) : Prop :=
  VMMemory.call_stack_depth m' = VMMemory.call_stack_depth m.

(** C20. A function call that returns leaves every variable of its caller as it was:
    the globals, and the locals and parameters of every active frame.  Results
    go through the stack. *)
Theorem call_isolated fuel name (s s' : VM.t S) :
  VMMemory.wf (VM.memory s) ->
  Interp.execute_call (Interp.run fuel) name s = (s', Ok tt) ->
  same_variables (VM.memory s) (VM.memory s').
Proof.
  intros Hwf Hrun x.
  destruct (call_outcome _ name s s' _ (frames_kept_run fuel) Hwf Hrun) as [Hwf' H].
  destruct (H eq_refl) as [Hf Hm].
  rewrite !VMMemory.load_resolve by done. unfold VMMemory.resolve, VMMemory.active_frame. by rewrite Hf, Hm.
Qed.

(** Any run keeps the call stack well formed, so no frame index is ever out of
    range; one that succeeds ends at the call depth it started at. *)
Theorem run_call_depth fuel ops (s s' : VM.t S) r :
  VMMemory.wf (VM.memory s) -> Interp.run fuel ops s = (s', r) ->
  VMMemory.wf (VM.memory s') /\
  (r = Ok tt -> same_depth (VM.memory s) (VM.memory s')).
Proof.
  intros Hwf Hrun. pose proof (frames_kept_run fuel ops (all_block_true ops) s Hwf) as [Hwf' H].
  rewrite Hrun in *. split; [exact Hwf'|]. intros ->. destruct (H eq_refl) as [Hl _].
  unfold same_depth, VMMemory.call_stack_depth, VMMemory.wf in *. cbn in *. by rewrite Hwf', Hwf, !length_seq, Hl.
Qed.

End Frames.

(** ** Simulation mode *)

Section Simulation.

Context {S : Type} `{SB : StorageBackend S} `{PL : Platform} `{RD : Renderings}.

Definition no_reputation (op : Op.t) : bool :=
  match op with Op.IncrementReputation _ _ _ => false | _ => true end.
Definition functions_without_reputation (s : VM.t S) : Prop :=
  forall name f, VMMemory.functions (VM.memory s) !! name = Some f -> all_block no_reputation f.2 = true.

Definition storage_kept (s : VM.t S) (b : bool) (s' : VM.t S) : Prop :=
  VM.simulation_mode s = true -> functions_without_reputation s ->
  VM.simulation_mode s' = true /\ functions_without_reputation s' /\
  VM.get_storage_backend s' = VM.get_storage_backend s.

#[local] Instance storage_outcome : Outcome storage_kept.
Proof.
  split.
  - done.
  - done.
  - intros s s1 b s2 H1 H2 Hs Hf. destruct (H1 Hs Hf) as (Hs1 & Hf1 & He1).
    destruct (H2 Hs1 Hf1) as (Hs2 & Hf2 & He2). split; [done|]. split; [done|]. congruence.
Qed.
#[local] Instance storage_indifferent : Indifferent storage_kept.
Proof. split; [done| |done]. by intros e s (Hb & _). Qed.

Lemma storage_kept_memory m' (s : VM.t S) :
  VMMemory.functions m' = VMMemory.functions (VM.memory s) -> storage_kept s true (VM.with_memory m' s).
Proof. intros Hm Hs Hf. split; [done|]. split; [|done]. intros name f. cbn. rewrite Hm. apply Hf. Qed.

#[local] Instance storage_variables : Variables storage_kept.
Proof.
  split.
  - intros name v. apply keeps_state; [exact _|]. intros s. unfold VM.on_memory, zoom.
    destruct (VMMemory.store name v (VM.memory s)) as [m' r] eqn:E. cbn. apply storage_kept_memory.
    unfold VMMemory.store in E. destruct (last _); [|by injection E as <- _].
    destruct (VMMemory.index _ _); by injection E as <- _.
  - apply keeps_state; [exact _|]. intros s. unfold Interp.return_op.
    destruct (VMMemory.in_function_call _); [|apply out_refl]. unfold VM.on_memory, zoom.
    set (v := default _ _). destruct (VMMemory.set_return_value v (VM.memory s)) as [m' r] eqn:E. cbn.
    apply storage_kept_memory. unfold VMMemory.set_return_value in E.
    destruct (VMMemory.current_call_frame _); by injection E as <- _.
  - intros k x. apply keeps_state; [exact _|]. intros s. by apply storage_kept_memory.
Qed.

Lemma keeps_pop_params name params : keeps storage_kept (Interp.pop_params name params).
Proof. induction params as [|x params IH]; cbn [Interp.pop_params]; keep. Qed.
#[local] Hint Resolve keeps_pop_params : keeps.

Lemma storage_kept_at {A} (m : stm (VM.t S) VMError.t A) s : keeps storage_kept m ->
  VM.simulation_mode s = true -> functions_without_reputation s ->
  VM.simulation_mode (m s).1 = true /\ functions_without_reputation (m s).1 /\
  VM.get_storage_backend (m s).1 = VM.get_storage_backend s.
Proof. intros H. apply H. Qed.

Lemma storage_kept_call inner name : keeps_blocks storage_kept no_reputation inner ->
  keeps storage_kept (Interp.execute_call inner name).
Proof.
  intros Hi s. unfold Interp.execute_call. apply keeps_bind_at; [exact _|apply keeps_at; keep|].
  intros s0 s1 [= <- <-]. apply keeps_bind_at; [exact _|apply keeps_at; keep|].
  intros f s1. unfold lift. intros [= <- Hf] Hs Hg.
  assert (Hbody : all_block no_reputation f.2 = true).
  { unfold VMMemory.get_function in Hf. destruct (_ !! name) eqn:E; [|done]. injection Hf as <-. by eapply Hg. }
  apply storage_kept_at; [|done|done].
  apply keeps_bind; [exact _|keep|intros ps]. apply keeps_bind; [exact _| |intros _].
  { apply keeps_state; [exact _|]. intros s2. by apply storage_kept_memory. }
  apply keeps_bind; [exact _|by apply Hi|intros _]. apply keeps_bind; [exact _| |intros fr; keep].
  apply keeps_state; [exact _|]. intros s2. unfold Interp.pop_frame. cbn. by apply storage_kept_memory.
Qed.

#[local] Instance storage_controls : Controls storage_kept no_reputation.
Proof.
  split.
  - intros inner name. apply storage_kept_call.
  - intros name params body Hg. apply keeps_state; [exact _|]. intros s Hs Hf. split; [done|]. split; [|done].
    intros name' f. cbn. destruct (decide (name = name')) as [<-|Hn].
    + rewrite lookup_insert_eq. intros [= <-]. apply andb_prop in Hg as [_ Hg]. exact Hg.
    + rewrite lookup_insert_ne by done. apply Hf.
  - intros op s Hp Ht Hsim Hs. rewrite Hs in Hsim. cbn in Hsim.
    unfold touches_storage in Ht. rewrite Hsim in Ht. by destruct op.
Qed.



End Simulation.

(** ** Concrete runs *)
Section Examples.

#[local] Existing Instance Samples.platform.
#[local] Existing Instance Samples.renderings.

(** [x] is 1 outside; the function sets its own [x] and returns it. *)
Definition shadowing : VM.t InMemoryStorage.t :=
  (Interp.run 5 [Op.Push (Interp.num 1); Op.Store "x";
     Op.Def "f" ["y"] [Op.Load "y"; Op.Store "x"; Op.Load "x"; Op.Return]; Op.Push (Interp.num 2)] VM.new).1.

Lemma call_isolated_witness :
  let s' := (Interp.execute_call (Interp.run 5) "f" shadowing).1 in
  VMMemory.load "x" (VM.memory s') = Ok (Interp.num 1) /\ VM.top s' = Some (Interp.num 2).
Proof.
  split; [|vm_compute; reflexivity].
  etransitivity; [apply (call_isolated 5 "f" shadowing)|]; vm_compute; reflexivity.
Defined.

Lemma run_call_depth_witness :
  VMMemory.wf (VM.memory (Interp.run 5 [Op.Call "f"] shadowing).1) /\
  VMMemory.call_stack_depth (VM.memory (Interp.run 5 [Op.Call "f"] shadowing).1) = 0%N.
Proof.
  destruct (run_call_depth 5 [Op.Call "f"] shadowing (Interp.run 5 [Op.Call "f"] shadowing).1 (Ok tt)) as [H1 H2].
  - vm_compute. reflexivity.
  - vm_compute. reflexivity.
  - split; [exact H1|]. unfold same_depth in H2. rewrite H2 by reflexivity. vm_compute. reflexivity.
Defined.

Definition simulating : VM.t InMemoryStorage.t :=
  VM.set_simulation_mode true (VM.with_storage_backend (Economic.ledger 1000)).


(** Outside the guard: [IncrementReputation] writes in simulation mode too. *)
Theorem simulation_writes_reputation :
  let s := VM.set_auth_context InMemoryStorage.admin (VM.set_namespace "ns" simulating) in
  let s' := (Interp.run 5 [Op.IncrementReputation "alice" None None] s).1 in
  option_map (fun b => view b "ns" (Economic.rep_key "alice")) (VM.get_storage_backend s') = Some (Some "1") /\
  option_map (fun b => view b "ns" (Economic.rep_key "alice")) (VM.get_storage_backend s) = Some None.
Proof. vm_compute. done. Qed.

End Examples.

End Preservation.
