(* ===== verification/Bytecode.v ===== *)
(** * Bytecode: src/crates/icn-covm/src/bytecode.rs

    The compiler from operations to a flat list of instructions, with jumps
    patched in place, and the interpreter that runs them on the machine.
    Addresses are natural numbers.  Two places of the source do not type-check
    against the executor and are read by their evident meaning: [Balance] pushes
    the value the executor returns, and the instruction [IncrementReputation]
    appends carries the same amount. *)
From S2P Require Import Prelude Float64 Values Ops Stack Memory Auth Storage Economic Executor.
From S2P Require Import Ledger Trace Machine Governance VM.

Module BytecodeOp.

Inductive t : Type :=
  | Push (value : TypedValue.t)
  | Store (name : string)
  | Load (name : string)
  | Add
  | Sub
  | Mul
  | Div
  | Emit (message : string)
  | EmitEvent (category message : string)
  | Call (func_name : string)
  | JumpIfZero (addr : nat)
  | Jump (addr : nat)
  | FunctionEntry (name : string) (params : list string)
  | Return
  | AssertTop (v : TypedValue.t)
  | AssertMemory (key : string) (expected : TypedValue.t)
  | AssertEqualStack (depth : N)
  | RankedVote (candidates : list string) (ballots : list (list N))
  | LiquidDelegate (from to : string)
  | VoteThreshold (threshold : f64)
  | QuorumThreshold (threshold : f64)
  | Break
  | Continue
  | StoreP (key : string)
  | LoadP (key : string)
  | Dup
  | Pop
  | Swap
  | Eq
  | Gt
  | Lt
  | Negate
  | And
  | Or
  | Not
  | LoadParam (name : string)
  | Assert
  | AssertEq
  | Print
  | StoreStorage (key : string)
  | LoadStorage (key : string)
  | LoadStorageVersion (key : string) (version : N)
  | ListStorageVersions (key : string)
  | DiffStorageVersions (key : string) (v1 v2 : N)
  | Mod
  | RequireIdentity (id : string)
  | VerifySignature
  | CreateResource (resource : string)
  | Mint (resource account : string) (amount : TypedValue.t) (reason : option string)
  | Transfer (resource from to : string) (amount : TypedValue.t) (reason : option string)
  | Burn (resource account : string) (amount : TypedValue.t) (reason : option string)
  | Balance (resource account : string)
  | GetIdentity (id : string)
  | RequireValidSignature (voter message signature : string)
  | IncrementReputation (identity_id : string) (amount : option TypedValue.t) (reason : option string)
  | IfPassed (block : list t)
  | Else (block : list t)
  | Macro (name : string)
  | Nop
  | RequireRole (role : string)
  | MinDeliberation (duration : Z)
  | ExpiresIn (duration : Z).

End BytecodeOp.

Module BytecodeProgram.

Record t : Type := {
  instructions : list BytecodeOp.t;
  function_table : gmap string nat;
  original_ops : option (list Op.t);
}.

Definition new : t := {| instructions := []; function_table := ∅; original_ops := None |}.
Definition with_original_ops (ops : list Op.t) (p : t) : t :=
  {| instructions := instructions p; function_table := function_table p; original_ops := Some ops |}.
Definition with_instructions (l : list BytecodeOp.t) (p : t) : t :=
  {| instructions := l; function_table := function_table p; original_ops := original_ops p |}.
Definition with_table (f : gmap string nat) (p : t) : t :=
  {| instructions := instructions p; function_table := f; original_ops := original_ops p |}.

(** [{:04}]. *)
Definition address (n : nat) : string :=
  let s := u64_to_string (N.of_nat n) in str_repeat (4 - String.length s) "0" +:+ s.

(** The order of the function table and the [Debug] text of an instruction come
    from outside. *)
Definition dump (table_order : list (string * nat) -> list (string * nat))
    (debug_instruction : BytecodeOp.t -> string) (p : t) : string :=
  let line s := s +:+ TypedValue.newline in
  line "Bytecode Program:" +:+ line "Function Table:" +:+
  String.concat EmptyString
    (map (fun '(name, addr) => line ("  " +:+ name +:+ " -> " +:+ u64_to_string (N.of_nat addr)))
       (table_order (map_to_list (function_table p)))) +:+
  TypedValue.newline +:+ line "Instructions:" +:+
  String.concat EmptyString
    (imap (fun addr op => line (address addr +:+ ": " +:+ debug_instruction op)) (instructions p)).

End BytecodeProgram.

(** ** The compiler: each method takes the program built so far *)
Module BytecodeCompiler.

Import BytecodeProgram.

Definition state : Type := BytecodeProgram.t.

Definition push (i : BytecodeOp.t) (p : state) : state := with_instructions (instructions p ++ [i]) p.
Definition len (p : state) : nat := length (instructions p).

(** [if let JumpIfZero(ref mut addr) = instructions[pos] { *addr = target }]. *)
Definition patch_jump_if_zero (pos target : nat) (p : state) : state :=
  match instructions p !! pos with
  | Some (BytecodeOp.JumpIfZero _) =>
      with_instructions (<[pos := BytecodeOp.JumpIfZero target]> (instructions p)) p
  | _ => p
  end.
Definition patch_jump (pos target : nat) (p : state) : state :=
  match instructions p !! pos with
  | Some (BytecodeOp.Jump _) =>
      with_instructions (<[pos := BytecodeOp.Jump target]> (instructions p)) p
  | _ => p
  end.

(** The instruction of an operation that compiles to one. *)
Definition simple (op : Op.t) : option BytecodeOp.t :=
  match op with
  | Op.Push val => Some (BytecodeOp.Push val)
  | Op.Add => Some BytecodeOp.Add
  | Op.Sub => Some BytecodeOp.Sub
  | Op.Mul => Some BytecodeOp.Mul
  | Op.Div => Some BytecodeOp.Div
  | Op.Store name => Some (BytecodeOp.Store name)
  | Op.Load name => Some (BytecodeOp.Load name)
  | Op.Pop => Some BytecodeOp.Pop
  | Op.Eq => Some BytecodeOp.Eq
  | Op.Gt => Some BytecodeOp.Gt
  | Op.Lt => Some BytecodeOp.Lt
  | Op.Not => Some BytecodeOp.Not
  | Op.And => Some BytecodeOp.And
  | Op.Or => Some BytecodeOp.Or
  | Op.Dup => Some BytecodeOp.Dup
  | Op.Swap => Some BytecodeOp.Swap
  | Op.Over => Some BytecodeOp.Return
  | Op.Negate => Some BytecodeOp.Negate
  | Op.Call name => Some (BytecodeOp.Call name)
  | Op.Return => Some BytecodeOp.Return
  | Op.Nop => Some BytecodeOp.Nop
  | Op.Break => Some BytecodeOp.Break
  | Op.Continue => Some BytecodeOp.Continue
  | Op.Emit msg => Some (BytecodeOp.Emit msg)
  | Op.EmitEvent cat msg => Some (BytecodeOp.EmitEvent cat msg)
  | Op.DumpStack | Op.DumpMemory | Op.DumpState => Some BytecodeOp.Return
  | Op.AssertTop val => Some (BytecodeOp.AssertTop val)
  | Op.AssertMemory key expected => Some (BytecodeOp.AssertMemory key expected)
  | Op.AssertEqualStack depth => Some (BytecodeOp.AssertEqualStack depth)
  | Op.Mod => Some BytecodeOp.Mod
  | Op.RankedVote _ _ => Some BytecodeOp.Return
  | Op.StoreP key => Some (BytecodeOp.StoreStorage key)
  | Op.LoadP key => Some (BytecodeOp.LoadStorage key)
  | Op.LoadVersionP key version => Some (BytecodeOp.LoadStorageVersion key version)
  | Op.ListVersionsP key => Some (BytecodeOp.ListStorageVersions key)
  | Op.LiquidDelegate from to => Some (BytecodeOp.LiquidDelegate from to)
  | Op.VoteThreshold threshold => Some (BytecodeOp.VoteThreshold threshold)
  | Op.QuorumThreshold threshold => Some (BytecodeOp.QuorumThreshold threshold)
  | Op.VerifyIdentity _ _ _ | Op.CheckMembership _ _ | Op.CheckDelegation _ _ => Some BytecodeOp.Return
  | Op.DiffVersionsP key v1 v2 => Some (BytecodeOp.DiffStorageVersions key v1 v2)
  | Op.CreateResource resource => Some (BytecodeOp.CreateResource resource)
  | Op.Mint resource account amount reason =>
      Some (BytecodeOp.Mint resource account (TypedValue.Number amount) reason)
  | Op.Transfer resource from to amount reason =>
      Some (BytecodeOp.Transfer resource from to (TypedValue.Number amount) reason)
  | Op.Burn resource account amount reason =>
      Some (BytecodeOp.Burn resource account (TypedValue.Number amount) reason)
  | Op.Balance resource account => Some (BytecodeOp.Balance resource account)
  | Op.VerifySignature => Some BytecodeOp.VerifySignature
  | Op.GetIdentity id => Some (BytecodeOp.GetIdentity id)
  | Op.RequireValidSignature voter message signature =>
      Some (BytecodeOp.RequireValidSignature voter message signature)
  | Op.IncrementReputation identity_id amount reason =>
      Some (BytecodeOp.IncrementReputation identity_id (TypedValue.Number <$> amount) reason)
  | Op.Macro name => Some (BytecodeOp.Macro name)
  | Op.RequireRole role => Some (BytecodeOp.RequireRole role)
  | Op.MinDeliberation duration => Some (BytecodeOp.MinDeliberation duration)
  | Op.ExpiresIn duration => Some (BytecodeOp.ExpiresIn duration)
  | Op.If _ _ _ | Op.While _ _ | Op.Loop _ _ | Op.Def _ _ _ | Op.Match _ _ _ | Op.IfPassed _
  | Op.Else _ => None
  end.

(** The block of an [IfPassed] or [Else]: only [Push] survives. *)
Definition proposal_block (block : list Op.t) : list BytecodeOp.t :=
  map (fun op => match op with Op.Push val => BytecodeOp.Push val | _ => BytecodeOp.Nop end) block.

Definition number (n : N) : TypedValue.t := TypedValue.Number (f64_of_Z (Z.of_N n)).

(** The control constructs, given the compilation of their blocks. *)
Section Blocks.

Definition block : Type := state -> state.

Definition compile_if (condition then_branch : block) (else_branch : option block) (p : state) : state :=
  let p := condition p in
  let jump_if_zero_pos := len p in
  let p := then_branch (push (BytecodeOp.JumpIfZero 0) p) in
  match else_branch with
  | Some else_ops =>
      let jump_pos := len p in
      let p := push (BytecodeOp.Jump 0) p in
      let p := patch_jump_if_zero jump_if_zero_pos (len p) p in
      let p := else_ops p in
      patch_jump jump_pos (len p) p
  | None => patch_jump_if_zero jump_if_zero_pos (len p) p
  end.

Definition compile_while (condition body : block) (p : state) : state :=
  let loop_start := len p in
  let p := condition p in
  let exit_jump_pos := len p in
  let p := body (push (BytecodeOp.JumpIfZero 0) p) in
  let p := push (BytecodeOp.Jump loop_start) p in
  patch_jump_if_zero exit_jump_pos (len p) p.

(** The loop of exactly 1000 rounds, whose counter stays on the stack. *)
Definition compile_loop_1000 (count : N) (body : block) (p : state) : state :=
  let p := push (BytecodeOp.Push (number count)) p in
  let loop_start := len p in
  let p := push BytecodeOp.Gt (push (BytecodeOp.Push (number 0)) (push BytecodeOp.Dup p)) in
  let exit_jump_pos := len p in
  let p := body (push (BytecodeOp.JumpIfZero 0) p) in
  let p := push BytecodeOp.Sub (push (BytecodeOp.Push (number 1)) p) in
  let p := push (BytecodeOp.Jump loop_start) p in
  let p := patch_jump_if_zero exit_jump_pos (len p) p in
  push BytecodeOp.Pop p.

(** Any other loop keeps its counter in a variable. *)
Definition compile_loop_counted (count : N) (body : block) (p : state) : state :=
  let p := push (BytecodeOp.Push (number count)) p in
  let counter_var := "__loop_counter_" +:+ u64_to_string (N.of_nat (len p)) in
  let p := push (BytecodeOp.Store counter_var) p in
  let loop_start := len p in
  let p := push BytecodeOp.Gt (push (BytecodeOp.Push (number 0)) (push (BytecodeOp.Load counter_var) p)) in
  let exit_jump_pos := len p in
  let p := body (push (BytecodeOp.JumpIfZero 0) p) in
  let p := push BytecodeOp.Sub (push (BytecodeOp.Push (number 1)) (push (BytecodeOp.Load counter_var) p)) in
  let p := push (BytecodeOp.Jump loop_start) (push (BytecodeOp.Store counter_var) p) in
  patch_jump_if_zero exit_jump_pos (len p) p.

Definition compile_loop (count : N) (body_len : nat) (body : block) (p : state) : state :=
  if (count <=? 5)%N then Nat.iter (N.to_nat count) body p
  else if (count =? 1000)%N && (body_len <=? 5)%nat then compile_loop_1000 count body p
  else compile_loop_counted count body p.

(** Nothing is emitted for a function the first pass did not see. *)
Definition compile_def (name : string) (params : list string) (body : block) (p : state) : state :=
  match function_table p !! name with
  | Some _ =>
      push BytecodeOp.Return (body (push (BytecodeOp.FunctionEntry name params) p))
  | None => p
  end.

(** One case: the exit jump it leaves to be patched is the last address. *)
Definition compile_case (match_var : string) (acc : state * list nat) (c : TypedValue.t * block) :
    state * list nat :=
  let '(p, exit_jumps) := acc in
  let p := push BytecodeOp.Eq (push (BytecodeOp.Push c.1) (push (BytecodeOp.Load match_var) p)) in
  let skip_jump_pos := len p in
  let p := c.2 (push (BytecodeOp.JumpIfZero 0) p) in
  let exit_jump_pos := len p in
  let p := push (BytecodeOp.Jump 0) p in
  (patch_jump_if_zero skip_jump_pos (len p) p, exit_jumps ++ [exit_jump_pos]).

Definition compile_match (value : block) (cases : list (TypedValue.t * block)) (default : option block)
    (p : state) : state :=
  let p := value p in
  let match_var := "__match_value_" +:+ u64_to_string (N.of_nat (len p)) in
  let p := push (BytecodeOp.Store match_var) p in
  let '(p, exit_jumps) := foldl (compile_case match_var) (p, []) cases in
  let p := match default with Some b => b p | None => p end in
  let after_match_pos := len p in
  foldl (fun p pos => patch_jump pos after_match_pos p) p exit_jumps.

End Blocks.

Fixpoint compile_op (op : Op.t) (p : state) : state :=
  let ops (b : list Op.t) : block := fun p => foldl (fun p op => compile_op op p) p b in
  match op with
  | Op.If condition then_ else_ =>
      compile_if (ops condition) (ops then_)
        (match else_ with Some b => Some (ops b) | None => None end) p
  | Op.While condition body => compile_while (ops condition) (ops body) p
  | Op.Loop count body => compile_loop count (length body) (ops body) p
  | Op.Def name params body => compile_def name params (ops body) p
  | Op.Match value cases default =>
      compile_match (ops value) (map (fun c => (c.1, ops c.2)) cases)
        (match default with Some b => Some (ops b) | None => None end) p
  | Op.IfPassed b => push (BytecodeOp.IfPassed (proposal_block b)) p
  | Op.Else b => push (BytecodeOp.Else (proposal_block b)) p
  | _ => match simple op with Some i => push i p | None => p end
  end.

Definition compile_ops (ops : list Op.t) : block := fun p => foldl (fun p op => compile_op op p) p ops.

(** The first pass compiles the function bodies to record their addresses and
    then drops the code again. *)
Definition pre_process_functions (ops : list Op.t) (p : state) : state :=
  let p := with_table ∅ p in
  let current_pos := len p in
  let p := foldl (fun p op => match op with
             | Op.Def name params body =>
                 let p := with_table (<[name := len p]> (function_table p)) p in
                 push BytecodeOp.Return (compile_ops body (push (BytecodeOp.FunctionEntry name params) p))
             | _ => p
             end) p ops in
  with_instructions (take current_pos (instructions p)) p.

Definition compile (ops : list Op.t) : state :=
  compile_ops ops (pre_process_functions ops (with_original_ops ops new)).

End BytecodeCompiler.

(** ** The interpreter *)
Module BytecodeInterpreter.

Record t (S : Type) : Type := { pc : nat; program : BytecodeProgram.t; vm : VM.t S }.
Arguments pc {S} _.
Arguments program {S} _.
Arguments vm {S} _.

Section Interpreter.

Context {S : Type} `{SB : StorageBackend S} `{PL : Platform} `{RD : Renderings}.
Context (debug_instruction : BytecodeOp.t -> string).

Abbreviation M := (stm (t S) VMError.t).

Definition new (vm : VM.t S) (program : BytecodeProgram.t) : t S := {| pc := 0; program := program; vm := vm |}.
Definition get_vm (s : t S) : VM.t S := vm s.

Definition set_pc (n : nat) : M unit := modify (fun s => {| pc := n; program := program s; vm := vm s |}).
Definition next : M unit :=
  modify (fun s => {| pc := Datatypes.S (pc s); program := program s; vm := vm s |}).
Definition set_program (p : BytecodeProgram.t) (s : t S) : t S := {| pc := pc s; program := p; vm := vm s |}.

Definition on_vm {A} (m : stm (VM.t S) VMError.t A) : M A :=
  zoom vm (fun v s => {| pc := pc s; program := program s; vm := v |}) m.

(** Run on the machine, then go to the next instruction. *)
Definition then_next (m : stm (VM.t S) VMError.t unit) : M unit := on_vm m ≫= fun _ => next.

Definition not_implemented (text : string) : M unit := throw (VMError.NotImplemented text).

(** The role of a [RequireRole], in the global namespace or the current one. *)
Definition require_role (role : string) : stm (VM.t S) VMError.t unit := fun s =>
  match VM.get_auth_context s with
  | Some auth =>
      if negb (AuthContext.has_role "global" role auth) &&
         negb (AuthContext.has_role (VMExecution.namespace (VM.executor s)) role auth)
      then (s, Err (VMError.PermissionDenied (AuthContext.user_id auth) "require_role" role))
      else (s, Ok tt)
  | None => (s, Err VMError.IdentityContextUnavailable)
  end.

Definition execute_instruction (op : BytecodeOp.t) : M unit :=
  match op with
  | BytecodeOp.Push value => then_next (VM.push value)
  | BytecodeOp.Store name => then_next (VM.pop_one "Store" ≫= fun v => VM.on_memory (VMMemory.store name v))
  | BytecodeOp.Load name => then_next (Interp.load name ≫= VM.push)
  | BytecodeOp.Add => then_next (Interp.arithmetic "Add" "add")
  | BytecodeOp.Sub => then_next (Interp.arithmetic "Sub" "sub")
  | BytecodeOp.Mul => then_next (Interp.arithmetic "Mul" "mul")
  | BytecodeOp.Div => then_next (Interp.arithmetic "Div" "div")
  | BytecodeOp.Mod => then_next (Interp.arithmetic "Mod" "mod")
  | BytecodeOp.Emit message => then_next (VM.emit message)
  | BytecodeOp.EmitEvent cat msg => then_next (VM.emit_event cat msg)
  | BytecodeOp.Call func_name => not_implemented ("Function call '" +:+ func_name +:+ "' not implemented yet")
  | BytecodeOp.Return => not_implemented "Return not implemented yet"
  | BytecodeOp.JumpIfZero addr =>
      on_vm (VM.pop_one "JumpIfZero") ≫= fun val =>
      if TypedValue.is_falsey val then set_pc addr else next
  | BytecodeOp.Jump addr => set_pc addr
  | BytecodeOp.FunctionEntry name _ =>
      not_implemented ("Function entry '" +:+ name +:+ "' not implemented yet")
  | BytecodeOp.Print => then_next (VM.pop_one "Print" ≫= fun _ => mret tt)
  | BytecodeOp.Dup => then_next (VM.on_stack (VMStack.dup "Dup"))
  | BytecodeOp.Pop => then_next (VM.pop_one "Pop" ≫= fun _ => mret tt)
  | BytecodeOp.Swap => then_next (VM.on_stack (VMStack.swap "Swap"))
  | BytecodeOp.Eq => then_next (Interp.comparison "Eq" "eq")
  | BytecodeOp.Gt => then_next (Interp.comparison "Gt" "gt")
  | BytecodeOp.Lt => then_next (Interp.comparison "Lt" "lt")
  | BytecodeOp.Negate =>
      then_next (VM.pop_one "Negate" ≫= fun a => lift (VMExecution.execute_logical a "not") ≫= VM.push)
  | BytecodeOp.And => then_next (Interp.binary_logical "And" "and")
  | BytecodeOp.Or => then_next (Interp.binary_logical "Or" "or")
  | BytecodeOp.Not => then_next Interp.logical_not
  | BytecodeOp.CreateResource resource =>
      then_next (VM.on_executor (VMExecution.execute_create_resource resource))
  | BytecodeOp.Mint resource account amount reason =>
      then_next (VM.on_executor (VMExecution.execute_mint resource account amount reason))
  | BytecodeOp.Transfer resource from to amount reason =>
      then_next (VM.on_executor (VMExecution.execute_transfer resource from to amount reason))
  | BytecodeOp.Burn resource account amount reason =>
      then_next (VM.on_executor (VMExecution.execute_burn resource account amount reason))
  | BytecodeOp.Balance resource account =>
      then_next (VM.on_executor (VMExecution.execute_balance resource account) ≫= VM.push)
  | BytecodeOp.VerifySignature => not_implemented "VerifySignature not implemented"
  | BytecodeOp.StoreStorage key =>
      then_next (VM.pop_one "StoreStorage" ≫= fun value =>
                 VM.on_executor (VMExecution.execute_store_p key value))
  | BytecodeOp.LoadStorage key =>
      then_next (get_state ≫= fun s =>
                 VM.on_executor (VMExecution.execute_load_p key (VM.missing_key_behavior s)) ≫= VM.push)
  | BytecodeOp.Nop => next
  | BytecodeOp.RequireRole role => then_next (require_role role)
  | BytecodeOp.MinDeliberation duration =>
      then_next (VM.emit_event "governance" ("Minimum deliberation period: " +:+ debug_duration duration))
  | BytecodeOp.ExpiresIn duration =>
      then_next (VM.emit_event "governance" ("Expires in: " +:+ debug_duration duration))
  | BytecodeOp.IncrementReputation identity_id amount reason =>
      modify (fun s => set_program (BytecodeCompiler.push
        (BytecodeOp.IncrementReputation identity_id amount reason) (program s)) s) ≫= fun _ => next
  | _ => not_implemented ("Operation not implemented in bytecode: " +:+ debug_instruction op)
  end.

(** The [while] of [execute]; running out of fuel keeps the state reached. *)
Fixpoint execute_loop (fuel : nat) : M unit := fun s =>
  match BytecodeProgram.instructions (program s) !! pc s with
  | None => (s, Ok tt)
  | Some op =>
      match fuel with
      | O => (s, OutOfFuel)
      | Datatypes.S fuel' => (execute_instruction op ≫= fun _ => execute_loop fuel') s
      end
  end.

Definition execute (fuel : nat) : M unit := set_pc 0 ≫= fun _ => execute_loop fuel.

End Interpreter.

End BytecodeInterpreter.
