(* ===== verification/BytecodeCorrect.v ===== *)
(** * The compiler and the interpreter agree

    On the operations the bytecode implements, with branches, loops and unrolled
    counted loops, running the compiled program does to the machine exactly what
    running the operations does, errors included.  The code the compiler's
    patching produces is first described as a function of its address. *)
From S2P Require Import Prelude Float64 Values Ops Stack Memory Auth Storage InMemory Economic Executor.
From S2P Require Import Ledger Trace Machine Governance VM Preserve Bytecode.

Module Codegen.

Import BytecodeProgram BytecodeCompiler.

(** ** Operations and their blocks *)

Definition op_blocks (op : Op.t) : list (list Op.t) :=
  match op with
  | Op.If condition then_ else_ => condition :: then_ :: match else_ with Some b => [b] | None => [] end
  | Op.Loop _ body => [body]
  | Op.While condition body => [condition; body]
  | _ => []
  end.

Lemma op_blocks_ind (P : Op.t -> Prop) :
  (forall op, (forall b, b ∈ op_blocks op -> Forall P b) -> P op) -> forall op, P op.
Proof.
  intros H. apply Op.blocks_ind. intros op IH. apply H. intros b Hb. apply IH.
  destruct op; try exact Hb; cbn in Hb; by apply not_elem_of_nil in Hb.
Qed.

(** Operations whose one instruction does the same to the machine. *)
Definition direct (op : Op.t) : bool :=
  match op with
  | Op.Push _ | Op.Add | Op.Sub | Op.Mul | Op.Div | Op.Mod | Op.Store _ | Op.Load _ | Op.Emit _
  | Op.EmitEvent _ _ | Op.Pop | Op.Eq | Op.Gt | Op.Lt | Op.Not | Op.And | Op.Or | Op.Dup | Op.Swap
  | Op.Nop | Op.CreateResource _ | Op.Mint _ _ _ _ | Op.Transfer _ _ _ _ _ | Op.Burn _ _ _ _
  | Op.Balance _ _ | Op.StoreP _ | Op.LoadP _ => true
  | _ => false
  end.

(** The fragment: direct operations under [If], [While] and unrolled [Loop]s. *)
Definition in_fragment (op : Op.t) : bool :=
  direct op ||
  match op with
  | Op.If _ _ _ | Op.While _ _ => true
  | Op.Loop count _ => (count <=? 5)%N
  | _ => false
  end.
Abbreviation supported := (Preservation.all_ops in_fragment).
Abbreviation supported_block := (Preservation.all_block in_fragment).

(** ** The code of an operation at an address *)

Fixpoint code_op (pos : nat) (op : Op.t) : list BytecodeOp.t :=
  let code := fix code (pos : nat) (l : list Op.t) : list BytecodeOp.t :=
    match l with
    | [] => []
    | o :: l' => let c := code_op pos o in c ++ code (pos + length c) l'
    end in
  match op with
  | Op.If condition then_ else_ =>
      let cc := code pos condition in
      let ct := code (pos + length cc + 1) then_ in
      let after_then := pos + length cc + 1 + length ct in
      match else_ with
      | Some e =>
          let ce := code (after_then + 1) e in
          cc ++ BytecodeOp.JumpIfZero (after_then + 1) :: ct ++
          BytecodeOp.Jump (after_then + 1 + length ce) :: ce
      | None => cc ++ BytecodeOp.JumpIfZero after_then :: ct
      end
  | Op.While condition body =>
      let cc := code pos condition in
      let cb := code (pos + length cc + 1) body in
      cc ++ BytecodeOp.JumpIfZero (pos + length cc + 1 + length cb + 1) :: cb ++ [BytecodeOp.Jump pos]
  | Op.Loop count body =>
      let copies := fix copies (n : nat) (pos : nat) : list BytecodeOp.t :=
        match n with
        | O => []
        | S n' => let c := code pos body in c ++ copies n' (pos + length c)
        end in
      copies (N.to_nat count) pos
  | _ => match simple op with Some i => [i] | None => [] end
  end.

Fixpoint code_ops (pos : nat) (l : list Op.t) : list BytecodeOp.t :=
  match l with
  | [] => []
  | o :: l' => let c := code_op pos o in c ++ code_ops (pos + length c) l'
  end.
Section Copies.
Context (body : list Op.t).
Fixpoint code_copies (n pos : nat) : list BytecodeOp.t :=
  match n with
  | O => []
  | S n' => let c := code_ops pos body in c ++ code_copies n' (pos + length c)
  end.
End Copies.

Definition emit_code (c : list BytecodeOp.t) (p : state) : state := with_instructions (instructions p ++ c) p.

Lemma emit_emit a b p : emit_code b (emit_code a p) = emit_code (a ++ b) p.
Proof. unfold emit_code. cbn. by rewrite app_assoc. Qed.
Lemma emit_nil p : emit_code [] p = p.
Proof. unfold emit_code. rewrite app_nil_r. by destruct p. Qed.
Lemma push_emit i p : push i p = emit_code [i] p.
Proof. reflexivity. Qed.
Lemma len_emit c p : len (emit_code c p) = len p + length c.
Proof. unfold len, emit_code. cbn. apply length_app. Qed.

Lemma patch_jump_if_zero_emit a x b target p pos : pos = len p + length a ->
  patch_jump_if_zero pos target (emit_code (a ++ BytecodeOp.JumpIfZero x :: b) p) =
  emit_code (a ++ BytecodeOp.JumpIfZero target :: b) p.
Proof.
  intros ->. unfold patch_jump_if_zero, emit_code, len. cbn [instructions with_instructions].
  rewrite app_assoc, <- length_app, list_lookup_middle by done. unfold with_instructions. cbn.
  f_equal. rewrite insert_app_r_alt by done. rewrite Nat.sub_diag. by rewrite app_assoc.
Qed.
Lemma patch_jump_emit a x b target p pos : pos = len p + length a ->
  patch_jump pos target (emit_code (a ++ BytecodeOp.Jump x :: b) p) =
  emit_code (a ++ BytecodeOp.Jump target :: b) p.
Proof.
  intros ->. unfold patch_jump, emit_code, len. cbn [instructions with_instructions].
  rewrite app_assoc, <- length_app, list_lookup_middle by done. unfold with_instructions. cbn.
  f_equal. rewrite insert_app_r_alt by done. rewrite Nat.sub_diag. by rewrite app_assoc.
Qed.

(** A block that appends its code. *)
Definition emits (b : block) (code : nat -> list BytecodeOp.t) : Prop :=
  forall p, b p = emit_code (code (len p)) p.

Lemma compile_if_emits c t e cc ct ce : emits c cc -> emits t ct -> emits e ce ->
  emits (compile_if c t (Some e)) (fun pos =>
    let lc := length (cc pos) in let after := pos + lc + 1 + length (ct (pos + lc + 1)) in
    cc pos ++ BytecodeOp.JumpIfZero (after + 1) :: ct (pos + lc + 1) ++
    BytecodeOp.Jump (after + 1 + length (ce (after + 1))) :: ce (after + 1)).
Proof.
  intros Hc Ht He p. unfold compile_if. rewrite Hc, push_emit, Ht, !push_emit.
  rewrite !emit_emit, !len_emit, !length_app. cbn [length]. rewrite <- ?app_assoc. cbn [app].
  set (a := cc (len p)). replace (len p + (length a + 1)) with (len p + length a + 1) by lia.
  set (b := ct (len p + length a + 1)).
  rewrite patch_jump_if_zero_emit by done. rewrite He, emit_emit, !len_emit, !length_app. cbn [length].
  rewrite length_app. cbn [length]. rewrite <- !app_assoc. cbn [app]. rewrite <- !app_assoc. cbn [app].
  replace (len p + (length a + S (length b + 1))) with (len p + length a + 1 + length b + 1) by lia.
  set (d := ce (len p + length a + 1 + length b + 1)).
  rewrite app_comm_cons, app_assoc, patch_jump_emit by (rewrite length_app; cbn [length]; lia).
  replace (len p + (length a + (1 + length b) + 1)) with (len p + length a + 1 + length b + 1) by lia.
  replace (len p + (length a + S (length b + 1) + length d))
    with (len p + length a + 1 + length b + 1 + length d) by lia.
  by rewrite <- app_assoc.
Qed.

Lemma compile_if_none_emits c t cc ct : emits c cc -> emits t ct ->
  emits (compile_if c t None) (fun pos =>
    let lc := length (cc pos) in
    cc pos ++ BytecodeOp.JumpIfZero (pos + lc + 1 + length (ct (pos + lc + 1))) :: ct (pos + lc + 1)).
Proof.
  intros Hc Ht p. unfold compile_if. rewrite Hc, push_emit, Ht.
  rewrite !emit_emit, !len_emit, !length_app. cbn [length]. rewrite <- ?app_assoc. cbn [app].
  set (a := cc (len p)). replace (len p + (length a + 1)) with (len p + length a + 1) by lia.
  set (b := ct (len p + length a + 1)). rewrite patch_jump_if_zero_emit by done.
  by replace (len p + (length a + (1 + length b))) with (len p + length a + 1 + length b) by lia.
Qed.

Lemma compile_while_emits c b cc cb : emits c cc -> emits b cb ->
  emits (compile_while c b) (fun pos =>
    let lc := length (cc pos) in let body := cb (pos + lc + 1) in
    cc pos ++ BytecodeOp.JumpIfZero (pos + lc + 1 + length body + 1) :: body ++ [BytecodeOp.Jump pos]).
Proof.
  intros Hc Hb p. unfold compile_while. rewrite Hc, push_emit, Hb, !push_emit.
  rewrite !emit_emit, !len_emit, !length_app. cbn [length]. rewrite <- ?app_assoc. cbn [app].
  set (a := cc (len p)). replace (len p + (length a + 1)) with (len p + length a + 1) by lia.
  set (d := cb (len p + length a + 1)). rewrite patch_jump_if_zero_emit by done.
  by replace (len p + (length a + (1 + (length d + 1)))) with (len p + length a + 1 + length d + 1) by lia.
Qed.

Lemma compile_copies_emits n body : emits (compile_ops body) (fun pos => code_ops pos body) ->
  emits (Nat.iter n (compile_ops body)) (fun pos => code_copies body n pos).
Proof.
  intros Hb p. revert p. induction n as [|n IH]; intros p; [by rewrite emit_nil|].
  rewrite Nat.iter_succ_r, Hb, IH, emit_emit, len_emit. done.
Qed.

Lemma compile_block_emits b : Forall (fun o => emits (compile_op o) (fun pos => code_op pos o)) b ->
  emits (compile_ops b) (fun pos => code_ops pos b).
Proof.
  induction 1 as [|o b Ho _ IH]; intros p; [by rewrite emit_nil|].
  cbn [code_ops]. change (compile_ops (o :: b) p) with (compile_ops b (compile_op o p)).
  by rewrite Ho, IH, emit_emit, len_emit.
Qed.

(** On the fragment, patching produces the code described above. *)
Lemma compile_op_emits op : supported op = true -> emits (compile_op op) (fun pos => code_op pos op).
Proof.
  induction op as [op IH] using op_blocks_ind. intros Hs.
  assert (Hblock : forall b, b ∈ op_blocks op -> supported_block b = true ->
            emits (compile_ops b) (fun pos => code_ops pos b)).
  { intros b Hb Hsb. apply compile_block_emits. pose proof (IH b Hb) as Hall.
    apply Forall_forall. intros o Ho. rewrite Forall_forall in Hall. apply Hall; [done|].
    unfold Preservation.all_block in Hsb. rewrite forallb_forall in Hsb. by apply Hsb, list_elem_of_In. }
  pose proof (Preservation.all_ops_here in_fragment op Hs) as Hf.
  destruct op; try discriminate; try (intros p; reflexivity).
  - cbn in Hs. apply andb_prop in Hs as [[Hc Ht]%andb_prop He].
    assert (Ec := Hblock condition ltac:(cbn; set_solver) Hc).
    assert (Et := Hblock then_ ltac:(cbn; set_solver) Ht).
    destruct else_ as [e|]; [|exact (compile_if_none_emits _ _ _ _ Ec Et)].
    assert (Ee := Hblock e ltac:(cbn; set_solver) He).
    exact (compile_if_emits _ _ _ _ _ _ Ec Et Ee).
  - cbn in Hs. apply andb_prop in Hs as [Hn Hb].
    assert (Eb := Hblock body ltac:(cbn; set_solver) Hb). intros p. cbn [compile_op].
    unfold compile_loop. change (in_fragment (Op.Loop count body)) with (count <=? 5)%N in Hf. rewrite Hf.
    exact (compile_copies_emits (N.to_nat count) body Eb p).
  - cbn in Hs. apply andb_prop in Hs as [Hc Hb].
    exact (compile_while_emits _ _ _ _ (Hblock condition ltac:(cbn; set_solver) Hc)
             (Hblock body ltac:(cbn; set_solver) Hb)).
Qed.

Lemma compile_ops_emits ops : supported_block ops = true -> emits (compile_ops ops) (fun pos => code_ops pos ops).
Proof.
  intros Hs. apply compile_block_emits. apply Forall_forall. intros o Ho. apply compile_op_emits.
  unfold Preservation.all_block in Hs. rewrite forallb_forall in Hs. by apply Hs, list_elem_of_In.
Qed.

(** Without function definitions the first pass leaves an empty program. *)
Lemma pre_process_nothing ops p : supported_block ops = true ->
  instructions (pre_process_functions ops p) = instructions p.
Proof.
  intros Hs. unfold pre_process_functions. cbn.
  assert (H : forall q, foldl (fun p op => match op with
             | Op.Def name params body =>
                 let p := with_table (<[name := len p]> (function_table p)) p in
                 push BytecodeOp.Return (compile_ops body (push (BytecodeOp.FunctionEntry name params) p))
             | _ => p
             end) q ops = q).
  { induction ops as [|op ops IH]; intros q; [done|]. cbn in Hs. apply andb_prop in Hs as [Ho Hs].
    cbn [foldl]. destruct op; try (by apply IH). discriminate. }
  rewrite H. cbn. apply take_ge. done.
Qed.

Lemma compile_code ops : supported_block ops = true -> instructions (compile ops) = code_ops 0 ops.
Proof.
  intros Hs. unfold compile. rewrite (compile_ops_emits ops Hs). unfold emit_code, len. cbn [instructions with_instructions].
  by rewrite (pre_process_nothing ops _ Hs).
Qed.

End Codegen.

(** * Running the code *)
Module Refinement.

Import Codegen Preservation.

Section Refinement.

Context {S : Type} `{SB : StorageBackend S} `{PL : Platform} `{RD : Renderings}.
Context (debug_instruction : BytecodeOp.t -> string).

Abbreviation execute_loop := (BytecodeInterpreter.execute_loop debug_instruction).
Abbreviation execute_instruction := (BytecodeInterpreter.execute_instruction debug_instruction).

(** ** The modes the interpreter does not know *)

Definition flags_off (s : VM.t S) : Prop :=
  VM.trace_enabled s = false /\ VM.explain_enabled s = false /\ VM.simulation_mode s = false /\
  VM.verbose_storage_trace s = false.

(** No operation changes the modes. *)
Definition flags_kept (s : VM.t S) (b : bool) (s' : VM.t S) : Prop :=
  VM.trace_enabled s' = VM.trace_enabled s /\ VM.explain_enabled s' = VM.explain_enabled s /\
  VM.simulation_mode s' = VM.simulation_mode s /\ VM.verbose_storage_trace s' = VM.verbose_storage_trace s.

#[local] Instance flags_outcome : Preservation.Outcome flags_kept.
Proof.
  split; [done|done|]. intros s s1 b s2 (A1 & A2 & A3 & A4) (B1 & B2 & B3 & B4).
  unfold flags_kept. by rewrite B1, B2, B3, B4.
Qed.
#[local] Instance flags_indifferent : Preservation.Indifferent flags_kept.
Proof. by split. Qed.

Lemma flags_memory {A} (m : stm VMMemory.t VMError.t A) : Preservation.keeps flags_kept (VM.on_memory m).
Proof.
  apply Preservation.keeps_state; [exact _|]. intros s. unfold VM.on_memory, zoom. by destruct (m (VM.memory s)).
Qed.
Lemma flags_executor {A} (m : stm (VMExecution.t S) VMError.t A) :
  Preservation.keeps flags_kept (VM.on_executor m).
Proof.
  apply Preservation.keeps_state; [exact _|]. intros s. unfold VM.on_executor, zoom. by destruct (m (VM.executor s)).
Qed.
Lemma flags_with_memory (f : VM.t S -> VMMemory.t) :
  Preservation.keeps flags_kept (modify (fun s => VM.with_memory (f s) s)).
Proof. apply Preservation.keeps_state; [exact _|]. done. Qed.
#[local] Hint Resolve flags_memory flags_executor flags_with_memory : keeps.

#[local] Instance flags_variables : Preservation.Variables flags_kept.
Proof.
  split; auto with keeps. intros s. unfold Interp.return_op.
  destruct (VMMemory.in_function_call _); [apply flags_memory|done].
Qed.

Lemma flags_pop_params name params : Preservation.keeps flags_kept (Interp.pop_params name params).
Proof. induction params as [|x params IH]; cbn [Interp.pop_params]; Preservation.keep. Qed.
#[local] Hint Resolve flags_pop_params : keeps.

#[local] Instance flags_controls : Preservation.Controls flags_kept (fun _ => true).
Proof.
  pose proof (Preservation.keeps_log_storage flags_kept) as Hlog. split.
  - intros inner name Hi. unfold Interp.execute_call. Preservation.keep.
    + apply Hi, Preservation.all_block_true.
    + apply Preservation.keeps_state; [exact _|]. done.
  - auto with keeps.
  - intros op s _ Ht _. apply Preservation.keeps_at. destruct op; try discriminate; cbn [Interp.basic];
      unfold Interp.next, Interp.store_p, Interp.load_p, Interp.other, Interp.not_implemented; Preservation.keep.
Qed.

Lemma flags_off_kept s b s' : flags_kept s b s' -> flags_off s -> flags_off s'.
Proof. intros (H1 & H2 & H3 & H4) (F1 & F2 & F3 & F4). unfold flags_off. by rewrite H1, H2, H3, H4. Qed.

Lemma run_flags fuel ops s s' r : flags_off s -> Interp.run fuel ops s = (s', r) -> flags_off s'.
Proof.
  intros Hf Hrun. pose proof (Preservation.keeps_run flags_kept (fun _ => true) fuel ops
    (Preservation.all_block_true ops) s) as H. rewrite Hrun in H. by eapply flags_off_kept.
Qed.

(** With the modes off an operation list is just its operations in order. *)
Lemma exec_list_step inner fuel op ops s : flags_off s ->
  Interp.exec_list inner fuel LoopControl.None (op :: ops) s =
  (Interp.exec_op inner fuel LoopControl.None op ≫= fun p =>
   match p.2 with
   | Interp.Leave => mret tt
   | Interp.Next => VM.record_stack_after ≫= fun _ => Interp.exec_list inner fuel p.1 ops
   end) s.
Proof.
  intros (F1 & F2 & F3 & _). cbn [Interp.exec_list].
  unfold mbind at 1, stm_bind at 1, VM.log_trace, modify. rewrite F1.
  unfold mbind at 1, stm_bind at 1, VM.log_explanation. rewrite F2.
  unfold mbind at 1, stm_bind at 1, get_state. by rewrite F3.
Qed.

Lemma record_off s : flags_off s -> VM.record_stack_after s = (s, Ok tt).
Proof. intros (F1 & _). unfold VM.record_stack_after, modify. by rewrite F1. Qed.

(** ** Single instructions *)

Definition at_pc (prog : BytecodeProgram.t) (pos : nat) (s : VM.t S) : BytecodeInterpreter.t S :=
  {| BytecodeInterpreter.pc := pos; BytecodeInterpreter.program := prog; BytecodeInterpreter.vm := s |}.

(** A direct operation and its instruction run the same computation. *)
Lemma direct_same op : direct op = true -> exists i m, BytecodeCompiler.simple op = Some i /\
  forall prog pos s, flags_off s ->
    Interp.basic op s = Interp.next m s /\
    execute_instruction i (at_pc prog pos s) = BytecodeInterpreter.then_next m (at_pc prog pos s).
Proof.
  intros Hd. destruct op; try discriminate; cbn [BytecodeCompiler.simple];
    try (eexists _, _; split; [reflexivity|]; intros prog pos s _; split; reflexivity).
  - eexists _, (Interp.store_p key). split; [reflexivity|]. intros prog pos s (_ & _ & _ & F4). split; [reflexivity|].
    cbn [execute_instruction]. unfold BytecodeInterpreter.then_next, BytecodeInterpreter.on_vm, zoom.
    unfold mbind, stm_bind. cbn [BytecodeInterpreter.vm at_pc]. unfold Interp.store_p, mbind, stm_bind.
    destruct s; cbn in F4; subst. destruct stack as [|v st]; reflexivity.
  - eexists _, (Interp.load_p key). split; [reflexivity|]. intros prog pos s (_ & _ & _ & F4). split; [reflexivity|].
    cbn [execute_instruction]. unfold BytecodeInterpreter.then_next, BytecodeInterpreter.on_vm, zoom.
    unfold mbind, stm_bind. cbn [BytecodeInterpreter.vm at_pc]. unfold Interp.load_p, mbind, stm_bind, get_state.
    unfold VM.on_executor, zoom. destruct (VMExecution.execute_load_p _ _ _) as [e [v|?|?|]]; try done.
    unfold VM.log_storage_operation. cbn. by rewrite F4.
Qed.

(** ** Reaching a point of the program *)

Section Program.

Context (prog : BytecodeProgram.t).

Abbreviation at_ := (at_pc prog).

(** From [(p, s)] the interpreter gets to [(p', s')], or stops there with an error. *)
Definition outcome (p : nat) (s : VM.t S) (p' : nat) (s' : VM.t S) (r : res VMError.t unit) : Prop :=
  match r with
  | Ok _ => exists k, forall n, execute_loop (k + n) (at_ p s) = execute_loop n (at_ p' s')
  | _ => exists k bi, (forall n, execute_loop (k + n) (at_ p s) = (bi, r)) /\ BytecodeInterpreter.vm bi = s'
  end.

Lemma outcome_refl p s : outcome p s p s (Ok tt).
Proof. by exists 0. Qed.

Lemma outcome_trans p s p1 s1 p2 s2 r :
  outcome p s p1 s1 (Ok tt) -> outcome p1 s1 p2 s2 r -> outcome p s p2 s2 r.
Proof.
  intros [k1 H1]. destruct r as [[]|e|m|]; cbn.
  - intros [k2 H2]. exists (k1 + k2). intros n. by rewrite <- Nat.add_assoc, H1, H2.
  - intros (k2 & bi & H2 & Hv). exists (k1 + k2), bi. split; [|done]. intros n. by rewrite <- Nat.add_assoc, H1, H2.
  - intros (k2 & bi & H2 & Hv). exists (k1 + k2), bi. split; [|done]. intros n. by rewrite <- Nat.add_assoc, H1, H2.
  - intros (k2 & bi & H2 & Hv). exists (k1 + k2), bi. split; [|done]. intros n. by rewrite <- Nat.add_assoc, H1, H2.
Qed.

(** An error does not say where it stops. *)
Lemma outcome_error p s p1 p2 s' r : is_ok r = false -> outcome p s p1 s' r -> outcome p s p2 s' r.
Proof. by destruct r. Qed.

Definition code_at (pos : nat) (c : list BytecodeOp.t) : Prop :=
  forall i x, c !! i = Some x -> BytecodeProgram.instructions prog !! (pos + i) = Some x.

Lemma code_at_app pos a b : code_at pos (a ++ b) -> code_at pos a /\ code_at (pos + length a) b.
Proof.
  intros H. split; intros i x Hi.
  - apply H. by apply lookup_app_l_Some.
  - rewrite <- Nat.add_assoc. apply H. rewrite lookup_app_r by lia. by replace (length a + i - length a) with i by lia.
Qed.
Lemma code_at_cons pos i c : code_at pos (i :: c) ->
  BytecodeProgram.instructions prog !! pos = Some i /\ code_at (pos + 1) c.
Proof.
  intros H. split.
  - rewrite <- (Nat.add_0_r pos). by apply H.
  - intros j x Hj. rewrite <- Nat.add_assoc. by apply H.
Qed.

Lemma loop_step n i pos s : BytecodeProgram.instructions prog !! pos = Some i ->
  execute_loop (1 + n) (at_ pos s) =
  (execute_instruction i ≫= fun _ => execute_loop n) (at_ pos s).
Proof.
  intros Hi. change (1 + n) with (Datatypes.S n).
  cbn [BytecodeInterpreter.execute_loop at_pc BytecodeInterpreter.program BytecodeInterpreter.pc].
  by rewrite Hi.
Qed.

Lemma outcome_then_next i m pos s s' r : BytecodeProgram.instructions prog !! pos = Some i ->
  execute_instruction i (at_ pos s) = BytecodeInterpreter.then_next m (at_ pos s) ->
  m s = (s', r) -> r <> OutOfFuel -> outcome pos s (pos + 1) s' r.
Proof.
  intros Hi He Hm Hr.
  assert (H : forall n, execute_loop (1 + n) (at_ pos s) =
            match r with Ok _ => execute_loop n (at_ (pos + 1) s') | _ => (at_ pos s', r) end).
  { intros n. rewrite (loop_step n i pos s Hi). unfold mbind at 1, stm_bind at 1. rewrite He.
    unfold BytecodeInterpreter.then_next, BytecodeInterpreter.on_vm, zoom, mbind, stm_bind.
    cbn [BytecodeInterpreter.vm at_pc]. rewrite Hm. destruct r as [[]|e|p|]; try done.
    by rewrite Nat.add_1_r. }
  destruct r as [[]|e|p|]; [by exists 1| | |done]; exists 1, (at_ pos s'); done.
Qed.

(** A conditional jump pops like [If] and [While] do. *)
Lemma outcome_jump_if_zero pos addr name s s' r :
  BytecodeProgram.instructions prog !! pos = Some (BytecodeOp.JumpIfZero addr) ->
  VM.pop_one name s = (s', r) ->
  match r with
  | Ok v => outcome pos s (if TypedValue.is_falsey v then addr else pos + 1) s' (Ok tt)
  | Err e => outcome pos s pos s' (Err e)
  | _ => False
  end.
Proof.
  intros Hi Hp. assert (H : forall n, execute_loop (1 + n) (at_ pos s) =
    match r with
    | Ok v => execute_loop n (at_ (if TypedValue.is_falsey v then addr else pos + 1) s')
    | Err e => (at_ pos s', Err e) | Panic m => (at_ pos s', Panic m) | OutOfFuel => (at_ pos s', OutOfFuel)
    end).
  { intros n. rewrite (loop_step n _ pos s Hi). cbn [execute_instruction].
    unfold mbind, stm_bind, BytecodeInterpreter.on_vm, zoom. cbn [BytecodeInterpreter.vm at_pc].
    change (VM.pop_one "JumpIfZero" s) with (VM.pop_one name s). rewrite Hp.
    destruct r as [v|e|p|]; try done. destruct (TypedValue.is_falsey v); [done|]. by rewrite Nat.add_1_r. }
  unfold VM.pop_one, VM.on_stack, zoom in Hp. destruct (VM.stack s) as [|v st]; injection Hp as <- <-.
  - exists 1, (at_ pos (VM.with_stack [] s)). done.
  - by exists 1.
Qed.

Lemma outcome_jump pos addr s : BytecodeProgram.instructions prog !! pos = Some (BytecodeOp.Jump addr) ->
  outcome pos s addr s (Ok tt).
Proof. intros Hi. exists 1. intros n. by rewrite (loop_step n _ pos s Hi). Qed.

(** ** Blocks *)

(** What the induction on the fuel gives for the blocks of an operation. *)
Definition block_simulated (inner : list Op.t -> stm (VM.t S) VMError.t unit) (b : list Op.t) : Prop :=
  forall pos s s' r, flags_off s -> inner b s = (s', r) -> r <> OutOfFuel -> code_at pos (code_ops pos b) ->
    outcome pos s (pos + length (code_ops pos b)) s' r /\ flags_off s'.

Lemma flags_pop name s s' r : flags_off s -> VM.pop_one name s = (s', r) -> flags_off s'.
Proof.
  intros Hf. unfold VM.pop_one, VM.on_stack, zoom. destruct (VMStack.pop _ _) as [st x]. by intros [= <- _].
Qed.

Lemma copies_simulated inner body n pos s s' r : block_simulated inner body ->
  flags_off s -> Interp.repeat_m n (inner body) s = (s', r) -> r <> OutOfFuel ->
  code_at pos (code_copies body n pos) ->
  outcome pos s (pos + length (code_copies body n pos)) s' r /\ flags_off s'.
Proof.
  intros Hb. revert pos s. induction n as [|n IH]; intros pos s Hf Hrun Hr Hc.
  - cbn in Hrun. injection Hrun as <- <-. split; [|done]. cbn. rewrite Nat.add_0_r. apply outcome_refl.
  - cbn [code_copies Interp.repeat_m] in *. apply code_at_app in Hc as [Hc1 Hc2].
    unfold mbind, stm_bind in Hrun. destruct (inner body s) as [s1 r1] eqn:E.
    assert (Hr1 : r1 <> OutOfFuel) by (intros ->; by injection Hrun as _ <-).
    destruct (Hb pos s s1 r1 Hf E Hr1 Hc1) as [Ho Hf1].
    destruct r1 as [[]|e|p|]; [|injection Hrun as <- <-; split; [|done]; by eapply outcome_error..|done].
    rewrite length_app, Nat.add_assoc. destruct (IH _ s1 Hf1 Hrun Hr Hc2) as [Ho2 Hf2].
    split; [|done]. by eapply outcome_trans.
Qed.

Lemma while_simulated inner g condition body pos s s' r :
  block_simulated inner condition -> block_simulated inner body ->
  flags_off s -> Interp.while inner g condition body LoopControl.None s = (s', r) -> r <> OutOfFuel ->
  code_at pos (code_op pos (Op.While condition body)) ->
  outcome pos s (pos + length (code_op pos (Op.While condition body))) s' (const tt <$> r) /\ flags_off s' /\
  (forall lc, r = Ok lc -> lc = LoopControl.None).
Proof.
  intros Hsc Hsb. revert s. induction g as [|g IH]; intros s Hf Hrun Hr Hc; [by injection Hrun as <- <-|].
  cbn [Interp.while] in Hrun. change (code_op pos (Op.While condition body)) with
    (code_ops pos condition ++ BytecodeOp.JumpIfZero (pos + length (code_ops pos condition) + 1 +
       length (code_ops (pos + length (code_ops pos condition) + 1) body) + 1) ::
     code_ops (pos + length (code_ops pos condition) + 1) body ++ [BytecodeOp.Jump pos]) in *.
  set (lc := length (code_ops pos condition)) in *. set (cb := code_ops (pos + lc + 1) body) in *.
  pose proof Hc as Hcode. apply code_at_app in Hc as [Hc1 Hc2]. fold lc in Hc2.
  apply code_at_cons in Hc2 as [Hj Hc3]. apply code_at_app in Hc3 as [Hc3 Hc4]. apply code_at_cons in Hc4 as [Hback _].
  unfold mbind, stm_bind in Hrun. destruct (inner condition s) as [s1 r1] eqn:E1.
  assert (Hr1 : r1 <> OutOfFuel) by (intros ->; by injection Hrun as _ <-).
  destruct (Hsc pos s s1 r1 Hf E1 Hr1 Hc1) as [Ho1 Hf1]. fold lc in Ho1.
  destruct r1 as [[]|e|p|]; [|injection Hrun as <- <-; split; [by eapply outcome_error|done]..|done].
  destruct (VM.pop_one "While" s1) as [s2 r2] eqn:E2. pose proof (flags_pop _ _ _ _ Hf1 E2) as Hf2.
  pose proof (outcome_jump_if_zero _ _ _ _ _ _ Hj E2) as Ho2.
  destruct r2 as [v|e|p|]; try done; [|injection Hrun as <- <-; split;
    [by eapply outcome_error; [|eapply outcome_trans]|done]].
  pose proof (outcome_trans _ _ _ _ _ _ _ Ho1 Ho2) as Ho3.
  destruct (TypedValue.is_falsey v).
  - injection Hrun as <- <-. split; [|split; [done|by intros ? [= <-]]].
    rewrite length_app. cbn [length]. rewrite length_app. cbn [length]. fold lc cb.
    by replace (pos + (lc + Datatypes.S (length cb + 1))) with (pos + lc + 1 + length cb + 1) by lia.
  - destruct (inner body s2) as [s3 r3] eqn:E3.
    assert (Hr3 : r3 <> OutOfFuel) by (intros ->; by injection Hrun as _ <-).
    destruct (Hsb _ s2 s3 r3 Hf2 E3 Hr3 Hc3) as [Ho4 Hf3]. fold cb in Ho4.
    pose proof (outcome_trans _ _ _ _ _ _ _ Ho3 Ho4) as Ho5.
    destruct r3 as [[]|e|p|]; [|injection Hrun as <- <-; split; [by eapply outcome_error|done]..|done].
    pose proof (outcome_trans _ _ _ _ _ _ _ Ho5 (outcome_jump _ _ s3 Hback)) as Ho6.
    destruct (IH s3 Hf3 Hrun Hr Hcode) as (Ho7 & Hf7 & Hlc). split; [|done]. by eapply outcome_trans.
Qed.

Lemma direct_simulated op inner g pos s s' r : direct op = true -> flags_off s ->
  Interp.exec_op inner g LoopControl.None op s = (s', r) -> r <> OutOfFuel -> code_at pos (code_op pos op) ->
  outcome pos s (pos + length (code_op pos op)) s' (const tt <$> r) /\
  (forall p, r = Ok p -> p = (LoopControl.None, Interp.Next)).
Proof.
  intros Hd Hf Hrun Hr Hc. destruct (direct_same op Hd) as (i & m & Hi & Hsame).
  destruct (Hsame prog pos s Hf) as [Hb He].
  assert (Hcode : code_op pos op = [i]).
  { destruct op; try discriminate; cbn [code_op]; by rewrite Hi. }
  rewrite Hcode in *. apply code_at_cons in Hc as [Hat _].
  assert (Hx : (Interp.basic op ≫= fun f => mret (LoopControl.None, f)) s = (s', r)).
  { rewrite <- Hrun. by destruct op. }
  unfold mbind, stm_bind in Hx. rewrite Hb in Hx. unfold Interp.next, mbind, stm_bind in Hx.
  destruct (m s) as [s1 r1] eqn:Em.
  assert (Hr1 : r1 <> OutOfFuel) by (intros ->; by injection Hx as _ <-).
  pose proof (outcome_then_next i m pos s s1 r1 Hat He Em Hr1) as Ho.
  destruct r1 as [[]|e|p|]; injection Hx as <- <-; (split; [exact Ho|]); [by intros p [= <-]|done..].
Qed.

Lemma if_simulated inner c th el pos s s' r :
  block_simulated inner c -> block_simulated inner th -> (forall e, el = Some e -> block_simulated inner e) ->
  flags_off s ->
  (inner c ≫= fun _ => VM.pop_one "If" ≫= fun v =>
   if TypedValue.is_falsey v then Interp.optional inner el else inner th) s = (s', r) -> r <> OutOfFuel ->
  code_at pos (code_op pos (Op.If c th el)) ->
  outcome pos s (pos + length (code_op pos (Op.If c th el))) s' r.
Proof.
  intros Hsc Hst Hse Hf Hrun Hr Hc. unfold mbind, stm_bind in Hrun.
  set (cc := code_ops pos c) in *. set (ct := code_ops (pos + length cc + 1) th) in *.
  set (after := pos + length cc + 1 + length ct) in *.
  assert (Hshape : exists target tail, code_op pos (Op.If c th el) = cc ++ BytecodeOp.JumpIfZero target :: ct ++ tail /\
            match el with
            | Some e => target = after + 1 /\ tail = BytecodeOp.Jump (after + 1 + length (code_ops (after + 1) e)) ::
                                    code_ops (after + 1) e
            | None => target = after /\ tail = []
            end).
  { destruct el as [e|]; eexists _, _; (split; [|split; reflexivity]); [reflexivity|by rewrite app_nil_r]. }
  destruct Hshape as (target & tail & Hcode & Htail). rewrite Hcode in *. clear Hcode.
  rewrite !length_app. cbn [length]. rewrite length_app.
  apply code_at_app in Hc as [Hc1 Hc2]. apply code_at_cons in Hc2 as [Hj Hc2]. apply code_at_app in Hc2 as [Hc2 Hc3].
  destruct (inner c s) as [s1 r1] eqn:E1.
  assert (Hr1 : r1 <> OutOfFuel) by (intros ->; by injection Hrun as _ <-).
  destruct (Hsc pos s s1 r1 Hf E1 Hr1 Hc1) as [Ho1 Hf1]. fold cc in Ho1.
  destruct r1 as [[]|e|p|]; [|injection Hrun as <- <-; by eapply outcome_error..|done].
  destruct (VM.pop_one "If" s1) as [s2 r2] eqn:E2. pose proof (flags_pop _ _ _ _ Hf1 E2) as Hf2.
  pose proof (outcome_jump_if_zero _ _ _ _ _ _ Hj E2) as Ho2.
  destruct r2 as [v|e|p|]; try done; [|injection Hrun as <- <-;
    by eapply outcome_error; [|eapply outcome_trans]].
  pose proof (outcome_trans _ _ _ _ _ _ _ Ho1 Ho2) as Ho3. clear Ho1 Ho2.
  destruct (TypedValue.is_falsey v).
  - destruct el as [e|]; destruct Htail as [-> ->]; cbn [Interp.optional length] in *.
    + apply code_at_cons in Hc3 as [_ Hc3]. fold ct after in Hc3.
      destruct (Hse e eq_refl _ s2 s' r Hf2 Hrun Hr Hc3) as [Ho4 _].
      replace (pos + (length cc + Datatypes.S (length ct + Datatypes.S (length (code_ops (after + 1) e)))))
        with (after + 1 + length (code_ops (after + 1) e)) by lia. by eapply outcome_trans.
    + injection Hrun as <- <-. by replace (pos + (length cc + Datatypes.S (length ct + 0))) with after by lia.
  - destruct (Hst _ s2 s' r Hf2 Hrun Hr Hc2) as [Ho4 _]. fold ct after in Ho4.
    pose proof (outcome_trans _ _ _ _ _ _ _ Ho3 Ho4) as Ho5.
    destruct el as [e|]; destruct Htail as [-> ->]; cbn [length] in *.
    + apply code_at_cons in Hc3 as [Hback _].
      replace (pos + (length cc + Datatypes.S (length ct + Datatypes.S (length (code_ops (after + 1) e)))))
        with (after + 1 + length (code_ops (after + 1) e)) by lia.
      destruct r as [[]|x|x|]; [|by eapply outcome_error..|done].
      eapply outcome_trans; [exact Ho5|]. apply outcome_jump. exact Hback.
    + by replace (pos + (length cc + Datatypes.S (length ct + 0))) with after by lia.
Qed.

Lemma bind_ret_inv {A B} (m : stm (VM.t S) VMError.t A) (x : B) s s' r :
  (m ≫= fun _ => mret x) s = (s', r) -> exists r1, m s = (s', r1) /\ r = const x <$> r1.
Proof.
  unfold mbind, stm_bind. destruct (m s) as [s1 r1]. intros H. exists r1.
  destruct r1; injection H as <- <-; done.
Qed.

(** One operation of the fragment. *)
Lemma op_simulated fuel g op pos s s' r :
  (forall b, b ∈ op_blocks op -> supported_block b = true -> block_simulated (Interp.run fuel) b) ->
  supported op = true -> flags_off s ->
  Interp.exec_op (Interp.run fuel) g LoopControl.None op s = (s', r) -> r <> OutOfFuel ->
  code_at pos (code_op pos op) ->
  outcome pos s (pos + length (code_op pos op)) s' (const tt <$> r) /\
  (forall p, r = Ok p -> p = (LoopControl.None, Interp.Next)).
Proof.
  intros Hblocks Hs Hf Hrun Hr Hc. pose proof (all_ops_here in_fragment op Hs) as Hfr.
  destruct (direct op) eqn:Hd; [by eapply direct_simulated|].
  destruct op; try discriminate; cbn in Hs; cbn [Interp.exec_op] in Hrun.
  - apply andb_prop in Hs as [[H1 H2]%andb_prop H3].
    apply bind_ret_inv in Hrun as (r1 & Hrun & ->). split; [|by destruct r1; intros p [= <-]].
    assert (const tt <$> (const (LoopControl.None, Interp.Next) <$> r1) = r1) as -> by (by destruct r1 as [[]| | |]).
    apply (if_simulated (Interp.run fuel) condition then_ else_); try done.
    + apply Hblocks; [cbn; set_solver|done].
    + apply Hblocks; [cbn; set_solver|done].
    + intros e ->. apply Hblocks; [cbn; set_solver|done].
    + by intros ->.
  - apply andb_prop in Hs as [_ H1]. unfold mbind, stm_bind in Hrun. rewrite Interp.loop_repeat in Hrun.
    destruct ((Interp.repeat_m _ _ ≫= _) s) as [s1 r1] eqn:E. apply bind_ret_inv in E as (r2 & E & ->).
    assert (Hr2 : r2 <> OutOfFuel) by (intros ->; by injection Hrun as _ <-).
    destruct (copies_simulated (Interp.run fuel) body _ pos s s1 r2
      (Hblocks body ltac:(cbn; set_solver) H1) Hf E Hr2 Hc) as [Ho _].
    destruct r2 as [[]|x|x|]; injection Hrun as <- <-; (split; [exact Ho|by intros p [= <-]]).
  - apply andb_prop in Hs as [H1 H2]. unfold mbind, stm_bind in Hrun.
    destruct (Interp.while _ _ _ _ _ s) as [s1 r1] eqn:E.
    assert (Hr1 : r1 <> OutOfFuel) by (intros ->; by injection Hrun as _ <-).
    destruct (while_simulated (Interp.run fuel) g condition body pos s s1 r1
      (Hblocks condition ltac:(cbn; set_solver) H1) (Hblocks body ltac:(cbn; set_solver) H2) Hf E Hr1 Hc)
      as (Ho & _ & Hlc).
    destruct r1 as [lc|x|x|]; injection Hrun as <- <-; (split; [exact Ho|]); [|done..].
    intros p [= <-]. by rewrite (Hlc lc).
Qed.

Lemma exec_op_flags fuel g op s s' r : flags_off s ->
  Interp.exec_op (Interp.run fuel) g LoopControl.None op s = (s', r) -> flags_off s'.
Proof.
  intros Hf Hrun.
  pose proof (keeps_exec_op flags_kept (fun _ => true) (Interp.run fuel)
    (keeps_run flags_kept (fun _ => true) fuel) g LoopControl.None op s (all_ops_true op)) as H.
  rewrite Hrun in H. eapply flags_off_kept; [|done]. apply H. by destruct Hf as (_ & _ & -> & _).
Qed.

(** Every block, by induction on the fuel. *)
Lemma run_simulated fuel ops : supported_block ops = true -> block_simulated (Interp.run fuel) ops.
Proof.
  revert ops. induction fuel as [|fuel IHf]; intros ops; [by intros _ pos s s' r _ [= _ <-]|].
  induction ops as [|op ops IH]; intros Hs pos s s' r Hf Hrun Hr Hc; cbn [Interp.run] in Hrun.
  - injection Hrun as <- <-. split; [|done]. cbn. rewrite Nat.add_0_r. apply outcome_refl.
  - cbn in Hs. apply andb_prop in Hs as [Ho Hs]. cbn [code_ops] in *. apply code_at_app in Hc as [Hc1 Hc2].
    rewrite exec_list_step in Hrun by done. unfold mbind, stm_bind in Hrun.
    destruct (Interp.exec_op _ _ _ op s) as [s1 r1] eqn:E.
    assert (Hr1 : r1 <> OutOfFuel) by (intros ->; by injection Hrun as _ <-).
    pose proof (exec_op_flags _ _ _ _ _ _ Hf E) as Hf1.
    destruct (op_simulated fuel fuel op pos s s1 r1 (fun b _ Hb => IHf b Hb) Ho Hf E Hr1 Hc1) as [Hout Hp].
    destruct r1 as [p|e|m|]; [|injection Hrun as <- <-; split; [by eapply outcome_error|done]..|done].
    rewrite (Hp p eq_refl) in Hrun. cbn [fst snd] in Hrun. rewrite record_off in Hrun by done.
    rewrite length_app, Nat.add_assoc. destruct (IH Hs _ s1 s' r Hf1 Hrun Hr Hc2) as [Hout2 Hf2].
    split; [|done]. by eapply outcome_trans.
Qed.

End Program.

Lemma compile_outcome fuel ops s s' r :
  supported_block ops = true -> flags_off s -> Interp.run fuel ops s = (s', r) -> r <> OutOfFuel ->
  exists k bi, (forall n, BytecodeInterpreter.execute debug_instruction (k + n)
                 (BytecodeInterpreter.new s (BytecodeCompiler.compile ops)) = (bi, r)) /\
          BytecodeInterpreter.get_vm bi = s'.
Proof.
  intros Hs Hf Hrun Hr. set (prog := BytecodeCompiler.compile ops).
  assert (Hinstr : BytecodeProgram.instructions prog = code_ops 0 ops) by (by apply compile_code).
  destruct (run_simulated prog fuel ops Hs 0 s s' r Hf Hrun Hr) as [Ho _].
  { intros i x Hi. by rewrite Hinstr. }
  assert (Hend : forall n, execute_loop n (at_pc prog (length (code_ops 0 ops)) s') =
            (at_pc prog (length (code_ops 0 ops)) s', Ok tt)).
  { intros n. assert (BytecodeProgram.instructions prog !! length (code_ops 0 ops) = None) as Hn
      by (rewrite Hinstr; apply lookup_ge_None_2; lia).
    destruct n; cbn [BytecodeInterpreter.execute_loop at_pc BytecodeInterpreter.program BytecodeInterpreter.pc];
      by rewrite Hn. }
  cbn [outcome] in Ho. destruct r as [[]|e|p|]; [| | |done].
  - destruct Ho as [k Hk]. exists k, (at_pc prog (length (code_ops 0 ops)) s'). split; [|done].
    intros n. rewrite <- (Hend n). apply Hk.
  - exact Ho.
  - exact Ho.
Qed.

(** C4. Compiling preserves meaning on the fragment, with simulation, tracing,
    explanation and verbose storage traces off, which the bytecode interpreter
    does not know: whatever a program does to the machine when interpreted
    directly within some fuel, its bytecode does, with the same result or the
    same error, as soon as it has enough fuel of its own. *)
Theorem compile_correct fuel ops s s' r :
  supported_block ops = true -> flags_off s -> Interp.run fuel ops s = (s', r) -> r <> OutOfFuel ->
  exists k bi, (forall n, BytecodeInterpreter.execute debug_instruction (k + n)
                 (BytecodeInterpreter.new s (BytecodeCompiler.compile ops)) = (bi, r)) /\
          BytecodeInterpreter.get_vm bi = s'.
Proof. apply compile_outcome. Qed.

(** ** Programs that never end *)

Fixpoint steps (k : nat) (s : BytecodeInterpreter.t S) : option (BytecodeInterpreter.t S) :=
  match k with
  | O => Some s
  | Datatypes.S k' =>
      match BytecodeProgram.instructions (BytecodeInterpreter.program s) !! BytecodeInterpreter.pc s with
      | Some op => match execute_instruction op s with (s', Ok _) => steps k' s' | _ => None end
      | None => None
      end
  end.

Lemma steps_loop k n s s' : steps k s = Some s' -> execute_loop (k + n) s = execute_loop n s'.
Proof.
  revert s. induction k as [|k IH]; intros s; cbn [steps Nat.add BytecodeInterpreter.execute_loop]; [by intros [= ->]|].
  destruct (_ !! _); [|done]. unfold mbind, stm_bind.
  destruct (execute_instruction _ s) as [s1 [[]|?|?|]]; try done. apply IH.
Qed.

Lemma steps_short k n s s' : steps k s = Some s' -> n < k -> (execute_loop n s).2 = OutOfFuel.
Proof.
  revert n s. induction k as [|k IH]; intros n s Hk Hn; [lia|]. cbn [steps] in Hk.
  destruct n as [|n]; cbn [BytecodeInterpreter.execute_loop]; destruct (_ !! _); try done.
  unfold mbind, stm_bind. destruct (execute_instruction _ s) as [s1 [[]|?|?|]]; try done. apply IH; [done|lia].
Qed.

(** A state that comes back to itself is never left. *)
Lemma cycle_diverges k s n : 0 < k -> steps k s = Some s -> (execute_loop n s).2 = OutOfFuel.
Proof.
  intros Hk Hs. induction n as [n IH] using lt_wf_ind. destruct (decide (n < k)) as [Hn|Hn]; [by eapply steps_short|].
  replace n with (k + (n - k)) by lia. rewrite (steps_loop k _ s s Hs). apply IH. lia.
Qed.

Lemma reach_cycle_diverges k j s s' n : 0 < k -> steps j s = Some s' -> steps k s' = Some s' ->
  (execute_loop n s).2 = OutOfFuel.
Proof.
  intros Hk Hj Hs. destruct (decide (n < j)) as [Hn|Hn]; [by eapply steps_short|].
  replace n with (j + (n - j)) by lia. rewrite (steps_loop j _ s s' Hj). by eapply cycle_diverges.
Qed.

Lemma increment_loop identity_id amount reason n (s : BytecodeInterpreter.t S) :
  let i := BytecodeOp.IncrementReputation identity_id amount reason in
  Forall (fun x => x = i) (BytecodeProgram.instructions (BytecodeInterpreter.program s)) ->
  BytecodeInterpreter.pc s < length (BytecodeProgram.instructions (BytecodeInterpreter.program s)) ->
  (execute_loop n s).2 = OutOfFuel.
Proof.
  intros i. revert s. induction n as [|n IH]; intros s Hall Hpc; cbn [BytecodeInterpreter.execute_loop];
    destruct (lookup_lt_is_Some_2 _ _ Hpc) as [x Hx]; rewrite Hx; [done|].
  rewrite (Forall_lookup_1 _ _ _ _ Hall Hx). unfold mbind, stm_bind. cbn.
  apply IH; cbn; [|rewrite length_app; cbn; lia]. apply Forall_app. by split; [|constructor].
Qed.

(** The compiled program runs out of any number of steps. *)
Definition never_ends (ops : list Op.t) (s : VM.t S) : Prop := forall n,
  (BytecodeInterpreter.execute debug_instruction n
     (BytecodeInterpreter.new s (BytecodeCompiler.compile ops))).2 = OutOfFuel.

(** The compiled [IncrementReputation] never ends: executing the instruction
    appends another copy of it to the program. *)
Theorem increment_reputation_never_ends identity_id amount reason (s : VM.t S) :
  never_ends [Op.IncrementReputation identity_id amount reason] s.
Proof.
  intros n.
  unfold BytecodeInterpreter.execute, mbind, stm_bind. cbn [BytecodeInterpreter.set_pc modify].
  apply (increment_loop identity_id (TypedValue.Number <$> amount) reason); cbn; [|lia]. by constructor.
Qed.

End Refinement.

(** ** Concrete runs *)
Section Examples.

#[local] Existing Instance Samples.platform.
#[local] Existing Instance Samples.renderings.

Definition compiled (ops : list Op.t) : BytecodeInterpreter.t InMemoryStorage.t :=
  BytecodeInterpreter.new Interp.blank (BytecodeCompiler.compile ops).
Definition bytecode_run (n : nat) (ops : list Op.t) :
    BytecodeInterpreter.t InMemoryStorage.t * res VMError.t unit :=
  BytecodeInterpreter.execute (fun _ => "instruction") n (compiled ops).

(** Countdown from 3, doubling an accumulator each time. *)
Definition countdown : list Op.t :=
  [Op.Push (Interp.num 3); Op.Store "n"; Op.Push (Interp.num 1);
   Op.While [Op.Load "n"]
     [Op.Push (Interp.num 2); Op.Mul; Op.Loop 2 [Op.Nop];
      Op.Load "n"; Op.Push (Interp.num 1); Op.Sub; Op.Store "n"];
   Op.If [Op.Push (Interp.num 0)] [Op.Pop] (Some [Op.Dup])].

Lemma compile_correct_witness :
  VM.stack (Interp.run 9 countdown Interp.blank).1 = [Interp.num 8; Interp.num 8] /\
  exists k bi, (forall n, BytecodeInterpreter.execute (fun _ => "instruction") (k + n) (compiled countdown) = (bi, Ok tt)) /\
    BytecodeInterpreter.get_vm bi = (Interp.run 9 countdown Interp.blank).1.
Proof.
  split; [vm_compute; reflexivity|].
  apply (compile_correct (fun _ => "instruction") 9 countdown Interp.blank);
    [reflexivity|done|vm_compute; reflexivity|done].
Defined.

(** Count to a thousand. *)
Definition summing : list Op.t :=
  [Op.Push (Interp.num 0); Op.Loop 1000 [Op.Push (Interp.num 1); Op.Add]].

(** A body that uses the stack breaks the 1000-round loop, whose counter is on
    the stack: the body adds to the counter what the loop takes off. *)
Theorem loop_1000_diverges n :
  VM.stack (Interp.run 3 summing Interp.blank).1 = [Interp.num 1000] /\
  (bytecode_run n summing).2 = OutOfFuel.
Proof.
  split; [vm_compute; reflexivity|].
  unfold bytecode_run, BytecodeInterpreter.execute, mbind, stm_bind. cbn [BytecodeInterpreter.set_pc modify].
  destruct (steps (fun _ => "instruction") 2 (compiled summing)) as [s'|] eqn:E; [|by vm_compute in E].
  apply (reach_cycle_diverges _ 9 2 _ s' n); [lia|exact E|].
  vm_compute in E. injection E as <-. vm_compute. reflexivity.
Qed.

(** [Negate] is arithmetic for the machine and logical in bytecode. *)
Theorem negate_differs :
  VM.stack (Interp.run 3 [Op.Push (Interp.num 5); Op.Negate] Interp.blank).1 = [Interp.num (-5)] /\
  VM.stack (BytecodeInterpreter.get_vm (bytecode_run 9 [Op.Push (Interp.num 5); Op.Negate]).1) =
    [TypedValue.Boolean false].
Proof. vm_compute. done. Qed.

End Examples.

End Refinement.
