(* ===== verification/Parser.v ===== *)
(** * The line parser: compiler/mod.rs, common.rs and line_parser.rs

    Errors with their positions and texts, indentation, and [parse_line], which
    reads one operation from one line.  Positions are natural numbers; a column
    is a number of characters. *)
From S2P Require Import Prelude Float64 Text Values Ops.

Module CompilerError.

Inductive t : Type :=
  | UnknownCommand (command : string) (line column : nat)
  | UnknownBlockType (block : string) (line column : nat)
  | InvalidFunctionDefinition (text : string) (line column : nat)
  | InvalidFunctionFormat (text : string) (line column : nat)
  | InvalidFunctionStart (text : string) (line column : nat)
  | MissingPushValue (line column : nat)
  | InvalidPushValue (text : string) (line column : nat)
  | MissingEmitQuotes (line column : nat)
  | InvalidEmitEventFormat (line column : nat)
  | MissingVariable (command : string) (line column : nat)
  | MissingFunctionName (line column : nat)
  | MissingAssertDepth (line column : nat)
  | InvalidAssertDepth (text : string) (line column : nat)
  | InsufficientAssertDepth (line column : nat)
  | InvalidCaseValue (text : string) (line column : nat)
  | MissingMatchValue (line column : nat)
  | InvalidLoopFormat (text : string) (line column : nat)
  | InvalidLoopCount (text : string) (line column : nat)
  | UnexpectedEOF (line : nat)
  | InvalidIndentation (line : nat)
  | SyntaxError (details : string)
  | MissingProposalId (line column : nat)
  | InvalidQuorumValue (line column : nat)
  | InvalidThresholdValue (line column : nat)
  | DuplicateIfPassedBlock (line column : nat)
  | DuplicateElseBlock (line column : nat)
  | ElseWithoutIfPassed (line column : nat)
  | MissingParameter (command : string) (line column : nat)
  | InvalidParameterValue (name : string) (line column : nat).

Definition at_ (line column : nat) : string :=
  " at line " +:+ u64_to_string (N.of_nat line) +:+ ", column " +:+ u64_to_string (N.of_nat column).

(** [Display], from the [#[error]] attributes of thiserror. *)
Definition to_string (e : t) : string :=
  match e with
  | UnknownCommand s l c => "Unknown command: " +:+ s +:+ at_ l c
  | UnknownBlockType s l c => "Unknown block type: " +:+ s +:+ at_ l c
  | InvalidFunctionDefinition s l c => "Invalid function definition: " +:+ s +:+ at_ l c
  | InvalidFunctionFormat s l c => "Invalid function definition format: " +:+ s +:+ at_ l c
  | InvalidFunctionStart s l c => "Function definition must start with 'def': " +:+ s +:+ at_ l c
  | MissingPushValue l c => "Missing number for push" +:+ at_ l c
  | InvalidPushValue s l c => "Invalid number for push: " +:+ s +:+ at_ l c
  | MissingEmitQuotes l c => "Missing quotes for emit command" +:+ at_ l c
  | InvalidEmitEventFormat l c =>
      let q := String quote EmptyString in
      "Invalid format for emitevent" +:+ at_ l c +:+ ", expected: emitevent " +:+ q +:+ "category" +:+ q +:+
      " " +:+ q +:+ "message" +:+ q
  | MissingVariable s l c => "Missing variable for " +:+ s +:+ at_ l c
  | MissingFunctionName l c => "Missing function name for call" +:+ at_ l c
  | MissingAssertDepth l c => "Missing depth for assertequalstack" +:+ at_ l c
  | InvalidAssertDepth s l c => "Invalid depth for assertequalstack: " +:+ s +:+ at_ l c
  | InsufficientAssertDepth l c => "Depth for assertequalstack must be at least 2" +:+ at_ l c
  | InvalidCaseValue s l c => "Invalid case value: " +:+ s +:+ at_ l c
  | MissingMatchValue l c => "Match statement must have a value block" +:+ at_ l c
  | InvalidLoopFormat s l c => "Invalid loop format: " +:+ s +:+ at_ l c
  | InvalidLoopCount s l c => "Invalid loop count: " +:+ s +:+ at_ l c
  | UnexpectedEOF l => "Unexpected end of file while parsing block at line " +:+ u64_to_string (N.of_nat l)
  | InvalidIndentation l => "Invalid indentation level at line " +:+ u64_to_string (N.of_nat l)
  | SyntaxError details => "Syntax error: " +:+ details
  | MissingProposalId l c => "Missing proposal ID for proposal_lifecycle" +:+ at_ l c
  | InvalidQuorumValue l c => "Invalid quorum value for proposal_lifecycle" +:+ at_ l c
  | InvalidThresholdValue l c => "Invalid threshold value for proposal_lifecycle" +:+ at_ l c
  | DuplicateIfPassedBlock l c => "Duplicate if passed block in proposal_lifecycle" +:+ at_ l c
  | DuplicateElseBlock l c => "Duplicate else block in proposal_lifecycle" +:+ at_ l c
  | ElseWithoutIfPassed l c => "Else block without if passed block in proposal_lifecycle" +:+ at_ l c
  | MissingParameter s l c => "Missing parameter for " +:+ s +:+ at_ l c
  | InvalidParameterValue s l c => "Invalid parameter value for " +:+ s +:+ at_ l c
  end.

End CompilerError.

Record SourcePosition : Type := { pos_line : nat; pos_column : nat }.
Definition at_pos {A} (e : nat -> nat -> A) (pos : SourcePosition) : A := e (pos_line pos) (pos_column pos).

(** ** compiler/common.rs *)
Module Common.

Definition get_indent (line : string) : nat := count_white 0 line.

Definition is_indented_block (line : string) (base_indent : nat) : bool := base_indent <? get_indent line.

Definition extract_quoted_text (line : string) : option (string * string) :=
  let parts := split_char quote line in
  let n := length parts in
  if 3 <=? n then Some (parts !!! 1, parts !!! (n - 2))
  else if 2 <=? n then Some (parts !!! 1, EmptyString)
  else None.

Definition adjusted_position (pos : SourcePosition) (line part : string) : SourcePosition :=
  match find_str part line with
  | Some idx => {| pos_line := pos_line pos; pos_column := pos_column pos + idx |}
  | None => pos
  end.

(** The lines from [start_line] on; the index of the first one that is not
    indented more than the base. *)
Fixpoint block_length (base_indent : nat) (rest : list string) : nat :=
  match rest with
  | [] => 0
  | line :: rest => if is_indented_block line base_indent then S (block_length base_indent rest) else 0
  end.
Definition find_block_end (lines : list string) (start_line base_indent : nat) : nat :=
  start_line + block_length base_indent (drop start_line lines).
Definition collect_block_lines (lines : list string) (start_line base_indent : nat) : list string :=
  take (find_block_end lines start_line base_indent - start_line) (drop start_line lines).

End Common.

(** ** compiler/line_parser.rs *)
Module LineParser.

Import CompilerError.

Abbreviation R := (res CompilerError.t).

(** [parts.next().ok_or(e)?]. *)
Definition next (e : CompilerError.t) (parts : list string) : R (string * list string) :=
  match parts with
  | part :: parts => Ok (part, parts)
  | [] => Err e
  end.

(** [s.parse().map_err(|_| e)?]. *)
Definition parsed {A} (e : CompilerError.t) (v : option A) : R A :=
  match v with Some a => Ok a | None => Err e end.

Section Line.

Context (line : string) (pos : SourcePosition).

Definition missing (command : string) : CompilerError.t := at_pos (MissingVariable command) pos.
Definition bad_format (text : string) : CompilerError.t := at_pos (InvalidFunctionFormat text) pos.

(** The text between the first and the last quote of the line. *)
Definition quoted_text (inner : nat) : R string :=
  slice (inner + 1) (default (String.length line) (rfind_char quote line)) line.
Definition quoted_reason : R (option string) :=
  match find_char quote line with
  | Some inner => Some <$> quoted_text inner
  | None => Ok None
  end.

Definition parse_push (parts : list string) : R Op.t :=
  '(val_str, _) ← next (at_pos MissingPushValue pos) parts;
  if String.eqb val_str "true" then Ok (Op.Push (TypedValue.Boolean true))
  else if String.eqb val_str "false" then Ok (Op.Push (TypedValue.Boolean false))
  else if String.eqb val_str "null" then Ok (Op.Push TypedValue.Null)
  else if quoted val_str then
    str_content ← unquote val_str; Ok (Op.Push (TypedValue.String str_content))
  else
    match parse_f64 val_str with
    | Some num => Ok (Op.Push (TypedValue.Number num))
    | None => Ok (Op.Push (TypedValue.String val_str))
    end.

Definition parse_emit : R Op.t :=
  match find_char quote line with
  | Some inner => text ← quoted_text inner; Ok (Op.Emit text)
  | None => Err (at_pos MissingEmitQuotes pos)
  end.

Definition parse_emitevent : R Op.t :=
  let parts := split_char quote line in
  if length parts <? 5 then Err (at_pos InvalidEmitEventFormat pos)
  else Ok (Op.EmitEvent (trim (parts !!! 1)) (trim (parts !!! 3))).

Definition parse_assertequalstack (parts : list string) : R Op.t :=
  '(depth_str, _) ← next (at_pos MissingAssertDepth pos) parts;
  depth ← parsed (InvalidAssertDepth depth_str (pos_line pos)
                    (pos_column (Common.adjusted_position pos line depth_str)))
            (parse_u64 depth_str);
  if (depth <? 2)%N then Err (at_pos InsufficientAssertDepth pos) else Ok (Op.AssertEqualStack depth).

(** A command with one word, and one with two. *)
Definition one (e : CompilerError.t) (op : string -> Op.t) (parts : list string) : R Op.t :=
  '(a, _) ← next e parts; Ok (op a).
Definition two (e1 e2 : CompilerError.t) (op : string -> string -> Op.t) (parts : list string) : R Op.t :=
  '(a, parts) ← next e1 parts; '(b, _) ← next e2 parts; Ok (op a b).

(** The optional parameters after the identity. *)
Fixpoint reputation_params (parts : list string) (amount : option f64) (reason : option string) :
    R (option f64 * option string) :=
  match parts with
  | [] => Ok (amount, reason)
  | param :: parts =>
      if str_starts_with "amount=" param then
        let value_str := trim_start_matches "amount=" param in
        amount ← parsed (InvalidParameterValue "amount" (pos_line pos)
                           (pos_column (Common.adjusted_position pos line value_str)))
                   (parse_f64 value_str);
        reputation_params parts (Some amount) reason
      else if str_starts_with "reason=" param then
        reputation_params parts amount (Some (trim_start_matches "reason=" param))
      else reputation_params parts amount reason
  end.
Definition parse_increment_reputation (parts : list string) : R Op.t :=
  '(identity_id, parts) ← next (at_pos (MissingParameter "increment_reputation") pos) parts;
  '(amount, reason) ← reputation_params parts None None;
  Ok (Op.IncrementReputation identity_id amount reason).

Definition parse_rankedvote (parts : list string) : R Op.t :=
  '(candidates_str, parts) ← next (bad_format "rankedvote requires 'candidates' parameter") parts;
  '(ballots_str, _) ← next (bad_format "rankedvote requires 'ballots' parameter") parts;
  candidates ← parsed (bad_format ("Invalid candidates count: " +:+ candidates_str)) (parse_u64 candidates_str);
  ballots ← parsed (bad_format ("Invalid ballots count: " +:+ ballots_str)) (parse_u64 ballots_str);
  Ok (Op.RankedVote candidates ballots).

Definition parse_threshold (command : string) (op : f64 -> Op.t) (parts : list string) : R Op.t :=
  '(threshold_str, _) ← next (bad_format (command +:+ " requires threshold parameter")) parts;
  threshold ← parsed (bad_format ("Invalid threshold value: " +:+ threshold_str)) (parse_f64 threshold_str);
  Ok (op threshold).

Definition parse_loadversionp (parts : list string) : R Op.t :=
  '(key, parts) ← next (bad_format "loadversionp requires key parameter") parts;
  '(version_str, _) ← next (bad_format "loadversionp requires version parameter") parts;
  version ← parsed (bad_format ("Version must be a positive integer, got: " +:+ version_str))
              (parse_u64 version_str);
  Ok (Op.LoadVersionP key version).

Definition parse_diffversionsp (parts : list string) : R Op.t :=
  '(key, parts) ← next (bad_format "diffversionsp requires key parameter") parts;
  '(v1_str, parts) ← next (bad_format "diffversionsp requires first version parameter") parts;
  '(v2_str, _) ← next (bad_format "diffversionsp requires second version parameter") parts;
  v1 ← parsed (bad_format ("First version must be a positive integer, got: " +:+ v1_str)) (parse_u64 v1_str);
  v2 ← parsed (bad_format ("Second version must be a positive integer, got: " +:+ v2_str)) (parse_u64 v2_str);
  Ok (Op.DiffVersionsP key v1 v2).

(** The first quoted text of [s], and what follows it. *)
Definition take_quoted (s : string) : option (string * string) :=
  '(_, s) ← split_once quote s; split_once quote s.

(** The rest of the line starts after the first place the identity occurs. *)
Definition parse_verifyidentity (parts : list string) : R Op.t :=
  '(identity_id, _) ← next (bad_format "verifyidentity requires identity_id parameter") parts;
  start ← parsed (bad_format ("Cannot find identity_id '" +:+ identity_id +:+ "' in line"))
            (find_str identity_id line);
  let rest_of_line := trim (drop_str (start + String.length identity_id) line) in
  match '(message, rest) ← take_quoted rest_of_line;
        '(signature, _) ← take_quoted rest; Some (message, signature) with
  | Some (message, signature) => Ok (Op.VerifyIdentity identity_id message signature)
  | None => Err (bad_format "verifyidentity requires quoted message and signature parameters")
  end.

Definition parse_amount (command amount_str : string) : R f64 :=
  parsed (bad_format ("Invalid " +:+ command +:+ " amount: " +:+ amount_str)) (parse_f64 amount_str).

(** [mint] and [burn]. *)
Definition parse_supply (command : string) (op : string -> string -> f64 -> option string -> Op.t)
    (parts : list string) : R Op.t :=
  '(resource, parts) ← next (missing (command +:+ " (resource)")) parts;
  '(account, parts) ← next (missing (command +:+ " (account)")) parts;
  '(amount_str, _) ← next (missing (command +:+ " (amount)")) parts;
  amount ← parse_amount command amount_str;
  reason ← quoted_reason;
  Ok (op resource account amount reason).

Definition parse_transfer (parts : list string) : R Op.t :=
  '(resource, parts) ← next (missing "transfer (resource)") parts;
  '(from, parts) ← next (missing "transfer (from)") parts;
  '(to, parts) ← next (missing "transfer (to)") parts;
  '(amount_str, _) ← next (missing "transfer (amount)") parts;
  amount ← parse_amount "transfer" amount_str;
  reason ← quoted_reason;
  Ok (Op.Transfer resource from to amount reason).

(** The parameters are checked and dropped with the macro they would build. *)
Fixpoint lifecycle_params (parts : list string) : R unit :=
  match parts with
  | [] => Ok tt
  | param :: parts =>
      _ ← (if str_starts_with "quorum=" param then
             _ ← parsed (at_pos InvalidQuorumValue pos) (parse_f64 (trim_start_matches "quorum=" param)); Ok tt
           else if str_starts_with "threshold=" param then
             _ ← parsed (at_pos InvalidThresholdValue pos) (parse_f64 (trim_start_matches "threshold=" param));
             Ok tt
           else Ok tt);
      lifecycle_params parts
  end.
Definition parse_proposal_lifecycle (parts : list string) : R Op.t :=
  '(_, parts) ← next (at_pos MissingProposalId pos) parts;
  _ ← lifecycle_params parts;
  Ok (Op.Macro "proposal_lifecycle").

(** The commands without parameters. *)
Definition simple_commands : list (string * Op.t) :=
  [("break", Op.Break); ("continue", Op.Continue); ("add", Op.Add); ("sub", Op.Sub); ("mul", Op.Mul);
   ("div", Op.Div); ("mod", Op.Mod); ("eq", Op.Eq); ("gt", Op.Gt); ("lt", Op.Lt); ("not", Op.Not);
   ("and", Op.And); ("or", Op.Or); ("negate", Op.Negate); ("dup", Op.Dup); ("swap", Op.Swap);
   ("over", Op.Over); ("pop", Op.Pop); ("return", Op.Return); ("dumpstack", Op.DumpStack);
   ("dumpmemory", Op.DumpMemory); ("dumpstate", Op.DumpState)].

(** The commands with parameters. *)
Definition commands : list (string * (list string -> R Op.t)) :=
  [("push", parse_push);
   ("emit", fun _ => parse_emit);
   ("emitevent", fun _ => parse_emitevent);
   ("assertequalstack", parse_assertequalstack);
   ("load", one (missing "load") Op.Load);
   ("store", one (missing "store") Op.Store);
   ("increment_reputation", parse_increment_reputation);
   ("call", one (at_pos MissingFunctionName pos) Op.Call);
   ("rankedvote", parse_rankedvote);
   ("liquiddelegate", two (bad_format "liquiddelegate requires 'from' parameter")
                          (bad_format "liquiddelegate requires 'to' parameter") Op.LiquidDelegate);
   ("votethreshold", parse_threshold "votethreshold" Op.VoteThreshold);
   ("quorumthreshold", parse_threshold "quorumthreshold" Op.QuorumThreshold);
   ("storep", one (missing "storep") Op.StoreP);
   ("loadp", one (missing "loadp") Op.LoadP);
   ("loadversionp", parse_loadversionp);
   ("listversionsP", one (bad_format "listversionsP requires key parameter") Op.ListVersionsP);
   ("diffversionsp", parse_diffversionsp);
   ("verifyidentity", parse_verifyidentity);
   ("checkmembership", two (bad_format "checkmembership requires identity_id parameter")
                           (bad_format "checkmembership requires namespace parameter") Op.CheckMembership);
   ("checkdelegation", two (bad_format "checkdelegation requires delegator_id parameter")
                           (bad_format "checkdelegation requires delegate_id parameter") Op.CheckDelegation);
   ("createresource", one (missing "createresource") Op.CreateResource);
   ("mint", parse_supply "mint" Op.Mint);
   ("transfer", parse_transfer);
   ("burn", parse_supply "burn" Op.Burn);
   ("balance", two (missing "balance (resource)") (missing "balance (account)") Op.Balance);
   ("proposal_lifecycle", parse_proposal_lifecycle)].

Fixpoint lookup {A} (name : string) (table : list (string * A)) : option A :=
  match table with
  | [] => None
  | (n, a) :: table => if String.eqb name n then Some a else lookup name table
  end.

Definition parse_command (command : string) (parts : list string) : R Op.t :=
  match lookup command simple_commands with
  | Some op => Ok op
  | None =>
      match lookup command commands with
      | Some parse => parse parts
      | None => Err (at_pos (UnknownCommand command) pos)
      end
  end.

Definition parse_line : R Op.t :=
  if starts_with_char "#" (trim line) then Ok Op.Nop
  else
    match split_whitespace line with
    | command :: parts => parse_command command parts
    | [] => Ok Op.Nop
    end.

End Line.

Definition parse_quoted_string (input : string) : R string :=
  let trimmed := trim input in
  if quoted trimmed || (starts_with_char "'" trimmed && ends_with_char "'" trimmed) then unquote trimmed
  else Err (SyntaxError ("Expected a quoted string, got: '" +:+ input +:+ "'")).

End LineParser.
