(* ===== verification/Blocks.v ===== *)
(** * Blocks and programs: the block parsers of compiler/ and parse_dsl.rs

    Blocks are found by indentation over the lines of the source; the parsers
    share the index of the current line, which is their state.  Line and column
    numbers are natural numbers.  Fuel bounds the recursion; twice the number of
    lines is enough ([Dsl.parse_dsl_terminates]). *)
From S2P Require Import Prelude Float64 Text Values Ops Parser.

Module Blocks.

Import CompilerError LineParser.

Abbreviation M := (stm nat CompilerError.t).
Abbreviation block_parser := (list string -> nat -> SourcePosition -> M (list Op.t)).

(** [&lines[*current_line]]. *)
Definition current (lines : list string) : M string := fun i =>
  (i, match lines !! i with Some line => Ok line | None => Panic "index out of bounds" end).
Definition advance : M unit := modify Datatypes.S.

(** [SourcePosition::new(pos.line + *current_line, indent + 1)]. *)
Definition here (pos : SourcePosition) (indent : nat) : M SourcePosition := fun i =>
  (i, Ok {| pos_line := pos_line pos + i; pos_column := indent + 1 |}).

Definition is_nop (op : Op.t) : bool := match op with Op.Nop => true | _ => false end.
(** [if !matches!(op, Op::Nop) { ops.push(op) }]. *)
Definition push_op (ops : list Op.t) (op : Op.t) : list Op.t := if is_nop op then ops else ops ++ [op].

Definition statement (line : string) (pos : SourcePosition) : M Op.t := lift (parse_line line pos).

Section Kinds.

(** [parse_block] for the blocks inside. *)
Context (parse_block : block_parser).

(** if_block.rs: the [else] is taken at any indentation. *)
Definition parse_if_block (lines : list string) (pos : SourcePosition) : M Op.t :=
  line ← current lines;
  let current_indent := Common.get_indent line in
  _ ← advance;
  then_block ← parse_block lines current_indent pos;
  i ← get_state;
  match lines !! i with
  | Some line =>
      if String.eqb (trim line) "else:" then
        else_pos ← here pos (Common.get_indent line);
        _ ← advance;
        else_ops ← parse_block lines current_indent else_pos;
        mret (Op.If [] then_block (Some else_ops))
      else mret (Op.If [] then_block None)
  | None => mret (Op.If [] then_block None)
  end.

(** loop_block.rs *)
Definition parse_loop_block (lines : list string) (pos : SourcePosition) : M Op.t :=
  line ← current lines;
  let trimmed := trim line in
  match split_once " " trimmed with
  | Some (word, rest) =>
      if String.eqb (str_ascii_lower word) "loop" then
        let count_str := trim_end_matches ":" rest in
        count ← lift (parsed (InvalidLoopCount count_str (pos_line pos)
                                (pos_column (Common.adjusted_position pos line count_str)))
                        (parse_u64 count_str));
        _ ← advance;
        body ← parse_block lines (Common.get_indent line) pos;
        mret (Op.Loop count body)
      else throw (at_pos (InvalidLoopFormat trimmed) pos)
  | None => throw (at_pos (InvalidLoopFormat trimmed) pos)
  end.

(** function_block.rs *)
Definition parse_function_signature (line : string) (pos : SourcePosition) :
    res CompilerError.t (string * list string) :=
  match split_once "(" (trim_end_matches ":" line) with
  | None => Err (at_pos (InvalidFunctionDefinition line) pos)
  | Some (name_part, params_str) =>
      let name_part := trim name_part in
      match strip_prefix "def " name_part with
      | None => Err (at_pos (InvalidFunctionStart line) pos)
      | Some name =>
          let params := trim <$> split_char "," (trim_end_matches ")" params_str) in
          Ok (trim name, filter (fun p => is_empty p = false) params)
      end
  end.

Definition parse_function_block (lines : list string) (pos : SourcePosition) : M Op.t :=
  line ← current lines;
  if negb (contains_char "(" line) || negb (contains_char ")" line) then
    throw (at_pos (InvalidFunctionFormat line) pos)
  else
    '(name, params) ← lift (parse_function_signature line pos);
    _ ← advance;
    body ← parse_block lines (Common.get_indent line) pos;
    mret (Op.Def name params body).

(** match_block.rs: the cases so far, the value and the default. *)
Record match_parts : Type := {
  value_ops : list Op.t;
  cases : list (TypedValue.t * list Op.t);
  default_ops : option (list Op.t);
}.

Definition line_after (pos : SourcePosition) (indent : nat) : SourcePosition :=
  {| pos_line := pos_line pos + 1; pos_column := indent + 1 |}.

(** One round of the loop over the lines of the match. *)
Definition match_line (lines : list string) (pos : SourcePosition) (line : string) (m : match_parts) :
    M match_parts :=
  let indent := Common.get_indent line in
  line_pos ← here pos indent;
  let trimmed := trim line in
  if String.eqb trimmed "value:" then
    _ ← advance;
    ops ← parse_block lines indent (line_after line_pos indent);
    mret {| value_ops := ops; cases := cases m; default_ops := default_ops m |}
  else if str_starts_with "case " trimmed then
    let case_value_str := trim_end_matches ":" (trim (drop_str 5 trimmed)) in
    case_value ← lift (parsed (InvalidCaseValue case_value_str (pos_line line_pos)
                                 (pos_column (Common.adjusted_position line_pos line case_value_str)))
                         (parse_f64 case_value_str));
    _ ← advance;
    case_ops ← parse_block lines indent (line_after line_pos indent);
    mret {| value_ops := value_ops m; cases := cases m ++ [(TypedValue.Number case_value, case_ops)];
            default_ops := default_ops m |}
  else if String.eqb trimmed "default:" then
    _ ← advance;
    default_block ← parse_block lines indent (line_after line_pos indent);
    mret {| value_ops := value_ops m; cases := cases m; default_ops := Some default_block |}
  else
    op ← statement line line_pos;
    _ ← advance;
    mret {| value_ops := push_op (value_ops m) op; cases := cases m; default_ops := default_ops m |}.

Fixpoint match_lines (fuel : nat) (lines : list string) (current_indent : nat) (pos : SourcePosition)
    (m : match_parts) : M match_parts :=
  match fuel with
  | O => lift OutOfFuel
  | Datatypes.S fuel =>
      i ← get_state;
      match lines !! i with
      | Some line =>
          if Common.get_indent line <=? current_indent then mret m
          else m ← match_line lines pos line m; match_lines fuel lines current_indent pos m
      | None => mret m
      end
  end.

Definition parse_match_block (fuel : nat) (lines : list string) (pos : SourcePosition) : M Op.t :=
  line ← current lines;
  _ ← advance;
  m ← match_lines fuel lines (Common.get_indent line) pos
        {| value_ops := []; cases := []; default_ops := None |};
  match value_ops m with
  | [] => throw (at_pos MissingMatchValue pos)
  | _ => mret (Op.Match (value_ops m) (cases m) (default_ops m))
  end.

(** while_block.rs: a nested [while] comes from outside. *)
Context (parse_while_block : list string -> SourcePosition -> M Op.t).

Record while_parts : Type := { has_explicit_condition : bool; condition : list Op.t; body : list Op.t }.

Definition nested_in_while (fuel : nat) (lines : list string) (trimmed : string) (pos : SourcePosition) : M Op.t :=
  if String.eqb trimmed "if:" then parse_if_block lines pos
  else if String.eqb trimmed "while:" then parse_while_block lines pos
  else if str_starts_with "loop " trimmed then parse_loop_block lines pos
  else if String.eqb trimmed "match:" then parse_match_block fuel lines pos
  else throw (at_pos (UnknownBlockType trimmed) pos).

Definition while_line (fuel : nat) (lines : list string) (pos : SourcePosition) (line : string) (w : while_parts) :
    M while_parts :=
  let indent := Common.get_indent line in
  let trimmed := trim line in
  line_pos ← here pos indent;
  if String.eqb trimmed "condition:" then
    _ ← advance;
    ops ← parse_block lines indent line_pos;
    mret {| has_explicit_condition := true; condition := ops; body := body w |}
  else if ends_with_char ":" trimmed then
    op ← nested_in_while fuel lines trimmed line_pos;
    mret {| has_explicit_condition := has_explicit_condition w; condition := condition w; body := body w ++ [op] |}
  else
    op ← statement line line_pos;
    _ ← advance;
    mret {| has_explicit_condition := has_explicit_condition w; condition := condition w;
            body := push_op (body w) op |}.

Fixpoint while_lines (n fuel : nat) (lines : list string) (current_indent : nat) (pos : SourcePosition)
    (w : while_parts) : M while_parts :=
  match n with
  | O => lift OutOfFuel
  | Datatypes.S n =>
      i ← get_state;
      match lines !! i with
      | Some line =>
          if Common.get_indent line <=? current_indent then mret w
          else w ← while_line fuel lines pos line w; while_lines n fuel lines current_indent pos w
      | None => mret w
      end
  end.

(** Without a [condition:] the first operation of the body is the condition. *)
Definition while_op (w : while_parts) : Op.t :=
  match has_explicit_condition w, body w with
  | false, op :: rest => Op.While [op] rest
  | _, _ => Op.While (condition w) (body w)
  end.

Definition parse_while (fuel : nat) (lines : list string) (pos : SourcePosition) : M Op.t :=
  line ← current lines;
  _ ← advance;
  w ← while_lines fuel fuel lines (Common.get_indent line) pos
        {| has_explicit_condition := false; condition := []; body := [] |};
  mret (while_op w).

(** The lines that [if passed:] and [else:] take: everything indented more than
    the enclosing block, without the blank lines; and how many they are. *)
Fixpoint taken_lines (base_indent : nat) (rest : list string) : list string * nat :=
  match rest with
  | [] => ([], 0)
  | line :: rest =>
      let '(taken, n) := taken_lines base_indent rest in
      if is_blank line then (taken, Datatypes.S n)
      else if Common.get_indent line <=? base_indent then ([], 0)
      else (line :: taken, Datatypes.S n)
  end.
Definition take_lines (base_indent : nat) (lines : list string) : M (list string) := fun i =>
  let '(taken, n) := taken_lines base_indent (drop i lines) in (i + n, Ok taken).

(** A block on lines of its own, from the first. *)
Definition parse_inner (op : list Op.t -> Op.t) (base_indent : nat) (lines : list string) (pos : SourcePosition) :
    M Op.t :=
  _ ← advance;
  inner ← take_lines base_indent lines;
  ops ← lift (parse_block inner (base_indent + 1) pos 0).2;
  mret (op ops).

(** A line that ends with a colon, in [parse_block]. *)
Definition parse_nested (fuel : nat) (lines : list string) (base_indent : nat) (trimmed : string)
    (pos : SourcePosition) : M Op.t :=
  if String.eqb trimmed "if:" then parse_if_block lines pos
  else if String.eqb trimmed "while:" then parse_while_block lines pos
  else if str_starts_with "def " trimmed then parse_function_block lines pos
  else if String.eqb trimmed "match:" then parse_match_block fuel lines pos
  else if str_starts_with "loop " trimmed then parse_loop_block lines pos
  else if String.eqb trimmed "if passed:" then parse_inner Op.IfPassed base_indent lines pos
  else if String.eqb trimmed "else:" then parse_inner Op.Else base_indent lines pos
  else throw (at_pos (UnknownBlockType trimmed) pos).

End Kinds.

(** line_parser.rs: [parse_block], and the [while] parser it is mutual with. *)
Fixpoint parse_block (fuel : nat) (lines : list string) (base_indent : nat) (pos : SourcePosition) {struct fuel} :
    M (list Op.t) :=
  match fuel with
  | O => lift OutOfFuel
  | Datatypes.S fuel =>
      i ← get_state;
      match lines !! i with
      | None => mret []
      | Some line =>
          if is_blank line then _ ← advance; parse_block fuel lines base_indent pos
          else if Common.get_indent line <=? base_indent then mret []
          else
            current_pos ← here pos (Common.get_indent line);
            op ← (let trimmed := trim line in
                  if ends_with_char ":" trimmed
                  then parse_nested (parse_block fuel) (parse_while_block fuel) fuel lines base_indent trimmed current_pos
                  else op ← statement line current_pos; _ ← advance; mret op);
            ops ← parse_block fuel lines base_indent pos;
            mret (if is_nop op then ops else op :: ops)
      end
  end
with parse_while_block (fuel : nat) (lines : list string) (pos : SourcePosition) {struct fuel} : M Op.t :=
  match fuel with
  | O => lift OutOfFuel
  | Datatypes.S fuel => parse_while (parse_block fuel) (parse_while_block fuel) fuel lines pos
  end.

End Blocks.
