(* ===== verification/Dsl.v ===== *)
(** * Programs: compiler/parse_dsl.rs, compiler/mod.rs and compiler/stdlib.rs

    [parse_dsl] splits a source into lines, reads governance settings and
    templates, and hands everything else to the line and block parsers. *)
From S2P Require Import Prelude Float64 Text Values Ops Parser Blocks.

Module LifecycleConfig.

Section Config.

Context `{CH : Chrono}.

Record t : Type := {
  quorum : option f64;
  threshold : option f64;
  min_deliberation : option Duration;
  expires_in : option Duration;
  required_roles : list string;
}.

(** [Default]. *)
Definition default : t :=
  {| quorum := None; threshold := None; min_deliberation := None; expires_in := None; required_roles := [] |}.

Definition or_else {A} (a b : option A) : option A := match a with Some _ => a | None => b end.

Definition merge_from (other self : t) : t :=
  {| quorum := or_else (quorum self) (quorum other);
     threshold := or_else (threshold self) (threshold other);
     min_deliberation := or_else (min_deliberation self) (min_deliberation other);
     expires_in := or_else (expires_in self) (expires_in other);
     required_roles := match required_roles self with [] => required_roles other | roles => roles end |}.

End Config.

End LifecycleConfig.

Module Dsl.

Import CompilerError LineParser Blocks.

Section Parse.

Context `{CH : Chrono}.

(** The last byte of a string is the last character only if it is ASCII. *)
Fixpoint last_char (s : string) : option ascii :=
  match s with
  | EmptyString => None
  | String c EmptyString => Some c
  | String _ s' => last_char s'
  end.

Definition duration_of (d : option Duration) : res CompilerError.t Duration :=
  match d with Some d => Ok d | None => Panic "Duration out of bounds" end.

Definition parse_duration (duration_str : string) : res CompilerError.t Duration :=
  let duration_str := trim duration_str in
  match last_char duration_str with
  | None => Err (SyntaxError "Empty duration string")
  | Some last_char =>
      if (128 <=? code last_char)%N then Panic "byte index is not a char boundary"
      else
        let value_str := String.substring 0 (String.length duration_str - 1) duration_str in
        value ← parsed (SyntaxError ("Invalid duration value: " +:+ value_str)) (parse_i64 value_str);
        if Ascii.eqb last_char "h" then duration_of (hours value)
        else if Ascii.eqb last_char "d" then duration_of (days value)
        else if Ascii.eqb last_char "w" then duration_of (weeks value)
        else Err (SyntaxError ("Unknown duration unit: " +:+ String last_char EmptyString))
  end.

(** A name with its quotes removed, if it has them. *)
Definition plain_name (word : string) : res CompilerError.t string :=
  if quoted word then unquote word else Ok word.

(** One command of a governance or template block. *)
Definition config_command (parts : list string) (pos : SourcePosition) (config : LifecycleConfig.t) :
    res CompilerError.t LifecycleConfig.t :=
  let value command := next (at_pos (MissingParameter command) pos) (tail parts) in
  let number command v := parsed (at_pos (InvalidParameterValue command) pos) (parse_f64 v) in
  match parts with
  | [] => Ok config
  | command :: _ =>
      if String.eqb command "quorumthreshold" then
        '(v, _) ← value command; q ← number command v;
        Ok {| LifecycleConfig.quorum := Some q; LifecycleConfig.threshold := LifecycleConfig.threshold config;
              LifecycleConfig.min_deliberation := LifecycleConfig.min_deliberation config;
              LifecycleConfig.expires_in := LifecycleConfig.expires_in config;
              LifecycleConfig.required_roles := LifecycleConfig.required_roles config |}
      else if String.eqb command "votethreshold" then
        '(v, _) ← value command; q ← number command v;
        Ok {| LifecycleConfig.quorum := LifecycleConfig.quorum config; LifecycleConfig.threshold := Some q;
              LifecycleConfig.min_deliberation := LifecycleConfig.min_deliberation config;
              LifecycleConfig.expires_in := LifecycleConfig.expires_in config;
              LifecycleConfig.required_roles := LifecycleConfig.required_roles config |}
      else if String.eqb command "mindeliberation" then
        '(v, _) ← value command; d ← parse_duration v;
        Ok {| LifecycleConfig.quorum := LifecycleConfig.quorum config;
              LifecycleConfig.threshold := LifecycleConfig.threshold config;
              LifecycleConfig.min_deliberation := Some d;
              LifecycleConfig.expires_in := LifecycleConfig.expires_in config;
              LifecycleConfig.required_roles := LifecycleConfig.required_roles config |}
      else if String.eqb command "expiresin" then
        '(v, _) ← value command; d ← parse_duration v;
        Ok {| LifecycleConfig.quorum := LifecycleConfig.quorum config;
              LifecycleConfig.threshold := LifecycleConfig.threshold config;
              LifecycleConfig.min_deliberation := LifecycleConfig.min_deliberation config;
              LifecycleConfig.expires_in := Some d;
              LifecycleConfig.required_roles := LifecycleConfig.required_roles config |}
      else if String.eqb command "require_role" then
        '(v, _) ← value command; role ← plain_name v;
        Ok {| LifecycleConfig.quorum := LifecycleConfig.quorum config;
              LifecycleConfig.threshold := LifecycleConfig.threshold config;
              LifecycleConfig.min_deliberation := LifecycleConfig.min_deliberation config;
              LifecycleConfig.expires_in := LifecycleConfig.expires_in config;
              LifecycleConfig.required_roles := LifecycleConfig.required_roles config ++ [role] |}
      else Err (at_pos (UnknownCommand command) pos)
  end.

(** The variables of the main loop. *)
Record state : Type := {
  ops : list Op.t;
  config : LifecycleConfig.t;
  in_governance_block : bool;
  in_template_block : bool;
  current_template_name : string;
  current_template : LifecycleConfig.t;
  templates : gmap string LifecycleConfig.t;
}.

Definition start : state :=
  {| ops := []; config := LifecycleConfig.default; in_governance_block := false; in_template_block := false;
     current_template_name := EmptyString; current_template := LifecycleConfig.default; templates := ∅ |}.

Definition with_op (op : Op.t) (s : state) : state :=
  {| ops := push_op (ops s) op; config := config s; in_governance_block := in_governance_block s;
     in_template_block := in_template_block s; current_template_name := current_template_name s;
     current_template := current_template s; templates := templates s |}.
Definition with_config (c : LifecycleConfig.t) (s : state) : state :=
  {| ops := ops s; config := c; in_governance_block := in_governance_block s;
     in_template_block := in_template_block s; current_template_name := current_template_name s;
     current_template := current_template s; templates := templates s |}.
Definition in_governance (b : bool) (s : state) : state :=
  {| ops := ops s; config := config s; in_governance_block := b;
     in_template_block := in_template_block s; current_template_name := current_template_name s;
     current_template := current_template s; templates := templates s |}.
Definition with_template (inside : bool) (name : string) (c : LifecycleConfig.t)
    (ts : gmap string LifecycleConfig.t) (s : state) : state :=
  {| ops := ops s; config := config s; in_governance_block := in_governance_block s;
     in_template_block := inside; current_template_name := name; current_template := c; templates := ts |}.

Definition at_line (text : string) (pos : SourcePosition) : string :=
  text +:+ " at line " +:+ u64_to_string (N.of_nat (pos_line pos)).

(** [template name {] *)
Definition template_line (trimmed : string) (pos : SourcePosition) (s : state) : res CompilerError.t state :=
  match split_whitespace trimmed with
  | _ :: word :: _ :: _ =>
      name ← plain_name word;
      Ok (with_template true name LifecycleConfig.default (templates s) s)
  | _ => Err (SyntaxError (at_line "Invalid template definition" pos))
  end.

(** [governance use name] *)
Definition use_line (trimmed : string) (pos : SourcePosition) (s : state) : res CompilerError.t state :=
  match split_whitespace trimmed with
  | _ :: _ :: word :: _ =>
      name ← plain_name word;
      match templates s !! name with
      | Some template => Ok (with_config (LifecycleConfig.merge_from template (config s)) s)
      | None => Err (SyntaxError (at_line ("Unknown template '" +:+ name +:+ "'") pos))
      end
  | _ => Err (SyntaxError (at_line "Invalid governance use directive" pos))
  end.

Definition setting_line (trimmed : string) (pos : SourcePosition) (s : state) : res CompilerError.t state :=
  let parts := split_whitespace trimmed in
  if in_template_block s then
    c ← config_command parts pos (current_template s);
    Ok (with_template true (current_template_name s) c (templates s) s)
  else c ← config_command parts pos (config s); Ok (with_config c s).

(** A line that ends with a colon, outside the settings. *)
Definition top_block (fuel : nat) (lines : list string) (trimmed : string) (pos : SourcePosition) : M Op.t :=
  if String.eqb trimmed "if:" then parse_if_block (parse_block fuel) lines pos
  else if String.eqb trimmed "while:" then parse_while_block fuel lines pos
  else if str_starts_with "def " trimmed then parse_function_block (parse_block fuel) lines pos
  else if String.eqb trimmed "match:" then parse_match_block (parse_block fuel) fuel lines pos
  else if str_starts_with "loop " trimmed then parse_loop_block (parse_block fuel) lines pos
  else throw (at_pos (UnknownBlockType trimmed) pos).

(** A line that the settings handle: then the line is done. *)
Definition settings (trimmed : string) (pos : SourcePosition) (s : state) : option (res CompilerError.t state) :=
  if str_starts_with "template " trimmed && str_ends_with " {" trimmed then Some (template_line trimmed pos s)
  else if in_template_block s && String.eqb trimmed "}" then
    Some (Ok (with_template false (current_template_name s) (current_template s)
                (<[current_template_name s := current_template s]> (templates s)) s))
  else if str_starts_with "governance use " trimmed then Some (use_line trimmed pos s)
  else if String.eqb trimmed "governance {" then Some (Ok (in_governance true s))
  else if in_governance_block s && String.eqb trimmed "}" then Some (Ok (in_governance false s))
  else if in_governance_block s || in_template_block s then Some (setting_line trimmed pos s)
  else None.

(** One round of the main loop. *)
Definition line_step (fuel : nat) (lines : list string) (line : string) (s : state) : M state :=
  if is_blank line then _ ← advance; mret s
  else
    let indent := Common.get_indent line in
    pos ← here {| pos_line := 1; pos_column := 1 |} indent;
    let trimmed := trim line in
    match settings trimmed pos s with
    | Some r => s ← lift r; _ ← advance; mret s
    | None =>
        op ← (if ends_with_char ":" trimmed then top_block fuel lines trimmed pos
              else op ← statement line pos; _ ← advance; mret op);
        mret (with_op op s)
    end.

Fixpoint main_loop (n fuel : nat) (lines : list string) (s : state) : M state :=
  match n with
  | O => lift OutOfFuel
  | Datatypes.S n =>
      i ← get_state;
      match lines !! i with
      | Some line => s ← line_step fuel lines line s; main_loop n fuel lines s
      | None => mret s
      end
  end.

Definition enough (lines : list string) : nat := 2 * length lines + 2.

Definition parse_lines (lines : list string) : res CompilerError.t (list Op.t * LifecycleConfig.t) :=
  s ← (main_loop (enough lines) (enough lines) lines start 0).2; Ok (ops s, config s).

Definition parse_dsl (source : string) : res CompilerError.t (list Op.t * LifecycleConfig.t) :=
  parse_lines (lines source).

(** mod.rs: the loop [parse_dsl] replaced, which nothing calls any more.  It
    advances after a block too, so it drops the line that follows one. *)
Fixpoint internal_loop (n fuel : nat) (lines : list string) (ops : list Op.t) : M (list Op.t) :=
  match n with
  | O => lift OutOfFuel
  | Datatypes.S n =>
      i ← get_state;
      match lines !! i with
      | None => mret ops
      | Some line =>
          if is_blank line then _ ← advance; internal_loop n fuel lines ops
          else
            pos ← here {| pos_line := 1; pos_column := 1 |} (Common.get_indent line);
            let trimmed := trim line in
            op ← (if ends_with_char ":" trimmed then top_block fuel lines trimmed pos else statement line pos);
            _ ← advance;
            internal_loop n fuel lines (push_op ops op)
      end
  end.
Definition parse_dsl_internal (source : string) : res CompilerError.t (list Op.t) :=
  let lines := lines source in (internal_loop (enough lines) (enough lines) lines [] 0).2.

End Parse.

(** ** compiler/stdlib.rs *)
Definition stdlib_lines : list string :=
  [""; "# Standard library functions for nano-cvm DSL";
   "# These functions are automatically included in every program"; "";
   "# Math functions";
   "def abs(x):"; "    load x"; "    dup"; "    push 0"; "    lt"; "    if:"; "        negate"; "    return"; "";
   "def max(a, b):"; "    load a"; "    load b"; "    dup"; "    over"; "    lt"; "    if:"; "        swap";
   "        pop"; "    else:"; "        pop"; "    return"; "";
   "def min(a, b):"; "    load a"; "    load b"; "    dup"; "    over"; "    gt"; "    if:"; "        swap";
   "        pop"; "    else:"; "        pop"; "    return"; "";
   "# Stack manipulation utilities";
   "def swap3(a, b, c):"; "    # Takes three values and returns them in reverse order (c, b, a)"; "    load c";
   "    load b"; "    load a"; "    return"; "";
   "def dup2():"; "    # Duplicates the top two stack items"; "    over"; "    over"; "    return"; "";
   "def sum_n(n):"; "    # Sum numbers 1 to n"; "    push 0  # accumulator"; "    push 1  # counter"; "    while:";
   "        condition:"; "            dup         # counter"; "            load n"; "            gt";
   "            not"; "        dup             # counter"; "        over            # accumulator";
   "        add             # acc + counter"; "        swap"; "        pop"; "        swap"; "        push 1";
   "        add             # counter + 1"; "    pop                 # remove counter"; "    return"; "";
   "# Boolean logic utilities";
   "def xor(a, b):"; "    # Exclusive or: true if exactly one input is true"; "    load a"; "    load b"; "    eq";
   "    not"; "    load a"; "    load b"; "    or"; "    and"; "    return"; ""].
Definition line_feed : string := String newline EmptyString.
Definition get_stdlib_code : string := join line_feed stdlib_lines.

Definition parse_dsl_with_stdlib `{Chrono} (source : string) : res CompilerError.t (list Op.t) :=
  '(ops, _) ← parse_dsl (get_stdlib_code +:+ line_feed +:+ line_feed +:+ source); Ok ops.

End Dsl.
