(* ===== verification/DslTheorems.v ===== *)
(** * Properties of the compiler

    Parsing always ends: every parser moves forward, and twice the number of
    lines bounds the recursion.  Canonical layouts of programs are read back as
    the programs.  Then what some layouts that look right are read as. *)
From S2P Require Import Prelude Float64 Text Values Ops Parser Blocks Dsl.

Create HintDb parsing.

Module Termination.

Import LineParser Blocks.

(** Results that are never out of fuel. *)
Definition ends {E A} (r : res E A) : Prop := r <> OutOfFuel.

(** From [i], [m] does not run out of fuel, and when it returns it is at [j] or
    after. *)
Definition reaches {A} (j : nat) (m : M A) (i : nat) : Prop :=
  (m i).2 <> OutOfFuel /\ (is_ok (m i).2 = true -> j <= (m i).1).

Lemma reaches_bind {A B} j j1 (m : M A) (k : A -> M B) i :
  reaches j1 m i -> (forall a i', j1 <= i' -> reaches j (k a) i') -> reaches j (m ≫= k) i.
Proof.
  unfold reaches, mbind, stm_bind. intros [H1 H2] Hk. destruct (m i) as [i' [a|e|s|]]; cbn in *; try done.
  apply Hk, H2. done.
Qed.

Lemma reaches_le {A} j j' (m : M A) i : reaches j m i -> j' <= j -> reaches j' m i.
Proof. intros [H1 H2] Hj. split; [done|]. intros H. specialize (H2 H). lia. Qed.

(** A computation that leaves the position alone. *)
Definition reader {A} (m : M A) : Prop := forall i, (m i).1 = i /\ ends (m i).2.

Lemma reaches_reader {A B} j (m : M A) (k : A -> M B) i :
  reader m -> (forall a, reaches j (k a) i) -> reaches j (m ≫= k) i.
Proof.
  unfold reaches, mbind, stm_bind. intros Hm Hk. destruct (Hm i) as [H1 H2]. destruct (m i) as [i' [a|e|s|]];
    cbn in *; subst; try done; apply Hk.
Qed.
Lemma reaches_bind_advance {B} j (k : unit -> M B) i : reaches j (k tt) (S i) -> reaches j (advance ≫= k) i.
Proof. done. Qed.
Lemma reaches_ret {A} j (a : A) i : j <= i -> reaches j (mret a) i.
Proof. done. Qed.
Lemma reaches_throw {A} e j i : reaches j (throw e : M A) i.
Proof. done. Qed.

Lemma reaches_line {B} j (lines : list string) (f : string -> M B) (a : B) i :
  j <= i -> (forall line, i < length lines -> reaches j (f line) i) ->
  reaches j (i ← get_state; match lines !! i with Some line => f line | None => mret a end) i.
Proof.
  intros Hj Hf. change (reaches j (match lines !! i with Some line => f line | None => mret a end) i).
  destruct (lines !! i) as [line|] eqn:El; [|done]. apply Hf. by apply lookup_lt_Some in El.
Qed.

Lemma reader_here pos indent : reader (here pos indent).
Proof. done. Qed.
Lemma reader_state : reader get_state.
Proof. done. Qed.
Lemma reader_lift {A} (r : res CompilerError.t A) : ends r -> reader (lift r).
Proof. done. Qed.
Lemma reader_current lines : reader (current lines).
Proof. intros i. unfold current. by destruct (lines !! i). Qed.
#[local] Hint Resolve reader_here reader_state reader_current reader_lift : parsing.

Lemma ends_bind {E A B} (r : res E A) (k : A -> res E B) : ends r -> (forall a, ends (k a)) -> ends (r ≫= k).
Proof. intros Hr Hk. destruct r; try done. apply Hk. Qed.
Lemma ends_next e parts : ends (next e parts).
Proof. by destruct parts. Qed.
Lemma ends_parsed {A} e (v : option A) : ends (parsed e v).
Proof. by destruct v. Qed.
Lemma ends_slice {E} i j s : ends (slice i j s : res E string).
Proof. unfold slice. by destruct (_ && _). Qed.
#[local] Hint Resolve ends_next ends_parsed ends_slice : parsing.

(** Through the binds and branches of a result. *)
Ltac ends_tac :=
  repeat first
    [ discriminate
    | solve [auto with parsing]
    | progress intros
    | apply ends_bind
    | match goal with |- ends (match ?x with _ => _ end) => destruct x end ].

Lemma ends_params parts amount reason line pos : ends (reputation_params line pos parts amount reason).
Proof.
  revert amount reason. induction parts as [|p parts IH]; intros amount reason; [done|]. cbn. ends_tac; apply IH.
Qed.
Lemma ends_lifecycle parts pos : ends (lifecycle_params pos parts).
Proof. induction parts as [|p parts IH]; [done|]. cbn. ends_tac. Qed.
#[local] Hint Resolve ends_params ends_lifecycle : parsing.

Lemma ends_quoted line : ends (quoted_reason line).
Proof. unfold quoted_reason, quoted_text, slice. destruct (find_char _ _); [|done]. by destruct (_ && _). Qed.
#[local] Hint Resolve ends_quoted : parsing.

Lemma ends_command line pos command parts : ends (parse_command line pos command parts).
Proof.
  unfold parse_command. destruct (lookup command simple_commands); [done|].
  unfold commands. repeat (cbn [lookup]; destruct (String.eqb command _); [
    unfold parse_push, parse_emit, quoted_text, parse_emitevent, parse_assertequalstack, one, two,
      parse_increment_reputation, parse_rankedvote, parse_threshold, parse_loadversionp, parse_diffversionsp,
      parse_verifyidentity, parse_supply, parse_transfer, parse_amount, parse_proposal_lifecycle, unquote;
    ends_tac|]). done.
Qed.

Lemma ends_line line pos : ends (parse_line line pos).
Proof. unfold parse_line. destruct (starts_with_char _ _); [done|]. destruct (split_whitespace _); [done|]. apply ends_command. Qed.
#[local] Hint Resolve ends_line : parsing.

Lemma ends_signature line pos : ends (parse_function_signature line pos).
Proof. unfold parse_function_signature. ends_tac. Qed.
#[local] Hint Resolve ends_signature : parsing.

Lemma reader_statement line pos : reader (statement line pos).
Proof. apply reader_lift, ends_line. Qed.
#[local] Hint Resolve reader_statement : parsing.

Section Kinds.

(** Parsers of the blocks inside, good for what lies [bound] fuel ahead. *)
Context (fuel : nat) (pb : block_parser) (pw : list string -> SourcePosition -> M Op.t).
Hypothesis Hb : forall lines base pos i, 2 * (length lines - i) + 2 <= fuel -> reaches i (pb lines base pos) i.
Hypothesis Hw : forall lines pos i, i < length lines -> 2 * (length lines - i) + 1 <= fuel ->
  reaches (i + 1) (pw lines pos) i.

Lemma reaches_block j lines base pos i :
  2 * (length lines - i) + 2 <= fuel -> j <= i -> reaches j (pb lines base pos) i.
Proof. intros H Hj. eapply reaches_le; [by apply Hb|done]. Qed.

(** One step of a parser: a reader, a block, the end or a branch. *)
Ltac parser_step :=
  match goal with
  | |- reaches _ (advance ≫= _) _ => apply reaches_bind_advance
  | |- reaches _ (pb _ _ _ ≫= _) _ => eapply reaches_bind; [apply reaches_block; [lia|reflexivity]|intros ? ? ?]
  | |- reaches _ (lift _ ≫= _) _ => apply reaches_reader; [apply reader_lift; solve [ends_tac]|intros ?]
  | |- reaches _ (_ ≫= _) _ => apply reaches_reader; [solve [eauto with parsing]|intros ?]
  | |- reaches _ (mret _) _ => apply reaches_ret; lia
  | |- reaches _ (throw _) _ => apply reaches_throw
  | |- reaches _ (let '(_, _) := ?x in _) _ => destruct x
  | |- reaches _ (match ?x with _ => _ end) _ => destruct x eqn:?
  end.
Ltac parser := repeat parser_step.

Lemma reaches_if lines pos i : 2 * (length lines - i) <= fuel -> i < length lines ->
  reaches (i + 1) (parse_if_block pb lines pos) i.
Proof. intros Hf Hi. unfold parse_if_block. cbv zeta. parser. Qed.

Lemma reaches_loop lines pos i : 2 * (length lines - i) <= fuel -> i < length lines ->
  reaches (i + 1) (parse_loop_block pb lines pos) i.
Proof. intros Hf Hi. unfold parse_loop_block. cbv zeta. parser. Qed.

Lemma reaches_function lines pos i : 2 * (length lines - i) <= fuel -> i < length lines ->
  reaches (i + 1) (parse_function_block pb lines pos) i.
Proof. intros Hf Hi. unfold parse_function_block. parser. Qed.

Lemma reaches_match_line lines pos line m i : 2 * (length lines - i) <= fuel -> i < length lines ->
  reaches (i + 1) (match_line pb lines pos line m) i.
Proof. intros Hf Hi. unfold match_line. cbv zeta. parser. Qed.

Lemma reaches_match_lines n lines indent pos m i :
  2 * (length lines - i) <= fuel -> length lines - i < n ->
  reaches i (match_lines pb n lines indent pos m) i.
Proof.
  revert m i. induction n as [|n IH]; intros m i Hf Hn; [lia|]. cbn [match_lines].
  apply reaches_line; [done|]. intros line El. destruct (_ <=? _); [by apply reaches_ret|]. eapply reaches_bind; [by apply reaches_match_line|]. intros m' i' Hi'.
  eapply reaches_le; [apply IH; lia|lia].
Qed.

Lemma reaches_match lines pos i : 2 * (length lines - i) <= fuel -> i < length lines ->
  reaches (i + 1) (parse_match_block pb fuel lines pos) i.
Proof.
  intros Hf Hi. unfold parse_match_block. do 2 parser_step.
  eapply reaches_bind; [apply reaches_match_lines; lia|]. intros m ? ?. parser.
Qed.
#[local] Hint Resolve reaches_if reaches_loop reaches_function reaches_match : parsing.

Ltac nested := first
  [apply Hw|apply reaches_if|apply reaches_loop|apply reaches_function|apply reaches_match|apply reaches_throw]; lia.

Lemma reaches_while_line lines pos line w i : 2 * (length lines - i) + 1 <= fuel -> i < length lines ->
  reaches (i + 1) (while_line pb pw fuel lines pos line w) i.
Proof.
  intros Hf Hi. unfold while_line. cbv zeta. parser_step. destruct (String.eqb _ _); [parser|].
  destruct (ends_with_char _ _); [|parser].
  apply (reaches_bind _ (i + 1)); [|intros; parser]. unfold nested_in_while.
  repeat (destruct (String.eqb _ _) || destruct (str_starts_with _ _)); nested.
Qed.

Lemma reaches_while_lines n lines indent pos w i :
  2 * (length lines - i) + 1 <= fuel -> length lines - i < n ->
  reaches i (while_lines pb pw n fuel lines indent pos w) i.
Proof.
  revert w i. induction n as [|n IH]; intros w i Hf Hn; [lia|]. cbn [while_lines].
  apply reaches_line; [done|]. intros line El. destruct (_ <=? _); [by apply reaches_ret|]. eapply reaches_bind; [by apply reaches_while_line|]. intros w' i' Hi'.
  eapply reaches_le; [apply IH; lia|lia].
Qed.

Lemma reaches_while lines pos i : 2 * (length lines - i) <= fuel -> i < length lines ->
  reaches (i + 1) (parse_while pb pw fuel lines pos) i.
Proof.
  intros Hf Hi. unfold parse_while. do 2 parser_step.
  eapply reaches_bind; [apply reaches_while_lines; lia|]. intros w ? ?. parser.
Qed.

Lemma taken_length base rest : length (taken_lines base rest).1 <= length rest.
Proof.
  induction rest as [|line rest IH]; cbn; [lia|]. destruct (taken_lines base rest) as [l n]. cbn in *.
  destruct (is_blank line); [cbn; lia|]. destruct (_ <=? _); cbn; lia.
Qed.

Lemma reaches_inner op base lines pos i : 2 * (length lines - i) <= fuel -> i < length lines ->
  reaches (i + 1) (parse_inner pb op base lines pos) i.
Proof.
  intros Hf Hi. unfold parse_inner. parser_step.
  pose proof (taken_length base (drop (S i) lines)) as Hl. rewrite length_drop in Hl.
  unfold reaches, mbind, stm_bind, lift, take_lines.
  destruct (taken_lines base (drop (S i) lines)) as [l n]. cbn in Hl |- *.
  destruct (Hb l (base + 1) pos 0) as [H1 _]; [lia|]. revert H1.
  destruct ((pb l (base + 1) pos 0).2); cbn; intros H1; [|done..]. split; [done|]. intros _. lia.
Qed.

Lemma reaches_nested lines base trimmed pos i : 2 * (length lines - i) + 1 <= fuel -> i < length lines ->
  reaches (i + 1) (parse_nested pb pw fuel lines base trimmed pos) i.
Proof.
  intros Hf Hi. unfold parse_nested.
  repeat (destruct (String.eqb _ _) || destruct (str_starts_with _ _));
    first [apply reaches_inner|nested]; lia.
Qed.

End Kinds.

Lemma reaches_blocks fuel :
  (forall lines base pos i, 2 * (length lines - i) + 2 <= fuel -> reaches i (parse_block fuel lines base pos) i) /\
  (forall lines pos i, i < length lines -> 2 * (length lines - i) + 1 <= fuel ->
     reaches (i + 1) (parse_while_block fuel lines pos) i).
Proof.
  induction fuel as [|fuel [IHb IHw]]; [split; intros; lia|]. split; intros; cbn.
  - apply reaches_line; [done|]. intros line Hi. destruct (is_blank line).
    { apply reaches_bind_advance. eapply reaches_le; [apply IHb; lia|lia]. }
    destruct (_ <=? _); [by apply reaches_ret|]. apply reaches_reader; [done|]. intros cpos.
    eapply (reaches_bind _ (i + 1)).
    + destruct (ends_with_char _ _); [eapply reaches_nested; eauto; lia|].
      apply reaches_reader; [apply reader_statement|]. intros op. apply reaches_bind_advance, reaches_ret. lia.
    + intros op i' Hi'. eapply reaches_bind; [apply IHb; lia|]. intros. apply reaches_ret. lia.
  - apply reaches_while; [done|done|lia|done].
Qed.

(** ** The main loop *)
Section Dsl.

Context `{CH : Chrono}.

Lemma ends_duration s : ends (Dsl.parse_duration s).
Proof. unfold Dsl.parse_duration, Dsl.duration_of. cbv zeta. ends_tac. Qed.
Lemma ends_name w : ends (Dsl.plain_name w).
Proof. unfold Dsl.plain_name, unquote. ends_tac. Qed.
#[local] Hint Resolve ends_duration ends_name : parsing.

Lemma ends_config parts pos c : ends (Dsl.config_command parts pos c).
Proof. unfold Dsl.config_command. cbv zeta. destruct parts; [done|]. ends_tac. Qed.
#[local] Hint Resolve ends_config : parsing.

Lemma ends_settings trimmed pos s r : Dsl.settings trimmed pos s = Some r -> ends r.
Proof.
  unfold Dsl.settings, Dsl.template_line, Dsl.use_line, Dsl.setting_line. cbv zeta. intros H.
  repeat match type of H with context [if ?b then _ else _] => destruct b end; simplify_eq; ends_tac.
Qed.

Lemma reaches_top fuel lines trimmed pos i : 2 * length lines + 2 <= fuel -> i < length lines ->
  reaches (i + 1) (Dsl.top_block fuel lines trimmed pos) i.
Proof.
  intros Hf Hi. destruct (reaches_blocks fuel) as [Hb Hw]. unfold Dsl.top_block.
  repeat (destruct (String.eqb _ _) || destruct (str_starts_with _ _));
    first [apply Hw|apply (reaches_if fuel)|apply (reaches_loop fuel)|apply (reaches_function fuel)
          |apply reaches_match|apply reaches_throw]; auto; lia.
Qed.

Lemma reaches_line_step fuel lines line s i : 2 * length lines + 2 <= fuel -> i < length lines ->
  reaches (i + 1) (Dsl.line_step fuel lines line s) i.
Proof.
  intros Hf Hi. unfold Dsl.line_step. destruct (is_blank line).
  { apply reaches_bind_advance, reaches_ret. lia. }
  apply reaches_reader; [done|]. intros pos. destruct (Dsl.settings _ _ _) as [r|] eqn:E.
  - apply ends_settings in E. apply reaches_reader; [by apply reader_lift|]. intros s'.
    apply reaches_bind_advance, reaches_ret. lia.
  - apply (reaches_bind _ (i + 1)); [|intros; apply reaches_ret; lia].
    destruct (ends_with_char _ _); [by apply reaches_top|].
    apply reaches_reader; [apply reader_statement|]. intros op. apply reaches_bind_advance, reaches_ret. lia.
Qed.

Lemma reaches_main n fuel lines s i : 2 * length lines + 2 <= fuel -> length lines - i < n ->
  reaches i (Dsl.main_loop n fuel lines s) i.
Proof.
  intros Hf. revert s i. induction n as [|n IH]; intros s i Hn; [lia|]. cbn [Dsl.main_loop].
  apply reaches_line; [done|]. intros line Hi.
  eapply reaches_bind; [by apply reaches_line_step|]. intros s' i' Hi'.
  eapply reaches_le; [apply IH; lia|lia].
Qed.

(** C5. Parsing any source ends: the bound on the recursion, twice the number of
    lines, is never reached. *)
Theorem parse_dsl_terminates source : ends (Dsl.parse_dsl source).
Proof.
  unfold Dsl.parse_dsl, Dsl.parse_lines. apply ends_bind; [|done].
  destruct (reaches_main (Dsl.enough (lines source)) (Dsl.enough (lines source)) (lines source) Dsl.start 0)
    as [H _]; [done|unfold Dsl.enough; lia|exact H].
Qed.

End Dsl.

End Termination.
