(* ===== verification/Layout.v ===== *)
(** * Canonical layouts

    One way to write a program of the language, four spaces per level, and the
    theorem that the compiler reads it back: for operations without parameters,
    pushes, variables, persistent keys, calls, output, and branches, loops and
    functions around them. *)
From S2P Require Import Prelude Float64 Text Values Ops Parser Blocks Dsl DslTheorems.
From Stdlib Require Import SpecFloat.

Module Layout.

Import LineParser Blocks.

(** ** Printable text *)

Definition graphic (c : ascii) : bool := ((33 <=? code c) && (code c <=? 126))%N.
Definition printable (c : ascii) : bool := graphic c || Ascii.eqb c " ".

Fixpoint all_chars (P : ascii -> bool) (s : string) : bool :=
  match s with
  | EmptyString => true
  | String c s' => P c && all_chars P s'
  end.

(** A word: characters without space, at least one. *)
Definition word (s : string) : bool := negb (is_empty s) && all_chars graphic s.

(** A statement: printable, and with no space at either end. *)
Fixpoint last_graphic (s : string) : bool :=
  match s with
  | EmptyString => false
  | String c EmptyString => graphic c
  | String _ s' => last_graphic s'
  end.
Definition solid (s : string) : bool :=
  match s with String c _ => graphic c | EmptyString => false end && all_chars printable s && last_graphic s.

Fixpoint spaces (n : nat) : string :=
  match n with O => EmptyString | S n => String " " (spaces n) end.

Lemma all_chars_app P a b : all_chars P (a +:+ b) = all_chars P a && all_chars P b.
Proof. induction a as [|c a IH]; [done|]. rewrite str_app_cons. cbn. by rewrite IH, andb_assoc. Qed.
Lemma all_chars_impl (P Q : ascii -> bool) s :
  (forall c, P c = true -> Q c = true) -> all_chars P s = true -> all_chars Q s = true.
Proof. intros H. induction s as [|c s IH]; [done|]. cbn. intros [Hc Hs]%andb_prop. by rewrite H, IH. Qed.
Lemma graphic_printable s : all_chars graphic s = true -> all_chars printable s = true.
Proof. apply all_chars_impl. intros c Hc. unfold printable. by rewrite Hc. Qed.

Lemma white_len_graphic c s : graphic c = true -> white_len (String c s) = None.
Proof.
  unfold graphic, white_len. intros [H1 H2]%andb_prop. apply N.leb_le in H1, H2.
  destruct ((9 <=? code c)%N && (code c <=? 13)%N || (code c =? 32)%N) eqn:E.
  - apply orb_true_iff in E as [[_ E]%andb_prop|E]; [apply N.leb_le in E|apply N.eqb_eq in E]; lia.
  - by rewrite (proj2 (N.ltb_lt (code c) 128)) by lia.
Qed.

Lemma trim_start_spaces n s : trim_start (spaces n +:+ s) = trim_start s.
Proof. induction n as [|n IH]; [done|]. cbn [spaces]. rewrite str_app_cons. exact IH. Qed.
Lemma trim_start_graphic c s : graphic c = true -> trim_start (String c s) = String c s.
Proof. intros H. unfold trim_start. cbn [trim_start_from]. by rewrite white_len_graphic. Qed.
Lemma count_white_spaces n s : count_white 0 (spaces n +:+ s) = n + count_white 0 s.
Proof. induction n as [|n IH]; [done|]. cbn [spaces]. rewrite str_app_cons. exact (f_equal S IH). Qed.

(** A printable text that ends in a graphic character is not blank. *)
Lemma not_blank s : all_chars printable s = true -> last_graphic s = true -> is_blank s = false.
Proof.
  unfold is_blank. induction s as [|c s IH]; [done|]. cbn [all_chars]. intros [Hc Hs]%andb_prop Hl.
  unfold printable in Hc. destruct (graphic c) eqn:Hg.
  - by rewrite trim_start_graphic.
  - destruct (Ascii.eqb_spec c " ") as [->|]; [|done]. change (trim_start (String " " s)) with (trim_start s).
    apply IH; [done|]. by destruct s.
Qed.

Lemma trim_end_solid s : all_chars printable s = true -> last_graphic s = true -> trim_end s = s.
Proof.
  induction s as [|c s IH]; [done|]. intros Hp Hl. cbn [trim_end]. rewrite not_blank by done.
  cbn in Hp. apply andb_prop in Hp as [_ Hp]. destruct s as [|d s]; [done|]. by rewrite IH.
Qed.

Lemma solid_head s : solid s = true -> exists c t, s = String c t /\ graphic c = true.
Proof. unfold solid. destruct s as [|c t]; [done|]. intros [[H _]%andb_prop _]%andb_prop. eauto. Qed.
Lemma solid_parts s : solid s = true -> all_chars printable s = true /\ last_graphic s = true.
Proof. unfold solid. by intros [[_ H]%andb_prop H']%andb_prop. Qed.

Lemma trim_solid n s : solid s = true -> trim (spaces n +:+ s) = s.
Proof.
  intros Hs. destruct (solid_head s Hs) as (c & t & -> & Hc). destruct (solid_parts _ Hs) as [H1 H2].
  unfold trim. rewrite trim_start_spaces, trim_start_graphic by done. by apply trim_end_solid.
Qed.
Lemma blank_solid n s : solid s = true -> is_blank (spaces n +:+ s) = false.
Proof.
  intros Hs. destruct (solid_head s Hs) as (c & t & -> & Hc). unfold is_blank.
  by rewrite trim_start_spaces, trim_start_graphic.
Qed.
Lemma indent_solid n s : solid s = true -> Common.get_indent (spaces n +:+ s) = n.
Proof.
  intros Hs. destruct (solid_head s Hs) as (c & t & -> & Hc). unfold Common.get_indent.
  rewrite count_white_spaces. cbn [count_white]. rewrite white_len_graphic by done. lia.
Qed.

(** ** Words of a line *)

Lemma words_spaces n s : words 0 EmptyString (spaces n +:+ s) = words 0 EmptyString s.
Proof. induction n as [|n IH]; [done|]. cbn [spaces]. rewrite str_app_cons. exact IH. Qed.

Lemma words_word cur w s : all_chars graphic w = true -> words 0 cur (w +:+ s) = words 0 (cur +:+ w) s.
Proof.
  revert cur. induction w as [|c w IH]; intros cur; [by rewrite str_app_nil_r|].
  rewrite str_app_cons. cbn [all_chars]. intros [Hc Hw]%andb_prop. cbn [words].
  rewrite white_len_graphic by done. rewrite IH, str_app_assoc by done. done.
Qed.
Lemma words_next w s : word w = true -> words 0 EmptyString (w +:+ String " " s) = w :: words 0 EmptyString s.
Proof.
  unfold word. intros [Hn Hw]%andb_prop. rewrite words_word by done.
  change (words 0 (EmptyString +:+ w) (String " " s)) with
    ((if is_empty w then [] else [w]) ++ words 0 EmptyString s).
  by destruct w.
Qed.
Lemma words_last w : word w = true -> words 0 EmptyString w = [w].
Proof.
  unfold word. intros [Hn Hw]%andb_prop. rewrite <- (str_app_nil_r w) at 1. rewrite words_word by done.
  by destruct w.
Qed.

Lemma last_graphic_app a b : last_graphic b = true -> last_graphic (a +:+ b) = true.
Proof.
  intros Hb. induction a as [|c a IH]; [done|]. rewrite str_app_cons.
  destruct (a +:+ b) eqn:E; [|exact IH]. by destruct a, b.
Qed.
Lemma last_graphic_word w : word w = true -> last_graphic w = true.
Proof.
  unfold word. intros [Hn Hw]%andb_prop. induction w as [|c w IH]; [done|]. cbn in Hw.
  apply andb_prop in Hw as [Hc Hw]. destruct w; [done|]. by apply IH.
Qed.
Lemma ends_with_app c a b : b <> EmptyString -> ends_with_char c (a +:+ b) = ends_with_char c b.
Proof.
  intros Hb. induction a as [|x a IH]; [done|]. rewrite str_app_cons.
  destruct (a +:+ b) eqn:E; [by destruct a, b|]. exact IH.
Qed.

(** ** The layout *)

Definition in_quotes (s : string) : string := String quote (s +:+ String quote EmptyString).

(** The line of an operation without blocks. *)
Definition statement_text (op : Op.t) : string :=
  match op with
  | Op.Push (TypedValue.Number x) => "push " +:+ f64_to_string x
  | Op.Push (TypedValue.Boolean b) => if b then "push true" else "push false"
  | Op.Push TypedValue.Null => "push null"
  | Op.Push (TypedValue.String s) => "push " +:+ in_quotes s
  | Op.Emit s => "emit " +:+ in_quotes s
  | Op.Load name => "load " +:+ name
  | Op.Store name => "store " +:+ name
  | Op.LoadP key => "loadp " +:+ key
  | Op.StoreP key => "storep " +:+ key
  | Op.Call name => "call " +:+ name
  | Op.Break => "break" | Op.Continue => "continue" | Op.Add => "add" | Op.Sub => "sub" | Op.Mul => "mul"
  | Op.Div => "div" | Op.Mod => "mod" | Op.Eq => "eq" | Op.Gt => "gt" | Op.Lt => "lt" | Op.Not => "not"
  | Op.And => "and" | Op.Or => "or" | Op.Negate => "negate" | Op.Dup => "dup" | Op.Swap => "swap"
  | Op.Over => "over" | Op.Pop => "pop" | Op.Return => "return" | Op.DumpStack => "dumpstack"
  | Op.DumpMemory => "dumpmemory" | Op.DumpState => "dumpstate"
  | _ => EmptyString
  end.

(** The first line of an operation. *)
Definition first_text (op : Op.t) : string :=
  match op with
  | Op.If _ _ _ => "if:"
  | Op.While _ _ => "while:"
  | Op.Loop count _ => "loop " +:+ u64_to_string count +:+ ":"
  | Op.Def name params _ => "def " +:+ name +:+ "(" +:+ join "," params +:+ "):"
  | _ => statement_text op
  end.

Fixpoint show (d : nat) (op : Op.t) : list string :=
  (spaces (4 * d) +:+ first_text op) ::
  match op with
  | Op.If _ then_ else_ =>
      flat_map (show (S d)) then_ ++
      match else_ with
      | Some e => (spaces (4 * d) +:+ "else:") :: flat_map (show (S d)) e
      | None => []
      end
  | Op.While condition body =>
      (spaces (4 * S d) +:+ "condition:") :: flat_map (show (S (S d))) condition ++ flat_map (show (S d)) body
  | Op.Loop _ body | Op.Def _ _ body => flat_map (show (S d)) body
  | _ => []
  end.
Definition show_ops (d : nat) (ops : list Op.t) : list string := flat_map (show d) ops.

(** A word that can stand last on its line. *)
Definition name (s : string) : bool := word s && negb (ends_with_char ":" s).
Definition ident_char (c : ascii) : bool :=
  graphic c && negb (Ascii.eqb c ":") && negb (Ascii.eqb c "(") && negb (Ascii.eqb c ")") && negb (Ascii.eqb c ",").
Definition ident (s : string) : bool := negb (is_empty s) && all_chars ident_char s.

(** A number whose text reads back. *)
Definition exact (x : f64) : bool :=
  match x with
  | S754_finite _ _ _ => match f64_shortest x with Some _ => true | None => false end
  | _ => true
  end.

Definition readable_statement (op : Op.t) : bool :=
  match op with
  | Op.Push (TypedValue.Number x) => exact x
  | Op.Push (TypedValue.Boolean _) | Op.Push TypedValue.Null => true
  | Op.Push (TypedValue.String s) => all_chars graphic s
  | Op.Emit s => all_chars printable s
  | Op.Load n | Op.Store n | Op.LoadP n | Op.StoreP n | Op.Call n => name n
  | _ => negb (is_empty (statement_text op))
  end.

(** Whether the last [if] of an operation would take an [else:] that follows. *)
Definition last_holds (P : Op.t -> bool) : list Op.t -> bool := fix go l :=
  match l with
  | [] => false
  | [op] => P op
  | _ :: l => go l
  end.
Fixpoint open_if (op : Op.t) : bool :=
  match op with
  | Op.If _ _ None => true
  | Op.If _ _ (Some e) => last_holds open_if e
  | Op.While condition [] => last_holds open_if condition
  | Op.While _ body | Op.Loop _ body | Op.Def _ _ body => last_holds open_if body
  | _ => false
  end.

(** Operations that have a layout; inside a [while], functions have none. *)
Fixpoint readable (in_while : bool) (op : Op.t) : bool :=
  match op with
  | Op.If condition then_ else_ =>
      match condition with [] => true | _ => false end && forallb (readable false) then_ &&
      match else_ with
      | Some e => forallb (readable false) e && negb (last_holds open_if then_)
      | None => true
      end
  | Op.While condition body => forallb (readable false) condition && forallb (readable true) body
  | Op.Loop count body => (count <=? u64_max)%N && forallb (readable false) body
  | Op.Def f params body =>
      negb in_while && ident f && forallb ident params && forallb (readable false) body
  | _ => readable_statement op
  end.

(** ** Statements are read back *)

(** [t] is a line of its own that reads as [op]. *)
Record reads (t : string) (op : Op.t) : Prop := {
  reads_solid : solid t = true;
  reads_no_block : ends_with_char ":" t = false;
  reads_line : forall n pos, parse_line (spaces n +:+ t) pos = Ok op;
  reads_no_setting : forall `{Chrono} pos s, Dsl.in_governance_block s = false -> Dsl.in_template_block s = false ->
    Dsl.settings t pos s = None;
}.

Lemma solid_word w : word w = true -> solid w = true.
Proof.
  intros H. unfold solid. rewrite (last_graphic_word w H). unfold word in H. apply andb_prop in H as [Hn Hw].
  rewrite (graphic_printable w Hw). destruct w as [|c w]; [done|]. cbn in Hw.
  by apply andb_prop in Hw as [-> _].
Qed.

Lemma solid_app w s : word w = true -> all_chars printable s = true -> last_graphic s = true ->
  solid (w +:+ String " " s) = true.
Proof.
  intros Hw Hs Hl. destruct (solid_parts _ (solid_word _ Hw)) as [Hp _].
  assert (all_chars printable (w +:+ String " " s) = true) as H1 by (by rewrite all_chars_app, Hp; cbn).
  assert (last_graphic (w +:+ String " " s) = true) as H2 by (apply last_graphic_app; by destruct s).
  destruct (solid_head w (solid_word w Hw)) as (c & t & -> & Hc). rewrite str_app_cons in *.
  unfold solid. by rewrite Hc, H1, H2.
Qed.

(** A command without parameters, one with a word, one with a text. *)
Lemma parse_line_simple command op n pos : word command = true -> starts_with_char "#" command = false ->
  lookup command simple_commands = Some op -> parse_line (spaces n +:+ command) pos = Ok op.
Proof.
  intros Hw Hh Hl. unfold parse_line. rewrite trim_solid by (by apply solid_word). rewrite Hh.
  unfold split_whitespace. rewrite words_spaces, words_last by done. unfold parse_command. by rewrite Hl.
Qed.

Lemma parse_line_next command s n pos : word command = true -> starts_with_char "#" command = false ->
  all_chars printable s = true -> last_graphic s = true ->
  parse_line (spaces n +:+ command +:+ String " " s) pos =
  parse_command (spaces n +:+ command +:+ String " " s) pos command (split_whitespace s).
Proof.
  intros Hw Hh Hs Hl. unfold parse_line. rewrite trim_solid by (by apply solid_app).
  assert (starts_with_char "#" (command +:+ String " " s) = false) as ->.
  { destruct command; [by apply andb_prop in Hw as [? _]|exact Hh]. }
  unfold split_whitespace. by rewrite words_spaces, words_next.
Qed.

Lemma parse_line_word command w n pos : word command = true -> starts_with_char "#" command = false ->
  word w = true ->
  parse_line (spaces n +:+ command +:+ String " " w) pos =
  parse_command (spaces n +:+ command +:+ String " " w) pos command [w].
Proof.
  intros Hc Hh Hw. destruct (solid_parts w (solid_word w Hw)). rewrite parse_line_next by done.
  unfold split_whitespace. by rewrite words_last.
Qed.

(** *** The texts of numbers *)

Definition num_char (c : ascii) : bool :=
  is_digit c || existsb (Ascii.eqb c) ["-"; "."; "N"; "a"; "i"; "n"; "f"]%char.

Lemma num_char_digits s : all_digits s = true -> all_chars num_char s = true.
Proof.
  induction s as [|c s IH]; [done|]. cbn. intros [Hc Hs]%andb_prop. unfold num_char at 1. by rewrite Hc, IH.
Qed.

Lemma num_char_decimal d s : all_chars num_char (decimal_to_string d s) = true.
Proof.
  unfold decimal_to_string. pose proof (all_digits_u64_to_string d) as Hd.
  set (ds := u64_to_string d) in *. case_match eqn:E1; [|case_match eqn:E2].
  - apply num_char_digits. by rewrite all_digits_app, Hd, all_digits_zeros.
  - set (i := Z.to_nat (Z.of_nat (String.length ds) + s)). apply Z.leb_gt in E1.
    destruct (substring_split ds i) as [Ha _]; [lia|].
    rewrite <- Ha, all_digits_app in Hd. apply andb_true_iff in Hd as [Hd1 Hd2].
    rewrite !all_chars_app, (num_char_digits _ Hd1), (num_char_digits _ Hd2). done.
  - rewrite !all_chars_app. rewrite (num_char_digits _ Hd), (num_char_digits _ (all_digits_zeros _)). done.
Qed.

Lemma num_char_f64 x : all_chars num_char (f64_to_string x) = true.
Proof.
  destruct x as [s|s| |neg m e]; [by destruct s|by destruct s|done|]. cbn [f64_to_string].
  destruct (from_option id _ _) as [d s]. rewrite all_chars_app, num_char_decimal. by destruct neg.
Qed.

Lemma f64_text_not_empty x : is_empty (f64_to_string x) = false.
Proof.
  destruct x as [s|s| |neg m e]; [by destruct s|by destruct s|done|]. cbn [f64_to_string].
  destruct (from_option id _ _) as [d s].
  assert (is_empty (decimal_to_string d s) = false) as H.
  { unfold decimal_to_string. destruct (u64_to_string_cons d) as (c & t & -> & _).
    destruct (_ <=? _)%Z; [done|]. destruct (_ <? _)%Z eqn:E; [|done]. apply Z.ltb_lt in E.
    set (i := Z.to_nat _). assert (0 < i) by lia. by destruct i; [lia|]. }
  by destruct neg.
Qed.

Lemma num_char_graphic c : num_char c = true -> graphic c = true.
Proof. destruct c as [[] [] [] [] [] [] [] []]; vm_compute; congruence. Qed.

Lemma word_f64 x : word (f64_to_string x) = true.
Proof.
  unfold word. rewrite f64_text_not_empty. cbn. eapply all_chars_impl; [apply num_char_graphic|apply num_char_f64].
Qed.

Lemma ends_with_not P c s : all_chars P s = true -> P c = false -> ends_with_char c s = false.
Proof.
  intros Hs Hc. induction s as [|x s IH]; [done|]. cbn in Hs. apply andb_prop in Hs as [Hx Hs].
  destruct s as [|y s]; [|by apply IH]. cbn. destruct (Ascii.eqb_spec x c) as [->|]; congruence.
Qed.
Lemma starts_with_not P c s : all_chars P s = true -> P c = false -> starts_with_char c s = false.
Proof.
  intros Hs Hc. destruct s as [|x s]; [done|]. cbn in *. apply andb_prop in Hs as [Hx _].
  destruct (Ascii.eqb_spec x c) as [->|]; congruence.
Qed.
Lemma not_text P s t : all_chars P s = true -> all_chars P t = false -> String.eqb s t = false.
Proof. intros Hs Ht. destruct (String.eqb_spec s t) as [->|]; congruence. Qed.

Lemma exact_prints x : exact x = true -> prints_exactly x.
Proof.
  unfold exact, prints_exactly. destruct x; try done. intros H He. by rewrite He in H.
Qed.

Lemma parse_push_f64 pos x : exact x = true ->
  parse_push pos [f64_to_string x] = Ok (Op.Push (TypedValue.Number x)).
Proof.
  intros Hx. pose proof (num_char_f64 x) as Hn. unfold parse_push. cbn -[f64_to_string String.eqb].
  rewrite !(not_text num_char) by done. unfold quoted. rewrite (starts_with_not num_char) by done.
  cbn -[f64_to_string]. rewrite parse_f64_to_string_exact; [done|].
  by apply exact_prints.
Qed.

(** *** Texts in quotes *)

Lemma last_graphic_quoted s : last_graphic (in_quotes s) = true.
Proof. unfold in_quotes. rewrite <- str_app_cons. by apply last_graphic_app. Qed.
Lemma word_quoted s : all_chars graphic s = true -> word (in_quotes s) = true.
Proof. intros H. unfold word, in_quotes. cbn. by rewrite all_chars_app, H. Qed.
Lemma printable_quoted s : all_chars printable s = true -> all_chars printable (in_quotes s) = true.
Proof. intros H. unfold in_quotes. cbn. by rewrite all_chars_app, H. Qed.

Lemma substring_app a s b : String.substring (String.length a) (String.length s) (a +:+ s +:+ b) = s.
Proof.
  induction a as [|c a IH]; [|by rewrite str_app_cons]. change (EmptyString +:+ ?x) with x. cbn [String.length].
  induction s as [|c s IH]; [by destruct b|]. rewrite str_app_cons. cbn. by rewrite IH.
Qed.

(** The text between the quotes, from the position after the first. *)
Lemma slice_quoted {E} a s :
  slice (String.length a + 1) (String.length a + 1 + String.length s) (a +:+ in_quotes s) = (Ok s : res E string).
Proof.
  unfold slice, in_quotes.
  assert (String.length (a +:+ String quote (s +:+ String quote EmptyString)) =
          String.length a + 1 + String.length s + 1) as ->.
  { rewrite length_str_app. cbn [String.length]. rewrite length_str_app. cbn. lia. }
  rewrite (proj2 (Nat.leb_le _ _)), (proj2 (Nat.leb_le _ _)) by lia. cbn [andb]. f_equal.
  replace (String.length a + 1 + String.length s - (String.length a + 1)) with (String.length s) by lia.
  replace (String.length a + 1) with (String.length (a +:+ String quote EmptyString))
    by (rewrite length_str_app; done).
  replace (a +:+ String quote (s +:+ String quote EmptyString)) with
    ((a +:+ String quote EmptyString) +:+ s +:+ String quote EmptyString) by (by rewrite str_app_assoc).
  apply substring_app.
Qed.

Lemma quoted_in_quotes s : quoted (in_quotes s) = true.
Proof. unfold quoted, in_quotes. cbn [starts_with_char]. rewrite <- str_app_cons. by rewrite ends_with_app. Qed.
Lemma unquote_in_quotes {E} s : unquote (in_quotes s) = (Ok s : res E string).
Proof.
  unfold unquote. replace (String.length (in_quotes s) - 1) with (1 + String.length s)
    by (unfold in_quotes; cbn; rewrite length_str_app; cbn; lia).
  exact (slice_quoted EmptyString s).
Qed.

Lemma find_quote a s : all_chars (fun c => negb (Ascii.eqb c quote)) a = true ->
  find_char quote (a +:+ in_quotes s) = Some (String.length a).
Proof.
  induction a as [|c a IH]; [done|]. rewrite str_app_cons. cbn [all_chars find_char].
  intros [Hc Ha]%andb_prop. apply negb_true_iff in Hc. rewrite Hc, IH by done. done.
Qed.
Lemma rfind_quote a : rfind_char quote (a +:+ String quote EmptyString) = Some (String.length a).
Proof. induction a as [|c a IH]; [done|]. rewrite str_app_cons. cbn [rfind_char]. by rewrite IH. Qed.

Lemma parse_emit_quoted a s pos : all_chars (fun c => negb (Ascii.eqb c quote)) a = true ->
  parse_emit (a +:+ in_quotes s) pos = Ok (Op.Emit s).
Proof.
  intros Ha. unfold parse_emit. rewrite find_quote by done. unfold quoted_text.
  assert (rfind_char quote (a +:+ in_quotes s) = Some (String.length a + 1 + String.length s)) as ->.
  { unfold in_quotes. rewrite <- str_app_cons, <- str_app_assoc, rfind_quote, length_str_app. cbn. f_equal. lia. }
  cbn [default]. unfold id. by rewrite slice_quoted.
Qed.

Lemma parse_push_quoted pos s : parse_push pos [in_quotes s] = Ok (Op.Push (TypedValue.String s)).
Proof.
  unfold parse_push. cbn -[in_quotes quoted unquote]. rewrite quoted_in_quotes, unquote_in_quotes. done.
Qed.

(** *** Every statement *)

(** The names of commands with parameters. *)
Definition with_parameters (c : string) : bool :=
  existsb (String.eqb c) ["push"; "emit"; "load"; "store"; "loadp"; "storep"; "call"].

Ltac by_command H :=
  let H' := fresh in
  apply existsb_exists in H as (? & H' & ->%String.eqb_eq); cbn in H';
  repeat (destruct H' as [<-|H']; [done|]); done.

Lemma command_no_setting `{Chrono} command s pos st : with_parameters command = true ->
  Dsl.in_governance_block st = false -> Dsl.in_template_block st = false ->
  Dsl.settings (command +:+ String " " s) pos st = None.
Proof. intros Hc H1 H2. unfold Dsl.settings. rewrite H1, H2. by_command Hc. Qed.
Lemma command_word command : with_parameters command = true ->
  word command = true /\ starts_with_char "#" command = false.
Proof. intros Hc. by_command Hc. Qed.

Lemma reads_text command s op : with_parameters command = true ->
  all_chars printable s = true -> last_graphic s = true -> ends_with_char ":" s = false ->
  (forall n pos, parse_command (spaces n +:+ command +:+ String " " s) pos command (split_whitespace s) = Ok op) ->
  reads (command +:+ String " " s) op.
Proof.
  intros Hc Hs Hl He Hp. destruct (command_word _ Hc). split.
  - by apply solid_app.
  - rewrite ends_with_app by done. by destruct s.
  - intros n pos. rewrite parse_line_next by done. apply Hp.
  - intros. by apply command_no_setting.
Qed.

Lemma reads_word command w op : with_parameters command = true -> word w = true -> ends_with_char ":" w = false ->
  (forall line pos, parse_command line pos command [w] = Ok op) -> reads (command +:+ String " " w) op.
Proof.
  intros Hc Hw He Hp. destruct (solid_parts w (solid_word w Hw)). apply reads_text; try done.
  intros n pos. unfold split_whitespace. by rewrite words_last.
Qed.

Lemma reads_simple command op : lookup command simple_commands = Some op -> reads command op.
Proof.
  intros Hl. assert (word command = true /\ starts_with_char "#" command = false /\
      ends_with_char ":" command = false /\
      forall `{Chrono} pos s, Dsl.in_governance_block s = false -> Dsl.in_template_block s = false ->
        Dsl.settings command pos s = None) as (H1 & H2 & H3 & H4).
  { unfold simple_commands in Hl. repeat (cbn [lookup] in Hl;
      match type of Hl with context [String.eqb command ?c] => destruct (String.eqb_spec command c) as [->|_] end;
        [do 3 (split; [done|]); intros ? pos s H1 H2; unfold Dsl.settings; by rewrite H1, H2|]). discriminate Hl. }
  split; try done; [by apply solid_word|]. intros n pos. by apply parse_line_simple.
Qed.

Lemma quoted_text_ends s : ends_with_char ":" (in_quotes s) = false.
Proof.
  change (in_quotes s) with ((String quote s) +:+ String quote EmptyString). by rewrite ends_with_app.
Qed.

Lemma push_reads v : readable_statement (Op.Push v) = true -> reads (statement_text (Op.Push v)) (Op.Push v).
Proof.
  destruct v as [x|b|s|]; cbn [readable_statement statement_text]; intros H.
  - apply (reads_word "push"); [done|apply word_f64|eapply ends_with_not; [apply num_char_f64|done]|].
    intros line pos. exact (parse_push_f64 pos x H).
  - destruct b; [by apply (reads_word "push" "true")|by apply (reads_word "push" "false")].
  - apply (reads_word "push"); [done|by apply word_quoted|apply quoted_text_ends|].
    intros line pos. apply parse_push_quoted.
  - by apply (reads_word "push" "null").
Qed.
Lemma emit_reads s : all_chars printable s = true -> reads (statement_text (Op.Emit s)) (Op.Emit s).
Proof.
  intros H. apply (reads_text "emit"); [done|by apply printable_quoted|apply last_graphic_quoted|apply quoted_text_ends|].
  intros n pos. change ("emit" +:+ String " " (in_quotes s)) with ("emit " +:+ in_quotes s).
  rewrite <- str_app_assoc. apply parse_emit_quoted.
  rewrite all_chars_app. induction n as [|n IH]; [done|exact IH].
Qed.

Lemma statement_reads op : readable_statement op = true -> reads (statement_text op) op.
Proof.
  intros H. destruct op; try discriminate H; try (by apply push_reads); try (by apply emit_reads);
    cbn [statement_text]; try (by apply reads_simple).
  all: unfold readable_statement, name in H; apply andb_prop in H as [Hw He]; apply negb_true_iff in He;
    first [by apply (reads_word "load")|by apply (reads_word "store")|by apply (reads_word "loadp")
          |by apply (reads_word "storep")|by apply (reads_word "call")].
Qed.

(** ** The lines of a layout *)

Definition has_block (op : Op.t) : bool :=
  match op with Op.If _ _ _ | Op.While _ _ | Op.Loop _ _ | Op.Def _ _ _ => true | _ => false end.

Lemma graphic_ident s : all_chars ident_char s = true -> all_chars graphic s = true.
Proof. apply all_chars_impl. intros c Hc. unfold ident_char in Hc. by do 4 apply andb_prop in Hc as [Hc _]. Qed.
Lemma graphic_join params : forallb ident params = true -> all_chars graphic (join "," params) = true.
Proof.
  induction params as [|p params IH]; [done|]. cbn [forallb]. intros [[_ Hp]%andb_prop Hps]%andb_prop.
  apply graphic_ident in Hp. unfold join in *. cbn [String.concat].
  destruct params as [|q params]; [done|]. by rewrite !all_chars_app, Hp, IH.
Qed.

Lemma graphic_u64 n : all_chars graphic (u64_to_string n) = true.
Proof.
  eapply all_chars_impl; [apply num_char_graphic|]. apply num_char_digits, all_digits_u64_to_string.
Qed.

Lemma readable_statement_iff b op : has_block op = false -> readable b op = readable_statement op.
Proof. by destruct op. Qed.
Lemma first_statement op : has_block op = false -> first_text op = statement_text op.
Proof. by destruct op. Qed.

Lemma colon_solid c s : graphic c = true -> all_chars printable s = true -> solid (String c (s +:+ ":")) = true.
Proof.
  intros Hc Hs. unfold solid. rewrite <- str_app_cons, last_graphic_app, all_chars_app by done.
  cbn. rewrite Hc, Hs. unfold printable. by rewrite Hc.
Qed.

Lemma first_solid b op : readable b op = true -> solid (first_text op) = true.
Proof.
  intros H. destruct (has_block op) eqn:Hb.
  - destruct op; try discriminate Hb; [done| |done|].
    + apply (colon_solid "l" ("oop " +:+ u64_to_string count)); [done|].
      by rewrite all_chars_app, (graphic_printable _ (graphic_u64 _)).
    + cbn in H. apply andb_prop in H as [[[_ [_ Hn]%andb_prop]%andb_prop Hp]%andb_prop _].
      apply graphic_ident, graphic_printable in Hn. apply graphic_join, graphic_printable in Hp.
      cbn [first_text]. rewrite <- !str_app_assoc. rewrite !str_app_assoc.
      replace ("def " +:+ name0 +:+ "(" +:+ join "," params +:+ "):") with
        (String "d" (("ef " +:+ name0 +:+ "(" +:+ join "," params +:+ ")") +:+ ":"))
        by (rewrite !str_app_assoc; done).
      apply colon_solid; [done|]. by rewrite !all_chars_app, Hn, Hp.
  - rewrite first_statement by done. rewrite (readable_statement_iff b) in H by done.
    apply (reads_solid _ _ (statement_reads op H)).
Qed.

(** The line that opens or is an operation is no part of another one. *)
Lemma first_not_reserved b op : readable b op = true ->
  String.eqb (first_text op) "else:" = false /\ String.eqb (first_text op) "condition:" = false.
Proof.
  intros H. destruct (has_block op) eqn:Hb; [by destruct op|].
  rewrite first_statement by done. rewrite (readable_statement_iff b) in H by done.
  pose proof (reads_no_block _ _ (statement_reads op H)) as He.
  split; apply String.eqb_neq; intros E; by rewrite E in He.
Qed.

Lemma readable_not_nop b op : readable b op = true -> is_nop op = false.
Proof. by destruct op. Qed.

(** ** Where the parsers stand

    From line [i] on the source is a layout and then [rest]; [rest] starts with
    a line that ends the block at [base], if it has one. *)
Definition stops (base : nat) (rest : list string) : bool :=
  match rest with [] => true | line :: _ => negb (is_blank line) && (Common.get_indent line <=? base) end.
Definition no_else (rest : list string) : bool :=
  match rest with [] => true | line :: _ => negb (String.eqb (trim line) "else:") end.

Lemma stops_le base base' rest : stops base rest = true -> base <= base' -> stops base' rest = true.
Proof.
  destruct rest as [|line rest]; [done|]. cbn. intros [-> H]%andb_prop Hb. apply Nat.leb_le in H. apply Nat.leb_le. lia.
Qed.

Lemma is_blank_solid n s : solid s = true -> is_blank (spaces n +:+ s) = false.
Proof.
  intros H. destruct (solid_parts _ H). apply not_blank; [|by apply last_graphic_app].
  rewrite all_chars_app. by replace (all_chars printable (spaces n)) with true by (induction n; done).
Qed.

Lemma stops_text base n s rest : solid s = true -> n <= base -> stops base ((spaces n +:+ s) :: rest) = true.
Proof.
  intros H Hn. cbn. rewrite is_blank_solid, indent_solid by done. by apply Nat.leb_le.
Qed.
Lemma no_else_text n s rest : solid s = true -> String.eqb s "else:" = false ->
  no_else ((spaces n +:+ s) :: rest) = true.
Proof. intros H He. cbn. by rewrite trim_solid, He. Qed.

(** What follows an operation of a block. *)
Lemma show_head d op : exists more, show d op = (spaces (4 * d) +:+ first_text op) :: more.
Proof. destruct op; by eexists. Qed.

Lemma stops_ops d base ops b rest : forallb (readable b) ops = true -> stops base rest = true -> base <= 4 * d ->
  stops (4 * d) (show_ops d ops ++ rest) = true.
Proof.
  destruct ops as [|op ops]; [intros; by eapply stops_le|]. cbn [forallb show_ops flat_map].
  intros [H _]%andb_prop _ _. destruct (show_head d op) as [more ->]. apply stops_text; [by eapply first_solid|done].
Qed.
Lemma no_else_ops d op ops b rest : forallb (readable b) (op :: ops) = true ->
  no_else (show_ops d (op :: ops) ++ rest) = true.
Proof.
  cbn [forallb show_ops flat_map]. intros [H _]%andb_prop. destruct (show_head d op) as [more ->].
  apply no_else_text; [by eapply first_solid|by apply (first_not_reserved b)].
Qed.

Section At.

Context {lines : list string} {i : nat}.

Lemma at_line {line rest} : drop i lines = line :: rest -> lines !! i = Some line.
Proof. intros H. rewrite <- (Nat.add_0_r i), <- lookup_drop. by rewrite H. Qed.
Lemma at_end : drop i lines = [] -> lines !! i = None.
Proof. intros H. rewrite <- (Nat.add_0_r i), <- lookup_drop. by rewrite H. Qed.
Lemma at_next {line rest} : drop i lines = line :: rest -> drop (S i) lines = rest.
Proof. intros H. replace (S i) with (i + 1) by lia. rewrite <- drop_drop. by rewrite H. Qed.
Lemma at_after {block rest} : drop i lines = block ++ rest -> drop (i + length block) lines = rest.
Proof. intros H. rewrite <- drop_drop, H. by rewrite drop_app_length. Qed.

End At.

(** ** Blocks are read back *)

(** The parser that the first line of [op] selects. *)
Definition block_of (fuel : nat) (op : Op.t) (lines : list string) (pos : SourcePosition) : M Op.t :=
  match op with
  | Op.If _ _ _ => parse_if_block (parse_block fuel) lines pos
  | Op.While _ _ => parse_while_block fuel lines pos
  | Op.Loop _ _ => parse_loop_block (parse_block fuel) lines pos
  | _ => parse_function_block (parse_block fuel) lines pos
  end.

Lemma app_not_empty a b : b <> EmptyString -> a +:+ b <> EmptyString.
Proof. by destruct a. Qed.

Lemma first_block b op : readable b op = true -> ends_with_char ":" (first_text op) = has_block op.
Proof.
  intros H. destruct (has_block op) eqn:Hb.
  - destruct op; try discriminate Hb; try done.
    + change (first_text (Op.Loop count body0)) with ("loop " +:+ (u64_to_string count +:+ ":")).
      by rewrite <- str_app_assoc, ends_with_app.
    + change (first_text (Op.Def name0 params body0)) with ("def " +:+ name0 +:+ "(" +:+ join "," params +:+ "):").
      by rewrite !ends_with_app by auto using app_not_empty.
  - rewrite first_statement by done. rewrite (readable_statement_iff b) in H by done.
    apply (reads_no_block _ _ (statement_reads op H)).
Qed.

Lemma starts_loop count b : str_starts_with "loop " (first_text (Op.Loop count b)) = true.
Proof. apply (str_starts_with_app "loop "). Qed.
Lemma starts_def f params b : str_starts_with "def " (first_text (Op.Def f params b)) = true.
Proof. apply (str_starts_with_app "def "). Qed.

Lemma nested_kind fuel lines base op pos : has_block op = true ->
  parse_nested (parse_block fuel) (parse_while_block fuel) fuel lines base (first_text op) pos =
  block_of fuel op lines pos.
Proof. intros H. destruct op; try done; unfold parse_nested; by rewrite ?starts_loop, ?starts_def. Qed.
Lemma nested_kind_while fuel lines op pos : readable true op = true -> has_block op = true ->
  nested_in_while (parse_block fuel) (parse_while_block fuel) fuel lines (first_text op) pos =
  block_of fuel op lines pos.
Proof. intros Hr H. destruct op; try done; unfold nested_in_while; by rewrite starts_loop. Qed.
Lemma top_kind fuel lines op pos : has_block op = true ->
  Dsl.top_block fuel lines (first_text op) pos = block_of fuel op lines pos.
Proof. intros H. destruct op; try done; unfold Dsl.top_block; by rewrite ?starts_loop, ?starts_def. Qed.

(** [op] is read back, wherever its layout stands. *)
Definition is_read (op : Op.t) : Prop := forall b fuel d lines i rest pos,
  readable b op = true -> has_block op = true -> drop i lines = show d op ++ rest ->
  stops (4 * d) rest = true -> (open_if op = true -> no_else rest = true) ->
  2 * length (drop i lines) + 1 <= fuel ->
  block_of fuel op lines pos i = (i + length (show d op), Ok op).

Lemma line_is_read b op n pos i : readable b op = true -> has_block op = false ->
  statement (spaces n +:+ first_text op) pos i = (i, Ok op).
Proof.
  intros H Hb. rewrite first_statement by done. rewrite (readable_statement_iff b) in H by done.
  unfold statement, lift. by rewrite (reads_line _ _ (statement_reads op H)).
Qed.

Lemma show_line d op : has_block op = false -> show d op = [spaces (4 * d) +:+ first_text op].
Proof. by destruct op. Qed.

Ltac reader_step i a := rewrite (stm_bind_eq _ _ i i a) by done.

(** One item of a block: the text [s] at column [n], and the rest of the block. *)
Definition item (fuel : nat) (lines : list string) (base n : nat) (s : string) (pos : SourcePosition) : M Op.t :=
  if ends_with_char ":" s then parse_nested (parse_block fuel) (parse_while_block fuel) fuel lines base s pos
  else op ← statement (spaces n +:+ s) pos; _ ← advance; mret op.

Lemma parse_block_cons fuel lines base n s more pos op ops i j k :
  drop i lines = (spaces n +:+ s) :: more -> solid s = true -> base < n ->
  item fuel lines base n s {| pos_line := pos_line pos + i; pos_column := n + 1 |} i = (j, Ok op) ->
  is_nop op = false -> parse_block fuel lines base pos j = (k, Ok ops) ->
  parse_block (S fuel) lines base pos i = (k, Ok (op :: ops)).
Proof.
  intros Hat Hs Hn Hop Hnop Hops. cbn [parse_block]. rewrite (stm_bind_eq _ _ i i i) by done.
  rewrite (at_line Hat), is_blank_solid, indent_solid, trim_solid by done.
  rewrite (proj2 (Nat.leb_gt _ _)) by lia. reader_step i {| pos_line := pos_line pos + i; pos_column := n + 1 |}.
  unfold item in Hop. rewrite (stm_bind_eq _ _ _ _ _ Hop), (stm_bind_eq _ _ _ _ _ Hops). by rewrite Hnop.
Qed.

Lemma parse_block_nil fuel lines base rest pos i :
  drop i lines = rest -> stops base rest = true -> parse_block (S fuel) lines base pos i = (i, Ok []).
Proof.
  intros Hat Hs. cbn [parse_block]. rewrite (stm_bind_eq _ _ i i i) by done. destruct rest as [|line rest].
  - by rewrite (at_end Hat).
  - rewrite (at_line Hat). apply andb_prop in Hs as [Hs1 Hs2]. apply negb_true_iff in Hs1. by rewrite Hs1, Hs2.
Qed.

Lemma item_is_read op fuel d lines base i rest pos : is_read op -> readable false op = true ->
  drop i lines = show d op ++ rest -> stops (4 * d) rest = true -> (open_if op = true -> no_else rest = true) ->
  2 * length (drop i lines) + 1 <= fuel ->
  item fuel lines base (4 * d) (first_text op) pos i = (i + length (show d op), Ok op).
Proof.
  intros Hop Hr Hat Hs He Hf. unfold item. rewrite (first_block _ _ Hr). destruct (has_block op) eqn:Hb.
  - rewrite nested_kind by done. by apply (Hop false fuel d lines i rest).
  - rewrite (stm_bind_eq _ _ i i op) by (by apply (line_is_read false)). by rewrite (show_line d op Hb), Nat.add_1_r.
Qed.

Lemma block_is_read ops : Forall is_read ops -> forallb (readable false) ops = true ->
  forall fuel d base lines i rest pos, base < 4 * d ->
  drop i lines = show_ops d ops ++ rest -> stops base rest = true ->
  (last_holds open_if ops = true -> no_else rest = true) ->
  2 * length (drop i lines) + 2 <= fuel ->
  parse_block fuel lines base pos i = (i + length (show_ops d ops), Ok ops).
Proof.
  induction 1 as [|op ops Hop _ IH]; intros Hr fuel d base lines i rest pos Hd Hat Hs He Hf;
    (destruct fuel as [|fuel]; [lia|]).
  - rewrite Nat.add_0_r. by apply (parse_block_nil _ _ _ rest).
  - cbn [forallb] in Hr. apply andb_prop in Hr as [Hr Hrs].
    assert (drop i lines = show d op ++ (show_ops d ops ++ rest)) as Hat' by (by rewrite Hat, app_assoc).
    destruct (show_head d op) as [more Hm]. pose proof Hat' as Hl. rewrite Hm in Hl. cbn [app] in Hl.
    pose proof (f_equal length Hat') as Hlen. rewrite length_app in Hlen.
    assert (1 <= length (show d op)) by (rewrite Hm; cbn; lia).
    change (show_ops d (op :: ops)) with (show d op ++ show_ops d ops). rewrite length_app, Nat.add_assoc.
    eapply parse_block_cons; [exact Hl|by eapply first_solid|done| |by eapply readable_not_nop|].
    + apply (item_is_read op fuel d lines base i (show_ops d ops ++ rest)); try done; [| |lia].
      * by apply (stops_ops d base ops false); [..|lia].
      * intros Ho. destruct ops as [|op' ops]; [by apply He|by apply (no_else_ops d op' ops false)].
    + apply (IH Hrs fuel d base lines _ rest); try done; [exact (at_after Hat')| |rewrite (at_after Hat'); lia].
      intros Hl1. apply He. by destruct ops.
Qed.

(** The block after a first line. *)
Lemma body_is_read ops : Forall is_read ops -> forallb (readable false) ops = true ->
  forall fuel d line lines i rest pos, drop i lines = line :: show_ops (S d) ops ++ rest ->
  stops (4 * d) rest = true -> (last_holds open_if ops = true -> no_else rest = true) ->
  2 * length (drop i lines) <= fuel ->
  parse_block fuel lines (4 * d) pos (S i) = (S i + length (show_ops (S d) ops), Ok ops).
Proof.
  intros Hi Hr fuel d line lines i rest pos Hat Hs He Hf. pose proof (at_next Hat) as Hn.
  apply (block_is_read ops Hi Hr fuel (S d) _ _ _ rest); try done; [lia|].
  rewrite Hn. rewrite Hat in Hf. cbn [length] in Hf. lia.
Qed.

Lemma current_at {lines i line rest} : drop i lines = line :: rest -> current lines i = (i, Ok line).
Proof. intros H. unfold current. by rewrite (at_line H). Qed.

Lemma if_is_read then_ else_ :
  Forall is_read then_ -> Forall is_read (default [] else_) -> is_read (Op.If [] then_ else_).
Proof.
  intros Ht He b fuel d lines i rest pos Hr _ Hat Hs Ho Hf. cbn [readable] in Hr.
  apply andb_prop in Hr as [Hrt Hre]. cbn [andb] in Hrt.
  cbn [show app] in Hat. pose proof Hat as Hat1. rewrite <- app_assoc in Hat1.
  change (flat_map (show (S d)) then_) with (show_ops (S d) then_) in *.
  assert (Hso : solid "if:" = true) by done. unfold block_of, parse_if_block.
  rewrite (stm_bind_eq _ _ _ _ _ (current_at Hat1)). cbn [first_text] in *. rewrite indent_solid by done.
  rewrite (stm_bind_eq _ _ i (S i) tt) by done.
  destruct else_ as [e|]; cbn [app] in Hat1.
  - apply andb_prop in Hre as [Hre Hno]. apply negb_true_iff in Hno.
    rewrite (stm_bind_eq _ _ _ _ _ (body_is_read then_ Ht Hrt fuel d _ lines i _ pos Hat1
      (stops_text (4 * d) (4 * d) "else:" _ eq_refl (le_n _)) ltac:(by rewrite Hno) ltac:(lia))).
    pose proof (at_after (block := _ :: show_ops (S d) then_) Hat1) as Hat2. cbn [length] in Hat2.
    rewrite Nat.add_succ_r in Hat2. change (S (i + ?n)) with (S i + n) in Hat2.
    set (j := S i + length (show_ops (S d) then_)) in *.
    reader_step j j. rewrite (at_line Hat2), trim_solid by done. cbn [String.eqb Ascii.eqb Bool.eqb].
    rewrite indent_solid by done.
    reader_step j {| pos_line := pos_line pos + j; pos_column := 4 * d + 1 |}.
    rewrite (stm_bind_eq _ _ j (S j) tt) by done.
    assert (length (drop j lines) <= length (drop i lines)) by (rewrite !length_drop; lia).
    rewrite (stm_bind_eq _ _ _ _ _ (body_is_read e He Hre fuel d _ lines j rest _ Hat2 Hs Ho ltac:(lia))).
    unfold mret, stm_ret. f_equal. cbn [show length]. rewrite length_app. cbn [length]. unfold j, show_ops. lia.
  - rewrite (stm_bind_eq _ _ _ _ _ (body_is_read then_ Ht Hrt fuel d _ lines i rest pos Hat1 Hs
      ltac:(by intros _; apply Ho) ltac:(lia))).
    pose proof (at_after (block := _ :: show_ops (S d) then_) Hat1) as Hat2. cbn [length] in Hat2.
    rewrite Nat.add_succ_r in Hat2. change (S (i + ?n)) with (S i + n) in Hat2.
    set (j := S i + length (show_ops (S d) then_)) in *. reader_step j j.
    assert ((j, Ok (Op.If [] then_ None) : res CompilerError.t Op.t) =
            (i + length (show d (Op.If [] then_ None)), Ok (Op.If [] then_ None))) as Hend.
    { f_equal. cbn [show length]. rewrite length_app. cbn [length]. unfold j, show_ops. lia. }
    specialize (Ho eq_refl). destruct rest as [|line rest].
    + rewrite (at_end Hat2). exact Hend.
    + rewrite (at_line Hat2). cbn in Ho. apply negb_true_iff in Ho. rewrite Ho. exact Hend.
Qed.

(** *** Counts and signatures *)

Definition other_than (c x : ascii) : bool := negb (Ascii.eqb x c).

Lemma trim_end_matches_last c a : trim_end_matches c (a +:+ String c EmptyString) = trim_end_matches c a.
Proof.
  induction a as [|x a IH]; [change (EmptyString +:+ ?s) with s; cbn [trim_end_matches]; by rewrite Ascii.eqb_refl|].
  rewrite str_app_cons. cbn [trim_end_matches].
  by rewrite IH.
Qed.
Lemma trim_end_matches_none c a : ends_with_char c a = false -> trim_end_matches c a = a.
Proof.
  induction a as [|x a IH]; [done|]. intros H. cbn [trim_end_matches]. destruct a as [|y a].
  - cbn in *. by rewrite H.
  - rewrite IH by exact H. done.
Qed.
Lemma split_once_at c a b : all_chars (other_than c) a = true -> split_once c (a +:+ String c b) = Some (a, b).
Proof.
  induction a as [|x a IH]; [change (EmptyString +:+ ?s) with s; cbn [split_once]; by rewrite Ascii.eqb_refl|].
  rewrite str_app_cons. cbn [all_chars split_once].
  intros [Hx Ha]%andb_prop. apply negb_true_iff in Hx. rewrite Hx, IH by done. done.
Qed.
Lemma contains_char_at c a b : contains_char c (a +:+ String c b) = true.
Proof.
  unfold contains_char. apply bool_decide_eq_true. induction a as [|x a IH]; [constructor|].
  rewrite str_app_cons. by constructor.
Qed.

Lemma split_char_none c a : all_chars (other_than c) a = true -> split_char c a = [a].
Proof.
  induction a as [|x a IH]; [done|]. cbn [all_chars split_char]. intros [Hx Ha]%andb_prop.
  apply negb_true_iff in Hx. by rewrite IH, Hx.
Qed.
Lemma split_char_some c a : split_char c a <> [].
Proof.
  induction a as [|x a IH]; [done|]. cbn [split_char]. destruct (split_char c a); [done|]. by destruct (Ascii.eqb x c).
Qed.
Lemma split_char_at c a b : all_chars (other_than c) a = true ->
  split_char c (a +:+ String c b) = a :: split_char c b.
Proof.
  induction a as [|x a IH].
  - intros _. change (EmptyString +:+ ?s) with s. cbn [split_char]. rewrite Ascii.eqb_refl.
    destruct (split_char c b) eqn:E; [by apply split_char_some in E|done].
  - rewrite str_app_cons. cbn [all_chars]. intros [Hx Ha]%andb_prop. cbn [split_char].
    apply negb_true_iff in Hx. by rewrite IH, Hx.
Qed.

Lemma chars_spaces P n : P " "%char = true -> all_chars P (spaces n) = true.
Proof. intros H. induction n as [|n IH]; [done|]. cbn. by rewrite H. Qed.

Lemma ident_other c s : ident_char c = false -> all_chars ident_char s = true -> all_chars (other_than c) s = true.
Proof.
  intros Hc. apply all_chars_impl. intros x Hx. unfold other_than. destruct (Ascii.eqb_spec x c) as [->|]; [congruence|done].
Qed.
Lemma solid_ident s : ident s = true -> solid s = true.
Proof. intros [Hn Hs]%andb_prop. apply solid_word. unfold word. by rewrite Hn, graphic_ident. Qed.
Lemma trim_ident s : ident s = true -> trim s = s.
Proof. intros H. exact (trim_solid 0 s (solid_ident s H)). Qed.

(** The parameters, split at their commas. *)
Lemma split_params params : forallb ident params = true -> params <> [] -> split_char "," (join "," params) = params.
Proof.
  induction params as [|p params IH]; [done|]. cbn [forallb]. intros [[_ Hp]%andb_prop Hps]%andb_prop _.
  apply (ident_other ",") in Hp; [|done]. unfold join in *. cbn [String.concat].
  destruct params as [|q params]; [by apply split_char_none|].
  change (p +:+ "," +:+ String.concat "," (q :: params)) with (p +:+ String "," (String.concat "," (q :: params))).
  rewrite split_char_at, IH by done. done.
Qed.
Lemma read_params params : forallb ident params = true ->
  filter (fun p => is_empty p = false) (trim <$> split_char "," (join "," params)) = params.
Proof.
  intros H. destruct params as [|p params]; [done|]. rewrite split_params by done. revert H.
  induction (p :: params) as [|q l IH]; [done|]. cbn [forallb]. intros [Hq Hl]%andb_prop.
  rewrite fmap_cons, trim_ident by done. unfold ident in Hq. apply andb_prop in Hq as [Hq _].
  apply negb_true_iff in Hq. rewrite filter_cons_True, IH by done. done.
Qed.

Lemma chars_params params : forallb ident params = true -> all_chars (other_than ")") (join "," params) = true.
Proof.
  induction params as [|p params IH]; [done|]. cbn [forallb]. intros [[_ Hp]%andb_prop Hps]%andb_prop.
  apply (ident_other ")") in Hp; [|done]. unfold join in *. cbn [String.concat].
  destruct params as [|q params]; [done|]. by rewrite !all_chars_app, Hp, IH.
Qed.

Lemma other_ends c s : all_chars (other_than c) s = true -> ends_with_char c s = false.
Proof. intros H. apply (ends_with_not (other_than c)); [done|]. unfold other_than. by rewrite Ascii.eqb_refl. Qed.

Lemma signature_is_read n f params pos : ident f = true -> forallb ident params = true ->
  parse_function_signature (spaces n +:+ "def " +:+ f +:+ "(" +:+ join "," params +:+ "):") pos = Ok (f, params).
Proof.
  intros Hf Hp. pose proof Hf as [_ Hf']%andb_prop. unfold parse_function_signature.
  assert (spaces n +:+ "def " +:+ f +:+ "(" +:+ join "," params +:+ "):" =
          ((spaces n +:+ "def " +:+ f) +:+ "(" +:+ join "," params +:+ ")") +:+ ":") as ->.
  { by rewrite !str_app_assoc. }
  rewrite trim_end_matches_last.
  rewrite trim_end_matches_none by (by rewrite !ends_with_app by auto using app_not_empty).
  change ("(" +:+ ?s) with (String "(" s). rewrite split_once_at.
  2: { rewrite !all_chars_app, chars_spaces by done. by rewrite (ident_other _ f). }
  assert (trim (spaces n +:+ "def " +:+ f) = "def " +:+ f) as ->.
  { pose proof (solid_ident f Hf) as Hs. destruct (solid_parts f Hs).
    apply trim_solid. by apply (solid_app "def" f). }
  rewrite strip_prefix_app, trim_ident by done. rewrite trim_end_matches_last.
  rewrite trim_end_matches_none by (by apply other_ends, chars_params). by rewrite read_params.
Qed.

Lemma def_is_read f params ops : Forall is_read ops -> is_read (Op.Def f params ops).
Proof.
  intros Ho b fuel d lines i rest pos Hr _ Hat Hs He Hf. cbn [readable] in Hr.
  apply andb_prop in Hr as [[[_ Hn]%andb_prop Hp]%andb_prop Hops].
  cbn [show app first_text] in Hat. change (flat_map (show (S d)) ops) with (show_ops (S d) ops) in *.
  unfold block_of, parse_function_block. rewrite (stm_bind_eq _ _ _ _ _ (current_at Hat)).
  set (line := spaces (4 * d) +:+ "def " +:+ f +:+ "(" +:+ join "," params +:+ "):") in *.
  assert (solid (first_text (Op.Def f params ops)) = true) as Hso.
  { apply (first_solid false). cbn. by rewrite Hn, Hp, Hops. }
  assert (contains_char "(" line = true) as ->.
  { replace line with ((spaces (4 * d) +:+ "def " +:+ f) +:+ String "(" (join "," params +:+ "):"))
      by (unfold line; by rewrite !str_app_assoc). apply contains_char_at. }
  assert (contains_char ")" line = true) as ->.
  { replace line with ((spaces (4 * d) +:+ "def " +:+ f +:+ "(" +:+ join "," params) +:+ String ")" ":")
      by (unfold line; by rewrite !str_app_assoc). apply contains_char_at. }
  cbn [negb orb]. assert (lift (parse_function_signature line pos) i = (i, Ok (f, params))) as H1.
  { unfold lift, line. by rewrite signature_is_read. }
  rewrite (stm_bind_eq _ _ _ _ _ H1). rewrite (stm_bind_eq _ _ i (S i) tt) by done.
  replace (Common.get_indent line) with (4 * d) by (symmetry; by apply (indent_solid (4 * d))).
  rewrite (stm_bind_eq _ _ _ _ _ (body_is_read ops Ho Hops fuel d _ lines i rest pos Hat Hs He ltac:(lia))).
  unfold mret, stm_ret. f_equal. cbn [show length]. unfold show_ops. lia.
Qed.

Lemma loop_is_read count ops : Forall is_read ops -> is_read (Op.Loop count ops).
Proof.
  intros Ho b fuel d lines i rest pos Hr _ Hat Hs He Hf. pose proof (first_solid _ _ Hr) as Hso.
  cbn [readable] in Hr. apply andb_prop in Hr as [Hc Hops]. apply N.leb_le in Hc.
  cbn [show app first_text] in Hat, Hso. change (flat_map (show (S d)) ops) with (show_ops (S d) ops) in *.
  unfold block_of, parse_loop_block. rewrite (stm_bind_eq _ _ _ _ _ (current_at Hat)). cbv zeta.
  rewrite trim_solid, indent_solid by done.
  change ("loop " +:+ u64_to_string count +:+ ":") with ("loop" +:+ String " " (u64_to_string count +:+ ":")).
  rewrite split_once_at by done. change (String.eqb (str_ascii_lower "loop") "loop") with true. cbn [negb].
  rewrite trim_end_matches_last, trim_end_matches_none
    by (apply (ends_with_not num_char); [apply num_char_digits, all_digits_u64_to_string|done]).
  rewrite parse_u64_to_string by done. rewrite (stm_bind_eq _ _ i i count) by done.
  rewrite (stm_bind_eq _ _ i (S i) tt) by done.
  rewrite (stm_bind_eq _ _ _ _ _ (body_is_read ops Ho Hops fuel d _ lines i rest pos Hat Hs He ltac:(lia))).
  unfold mret, stm_ret. f_equal. cbn [show length]. unfold show_ops. lia.
Qed.

(** *** The lines of a while *)

Definition with_body (w : while_parts) (ops : list Op.t) : while_parts :=
  {| has_explicit_condition := has_explicit_condition w; condition := condition w; body := body w ++ ops |}.

Lemma while_line_is_read op : is_read op -> readable true op = true ->
  forall fuel d lines i rest pos w, drop i lines = show d op ++ rest ->
  stops (4 * d) rest = true -> (open_if op = true -> no_else rest = true) ->
  2 * length (drop i lines) + 1 <= fuel ->
  while_line (parse_block fuel) (parse_while_block fuel) fuel lines pos (spaces (4 * d) +:+ first_text op) w i =
  (i + length (show d op), Ok (with_body w [op])).
Proof.
  intros Hop Hr fuel d lines i rest pos w Hat Hs He Hf. unfold while_line. cbv zeta.
  pose proof (first_solid _ _ Hr) as Hso. rewrite indent_solid, trim_solid by done.
  destruct (first_not_reserved _ _ Hr) as [_ ->]. rewrite (first_block _ _ Hr).
  set (p := {| pos_line := pos_line pos + i; pos_column := 4 * d + 1 |}).
  reader_step i p. destruct (has_block op) eqn:Hb.
  - rewrite nested_kind_while by done.
    by rewrite (stm_bind_eq _ _ _ _ _ (Hop true fuel d lines i rest p Hr Hb Hat Hs He Hf)).
  - rewrite (stm_bind_eq _ _ i i op) by (by apply (line_is_read true)).
    rewrite (show_line d op Hb), Nat.add_1_r. rewrite (stm_bind_eq _ _ i (S i) tt) by done.
    unfold mret, stm_ret, with_body, push_op. by rewrite (readable_not_nop _ _ Hr).
Qed.

Lemma while_body_is_read ops : Forall is_read ops -> forallb (readable true) ops = true ->
  forall n fuel d base lines i rest pos w, base < 4 * d ->
  drop i lines = show_ops d ops ++ rest -> stops base rest = true ->
  (last_holds open_if ops = true -> no_else rest = true) ->
  length (drop i lines) < n -> 2 * length (drop i lines) + 1 <= fuel ->
  while_lines (parse_block fuel) (parse_while_block fuel) n fuel lines base pos w i =
  (i + length (show_ops d ops), Ok (with_body w ops)).
Proof.
  induction 1 as [|op ops Hop _ IH]; intros Hr n fuel d base lines i rest pos w Hd Hat Hs He Hn Hf.
  - destruct n as [|n]; [lia|]. cbn [while_lines]. reader_step i i. cbn [length show_ops flat_map].
    assert (with_body w [] = w) as -> by (destruct w; unfold with_body; cbn; by rewrite app_nil_r).
    rewrite Nat.add_0_r. destruct rest as [|line rest].
    + by rewrite (at_end Hat).
    + rewrite (at_line Hat). apply andb_prop in Hs as [_ Hs2]. by rewrite Hs2.
  - cbn [forallb] in Hr. apply andb_prop in Hr as [Hr Hrs]. destruct n as [|n]; [lia|]. cbn [while_lines].
    assert (drop i lines = show d op ++ (show_ops d ops ++ rest)) as Hat' by (by rewrite Hat, app_assoc).
    destruct (show_head d op) as [more Hm]. pose proof Hat' as Hl. rewrite Hm in Hl. cbn [app] in Hl.
    pose proof (first_solid _ _ Hr) as Hso. reader_step i i. rewrite (at_line Hl), indent_solid by done.
    rewrite (proj2 (Nat.leb_gt _ _)) by lia.
    rewrite (stm_bind_eq _ _ i (i + length (show d op)) (with_body w [op])).
    2: { apply (while_line_is_read op Hop Hr fuel d lines i (show_ops d ops ++ rest)); try done.
         - by apply (stops_ops d base ops true); [..|lia].
         - intros Ho. destruct ops as [|op' ops]; [by apply He|by apply (no_else_ops d op' ops true)]. }
    pose proof (f_equal length Hat') as Hlen. rewrite length_app in Hlen.
    assert (1 <= length (show d op)) by (rewrite Hm; cbn; lia).
    pose proof (at_after Hat') as Hat2.
    rewrite (IH Hrs n fuel d base lines _ rest pos (with_body w [op]) Hd Hat2 Hs); [..|rewrite Hat2; lia].
    + f_equal; [unfold show_ops; cbn [flat_map]; rewrite length_app; lia|].
      unfold with_body. cbn. by rewrite <- app_assoc.
    + intros Hl1. apply He. by destruct ops.
    + rewrite Hat2. lia.
Qed.

Lemma while_lines_are_read cond ops : Forall is_read cond -> Forall is_read ops ->
  forallb (readable false) cond = true -> forallb (readable true) ops = true ->
  forall n fuel d lines i rest pos w,
  drop i lines = (spaces (4 * S d) +:+ "condition:") :: show_ops (S (S d)) cond ++ show_ops (S d) ops ++ rest ->
  stops (4 * d) rest = true -> (open_if (Op.While cond ops) = true -> no_else rest = true) ->
  length (drop i lines) < n -> 2 * length (drop i lines) <= fuel ->
  while_lines (parse_block fuel) (parse_while_block fuel) n fuel lines (4 * d) pos w i =
  (S i + length (show_ops (S (S d)) cond) + length (show_ops (S d) ops),
   Ok {| has_explicit_condition := true; condition := cond; body := body w ++ ops |}).
Proof.
  intros Hc Ho Hrc Hops n fuel d lines i rest pos w Hat Hs He Hn Hf.
  pose proof (f_equal length Hat) as Hlen. cbn [length] in Hlen. rewrite length_app in Hlen.
  destruct n as [|n]; [lia|]. cbn [while_lines]. reader_step i i.
  rewrite (at_line Hat), indent_solid by done. rewrite (proj2 (Nat.leb_gt _ _)) by lia.
  rewrite (stm_bind_eq _ _ i (S i + length (show_ops (S (S d)) cond))
             {| has_explicit_condition := true; condition := cond; body := body w |}).
  2: { unfold while_line. cbv zeta. rewrite indent_solid, trim_solid by done.
       reader_step i {| pos_line := pos_line pos + i; pos_column := 4 * S d + 1 |}.
       change (String.eqb "condition:" "condition:") with true. cbn [negb].
       rewrite (stm_bind_eq _ _ i (S i) tt) by done.
       erewrite stm_bind_eq; [done|].
       apply (body_is_read cond Hc Hrc fuel (S d) _ lines i _ _ Hat); [| |lia].
       - by apply (stops_ops (S d) (4 * d) ops true); [..|lia].
       - intros Hl. destruct ops as [|op ops]; [by apply He|by apply (no_else_ops (S d) op ops true)]. }
  pose proof (at_after (block := _ :: show_ops (S (S d)) cond) Hat) as Hat2. cbn [length] in Hat2.
  rewrite Nat.add_succ_r in Hat2. change (S (i + ?n)) with (S i + n) in Hat2.
  pose proof (f_equal length Hat2) as Hlen2. rewrite length_app in Hlen2. rewrite length_app in Hlen.
  apply (while_body_is_read ops Ho Hops n fuel (S d) (4 * d) lines _ rest pos
    {| has_explicit_condition := true; condition := cond; body := body w |} ltac:(lia) Hat2 Hs); [|lia..].
  intros Hl. apply He. by destruct ops.
Qed.

Lemma while_is_read cond ops : Forall is_read cond -> Forall is_read ops -> is_read (Op.While cond ops).
Proof.
  intros Hc Ho b fuel d lines i rest pos Hr _ Hat Hs He Hf. cbn [readable] in Hr.
  apply andb_prop in Hr as [Hrc Hops]. cbn [show app first_text] in Hat. rewrite <- app_assoc in Hat.
  change (flat_map (show (S (S d))) cond) with (show_ops (S (S d)) cond) in *.
  change (flat_map (show (S d)) ops) with (show_ops (S d) ops) in *.
  destruct fuel as [|fuel]; [lia|]. unfold block_of. cbn [parse_while_block]. unfold parse_while.
  rewrite (stm_bind_eq _ _ _ _ _ (current_at Hat)). rewrite indent_solid by done.
  rewrite (stm_bind_eq _ _ i (S i) tt) by done. pose proof (at_next Hat) as Hat1.
  pose proof (f_equal length Hat) as Hlen. pose proof (f_equal length Hat1) as Hlen1.
  cbn [length] in Hlen, Hlen1.
  rewrite (stm_bind_eq _ _ _ _ _ (while_lines_are_read cond ops Hc Ho Hrc Hops fuel fuel d lines (S i) rest pos _
    Hat1 Hs He ltac:(lia) ltac:(lia))).
  unfold mret, stm_ret, while_op. cbn [has_explicit_condition condition body app]. f_equal.
  cbn [show length]. rewrite length_app. unfold show_ops. lia.
Qed.

(** *** Every operation *)

Lemma all_read op : is_read op.
Proof.
  induction op as [op IH] using Op.blocks_ind.
  destruct op; try (intros ? ? ? ? ? ? ? ? Hb; discriminate Hb); cbn [Op.blocks] in IH.
  - destruct condition0 as [|c cs]; [|intros ? ? ? ? ? ? ? Hr; discriminate Hr].
    apply if_is_read; [apply IH; set_solver|]. destruct else_ as [e|]; [apply IH; set_solver|constructor].
  - apply loop_is_read, IH. set_solver.
  - apply while_is_read; apply IH; set_solver.
  - apply def_is_read, IH. set_solver.
Qed.

(** ** Programs are read back *)

Section Programs.
Context `{Chrono}.

Definition with_ops (ops : list Op.t) (s : Dsl.state) : Dsl.state :=
  {| Dsl.ops := Dsl.ops s ++ ops; Dsl.config := Dsl.config s;
     Dsl.in_governance_block := Dsl.in_governance_block s; Dsl.in_template_block := Dsl.in_template_block s;
     Dsl.current_template_name := Dsl.current_template_name s; Dsl.current_template := Dsl.current_template s;
     Dsl.templates := Dsl.templates s |}.
Definition outside (s : Dsl.state) : Prop := Dsl.in_governance_block s = false /\ Dsl.in_template_block s = false.

Lemma first_no_setting b op pos s : readable b op = true -> outside s -> Dsl.settings (first_text op) pos s = None.
Proof.
  intros Hr [Hg Ht]. destruct (has_block op) eqn:Hb.
  - unfold Dsl.settings. rewrite Hg, Ht. by destruct op.
  - rewrite first_statement by done. rewrite (readable_statement_iff b) in Hr by done.
    by apply (reads_no_setting _ _ (statement_reads op Hr)).
Qed.

Lemma line_step_is_read op fuel lines i rest s : readable false op = true -> outside s ->
  drop i lines = show 0 op ++ rest -> stops 0 rest = true -> (open_if op = true -> no_else rest = true) ->
  2 * length (drop i lines) + 1 <= fuel ->
  Dsl.line_step fuel lines (spaces (4 * 0) +:+ first_text op) s i = (i + length (show 0 op), Ok (with_ops [op] s)).
Proof.
  intros Hr Ho Hat Hs He Hf. unfold Dsl.line_step. pose proof (first_solid _ _ Hr) as Hso.
  rewrite is_blank_solid, indent_solid, trim_solid by done. cbv zeta.
  set (p := {| pos_line := 1 + i; pos_column := 4 * 0 + 1 |}). reader_step i p.
  rewrite (first_no_setting false), (first_block _ _ Hr) by done. destruct (has_block op) eqn:Hb.
  - rewrite top_kind by done.
    rewrite (stm_bind_eq _ _ _ _ _ (all_read op false fuel 0 lines i rest p Hr Hb Hat Hs He Hf)).
    unfold mret, stm_ret, Dsl.with_op, push_op. by rewrite (readable_not_nop _ _ Hr).
  - rewrite (stm_bind_eq _ _ i (S i) op).
    2: { by rewrite (stm_bind_eq _ _ i i op) by (by apply (line_is_read false)). }
    rewrite (show_line 0 op Hb), Nat.add_1_r.
    unfold mret, stm_ret, Dsl.with_op, push_op. by rewrite (readable_not_nop _ _ Hr).
Qed.

Lemma main_loop_is_read ops : forallb (readable false) ops = true -> forall n fuel lines i rest s, outside s ->
  drop i lines = show_ops 0 ops ++ rest -> stops 0 rest = true ->
  (last_holds open_if ops = true -> no_else rest = true) -> 2 * length (drop i lines) + 1 <= fuel ->
  Dsl.main_loop (length ops + n) fuel lines s i =
  Dsl.main_loop n fuel lines (with_ops ops s) (i + length (show_ops 0 ops)).
Proof.
  induction ops as [|op ops IH]; intros Hr n fuel lines i rest s Ho Hat Hs He Hf.
  - cbn [length show_ops flat_map]. rewrite !Nat.add_0_r, Nat.add_0_l. unfold with_ops. rewrite app_nil_r. by destruct s.
  - cbn [forallb] in Hr. apply andb_prop in Hr as [Hr Hrs]. cbn [length Nat.add Dsl.main_loop].
    assert (drop i lines = show 0 op ++ (show_ops 0 ops ++ rest)) as Hat' by (by rewrite Hat, app_assoc).
    destruct (show_head 0 op) as [more Hm]. pose proof Hat' as Hl. rewrite Hm in Hl. cbn [app] in Hl.
    reader_step i i. rewrite (at_line Hl). pose proof (f_equal length Hat') as Hlen. rewrite length_app in Hlen.
    rewrite (stm_bind_eq _ _ _ _ _ (line_step_is_read op fuel lines i (show_ops 0 ops ++ rest) s Hr Ho Hat'
      ltac:(by apply (stops_ops 0 0 ops false))
      ltac:(intros Hop; destruct ops as [|op' ops']; [by apply He|by apply (no_else_ops 0 op' ops' false)]) Hf)).
    pose proof (at_after Hat') as Hat2. pose proof (f_equal length Hat2) as Hlen2.
    rewrite (IH Hrs n fuel lines _ rest (with_ops [op] s)); try done; [|by intros Hl1; apply He; destruct ops|lia].
    change (show_ops 0 (op :: ops)) with (show 0 op ++ show_ops 0 ops). rewrite length_app, Nat.add_assoc. f_equal.
    unfold with_ops. cbn. by rewrite <- app_assoc.
Qed.

Lemma length_show_ops d ops : length ops <= length (show_ops d ops).
Proof.
  induction ops as [|op ops IH]; [done|]. change (show_ops d (op :: ops)) with (show d op ++ show_ops d ops).
  rewrite length_app. destruct (show_head d op) as [more ->]. cbn [length]. lia.
Qed.

(** The source starts with the layout of [ops]. *)
Lemma parse_lines_from ops rest : forallb (readable false) ops = true -> stops 0 rest = true ->
  (last_holds open_if ops = true -> no_else rest = true) ->
  exists n, length rest < n /\
  let lines := show_ops 0 ops ++ rest in
  Dsl.parse_lines lines =
  (s ← (Dsl.main_loop n (Dsl.enough lines) lines (with_ops ops Dsl.start) (length (show_ops 0 ops))).2;
   Ok (Dsl.ops s, Dsl.config s)).
Proof.
  intros Hr Hs He. pose proof (length_show_ops 0 ops). set (lines := show_ops 0 ops ++ rest).
  assert (length lines = length (show_ops 0 ops) + length rest) as Hlen by apply length_app.
  exists (Dsl.enough lines - length ops). split; [unfold Dsl.enough; lia|]. cbv zeta. unfold Dsl.parse_lines.
  replace (Dsl.enough lines) with (length ops + (Dsl.enough lines - length ops)) at 1 by (unfold Dsl.enough; lia).
  rewrite (main_loop_is_read ops Hr _ _ lines 0 rest Dsl.start); try done. unfold Dsl.enough. rewrite drop_0. lia.
Qed.

Lemma parse_lines_show ops : forallb (readable false) ops = true ->
  Dsl.parse_lines (show_ops 0 ops) = Ok (ops, LifecycleConfig.default).
Proof.
  intros Hr. destruct (parse_lines_from ops [] Hr eq_refl) as (n & Hn & H1); [done|]. cbv zeta in H1.
  rewrite app_nil_r in H1. rewrite H1. destruct n as [|n]; [lia|]. cbn [Dsl.main_loop].
  set (len := length _). reader_step len len. by rewrite lookup_ge_None_2.
Qed.

End Programs.

(** The lines as one text. *)
Fixpoint text_of (ls : list string) : string :=
  match ls with [] => EmptyString | l :: ls => l +:+ String newline (text_of ls) end.

Lemma printable_statement b op : readable b op = true -> all_chars printable (first_text op) = true.
Proof. intros H. by destruct (solid_parts _ (first_solid _ _ H)). Qed.

Definition line_ok (l : string) : Prop := all_chars printable l = true.
Lemma line_ok_at n s : all_chars printable s = true -> line_ok (spaces n +:+ s).
Proof. intros H. unfold line_ok. by rewrite all_chars_app, chars_spaces. Qed.

Definition shows_lines (op : Op.t) : Prop := forall b d, readable b op = true -> Forall line_ok (show d op).
Lemma lines_of_ops ops : Forall shows_lines ops -> forall b d, forallb (readable b) ops = true ->
  Forall line_ok (show_ops d ops).
Proof.
  induction 1 as [|op ops Hop _ IH]; intros b d; [constructor|]. cbn [forallb]. intros [H1 H2]%andb_prop.
  change (show_ops d (op :: ops)) with (show d op ++ show_ops d ops).
  apply Forall_app. split; [by apply (Hop b)|by apply (IH b)].
Qed.

Lemma show_line_ok op : shows_lines op.
Proof.
  induction op as [op IH] using Op.blocks_ind. intros b d Hr.
  pose proof (line_ok_at (4 * d) _ (printable_statement b op Hr)) as Hfirst.
  assert (forall ops b' d', ops ∈ Op.blocks op -> forallb (readable b') ops = true ->
    Forall line_ok (flat_map (show d') ops)) as Hops by (intros ops b' d' Hin; exact (lines_of_ops ops (IH ops Hin) b' d')).
  destruct (has_block op) eqn:Hb; [|rewrite (show_line d op Hb); by constructor].
  destruct op; try discriminate Hb; cbn [readable Op.blocks] in Hr, Hops; cbn [show];
    (constructor; [exact Hfirst|]).
  - apply andb_prop in Hr as [[_ Ht]%andb_prop He]. apply Forall_app. split; [by apply (Hops _ false); [set_solver|]|].
    destruct else_ as [e|]; [|constructor]. apply andb_prop in He as [He _].
    constructor; [by apply line_ok_at|apply (Hops _ false); [set_solver|done]].
  - apply andb_prop in Hr as [_ Hr]. apply (Hops _ false); [set_solver|done].
  - apply andb_prop in Hr as [Hc Hr]. constructor; [by apply (line_ok_at (4 * S d))|].
    apply Forall_app. split; [apply (Hops _ false)|apply (Hops _ true)]; set_solver.
  - apply andb_prop in Hr as [_ Hr]. apply (Hops _ false); [set_solver|done].
Qed.

Lemma strip_none c s : ends_with_char c s = false -> strip_last_char c s = s.
Proof.
  induction s as [|x s IH]; [done|]. intros Hs. cbn [strip_last_char]. destruct s as [|y s].
  - cbn in Hs. by rewrite Hs.
  - by rewrite IH by exact Hs.
Qed.

Lemma lines_text_of ls : Forall line_ok ls -> lines (text_of ls) = ls.
Proof.
  unfold lines. induction 1 as [|l ls Hl Hls IH]; [done|]. cbn [text_of]. rewrite split_char_at.
  2: { eapply all_chars_impl; [|done]. intros c Hc. unfold other_than. by destruct (Ascii.eqb_spec c newline) as [->|]. }
  destruct (split_char newline (text_of ls)) as [|p ps] eqn:E; [by apply split_char_some in E|].
  change (close_lines (l :: p :: ps)) with (strip_last_char carriage_return l :: close_lines (p :: ps)).
  rewrite IH, strip_none; [done|]. by apply (ends_with_not printable).
Qed.

(** C2. The compiler reads back every readable program from its layout: the
    same operations, in the same blocks, and the default configuration. *)
Theorem parse_dsl_show `{Chrono} ops : forallb (readable false) ops = true ->
  Dsl.parse_dsl (text_of (show_ops 0 ops)) = Ok (ops, LifecycleConfig.default).
Proof.
  intros Hr. unfold Dsl.parse_dsl. rewrite lines_text_of; [by apply parse_lines_show|].
  apply (lines_of_ops ops) with (b := false); [|done]. apply Forall_forall. intros op _. apply show_line_ok.
Qed.

(** ** A dangling else

    An [else:] belongs to the innermost [if:] that can still take one, whatever
    its column: laid out under the outer [if:], it becomes an empty [else] of the
    inner one, and its operations join the branch the [if:]s are in. *)
Lemma inner_takes_else t e fuel lines i pos :
  forallb (readable false) t = true -> forallb (readable false) e = true -> last_holds open_if t = false ->
  drop i lines = (spaces 4 +:+ "if:") :: show_ops 2 t ++ (spaces 0 +:+ "else:") :: show_ops 1 e ->
  2 * length (drop i lines) <= fuel -> 
  parse_if_block (parse_block fuel) lines pos i = (i + length (show_ops 2 t) + 2, Ok (Op.If [] t (Some []))).
Proof.
  intros Ht He Ho Hat Hf. unfold parse_if_block. rewrite (stm_bind_eq _ _ _ _ _ (current_at Hat)).
  rewrite indent_solid by done. rewrite (stm_bind_eq _ _ i (S i) tt) by done.
  assert (all : forall l, Forall is_read l) by (intros l; apply Forall_forall; intros op _; apply all_read).
  rewrite (stm_bind_eq _ _ _ _ _ (body_is_read t (all t) Ht fuel 1 _ lines i _ pos Hat
    (stops_text 4 0 "else:" _ eq_refl ltac:(lia)) ltac:(by rewrite Ho) ltac:(lia))).
  pose proof (at_after (block := _ :: show_ops 2 t) Hat) as Hat2. cbn [length] in Hat2.
  rewrite Nat.add_succ_r in Hat2. change (S (i + ?n)) with (S i + n) in Hat2.
  set (j := S i + length (show_ops 2 t)) in *. reader_step j j. rewrite (at_line Hat2), trim_solid by done.
  cbn [String.eqb Ascii.eqb Bool.eqb]. reader_step j {| pos_line := pos_line pos + j; pos_column := 0 + 1 |}.
  rewrite (stm_bind_eq _ _ j (S j) tt) by done. rewrite Hat in Hf. cbn [length] in Hf.
  destruct fuel as [|fuel]; [lia|].
  rewrite (stm_bind_eq _ _ _ _ _ (parse_block_nil fuel lines 4 (show_ops 1 e) _ (S j) (at_next Hat2)
    ltac:(rewrite <- (app_nil_r (show_ops 1 e)); by apply (stops_ops 1 0 e false); [..|lia]))).
  unfold mret, stm_ret. f_equal. unfold j. lia.
Qed.

Lemma outer_block t e fuel lines pos :
  forallb (readable false) t = true -> forallb (readable false) e = true -> last_holds open_if t = false ->
  drop 1 lines = (spaces 4 +:+ "if:") :: show_ops 2 t ++ (spaces 0 +:+ "else:") :: show_ops 1 e ->
  2 * length lines < fuel ->
  parse_block fuel lines 0 pos 1 = (length lines, Ok (Op.If [] t (Some []) :: e)).
Proof.
  intros Ht He Ho Hat Hf. pose proof (f_equal length Hat) as Hlen. rewrite length_drop in Hlen.
  cbn [length] in Hlen. rewrite length_app in Hlen. cbn [length] in Hlen.
  destruct fuel as [|fuel]; [lia|].
  assert (drop (1 + length (show_ops 2 t) + 2) lines = show_ops 1 e) as Hat2.
  { replace (1 + length (show_ops 2 t) + 2) with (1 + length ((spaces 4 +:+ "if:") :: show_ops 2 t ++ [spaces 0 +:+ "else:"]))
      by (cbn [length]; rewrite length_app; cbn [length]; lia).
    apply at_after. rewrite Hat. cbn [app]. by rewrite <- app_assoc. }
  eapply parse_block_cons; [exact Hat|done|lia| |done|].
  - apply inner_takes_else with (e := e); try done. rewrite length_drop. lia.
  - rewrite (block_is_read e (proj2 (Forall_forall _ _) (fun op _ => all_read op)) He fuel 1 0 lines _ [] _ ltac:(lia)
      ltac:(rewrite Hat2, app_nil_r; reflexivity)) by (done || rewrite Hat2; lia). f_equal. lia.
Qed.

(** An [else:] laid out under the outer [if:] is read as an empty [else] of
    the inner one, and its operations as part of the outer branch. *)
Theorem dangling_else `{Chrono} t e :
  forallb (readable false) t = true -> forallb (readable false) e = true -> last_holds open_if t = false ->
  Dsl.parse_lines (show 0 (Op.If [] [Op.If [] t None] (Some e))) =
  Ok ([Op.If [] (Op.If [] t (Some []) :: e) None], LifecycleConfig.default).
Proof.
  intros Ht He Ho. set (lines := show 0 _).
  assert (lines = (spaces 0 +:+ "if:") :: (spaces 4 +:+ "if:") :: show_ops 2 t ++ (spaces 0 +:+ "else:") :: show_ops 1 e)
    as Hl by (unfold lines; cbn [show flat_map first_text]; by rewrite !app_nil_r).
  assert (drop 0 lines = lines) as H0 by done. rewrite Hl in H0 at 2.
  unfold Dsl.parse_lines, Dsl.enough. set (fuel := 2 * length lines + 2).
  assert (exists n, fuel = S (S n)) as [n Hn] by (exists (2 * length lines); unfold fuel; lia).
  rewrite Hn at 1. cbn [Dsl.main_loop]. reader_step 0 0. rewrite (at_line H0).
  rewrite (stm_bind_eq _ _ 0 (length lines) (Dsl.with_op (Op.If [] (Op.If [] t (Some []) :: e) None) Dsl.start)).
  - cbn [Dsl.main_loop]. reader_step (length lines) (length lines). by rewrite lookup_ge_None_2.
  - unfold Dsl.line_step. rewrite is_blank_solid, indent_solid, trim_solid by done. cbv zeta.
    reader_step 0 {| pos_line := 1; pos_column := 1 |}. rewrite (first_no_setting false (Op.If [] [] None)) by done.
    erewrite stm_bind_eq; [done|]. unfold Dsl.top_block, parse_if_block. cbn [ends_with_char String.eqb Ascii.eqb Bool.eqb].
    rewrite (stm_bind_eq _ _ _ _ _ (current_at H0)). rewrite (stm_bind_eq _ _ 0 1 tt) by done.
    rewrite (stm_bind_eq _ _ _ _ _ (outer_block t e fuel lines _ Ht He Ho (at_next H0) ltac:(unfold fuel; lia))).
    reader_step (length lines) (length lines). by rewrite lookup_ge_None_2.
Qed.

Section Examples.
#[local] Existing Instance ClockSamples.seconds.

(** A program with every kind of block. *)
Definition sample : list Op.t :=
  let num n := Op.Push (TypedValue.Number (f64_of_Z n%Z)) in
  [Op.Def "scale" ["x"; "by"] [Op.Load "x"; Op.Load "by"; Op.Mul; Op.Return];
   num (-3)%Z; Op.Store "n";
   Op.While [Op.Load "n"; num 10%Z; Op.Lt]
     [Op.Load "n"; num 2%Z; Op.Call "scale"; Op.If [] [Op.Emit "big step"] (Some [Op.Pop; Op.Break])];
   Op.Loop 4 [Op.Push (TypedValue.String "item"); Op.If [] [Op.Dup] None; Op.StoreP "last/item"];
   Op.Push TypedValue.Null; Op.Push (TypedValue.Boolean true)].

Example sample_text : show_ops 0 sample =
  ["def scale(x,by):"; "    load x"; "    load by"; "    mul"; "    return";
   "push -3"; "store n";
   "while:"; "    condition:"; "        load n"; "        push 10"; "        lt";
   "    load n"; "    push 2"; "    call scale"; "    if:"; "        emit " +:+ in_quotes "big step";
   "    else:"; "        pop"; "        break";
   "loop 4:"; "    push " +:+ in_quotes "item"; "    if:"; "        dup"; "    storep last/item";
   "push null"; "push true"].
Proof. vm_compute. reflexivity. Qed.

Lemma parse_dsl_show_witness : Dsl.parse_dsl (text_of (show_ops 0 sample)) = Ok (sample, LifecycleConfig.default).
Proof. apply parse_dsl_show. vm_compute. reflexivity. Defined.

Lemma dangling_else_witness :
  Dsl.parse_lines ["if:"; "    if:"; "        add"; "else:"; "    sub"] =
  Ok ([Op.If [] [Op.If [] [Op.Add] (Some []); Op.Sub] None], LifecycleConfig.default).
Proof. apply (dangling_else [Op.Add] [Op.Sub]); reflexivity. Defined.

End Examples.

End Layout.
