(* ===== verification/Parsed.v ===== *)
(** * What the compiler produces

    The operations of a parsed program: only those the language has a syntax
    for, no [Nop], counts that fit their machine integers, an [if] without a
    condition of its own, a [match] with a value and numbers for its cases. *)
From S2P Require Import Prelude Float64 Text Values Ops Parser Blocks Dsl DslTheorems.

Module Parsed.

Import LineParser Blocks.

Definition u64_bool (n : N) : bool := (n <=? u64_max)%N.
Definition is_number (v : TypedValue.t) : bool := match v with TypedValue.Number _ => true | _ => false end.
Definition not_nil {A} (l : list A) : bool := match l with [] => false | _ => true end.

(** The operations of the language. *)
Fixpoint well_formed (op : Op.t) : bool :=
  match op with
  | Op.Nop | Op.AssertTop _ | Op.AssertMemory _ _ | Op.MinDeliberation _ | Op.ExpiresIn _ | Op.RequireRole _
  | Op.VerifySignature | Op.GetIdentity _ | Op.RequireValidSignature _ _ _ => false
  | Op.If condition then_ else_ =>
      negb (not_nil condition) && forallb well_formed then_ &&
      match else_ with Some e => forallb well_formed e | None => true end
  | Op.Loop count body => u64_bool count && forallb well_formed body
  | Op.While condition body => forallb well_formed condition && forallb well_formed body
  | Op.Def _ _ body | Op.IfPassed body | Op.Else body => forallb well_formed body
  | Op.Match value cases default =>
      not_nil value && forallb well_formed value &&
      forallb (fun c => is_number c.1 && forallb well_formed c.2) cases &&
      match default with Some e => forallb well_formed e | None => true end
  | Op.AssertEqualStack depth => (2 <=? depth)%N && u64_bool depth
  | Op.RankedVote candidates ballots => u64_bool candidates && u64_bool ballots
  | Op.LoadVersionP _ version => u64_bool version
  | Op.DiffVersionsP _ v1 v2 => u64_bool v1 && u64_bool v2
  | _ => true
  end.
Definition ok_op (op : Op.t) : Prop := well_formed op = true.
Definition ok_ops (ops : list Op.t) : Prop := forallb well_formed ops = true.
(** A line can also be a comment. *)
Definition ok_line (op : Op.t) : Prop := is_nop op = false -> well_formed op = true.

(** ** Results that satisfy a predicate when there is one *)

Definition gives {E A} (P : A -> Prop) (r : res E A) : Prop := forall a, r = Ok a -> P a.
Definition yields {A} (P : A -> Prop) (m : M A) : Prop := forall i, gives P (m i).2.

Lemma gives_ok {E A} (P : A -> Prop) a : P a -> gives P (Ok a : res E A).
Proof. by intros H b [= <-]. Qed.
Lemma gives_err {E A} (P : A -> Prop) e : gives P (Err e : res E A).
Proof. done. Qed.
Lemma gives_any {E A} (r : res E A) : gives (fun _ => True) r.
Proof. done. Qed.
Lemma gives_bind {E A B} (Q : A -> Prop) (P : B -> Prop) (r : res E A) (k : A -> res E B) :
  gives Q r -> (forall a, Q a -> gives P (k a)) -> gives P (r ≫= k).
Proof. intros Hr Hk. destruct r as [a| | |]; try done. by apply Hk, Hr. Qed.

Lemma yields_ret {A} (P : A -> Prop) a : P a -> yields P (mret a).
Proof. intros H i. by apply gives_ok. Qed.
Lemma yields_throw {A} (P : A -> Prop) e : yields P (throw e : M A).
Proof. done. Qed.
Lemma yields_lift {A} (P : A -> Prop) r : gives P r -> yields P (lift r : M A).
Proof. by intros H i. Qed.
Lemma yields_any {A} (m : M A) : yields (fun _ => True) m.
Proof. done. Qed.
Lemma yields_bind {A B} (Q : A -> Prop) (P : B -> Prop) (m : M A) (k : A -> M B) :
  yields Q m -> (forall a, Q a -> yields P (k a)) -> yields P (m ≫= k).
Proof.
  intros Hm Hk i. unfold mbind, stm_bind. specialize (Hm i). destruct (m i) as [j [a| | |]]; try done.
  by apply Hk, Hm.
Qed.

(** ** Lines *)

Lemma gives_parsed_u64 e s : gives u64_ok (parsed e (parse_u64 s)).
Proof. destruct (parse_u64 s) eqn:E; [|done]. apply gives_ok. by eapply parse_u64_le. Qed.

Lemma u64_bool_ok n : u64_ok n -> u64_bool n = true.
Proof. intros H. by apply N.leb_le. Qed.
(** Through the binds and branches of a line's parser. *)
Ltac line_tac :=
  repeat first
    [ apply gives_err
    | apply gives_ok; unfold ok_op, well_formed; rewrite ?u64_bool_ok by done; done
    | eapply gives_bind; [apply gives_parsed_u64|intros ? ?]
    | eapply gives_bind; [apply gives_any|intros ? _]
    | match goal with |- gives _ (match ?x with _ => _ end) => destruct x eqn:? end ].

Lemma command_ok line pos command parts : gives ok_op (parse_command line pos command parts).
Proof.
  unfold parse_command. destruct (lookup command simple_commands) as [op|] eqn:Es.
  - apply gives_ok. unfold simple_commands in Es.
    repeat (cbn [lookup] in Es; destruct (String.eqb command _); [by injection Es as <-|]). done.
  - unfold commands. repeat (cbn [lookup]; destruct (String.eqb command _); [
      unfold parse_emit, quoted_text, parse_emitevent, parse_assertequalstack, one, two,
        parse_increment_reputation, parse_rankedvote, parse_threshold, parse_loadversionp, parse_diffversionsp,
        parse_verifyidentity, parse_supply, parse_transfer, parse_amount, parse_proposal_lifecycle; line_tac|]);
      [..|done].
    apply gives_ok. unfold ok_op, well_formed. rewrite u64_bool_ok by done.
    apply andb_true_intro. split; [by apply N.leb_le, N.ltb_ge|done].
Qed.

Lemma line_ok line pos : gives ok_line (parse_line line pos).
Proof.
  unfold parse_line. destruct (starts_with_char _ _); [by apply gives_ok|]. destruct (split_whitespace line); [by apply gives_ok|].
  intros op Hop Hn. by apply command_ok in Hop.
Qed.
Lemma statement_ok line pos : yields ok_line (statement line pos).
Proof. apply yields_lift, line_ok. Qed.

(** ** Blocks *)

Lemma ok_push ops op : ok_ops ops -> ok_line op -> ok_ops (push_op ops op).
Proof.
  unfold ok_ops, ok_line, push_op. intros Ho Hop. destruct (is_nop op); [done|].
  rewrite forallb_app, Ho. cbn. by rewrite Hop.
Qed.
Lemma ok_snoc ops op : ok_ops ops -> ok_op op -> ok_ops (ops ++ [op]).
Proof. unfold ok_ops, ok_op. intros Ho Hop. rewrite forallb_app, Ho. cbn. by rewrite Hop. Qed.

Section Kinds.

Context (fuel : nat) (pb : block_parser) (pw : list string -> SourcePosition -> M Op.t).
Hypothesis Hb : forall lines base pos, yields ok_ops (pb lines base pos).
Hypothesis Hw : forall lines pos, yields ok_op (pw lines pos).

Ltac block_step :=
  match goal with
  | |- yields _ (pb _ _ _ ≫= _) => eapply yields_bind; [apply Hb|intros ? ?]
  | |- yields _ (statement _ _ ≫= _) => eapply yields_bind; [apply statement_ok|intros ? ?]
  | |- yields _ (lift (parsed _ (parse_u64 _)) ≫= _) =>
      eapply yields_bind; [apply yields_lift, gives_parsed_u64|intros ? ?]
  | |- yields _ (_ ≫= _) => eapply yields_bind; [apply yields_any|intros ? _]
  | |- yields _ (throw _) => apply yields_throw
  | |- yields _ (mret _) => apply yields_ret
  | |- yields _ (match ?x with _ => _ end) => destruct x eqn:?
  end.
Ltac block := repeat block_step; unfold ok_op, ok_ops in *; cbn [well_formed not_nil negb andb].

Lemma if_ok lines pos : yields ok_op (parse_if_block pb lines pos).
Proof. unfold parse_if_block. cbv zeta. block; auto with bool. Qed.
Lemma loop_ok lines pos : yields ok_op (parse_loop_block pb lines pos).
Proof. unfold parse_loop_block. cbv zeta. block. by rewrite u64_bool_ok. Qed.
Lemma function_ok lines pos : yields ok_op (parse_function_block pb lines pos).
Proof. unfold parse_function_block. by block. Qed.

Definition ok_match (m : match_parts) : Prop :=
  ok_ops (value_ops m) /\ forallb (fun c => is_number c.1 && forallb well_formed c.2) (cases m) = true /\
  match default_ops m with Some e => ok_ops e | None => True end.

Lemma match_line_ok lines pos line m : ok_match m -> yields ok_match (match_line pb lines pos line m).
Proof.
  intros (H1 & H2 & H3). unfold match_line. cbv zeta. repeat block_step; split; cbn; try done.
  - split; [|done]. rewrite forallb_app, H2. cbn. unfold ok_ops in *. by rewrite andb_true_r.
  - by apply ok_push.
Qed.
Lemma match_lines_ok n lines indent pos m : ok_match m -> yields ok_match (match_lines pb n lines indent pos m).
Proof.
  revert m. induction n as [|n IH]; intros m Hm; [by apply yields_lift|]. cbn [match_lines].
  eapply yields_bind; [apply yields_any|intros i _]. destruct (lines !! i); [|by apply yields_ret].
  destruct (_ <=? _); [by apply yields_ret|]. eapply yields_bind; [by apply match_line_ok|]. auto.
Qed.
Lemma match_ok lines pos : yields ok_op (parse_match_block pb fuel lines pos).
Proof.
  unfold parse_match_block. do 2 block_step. eapply yields_bind; [by apply match_lines_ok|].
  intros m (H1 & H2 & H3). destruct (value_ops m) eqn:Ev; [apply yields_throw|]. apply yields_ret.
  unfold ok_op. cbn [well_formed not_nil]. unfold ok_ops in *. rewrite H1, H2. by destruct (default_ops m).
Qed.

Definition ok_while (w : while_parts) : Prop := ok_ops (condition w) /\ ok_ops (body w).

Lemma nested_in_while_ok lines trimmed pos : yields ok_op (nested_in_while pb pw fuel lines trimmed pos).
Proof.
  unfold nested_in_while. repeat case_match; auto using if_ok, loop_ok, match_ok, yields_throw.
Qed.
Lemma while_line_ok lines pos line w : ok_while w -> yields ok_while (while_line pb pw fuel lines pos line w).
Proof.
  intros [H1 H2]. unfold while_line. cbv zeta. block_step. destruct (String.eqb _ _); [repeat block_step; by split|].
  destruct (ends_with_char _ _).
  - eapply yields_bind; [apply nested_in_while_ok|]. intros op Hop. apply yields_ret. split; [done|]. by apply ok_snoc.
  - repeat block_step. split; [done|]. by apply ok_push.
Qed.
Lemma while_lines_ok n lines indent pos w : ok_while w -> yields ok_while (while_lines pb pw n fuel lines indent pos w).
Proof.
  revert w. induction n as [|n IH]; intros w Hm; [by apply yields_lift|]. cbn [while_lines].
  eapply yields_bind; [apply yields_any|intros i _]. destruct (lines !! i); [|by apply yields_ret].
  destruct (_ <=? _); [by apply yields_ret|]. eapply yields_bind; [by apply while_line_ok|]. auto.
Qed.
Lemma while_ok lines pos : yields ok_op (parse_while pb pw fuel lines pos).
Proof.
  unfold parse_while. do 2 block_step. eapply yields_bind; [by apply while_lines_ok|].
  intros w [H1 H2]. apply yields_ret. unfold while_op, ok_op. unfold ok_ops in *.
  destruct (has_explicit_condition w); [|destruct (body w) as [|op rest]]; cbn [well_formed forallb] in *;
    rewrite ?H1, ?H2; try done. by apply andb_prop in H2 as [-> ->].
Qed.

Lemma inner_ok op base lines pos : (forall ops, ok_ops ops -> ok_op (op ops)) ->
  yields ok_op (parse_inner pb op base lines pos).
Proof.
  intros Hop. unfold parse_inner. do 2 block_step.
  eapply (yields_bind ok_ops); [apply yields_lift, Hb|]. intros ops Hops. by apply yields_ret, Hop.
Qed.
Lemma nested_ok lines base trimmed pos : yields ok_op (parse_nested pb pw fuel lines base trimmed pos).
Proof.
  unfold parse_nested. repeat case_match;
    auto using if_ok, loop_ok, match_ok, function_ok, yields_throw, inner_ok.
Qed.

End Kinds.

Lemma blocks_ok fuel :
  (forall lines base pos, yields ok_ops (parse_block fuel lines base pos)) /\
  (forall lines pos, yields ok_op (parse_while_block fuel lines pos)).
Proof.
  induction fuel as [|fuel [IHb IHw]]; [by split; intros; apply yields_lift|]. split; intros; cbn.
  - eapply yields_bind; [apply yields_any|intros i _]. destruct (lines !! i); [|by apply yields_ret].
    destruct (is_blank _). { eapply yields_bind; [apply yields_any|intros _ _]. apply IHb. }
    destruct (_ <=? _); [by apply yields_ret|]. eapply yields_bind; [apply yields_any|intros p _].
    apply (yields_bind ok_line).
    + destruct (ends_with_char _ _).
      * intros j op Hop _. by eapply nested_ok in Hop.
      * eapply yields_bind; [apply statement_ok|intros op Hop].
        eapply yields_bind; [apply yields_any|intros _ _]. by apply yields_ret.
    + intros op Hop. eapply yields_bind; [apply IHb|intros ops Hops]. apply yields_ret.
      unfold ok_line in Hop. unfold ok_ops in *. destruct (is_nop op); [done|]. cbn. by rewrite Hop.
  - by apply while_ok.
Qed.

(** ** Programs *)
Section Programs.

Context `{CH : Chrono}.

Lemma top_ok fuel lines trimmed pos : yields ok_op (Dsl.top_block fuel lines trimmed pos).
Proof.
  destruct (blocks_ok fuel) as [Hb Hw]. unfold Dsl.top_block. repeat case_match;
    auto using if_ok, loop_ok, match_ok, function_ok, yields_throw.
Qed.

Definition ok_state (s : Dsl.state) : Prop := ok_ops (Dsl.ops s).

Lemma settings_ok trimmed pos s r : ok_state s -> Dsl.settings trimmed pos s = Some r -> gives ok_state r.
Proof.
  unfold Dsl.settings, Dsl.template_line, Dsl.use_line, Dsl.setting_line. cbv zeta. intros Hs H.
  repeat match type of H with context [if ?b then _ else _] => destruct b end; simplify_eq; try done;
    try (by apply gives_ok); repeat case_match; try done;
    (eapply gives_bind; [apply gives_any|intros ? _]); repeat case_match; try done; by apply gives_ok.
Qed.

Lemma line_step_ok fuel lines line s : ok_state s -> yields ok_state (Dsl.line_step fuel lines line s).
Proof.
  intros Hs. unfold Dsl.line_step. destruct (is_blank line).
  { eapply yields_bind; [apply yields_any|intros _ _]. by apply yields_ret. }
  cbv zeta. eapply yields_bind; [apply yields_any|intros pos _]. destruct (Dsl.settings _ _ _) as [r|] eqn:E.
  - eapply yields_bind; [apply yields_lift; by eapply settings_ok|]. intros s' Hs'.
    eapply yields_bind; [apply yields_any|intros _ _]. by apply yields_ret.
  - apply (yields_bind ok_line).
    + destruct (ends_with_char _ _); [intros j op Hop _; by apply top_ok in Hop|].
      eapply yields_bind; [apply statement_ok|intros op Hop].
      eapply yields_bind; [apply yields_any|intros _ _]. by apply yields_ret.
    + intros op Hop. apply yields_ret. by apply ok_push.
Qed.

Lemma main_ok n fuel lines s : ok_state s -> yields ok_state (Dsl.main_loop n fuel lines s).
Proof.
  revert s. induction n as [|n IH]; intros s Hs; [by apply yields_lift|]. cbn [Dsl.main_loop].
  eapply yields_bind; [apply yields_any|intros i _]. destruct (lines !! i); [|by apply yields_ret].
  eapply yields_bind; [by apply line_step_ok|]. auto.
Qed.

(** C11. Every operation of a compiled program, at any depth, is one the language
    has a syntax for, with counts within [u64], at least two values to compare,
    no condition inside an [if], and numbers as the cases of a [match]. *)
Theorem parse_dsl_well_formed source ops config :
  Dsl.parse_dsl source = Ok (ops, config) -> forallb well_formed ops = true.
Proof.
  unfold Dsl.parse_dsl, Dsl.parse_lines. intros H.
  destruct (Dsl.main_loop _ _ _ _ 0) as [i [s|?|?|]] eqn:E; try discriminate H. injection H as <- _.
  pose proof (main_ok (Dsl.enough (lines source)) (Dsl.enough (lines source)) (lines source) Dsl.start eq_refl 0 s) as Hs.
  rewrite E in Hs. by apply Hs.
Qed.

End Programs.

Section Examples.
#[local] Existing Instance ClockSamples.seconds.

Lemma parse_dsl_well_formed_witness :
  forallb well_formed [Op.AssertEqualStack 2; Op.Loop 3 [Op.While [Op.Dup] [Op.Break]]] = true.
Proof.
  apply (parse_dsl_well_formed (join Dsl.line_feed
    ["assertequalstack 2"; "loop 3:"; "    while:"; "        dup"; "        break"]) _ LifecycleConfig.default).
  vm_compute. reflexivity.
Defined.

End Examples.

End Parsed.
