(* ===== verification/ParseErrors.v ===== *)
(** * What the compiler reports

    An unknown command is reported with its line at the top level, and with a
    line that counts the lines before the block twice inside a block.  A lone
    quote ends the compiler itself. *)
From S2P Require Import Prelude Float64 Text Values Ops Parser Blocks Dsl DslTheorems Layout.

Module ParseErrors.

Import CompilerError LineParser Blocks Layout.

(** ** Unknown commands *)

Definition known (c : string) : bool :=
  match lookup c simple_commands, lookup c (commands EmptyString {| pos_line := 0; pos_column := 0 |}) with
  | None, None => false
  | _, _ => true
  end.
Definition unknown_word (c : string) : bool :=
  word c && negb (starts_with_char "#" c) && negb (ends_with_char ":" c) && negb (known c).

Lemma lookup_names {A B} c (t : list (string * A)) (t' : list (string * B)) :
  t.*1 = t'.*1 -> lookup c t = None -> lookup c t' = None.
Proof.
  revert t'. induction t as [|[n a] t IH]; intros [|[n' b] t'] H; try done. injection H as -> H. cbn.
  destruct (String.eqb c n'); [done|]. by apply IH.
Qed.

Lemma commands_names line pos line' pos' : (commands line pos).*1 = (commands line' pos').*1.
Proof. reflexivity. Qed.

Lemma unknown_line c n pos : unknown_word c = true ->
  parse_line (spaces n +:+ c) pos = Err (at_pos (UnknownCommand c) pos).
Proof.
  unfold unknown_word. intros [[[Hw Hh]%andb_prop _]%andb_prop Hk]%andb_prop. apply negb_true_iff in Hh, Hk.
  unfold parse_line. rewrite trim_solid by (by apply solid_word). rewrite Hh.
  unfold split_whitespace. rewrite words_spaces, words_last by done. unfold parse_command, known in *.
  destruct (lookup c simple_commands); [discriminate Hk|].
  destruct (lookup c (commands EmptyString _)) eqn:E; [discriminate Hk|]. clear Hk.
  by rewrite (lookup_names c _ (commands (spaces n +:+ c) pos) (commands_names _ _ _ _) E).
Qed.

Lemma unknown_solid c : unknown_word c = true -> solid c = true.
Proof. unfold unknown_word. intros [[[Hw _]%andb_prop _]%andb_prop _]%andb_prop. by apply solid_word. Qed.
Lemma unknown_no_colon c : unknown_word c = true -> ends_with_char ":" c = false.
Proof. unfold unknown_word. by intros [[_ H%negb_true_iff]%andb_prop _]%andb_prop. Qed.

Lemma unknown_no_space p c : unknown_word c = true -> all_chars graphic p = false -> str_starts_with p c = false.
Proof.
  unfold unknown_word, word. intros [[[[_ Hw]%andb_prop _]%andb_prop _]%andb_prop _]%andb_prop Hp.
  destruct (str_starts_with p c) eqn:E; [|done]. apply str_starts_with_inv in E as [r ->].
  rewrite all_chars_app in Hw. apply andb_prop in Hw as [Hw _]. congruence.
Qed.

Lemma unknown_stops c n base rest : unknown_word c = true -> n <= base ->
  stops base ((spaces n +:+ c) :: rest) = true.
Proof. intros H Hn. apply stops_text; [by apply unknown_solid|done]. Qed.
Lemma unknown_no_else c n rest : unknown_word c = true -> no_else ((spaces n +:+ c) :: rest) = true.
Proof.
  intros H. apply no_else_text; [by apply unknown_solid|]. apply String.eqb_neq. intros ->.
  by apply unknown_no_colon in H.
Qed.

Lemma parse_block_cons_err fuel lines base n s more pos op i j k e :
  drop i lines = (spaces n +:+ s) :: more -> solid s = true -> base < n ->
  item fuel lines base n s {| pos_line := pos_line pos + i; pos_column := n + 1 |} i = (j, Ok op) ->
  parse_block fuel lines base pos j = (k, Err e) ->
  parse_block (S fuel) lines base pos i = (k, Err e).
Proof.
  intros Hat Hs Hn Hop He. cbn [parse_block]. rewrite (stm_bind_eq _ _ i i i) by done.
  rewrite (at_line Hat), is_blank_solid, indent_solid, trim_solid by done.
  rewrite (proj2 (Nat.leb_gt _ _)) by lia. reader_step i {| pos_line := pos_line pos + i; pos_column := n + 1 |}.
  unfold item in Hop. rewrite (stm_bind_eq _ _ _ _ _ Hop). by apply stm_bind_err.
Qed.

(** ** A lone quote *)

Definition open_text (s : string) : bool :=
  all_chars (fun c => printable c && negb (Ascii.eqb c quote)) s && negb (ends_with_char ":" s) &&
  (is_empty s || last_graphic s).

Lemma rfind_none a : all_chars (fun c => negb (Ascii.eqb c quote)) a = true -> rfind_char quote a = None.
Proof.
  induction a as [|c a IH]; [done|]. cbn [all_chars rfind_char]. intros [Hc Ha]%andb_prop.
  apply negb_true_iff in Hc. by rewrite IH, Hc.
Qed.
Lemma rfind_one a b : all_chars (fun c => negb (Ascii.eqb c quote)) b = true ->
  rfind_char quote (a +:+ String quote b) = Some (String.length a).
Proof.
  intros Hb. induction a as [|c a IH].
  - change (EmptyString +:+ ?s) with s. cbn [rfind_char]. by rewrite rfind_none.
  - rewrite str_app_cons. cbn [rfind_char]. by rewrite IH.
Qed.
Lemma find_one a b : all_chars (fun c => negb (Ascii.eqb c quote)) a = true ->
  find_char quote (a +:+ String quote b) = Some (String.length a).
Proof.
  induction a as [|c a IH]; [done|]. rewrite str_app_cons. cbn [all_chars find_char].
  intros [Hc Ha]%andb_prop. apply negb_true_iff in Hc. by rewrite Hc, IH.
Qed.

Lemma emit_one_quote a b pos : all_chars (fun c => negb (Ascii.eqb c quote)) a = true ->
  all_chars (fun c => negb (Ascii.eqb c quote)) b = true ->
  parse_emit (a +:+ String quote b) pos = Panic "slice index out of range".
Proof.
  intros Ha Hb. unfold parse_emit. rewrite find_one by done. unfold quoted_text, slice. rewrite rfind_one by done.
  cbn [default]. unfold id. by rewrite (proj2 (Nat.leb_gt _ _)) by lia.
Qed.

Lemma open_text_solid s : open_text s = true ->
  all_chars printable (String quote s) = true /\ last_graphic (String quote s) = true /\
  ends_with_char ":" ("emit" +:+ String " " (String quote s)) = false /\
  all_chars (fun c => negb (Ascii.eqb c quote)) s = true.
Proof.
  unfold open_text. intros [[Hs He]%andb_prop Hl]%andb_prop. apply negb_true_iff in He. repeat split.
  - cbn. eapply all_chars_impl; [|exact Hs]. by intros c [-> _]%andb_prop.
  - destruct s; [done|exact Hl].
  - rewrite ends_with_app by done. by destruct s.
  - eapply all_chars_impl; [|exact Hs]. by intros c [_ ->]%andb_prop.
Qed.

Section Programs.
Context `{Chrono}.

Lemma unknown_no_setting c pos s : unknown_word c = true -> outside s -> Dsl.settings c pos s = None.
Proof.
  intros H1 [Hg Ht]. unfold Dsl.settings. rewrite Hg, Ht, !(unknown_no_space _ c H1) by done. cbn [andb orb].
  destruct (String.eqb_spec c "governance {") as [->|]; done.
Qed.

(** C21. An unknown command after a program that reads is reported under its own
    name, at its own line and in the first column. *)
Theorem unknown_command_reported ops c rest :
  forallb (readable false) ops = true -> unknown_word c = true ->
  Dsl.parse_lines (show_ops 0 ops ++ c :: rest) =
  Err (UnknownCommand c (length (show_ops 0 ops) + 1) 1).
Proof.
  intros Hr Hc. change c with (spaces 0 +:+ c) at 1.
  destruct (parse_lines_from ops ((spaces 0 +:+ c) :: rest) Hr) as (n & Hn & Hp);
    [by apply unknown_stops|by intros _; apply unknown_no_else|].
  cbv zeta in Hp. rewrite Hp. clear Hp. set (lines := _ ++ _). set (i := length (show_ops 0 ops)).
  destruct n as [|n]; [cbn in Hn; lia|]. cbn [Dsl.main_loop]. reader_step i i.
  assert (drop i lines = (spaces 0 +:+ c) :: rest) as Hat by apply drop_app_length.
  rewrite (at_line Hat). erewrite (stm_bind_err _ _ i i); [done|].
  unfold Dsl.line_step. pose proof (unknown_solid c Hc). rewrite is_blank_solid, indent_solid, trim_solid by done. cbv zeta.
  reader_step i {| pos_line := 1 + i; pos_column := 0 + 1 |}. rewrite unknown_no_setting by done.
  rewrite unknown_no_colon by done. apply stm_bind_err, stm_bind_err. unfold statement, lift. rewrite unknown_line by done.
  unfold at_pos. cbn. by rewrite Nat.add_1_r.
Qed.

(** An error after the operations of a block is an error of the block. *)
Lemma block_fails ops e fuel0 : forallb (readable false) ops = true ->
  forall fuel d base lines i rest pos k, base < 4 * d ->
  drop i lines = show_ops d ops ++ rest -> stops (4 * d) rest = true -> no_else rest = true ->
  2 * length (drop i lines) + 2 <= fuel -> fuel = length ops + fuel0 ->
  parse_block fuel0 lines base pos (i + length (show_ops d ops)) = (k, Err e) ->
  parse_block fuel lines base pos i = (k, Err e).
Proof.
  induction ops as [|op ops IH]; intros Hr fuel d base lines i rest pos k Hd Hat Hs He Hf Hfuel Hk.
  - cbn in *. subst. by rewrite Nat.add_0_r in Hk.
  - cbn [forallb] in Hr. apply andb_prop in Hr as [Hr Hrs]. destruct fuel as [|fuel]; [lia|].
    assert (drop i lines = show d op ++ (show_ops d ops ++ rest)) as Hat' by (by rewrite Hat, app_assoc).
    destruct (show_head d op) as [more Hm]. pose proof Hat' as Hl. rewrite Hm in Hl. cbn [app] in Hl.
    pose proof (f_equal length Hat') as Hlen. rewrite length_app in Hlen.
    assert (1 <= length (show d op)) by (rewrite Hm; cbn; lia).
    change (show_ops d (op :: ops)) with (show d op ++ show_ops d ops) in Hk. rewrite length_app, Nat.add_assoc in Hk.
    eapply parse_block_cons_err; [exact Hl|by eapply first_solid|done| |].
    + apply (item_is_read op fuel d lines base i (show_ops d ops ++ rest)); try done; [by apply all_read| |..|lia].
      * destruct ops as [|op' ops]; [done|]. by apply (stops_ops d (4 * d) (op' :: ops) false).
      * intros _. destruct ops as [|op' ops]; [done|by apply (no_else_ops d op' ops false)].
    + apply (IH Hrs fuel d base lines _ rest); try done; [exact (at_after Hat')|rewrite (at_after Hat'); lia|].
      cbn in Hfuel. lia.
Qed.

Lemma unknown_in_block fuel lines base n c rest pos i : unknown_word c = true -> base < n ->
  drop i lines = (spaces n +:+ c) :: rest ->
  parse_block (S fuel) lines base pos i = (i, Err (UnknownCommand c (pos_line pos + i) (n + 1))).
Proof.
  intros Hc Hn Hat. pose proof (unknown_solid c Hc). cbn [parse_block]. rewrite (stm_bind_eq _ _ i i i) by done.
  rewrite (at_line Hat), is_blank_solid, indent_solid, trim_solid by done.
  rewrite (proj2 (Nat.leb_gt _ _)) by lia. reader_step i {| pos_line := pos_line pos + i; pos_column := n + 1 |}.
  cbv zeta. rewrite unknown_no_colon by done. do 2 apply stm_bind_err. unfold statement, lift. by rewrite unknown_line.
Qed.

(** Inside an [if:] the lines before the [if:] are counted twice: an unknown
    command there is reported that many lines below the line it is on. *)
Theorem nested_error_line_is_off ops body c rest :
  forallb (readable false) ops = true -> forallb (readable false) body = true -> unknown_word c = true ->
  let before := length (show_ops 0 ops) in
  let line := before + 1 + length (show_ops 1 body) + 1 in
  Dsl.parse_lines (show_ops 0 ops ++ "if:" :: show_ops 1 body ++ (spaces 4 +:+ c) :: rest) =
  Err (UnknownCommand c (line + before) 5).
Proof.
  intros Hr Hb Hc before line. change "if:" with (spaces 0 +:+ "if:"). set (tail := _ :: _).
  destruct (parse_lines_from ops tail Hr) as (n & Hn & Hp);
    [by apply stops_text|by intros _; apply no_else_text|]. cbv zeta in Hp. rewrite Hp. clear Hp.
  set (lines := _ ++ _). fold before. assert (drop before lines = tail) as Hat by apply drop_app_length.
  destruct n as [|n]; [cbn in Hn; lia|]. cbn [Dsl.main_loop]. reader_step before before. rewrite (at_line Hat).
  assert (length lines = before + length tail) as Hlen by apply length_app.
  assert (length tail = 1 + length (show_ops 1 body) + 1 + length rest) as Htail
    by (unfold tail; cbn [length]; rewrite length_app; cbn; lia).
  erewrite stm_bind_err; [done|]. unfold Dsl.line_step.
  rewrite is_blank_solid, indent_solid, trim_solid by done. cbv zeta.
  set (p := {| pos_line := 1 + before; pos_column := 0 + 1 |}). reader_step before p.
  rewrite (first_no_setting false (Op.If [] [] None)) by done. apply stm_bind_err.
  unfold Dsl.top_block, parse_if_block. cbn [ends_with_char String.eqb Ascii.eqb Bool.eqb].
  rewrite (stm_bind_eq _ _ _ _ _ (current_at Hat)). rewrite (stm_bind_eq _ _ before (S before) tt) by done.
  apply stm_bind_err. rewrite indent_solid by done. pose proof (length_show_ops 1 body).
  apply (block_fails body _ (S (Dsl.enough lines - length body - 1)) Hb (Dsl.enough lines) 1 0 lines (S before)
    ((spaces 4 +:+ c) :: rest)); try done; [lia|exact (at_next Hat)|by apply unknown_stops|by apply unknown_no_else| | |].
  - rewrite (at_next Hat). unfold Dsl.enough. rewrite length_app. cbn [length]. lia.
  - unfold Dsl.enough. lia.
  - rewrite (unknown_in_block _ lines 0 4 c rest _ _ Hc ltac:(lia) (at_after (at_next Hat))).
    f_equal. f_equal. unfold line, p, at_pos. cbn [pos_line]. f_equal. lia.
Qed.

(** A text without its closing quote after [emit] panics: the source ends the
    process that compiles it instead of being rejected. *)
Theorem lone_quote_panics ops s rest :
  forallb (readable false) ops = true -> open_text s = true ->
  Dsl.parse_lines (show_ops 0 ops ++ ("emit" +:+ String " " (String quote s)) :: rest) =
  Panic "slice index out of range".
Proof.
  intros Hr Hs. destruct (open_text_solid s Hs) as (Hp & Hl & Hc & Hq). set (line := "emit" +:+ _).
  assert (solid line = true) as Hso by (by apply (solid_app "emit")).
  change line with (spaces 0 +:+ line) at 1. set (tail := _ :: rest).
  destruct (parse_lines_from ops tail Hr) as (n & Hn & Hpl);
    [by apply stops_text|by intros _; apply no_else_text|]. cbv zeta in Hpl. rewrite Hpl. clear Hpl.
  set (lines := _ ++ _). set (i := length (show_ops 0 ops)). destruct n as [|n]; [cbn in Hn; lia|].
  cbn [Dsl.main_loop]. reader_step i i. assert (drop i lines = tail) as Hat by apply drop_app_length.
  rewrite (at_line Hat). set (p := {| pos_line := 1 + i; pos_column := 0 + 1 |}).
  assert (parse_line (spaces 0 +:+ line) p = Panic "slice index out of range") as Hline.
  { unfold line. rewrite parse_line_next by done. by apply (emit_one_quote "emit "). }
  erewrite (stm_bind_panic _ _ i i); [done|]. unfold Dsl.line_step.
  rewrite is_blank_solid, indent_solid, trim_solid by done. cbv zeta. reader_step i p.
  assert (Dsl.settings line p (with_ops ops Dsl.start) = None) as -> by (by apply (command_no_setting "emit")).
  assert (ends_with_char ":" line = false) as -> by done. do 2 apply stm_bind_panic.
  unfold statement, lift. by rewrite Hline.
Qed.

End Programs.

Section Examples.
#[local] Existing Instance ClockSamples.seconds.

Definition two_lines : list Op.t := [Op.Push (TypedValue.Boolean true); Op.Dup].

Lemma unknown_command_reported_witness :
  Dsl.parse_lines ["push true"; "dup"; "pusk"; "add"] = Err (UnknownCommand "pusk" 3 1).
Proof. apply (unknown_command_reported two_lines "pusk" ["add"]); reflexivity. Defined.

Lemma nested_error_line_is_off_witness :
  Dsl.parse_lines ["push true"; "dup"; "if:"; "    add"; "    pusk"] = Err (UnknownCommand "pusk" 7 5).
Proof. apply (nested_error_line_is_off two_lines [Op.Add] "pusk" []); reflexivity. Defined.

Lemma lone_quote_panics_witness :
  Dsl.parse_lines ["push true"; "dup"; "emit " +:+ String quote "hello"] = Panic "slice index out of range".
Proof. apply (lone_quote_panics two_lines "hello" []); reflexivity. Defined.

End Examples.

End ParseErrors.
