(* ===== verification/StdFunctions.v ===== *)
(** * The standard library functions: compiler/stdlib.rs

    The text of the library is compiled and its functions run.  [max] and [min]
    compare the second argument with itself, so both return the first; a
    function's result is pushed twice, once by its body and once by the call. *)
From S2P Require Import Prelude Float64 Text Values Ops Stack Memory Auth Storage InMemory Economic Executor.
From S2P Require Import Ledger Trace Machine Governance VM Parser Blocks Dsl.
From Stdlib Require Import SpecFloat.

Module StdFunctions.

Section Functions.

Context {S : Type} `{SB : StorageBackend S} `{PL : Platform} `{RD : Renderings}.

(** The definition of a function in the compiled library. *)
Fixpoint find_def (name : string) (ops : list Op.t) : option (list string * list Op.t) :=
  match ops with
  | [] => None
  | Op.Def n params body :: ops => if String.eqb n name then Some (params, body) else find_def name ops
  | _ :: ops => find_def name ops
  end.
Definition std_function `{Chrono} (name : string) : option (list string * list Op.t) :=
  match Dsl.parse_dsl_with_stdlib EmptyString with Ok ops => find_def name ops | _ => None end.

(** A machine that keeps no trace, explains nothing and does not simulate. *)
Definition quiet (s : VM.t S) : Prop :=
  VM.trace_enabled s = false /\ VM.explain_enabled s = false /\ VM.simulation_mode s = false.

Lemma exec_step inner fuel lc op ops s s' lc' : quiet s -> quiet s' ->
  Interp.exec_op inner fuel lc op s = (s', Ok (lc', Interp.Next)) ->
  Interp.exec_list inner fuel lc (op :: ops) s = Interp.exec_list inner fuel lc' ops s'.
Proof.
  intros (Ht & He & Hs) (Ht' & _ & _) H. cbn [Interp.exec_list].
  unfold VM.log_trace, VM.log_explanation, VM.record_stack_after, modify, get_state, mbind, stm_bind.
  rewrite Ht, He, Hs. cbn [andb]. rewrite H. cbn. by rewrite Ht'.
Qed.

Definition on (st : list TypedValue.t) (s : VM.t S) : VM.t S := VM.with_stack st s.
Lemma exec_on inner fuel lc op ops st st' s : quiet s ->
  Interp.exec_op inner fuel lc op (on st s) = (on st' s, Ok (lc, Interp.Next)) ->
  Interp.exec_list inner fuel lc (op :: ops) (on st s) = Interp.exec_list inner fuel lc ops (on st' s).
Proof. intros Hq. by apply exec_step. Qed.

(** [Lt] and [Gt] of a number with itself. *)
Lemma not_less_than_itself (y : f64) : f64_ltb y y = false.
Proof.
  destruct y as [[]|[]| |[] m e]; try done; unfold f64_ltb, SFltb, SFcompare;
    by rewrite Z.compare_refl, Pos.compare_cont_refl.
Qed.

(** The two bodies. *)
Definition extremum_body (compare : Op.t) : list Op.t :=
  [Op.Load "a"; Op.Load "b"; Op.Dup; Op.Over; compare; Op.If [] [Op.Swap; Op.Pop] (Some [Op.Pop]); Op.Return].

Lemma std_max `{Chrono} : std_function "max" = Some (["a"; "b"], extremum_body Op.Lt).
Proof. vm_compute. reflexivity. Qed.
Lemma std_min `{Chrono} : std_function "min" = Some (["a"; "b"], extremum_body Op.Gt).
Proof. vm_compute. reflexivity. Qed.

(** One operation of the bodies on the stack. *)
Lemma exec_load inner fuel lc name v st s : VMMemory.load name (VM.memory s) = Ok v ->
  Interp.exec_op inner fuel lc (Op.Load name) (on st s) = (on (v :: st) s, Ok (lc, Interp.Next)).
Proof.
  intros H. unfold Interp.exec_op, Interp.basic, Interp.next, Interp.load, mbind, stm_bind, on. cbn.
  by rewrite H.
Qed.

Lemma exec_compare inner fuel lc compare y st s : compare = Op.Lt \/ compare = Op.Gt ->
  Interp.exec_op inner fuel lc compare (on (TypedValue.Number y :: TypedValue.Number y :: st) s) =
  (on (TypedValue.Boolean false :: st) s, Ok (lc, Interp.Next)).
Proof.
  assert (forall n op, VMExecution.execute_comparison (TypedValue.Number y) (TypedValue.Number y) op =
            Ok (TypedValue.Boolean false) ->
          Interp.comparison n op (on (TypedValue.Number y :: TypedValue.Number y :: st) s) =
            (on (TypedValue.Boolean false :: st) s, Ok tt)) as Hc.
  { intros n op H. unfold Interp.comparison.
    rewrite (stm_bind_eq _ _ _ (on st s) (TypedValue.Number y, TypedValue.Number y)) by done.
    by rewrite (stm_bind_eq _ _ _ (on st s) (TypedValue.Boolean false)) by (unfold lift; cbn [fst snd]; by rewrite H). }
  intros [->| ->]; unfold Interp.exec_op, Interp.basic, Interp.next; (erewrite stm_bind_eq; [done|]);
    (erewrite stm_bind_eq; [done|]); apply Hc; unfold VMExecution.execute_comparison, TypedValue.less_than, TypedValue.greater_than;
    by rewrite not_less_than_itself.
Qed.

Lemma extremum_runs fuel compare x y st s : compare = Op.Lt \/ compare = Op.Gt -> quiet s ->
  VMMemory.load "a" (VM.memory s) = Ok (TypedValue.Number x) ->
  VMMemory.load "b" (VM.memory s) = Ok (TypedValue.Number y) ->
  Interp.run (3 + fuel) (extremum_body compare) (on st s) =
  Interp.run (3 + fuel) [Op.Return] (on (TypedValue.Number x :: st) s).
Proof.
  intros Hc Hq Ha Hb. change (3 + fuel) with (Datatypes.S (2 + fuel)). cbn [Interp.run]. unfold extremum_body.
  set (x' := TypedValue.Number x). set (y' := TypedValue.Number y).
  rewrite (exec_on _ _ _ _ _ st (x' :: st)) by auto using exec_load.
  rewrite (exec_on _ _ _ _ _ _ (y' :: x' :: st)) by auto using exec_load.
  rewrite (exec_on _ _ _ _ _ _ (y' :: y' :: x' :: st)) by done.
  rewrite (exec_on _ _ _ _ _ _ (y' :: y' :: y' :: x' :: st)) by done.
  rewrite (exec_on _ _ _ _ _ _ (TypedValue.Boolean false :: y' :: x' :: st)) by (done || by apply exec_compare).
  rewrite (exec_on _ _ _ _ _ _ (x' :: st)); [done|done|]. unfold Interp.exec_op.
  rewrite (stm_bind_eq _ _ _ (on (x' :: st) s) tt); [done|].
  rewrite (stm_bind_eq _ _ _ (on (TypedValue.Boolean false :: y' :: x' :: st) s) tt) by done.
  rewrite (stm_bind_eq _ _ _ (on (y' :: x' :: st) s) (TypedValue.Boolean false)) by done.
  change (Interp.run (2 + fuel) [Op.Pop] (on (y' :: x' :: st) s) = (on (x' :: st) s, Ok tt)).
  change (2 + fuel) with (Datatypes.S (1 + fuel)). cbn [Interp.run]. by rewrite (exec_on _ _ _ _ _ _ (x' :: st)).
Qed.

(** The machine inside the call, and the whole call. *)
Definition in_call (name : string) (args : gmap string TypedValue.t) (s : VM.t S) : VM.t S :=
  VM.with_memory (VMMemory.push_call_frame name args (VM.memory s)).1 s.

Lemma load_argument name args s n v : args !! n = Some v ->
  VMMemory.load n (VM.memory (in_call name args s)) = Ok v.
Proof.
  intros H. unfold VMMemory.load, in_call. cbn. rewrite last_snoc, length_app. cbn.
  unfold VMMemory.index. rewrite (list_lookup_middle _ []) by lia. cbn. by rewrite lookup_empty, H.
Qed.

(** [Return] with [v] on top sets the frame's return value. *)
Definition returned (name : string) (args : gmap string TypedValue.t) (v : TypedValue.t) : TypedCallFrame :=
  {| frame_memory := ∅; frame_params := args; return_value := Some v; function_name := name |}.
Lemma run_return fuel name args v st s : quiet s ->
  Interp.run (1 + fuel) [Op.Return] (on (v :: st) (in_call name args s)) =
  (on (v :: st) (VM.with_memory (VMMemory.set_frames (VMMemory.call_stack (VM.memory (in_call name args s)))
                   (VMMemory.call_frames (VM.memory s) ++ [returned name args v]) (VM.memory s)) s), Ok tt).
Proof.
  intros (Ht & He & Hs). change (1 + fuel) with (Datatypes.S fuel). cbn [Interp.run Interp.exec_list].
  unfold VM.log_trace, VM.log_explanation, modify, get_state, mbind, stm_bind. cbn.
  rewrite Ht. cbn. rewrite He. cbn. rewrite Hs. cbn. unfold mbind, stm_bind, Interp.return_op, VMMemory.in_function_call. cbn.
  destruct (VMMemory.call_stack (VM.memory s) ++ _) eqn:E; [by apply app_nil in E as [_ ?]|].
  unfold VM.on_memory, zoom, VMMemory.set_return_value, VMMemory.current_call_frame. cbn.
  rewrite last_snoc, removelast_last. cbn. rewrite E. done.
Qed.

Lemma leave_call name args v st s : 
  Interp.pop_frame name
    (on (v :: st) (VM.with_memory (VMMemory.set_frames (VMMemory.call_stack (VM.memory (in_call name args s)))
                   (VMMemory.call_frames (VM.memory s) ++ [returned name args v]) (VM.memory s)) s)) =
  (on (v :: st) s, Ok (returned name args v)).
Proof.
  unfold Interp.pop_frame, VMMemory.pop_call_frame. cbn. rewrite last_snoc, !removelast_last.
  destruct s as [? [] ? ? ? ? ? ? ? ?]. done.
Qed.

(** C27. [max] and [min] of the standard library return their first argument,
    whatever the second: the body compares the second with itself.  The result
    is on the stack twice, left there by the body and pushed by the call. *)
Theorem extremum_returns_first `{Chrono} fuel name body x y st s :
  name = "max" \/ name = "min" -> std_function name = Some body -> quiet s ->
  VMMemory.get_function name (VM.memory s) = Ok body ->
  Interp.run (4 + fuel) [Op.Call name] (VM.with_stack (TypedValue.Number y :: TypedValue.Number x :: st) s) =
  (VM.with_stack (TypedValue.Number x :: TypedValue.Number x :: st) s, Ok tt).
Proof.
  intros Hn Hb Hq Hf.
  assert (exists compare, (compare = Op.Lt \/ compare = Op.Gt) /\ body = (["a"; "b"], extremum_body compare))
    as (compare & Hc & ->).
  { destruct Hn as [->| ->]; [rewrite std_max in Hb|rewrite std_min in Hb]; injection Hb as <-; eauto. }
  change (4 + fuel) with (Datatypes.S (3 + fuel)). cbn [Interp.run].
  set (x' := TypedValue.Number x). set (y' := TypedValue.Number y).
  set (args := <["a" := x']> (<["b" := y']> ∅) : gmap string TypedValue.t).
  rewrite (exec_on _ _ _ _ _ _ (x' :: x' :: st)); [done|done|]. unfold Interp.exec_op, Interp.execute_call.
  rewrite (stm_bind_eq _ _ _ (on (x' :: x' :: st) s) tt); [done|].
  rewrite (stm_bind_eq _ _ _ (on (y' :: x' :: st) s) (on (y' :: x' :: st) s)) by done.
  rewrite (stm_bind_eq _ _ _ (on (y' :: x' :: st) s) (["a"; "b"], extremum_body compare))
    by (unfold lift; cbn; by rewrite Hf).
  cbn [fst snd].
  rewrite (stm_bind_eq _ _ _ (on st s) args) by done.
  rewrite (stm_bind_eq _ _ _ (on st (in_call name args s)) tt) by done.
  assert (quiet (in_call name args s)) as Hq' by done.
  pose proof (extremum_runs fuel compare x y st _ Hc Hq' (load_argument name args s "a" x' eq_refl)
    (load_argument name args s "b" y' eq_refl)) as Hrun.
  fold x' y' in Hrun. change (3 + fuel) with (1 + (2 + fuel)) in Hrun. rewrite (run_return (2 + fuel) name args x' st s Hq) in Hrun.
  rewrite (stm_bind_eq _ _ _ _ _ Hrun).
  by rewrite (stm_bind_eq _ _ _ _ _ (leave_call name args x' st s)).
Qed.

End Functions.

(** ** Concrete runs *)
Section Examples.

#[local] Existing Instance Samples.platform.
#[local] Existing Instance Samples.renderings.
#[local] Existing Instance ClockSamples.seconds.

(** A program after the library, compiled and run on a blank machine. *)
Definition run_source (source : string) : res string (list TypedValue.t) :=
  match Dsl.parse_dsl_with_stdlib source with
  | Ok ops =>
      let '(s, r) := Interp.run 20 ops Interp.blank in
      match r with Ok _ => Ok (VM.stack s) | Err _ => Err "error" | Panic m => Panic m | OutOfFuel => OutOfFuel end
  | Err e => Err (CompilerError.to_string e)
  | Panic m => Panic m
  | OutOfFuel => OutOfFuel
  end.
Definition program (l : list string) : string := join Dsl.line_feed l.

Definition with_library : VM.t InMemoryStorage.t :=
  match Dsl.parse_dsl_with_stdlib EmptyString with Ok ops => (Interp.run 3 ops Interp.blank).1 | _ => Interp.blank end.

Lemma extremum_returns_first_witness :
  exists body, std_function "max" = Some body /\
  Interp.run 4 [Op.Call "max"] (VM.with_stack [Interp.num 7; Interp.num 3] with_library) =
  (VM.with_stack [Interp.num 3; Interp.num 3] with_library, Ok tt).
Proof.
  eexists. split; [vm_compute; reflexivity|].
  eapply (extremum_returns_first 0 "max"); [by left|vm_compute; reflexivity|vm_compute; done|vm_compute; reflexivity].
Defined.

(** The library on small inputs: [abs], [xor] and [swap3] compute what they are
    for, [sum_n] of four is six. *)
Example library_results :
  run_source (program ["push 3"; "push 7"; "call max"]) = Ok [Interp.num 3; Interp.num 3] /\
  run_source (program ["push -5"; "call abs"]) = Ok [Interp.num 5; Interp.num 5] /\
  run_source (program ["push true"; "push false"; "call xor"]) = Ok [TypedValue.Boolean true; TypedValue.Boolean true] /\
  run_source (program ["push 1"; "push 2"; "push 3"; "call swap3"]) =
    Ok [Interp.num 1; Interp.num 1; Interp.num 2; Interp.num 3] /\
  run_source (program ["push 4"; "call sum_n"]) = Ok [Interp.num 6; Interp.num 6].
Proof. vm_compute. done. Qed.

End Examples.
End StdFunctions.
