(* ===== verification/Lifecycle.v ===== *)
(** * Proposal lifecycles: src/crates/icn-covm/src/governance/proposal_lifecycle.rs

    The states of a proposal, its transitions, and the vote counting that drives
    them.  Dates come from chrono and are a parameter ([Chrono]); a method that
    reads the clock several times takes its readings as a sequence.  The source
    calls methods it does not declare ([VM::get_f64], [VM::get_string],
    [Identity::id_string], [check_passed], [Display] of a vote choice): they are
    parameters too ([LifecycleCalls]). *)
From S2P Require Import Prelude Float64 Text Values Ops Stack Memory Auth Storage InMemory Economic Executor.
From S2P Require Import Ledger Trace Machine Governance VM.
From Stdlib Require Import SpecFloat.

(** [Box<dyn std::error::Error>]: the error it wraps. *)
Inductive BoxError : Type :=
  | EText (s : string)
  | EStorage (e : StorageError.t)
  | EVM (e : VMError.t).

Definition box_string (e : BoxError) : string :=
  match e with
  | EText s => s
  | EStorage e => StorageError.to_string e
  | EVM e => VMError.to_string e
  end.

(** ** The enumerations and their parsers *)
Module ProposalState.

Inductive t : Type := Draft | OpenForFeedback | Voting | Executed | Rejected | Expired.

#[global] Instance eq_dec : EqDecision t.
Proof. solve_decision. Defined.

(** [==], derived. *)
Definition eqb (a b : t) : bool := bool_decide (a = b).

End ProposalState.

Module ExecutionStatus.

Inductive t : Type := Success | Failure (reason : string).

End ExecutionStatus.

Module VoteChoice.

Inductive t : Type := Yes | No | Abstain.

#[global] Instance eq_dec : EqDecision t.
Proof. solve_decision. Defined.

Definition from_str `{Unicode} (s : string) : option t :=
  let l := to_lowercase s in
  if String.eqb l "yes" then Some Yes
  else if String.eqb l "no" then Some No
  else if String.eqb l "abstain" then Some Abstain
  else None.

End VoteChoice.

Module VoteWeighting.

Inductive t : Type :=
  | Equal | Reputation | Stake | Tenure | Quadratic | Delegated
  | Custom (name : string).

Definition from_str `{Unicode} (s : string) : option t :=
  let l := to_lowercase s in
  if String.eqb l "equal" then Some Equal
  else if String.eqb l "reputation" then Some Reputation
  else if String.eqb l "stake" then Some Stake
  else if String.eqb l "tenure" then Some Tenure
  else if String.eqb l "quadratic" then Some Quadratic
  else if String.eqb l "delegated" then Some Delegated
  else Custom <$> strip_prefix "custom:" l.

End VoteWeighting.

Module QuorumMethod.

Inductive t : Type :=
  | Percentage (percentage : N)
  | FixedNumber (required_count : N)
  | NoQuorum.

(** [parse::<u8>] has already refused what does not fit in a byte. *)
Definition from_str `{Unicode} (s : string) : option t :=
  let l := to_lowercase s in
  match strip_prefix "percentage:" l with
  | Some percentage_str =>
      percentage ← parse_uint 255 percentage_str;
      if (100 <? percentage)%N then None else Some (Percentage percentage)
  | None =>
      match strip_prefix "fixed:" l with
      | Some number_str => FixedNumber <$> parse_u64 number_str
      | None => if String.eqb l "none" then Some NoQuorum else None
      end
  end.

End QuorumMethod.

(** ** The proposal *)
Module ProposalLifecycle.

Section Lifecycle.

Context `{CH : Chrono}.

Record t : Type := {
  id : string;
  creator : Identity.t;
  created_at : DateTime;
  state : ProposalState.t;
  title : string;
  quorum_method : QuorumMethod.t;
  approval_threshold : N;
  expires_at : option DateTime;
  discussion_duration : option Duration;
  vote_weighting : VoteWeighting.t;
  required_participants : option N;
  current_version : N;
  auto_execute : bool;
  allow_early_execution : bool;
  min_voting_period : option Duration;
  history : list (DateTime * ProposalState.t);
  execution_status : option ExecutionStatus.t;
}.

Abbreviation M := (stm t BoxError).

(** [Utc::now()], read once by [new]. *)
Definition new (now : DateTime) (id : string) (creator : Identity.t) (title : string)
    (quorum_method : QuorumMethod.t) (approval_threshold : N) (vote_weighting : VoteWeighting.t)
    (discussion_duration : option Duration) (required_participants : option N) : t :=
  {| id := id; creator := creator; created_at := now; state := ProposalState.Draft; title := title;
     quorum_method := quorum_method; approval_threshold := approval_threshold; expires_at := None;
     discussion_duration := discussion_duration; vote_weighting := vote_weighting;
     required_participants := required_participants; current_version := 1; auto_execute := false;
     allow_early_execution := false; min_voting_period := None;
     history := [(now, ProposalState.Draft)]; execution_status := None |}.

(** [threshold as u8] drops the high bits before the minimum is taken. *)
Definition new_backwards_compatible (now : DateTime) (id : string) (creator : Identity.t) (title : string)
    (quorum threshold : N) (discussion_duration : option Duration) (required_participants : option N) : t :=
  let quorum_method :=
    if (quorum =? 0)%N then QuorumMethod.NoQuorum
    else if (quorum <=? 100)%N then QuorumMethod.Percentage (quorum mod 256)
    else QuorumMethod.FixedNumber quorum in
  let approval_threshold := N.min (threshold mod 256) 100 in
  new now id creator title quorum_method approval_threshold VoteWeighting.Equal discussion_duration
    required_participants.

Definition with_state (st : ProposalState.t) (p : t) : t :=
  {| id := id p; creator := creator p; created_at := created_at p; state := st; title := title p;
     quorum_method := quorum_method p; approval_threshold := approval_threshold p;
     expires_at := expires_at p; discussion_duration := discussion_duration p;
     vote_weighting := vote_weighting p; required_participants := required_participants p;
     current_version := current_version p; auto_execute := auto_execute p;
     allow_early_execution := allow_early_execution p; min_voting_period := min_voting_period p;
     history := history p; execution_status := execution_status p |}.
Definition with_expires_at (e : option DateTime) (p : t) : t :=
  {| id := id p; creator := creator p; created_at := created_at p; state := state p; title := title p;
     quorum_method := quorum_method p; approval_threshold := approval_threshold p;
     expires_at := e; discussion_duration := discussion_duration p;
     vote_weighting := vote_weighting p; required_participants := required_participants p;
     current_version := current_version p; auto_execute := auto_execute p;
     allow_early_execution := allow_early_execution p; min_voting_period := min_voting_period p;
     history := history p; execution_status := execution_status p |}.
Definition with_log (version : N) (h : list (DateTime * ProposalState.t)) (p : t) : t :=
  {| id := id p; creator := creator p; created_at := created_at p; state := state p; title := title p;
     quorum_method := quorum_method p; approval_threshold := approval_threshold p;
     expires_at := expires_at p; discussion_duration := discussion_duration p;
     vote_weighting := vote_weighting p; required_participants := required_participants p;
     current_version := version; auto_execute := auto_execute p;
     allow_early_execution := allow_early_execution p; min_voting_period := min_voting_period p;
     history := h; execution_status := execution_status p |}.

(** [self.history.push((now, self.state.clone()))]. *)
Definition log_state (now : DateTime) (p : t) : t :=
  with_log (current_version p) (history p ++ [(now, state p)]) p.

(** [self.state = st; self.history.push((now, st))]. *)
Definition enter (st : ProposalState.t) (now : DateTime) (p : t) : t := log_state now (with_state st p).

Definition date_add (date : DateTime) (d : Duration) : res BoxError DateTime :=
  match dt_add date d with
  | Some e => Ok e
  | None => Panic "`DateTime + TimeDelta` overflowed"
  end.

(** ** Transitions.  [now i] is what the i-th call of [Utc::now()] returns. *)

Definition open_for_feedback (now : nat -> DateTime) : M unit := fun p =>
  if ProposalState.eqb (state p) ProposalState.Draft then
    let p := enter ProposalState.OpenForFeedback (now 0) p in
    match discussion_duration p with
    | Some duration => (p, date_add (now 1) duration ≫= fun _ => Ok tt)
    | None => (p, Ok tt)
    end
  else (p, Ok tt).

Definition start_voting (now : nat -> DateTime) (voting_duration : Duration) : M unit := fun p =>
  if ProposalState.eqb (state p) ProposalState.OpenForFeedback then
    (modify (with_state ProposalState.Voting) ≫= fun _ =>
     lift (date_add (now 0) voting_duration) ≫= fun end_time =>
     modify (with_expires_at (Some end_time)) ≫= fun _ =>
     match min_voting_period p with
     | Some min_period =>
         if dur_ltb voting_duration min_period then
           lift (date_add (now 1) min_period) ≫= fun end_time =>
           modify (with_expires_at (Some end_time))
         else mret tt
     | None => mret tt
     end ≫= fun _ =>
     modify (log_state (now 2))) p
  else (p, Ok tt).

Definition execute (now : nat -> DateTime) : M unit := fun p =>
  if ProposalState.eqb (state p) ProposalState.Voting then
    if negb (allow_early_execution p) &&
       match expires_at p with Some e => dt_ltb (now 0) e | None => false end
    then (p, Ok tt)
    else (enter ProposalState.Executed (now 1) p, Ok tt)
  else (p, Ok tt).

Definition reject (now : nat -> DateTime) : M unit := fun p =>
  if ProposalState.eqb (state p) ProposalState.Voting
  then (enter ProposalState.Rejected (now 0) p, Ok tt) else (p, Ok tt).

(** [self.expires_at.map_or(false, |exp| now > exp)]. *)
Definition past_expiry (now : DateTime) (p : t) : bool :=
  match expires_at p with Some e => dt_ltb e now | None => false end.

Definition expire (now : nat -> DateTime) : M unit := fun p =>
  if ProposalState.eqb (state p) ProposalState.Voting && past_expiry (now 0) p
  then (enter ProposalState.Expired (now 1) p, Ok tt) else (p, Ok tt).

Definition check_expiry (now : nat -> DateTime) : M bool := fun p =>
  if ProposalState.eqb (state p) ProposalState.Voting then
    if past_expiry (now 0) p then (enter ProposalState.Expired (now 1) p, Ok true) else (p, Ok false)
  else (p, Ok false).

Definition update_version `{Platform} (now : nat -> DateTime) : M unit := fun p =>
  match u64_add overflow_checks (current_version p) 1 with
  | Ok version => (log_state (now 0) (with_log version (history p) p), Ok tt)
  | Err e => (p, Err e)
  | Panic m => (p, Panic m)
  | OutOfFuel => (p, OutOfFuel)
  end.

End Lifecycle.

End ProposalLifecycle.

(** What the lifecycle calls and the source does not declare, and the compiler
    of logic attachments ([parse_dsl], with its error already rendered). *)
Class LifecycleCalls (S : Type) `{Chrono} : Type := {
  get_f64 : string -> option AuthContext.t -> VM.t S -> res BoxError (option f64);
  get_string : string -> option AuthContext.t -> VM.t S -> res BoxError (option string);
  id_string : Identity.t -> string;
  choice_to_string : VoteChoice.t -> string;
  check_passed : ProposalLifecycle.t -> option AuthContext.t -> gmap string N -> VM.t S -> res BoxError bool;
  parse_dsl : string -> res string (list Op.t);
}.

Definition f64_sqrt : f64 -> f64 := SFsqrt f64_prec f64_emax.
(** [x.min(y)] for a number [y]: a NaN gives the other operand. *)
Definition f64_min (x y : f64) : f64 :=
  if f64_is_nan x then y else if f64_ltb y x then y else x.

(** ** Votes and execution on a machine *)
Module ProposalVoting.

Import ProposalLifecycle.

Section Voting.

Context {S : Type} `{SB : StorageBackend S} `{PL : Platform} `{RD : Renderings}.
Context `{CH : Chrono} `{UC : Unicode} `{LC : !LifecycleCalls S}.

Definition base_value (choice : VoteChoice.t) : f64 :=
  match choice with
  | VoteChoice.Yes | VoteChoice.No => f64_one
  | VoteChoice.Abstain => f64_zero
  end.

(** [weight] applied to the number under [key], or to [missing]. *)
Definition weigh (key : string) (auth : option AuthContext.t) (vm : VM.t S) (missing : f64) : res BoxError f64 :=
  stored ← get_f64 key auth vm; Ok (default missing stored).

Definition calculate_vote_weight (now : DateTime) (self : t) (voter : Identity.t) (vote_choice : VoteChoice.t)
    (auth : option AuthContext.t) (vm : VM.t S) : res BoxError f64 :=
  let base := base_value vote_choice in
  match vote_weighting self with
  | VoteWeighting.Equal => Ok base
  | VoteWeighting.Reputation =>
      reputation ← weigh ("identity:" +:+ id_string voter +:+ "/reputation") auth vm f64_one;
      Ok (f64_mul base reputation)
  | VoteWeighting.Stake =>
      stake ← weigh ("identity:" +:+ id_string voter +:+ "/stake") auth vm f64_one;
      Ok (f64_mul base stake)
  | VoteWeighting.Tenure =>
      joined ← get_f64 ("identity:" +:+ id_string voter +:+ "/join_date") auth vm;
      match joined with
      | Some join_timestamp =>
          let years := f64_div (f64_sub (f64_of_Z (dt_timestamp now)) join_timestamp) (f64_of_Z 31536000) in
          let weight := f64_add f64_one (f64_mul (f64_min years (f64_of_Z 10)) (f64_of_decimal false 1 (-1))) in
          Ok (f64_mul base weight)
      | None => Ok base
      end
  | VoteWeighting.Quadratic =>
      credits ← weigh ("proposal:" +:+ id self +:+ "/vote_credits/" +:+ id_string voter) auth vm f64_one;
      Ok (f64_mul base (f64_sqrt credits))
  | VoteWeighting.Delegated =>
      delegated_count ← weigh ("identity:" +:+ id_string voter +:+ "/delegated_votes") auth vm f64_zero;
      Ok (f64_mul base (f64_add f64_one delegated_count))
  | VoteWeighting.Custom algo =>
      _ ← get_string ("weight_algo:" +:+ algo) auth vm; Ok base
  end.

Definition votes_prefix (self : t) : string := "proposals/" +:+ id self +:+ "/votes/".

(** One key of the loop. *)
Definition tally_key (now : DateTime) (self : t) (auth : option AuthContext.t) (storage : S) (vm : VM.t S)
    (key : string) (votes : gmap string N) : res BoxError (gmap string N) :=
  if negb (str_starts_with (votes_prefix self) key) || negb (Nat.eqb (split_count "/" key) 4) then Ok votes else
  match sb_get auth "governance" key storage with
  | Ok vote_bytes =>
      match VoteChoice.from_str (default EmptyString (from_utf8 vote_bytes)) with
      | Some vote_choice =>
          weight ← calculate_vote_weight now self (creator self) vote_choice auth vm;
          Ok (<[choice_to_string vote_choice := f64_to_u64 (f64_round weight)]> votes)
      | None => Ok votes
      end
  | Err _ => Ok votes
  | Panic m => Panic m
  | OutOfFuel => OutOfFuel
  end.

Fixpoint tally_keys (now : nat -> DateTime) (self : t) (auth : option AuthContext.t) (storage : S) (vm : VM.t S)
    (keys : list string) (votes : gmap string N) : res BoxError (gmap string N) :=
  match keys with
  | [] => Ok votes
  | key :: keys =>
      votes ← tally_key (now 0) self auth storage vm key votes;
      tally_keys (fun i => now (Datatypes.S i)) self auth storage vm keys votes
  end.

Definition no_storage {A} : res BoxError A := Err (EText "Storage backend not available").

(** The context the caller passes is shadowed by the machine's own. *)
Definition tally_votes (now : nat -> DateTime) (self : t) (auth : option AuthContext.t) (vm : VM.t S) :
    res BoxError (gmap string N) :=
  if negb (ProposalState.eqb (state self) ProposalState.Voting) then
    Err (EText ("Proposal " +:+ id self +:+ " is not in Voting state"))
  else
    match VM.get_storage_backend vm with
    | None => no_storage
    | Some storage =>
        let auth := VM.get_auth_context vm in
        vote_keys ← map_err EStorage (sb_list_keys auth "governance" (Some (votes_prefix self)) storage);
        tally_keys now self auth storage vm vote_keys ∅
    end.

Definition is_quorum_reached (self : t) (vote_count total_eligible : N) : res BoxError bool :=
  match quorum_method self with
  | QuorumMethod.NoQuorum => Ok true
  | QuorumMethod.Percentage percentage =>
      if (total_eligible =? 0)%N then Ok false
      else
        let participation_percent :=
          f64_mul (f64_div (f64_of_Z (Z.of_N vote_count)) (f64_of_Z (Z.of_N total_eligible))) (f64_of_Z 100) in
        Ok (f64_leb (f64_of_Z (Z.of_N percentage)) participation_percent)
  | QuorumMethod.FixedNumber required_count => Ok (required_count <=? vote_count)%N
  end.

Definition is_threshold_met (self : t) (yes_weight total_weight : f64) : res BoxError bool :=
  if f64_leb total_weight f64_zero then Ok false
  else
    let approval_percent := f64_mul (f64_div yes_weight total_weight) (f64_of_Z 100) in
    Ok (f64_leb (f64_of_Z (Z.of_N (approval_threshold self))) approval_percent).

(** [logic_dsl]: the attachment, [None] when it is missing or blank. *)
Definition load_logic (self : t) (fork_vm : VM.t S) : res BoxError (option string) :=
  match VM.get_storage_backend fork_vm with
  | None => no_storage
  | Some storage =>
      let logic_key := "proposals/" +:+ id self +:+ "/attachments/logic" in
      match sb_get (VM.get_auth_context fork_vm) "governance" logic_key storage with
      | Ok logic =>
          match from_utf8 logic with
          | Some dsl => Ok (if is_blank dsl then None else Some dsl)
          | None => Err (EText ("Logic attachment is not valid UTF-8: " +:+ utf8_error logic))
          end
      | Err (StorageError.NotFound _) => Ok None
      | Err e => Err (EText ("Failed to load logic attachment: " +:+ StorageError.to_string e))
      | Panic m => Panic m
      | OutOfFuel => OutOfFuel
      end
  end.

Definition finish (m : stm (VM.t S) VMError.t unit) (status : ExecutionStatus.t) :
    stm (VM.t S) BoxError ExecutionStatus.t := fun vm =>
  let '(vm', r) := m vm in (vm', _ ← map_err EVM r; Ok status).

(** The fork runs the logic; commit and rollback go to the original machine. *)
Definition execute_proposal_logic (fuel : nat) (self : t) : stm (VM.t S) BoxError ExecutionStatus.t := fun vm =>
  match fork_vm ← map_err EVM (VM.fork vm); logic ← load_logic self fork_vm; Ok (fork_vm, logic) with
  | Ok (fork_vm, None) => finish VM.commit_fork_transaction ExecutionStatus.Success vm
  | Ok (fork_vm, Some dsl) =>
      match parse_dsl dsl with
      | Ok ops =>
          match (Interp.execute fuel ops fork_vm).2 with
          | Ok _ => finish VM.commit_fork_transaction ExecutionStatus.Success vm
          | Err e =>
              finish VM.rollback_fork_transaction
                (ExecutionStatus.Failure ("Runtime error during fork execution: " +:+ VMError.to_string e)) vm
          | Panic m => (vm, Panic m)
          | OutOfFuel => (vm, OutOfFuel)
          end
      | Err e => (vm, Err (EText ("Failed to parse logic DSL: " +:+ e)))
      | Panic m => (vm, Panic m)
      | OutOfFuel => (vm, OutOfFuel)
      end
  | Err e => (vm, Err e)
  | Panic m => (vm, Panic m)
  | OutOfFuel => (vm, OutOfFuel)
  end.

(** The methods below change the proposal and the machine. *)
Abbreviation M := (stm (t * VM.t S) BoxError).

(** [tally_votes] then [check_passed]. *)
Definition passed (now : nat -> DateTime) (auth : option AuthContext.t) (self : t) (vm : VM.t S) :
    res BoxError bool :=
  votes ← tally_votes now self auth vm; check_passed self auth votes vm.

Definition transition_to_executed (fuel : nat) (now : nat -> DateTime) (later : DateTime)
    (auth : option AuthContext.t) : M bool := fun '(self, vm) =>
  if ProposalState.eqb (state self) ProposalState.Voting then
    match passed now auth self vm with
    | Ok true =>
        let self := enter ProposalState.Executed later self in
        let '(vm, exec_result) := execute_proposal_logic fuel self vm in
        match exec_result with
        | Ok _ | Err _ => (self, vm, Ok true)
        | Panic m => (self, vm, Panic m)
        | OutOfFuel => (self, vm, OutOfFuel)
        end
    | Ok false => (self, vm, Ok false)
    | Err e => (self, vm, Err e)
    | Panic m => (self, vm, Panic m)
    | OutOfFuel => (self, vm, OutOfFuel)
    end
  else (self, vm, Ok false).

Definition transition_to_rejected (now : nat -> DateTime) (later : DateTime)
    (auth : option AuthContext.t) : M bool := fun '(self, vm) =>
  if ProposalState.eqb (state self) ProposalState.Voting then
    match passed now auth self vm with
    | Ok false => (enter ProposalState.Rejected later self, vm, Ok true)
    | Ok true => (self, vm, Ok false)
    | Err e => (self, vm, Err e)
    | Panic m => (self, vm, Panic m)
    | OutOfFuel => (self, vm, OutOfFuel)
    end
  else (self, vm, Ok false).

(** The vote is counted only for the message. *)
Definition transition_to_expired (now : nat -> DateTime) (first later : DateTime)
    (auth : option AuthContext.t) : M bool := fun '(self, vm) =>
  if ProposalState.eqb (state self) ProposalState.Voting && past_expiry first self then
    match passed now auth self vm with
    | Ok _ => (enter ProposalState.Expired later self, vm, Ok true)
    | Err e => (self, vm, Err e)
    | Panic m => (self, vm, Panic m)
    | OutOfFuel => (self, vm, OutOfFuel)
    end
  else (self, vm, Ok false).

End Voting.

End ProposalVoting.

(** ** Transitions of a proposal's life *)
Module LifecycleTheorems.

Import ProposalLifecycle ProposalVoting.

Inductive transition : ProposalState.t -> ProposalState.t -> Prop :=
  | opened : transition ProposalState.Draft ProposalState.OpenForFeedback
  | voting_started : transition ProposalState.OpenForFeedback ProposalState.Voting
  | executed : transition ProposalState.Voting ProposalState.Executed
  | rejected : transition ProposalState.Voting ProposalState.Rejected
  | expired : transition ProposalState.Voting ProposalState.Expired.

(** [path a l b]: the entries [l] lead from [a] to [b], each by a transition or
    staying where it is. *)
Fixpoint path (a : ProposalState.t) (l : list ProposalState.t) (b : ProposalState.t) : Prop :=
  match l with
  | [] => a = b
  | c :: l => (c = a \/ transition a c) /\ path c l b
  end.

Lemma path_app a l1 b l2 c : path a l1 b -> path b l2 c -> path a (l1 ++ l2) c.
Proof. revert a. induction l1 as [|x l1 IH]; cbn; [by intros a ->|]. intros a [Hx Hl] H2. eauto. Qed.

Definition terminal (st : ProposalState.t) : Prop :=
  st = ProposalState.Executed \/ st = ProposalState.Rejected \/ st = ProposalState.Expired.

Lemma path_terminal a l b : terminal a -> path a l b -> b = a /\ Forall (eq a) l.
Proof.
  intros Ha. revert a Ha. induction l as [|x l IH]; cbn; [by intros a _ ->|].
  intros a Ha [[->|Ht] Hl].
  - destruct (IH a Ha Hl) as [-> Hf]. by constructor; [|constructor].
  - by destruct Ha as [->|[->| ->]]; inversion Ht.
Qed.

Section Calls.

Context {S : Type} `{SB : StorageBackend S} `{PL : Platform} `{RD : Renderings}.
Context `{CH : Chrono} `{UC : Unicode} `{LC : !LifecycleCalls S}.

Abbreviation world := (t * VM.t S)%type.

(** A call of any method that returns, be it with an error. *)
Definition returns {E A} (r : res E A) : Prop := match r with Ok _ | Err _ => True | _ => False end.
Inductive call : world -> world -> Prop :=
  | call_open now p p' vm : open_for_feedback now p = (p', Ok tt) -> call (p, vm) (p', vm)
  | call_vote now d p p' vm : start_voting now d p = (p', Ok tt) -> call (p, vm) (p', vm)
  | call_execute now p p' vm : execute now p = (p', Ok tt) -> call (p, vm) (p', vm)
  | call_reject now p p' vm : reject now p = (p', Ok tt) -> call (p, vm) (p', vm)
  | call_expire now p p' vm : expire now p = (p', Ok tt) -> call (p, vm) (p', vm)
  | call_check_expiry now p p' vm b : check_expiry now p = (p', Ok b) -> call (p, vm) (p', vm)
  | call_update now p p' vm : update_version now p = (p', Ok tt) -> call (p, vm) (p', vm)
  | call_executed fuel now later auth w w' r :
      transition_to_executed fuel now later auth w = (w', r) -> returns r -> call w w'
  | call_rejected now later auth w w' r : transition_to_rejected now later auth w = (w', r) -> returns r -> call w w'
  | call_expired now first later auth w w' r :
      transition_to_expired now first later auth w = (w', r) -> returns r -> call w w'
  | call_machine p vm vm' : call (p, vm) (p, vm').

(** What a method appended to the history, and that it leads to the new state. *)
Definition grows (p p' : t) : Prop :=
  exists l, history p' = history p ++ l /\ path (state p) l.*2 (state p').

Lemma grows_refl p : grows p p.
Proof. exists []. by rewrite app_nil_r. Qed.

Lemma grows_trans p1 p2 p3 : grows p1 p2 -> grows p2 p3 -> grows p1 p3.
Proof.
  intros (l1 & H1 & P1) (l2 & H2 & P2). exists (l1 ++ l2). split; [by rewrite H2, H1, app_assoc|].
  rewrite fmap_app. eauto using path_app.
Qed.

Lemma enter_extends st now p : transition (state p) st -> grows p (enter st now p).
Proof. intros Ht. exists [(now, st)]. cbn. auto. Qed.

Lemma eqb_state a b : ProposalState.eqb a b = true -> a = b.
Proof. unfold ProposalState.eqb. by rewrite bool_decide_eq_true. Qed.

(** A case on the state of the proposal and on the guard that follows it. *)
Ltac by_state :=
  match goal with
  | H : context [ProposalState.eqb ?a ?b] |- _ =>
      let E := fresh "Hstate" in
      destruct (ProposalState.eqb a b) eqn:E; cbn in H; [apply eqb_state in E|clear E]
  end.

Ltac entered := eapply enter_extends;
  match goal with H : state _ = _ |- _ => rewrite H; constructor end.

(** The outcome of a method that returned. *)
Ltac returned :=
  match goal with
  | H : (_, _) = (_, _) |- _ => first [discriminate H|injection H as <- _|injection H as <-]
  end.

Lemma open_extends now p p' : open_for_feedback now p = (p', Ok tt) -> grows p p'.
Proof.
  unfold open_for_feedback. intros H. by_state.
  - destruct (discussion_duration p); returned; entered.
  - returned. apply grows_refl.
Qed.

Lemma vote_extends now d p p' : start_voting now d p = (p', Ok tt) -> grows p p'.
Proof.
  unfold start_voting. intros H. by_state; [|returned; apply grows_refl].
  apply stm_bind_ok in H as (p1 & [] & H1 & H). injection H1 as <-.
  apply stm_bind_ok in H as (p2 & e & H2 & H).
  assert (p2 = with_state ProposalState.Voting p) as -> by (unfold lift in H2; congruence).
  apply stm_bind_ok in H as (p3 & [] & H3 & H). injection H3 as <-.
  apply stm_bind_ok in H as (p4 & [] & H4 & H). injection H as <-.
  assert (exists e', p4 = with_expires_at e' (with_state ProposalState.Voting p)) as [e' ->].
  { destruct (min_voting_period p) as [m|]; [|injection H4 as <-; eauto].
    destruct (dur_ltb d m); [|injection H4 as <-; eauto].
    apply stm_bind_ok in H4 as (p5 & e5 & H5 & H4). injection H4 as <-.
    unfold lift in H5. injection H5 as <- _. eexists. reflexivity. }
  exists [(now 2, ProposalState.Voting)]. split; [done|]. cbn.
  split; [|done]. right. rewrite Hstate. constructor.
Qed.

Lemma execute_extends now p p' : execute now p = (p', Ok tt) -> grows p p'.
Proof.
  unfold execute. intros H. by_state; [|returned; apply grows_refl].
  destruct (negb (allow_early_execution p) && _); returned; [apply grows_refl|entered].
Qed.

Lemma reject_extends now p p' : reject now p = (p', Ok tt) -> grows p p'.
Proof.
  unfold reject. intros H. by_state; returned; [entered|apply grows_refl].
Qed.

Lemma expire_extends now p p' : expire now p = (p', Ok tt) -> grows p p'.
Proof.
  unfold expire. intros H. by_state; [|returned; apply grows_refl].
  destruct (past_expiry _ _); returned; [entered|apply grows_refl].
Qed.

Lemma check_expiry_extends now p p' b : check_expiry now p = (p', Ok b) -> grows p p'.
Proof.
  unfold check_expiry. intros H. by_state; [|returned; apply grows_refl].
  destruct (past_expiry _ _); returned; [entered|apply grows_refl].
Qed.

Lemma update_extends now p p' : update_version now p = (p', Ok tt) -> grows p p'.
Proof.
  unfold update_version. intros H. destruct (u64_add _ _ _); returned.
  by exists [(now 0, state p)]; split; [|split; [left|]].
Qed.

Lemma executed_extends fuel now later auth w w' r :
  transition_to_executed fuel now later auth w = (w', r) -> returns r -> grows w.1 w'.1.
Proof.
  destruct w as [p vm]. unfold transition_to_executed. intros H Hr.
  by_state; [|injection H as <- <-; apply grows_refl].
  destruct (passed _ _ _ _) as [[]| | |]; [|injection H as <- <-; apply grows_refl..].
  destruct (execute_proposal_logic _ _ _) as [vm' []]; injection H as <- <-; try done; cbn; entered.
Qed.

Lemma rejected_extends now later auth w w' r :
  transition_to_rejected now later auth w = (w', r) -> returns r -> grows w.1 w'.1.
Proof.
  destruct w as [p vm]. unfold transition_to_rejected. intros H Hr.
  by_state; [|injection H as <- <-; apply grows_refl].
  destruct (passed _ _ _ _) as [[]| | |]; injection H as <- <-; first [apply grows_refl|cbn; entered].
Qed.

Lemma expired_extends now first later auth w w' r :
  transition_to_expired now first later auth w = (w', r) -> returns r -> grows w.1 w'.1.
Proof.
  destruct w as [p vm]. unfold transition_to_expired. intros H Hr.
  by_state; [|injection H as <- <-; apply grows_refl].
  destruct (past_expiry _ _); [|injection H as <- <-; apply grows_refl].
  destruct (passed _ _ _ _); injection H as <- <-; first [apply grows_refl|cbn; entered].
Qed.

Lemma call_extends w w' : call w w' -> grows w.1 w'.1.
Proof.
  destruct 1; cbn; eauto using open_extends, vote_extends, execute_extends, reject_extends, expire_extends,
    check_expiry_extends, update_extends, executed_extends, rejected_extends, expired_extends, grows_refl.
Qed.

Lemma calls_extend w w' : rtc call w w' -> grows w.1 w'.1.
Proof. induction 1; eauto using grows_refl, grows_trans, call_extends. Qed.

(** ** What holds of every life *)

(** C28. Whatever methods are called on a new proposal, with whatever outcome,
    its history starts with the draft and each entry follows the one before by
    one of the five transitions or repeats it; the last one is the present state;
    and whatever is called then, the entries that are there stay, in their
    places, before those that are added. *)
Theorem history_is_a_path now i creator title q th w dd rp vm p vm' p' vm'' :
  rtc call (new now i creator title q th w dd rp, vm) (p, vm') -> rtc call (p, vm') (p', vm'') ->
  (exists l, history p = (now, ProposalState.Draft) :: l /\ path ProposalState.Draft l.*2 (state p)) /\
  (exists l, history p' = history p ++ l /\ path (state p) l.*2 (state p')).
Proof.
  intros (l & Hl & Hp)%calls_extend H%calls_extend. split; [|exact H].
  exists l. by cbn in Hl; rewrite Hl.
Qed.

(** An executed, rejected or expired proposal stays so under any calls. *)
Theorem terminal_states_absorb p vm p' vm' :
  rtc call (p, vm) (p', vm') -> terminal (state p) -> state p' = state p.
Proof. intros H Ht. destruct (calls_extend _ _ H) as (l & _ & Hp). by apply (path_terminal _ _ _ Ht Hp). Qed.

(** What [start_voting] leaves. *)
Lemma start_voting_ok now d p p1 :
  state p = ProposalState.OpenForFeedback -> start_voting now d p = (p1, Ok tt) ->
  exists e0 e, dt_add (now 0) d = Some e0 /\
    (match min_voting_period p with
     | Some m => if dur_ltb d m then dt_add (now 1) m else Some e0
     | None => Some e0
     end) = Some e /\
    p1 = log_state (now 2) (with_expires_at (Some e) (with_state ProposalState.Voting p)).
Proof.
  intros Hs. unfold start_voting, date_add, lift, modify, mbind, stm_bind. rewrite Hs. cbn.
  destruct (dt_add (now 0) d) as [e0|]; [|done]. cbn.
  destruct (min_voting_period p) as [m|] eqn:Em.
  - destruct (dur_ltb d m) eqn:Ed; cbn.
    + destruct (dt_add (now 1) m) as [e|]; [|done]. cbn. intros H. injection H as <-. by exists e0, e.
    + intros H. injection H as <-. by exists e0, e0.
  - cbn. intros H. injection H as <-. by exists e0, e0.
Qed.

(** Without early execution, [execute] succeeds exactly when the voting
    window has passed, and the window is no shorter than the requested duration
    and than the minimum. *)
Theorem no_early_execution `{!ChronoLaws} now d p p1 now' :
  state p = ProposalState.OpenForFeedback -> allow_early_execution p = false ->
  start_voting now d p = (p1, Ok tt) -> now 0 = now 1 ->
  exists e, expires_at p1 = Some e /\
    (state (execute now' p1).1 = ProposalState.Executed <-> dt_ltb (now' 0) e = false) /\
    (forall d' e', d' = d \/ min_voting_period p = Some d' -> dt_add (now 0) d' = Some e' -> dt_ltb e e' = false).
Proof.
  intros Hs Ha Hv Hn. destruct (start_voting_ok _ _ _ _ Hs Hv) as (e0 & e & H0 & He & ->). exists e.
  split; [done|]. split.
  { unfold execute. cbn. rewrite Ha. cbn. by destruct (dt_ltb (now' 0) e). }
  intros d' e' Hd He'. destruct (min_voting_period p) as [m|].
  - rewrite <- Hn in He. destruct (dur_ltb d m) eqn:Ed; destruct Hd as [->|[= ->]].
    + eapply dt_add_mono; [by apply dur_ltb_asym|exact He'|exact He].
    + rewrite He in He'. injection He' as ->. apply dt_ltb_irrefl.
    + rewrite H0 in He'. injection He as ->. injection He' as ->. apply dt_ltb_irrefl.
    + injection He as ->. eapply dt_add_mono; [exact Ed|exact He'|exact H0].
  - destruct Hd as [->|]; [|done]. rewrite H0 in He'. injection He as ->. injection He' as ->.
    apply dt_ltb_irrefl.
Qed.

(** ** Execution of the logic *)

Lemma finish_inactive m status vm :
  VMExecution.transaction_active (VM.executor vm) = false ->
  m = VM.commit_fork_transaction \/ m = VM.rollback_fork_transaction ->
  exists e, finish m status vm = (vm, Err (EVM e)).
Proof.
  intros Ha [->| ->]; unfold finish, VM.commit_fork_transaction, VM.rollback_fork_transaction,
    VM.on_executor, zoom, VMExecution.commit_fork_transaction, VMExecution.rollback_fork_transaction,
    VMExecution.end_transaction; rewrite Ha; destruct vm; cbn; eauto.
Qed.

Lemma execute_proposal_logic_inactive fuel p vm :
  VMExecution.transaction_active (VM.executor vm) = false ->
  (execute_proposal_logic fuel p vm).1 = vm /\ is_ok (execute_proposal_logic fuel p vm).2 = false.
Proof.
  intros Ha. unfold execute_proposal_logic.
  destruct (_ ≫= _) as [[fork_vm [dsl|]]| | |]; try done.
  - destruct (parse_dsl dsl) as [ops| | |]; try done.
    destruct ((Interp.execute fuel ops fork_vm).2); try done;
      edestruct finish_inactive as [? ->]; eauto.
  - edestruct finish_inactive as [? ->]; eauto.
Qed.

(** C29. A passed proposal becomes executed although its logic never takes
    effect: the fork holds the transaction and the effects, commit and rollback
    go to the original machine, which has none and refuses; the error is dropped
    and the machine is as before. *)
Theorem executed_without_effect fuel now later auth p vm :
  state p = ProposalState.Voting -> VMExecution.transaction_active (VM.executor vm) = false ->
  passed now auth p vm = Ok true ->
  is_ok (execute_proposal_logic fuel (enter ProposalState.Executed later p) vm).2 = false /\
  (transition_to_executed fuel now later auth (p, vm)).1 = (enter ProposalState.Executed later p, vm) /\
  match (transition_to_executed fuel now later auth (p, vm)).2 with
  | Ok b => b = true
  | Err _ => False
  | Panic _ | OutOfFuel => True
  end.
Proof.
  intros Hs Ha Hp. unfold transition_to_executed. rewrite Hs, Hp. cbn [ProposalState.eqb bool_decide].
  destruct (execute_proposal_logic_inactive fuel (enter ProposalState.Executed later p) vm Ha) as [H1 H2].
  split; [exact H2|]. destruct (execute_proposal_logic _ _ _) as [vm' []]; cbn in H1, H2 |- *;
    subst; try discriminate; done.
Qed.

(** ** The tally *)

(** The ballot a stored key holds, if the loop counts it. *)
Definition ballot (self : t) (auth : option AuthContext.t) (storage : S) (key : string) : option VoteChoice.t :=
  if negb (str_starts_with (votes_prefix self) key) || negb (Nat.eqb (split_count "/" key) 4) then None else
  match sb_get auth "governance" key storage with
  | Ok vote_bytes => VoteChoice.from_str (default EmptyString (from_utf8 vote_bytes))
  | _ => None
  end.

(** What an equally weighted ballot adds up to. *)
Definition unit_weight (choice : VoteChoice.t) : N :=
  match choice with VoteChoice.Abstain => 0 | _ => 1 end.

Lemma tally_key_equal now self auth storage vm key votes votes' :
  vote_weighting self = VoteWeighting.Equal ->
  tally_key now self auth storage vm key votes = Ok votes' ->
  votes' = match ballot self auth storage key with
           | Some c => <[choice_to_string c := unit_weight c]> votes
           | None => votes
           end.
Proof.
  intros Hw. unfold tally_key, ballot, calculate_vote_weight. rewrite Hw.
  destruct (negb _ || negb _); [by intros [= <-]|].
  destruct (sb_get _ _ _ _) as [v| | |]; try done; [|by intros [= <-]].
  destruct (VoteChoice.from_str _) as [c|]; [|by intros [= <-]].
  destruct c; intros [= <-]; f_equal; vm_compute; reflexivity.
Qed.

Lemma tally_keys_equal now self auth storage vm keys votes votes' :
  vote_weighting self = VoteWeighting.Equal ->
  (forall c c', choice_to_string c = choice_to_string c' -> c = c') ->
  tally_keys now self auth storage vm keys votes = Ok votes' ->
  forall c n, (votes' !! choice_to_string c = Some n) <->
    (n = unit_weight c /\ Some c ∈ (ballot self auth storage <$> keys)) \/
    (Some c ∉ (ballot self auth storage <$> keys) /\ votes !! choice_to_string c = Some n).
Proof.
  intros Hw Hi. revert now votes. induction keys as [|key keys IH]; cbn; intros now votes H c n.
  { injection H as <-. rewrite elem_of_nil. naive_solver. }
  apply res_bind_ok in H as (votes1 & H1 & H). apply (tally_key_equal _ _ _ _ _ _ _ _ Hw) in H1.
  rewrite (IH _ _ H c n), !elem_of_cons. clear H IH. revert H1. generalize (ballot self auth storage key).
  generalize (ballot self auth storage <$> keys). intros l b ->.
  destruct (decide (b = Some c)) as [->|E].
  - rewrite lookup_insert_eq. destruct (decide (Some c ∈ l)); intuition congruence.
  - assert (match b with Some c => <[choice_to_string c := unit_weight c]> votes | None => votes end
            !! choice_to_string c = votes !! choice_to_string c) as ->.
    { destruct b as [c'|]; [|done]. apply lookup_insert_ne. intros Hc. apply Hi in Hc. congruence. }
    intuition congruence.
Qed.

(** The tally of an equally weighted vote is not a count: the entry of a
    choice is 1 ([Abstain]: 0) as soon as one ballot chooses it, however many
    do, and absent otherwise. *)
Theorem tally_is_not_a_count now self auth vm storage keys votes :
  vote_weighting self = VoteWeighting.Equal ->
  (forall c c', choice_to_string c = choice_to_string c' -> c = c') ->
  VM.get_storage_backend vm = Some storage ->
  sb_list_keys (VM.get_auth_context vm) "governance" (Some (votes_prefix self)) storage = Ok keys ->
  tally_votes now self auth vm = Ok votes ->
  forall c n, votes !! choice_to_string c = Some n <->
    n = unit_weight c /\ exists key, key ∈ keys /\ ballot self (VM.get_auth_context vm) storage key = Some c.
Proof.
  intros Hw Hi Hst Hk H c n. unfold tally_votes in H. rewrite Hst, Hk in H.
  destruct (negb _); [done|]. cbn in H. rewrite (tally_keys_equal _ _ _ _ _ _ _ _ Hw Hi H c n), lookup_empty.
  rewrite list_elem_of_fmap. naive_solver.
Qed.

(** ** Parsing and old parameters *)

(** An id with a slash has more than four parts in its vote keys: none counts. *)
Lemma ballot_slash_id self auth storage key :
  0 < count_char "/" (id self) -> ballot self auth storage key = None.
Proof.
  intros Hid. unfold ballot. destruct (str_starts_with (votes_prefix self) key) eqn:E; [|done].
  destruct (str_starts_with_inv _ _ E) as [rest ->].
  assert (count_char "/" (votes_prefix self) = 3 + count_char "/" (id self)) as Hc.
  { unfold votes_prefix. rewrite !count_char_app. cbn. lia. }
  unfold split_count. rewrite count_char_app, Hc. by destruct (count_char "/" (id self)); [lia|].
Qed.

End Calls.

Section Parsing.

Context `{UC : Unicode}.

(** A lower-case ASCII tag before a number is read as it is. *)
Lemma to_lowercase_tag p n :
  forallb (fun c => (N_of_ascii c <? 128)%N) (String.list_ascii_of_string p) = true -> str_ascii_lower p = p ->
  to_lowercase (String.append p (u64_to_string n)) = String.append p (u64_to_string n).
Proof.
  intros Hp Hl. destruct (all_digits_ascii _ (all_digits_u64_to_string n)) as [H1 H2].
  rewrite to_lowercase_ascii by (by rewrite forallb_ascii_app, Hp, H1).
  by rewrite str_ascii_lower_app, Hl, H2.
Qed.

(** The texts [percentage:n] and [fixed:n] are read back as written, for
    every percentage up to 100 and every 64-bit count; larger percentages are
    refused. *)
Theorem quorum_method_from_str n :
  QuorumMethod.from_str ("percentage:" +:+ u64_to_string n) =
    (if (n <=? 100)%N then Some (QuorumMethod.Percentage n) else None) /\
  QuorumMethod.from_str ("fixed:" +:+ u64_to_string n) =
    (if (n <=? u64_max)%N then Some (QuorumMethod.FixedNumber n) else None).
Proof.
  unfold QuorumMethod.from_str. rewrite !to_lowercase_tag by reflexivity. split.
  - rewrite strip_prefix_app, parse_uint_u64_to_string. cbn.
    destruct (n <=? 100)%N eqn:E; [apply N.leb_le in E|apply N.leb_gt in E].
    + rewrite (proj2 (N.leb_le n 255)) by lia. cbn. by rewrite (proj2 (N.ltb_ge 100 n)) by lia.
    + destruct (n <=? 255)%N; [|done]. cbn. by rewrite (proj2 (N.ltb_lt 100 n)) by lia.
  - rewrite strip_prefix_app. unfold parse_u64. rewrite parse_uint_u64_to_string.
    by destruct (n <=? u64_max)%N.
Qed.

End Parsing.

(** The truncation of an old threshold: 256 becomes 0, which any vote meets. *)
Theorem old_threshold_truncated `{Chrono} now i creator title q dd rp n :
  approval_threshold (new_backwards_compatible now i creator title q (256 * n) dd rp) = 0%N.
Proof. cbn. by rewrite N.mul_comm, N.Div0.mod_mul. Qed.

End LifecycleTheorems.

(** ** Concrete lives *)
Module LifecycleExamples.

Import ProposalLifecycle ProposalVoting LifecycleTheorems.

#[local] Existing Instance Samples.platform.
#[local] Existing Instance Samples.renderings.

#[local] Existing Instance ClockSamples.seconds.
#[local] Existing Instance ClockSamples.seconds_laws.
#[local] Instance ascii_case : Unicode.
Proof.
  refine {| to_lowercase := str_ascii_lower; utf8_error := fun _ => "invalid utf-8 sequence" |}. done.
Defined.

(** One operation is known to the sample compiler; a vote passes when somebody
    said yes and nobody said no. *)
#[local] Instance sample_calls : LifecycleCalls InMemoryStorage.t :=
  {| get_f64 := fun _ _ _ => Ok None; get_string := fun _ _ _ => Ok None; id_string := Identity.did;
     choice_to_string := fun c =>
       match c with VoteChoice.Yes => "yes" | VoteChoice.No => "no" | VoteChoice.Abstain => "abstain" end;
     check_passed := fun _ _ votes _ => Ok (bool_decide (votes !! "yes" = Some 1%N /\ votes !! "no" = None));
     parse_dsl := fun s => if String.eqb s "store" then Ok [Op.Push (Interp.num 1); Op.StoreP "effect"]
                           else Err "unknown" |}.

Definition sample_identity : Identity.t :=
  {| Identity.did := "did:alice"; Identity.public_key_bytes := EmptyString; Identity.private_key_bytes := None;
     Identity.public_key_multibase := EmptyString;
     Identity.profile := {| public_username := "alice"; full_name := None; other_fields := ∅ |};
     Identity.identity_type := "member" |}.

(** The clock stands still at second [n]. *)
Definition at_second (n : Z) : nat -> @DateTime ClockSamples.seconds := fun _ => n.

Definition draft : t :=
  new 0%Z "p1" sample_identity "Title" QuorumMethod.NoQuorum 50 VoteWeighting.Equal None None.
Definition open : t := (open_for_feedback (at_second 1) draft).1.
Definition voting : t := (start_voting (at_second 10) 100%Z open).1.

(** The logic attachment and three votes, all yes. *)
Definition stored : InMemoryStorage.t :=
  let set k v s := (InMemoryStorage.set 1 (Some InMemoryStorage.admin) "governance" k v s).1 in
  set "proposals/p1/votes/a" "yes" (set "proposals/p1/votes/b" "Yes" (set "proposals/p1/votes/c" "YES"
    (set "proposals/p1/attachments/logic" "store" InMemoryStorage.with_account))).
Definition machine : VM.t InMemoryStorage.t :=
  VM.set_auth_context InMemoryStorage.admin (VM.set_namespace "governance" (VM.with_storage_backend stored)).

Definition rejected_life : t := (reject (at_second 11) voting).1.

Lemma sample_calls_made (vm : VM.t InMemoryStorage.t) : rtc call (draft, vm) (rejected_life, vm).
Proof.
  apply (rtc_l _ _ (open, vm)); [eapply (call_open (at_second 1)); reflexivity|].
  apply (rtc_l _ _ (voting, vm)); [eapply (call_vote (at_second 10) 100%Z); reflexivity|].
  apply rtc_once. eapply (call_reject (at_second 11)). reflexivity.
Qed.

Lemma history_is_a_path_witness :
  state rejected_life = ProposalState.Rejected /\
  (exists l, history rejected_life = (0%Z, ProposalState.Draft) :: l /\
     path ProposalState.Draft l.*2 (state rejected_life)) /\
  (exists l, history (update_version (at_second 20) rejected_life).1 = history rejected_life ++ l /\
     path ProposalState.Rejected l.*2 ProposalState.Rejected).
Proof.
  split; [reflexivity|].
  refine (history_is_a_path _ _ _ _ _ _ _ _ _ machine _ machine (update_version (at_second 20) rejected_life).1 machine
    (sample_calls_made machine) _).
  apply rtc_once. apply (call_update (at_second 20)). reflexivity.
Defined.

Lemma terminal_states_absorb_witness :
  state (execute (at_second 500) rejected_life).1 = ProposalState.Rejected.
Proof.
  apply (terminal_states_absorb rejected_life machine _ machine); [|right; left; reflexivity].
  apply rtc_once. eapply (call_execute (at_second 500)). reflexivity.
Defined.

Lemma no_early_execution_witness :
  exists e, expires_at voting = Some e /\
    (state (execute (at_second 109) voting).1 = ProposalState.Executed <-> (109 <? e)%Z = false) /\
    (forall d' e', d' = 100%Z \/ min_voting_period open = Some d' -> Some (10 + d')%Z = Some e' -> (e <? e')%Z = false).
Proof.
  apply (no_early_execution (at_second 10) 100%Z open voting (at_second 109)); reflexivity.
Defined.

(** The vote ends the proposal at once, whatever is left of its window. *)
Lemma executed_without_effect_witness :
  (expires_at voting = Some 110%Z /\ state (transition_to_executed 9 (at_second 11) 12%Z None (voting, machine)).1.1 =
    ProposalState.Executed) /\
  is_ok (execute_proposal_logic 9 (enter ProposalState.Executed 12%Z voting) machine).2 = false /\
  (transition_to_executed 9 (at_second 11) 12%Z None (voting, machine)).1 =
    (enter ProposalState.Executed 12%Z voting, machine) /\
  match (transition_to_executed 9 (at_second 11) 12%Z None (voting, machine)).2 with
  | Ok b => b = true
  | Err _ => False
  | Panic _ | OutOfFuel => True
  end.
Proof.
  split; [vm_compute; done|].
  apply executed_without_effect; [reflexivity|reflexivity|vm_compute; reflexivity].
Defined.

(** The attachment does run in the fork, and would have stored its key. *)
Example logic_runs_in_the_fork :
  match VM.fork machine with
  | Ok fork_vm =>
      option_map (fun s => view s "governance" "effect")
        (VM.get_storage_backend (Interp.execute 9 [Op.Push (Interp.num 1); Op.StoreP "effect"] fork_vm).1)
  | _ => None
  end = Some (Some "1").
Proof. vm_compute. reflexivity. Qed.

(** Three yes votes make a tally of one. *)
Lemma tally_is_not_a_count_witness :
  exists votes, tally_votes (at_second 11) voting None machine = Ok votes /\ votes !! "yes" = Some 1%N.
Proof.
  eexists. split; [vm_compute; reflexivity|].
  eapply (tally_is_not_a_count (at_second 11) voting None machine stored _ _ eq_refl
    ltac:(by intros [] []) eq_refl ltac:(vm_compute; reflexivity) ltac:(vm_compute; reflexivity) VoteChoice.Yes 1%N).
  split; [reflexivity|]. exists "proposals/p1/votes/a".
  split; [|vm_compute; reflexivity]. set_solver.
Defined.

(** 29 of 100 voters do not reach a quorum of 29 percent: the quotient rounds. *)
Theorem quorum_rounds_down :
  is_quorum_reached (new 0%Z "p" sample_identity "t" (QuorumMethod.Percentage 29) 50 VoteWeighting.Equal None None)
    29 100 = Ok false.
Proof. vm_compute. reflexivity. Qed.

End LifecycleExamples.
