(* ===== verification/Comments.v ===== *)
(** * Proposals and comments: governance/proposal.rs and governance/comments.rs

    The status marks of a proposal record, comments with their edit history,
    reactions and tags, and the functions that read and write comments through a
    machine.  The writing functions write to a clone of the machine's storage; a
    clone is a copy here, as it is for the in-memory backend.  UUIDs, dates and
    the JSON codec are parameters. *)
From S2P Require Import Prelude Float64 Text Values Ops Stack Memory Auth Storage InMemory Economic Executor.
From S2P Require Import Ledger Trace Machine Governance VM Lifecycle.

(** ** governance/proposal.rs *)
Module ProposalStatus.

Inductive t : Type := Draft | Deliberation | Active | Voting | Approved | Executed | Rejected | Expired.

End ProposalStatus.

Module Proposal.

Section Proposal.

Context `{CH : Chrono}.

Record t : Type := {
  id : string;
  creator : string;
  status : ProposalStatus.t;
  created_at : DateTime;
  expires_at : option DateTime;
  logic_path : option string;
  discussion_path : option string;
  votes_path : option string;
  attachments : list string;
  execution_result : option string;
  deliberation_started_at : option DateTime;
  min_deliberation_hours : option Z;
}.

Definition new (now : DateTime) (id creator : string) (logic_path : option string) (expires_at : option DateTime)
    (discussion_path : option string) (attachments : list string) : t :=
  {| id := id; creator := creator; status := ProposalStatus.Draft; created_at := now;
     expires_at := expires_at; logic_path := logic_path; discussion_path := discussion_path;
     votes_path := None; attachments := attachments; execution_result := None;
     deliberation_started_at := None; min_deliberation_hours := None |}.

Definition storage_key (self : t) : string := "governance/proposals/" +:+ id self.

Definition mark (st : ProposalStatus.t) (result : option string) (started : option DateTime) (self : t) : t :=
  {| id := id self; creator := creator self; status := st; created_at := created_at self;
     expires_at := expires_at self; logic_path := logic_path self; discussion_path := discussion_path self;
     votes_path := votes_path self; attachments := attachments self; execution_result := result;
     deliberation_started_at := started; min_deliberation_hours := min_deliberation_hours self |}.
Definition with_status (st : ProposalStatus.t) (self : t) : t :=
  mark st (execution_result self) (deliberation_started_at self) self.

Definition mark_active : t -> t := with_status ProposalStatus.Active.
Definition mark_deliberation (now : DateTime) (self : t) : t :=
  mark ProposalStatus.Deliberation (execution_result self) (Some now) self.
Definition mark_voting : t -> t := with_status ProposalStatus.Voting.
Definition mark_approved : t -> t := with_status ProposalStatus.Approved.
Definition mark_executed (result : string) (self : t) : t :=
  mark ProposalStatus.Executed (Some result) (deliberation_started_at self) self.
Definition mark_rejected : t -> t := with_status ProposalStatus.Rejected.
Definition mark_expired : t -> t := with_status ProposalStatus.Expired.

End Proposal.

End Proposal.

(** ** governance/comments.rs: the comment *)
Module ProposalComment.

Section Comment.

Context `{CH : Chrono}.

Record CommentVersion : Type := { version_content : string; version_timestamp : DateTime }.

Record t : Type := {
  id : string;
  author : string;
  timestamp : DateTime;
  content : string;
  reply_to : option string;
  tags : list string;
  reactions : gmap string N;
  hidden : bool;
  edit_history : list CommentVersion;
}.

(** [uuid] is the fresh id, [now] the time. *)
Definition new (uuid : string) (now : DateTime) (author content : string) (reply_to : option string)
    (tags : list string) : t :=
  {| id := uuid; author := author; timestamp := now; content := content; reply_to := reply_to; tags := tags;
     reactions := ∅; hidden := false;
     edit_history := [{| version_content := content; version_timestamp := now |}] |}.

Definition add_version (now : DateTime) (new_content : string) (self : t) : t :=
  {| id := id self; author := author self; timestamp := timestamp self; content := new_content;
     reply_to := reply_to self; tags := tags self; reactions := reactions self; hidden := hidden self;
     edit_history := edit_history self ++ [{| version_content := new_content; version_timestamp := now |}] |}.

Definition with_marks (ts : list string) (rs : gmap string N) (h : bool) (self : t) : t :=
  {| id := id self; author := author self; timestamp := timestamp self; content := content self;
     reply_to := reply_to self; tags := ts; reactions := rs; hidden := h; edit_history := edit_history self |}.

Definition hide (self : t) : t := with_marks (tags self) (reactions self) true self.
Definition unhide (self : t) : t := with_marks (tags self) (reactions self) false self.
Definition get_versions (self : t) : list CommentVersion := edit_history self.

Definition u32_max : N := 4294967295.

(** [*entry.or_insert(0) += 1] on a [u32]: a debug build panics at the end, and
    the entry is there by then; a release build wraps. *)
Definition add_reaction `{Platform} (reaction : string) : stm t BoxError unit := fun self =>
  let count := default 0%N (reactions self !! reaction) in
  let put n := with_marks (tags self) (<[reaction := n]> (reactions self)) (hidden self) self in
  if (count =? u32_max)%N then
    if overflow_checks then (put count, Panic "attempt to add with overflow") else (put 0%N, Ok tt)
  else (put (count + 1)%N, Ok tt).

Definition add_tag (l : list string) (tag : string) : list string :=
  if bool_decide (tag ∈ l) then l else l ++ [tag].
Definition add_tags (new_tags : list string) (self : t) : t :=
  with_marks (foldl add_tag (tags self) new_tags) (reactions self) (hidden self) self.

End Comment.

End ProposalComment.

(** The JSON codec of comments and of one version, and the fallback reader of
    the format before [hidden] and [edit_history]. *)
Class CommentCodec `{Chrono} : Type := {
  comment_to_vec : ProposalComment.t -> res string bytes;
  comment_from_slice : bytes -> res string ProposalComment.t;
  version_to_vec : ProposalComment.CommentVersion -> res string bytes;
  legacy_from_slice : bytes -> res string (string * string * DateTime * string * option string * list string * gmap string N);
}.

(** ** Comments in storage *)
Module Comments.

Import ProposalComment.

Section Functions.

Context {S : Type} `{SB : StorageBackend S} `{CH : Chrono} `{CC : !CommentCodec}.

Definition proposal_path (proposal_id : string) : string := "governance/proposals/" +:+ proposal_id.
Definition comment_path (proposal_id comment_id : string) : string :=
  "governance/proposals/" +:+ proposal_id +:+ "/comments/" +:+ comment_id.

Definition comment_type : string := "icn_covm::governance::comments::ProposalComment".
Definition get_json (auth : option AuthContext.t) (k : string) (storage : S) : res BoxError t :=
  map_err EStorage (StorageExtensions.get_json comment_from_slice comment_type auth "governance" k storage).

(** [storage.clone().set_json(..)?]: the clone, and whether the write succeeded. *)
Definition set_json_clone (now : N) (auth : option AuthContext.t) (k : string) (comment : t) (clone : S) :
    S * res BoxError unit :=
  let '(clone', r) :=
    StorageExtensions.set_json comment_to_vec comment_type now auth "governance" k comment clone in
  (clone', map_err EStorage r).

Definition storage_of (vm : VM.t S) : res BoxError S :=
  match VM.get_storage_backend vm with
  | Some storage => Ok storage
  | None => Err (EText "Storage backend not available")
  end.

(** [storage.get(..).map_err(..)?] *)
Definition proposal_exists (auth : option AuthContext.t) (proposal_id : string) (storage : S) : res BoxError unit :=
  map_err (fun _ => EText ("Proposal " +:+ proposal_id +:+ " does not exist"))
    (_ ← sb_get auth "governance" (proposal_path proposal_id) storage; Ok tt).

(** The loop over the listing; a comment that cannot be read is skipped. *)
Fixpoint collect (auth : option AuthContext.t) (show_hidden : bool) (storage : S) (refs : list string)
    (comments : gmap string t) : res BoxError (gmap string t) :=
  match refs with
  | [] => Ok comments
  | comment_ref :: refs =>
      match get_json auth comment_ref storage with
      | Ok comment =>
          collect auth show_hidden storage refs
            (if negb (hidden comment) || show_hidden then <[id comment := comment]> comments else comments)
      | Err _ => collect auth show_hidden storage refs comments
      | Panic m => Panic m
      | OutOfFuel => OutOfFuel
      end
  end.

Definition fetch_comments_threaded (proposal_id : string) (auth : option AuthContext.t) (show_hidden : bool)
    (vm : VM.t S) : res BoxError (gmap string t) :=
  storage ← storage_of vm;
  _ ← proposal_exists auth proposal_id storage;
  comments_refs ← map_err EStorage
    (sb_list_keys auth "governance" (Some (proposal_path proposal_id +:+ "/comments")) storage);
  collect auth show_hidden storage comments_refs ∅.

Abbreviation M := (stm (VM.t S) BoxError).

(** The clone is dropped: the machine keeps its own storage. *)
Definition create_comment (uuid : string) (now : DateTime) (stamp : N) (proposal_id author content : string)
    (reply_to : option string) (tags : list string) (auth_context : AuthContext.t) : M t := fun vm =>
  (vm,
   storage ← storage_of vm;
   _ ← proposal_exists (Some auth_context) proposal_id storage;
   let comment := ProposalComment.new uuid now author content reply_to tags in
   _ ← (set_json_clone stamp (Some auth_context) (comment_path proposal_id uuid) comment storage).2;
   Ok comment).

Definition migrate (bytes_ : bytes) : res BoxError t :=
  match legacy_from_slice bytes_ with
  | Ok (id, author, timestamp, content, reply_to, tags, reactions) =>
      Ok {| ProposalComment.id := id; ProposalComment.author := author; ProposalComment.timestamp := timestamp;
            ProposalComment.content := content; ProposalComment.reply_to := reply_to;
            ProposalComment.tags := tags; ProposalComment.reactions := reactions; hidden := false;
            edit_history := [{| version_content := content; version_timestamp := timestamp |}] |}
  | Err e => Err (EText e)
  | Panic m => Panic m
  | OutOfFuel => OutOfFuel
  end.

(** The migrated comment is saved to the storage of [try_clone], which has none. *)
Definition get_comment (proposal_id comment_id : string) (auth : option AuthContext.t) (vm : VM.t S) :
    res BoxError t :=
  storage ← storage_of vm;
  comment_data ← map_err EStorage (sb_get auth "governance" (comment_path proposal_id comment_id) storage);
  match comment_from_slice comment_data with
  | Ok comment => Ok comment
  | Err _ => migrate comment_data
  | Panic m => Panic m
  | OutOfFuel => OutOfFuel
  end.

(** The comment at [k], when [auth_context] is its author. *)
Definition own_comment (verb k : string) (auth_context : AuthContext.t) (storage : S) : res BoxError t :=
  comment ← get_json (Some auth_context) k storage;
  if String.eqb (author comment) (AuthContext.current_identity_did auth_context) then Ok comment
  else Err (EText ("Only the original author can " +:+ verb +:+ " a comment")).

Definition edit_comment (now : DateTime) (stamp : N) (proposal_id comment_id new_content : string)
    (auth_context : AuthContext.t) : M unit := fun vm =>
  (vm,
   storage ← storage_of vm;
   comment ← own_comment "edit" (comment_path proposal_id comment_id) auth_context storage;
   let comment := add_version now new_content comment in
   let '(storage_mut, saved) :=
     set_json_clone stamp (Some auth_context) (comment_path proposal_id comment_id) comment storage in
   _ ← saved;
   let version_id := N.of_nat (length (edit_history comment) - 1) in
   let version_path := proposal_path proposal_id +:+ "/comments/versions/" +:+ comment_id +:+ "/" +:+
                       u64_to_string version_id in
   match last (edit_history comment) with
   | Some version =>
       map_err EStorage (StorageExtensions.set_json version_to_vec
         "icn_covm::governance::comments::CommentVersion" stamp (Some auth_context) "governance"
         version_path version storage_mut).2
   | None => Err (EText "Comment edit history is empty")
   end).

Definition hide_comment (stamp : N) (proposal_id comment_id : string) (auth_context : AuthContext.t) : M unit :=
  fun vm =>
  (vm,
   storage ← storage_of vm;
   comment ← own_comment "hide" (comment_path proposal_id comment_id) auth_context storage;
   _ ← (set_json_clone stamp (Some auth_context) (comment_path proposal_id comment_id) (hide comment) storage).2;
   Ok tt).

Definition get_comment_history (proposal_id comment_id : string) (auth : option AuthContext.t) (vm : VM.t S) :
    res BoxError (list CommentVersion) :=
  storage ← storage_of vm;
  comment ← get_json auth (comment_path proposal_id comment_id) storage;
  Ok (edit_history comment).

(** ** What readers see *)

Lemma collect_shows auth show_hidden storage refs comments m i c :
  collect auth show_hidden storage refs comments = Ok m -> m !! i = Some c ->
  comments !! i = Some c \/
  (id c = i /\ (hidden c = false \/ show_hidden = true) /\
   exists k, k ∈ refs /\ get_json auth k storage = Ok c).
Proof.
  revert comments. induction refs as [|k refs IH]; cbn; intros comments H Hm; [injection H as ->; auto|].
  destruct (get_json auth k storage) as [c'| | |] eqn:Eg; try done.
  - destruct (IH _ H Hm) as [Hc|(H1 & H2 & k' & H3 & H4)].
    + destruct (negb (hidden c') || show_hidden) eqn:Eh; [|auto].
      apply lookup_insert_Some in Hc as [[Hi ->]|[_ Hc]]; [|auto].
      right. split; [done|]. split; [by destruct (hidden c), show_hidden; auto|].
      exists k. split; [apply elem_of_cons; auto|done].
    + right. do 2 (split; [done|]). exists k'. split; [apply elem_of_cons; auto|done].
  - destruct (IH _ H Hm) as [Hc|(H1 & H2 & k' & H3 & H4)]; [auto|].
    right. do 2 (split; [done|]). exists k'. split; [apply elem_of_cons; auto|done].
Qed.

(** A fetched comment is one the caller can read in storage, is filed under
    its id, and is hidden only if hidden comments were asked for. *)
Theorem fetched_comments_visible proposal_id auth show_hidden vm storage m i c :
  VM.get_storage_backend vm = Some storage ->
  fetch_comments_threaded proposal_id auth show_hidden vm = Ok m -> m !! i = Some c ->
  id c = i /\ (hidden c = false \/ show_hidden = true) /\ exists k, get_json auth k storage = Ok c.
Proof.
  intros Hst. unfold fetch_comments_threaded, storage_of. rewrite Hst. intros H Hm.
  apply res_bind_ok in H as (st & [= <-] & H). apply res_bind_ok in H as (_ & _ & H).
  apply res_bind_ok in H as (refs & _ & H).
  destruct (collect_shows _ _ _ _ _ _ _ _ H Hm) as [Hc|(H1 & H2 & k & _ & H4)]; [by rewrite lookup_empty in Hc|].
  eauto.
Qed.

(** A comment that was created is lost: the machine keeps the storage it
    had, and reading the new comment fails for everybody. *)
Theorem created_comment_is_lost `{!StorageLaws S} uuid now stamp proposal_id author content reply tags auth
    vm vm' storage c reader :
  VM.get_storage_backend vm = Some storage ->
  view storage "governance" (comment_path proposal_id uuid) = None ->
  create_comment uuid now stamp proposal_id author content reply tags auth vm = (vm', Ok c) ->
  is_ok (get_comment proposal_id uuid reader vm') = false /\ VM.get_storage_backend vm' = Some storage.
Proof.
  intros Hst Hview [= <- _]. split; [|done]. unfold get_comment, storage_of. rewrite Hst. cbn.
  rewrite law_get, Hview. by destruct (permitted reader "read" "governance").
Qed.

End Functions.

End Comments.

(** ** Histories and tags *)
Module CommentTheorems.

Import ProposalComment.

Section Comment.

Context `{CH : Chrono}.

(** A comment edited any number of times keeps every text it had, in order,
    and shows the last one. *)
Theorem edit_history_complete uuid now author text reply tags (edits : list (DateTime * string)) :
  let c := foldl (fun c e => add_version e.1 e.2 c) (new uuid now author text reply tags) edits in
  version_content <$> get_versions c = text :: edits.*2 /\
  last (version_content <$> get_versions c) = Some (content c) /\ timestamp c = now.
Proof.
  induction edits as [|e edits IH] using rev_ind; [done|]. rewrite foldl_app. cbn in *.
  destruct IH as (H1 & _ & H3). unfold get_versions in *. cbn. rewrite !fmap_app, H1.
  split; [done|]. split; [apply last_snoc|exact H3].
Qed.

Lemma add_tag_elem l tag x : x ∈ add_tag l tag <-> x = tag \/ x ∈ l.
Proof.
  unfold add_tag. case_bool_decide; [naive_solver|]. rewrite elem_of_app, list_elem_of_singleton. tauto.
Qed.
Lemma add_tag_nodup l tag : NoDup l -> NoDup (add_tag l tag).
Proof.
  unfold add_tag. case_bool_decide as Ht; [done|]. intros Hl. apply NoDup_app. split; [done|].
  split; [|apply NoDup_singleton]. intros x Hx ->%list_elem_of_singleton. done.
Qed.

(** [add_tags] adds exactly the given tags and no duplicate. *)
Theorem add_tags_set new_tags self :
  (forall x, x ∈ tags (add_tags new_tags self) <-> x ∈ new_tags \/ x ∈ tags self) /\
  (NoDup (tags self) -> NoDup (tags (add_tags new_tags self))).
Proof.
  cbn. generalize (tags self). induction new_tags as [|tag new_tags IH]; cbn; intros l.
  { split; [|done]. intros x. rewrite elem_of_nil. tauto. }
  destruct (IH (add_tag l tag)) as [H1 H2]. split; [|by auto using add_tag_nodup].
  intros x. rewrite H1, add_tag_elem, elem_of_cons. tauto.
Qed.

End Comment.

End CommentTheorems.

(** ** A concrete comment *)
Module CommentExamples.

Import Comments LifecycleExamples.

#[local] Existing Instance ClockSamples.seconds.

(** A comment is written as its text; nothing is read back. *)
#[local] Instance sample_codec : CommentCodec :=
  {| comment_to_vec := fun c => Ok (ProposalComment.content c);
     comment_from_slice := fun _ => Err "not a comment"; version_to_vec := fun _ => Ok "version";
     legacy_from_slice := fun _ => Err "missing field" |}.

Definition with_proposal : InMemoryStorage.t :=
  (InMemoryStorage.set 1 (Some InMemoryStorage.admin) "governance" "governance/proposals/p1" "{}"
     InMemoryStorage.with_account).1.
Definition machine : VM.t InMemoryStorage.t :=
  VM.set_auth_context InMemoryStorage.admin (VM.with_storage_backend with_proposal).

Definition commenting : VM.t InMemoryStorage.t * res BoxError ProposalComment.t :=
  create_comment "u1" (0%Z : @DateTime ClockSamples.seconds) 2 "p1" "alice" "hello" None [] InMemoryStorage.admin machine.

Lemma created_comment_is_lost_witness :
  is_ok commenting.2 = true /\
  is_ok (get_comment "p1" "u1" (Some InMemoryStorage.admin) commenting.1) = false /\
  VM.get_storage_backend commenting.1 = Some with_proposal.
Proof.
  split; [vm_compute; reflexivity|].
  apply (created_comment_is_lost "u1" (0%Z : @DateTime ClockSamples.seconds) 2 "p1" "alice" "hello" None []
    InMemoryStorage.admin machine commenting.1 with_proposal
    (ProposalComment.new "u1" (0%Z : @DateTime ClockSamples.seconds) "alice" "hello" None [])); vm_compute; reflexivity.
Defined.

End CommentExamples.
