(* ===== verification/Proposals.v ===== *)
(** * Proposal commands: cli/proposal.rs and cli/utils.rs

    The commands read and write proposals through a machine: they fork it, write
    to a clone of the fork's storage, and commit on the machine itself.  What the
    commands print is not kept; a listing is the list of its rows.  The file
    system, the JSON codecs, the two regular expressions, key generation and the
    texts of dates are parameters. *)
From S2P Require Import Prelude Float64 Text Values Ops Stack Memory Auth Storage InMemory Economic Executor.
From S2P Require Import Ledger Trace Machine Governance VM Parser Blocks Dsl Lifecycle Comments.

(** ** cli/utils.rs *)
Module CliUtils.

Definition parse_number_arg (name : string) (raw : option string) (default_ : f64) : res string TypedValue.t :=
  match raw with
  | Some s =>
      match parse_f64 s with
      | Some num => Ok (TypedValue.Number num)
      | None => Err ("Invalid number for `" +:+ name +:+ "`: " +:+ s)
      end
  | None => Ok (TypedValue.Number default_)
  end.

Definition parse_bool_arg `{Unicode} (name : string) (raw : option string) (default_ : bool) : res string TypedValue.t :=
  match raw with
  | Some s =>
      let l := to_lowercase s in
      if existsb (String.eqb l) ["true"; "yes"; "1"; "on"] then Ok (TypedValue.Boolean true)
      else if existsb (String.eqb l) ["false"; "no"; "0"; "off"] then Ok (TypedValue.Boolean false)
      else Err ("Invalid boolean for `" +:+ name +:+ "`: " +:+ s)
  | None => Ok (TypedValue.Boolean default_)
  end.

Definition parse_string_arg (name : string) (raw default_ : option string) : res string TypedValue.t :=
  match raw, default_ with
  | Some s, _ => Ok (TypedValue.String s)
  | None, Some d => Ok (TypedValue.String d)
  | None, None => Err ("Missing required string parameter `" +:+ name +:+ "`")
  end.

(** [u64::MAX as f64] is 2^64, so that value passes and saturates. *)
Definition safe_f64_to_u64 (val : f64) : res string N :=
  if f64_is_nan val || f64_is_infinite val || f64_ltb val f64_zero || f64_ltb (f64_of_Z (2 ^ 64)) val then
    Err ("Cannot convert " +:+ f64_to_string val +:+ " to u64: value out of bounds")
  else Ok (f64_to_u64 (f64_round val)).

Definition safe_typed_to_u64 (val : TypedValue.t) : res string N :=
  match TypedValue.as_number val with
  | Ok num => safe_f64_to_u64 num
  | Err e => Err ("Cannot convert to u64: " +:+ TypedValueError.display e)
  | Panic m => Panic m
  | OutOfFuel => OutOfFuel
  end.

Definition f64_to_typed (val : f64) : TypedValue.t := TypedValue.Number val.

Definition safe_percentage (numerator denominator : TypedValue.t) : res string f64 :=
  num ← map_err (fun e => "Invalid numerator: " +:+ TypedValueError.display e) (TypedValue.as_number numerator);
  denom ← map_err (fun e => "Invalid denominator: " +:+ TypedValueError.display e) (TypedValue.as_number denominator);
  if f64_eqb denom f64_zero then Err "Cannot calculate percentage with zero denominator"
  else Ok (f64_mul (f64_div num denom) (f64_of_Z 100)).

End CliUtils.

(** ** cli/proposal.rs: data and parameters *)

(** [StoredComment], and the JSON object of a vote. *)
Record StoredComment : Type := {
  sc_author : string;
  sc_timestamp : string;
  sc_content : string;
  sc_parent : option string;
}.
Record VoteData : Type := {
  vd_voter : string;
  vd_vote : string;
  vd_timestamp : string;
  vd_delegated_by : option string;
}.

(** serde_json, chrono, regex and Identity::new; [value_strings] gives the
    strings at the fields of a JSON value, [parse_rfc3339] a date's timestamp, [lifecycle_block] and [duration_parts] are the
    captures of the two expressions.  The fields [quorum] and [threshold] that
    the commands read from a lifecycle are not declared by it. *)
Class ProposalCalls `{Chrono} : Type := {
  proposal_to_vec : Proposal.t -> res string bytes;
  proposal_from_slice : bytes -> res string Proposal.t;
  lifecycle_to_vec : ProposalLifecycle.t -> res string bytes;
  lifecycle_from_slice : bytes -> res string ProposalLifecycle.t;
  vote_to_vec : VoteData -> res string bytes;
  value_strings : bytes -> res string (string -> option string);
  stored_comment_to_vec : StoredComment -> res string bytes;
  stored_comment_from_slice : bytes -> res string StoredComment;
  rfc3339 : DateTime -> string;
  parse_rfc3339 : string -> option Z;
  since : DateTime -> DateTime -> Duration;
  num_hours : Duration -> Z;
  node_timestamp : DateTime -> res string N;
  node_id : DagNode.t -> string;
  identity_new : string -> res string Identity.t;
  lifecycle_quorum : ProposalLifecycle.t -> f64;
  lifecycle_threshold : ProposalLifecycle.t -> f64;
  lifecycle_block : string -> option string;
  duration_parts : string -> option (string * string);
}.

Module ProposalCommands.

Section Commands.

Context {S : Type} `{SB : StorageBackend S} `{PL : Platform} `{RD : Renderings}.
Context `{CH : Chrono} `{UC : Unicode} `{PC : !ProposalCalls}.

Abbreviation M := (stm (VM.t S) BoxError).

(** ** trait VMProposalExtensions: keys *)
Definition proposal_key_prefix (proposal_id : string) : string := "governance_proposals/" +:+ proposal_id.
Definition proposal_lifecycle_key (proposal_id : string) : string := proposal_key_prefix proposal_id +:+ "/lifecycle".
Definition proposal_description_key (proposal_id : string) : string :=
  proposal_key_prefix proposal_id +:+ "/description".
Definition proposal_logic_key (proposal_id : string) : string := proposal_key_prefix proposal_id +:+ "/logic".
Definition proposal_votes_prefix (proposal_id : string) : string := proposal_key_prefix proposal_id +:+ "/votes".
Definition proposal_comments_prefix (proposal_id : string) : string :=
  proposal_key_prefix proposal_id +:+ "/comments".

(** ** Reading *)

Definition storage_of (vm : VM.t S) : res BoxError S :=
  match VM.get_storage_backend vm with Some storage => Ok storage | None => Err (EText "Storage not available") end.
Definition namespace_of (vm : VM.t S) : string := default "default" (VM.get_namespace vm).

(** [.map_err(|e| format!("{}: {}", what, e))]. *)
Definition explained {A} (what : string) (r : res StorageError.t A) : res BoxError A :=
  map_err (fun e => EText (what +:+ ": " +:+ StorageError.to_string e)) r.

Definition lifecycle_type : string := "icn_covm::governance::proposal_lifecycle::ProposalLifecycle".
Definition proposal_type : string := "icn_covm::governance::proposal::Proposal".
Definition value_type : string := "serde_json::value::Value".

Definition read_lifecycle (auth : option AuthContext.t) (ns proposal_id : string) (storage : S) :
    res StorageError.t ProposalLifecycle.t :=
  StorageExtensions.get_json lifecycle_from_slice lifecycle_type auth ns (proposal_lifecycle_key proposal_id) storage.
Definition read_proposal (auth : option AuthContext.t) (ns k : string) (storage : S) :
    res StorageError.t Proposal.t :=
  StorageExtensions.get_json proposal_from_slice proposal_type auth ns k storage.

Definition get_proposal_lifecycle (proposal_id : string) (vm : VM.t S) : res BoxError ProposalLifecycle.t :=
  storage ← storage_of vm;
  explained "Failed to get proposal lifecycle"
    (read_lifecycle (VM.get_auth_context vm) (namespace_of vm) proposal_id storage).
Definition get_proposal (proposal_id : string) (vm : VM.t S) : res BoxError Proposal.t :=
  storage ← storage_of vm;
  explained "Failed to get proposal"
    (read_proposal (VM.get_auth_context vm) (namespace_of vm) (proposal_key_prefix proposal_id) storage).

(** [key.split('/').last()]. *)
Definition last_part (key : string) : string := default "unknown" (last (split_char "/" key)).

Fixpoint load_votes (auth : option AuthContext.t) (ns : string) (storage : S) (keys : list string) :
    res BoxError (list (string * string)) :=
  match keys with
  | [] => Ok []
  | key :: keys =>
      vote_data ← map_err EStorage (StorageExtensions.get_json value_strings value_type auth ns key storage);
      votes ← load_votes auth ns storage keys;
      Ok ((last_part key, default "abstain" (vote_data "vote")) :: votes)
  end.
Definition get_proposal_votes (proposal_id : string) (vm : VM.t S) : res BoxError (list (string * string)) :=
  storage ← storage_of vm;
  let auth := VM.get_auth_context vm in
  keys ← map_err EStorage
    (sb_list_keys auth (namespace_of vm) (Some (proposal_votes_prefix proposal_id)) storage);
  load_votes auth (namespace_of vm) storage keys.

(** ** Writing *)

(** The body of a mutation: the fork, and a clone of its storage. *)
Definition on_fork {A} (body : VM.t S -> option AuthContext.t -> string -> stm S BoxError A) : M A := fun vm =>
  (vm,
   forked ← map_err EVM (VM.fork vm);
   storage ← storage_of forked;
   (body forked (VM.get_auth_context forked) (namespace_of forked) storage).2).
(** [self.commit_fork_transaction()?]: on the machine, not on the fork. *)
Definition commit : M unit := fun vm =>
  let '(vm', r) := VM.commit_fork_transaction vm in (vm', map_err EVM r).

Definition on_error {A} (f : StorageError.t -> BoxError) (m : stm S StorageError.t A) : stm S BoxError A := fun s =>
  let '(s', r) := m s in (s', map_err f r).
Definition failed_to (what : string) (e : StorageError.t) : BoxError :=
  EText ("Failed to " +:+ what +:+ ": " +:+ StorageError.to_string e).
Definition reading {A} (r : S -> res BoxError A) : stm S BoxError A := fun s => (s, r s).

(** A node of the ledger, if the machine keeps one. *)
Definition record_node (now : DateTime) (parents : DagLedger.t -> list string) (data : NodeData.t) : M unit := fun vm =>
  match VM.dag vm with
  | None => (vm, Ok tt)
  | Some ledger =>
      match node_timestamp now with
      | Ok timestamp =>
          let node := {| DagNode.id := EmptyString; DagNode.parent_ids := parents ledger;
                         DagNode.timestamp := timestamp; DagNode.namespace := namespace_of vm;
                         DagNode.data := data |} in
          (VM.with_dag (Some (DagLedger.append node_id node ledger).1) vm, Ok tt)
      | Err e => (vm, Err (EText ("Failed to convert timestamp: " +:+ e)))
      | Panic m => (vm, Panic m)
      | OutOfFuel => (vm, OutOfFuel)
      end
  end.

(** [stamp] is the time the storage writes into versions. *)
Definition write_lifecycle (f : StorageError.t -> BoxError) (stamp : N) (auth : option AuthContext.t)
    (ns proposal_id : string) (lifecycle : ProposalLifecycle.t) : stm S BoxError unit :=
  on_error f (StorageExtensions.set_json lifecycle_to_vec lifecycle_type stamp auth ns
                (proposal_lifecycle_key proposal_id) lifecycle).
Definition write_proposal (f : StorageError.t -> BoxError) (stamp : N) (auth : option AuthContext.t)
    (ns proposal_id : string) (proposal : Proposal.t) : stm S BoxError unit :=
  on_error f (StorageExtensions.set_json proposal_to_vec proposal_type stamp auth ns
                (proposal_key_prefix proposal_id) proposal).
Definition write_bytes (f : StorageError.t -> BoxError) (stamp : N) (auth : option AuthContext.t)
    (ns k : string) (b : bytes) : stm S BoxError unit := on_error f (sb_set stamp auth ns k b).

Definition create_proposal (now : DateTime) (stamp : N) (proposal : Proposal.t) (lifecycle : ProposalLifecycle.t)
    (description logic : string) : M unit :=
  let proposal_id := Proposal.id proposal in
  _ ← on_fork (fun _ auth ns =>
        _ ← write_proposal (failed_to "store proposal") stamp auth ns proposal_id proposal;
        _ ← write_lifecycle (failed_to "store proposal lifecycle") stamp auth ns proposal_id lifecycle;
        _ ← write_bytes (failed_to "store proposal description") stamp auth ns
              (proposal_description_key proposal_id) description;
        write_bytes (failed_to "store proposal logic") stamp auth ns (proposal_logic_key proposal_id) logic);
  _ ← commit;
  record_node now (fun _ => []) (NodeData.ProposalCreated proposal_id (ProposalLifecycle.title lifecycle)).

(** [lifecycle.state = st; lifecycle.history.push(..)], without a version step. *)
Definition update_proposal_state (now : DateTime) (stamp : N) (proposal_id : string) (new_state : ProposalState.t) :
    M unit :=
  _ ← on_fork (fun _ auth ns =>
        lifecycle ← reading (fun s => explained "Failed to load proposal lifecycle" (read_lifecycle auth ns proposal_id s));
        write_lifecycle (failed_to "update proposal state") stamp auth ns proposal_id
          (ProposalLifecycle.enter new_state now lifecycle));
  commit.

Definition not_found (proposal_id : string) : BoxError :=
  EText ("Proposal with ID '" +:+ proposal_id +:+ "' not found").
Definition require_proposal (auth : option AuthContext.t) (ns proposal_id : string) (storage : S) : res BoxError unit :=
  exists_ ← map_err EStorage (sb_contains auth ns (proposal_key_prefix proposal_id) storage);
  if (exists_ : bool) then Ok tt else Err (not_found proposal_id).

Definition vote_number (vote_value : string) : f64 :=
  let v := to_lowercase vote_value in
  if String.eqb v "yes" then f64_one else if String.eqb v "no" then f64_zero
  else if String.eqb v "abstain" then f64_round_dyadic 1 (-1) false else f64_neg f64_one.

Definition cast_vote (now : DateTime) (stamp : N) (proposal_id voter_id vote_value : string)
    (delegated_by : option string) : M unit :=
  _ ← on_fork (fun _ auth ns =>
        _ ← reading (require_proposal auth ns proposal_id);
        on_error (failed_to "store vote")
          (StorageExtensions.set_json vote_to_vec value_type stamp auth ns
             (proposal_votes_prefix proposal_id +:+ "/" +:+ voter_id)
             {| vd_voter := voter_id; vd_vote := vote_value; vd_timestamp := rfc3339 now;
                vd_delegated_by := delegated_by |}));
  _ ← commit;
  record_node now (fun ledger => match DagLedger.find_proposal_node_id proposal_id ledger with Some i => [i] | None => [] end)
    (NodeData.VoteCast proposal_id voter_id (vote_number vote_value)).

(** The logic runs on the fork; whether it succeeds is all that is kept. *)
Definition run_logic (fuel : nat) (forked : VM.t S) (logic : res StorageError.t bytes) : res BoxError bool :=
  match logic with
  | Ok logic_content =>
      match from_utf8 logic_content with
      | Some logic_str =>
          '(ops, _) ← map_err (fun e => EText (CompilerError.to_string e)) (Dsl.parse_dsl logic_str);
          match (Interp.execute fuel ops forked).2 with
          | Ok _ => Ok true
          | Err _ => Ok false
          | Panic m => Panic m
          | OutOfFuel => OutOfFuel
          end
      | None => Ok false
      end
  | Err _ => Ok false
  | Panic m => Panic m
  | OutOfFuel => OutOfFuel
  end.

Definition execute_proposal (fuel : nat) (now : DateTime) (stamp : N) (proposal_id : string) : M unit :=
  success ← on_fork (fun forked auth ns =>
        lifecycle ← reading (fun s => explained "Failed to load proposal lifecycle" (read_lifecycle auth ns proposal_id s));
        if ProposalState.eqb (ProposalLifecycle.state lifecycle) ProposalState.Executed then
          throw (EText ("Proposal '" +:+ proposal_id +:+ "' has already been executed"))
        else
          success ← reading (fun s => run_logic fuel forked (sb_get auth ns (proposal_logic_key proposal_id) s));
          _ ← write_lifecycle (failed_to "update proposal lifecycle") stamp auth ns proposal_id
                (ProposalLifecycle.enter ProposalState.Executed now lifecycle);
          mret success);
  _ ← commit;
  record_node now (fun ledger => DagNode.id <$> DagLedger.find_vote_nodes_for proposal_id ledger)
    (NodeData.ProposalExecuted proposal_id success).

Definition add_proposal_comment (uuid : string) (now : DateTime) (stamp : N)
    (proposal_id author content : string) (parent_id : option string) : M string :=
  _ ← on_fork (fun _ auth ns =>
        _ ← reading (require_proposal auth ns proposal_id);
        on_error EStorage
          (StorageExtensions.set_json stored_comment_to_vec "icn_covm::cli::proposal::StoredComment" stamp auth ns
             (proposal_comments_prefix proposal_id +:+ "/" +:+ uuid)
             {| sc_author := author; sc_timestamp := rfc3339 now; sc_content := content; sc_parent := parent_id |}));
  _ ← commit;
  mret uuid.

(** ** Reading the arguments of [create] *)

Definition did_to_identity (did : string) : res BoxError Identity.t :=
  map_err (fun e => EText ("Failed to create identity from DID: " +:+ e)) (identity_new did).

Definition invalid (key value : string) : BoxError := EText ("Invalid " +:+ key +:+ " value: " +:+ value).
Definition whole_hours (v : Z) : res BoxError Duration :=
  match hours v with Some d => Ok d | None => Panic "TimeDelta::hours out of bounds" end.

(** A line of the lifecycle block; unknown keys are only reported. *)
Definition config_line (line : string) (config : LifecycleConfig.t) : res BoxError LifecycleConfig.t :=
  let line := trim line in
  if is_empty line || starts_with_char "#" line then Ok config
  else
    match split_once "=" line with
    | None => Ok config
    | Some (key, value) =>
        let key := trim key in
        let value := trim value in
        let set q t d r := {| LifecycleConfig.quorum := q; LifecycleConfig.threshold := t;
                              LifecycleConfig.min_deliberation := d;
                              LifecycleConfig.expires_in := LifecycleConfig.expires_in config;
                              LifecycleConfig.required_roles := r |} in
        let quorum := LifecycleConfig.quorum config in
        let threshold := LifecycleConfig.threshold config in
        let deliberation := LifecycleConfig.min_deliberation config in
        let roles := LifecycleConfig.required_roles config in
        if String.eqb key "quorum" then
          match parse_f64 value with
          | Some v => Ok (set (Some v) threshold deliberation roles)
          | None => Err (invalid key value)
          end
        else if String.eqb key "threshold" then
          match parse_f64 value with
          | Some v => Ok (set quorum (Some v) deliberation roles)
          | None => Err (invalid key value)
          end
        else if String.eqb key "min_deliberation" then
          match parse_i64 value with
          | Some v => d ← whole_hours v; Ok (set quorum threshold (Some d) roles)
          | None => Err (invalid key value)
          end
        else if String.eqb key "required_roles" then
          Ok (set quorum threshold deliberation (trim <$> split_char "," value))
        else Ok config
    end.
Definition extract_lifecycle_config (content : string) : res BoxError LifecycleConfig.t :=
  match lifecycle_block content with
  | Some block =>
      foldl (fun acc line => acc ≫= config_line line) (Ok LifecycleConfig.default) (split_char newline (trim block))
  | None => Ok LifecycleConfig.default
  end.

Definition configured (c : LifecycleConfig.t) : bool :=
  match LifecycleConfig.required_roles c, LifecycleConfig.quorum c, LifecycleConfig.threshold c,
        LifecycleConfig.min_deliberation c, LifecycleConfig.expires_in c with
  | [], None, None, None, None => false
  | _, _, _, _, _ => true
  end.

(** [file] is what reading the path gives. *)
Definition parse_dsl_from_file (path : string) (file : res string string) : res BoxError (list Op.t * LifecycleConfig.t) :=
  content ← map_err (fun e => EText ("Failed to read DSL file " +:+ path +:+ ": " +:+ e)) file;
  lifecycle_config ← map_err (fun e => EText ("Failed to extract lifecycle config: " +:+ box_string e))
                       (extract_lifecycle_config content);
  '(logic_ops, dsl_config) ← map_err (fun e => EText ("Failed to parse DSL content: " +:+ CompilerError.to_string e))
                               (Dsl.parse_dsl content);
  Ok (logic_ops,
      if configured dsl_config then LifecycleConfig.merge_from dsl_config lifecycle_config else lifecycle_config).

Definition parse_duration_string (duration_str : string) : res BoxError Duration :=
  match duration_parts duration_str with
  | Some (digits, unit_) =>
      match parse_i64 digits with
      | None => Err (EText ("Invalid duration amount: " +:+ digits))
      | Some amount =>
          let made (d : option Duration) := match d with Some d => Ok d | None => Panic "TimeDelta out of bounds" end in
          if String.eqb unit_ "d" then made (days amount)
          else if String.eqb unit_ "h" then made (hours amount)
          else if String.eqb unit_ "m" then made (minutes amount)
          else Err (EText ("Unknown duration unit: " +:+ unit_))
      end
  | None =>
      Err (EText ("Invalid duration format: " +:+ duration_str +:+ ". Expected format: <number><unit>, where unit is d (days), h (hours), or m (minutes)"))
  end.

(** ** The commands *)

Record CreateArgs : Type := {
  ca_id : string;
  ca_title : string;
  ca_description : string;
  ca_quorum : f64;
  ca_threshold : f64;
  ca_logic_path : string;
  ca_logic_file : res string string;
  ca_expires_in : option string;
  ca_min_deliberation : option Z;
  ca_discussion_duration : option string;
  ca_required_participants : option N;
  ca_creator : option string;
}.

Definition MIN_DELIBERATION_HOURS : Z := 24.

Definition create_expiry (now : DateTime) (expires_in : option string) : res BoxError DateTime :=
  duration ← match expires_in with
             | Some expires_str => parse_duration_string expires_str
             | None => match days 30 with Some d => Ok d | None => Panic "TimeDelta::days out of bounds" end
             end;
  ProposalLifecycle.date_add now duration.
Definition create_deliberation (min_deliberation : option Z) (discussion_duration : option string) :
    res BoxError Duration :=
  match min_deliberation, discussion_duration with
  | Some h, _ => whole_hours h
  | None, Some dur_str => parse_duration_string dur_str
  | None, None => whole_hours MIN_DELIBERATION_HOURS
  end.
Definition percentage (name : string) (x : f64) : res BoxError N :=
  map_err (fun e => EText ("Failed to convert " +:+ name +:+ ": " +:+ e))
    (CliUtils.safe_f64_to_u64 (f64_mul x (f64_of_Z 100))).

(** The configuration in the file is parsed and then not used. *)
Definition create_command (now : nat -> DateTime) (stamp : N) (user_did : string) (a : CreateArgs) : M unit :=
  let creator := default user_did (ca_creator a) in
  _ ← lift (map_err (fun e => EText ("Failed to parse DSL file: " +:+ box_string e))
              (parse_dsl_from_file (ca_logic_path a) (ca_logic_file a)));
  expires_at ← lift (create_expiry (now 0) (ca_expires_in a));
  min_delib_duration ← lift (create_deliberation (ca_min_deliberation a) (ca_discussion_duration a));
  let proposal := Proposal.new (now 1) (ca_id a) creator (Some (ca_logic_path a)) (Some expires_at) None [] in
  creator_identity ← lift (did_to_identity creator);
  quorum ← lift (percentage "quorum" (ca_quorum a));
  threshold ← lift (percentage "threshold" (ca_threshold a));
  let lifecycle := ProposalLifecycle.new_backwards_compatible (now 2) (ca_id a) creator_identity (ca_title a)
                     quorum threshold (Some min_delib_duration) (ca_required_participants a) in
  logic_content ← lift (map_err (fun e => EText ("Failed to read DSL file: " +:+ e)) (ca_logic_file a));
  create_proposal (now 3) stamp proposal lifecycle (ca_description a) logic_content.

(** [name] is the name given or the stem of the file. *)
Definition attach_command (stamp : N) (proposal_id name : string) (file : option (res string bytes)) (shown_path : string) :
    M unit :=
  content ← lift (match file with
                  | None => Err (EText ("File not found: " +:+ shown_path))
                  | Some r => map_err (fun e => EText ("Failed to read file: " +:+ e)) r
                  end);
  _ ← on_fork (fun _ auth ns =>
        write_bytes EStorage stamp auth ns (proposal_key_prefix proposal_id +:+ "/attachments/" +:+ name) content);
  commit.

Definition is_draft (st : ProposalStatus.t) : bool := match st with ProposalStatus.Draft => true | _ => false end.
(** [{:?}] of a status. *)
Definition status_name (st : ProposalStatus.t) : string :=
  match st with
  | ProposalStatus.Draft => "Draft" | ProposalStatus.Deliberation => "Deliberation"
  | ProposalStatus.Active => "Active" | ProposalStatus.Voting => "Voting"
  | ProposalStatus.Approved => "Approved" | ProposalStatus.Executed => "Executed"
  | ProposalStatus.Rejected => "Rejected" | ProposalStatus.Expired => "Expired"
  end.

Definition with_title (title : string) (p : ProposalLifecycle.t) : ProposalLifecycle.t :=
  {| ProposalLifecycle.id := ProposalLifecycle.id p; ProposalLifecycle.creator := ProposalLifecycle.creator p;
     ProposalLifecycle.created_at := ProposalLifecycle.created_at p; ProposalLifecycle.state := ProposalLifecycle.state p;
     ProposalLifecycle.title := title; ProposalLifecycle.quorum_method := ProposalLifecycle.quorum_method p;
     ProposalLifecycle.approval_threshold := ProposalLifecycle.approval_threshold p;
     ProposalLifecycle.expires_at := ProposalLifecycle.expires_at p;
     ProposalLifecycle.discussion_duration := ProposalLifecycle.discussion_duration p;
     ProposalLifecycle.vote_weighting := ProposalLifecycle.vote_weighting p;
     ProposalLifecycle.required_participants := ProposalLifecycle.required_participants p;
     ProposalLifecycle.current_version := ProposalLifecycle.current_version p;
     ProposalLifecycle.auto_execute := ProposalLifecycle.auto_execute p;
     ProposalLifecycle.allow_early_execution := ProposalLifecycle.allow_early_execution p;
     ProposalLifecycle.min_voting_period := ProposalLifecycle.min_voting_period p;
     ProposalLifecycle.history := ProposalLifecycle.history p;
     ProposalLifecycle.execution_status := ProposalLifecycle.execution_status p |}.

Definition edit_command (stamp : N) (proposal_id : string) (title description : option string) : M unit :=
  match title, description with
  | None, None => throw (EText "At least one field (title, description) must be provided for editing")
  | _, _ =>
      _ ← on_fork (fun _ auth ns =>
            _ ← reading (require_proposal auth ns proposal_id);
            proposal ← reading (fun s => explained "Failed to load proposal"
                                           (read_proposal auth ns (proposal_key_prefix proposal_id) s));
            if negb (is_draft (Proposal.status proposal)) then
              throw (EText ("Cannot edit proposal '" +:+ proposal_id +:+ "' in state '" +:+
                            status_name (Proposal.status proposal) +:+ "'. Only Draft proposals can be edited."))
            else
              _ ← match title with
                  | Some new_title =>
                      lifecycle ← reading (fun s => explained "Failed to load proposal lifecycle"
                                                      (read_lifecycle auth ns proposal_id s));
                      write_lifecycle EStorage stamp auth ns proposal_id (with_title new_title lifecycle)
                  | None => mret tt
                  end;
              _ ← write_proposal EStorage stamp auth ns proposal_id proposal;
              match description with
              | Some new_description =>
                  write_bytes EStorage stamp auth ns (proposal_description_key proposal_id) new_description
              | None => mret tt
              end);
      commit
  end.

(** The fork made first is not used. *)
Definition publish_command (now : DateTime) (stamp : N) (proposal_id : string) : M unit := fun vm =>
  match VM.fork vm with
  | Ok _ => update_proposal_state now stamp proposal_id ProposalState.OpenForFeedback vm
  | Err e => (vm, Err (EVM e))
  | Panic m => (vm, Panic m)
  | OutOfFuel => (vm, OutOfFuel)
  end.

Definition state_of_name (state_str : string) : option ProposalState.t :=
  let s := to_lowercase state_str in
  if String.eqb s "draft" then Some ProposalState.Draft
  else if existsb (String.eqb s) ["feedback"; "open_for_feedback"; "deliberation"] then Some ProposalState.OpenForFeedback
  else if String.eqb s "voting" then Some ProposalState.Voting
  else if String.eqb s "executed" then Some ProposalState.Executed
  else if String.eqb s "rejected" then Some ProposalState.Rejected
  else if String.eqb s "expired" then Some ProposalState.Expired
  else None.
Definition transition_command (now : DateTime) (stamp : N) (proposal_id state_str : string) : M unit :=
  match state_of_name state_str with
  | Some new_state => update_proposal_state now stamp proposal_id new_state
  | None => throw (EText ("Invalid state: " +:+ state_str))
  end.

(** The filter of [list]; an unknown status lets everything through. *)
Definition status_matches (status_str : string) (st : ProposalStatus.t) : bool :=
  let s := to_lowercase status_str in
  if String.eqb s "draft" then is_draft st
  else if existsb (String.eqb s) ["feedback"; "deliberation"] then
    match st with ProposalStatus.Deliberation => true | _ => false end
  else if String.eqb s "voting" then match st with ProposalStatus.Voting => true | _ => false end
  else if String.eqb s "executed" then match st with ProposalStatus.Executed => true | _ => false end
  else if String.eqb s "rejected" then match st with ProposalStatus.Rejected => true | _ => false end
  else if String.eqb s "expired" then match st with ProposalStatus.Expired => true | _ => false end
  else if String.eqb s "active" then match st with ProposalStatus.Active => true | _ => false end
  else if String.eqb s "approved" then match st with ProposalStatus.Approved => true | _ => false end
  else true.
(** [match_status], where an unknown status matches nothing. *)
Definition match_status (st : ProposalStatus.t) (status_str : string) : bool :=
  let s := to_lowercase status_str in
  existsb (fun known => String.eqb s known.1 && String.eqb (status_name st) known.2)
    [("draft", "Draft"); ("deliberation", "Deliberation"); ("active", "Active"); ("voting", "Voting");
     ("executed", "Executed"); ("rejected", "Rejected"); ("expired", "Expired")].

(** [match r { Ok(x) => f(x), Err(_) => none }]. *)
Definition or_skip {A B} (r : res StorageError.t A) (f : A -> res BoxError (option B)) : res BoxError (option B) :=
  match r with
  | Ok a => f a
  | Err _ => Ok None
  | Panic m => Panic m
  | OutOfFuel => OutOfFuel
  end.

(** One key of the listing: its row, if it is shown. *)
Definition list_row (auth : option AuthContext.t) (ns : string) (storage : S) (status_filter : option string)
    (key : string) : res BoxError (option (string * string * ProposalStatus.t)) :=
  if negb (str_ends_with "/proposal" key) then Ok None
  else
    let id_part := default key (strip_prefix (proposal_key_prefix EmptyString +:+ "/") key) in
    let id := default id_part (strip_suffix "/proposal" id_part) in
    or_skip (read_proposal auth ns key storage) (fun proposal =>
      if match status_filter with Some f => status_matches f (Proposal.status proposal) | None => true end then
        or_skip (read_lifecycle auth ns id storage) (fun lifecycle =>
          Ok (Some (id, ProposalLifecycle.title lifecycle, Proposal.status proposal)))
      else Ok None).
Fixpoint list_rows (auth : option AuthContext.t) (ns : string) (storage : S) (status_filter : option string)
    (keys : list string) : res BoxError (list (string * string * ProposalStatus.t)) :=
  match keys with
  | [] => Ok []
  | key :: keys =>
      row ← list_row auth ns storage status_filter key;
      rows ← list_rows auth ns storage status_filter keys;
      Ok (match row with Some r => r :: rows | None => rows end)
  end.
Definition list_command (status_filter : option string) (vm : VM.t S) :
    res BoxError (list (string * string * ProposalStatus.t)) :=
  storage ← storage_of vm;
  let auth := VM.get_auth_context vm in
  keys ← map_err EStorage
    (sb_list_keys auth (namespace_of vm) (Some (proposal_key_prefix EmptyString)) storage);
  list_rows auth (namespace_of vm) storage status_filter keys.

(** ** Votes *)

(** [a + b] on integers between [lo] and [hi]. *)
Definition add_between (lo hi a b : Z) : res BoxError Z :=
  if ((lo <=? a + b) && (a + b <=? hi))%Z then Ok (a + b)%Z
  else if overflow_checks then Panic "attempt to add with overflow"
  else Ok ((a + b - lo) mod (hi - lo + 1) + lo)%Z.
Definition u32_add : Z -> Z -> res BoxError Z := add_between 0 4294967295.
Definition i32_add : Z -> Z -> res BoxError Z := add_between (-2147483648) 2147483647.

Record Tally : Type := { yes_votes : Z; no_votes : Z; abstain_votes : Z }.
Definition count_vote (add : Z -> Z -> res BoxError Z) (vote : string) (t : Tally) : res BoxError Tally :=
  let v := to_lowercase vote in
  if String.eqb v "yes" then
    n ← add (yes_votes t) 1%Z;
    Ok {| yes_votes := n; no_votes := no_votes t; abstain_votes := abstain_votes t |}
  else if String.eqb v "no" then
    n ← add (no_votes t) 1%Z;
    Ok {| yes_votes := yes_votes t; no_votes := n; abstain_votes := abstain_votes t |}
  else if String.eqb v "abstain" then
    n ← add (abstain_votes t) 1%Z;
    Ok {| yes_votes := yes_votes t; no_votes := no_votes t; abstain_votes := n |}
  else Ok t.
Fixpoint tally (add : Z -> Z -> res BoxError Z) (votes : list (string * string)) (t : Tally) : res BoxError Tally :=
  match votes with
  | [] => Ok t
  | (_, vote) :: votes => t ← count_vote add vote t; tally add votes t
  end.
Definition no_votes_yet : Tally := {| yes_votes := 0; no_votes := 0; abstain_votes := 0 |}.
Definition count_votes (proposal_id : string) (vm : VM.t S) : res BoxError Tally :=
  votes ← get_proposal_votes proposal_id vm; tally u32_add votes no_votes_yet.

(** The caller's context checks that the proposal is there. *)
Definition require_known (what : string) (auth_context : AuthContext.t) (proposal_id : string) (vm : VM.t S) :
    res BoxError unit :=
  match VM.get_storage_backend vm with
  | Some storage => require_proposal (Some auth_context) (namespace_of vm) proposal_id storage
  | None => Err (EText ("Storage backend not configured for proposal " +:+ what))
  end.

Definition hourglass : string :=
  String.string_of_list_ascii (map ascii_of_N [226; 143; 179]%N).

Definition check_deliberation (now : DateTime) (proposal_id : string) (lifecycle : ProposalLifecycle.t) :
    res BoxError unit :=
  match ProposalLifecycle.discussion_duration lifecycle with
  | Some min_deliberation =>
      let elapsed := since now (ProposalLifecycle.created_at lifecycle) in
      if dur_ltb elapsed min_deliberation then
        Err (EText (hourglass +:+ " Proposal '" +:+ proposal_id +:+ "' is still in deliberation." +:+ Dsl.line_feed +:+
                    "   Required: " +:+ i64_to_string (num_hours min_deliberation) +:+ " hours" +:+ Dsl.line_feed +:+
                    "   Elapsed: " +:+ i64_to_string (num_hours elapsed) +:+ " hours"))
      else Ok tt
  | None => Ok tt
  end.

Definition valid_choice (vote_choice : string) : res BoxError string :=
  let v := to_lowercase vote_choice in
  if existsb (String.eqb v) ["yes"; "no"; "abstain"] then Ok v
  else Err (EText ("Invalid vote choice: '" +:+ vote_choice +:+ "'. Must be yes, no, or abstain")).

Definition in_quotes (s : string) : string := String quote (s +:+ String quote EmptyString).

Definition looking {A} (r : VM.t S -> res BoxError A) : M A := fun vm => (vm, r vm).

(** A source compiled and run on the machine. *)
Definition run_ops (fuel : nat) (ops : list Op.t) : M unit := fun vm =>
  let '(vm', r) := Interp.execute fuel ops vm in (vm', map_err EVM r).
Definition run_dsl (fuel : nat) (source : string) : M unit :=
  p ← lift (map_err (fun e => EText (CompilerError.to_string e)) (Dsl.parse_dsl source));
  run_ops fuel p.1.

(** The vote is the caller's whoever it is cast for; any delegate is accepted. *)
Definition vote_command (fuel : nat) (now : nat -> DateTime) (stamp : N) (auth_context : AuthContext.t)
    (proposal_id vote_choice : string) (delegate_identity : option string) : M unit :=
  let voter_id := AuthContext.current_identity_did auth_context in
  _ ← looking (require_known "vote" auth_context proposal_id);
  lifecycle ← looking (get_proposal_lifecycle proposal_id);
  _ ← lift (check_deliberation (now 0) proposal_id lifecycle);
  vote_value ← lift (valid_choice vote_choice);
  _ ← cast_vote (now 1) stamp proposal_id voter_id vote_value delegate_identity;
  run_dsl fuel ("increment_reputation " +:+ in_quotes voter_id +:+ " reason=" +:+
                in_quotes ("Voted on proposal " +:+ proposal_id)).

(** What [execute] prints and returns. *)
Inductive Execution : Type := QuorumNotMet | ThresholdNotMet | LogicExecuted | LogicFailed (e : BoxError).

Definition total_votes (t : Tally) : res BoxError Z :=
  n ← i32_add (yes_votes t) (no_votes t); i32_add n (abstain_votes t).
Definition yes_ratio (t : Tally) (total : Z) : f64 :=
  if (0 <? total)%Z then f64_div (f64_of_Z (yes_votes t)) (f64_of_Z total) else f64_zero.
Definition participation_rate (total : Z) (required_participants : N) : f64 :=
  if (0 <? required_participants)%N then f64_div (f64_of_Z total) (f64_of_Z (Z.of_N required_participants))
  else f64_one.
Definition quorum_met (lifecycle : ProposalLifecycle.t) (total : Z) : bool :=
  f64_leb (f64_div (lifecycle_quorum lifecycle) (f64_of_Z 100))
    (participation_rate total (default 1%N (ProposalLifecycle.required_participants lifecycle))).
Definition threshold_met (lifecycle : ProposalLifecycle.t) (t : Tally) (total : Z) : bool :=
  f64_leb (f64_div (lifecycle_threshold lifecycle) (f64_of_Z 100)) (yes_ratio t total).

(** A failed execution is printed and the command succeeds. *)
Definition reported (m : M unit) : M Execution := fun vm =>
  let '(vm', r) := m vm in
  (vm', match r with
        | Ok _ => Ok LogicExecuted
        | Err e => Ok (LogicFailed e)
        | Panic m => Panic m
        | OutOfFuel => OutOfFuel
        end).
Definition execute_command (fuel : nat) (now : DateTime) (stamp : N) (auth_context : AuthContext.t)
    (proposal_id : string) : M Execution :=
  _ ← looking (require_known "execution" auth_context proposal_id);
  votes ← looking (get_proposal_votes proposal_id);
  t ← lift (tally i32_add votes no_votes_yet);
  total ← lift (total_votes t);
  lifecycle ← looking (get_proposal_lifecycle proposal_id);
  if ProposalState.eqb (ProposalLifecycle.state lifecycle) ProposalState.Executed then
    throw (EText ("Proposal '" +:+ proposal_id +:+ "' has already been executed"))
  else if negb (quorum_met lifecycle total) then mret QuorumNotMet
  else if negb (threshold_met lifecycle t total) then mret ThresholdNotMet
  else reported (execute_proposal fuel now stamp proposal_id).

(** ** Comments *)

Context `{CC : !CommentCodec}.

Definition box_unit {A} (m : M A) : M unit := _ ← m; mret tt.
Definition comment_command (uuid : string) (now : DateTime) (stamp : N) (auth_context : AuthContext.t)
    (proposal_id content : string) (parent_id : option string) : M unit :=
  box_unit (Comments.create_comment uuid now stamp proposal_id (AuthContext.current_identity_did auth_context)
              content parent_id [] auth_context).
Definition comment_edit_command (now : DateTime) (stamp : N) (auth_context : AuthContext.t)
    (comment_id proposal_id new_text : string) : M unit :=
  Comments.edit_comment now stamp proposal_id comment_id new_text auth_context.
Definition comment_hide_command (stamp : N) (auth_context : AuthContext.t) (comment_id proposal_id : string) : M unit :=
  Comments.hide_comment stamp proposal_id comment_id auth_context.
Definition unimplemented : M unit := lift (Panic "not implemented: Stub implementation").

(** ** The ledger *)

Definition no_ledger : BoxError := EText "DAG ledger not available".
Definition with_ledger {A} (f : DagLedger.t -> res string A) (vm : VM.t S) : res BoxError A :=
  match VM.dag vm with Some ledger => map_err EText (f ledger) | None => Err no_ledger end.

(** The lines of the file that is written, and how many nodes are in it. *)
Definition dag_export_all_command (to_line : DagNode.t -> string) (path : string) : VM.t S -> res BoxError (list string) :=
  with_ledger (fun ledger => DagLedger.export_to_file to_line (DagLedger.set_path path ledger)).
Definition dag_export_selected_command (to_line : DagNode.t -> string) (ids : list string) :
    VM.t S -> res BoxError (list string) := with_ledger (DagLedger.export_selected_to_file to_line ids).
(** No file is written for a proposal without nodes. *)
Definition dag_export_proposal_command (to_line : DagNode.t -> string) (proposal_id : string) :
    VM.t S -> res BoxError (option (list string)) :=
  with_ledger (fun ledger =>
    match DagLedger.find_proposal_related_nodes proposal_id ledger with
    | [] => Ok None
    | nodes => Some <$> DagLedger.export_selected_to_file to_line (DagNode.id <$> nodes) ledger
    end).
Definition dag_import_command (from_line : string -> option DagNode.t) (path : string) (file : option (list string)) :
    M N := fun vm =>
  match VM.dag vm, file with
  | None, _ => (vm, Err (EText "DAG ledger is not initialized"))
  | Some _, None => (vm, Err (EText ("File not found: " +:+ path)))
  | Some ledger, Some _ =>
      let '(ledger, added) := DagLedger.import_from_file from_line file ledger in
      (VM.with_dag (Some ledger) vm, Ok added)
  end.

(** ** Requests: the commands that take the machine to change it *)

Inductive request : Type :=
  | Create (a : CreateArgs)
  | Attach (proposal_id name shown_path : string) (file : option (res string bytes))
  | Comment (uuid proposal_id content : string) (parent : option string)
  | Edit (proposal_id : string) (title description : option string)
  | Publish (proposal_id : string)
  | Vote (proposal_id choice : string) (delegate : option string)
  | Transition (proposal_id state : string)
  | Execute (proposal_id : string)
  | Simulate (proposal_id : string)
  | CommentReact (comment_id proposal_id reaction : string)
  | CommentTag (comment_id proposal_id : string) (tags : list string)
  | CommentEdit (comment_id proposal_id text : string)
  | CommentHide (comment_id proposal_id : string)
  | DagImport (path : string) (file : option (list string)).

Definition handle (from_line : string -> option DagNode.t) (fuel : nat) (now : nat -> DateTime) (stamp : N)
    (auth_context : AuthContext.t) (r : request) : M unit :=
  match r with
  | Create a => create_command now stamp (AuthContext.current_identity_did auth_context) a
  | Attach proposal_id name shown_path file => attach_command stamp proposal_id name file shown_path
  | Comment uuid proposal_id content parent => comment_command uuid (now 0) stamp auth_context proposal_id content parent
  | Edit proposal_id title description => edit_command stamp proposal_id title description
  | Publish proposal_id => publish_command (now 0) stamp proposal_id
  | Vote proposal_id choice delegate => vote_command fuel now stamp auth_context proposal_id choice delegate
  | Transition proposal_id state => transition_command (now 0) stamp proposal_id state
  | Execute proposal_id => box_unit (execute_command fuel (now 0) stamp auth_context proposal_id)
  | Simulate _ => mret tt
  | CommentReact _ _ _ | CommentTag _ _ _ => unimplemented
  | CommentEdit comment_id proposal_id text => comment_edit_command (now 0) stamp auth_context comment_id proposal_id text
  | CommentHide comment_id proposal_id => comment_hide_command stamp auth_context comment_id proposal_id
  | DagImport path file => box_unit (dag_import_command from_line path file)
  end.

(** The options of every command: the file of a ledger, with its lines, and a namespace. *)
Definition with_options (from_line : string -> option DagNode.t) (dag_path : option (string * option (list string)))
    (namespace : option string) (vm : VM.t S) : VM.t S :=
  let vm := match dag_path with Some (path, file) => VM.set_dag_path from_line path file vm | None => vm end in
  match namespace with Some ns => VM.set_namespace ns vm | None => vm end.
Definition dag_export_selected_of (to_line : DagNode.t -> string) (proposal_id ids_str : option string) (vm : VM.t S) :
    res BoxError (option (list string)) :=
  match proposal_id, ids_str with
  | Some proposal_id, _ => dag_export_proposal_command to_line proposal_id vm
  | None, Some ids_str => Some <$> dag_export_selected_command to_line (trim <$> split_char "," ids_str) vm
  | None, None => Err (EText "Either proposal-id or ids must be specified")
  end.

(** Ids of proposals, and the number of votes. *)
Definition created_id (n : DagNode.t) : option string :=
  match DagNode.data n with NodeData.ProposalCreated i _ => Some i | _ => None end.
Definition is_vote (n : DagNode.t) : bool :=
  match DagNode.data n with NodeData.VoteCast _ _ _ => true | _ => false end.
Record DagSummary : Type := {
  ds_total : nat; ds_types : gmap string N; ds_proposals : gset string; ds_votes : nat;
}.
Definition dag_summary_command (from_line : string -> option DagNode.t) (file : option (option (list string)))
    (vm : VM.t S) : res BoxError DagSummary :=
  ledger ← match file, VM.dag vm with
           | Some lines, _ => Ok (DagLedger.load_from_file from_line lines)
           | None, Some ledger => Ok ledger
           | None, None => Err (EText "DAG ledger is not initialized")
           end;
  let nodes := DagLedger.trace_all_nodes ledger in
  Ok {| ds_total := length nodes; ds_types := DagLedger.get_node_type_summary ledger;
        ds_proposals := list_to_set (omap created_id nodes); ds_votes := length (filter (fun n => is_vote n = true) nodes) |}.

Definition shorten_did (did : string) : string :=
  if str_starts_with "did:" did then default did (last (split_char ":" did)) else did.

(** ** What reaches the machine

    [inert m]: [m] leaves the machine as it was; [refuses m]: it does, and does
    not succeed.  Both are about a machine without a transaction of its own. *)

Definition inactive (vm : VM.t S) : Prop := VMExecution.transaction_active (VM.executor vm) = false.
Definition inert {A} (m : M A) : Prop := forall vm, inactive vm -> (m vm).1 = vm.
Definition refuses {A} (m : M A) : Prop := forall vm, inactive vm -> (m vm).1 = vm /\ is_ok (m vm).2 = false.

Lemma refuses_inert {A} (m : M A) : refuses m -> inert m.
Proof. intros H vm Hi. by destruct (H vm Hi). Qed.

Lemma inert_bind {A B} (m : M A) (k : A -> M B) : inert m -> (forall a, inert (k a)) -> inert (m ≫= k).
Proof.
  intros Hm Hk vm Hi. specialize (Hm vm Hi). unfold mbind, stm_bind.
  destruct (m vm) as [vm' []]; cbn in *; subst vm'; auto. by apply Hk.
Qed.

Lemma refuses_after {A B} (m : M A) (k : A -> M B) : inert m -> (forall a, refuses (k a)) -> refuses (m ≫= k).
Proof.
  intros Hm Hk vm Hi. specialize (Hm vm Hi). unfold mbind, stm_bind.
  destruct (m vm) as [vm' []]; cbn in *; subst vm'; auto. by apply Hk.
Qed.

Lemma refuses_first {A B} (m : M A) (k : A -> M B) : refuses m -> refuses (m ≫= k).
Proof.
  intros Hm vm Hi. destruct (Hm vm Hi) as [H1 H2]. unfold mbind, stm_bind.
  destruct (m vm) as [vm' []]; cbn in *; by subst.
Qed.

Lemma inert_lift {A} (r : res BoxError A) : inert (lift r).
Proof. by intros vm _. Qed.
Lemma inert_looking {A} (r : VM.t S -> res BoxError A) : inert (looking r).
Proof. by intros vm _. Qed.
Lemma inert_ret {A} (a : A) : inert (mret a).
Proof. by intros vm _. Qed.
Lemma inert_throw {A} (e : BoxError) : inert (A := A) (throw e).
Proof. by intros vm _. Qed.
Lemma refuses_throw {A} (e : BoxError) : refuses (A := A) (throw e).
Proof. by intros vm _. Qed.
Lemma inert_on_fork {A} (body : VM.t S -> option AuthContext.t -> string -> stm S BoxError A) : inert (on_fork body).
Proof. by intros vm _. Qed.

(** The transaction is the fork's; the machine that commits has none. *)
Lemma refuses_commit : refuses commit.
Proof.
  intros vm Hi. unfold commit, VM.commit_fork_transaction, VM.on_executor, VMExecution.commit_fork_transaction,
    VMExecution.end_transaction, zoom. unfold inactive in Hi. destruct vm; cbn in *. by rewrite Hi.
Qed.

#[local] Hint Resolve inert_bind refuses_after refuses_first refuses_inert inert_lift inert_looking inert_ret
  inert_throw refuses_throw inert_on_fork refuses_commit : proposal_machine.

Lemma refuses_update_proposal_state now stamp proposal_id st : refuses (update_proposal_state now stamp proposal_id st).
Proof. unfold update_proposal_state. auto with proposal_machine. Qed.

Lemma refuses_create_proposal now stamp proposal lifecycle description logic :
  refuses (create_proposal now stamp proposal lifecycle description logic).
Proof. unfold create_proposal. auto 6 with proposal_machine. Qed.

Lemma refuses_cast_vote now stamp proposal_id voter_id vote delegate :
  refuses (cast_vote now stamp proposal_id voter_id vote delegate).
Proof. unfold cast_vote. auto 6 with proposal_machine. Qed.

Lemma inert_reported m : inert m -> inert (reported m).
Proof. intros Hm vm Hi. specialize (Hm vm Hi). unfold reported. by destruct (m vm) as [? []]. Qed.

Lemma inert_execute_proposal fuel now stamp proposal_id : inert (execute_proposal fuel now stamp proposal_id).
Proof. unfold execute_proposal. apply refuses_inert. auto 6 with proposal_machine. Qed.

#[local] Hint Resolve refuses_update_proposal_state refuses_create_proposal refuses_cast_vote inert_reported
  inert_execute_proposal : proposal_machine.

Lemma inert_execute_command fuel now stamp auth_context proposal_id :
  inert (execute_command fuel now stamp auth_context proposal_id).
Proof.
  unfold execute_command. repeat (apply inert_bind; [auto with proposal_machine|intros ?]).
  repeat case_match; auto with proposal_machine.
Qed.

(** The requests that store something about a proposal itself. *)
Definition stores (r : request) : bool :=
  match r with Create _ | Attach _ _ _ _ | Edit _ _ _ | Publish _ | Vote _ _ _ | Transition _ _ => true | _ => false end.

(** The ledger after a request: only an import adds to it. *)
Definition imported (from_line : string -> option DagNode.t) (r : request) (d : option DagLedger.t) : option DagLedger.t :=
  match r, d with
  | DagImport _ (Some lines), Some ledger => Some (DagLedger.import_nodes (DagLedger.read_nodes from_line lines) ledger).1
  | _, _ => d
  end.

Lemma with_dag_same (vm : VM.t S) : VM.with_dag (VM.dag vm) vm = vm.
Proof. by destruct vm. Qed.

Lemma dag_import_effect from_line path file (vm : VM.t S) :
  (dag_import_command from_line path file vm).1 = VM.with_dag (imported from_line (DagImport path file) (VM.dag vm)) vm.
Proof.
  unfold dag_import_command. destruct (VM.dag vm) as [ledger|] eqn:Hd, file as [lines|]; cbn [fst imported];
    rewrite <- ?Hd, ?with_dag_same; try done.
  unfold DagLedger.import_from_file. by destruct (DagLedger.import_nodes _ ledger).
Qed.

(** What a request does to a machine that is not itself a fork. *)
Lemma handle_effect from_line fuel now stamp auth_context r vm : inactive vm ->
  (handle from_line fuel now stamp auth_context r vm).1 = VM.with_dag (imported from_line r (VM.dag vm)) vm /\
  (stores r = true -> is_ok (handle from_line fuel now stamp auth_context r vm).2 = false).
Proof.
  intros Hi. destruct (match r with DagImport _ _ => true | _ => false end) eqn:Hr.
  - destruct r as [| | | | | | | | | | | | |path file]; try done. split; [|done].
    rewrite <- (dag_import_effect from_line path file vm). cbn [handle].
    unfold box_unit, mbind, stm_bind. by destruct (dag_import_command from_line path file vm) as [? []].
  - assert (imported from_line r (VM.dag vm) = VM.dag vm) as ->
      by by destruct r. rewrite with_dag_same.
    assert (if stores r then refuses (handle from_line fuel now stamp auth_context r)
            else inert (handle from_line fuel now stamp auth_context r)) as H;
      [|destruct (stores r); [by destruct (H _ Hi)|by split; [apply H|]]].
    destruct r as [a|? ? ? file|? ? ? ?|? title description| |? ? ?|? st| | | | | | |path file]; cbn.
    + unfold create_command. by repeat (apply refuses_after; [auto with proposal_machine|intros ?]; try solve [auto with proposal_machine]).
    + unfold attach_command. auto 6 with proposal_machine.
    + apply inert_bind; [by intros ? ?|auto with proposal_machine].
    + unfold edit_command. destruct title, description; auto with proposal_machine.
    + intros vm' Hv. unfold publish_command. destruct (VM.fork vm'); auto. by apply refuses_update_proposal_state.
    + unfold vote_command. by repeat (apply refuses_after; [auto with proposal_machine|intros ?]; try solve [auto with proposal_machine]).
    + unfold transition_command. destruct (state_of_name st); auto with proposal_machine.
    + apply inert_bind; [apply inert_execute_command|auto with proposal_machine].
    + auto with proposal_machine.
    + by intros ? ?.
    + by intros ? ?.
    + by intros ? ?.
    + by intros ? ?.
    + done.
Qed.

Lemma with_options_inactive from_line dag_path namespace vm :
  inactive vm -> inactive (with_options from_line dag_path namespace vm).
Proof.
  unfold inactive, with_options. intros Hi. destruct dag_path as [[path file]|], namespace, vm; cbn in *; try done.
  all: unfold VM.set_dag_path; by case_match.
Qed.

End Commands.

End ProposalCommands.

(** ** A concrete request *)
Module ProposalExamples.

Import ProposalCommands.

#[local] Existing Instance Samples.platform.
#[local] Existing Instance Samples.renderings.
#[local] Existing Instance ClockSamples.seconds.
#[local] Existing Instance LifecycleExamples.ascii_case.
#[local] Existing Instance CommentExamples.sample_codec.

#[local] Instance sample_proposal_calls : ProposalCalls :=
  {| proposal_to_vec := fun p => Ok (Proposal.id p); proposal_from_slice := fun _ => Err "not a proposal";
     lifecycle_to_vec := fun p => Ok (ProposalLifecycle.title p); lifecycle_from_slice := fun _ => Err "not a lifecycle";
     vote_to_vec := fun v => Ok (vd_vote v); value_strings := fun b => Ok (fun k => if String.eqb k "vote" then Some b else None);
     stored_comment_to_vec := fun c => Ok (sc_content c); stored_comment_from_slice := fun _ => Err "not a comment";
     parse_rfc3339 := fun _ => None; rfc3339 := fun _ => "1970-01-01T00:00:00Z";
     since := fun a b => (a - b)%Z; num_hours := fun d => (d / 3600)%Z; node_timestamp := fun t => Ok (Z.to_N t);
     node_id := DagNode.id; identity_new := fun _ => Ok LifecycleExamples.sample_identity;
     lifecycle_quorum := fun _ => f64_of_Z 50; lifecycle_threshold := fun _ => f64_of_Z 50;
     lifecycle_block := fun _ => None; duration_parts := fun _ => None |}.

Definition at_second (n : Z) : nat -> @DateTime ClockSamples.seconds := fun _ => n.
Definition creation : request :=
  Create {| ca_id := "p1"; ca_title := "Title"; ca_description := "What it is about"; ca_quorum := f64_one;
            ca_threshold := f64_one; ca_logic_path := "logic.dsl"; ca_logic_file := Ok "push 1";
            ca_expires_in := None; ca_min_deliberation := None; ca_discussion_duration := None;
            ca_required_participants := None; ca_creator := None |}.
Definition machine : VM.t InMemoryStorage.t :=
  VM.set_auth_context InMemoryStorage.admin (VM.with_storage_backend InMemoryStorage.with_account).

(** Every step before the commit succeeds. *)
Lemma creation_reaches_the_commit :
  (handle (fun _ => None) 10 (at_second 5) 5 InMemoryStorage.admin creation machine).2 =
  Err (EVM (VMError.StorageError "No active transaction to commit")).
Proof. vm_compute. reflexivity. Qed.

End ProposalExamples.
