(* ===== verification/Views.v ===== *)
(** * What the proposal commands show: the reading half of cli/proposal.rs

    Each command is a function from the machine to what it shows: rows with their
    depth, counts and percentages.  A recursive display takes fuel for its depth;
    running out of it is the stack overflow of the program.  [ProposalDispatch]
    puts these commands and those of Proposals together. *)
From S2P Require Import Prelude Float64 Text Values Ops Stack Memory Auth Storage InMemory Economic Executor.
From S2P Require Import Ledger Trace Machine Governance VM Lifecycle Comments Proposals.

Module ProposalViews.

Import ProposalCommands.

(** ** Threads of comments *)
Section Threads.

Context `{RD : Renderings} `{CH : Chrono}.

(** [comments.values()], in the order of the map. *)
Definition values (comments : gmap string ProposalComment.t) : list ProposalComment.t :=
  omap (fun i => comments !! i) (key_order (map_to_list comments).*1).
Definition earlier (a b : ProposalComment.t) : bool :=
  dt_ltb (ProposalComment.timestamp a) (ProposalComment.timestamp b).
Definition in_reply_to (parent : option string) (comments : gmap string ProposalComment.t) : list ProposalComment.t :=
  sort_by earlier (filter (fun c => ProposalComment.reply_to c = parent) (values comments)).

Fixpoint print_thread (fuel : nat) (comments : gmap string ProposalComment.t) (depth : nat)
    (comment : ProposalComment.t) : res BoxError (list (nat * ProposalComment.t)) :=
  match fuel with
  | O => OutOfFuel
  | S fuel' =>
      let replies := in_reply_to (Some (ProposalComment.id comment)) comments in
      foldl (fun shown reply => rows ← shown; more ← print_thread fuel' comments (depth + 1) reply; Ok (rows ++ more))
        (Ok [(depth, comment)]) replies
  end.

Definition print_threads (fuel : nat) (comments : gmap string ProposalComment.t) :
    res BoxError (list (nat * ProposalComment.t)) :=
  foldl (fun shown root => rows ← shown; more ← print_thread fuel comments 0 root; Ok (rows ++ more))
    (Ok []) (in_reply_to None comments).

(** [c] replies to [p]; [c] is [d] replies below a comment that replies to nothing. *)
Definition replies_to (comments : gmap string ProposalComment.t) (p c : ProposalComment.t) : Prop :=
  (exists i, comments !! i = Some c) /\ ProposalComment.reply_to c = Some (ProposalComment.id p).
Definition at_depth (comments : gmap string ProposalComment.t) (d : nat) (c : ProposalComment.t) : Prop :=
  exists i root, comments !! i = Some root /\ ProposalComment.reply_to root = None /\
    nsteps (replies_to comments) d root c.

(** The map of [fetch_comments_threaded]: a comment sits at its id. *)
Definition keyed (comments : gmap string ProposalComment.t) : Prop :=
  forall i c, comments !! i = Some c -> ProposalComment.id c = i.

(** Collecting rows in a loop: the accumulator, then the rows of each element. *)
Lemma foldl_rows {E A B} (f : A -> res E (list B)) (R : A -> list B -> Prop) l acc :
  (forall a, a ∈ l -> exists rows, f a = Ok rows /\ R a rows) ->
  exists rss, foldl (fun shown a => rows ← shown; more ← f a; Ok (rows ++ more)) (Ok acc) l = Ok (acc ++ concat rss) /\
    Forall2 R l rss.
Proof.
  revert acc. induction l as [|a l IH]; intros acc H; cbn.
  - exists []. by rewrite app_nil_r.
  - destruct (H a) as (rows & Hf & HR); [by left|]. rewrite Hf. cbn.
    destruct (IH (acc ++ rows)) as (rss & Hl & HF); [intros b Hb; apply H; by right|].
    exists (rows :: rss). rewrite Hl. cbn. rewrite app_assoc. split; [done|by constructor].
Qed.

Section Shown.

Context (Horder : forall l : list string, key_order l ≡ₚ l).
Context (m : gmap string ProposalComment.t) (Hkeyed : keyed m).

Lemma values_perm : values m ≡ₚ (map_to_list m).*2.
Proof.
  unfold values. rewrite Horder. clear Hkeyed.
  assert (forall l : list (string * ProposalComment.t), (forall kv, kv ∈ l -> m !! kv.1 = Some kv.2) ->
    omap (fun i => m !! i) l.*1 = l.*2) as Hl.
  { induction l as [|[k v] l IH]; intros H; [done|]. cbn. pose proof (H (k, v) ltac:(by left)) as Hkv. cbn in Hkv. rewrite Hkv. f_equal.
    apply IH. intros kv ?. apply H. by right. }
  rewrite Hl; [done|]. intros [k v] Hkv. by apply elem_of_map_to_list in Hkv.
Qed.

Lemma elem_of_values c : c ∈ values m <-> exists i, m !! i = Some c.
Proof.
  rewrite values_perm, list_elem_of_fmap. split.
  - intros ([k v] & -> & H%elem_of_map_to_list). by exists k.
  - intros [i H]. exists (i, c). split; [done|]. by apply elem_of_map_to_list.
Qed.

Lemma nodup_values : NoDup (values m).
Proof.
  rewrite values_perm. apply (NoDup_fmap_1 ProposalComment.id). rewrite <- list_fmap_compose.
  rewrite (list_fmap_ext _ fst); [apply NoDup_fst_map_to_list|].
  intros n [k v] H%list_elem_of_lookup_2%elem_of_map_to_list. by apply Hkeyed.
Qed.

Lemma elem_of_in_reply_to p c :
  c ∈ in_reply_to p m <-> (exists i, m !! i = Some c) /\ ProposalComment.reply_to c = p.
Proof. unfold in_reply_to. rewrite sort_by_perm, list_elem_of_filter, elem_of_values. tauto. Qed.

Lemma nodup_in_reply_to p : NoDup (in_reply_to p m).
Proof. unfold in_reply_to. rewrite sort_by_perm. apply NoDup_filter, nodup_values. Qed.

Lemma same_id (c c' : ProposalComment.t) i i' :
  m !! i = Some c -> m !! i' = Some c' -> ProposalComment.id c = ProposalComment.id c' -> c = c'.
Proof. intros H H' Hid. rewrite (Hkeyed _ _ H), (Hkeyed _ _ H') in Hid. congruence. Qed.

Lemma at_depth_stored d c : at_depth m d c -> exists i, m !! i = Some c.
Proof.
  intros (i & root & Hi & _ & Hn). destruct d as [|d].
  - inversion Hn; subst. eauto.
  - by apply nsteps_inv_r in Hn as (p & _ & [? _]).
Qed.

Lemma at_depth_0 c : at_depth m 0 c <-> (exists i, m !! i = Some c) /\ ProposalComment.reply_to c = None.
Proof.
  split.
  - intros (i & root & Hi & Hr & Hn). inversion Hn; subst. eauto.
  - intros [[i Hi] Hr]. exists i, c. repeat split; try done. constructor.
Qed.

Lemma at_depth_S d c : at_depth m (S d) c <-> exists p, at_depth m d p /\ replies_to m p c.
Proof.
  split.
  - intros (i & root & Hi & Hr & (p & Hn & Hp)%nsteps_inv_r). exists p. split; [|done]. by exists i, root.
  - intros (p & (i & root & Hi & Hr & Hn) & Hp). exists i, root. repeat split; try done. by eapply nsteps_r.
Qed.

Lemma same_parent p p' c d d' :
  at_depth m d p -> at_depth m d' p' -> replies_to m p c -> replies_to m p' c -> p = p'.
Proof.
  intros [i Hi]%at_depth_stored [i' Hi']%at_depth_stored [_ H] [_ H']. eapply same_id; eauto. congruence.
Qed.

Lemma at_depth_unique d d' c : at_depth m d c -> at_depth m d' c -> d = d'.
Proof.
  revert d' c. induction d as [|d IH]; intros [|d'] c H H'; [done| | |].
  - apply at_depth_0 in H as [_ H]. apply at_depth_S in H' as (p & _ & _ & H'). congruence.
  - apply at_depth_0 in H' as [_ H']. apply at_depth_S in H as (p & _ & _ & H). congruence.
  - apply at_depth_S in H as (p & Hp & H). apply at_depth_S in H' as (p' & Hp' & H').
    f_equal. apply (IH d' p Hp). by rewrite (same_parent p p' c d d').
Qed.

(** A comment at depth [d] and those above it are different comments. *)
Lemma at_depth_bounded d c : at_depth m d c -> d < size m.
Proof.
  intros H.
  assert (exists l, length l = S d /\ NoDup l /\ forall x, x ∈ l -> exists e, e <= d /\ at_depth m e x)
    as (l & Hl & Hnd & Hin).
  { revert c H. induction d as [|d IH]; intros c H.
    - exists [c]. split; [done|]. split; [apply NoDup_singleton|]. intros x ->%list_elem_of_singleton. by exists 0.
    - pose proof H as H'. apply at_depth_S in H' as (p & Hp & _). destruct (IH p Hp) as (l & Hl & Hnd & Hin).
      exists (c :: l). cbn. split; [lia|]. split.
      + constructor; [|done]. intros Hc. destruct (Hin c Hc) as (e & He & Hce).
        pose proof (at_depth_unique _ _ _ H Hce). lia.
      + intros x [->|Hx]%elem_of_cons; [by exists (S d)|]. destruct (Hin x Hx) as (e & He & Hxe). exists e. split; [lia|done]. }
  assert (l ⊆+ values m) as Hs%submseteq_length.
  { apply NoDup_submseteq; [done|]. intros x Hx. destruct (Hin x Hx) as (e & _ & He).
    apply elem_of_values. by eapply at_depth_stored. }
  rewrite values_perm, length_fmap, length_map_to_list in Hs. lia.
Qed.

Lemma at_depth_below d k c x : at_depth m d c -> nsteps (replies_to m) k c x -> at_depth m (d + k) x.
Proof. intros (i & root & Hi & Hr & Hn) Hk. exists i, root. repeat split; try done. by eapply nsteps_trans. Qed.

Lemma same_ancestor d k c c' x :
  at_depth m d c -> at_depth m d c' -> nsteps (replies_to m) k c x -> nsteps (replies_to m) k c' x -> c = c'.
Proof.
  intros Hc Hc'. revert x. induction k as [|k IH]; intros x H H'; [by inversion H; inversion H'; subst|].
  apply nsteps_inv_r in H as (p & Hp & H). apply nsteps_inv_r in H' as (p' & Hp' & H').
  rewrite (same_parent p p' x (d + k) (d + k)) in Hp; [by apply (IH p')|by apply (at_depth_below d k c)|
    by apply (at_depth_below d k c')|done|done].
Qed.

(** The rows of [c] and everything below it, once each. *)
Definition shown_below (d : nat) (c : ProposalComment.t) (rows : list (nat * ProposalComment.t)) : Prop :=
  NoDup rows /\ forall e x, (e, x) ∈ rows <-> exists k, e = d + k /\ nsteps (replies_to m) k c x.

Lemma shown_below_concat d l rss :
  NoDup l -> (forall c, c ∈ l -> at_depth m d c) -> Forall2 (shown_below d) l rss ->
  NoDup (concat rss) /\
  forall e x, (e, x) ∈ concat rss <-> exists c k, c ∈ l /\ e = d + k /\ nsteps (replies_to m) k c x.
Proof.
  intros Hnd Hat HF. induction HF as [|c rows l rss [Hr Hrows] HF IH].
  { split; [constructor|]. intros e x. split; [by intros ?%elem_of_nil|]. intros (c & k & Hc & _). by apply not_elem_of_nil in Hc. }
  apply NoDup_cons in Hnd as [Hc Hnd].
  destruct IH as [IH1 IH2]; [done|intros c' ?; apply Hat; by right|]. cbn. split.
  - apply NoDup_app. split; [done|]. split; [|done].
    intros [e x] (k & -> & Hk)%Hrows (c' & k' & Hc' & He & Hk')%IH2. assert (k' = k) as -> by lia.
    apply Hc. rewrite (same_ancestor d k c c' x); [done|apply Hat; by left|apply Hat; by right|done..].
  - intros e x. rewrite elem_of_app, Hrows, IH2. split.
    + intros [(k & Hk)|(c' & k & Hc' & Hk)]; [exists c, k; split; [by left|done]|exists c', k; split; [by right|done]].
    + intros (c' & k & [->|Hc']%elem_of_cons & Hk); [left; by exists k|right; by exists c', k].
Qed.

Lemma print_thread_rows fuel d c :
  at_depth m d c -> size m <= fuel + d -> exists rows, print_thread fuel m d c = Ok rows /\ shown_below d c rows.
Proof.
  revert d c. induction fuel as [|fuel IH]; intros d c Hc Hf.
  { pose proof (at_depth_bounded _ _ Hc). lia. }
  assert (forall r, r ∈ in_reply_to (Some (ProposalComment.id c)) m -> at_depth m (d + 1) r) as Hat.
  { intros r Hr%elem_of_in_reply_to. rewrite Nat.add_1_r. apply at_depth_S. by exists c. }
  cbn. destruct (foldl_rows (print_thread fuel m (d + 1)) (shown_below (d + 1))
    (in_reply_to (Some (ProposalComment.id c)) m) [(d, c)]) as (rss & -> & HF).
  { intros r Hr. apply IH; [by apply Hat|lia]. }
  destruct (shown_below_concat _ _ _ (nodup_in_reply_to _) Hat HF) as [Hnd Hin].
  eexists. split; [done|]. split.
  - cbn. constructor; [|done]. intros (c' & k & _ & He & _)%Hin. lia.
  - intros e x. cbn. rewrite elem_of_cons, Hin. split.
    + intros [[= -> ->]|(r & k & Hr%elem_of_in_reply_to & -> & Hk)].
      * exists 0. split; [lia|constructor].
      * exists (S k). split; [lia|]. by apply nsteps_l with r.
    + intros ([|k] & -> & Hk); inversion Hk as [|? ? r ? Hr Hk']; subst; [left; f_equal; lia|].
      right. exists r, k. split; [by apply elem_of_in_reply_to|]. split; [lia|done].
Qed.

End Shown.

(** C19. The display of comment threads ends and is complete: within as many
    levels as there are comments it shows, once each and at its depth, exactly
    the comments that lie below one that replies to nothing.  A reply whose
    parent is not in the map (because it is hidden, or deleted) is not shown,
    and neither is anything below it. *)
Theorem threads_shown_once comments :
  (forall l : list string, key_order l ≡ₚ l) -> keyed comments ->
  exists rows, print_threads (size comments) comments = Ok rows /\ NoDup rows /\
    forall d c, (d, c) ∈ rows <-> at_depth comments d c.
Proof.
  intros Horder Hkeyed.
  assert (forall c, c ∈ in_reply_to None comments -> at_depth comments 0 c) as Hat.
  { intros c Hc%elem_of_in_reply_to; [|done]. by apply at_depth_0. }
  unfold print_threads. destruct (foldl_rows (print_thread (size comments) comments 0) (shown_below comments 0)
    (in_reply_to None comments) []) as (rss & -> & HF).
  { intros c Hc. apply print_thread_rows; [done..|by apply Hat|lia]. }
  destruct (shown_below_concat comments Hkeyed _ _ _ (nodup_in_reply_to Horder comments Hkeyed _) Hat HF) as [Hnd Hin].
  exists (concat rss). split; [done|]. split; [done|]. intros d c. rewrite Hin. split.
  - intros (root & k & Hr & -> & Hk). by apply (at_depth_below comments 0 k root); [apply Hat|].
  - intros (i & root & Hi & Hr & Hk). exists root, d. split; [|done]. apply elem_of_in_reply_to; eauto.
Qed.


End Threads.

(** ** Comments kept by the commands, in threads

    The id under which replies are looked up is the time of a comment, in seconds,
    and its author. *)
Section StoredThreads.

Context `{RD : Renderings} `{CH : Chrono} `{PC : !ProposalCalls}.

(** [now] is read when the time of a comment cannot be parsed. *)
Definition thread_id (now : Z) (comment : StoredComment) : string :=
  i64_to_string (default now (parse_rfc3339 (sc_timestamp comment))) +:+ "_" +:+ sc_author comment.
Definition children (parent : option string) (comments : list StoredComment) : list StoredComment :=
  filter (fun c => sc_parent c = parent) comments.

Fixpoint display_comment (fuel : nat) (now : Z) (comments : list StoredComment) (depth : nat)
    (comment : StoredComment) : res BoxError (list (nat * StoredComment)) :=
  match fuel with
  | O => OutOfFuel
  | S fuel' =>
      foldl (fun shown reply =>
               rows ← shown; more ← display_comment fuel' now comments (depth + 1) reply; Ok (rows ++ more))
        (Ok [(depth, comment)]) (children (Some (thread_id now comment)) comments)
  end.
Definition display_threaded_comments (fuel : nat) (now : Z) (comments : list StoredComment) :
    res BoxError (list (nat * StoredComment)) :=
  foldl (fun shown root => rows ← shown; more ← display_comment fuel now comments 0 root; Ok (rows ++ more))
    (Ok []) (children None comments).

(** A loop over rows ends only if every turn does. *)
Lemma foldl_rows_not_ok {E A B} (f : A -> res E (list B)) l r :
  is_ok r = false -> is_ok (foldl (fun shown a => rows ← shown; more ← f a; Ok (rows ++ more)) r l) = false.
Proof. revert r. induction l as [|a l IH]; intros r H; [done|]. cbn. apply IH. by destruct r. Qed.

Lemma foldl_rows_stops {E A B} (f : A -> res E (list B)) l a r :
  a ∈ l -> is_ok (f a) = false -> is_ok (foldl (fun shown a => rows ← shown; more ← f a; Ok (rows ++ more)) r l) = false.
Proof.
  intros Ha Hf. revert r. induction l as [|b l IH]; intros r; [by apply not_elem_of_nil in Ha|].
  apply elem_of_cons in Ha as [<-|Ha]; cbn; [|by apply IH].
  apply foldl_rows_not_ok. destruct r; try done. cbn. by destruct (f a).
Qed.

(** Nothing but the depth can go wrong. *)
Definition shows_or_overflows {A} (r : res BoxError A) : Prop := r = OutOfFuel \/ exists a, r = Ok a.

Lemma foldl_rows_total {A B} (f : A -> res BoxError (list B)) l r :
  shows_or_overflows r -> (forall a, shows_or_overflows (f a)) ->
  shows_or_overflows (foldl (fun shown a => rows ← shown; more ← f a; Ok (rows ++ more)) r l).
Proof.
  intros Hr Hf. revert r Hr. induction l as [|a l IH]; intros r Hr; [done|]. cbn. apply IH.
  destruct Hr as [->|[rows ->]]; [by left|]. cbn.
  destruct (Hf a) as [->|[more ->]]; [by left|right; by eexists].
Qed.

Lemma display_comment_total fuel now comments depth c :
  shows_or_overflows (display_comment fuel now comments depth c).
Proof.
  revert depth c. induction fuel as [|fuel IH]; intros depth c; [by left|].
  cbn. apply foldl_rows_total; [right; by eexists|intros; apply IH].
Qed.

(** The threaded display does not end when an author answers an own comment
    within the second: both comments have the same thread id, so the reply is
    its own child.  No depth of recursion is enough. *)
Theorem same_second_reply_never_ends fuel now comments root reply :
  root ∈ comments -> reply ∈ comments ->
  sc_parent root = None -> sc_parent reply = Some (thread_id now root) ->
  thread_id now reply = thread_id now root ->
  display_threaded_comments fuel now comments = OutOfFuel.
Proof.
  intros Hroot Hreply Hnone Hparent Hid.
  assert (forall fuel depth, is_ok (display_comment fuel now comments depth reply) = false) as Hloop.
  { intros f. induction f as [|f IH]; intros depth; [done|]. cbn. apply (foldl_rows_stops _ _ reply); [|apply IH].
    apply list_elem_of_filter. split; [by rewrite Hid|done]. }
  destruct (foldl_rows_total (display_comment fuel now comments 0) (children None comments) (Ok [])) as [H|[rows H]];
    [right; by eexists|intros; apply display_comment_total|exact H|].
  apply (f_equal is_ok) in H. rewrite (foldl_rows_stops _ _ root) in H; [done|by apply list_elem_of_filter|].
  destruct fuel as [|fuel]; [done|]. cbn. apply (foldl_rows_stops _ _ reply); [|apply Hloop].
  by apply list_elem_of_filter.
Qed.

End StoredThreads.

(** ** The commands *)
Section Reports.

Context {S : Type} `{SB : StorageBackend S} `{PL : Platform} `{RD : Renderings}.
Context `{CH : Chrono} `{UC : Unicode} `{PC : !ProposalCalls} `{CC : !CommentCodec}.

Definition load_proposal (proposal_id : string) (vm : VM.t S) : res BoxError ProposalLifecycle.t :=
  get_proposal_lifecycle proposal_id vm.
Definition load_proposal_from_governance (proposal_id : string) (vm : VM.t S) : res BoxError Proposal.t :=
  get_proposal proposal_id vm.
(** The lifecycle under the older key, read by nobody in particular. *)
Definition load_proposal_lifecycle (proposal_id : string) (vm : VM.t S) : res BoxError ProposalLifecycle.t :=
  match VM.get_storage_backend vm with
  | None => Err (EVM VMError.StorageUnavailable)
  | Some storage =>
      proposal_data ← map_err EStorage (sb_get None "proposals" ("proposals/" +:+ proposal_id) storage);
      map_err EText (lifecycle_from_slice proposal_data)
  end.

(** [if let Ok(x) = r]. *)
Definition if_ok {A B} (r : res BoxError A) (f : A -> B) (other : B) : res BoxError B :=
  match r with
  | Ok a => Ok (f a)
  | Err _ => Ok other
  | Panic m => Panic m
  | OutOfFuel => OutOfFuel
  end.

Inductive Shown : Type := Percent (x : f64) | NotApplicable | Unknown.
Definition percent_of (part total : Z) : f64 :=
  match CliUtils.safe_percentage (CliUtils.f64_to_typed (f64_of_Z part)) (CliUtils.f64_to_typed (f64_of_Z total)) with
  | Ok x => x
  | _ => f64_zero
  end.
Definition sum_votes (t : Tally) : res BoxError Z := n ← u32_add (yes_votes t) (no_votes t); u32_add n (abstain_votes t).

Record View : Type := {
  v_proposal : Proposal.t; v_title : option string; v_votes : Tally; v_total : Z; v_quorum : Shown; v_threshold : Shown;
}.
(** The quorum shown is votes for a quorum, the threshold the share of yes. *)
Definition quorum_shown (total : Z) (lifecycle : ProposalLifecycle.t) : Shown :=
  if f64_ltb f64_zero (lifecycle_quorum lifecycle) then
    Percent (match CliUtils.safe_percentage (CliUtils.f64_to_typed (f64_of_Z total))
                     (CliUtils.f64_to_typed (lifecycle_quorum lifecycle)) with Ok x => x | _ => f64_zero end)
  else NotApplicable.
Definition threshold_shown (yes total : Z) (lifecycle : ProposalLifecycle.t) : Shown :=
  if f64_ltb f64_zero (lifecycle_threshold lifecycle) && (0 <? total)%Z then Percent (percent_of yes total)
  else NotApplicable.
Definition handle_view_command (proposal_id : string) (vm : VM.t S) : res BoxError View :=
  proposal ← load_proposal_from_governance proposal_id vm;
  t ← count_votes proposal_id vm;
  total ← sum_votes t;
  let lifecycle := load_proposal proposal_id vm in
  quorum ← if_ok lifecycle (quorum_shown total) Unknown;
  threshold ← if_ok lifecycle (threshold_shown (yes_votes t) total) Unknown;
  title ← if_ok lifecycle (fun p => Some (ProposalLifecycle.title p)) None;
  Ok {| v_proposal := proposal; v_title := title; v_votes := t; v_total := total; v_quorum := quorum;
        v_threshold := threshold |}.

(** [comments.values().map(|c| c.timestamp).max().unwrap_or(created_at)]: the last of the latest. *)
Definition last_activity (created_at : DateTime) (comments : list ProposalComment.t) : DateTime :=
  default created_at
    (foldl (fun best c => match best with
                          | Some b => if dt_ltb (ProposalComment.timestamp c) b then Some b
                                      else Some (ProposalComment.timestamp c)
                          | None => Some (ProposalComment.timestamp c)
                          end) None comments).
Definition author_counts (comments : list ProposalComment.t) : gmap string N :=
  foldl (fun counts c => let a := ProposalComment.author c in <[a := (default 0 (counts !! a) + 1)%N]> counts) ∅ comments.
(** Five authors in the order of the map, which is not that of their counts. *)
Definition top_commenters (comments : list ProposalComment.t) : list (string * N) :=
  let counts := author_counts comments in
  take 5 (omap (fun a => pair a <$> counts !! a) (key_order (map_to_list counts).*1)).

Record Summary : Type := {
  sm_title : option string; sm_status : ProposalStatus.t; sm_last_activity : DateTime; sm_votes : Tally; sm_total : Z;
  sm_percentages : f64 * f64 * f64; sm_comments : nat; sm_top : list (string * N);
}.
Definition handle_summary_command (proposal_id : string) (vm : VM.t S) : res BoxError Summary :=
  proposal ← load_proposal_from_governance proposal_id vm;
  t ← count_votes proposal_id vm;
  total ← sum_votes t;
  comments ← Comments.fetch_comments_threaded proposal_id None false vm;
  title ← if_ok (load_proposal_lifecycle proposal_id vm) (fun p => Some (ProposalLifecycle.title p)) None;
  let share part := if (0 <? total)%Z then percent_of part total else f64_zero in
  Ok {| sm_title := title; sm_status := Proposal.status proposal;
        sm_last_activity := last_activity (Proposal.created_at proposal) (values comments);
        sm_votes := t; sm_total := total;
        sm_percentages := (share (yes_votes t), share (no_votes t), share (abstain_votes t));
        sm_comments := size comments; sm_top := top_commenters (values comments) |}.

Definition handle_thread_command (fuel : nat) (proposal_id : string) (show_hidden : bool) (auth_context : AuthContext.t)
    (vm : VM.t S) : res BoxError (nat * list (nat * ProposalComment.t)) :=
  comments ← Comments.fetch_comments_threaded proposal_id (Some auth_context) show_hidden vm;
  rows ← print_threads fuel comments;
  Ok (size comments, rows).
(** The [comments] command: the proposal's lifecycle is loaded first. *)
Definition comments_command (fuel : nat) (proposal_id : string) (auth_context : AuthContext.t) (vm : VM.t S) :
    res BoxError (ProposalState.t * list (nat * ProposalComment.t)) :=
  proposal ← load_proposal proposal_id vm;
  comments ← Comments.fetch_comments_threaded proposal_id (Some auth_context) false vm;
  rows ← print_threads fuel comments;
  Ok (ProposalLifecycle.state proposal, rows).

(** What can be read of a listing; the rest is only warned about. *)
Fixpoint readable {A B} (read : string -> res StorageError.t A) (f : A -> B) (keys : list string) :
    res BoxError (list B) :=
  match keys with
  | [] => Ok []
  | key :: keys =>
      row ← or_skip (read key) (fun a => Ok (Some (f a)));
      rows ← readable read f keys;
      Ok (match row with Some r => r :: rows | None => rows end)
  end.
Definition comment_type : string := "icn_covm::cli::proposal::StoredComment".
Definition read_comments (auth_context : AuthContext.t) (ns prefix : string) (storage : S) :
    res BoxError (list StoredComment) :=
  keys ← map_err EStorage (sb_list_keys (Some auth_context) ns (Some prefix) storage);
  readable (fun key => StorageExtensions.get_json stored_comment_from_slice comment_type (Some auth_context) ns key storage)
    id keys.

Definition handle_view_comments_command (fuel : nat) (now : Z) (proposal_id : string) (threaded : bool)
    (auth_context : AuthContext.t) (vm : VM.t S) : res BoxError (list (nat * StoredComment)) :=
  storage ← match VM.get_storage_backend vm with
            | Some storage => Ok storage
            | None => Err (EText "Storage backend not configured for viewing comments")
            end;
  _ ← require_proposal (Some auth_context) (namespace_of vm) proposal_id storage;
  comments ← read_comments auth_context (namespace_of vm) (proposal_comments_prefix proposal_id +:+ "/") storage;
  let comments := sort_by (fun a b => TypedValue.str_ltb (sc_timestamp a) (sc_timestamp b)) comments in
  if threaded then display_threaded_comments fuel now comments else Ok (pair 0 <$> comments).

(** The file that [export] writes; states are kept as values, not as texts. *)
Record ProposalExport : Type := {
  ex_id : string; ex_title : string; ex_creator : string; ex_state : ProposalState.t; ex_created_at : string;
  ex_expires_at : option string; ex_quorum : f64; ex_threshold : f64; ex_description : option string;
  ex_logic : option string; ex_execution_status : option ExecutionStatus.t; ex_votes : list VoteData;
  ex_comments : list StoredComment;
}.
Definition vote_export (vote_data : string -> option string) : VoteData :=
  {| vd_voter := default "unknown" (vote_data "voter"); vd_vote := default "unknown" (vote_data "vote");
     vd_timestamp := default "unknown" (vote_data "timestamp"); vd_delegated_by := vote_data "delegated_by" |}.
(** A text that is there must be UTF-8. *)
Definition text_at (auth_context : AuthContext.t) (ns key : string) (storage : S) : res BoxError (option string) :=
  or_skip (sb_get (Some auth_context) ns key storage) (fun b =>
    match from_utf8 b with Some s => Ok (Some s) | None => Err (EText (utf8_error b)) end).

(** Always the namespace "default", whatever that of the machine. *)
Definition handle_export_command (proposal_id : string) (auth_context : AuthContext.t) (vm : VM.t S) :
    res BoxError ProposalExport :=
  storage ← match VM.get_storage_backend vm with
            | Some storage => Ok storage
            | None => Err (EText "Storage backend not configured for proposal export")
            end;
  let ns := "default" in
  lifecycle ← explained "Failed to load proposal lifecycle" (read_lifecycle (Some auth_context) ns proposal_id storage);
  description ← text_at auth_context ns (proposal_description_key proposal_id) storage;
  logic ← text_at auth_context ns (proposal_logic_key proposal_id) storage;
  vote_keys ← map_err EStorage
    (sb_list_keys (Some auth_context) ns (Some (proposal_votes_prefix proposal_id +:+ "/")) storage);
  votes ← readable (fun key => StorageExtensions.get_json value_strings value_type (Some auth_context) ns key storage)
    vote_export vote_keys;
  comments ← read_comments auth_context ns (proposal_comments_prefix proposal_id +:+ "/") storage;
  Ok {| ex_id := ProposalLifecycle.id lifecycle; ex_title := ProposalLifecycle.title lifecycle;
        ex_creator := Identity.did (ProposalLifecycle.creator lifecycle); ex_state := ProposalLifecycle.state lifecycle;
        ex_created_at := rfc3339 (ProposalLifecycle.created_at lifecycle);
        ex_expires_at := rfc3339 <$> ProposalLifecycle.expires_at lifecycle;
        ex_quorum := f64_div (lifecycle_quorum lifecycle) (f64_of_Z 100);
        ex_threshold := f64_div (lifecycle_threshold lifecycle) (f64_of_Z 100);
        ex_description := description; ex_logic := logic;
        ex_execution_status := ProposalLifecycle.execution_status lifecycle; ex_votes := votes; ex_comments := comments |}.

(** The versions of a comment, each with the two lengths in bytes when the next
    version has another length. *)
Fixpoint history_shown (versions : list ProposalComment.CommentVersion) :
    list (ProposalComment.CommentVersion * option (nat * nat)) :=
  match versions with
  | [] => []
  | version :: rest =>
      (version,
       next ← head rest;
       let old_len := String.length (ProposalComment.version_content version) in
       let new_len := String.length (ProposalComment.version_content next) in
       if Nat.eqb old_len new_len then None else Some (old_len, new_len)) :: history_shown rest
  end.

Definition handle_comment_history_command (comment_id proposal_id : string) (auth_context : option AuthContext.t)
    (vm : VM.t S) : res BoxError (list (ProposalComment.CommentVersion * option (nat * nat))) :=
  versions ← Comments.get_comment_history proposal_id comment_id auth_context vm;
  Ok (history_shown versions).

End Reports.

(** ** The ledger *)
Section LedgerViews.

Context {S : Type} `{SB : StorageBackend S} `{PL : Platform} `{RD : Renderings}.
Context (from_line : string -> option DagNode.t) (to_line debug_node : DagNode.t -> string).

(** [vote.round() as i32], of which 0 and 1 are told apart. *)
Definition vote_label (vote : f64) : string :=
  let n := f64_to_i64 (f64_round vote) in
  if (n =? 1)%Z then "YES" else if (n =? 0)%Z then "NO" else "ABSTAIN".

(** How many lines the trace has, and the nodes, newest first. *)
Inductive TraceShown : Type := NoProposal | NoNode | NoneRelated | Trace (count : nat) (nodes : list DagNode.t).
Definition handle_dag_trace_command (proposal_id : string) (vm : VM.t S) : res BoxError TraceShown :=
  match VM.dag vm with
  | None => Err no_ledger
  | Some ledger =>
      match DagLedger.find_proposal_node_id proposal_id ledger with
      | None => Ok NoProposal
      | Some start_id =>
          match DagLedger.find_by_id start_id ledger with
          | None => Ok NoNode
          | Some start_node =>
              trace_result ← map_err EText (DagLedger.trace debug_node start_node ledger);
              if is_empty trace_result then Ok NoneRelated
              else
                nodes ← foldr (fun n found =>
                          node ← match DagLedger.find_by_id (DagNode.id n) ledger with
                                 | Some node => Ok node
                                 | None => Panic "called `Option::unwrap()` on a `None` value"
                                 end;
                          rest ← found; Ok (node :: rest))
                        (Ok []) (DagLedger.find_proposal_related_nodes proposal_id ledger);
                Ok (Trace (length (lines trace_result)) (rev nodes))
          end
      end
  end.

Record DiffShown : Type := {
  df_base : nat; df_other : N; df_common : nat; df_added : nat; df_removed : nat; df_exported : option (list string);
}.
(** The nodes of the other file are counted from the difference. *)
Definition handle_dag_diff_command (base_file other_file : option (list string)) (export : bool) :
    res BoxError DiffShown :=
  let base_ledger := DagLedger.load_from_file from_line base_file in
  let diff := DagLedger.diff_with_file from_line other_file base_ledger in
  let count {A} (l : list A) := N.of_nat (length l) in
  kept ← u64_sub overflow_checks (count (DagLedger.all_node_ids base_ledger)) (count (DagLedger.added diff));
  other ← u64_add overflow_checks kept (count (DagLedger.removed diff));
  Ok {| df_base := length (DagLedger.all_node_ids base_ledger); df_other := other;
        df_common := size (DagLedger.common diff); df_added := length (DagLedger.added diff);
        df_removed := length (DagLedger.removed diff);
        df_exported := if export then Some (DagLedger.export_diff_to_file to_line diff) else None |}.

Lemma filter_split {A} (P : A -> Prop) `{forall x, Decision (P x)} (l : list A) :
  length (filter P l) + length (filter (fun x => ~ P x) l) = length l.
Proof.
  induction l as [|x l IH]; [done|]. destruct (decide (P x)).
  - rewrite filter_cons_True, (filter_cons_False (fun x => ~ P x)) by tauto. cbn. lia.
  - rewrite filter_cons_False, (filter_cons_True (fun x => ~ P x)) by tauto. cbn. lia.
Qed.

(** The nodes of one ledger whose id is in another are no more than the other's. *)
Lemma shared_le (l k : DagLedger.t) :
  NoDup (DagLedger.all_node_ids l) ->
  length (filter (fun n => DagNode.id n ∈ DagLedger.id_set k) (DagLedger.nodes l)) <=
  length (filter (fun n => DagNode.id n ∈ DagLedger.id_set l) (DagLedger.nodes k)).
Proof.
  intros Hnd. rewrite <- (length_fmap DagNode.id (filter _ (DagLedger.nodes l))).
  rewrite <- (length_fmap DagNode.id (filter _ (DagLedger.nodes k))).
  apply submseteq_length, NoDup_submseteq.
  - eapply sublist_NoDup; [apply Hnd|]. apply fmap_sublist, sublist_filter.
  - intros i (n & -> & [Hk Hl]%list_elem_of_filter)%list_elem_of_fmap.
    unfold DagLedger.id_set, DagLedger.all_node_ids in Hk. apply elem_of_list_to_set, list_elem_of_fmap in Hk as (m & Hm & Hk).
    apply list_elem_of_fmap. exists m. split; [done|]. apply list_elem_of_filter. split; [|done].
    apply elem_of_list_to_set, list_elem_of_fmap. by exists n.
Qed.

Lemma split_by_other (l k : DagLedger.t) :
  length (filter (fun n => DagNode.id n ∈ DagLedger.id_set k) (DagLedger.nodes l)) +
  length (filter (fun n => DagNode.id n ∉ DagLedger.id_set k) (DagLedger.nodes l)) = length (DagLedger.nodes l).
Proof. apply (filter_split (fun n => DagNode.id n ∈ DagLedger.id_set k)). Qed.

Lemma size_common (l k : DagLedger.t) :
  NoDup (DagLedger.all_node_ids l) ->
  size (DagLedger.id_set l ∩ DagLedger.id_set k) =
  length (filter (fun n => DagNode.id n ∈ DagLedger.id_set k) (DagLedger.nodes l)).
Proof.
  intros Hnd. rewrite <- (length_fmap DagNode.id (filter _ _)).
  rewrite <- (size_list_to_set (C := gset string)).
  - f_equal. apply set_eq. intros i. unfold DagLedger.id_set at 1, DagLedger.all_node_ids.
    rewrite elem_of_intersection, !elem_of_list_to_set, !list_elem_of_fmap. split.
    + intros [(n & -> & Hn) Hk]. exists n. split; [done|]. by apply list_elem_of_filter.
    + intros (n & -> & [Hk Hn]%list_elem_of_filter). split; [by exists n|done].
  - eapply sublist_NoDup; [apply Hnd|]. apply fmap_sublist, sublist_filter.
Qed.

(** What [dag-diff] prints is the truth about two files without repeated
    ids: the count of the other file, reconstructed from the difference without
    ever going below zero, is its number of nodes, and the common nodes with
    the added (removed) ones are those of the base (of the other file). *)
Theorem diff_counts_are_right base_file other_file export :
  let base := DagLedger.load_from_file from_line base_file in
  let other := DagLedger.load_from_file from_line other_file in
  NoDup (DagLedger.all_node_ids base) -> NoDup (DagLedger.all_node_ids other) ->
  u64_ok (N.of_nat (length (DagLedger.nodes other))) ->
  exists d, handle_dag_diff_command base_file other_file export = Ok d /\
    df_base d = length (DagLedger.nodes base) /\ df_other d = N.of_nat (length (DagLedger.nodes other)) /\
    df_common d + df_added d = length (DagLedger.nodes base) /\
    df_common d + df_removed d = length (DagLedger.nodes other).
Proof.
  intros base other Hb Ho Hok. pose proof (shared_le base other Hb) as H1. pose proof (shared_le other base Ho) as H2.
  pose proof (split_by_other base other) as H3. pose proof (split_by_other other base) as H4.
  pose proof (size_common base other Hb) as H5. unfold u64_ok, u64_max in Hok.
  unfold handle_dag_diff_command, DagLedger.diff_with_file. fold base other. unfold DagLedger.diff_with, u64_sub, u64_add.
  assert (length (DagLedger.all_node_ids base) = length (DagLedger.nodes base)) as Hlen by apply length_fmap.
  cbn -[N.of_nat]. unfold mbind, res_bind.
  rewrite (proj2 (N.leb_le _ _)) by lia. rewrite (proj2 (N.leb_le _ _)) by (unfold u64_max; lia).
  eexists. split; [reflexivity|]. cbn -[N.of_nat]. lia.
Qed.

End LedgerViews.

End ProposalViews.

(** ** Every proposal command *)
Module ProposalDispatch.

Import ProposalCommands ProposalViews.

Section Dispatch.

Context {S : Type} `{SB : StorageBackend S} `{PL : Platform} `{RD : Renderings}.
Context `{CH : Chrono} `{UC : Unicode} `{PC : !ProposalCalls} `{CC : !CommentCodec}.
Context (from_line : string -> option DagNode.t) (to_line debug_node : DagNode.t -> string).

Abbreviation M := (stm (VM.t S) BoxError).

(** The subcommands: those that take the machine to change it, and those that
    only show or export.  Files are given by their lines, if they are there. *)
Inductive command : Type :=
  | Change (r : request)
  | ShowView (proposal_id : string)
  | ShowList (status_filter : option string)
  | ShowComments (proposal_id : string)
  | ShowTrace (proposal_id : string)
  | ShowSummary (proposal_id : string)
  | ShowStoredComments (proposal_id : string) (threaded : bool)
  | ShowExport (proposal_id : string)
  | ShowThread (proposal_id : string) (show_hidden : bool)
  | ShowHistory (comment_id proposal_id : string)
  | DagExportAll (path : string)
  | DagExportSelected (proposal_id ids_str : option string)
  | DagDiff (base_file other_file : option (list string)) (export : bool)
  | DagSummaryOf (file : option (option (list string))).

(** What is shown or exported is not kept. *)
Definition shows {A} (r : VM.t S -> res BoxError A) : M unit := box_unit (looking r).

Definition dispatch (fuel : nat) (now : nat -> DateTime) (clock : Z) (stamp : N) (auth_context : AuthContext.t)
    (c : command) : M unit :=
  match c with
  | Change r => handle from_line fuel now stamp auth_context r
  | ShowView proposal_id => shows (handle_view_command proposal_id)
  | ShowList status_filter => shows (list_command status_filter)
  | ShowComments proposal_id => shows (comments_command fuel proposal_id auth_context)
  | ShowTrace proposal_id => shows (handle_dag_trace_command debug_node proposal_id)
  | ShowSummary proposal_id => shows (handle_summary_command proposal_id)
  | ShowStoredComments proposal_id threaded =>
      shows (handle_view_comments_command fuel clock proposal_id threaded auth_context)
  | ShowExport proposal_id => shows (handle_export_command proposal_id auth_context)
  | ShowThread proposal_id show_hidden => shows (handle_thread_command fuel proposal_id show_hidden auth_context)
  | ShowHistory comment_id proposal_id => shows (handle_comment_history_command comment_id proposal_id (Some auth_context))
  | DagExportAll path => shows (dag_export_all_command to_line path)
  | DagExportSelected proposal_id ids_str => shows (dag_export_selected_of to_line proposal_id ids_str)
  | DagDiff base_file other_file export => shows (fun _ => handle_dag_diff_command from_line to_line base_file other_file export)
  | DagSummaryOf file => shows (dag_summary_command from_line file)
  end.

Definition handle_proposal_command (dag_path : option (string * option (list string))) (namespace : option string)
    (fuel : nat) (now : nat -> DateTime) (clock : Z) (stamp : N) (auth_context : AuthContext.t) (c : command) : M unit :=
  fun vm => dispatch fuel now clock stamp auth_context c (with_options from_line dag_path namespace vm).

Lemma shows_keeps {A} (r : VM.t S -> res BoxError A) vm : (shows r vm).1 = vm.
Proof. unfold shows, box_unit, looking, mbind, stm_bind. by destruct (r vm). Qed.

(** The ledger after a command: only an import adds to it. *)
Definition ledger_after (c : command) (d : option DagLedger.t) : option DagLedger.t :=
  match c with Change r => imported from_line r d | _ => d end.

(** C9. The proposal commands have next to no effect.  On a machine without a
    transaction of its own every command leaves the machine as the options of
    the command line make it (its ledger's file and its namespace), its storage
    included, but for [dag-import], which adds the nodes of the file to the
    ledger; and the requests to create, attach, edit, publish, vote and change
    state never succeed.  The commands write to a clone of a fork's storage and
    commit the transaction on the machine, which has none; comments go to a
    clone. *)
Theorem requests_have_no_effect dag_path namespace fuel now clock stamp auth_context c vm :
  VMExecution.transaction_active (VM.executor vm) = false ->
  let start := with_options from_line dag_path namespace vm in
  let outcome := handle_proposal_command dag_path namespace fuel now clock stamp auth_context c vm in
  outcome.1 = VM.with_dag (ledger_after c (VM.dag start)) start /\
  (match c with Change r => stores r | _ => false end = true -> is_ok outcome.2 = false).
Proof.
  intros Hi%(with_options_inactive from_line dag_path namespace). unfold handle_proposal_command.
  destruct c as [r| | | | | | | | | | | | |]; cbn [dispatch ledger_after];
    [by apply handle_effect|rewrite with_dag_same; split; [apply shows_keeps|done]..].
Qed.

End Dispatch.

End ProposalDispatch.

(** ** Concrete displays *)
Module ViewExamples.

Import ProposalViews.

#[local] Existing Instance Samples.platform.
#[local] Existing Instance Samples.renderings.
#[local] Existing Instance ClockSamples.seconds.
#[local] Existing Instance LifecycleExamples.ascii_case.
#[local] Existing Instance CommentExamples.sample_codec.
#[local] Existing Instance ProposalExamples.sample_proposal_calls.

(** A thread of two, and a reply to a comment that is not there. *)
Definition comment (id : string) (at_ : Z) (parent : option string) : ProposalComment.t :=
  ProposalComment.new id (at_ : @DateTime ClockSamples.seconds) "alice" "text" parent [].
Definition thread : gmap string ProposalComment.t :=
  {[ "a" := comment "a" 1 None; "b" := comment "b" 2 (Some "a"); "c" := comment "c" 3 (Some "x") ]}.

Lemma thread_keyed : keyed thread.
Proof.
  apply (map_Forall_to_list (fun i c => ProposalComment.id c = i)). vm_compute. repeat constructor.
Qed.

Lemma threads_shown_once_witness :
  print_threads 3 thread = Ok [(0, comment "a" 1 None); (1, comment "b" 2 (Some "a"))] /\
  exists rows, print_threads (size thread) thread = Ok rows /\ NoDup rows /\
    forall d c, (d, c) ∈ rows <-> at_depth thread d c.
Proof.
  split; [vm_compute; reflexivity|]. apply threads_shown_once; [|exact thread_keyed]. intros l. reflexivity.
Defined.

(** Alice answers herself; both comments bear the time of the display. *)
Definition stored (parent : option string) : StoredComment :=
  {| sc_author := "alice"; sc_timestamp := "now"; sc_content := "text"; sc_parent := parent |}.

Lemma same_second_reply_never_ends_witness :
  display_threaded_comments 100 7 [stored None; stored (Some "7_alice")] = OutOfFuel.
Proof.
  apply (same_second_reply_never_ends 100 7 _ (stored None) (stored (Some "7_alice")));
    [by left|right; by left|reflexivity..].
Defined.

(** A line is the id of a node. *)
Definition node_of (line : string) : option DagNode.t :=
  Some {| DagNode.id := line; DagNode.parent_ids := []; DagNode.timestamp := 0; DagNode.namespace := "default";
          DagNode.data := NodeData.ProposalCreated line "Title" |}.

Lemma diff_counts_are_right_witness :
  exists d, handle_dag_diff_command node_of DagNode.id (Some ["a"; "b"]) (Some ["b"; "c"; "d"]) true = Ok d /\
    df_base d = 2 /\ df_other d = 3%N /\ df_common d + df_added d = 2 /\ df_common d + df_removed d = 3.
Proof.
  apply (diff_counts_are_right node_of DagNode.id (Some ["a"; "b"]) (Some ["b"; "c"; "d"]) true).
  - vm_compute. repeat constructor; set_solver.
  - vm_compute. repeat constructor; set_solver.
  - vm_compute. discriminate.
Defined.

(** An abstention is recorded as 0.5, which rounds to a yes in the trace. *)
Lemma abstention_shown_as_yes : vote_label (ProposalCommands.vote_number "abstain") = "YES".
Proof. vm_compute. reflexivity. Qed.

(** A proposal is not created; of two nodes in a file, the one that is not in
    the ledger is imported. *)
Definition run (c : ProposalDispatch.command) :=
  ProposalDispatch.handle_proposal_command node_of DagNode.id DagNode.id (Some ("ledger", Some ["a"])) (Some "coop") 10
    (ProposalExamples.at_second 5) 5 5 InMemoryStorage.admin c ProposalExamples.machine.
Definition create : ProposalDispatch.command := ProposalDispatch.Change ProposalExamples.creation.
Definition import : ProposalDispatch.command :=
  ProposalDispatch.Change (ProposalCommands.DagImport "other" (Some ["a"; "b"])).
Definition start : VM.t InMemoryStorage.t :=
  ProposalCommands.with_options node_of (Some ("ledger", Some ["a"])) (Some "coop") ProposalExamples.machine.

Lemma requests_have_no_effect_witness :
  (run create).1 = start /\ is_ok (run create).2 = false /\
  VM.dag (run import).1 <> VM.dag start /\ VM.get_storage_backend (run import).1 = VM.get_storage_backend start.
Proof.
  destruct (ProposalDispatch.requests_have_no_effect node_of DagNode.id DagNode.id (Some ("ledger", Some ["a"]))
    (Some "coop") 10 (ProposalExamples.at_second 5) 5 5 InMemoryStorage.admin create ProposalExamples.machine eq_refl)
    as [H1 H2].
  destruct (ProposalDispatch.requests_have_no_effect node_of DagNode.id DagNode.id (Some ("ledger", Some ["a"]))
    (Some "coop") 10 (ProposalExamples.at_second 5) 5 5 InMemoryStorage.admin import ProposalExamples.machine eq_refl)
    as [H3 _].
  split; [exact H1|]. split; [exact (H2 eq_refl)|].
  unfold run. rewrite H3. split; [vm_compute; discriminate|reflexivity].
Defined.

End ViewExamples.
