(* ===== verification/FileSystem.v ===== *)
(** * The part of std::fs that the file backend uses

    A path is the list of its components below the root of the file system;
    [.] and [..] are resolved when a text is joined to it, so there are no
    symbolic links here.  A call fails for the reasons that lie in the paths: a
    missing file, a file where a directory is needed, a directory where a file
    is needed.  Rights of the process, full disks and other processes are not
    part of this model. *)
From S2P Require Import Prelude Float64 Text.

(** [std::io::ErrorKind], as far as the code tells kinds apart. *)
Inductive IoError : Type :=
  | NotFound | PermissionDenied | AlreadyExists | OutOfMemory | StorageFull | NotADirectory | IsADirectory | InvalidData | InvalidInput.

Module FileSystem.

Abbreviation path := (list string).

(** The newest entry of a file comes first. *)
Record t : Type := { files : list (path * bytes); dirs : list path }.

Definition empty : t := {| files := []; dirs := [] |}.

(** ** Paths *)

Definition is_plain (c : string) : bool := negb (existsb (String.eqb c) [""; "."; ".."]).
Definition descend (base : path) (c : string) : path :=
  if String.eqb c "" || String.eqb c "." then base
  else if String.eqb c ".." then removelast base
  else base ++ [c].
(** [PathBuf::join]: an absolute path replaces the base. *)
Definition join (base : path) (s : string) : path :=
  foldl descend (if starts_with_char "/" s then [] else base) (split_char "/" s).

Fixpoint path_eqb (p q : path) : bool :=
  match p, q with
  | [], [] => true
  | c :: p, d :: q => String.eqb c d && path_eqb p q
  | _, _ => false
  end.
Fixpoint is_prefix (p q : path) : bool :=
  match p, q with
  | [], _ => true
  | c :: p, d :: q => String.eqb c d && is_prefix p q
  | _ :: _, [] => false
  end.
Definition prefixes (p : path) : list path := (fun n => take n p) <$> seq 1 (length p).

(** ** Queries *)

Fixpoint lookup (p : path) (l : list (path * bytes)) : option bytes :=
  match l with
  | [] => None
  | (q, b) :: l => if path_eqb p q then Some b else lookup p l
  end.
Definition file (p : path) (s : t) : option bytes := lookup p (files s).
Definition is_dir (p : path) (s : t) : bool := match p with [] => true | _ => existsb (path_eqb p) (dirs s) end.
Definition is_file (p : path) (s : t) : bool := match file p s with Some _ => true | None => false end.
Definition exists_ (p : path) (s : t) : bool := is_dir p s || is_file p s.

(** Why there is nothing at [p]. *)
Definition missing (p : path) (s : t) : IoError :=
  if existsb (fun q => is_file q s) (prefixes (removelast p)) then NotADirectory else NotFound.

Definition read (p : path) (s : t) : res IoError bytes :=
  match file p s with
  | Some b => Ok b
  | None => if is_dir p s then Err IsADirectory else Err (missing p s)
  end.
Definition read_to_string (p : path) (s : t) : res IoError string :=
  b ← read p s; match from_utf8 b with Some text => Ok text | None => Err InvalidData end.

Definition child (p q : path) : option string :=
  if is_prefix p q then match drop (length p) q with [c] => Some c | _ => None end else None.
(** The names in a directory, in the order of [order]. *)
Definition read_dir (order : list string -> list string) (p : path) (s : t) : res IoError (list string) :=
  if is_dir p s then
    Ok (order (remove_dups (omap (child p) (dirs s ++ (files s).*1))))
  else if is_file p s then Err NotADirectory else Err (missing p s).

(** [Path::extension] of a file with this name: what follows the last dot,
    unless the name only starts with a dot. *)
Definition extension (name : string) : option string :=
  i ← rfind_char "." name;
  if (i =? 0)%nat then None else Some (drop_str (S i) name).

(** ** Changes *)

Definition put_file (p : path) (b : bytes) (s : t) : t := {| files := (p, b) :: files s; dirs := dirs s |}.
Definition make_dirs (p : path) (s : t) : t := {| files := files s; dirs := prefixes p ++ dirs s |}.

Definition create_dir_all (p : path) : stm t IoError unit := fun s =>
  if is_file p s then (s, Err AlreadyExists)
  else if existsb (fun q => is_file q s) (prefixes (removelast p)) then (s, Err NotADirectory)
  else if is_dir p s then (s, Ok tt)
  else (make_dirs p s, Ok tt).

(** Open for writing, creating or truncating, and write. *)
Definition write (p : path) (b : bytes) : stm t IoError unit := fun s =>
  if is_dir p s then (s, Err IsADirectory)
  else if is_dir (removelast p) s then (put_file p b s, Ok tt)
  else (s, Err (missing p s)).
Definition append (p : path) (b : bytes) : stm t IoError unit := fun s =>
  write p (default EmptyString (file p s) +:+ b) s.

Definition remove_dir_all (p : path) : stm t IoError unit := fun s =>
  if is_dir p s then
    ({| files := filter (fun f => is_prefix p f.1 = false) (files s);
        dirs := filter (fun q => is_prefix p q = false) (dirs s) |}, Ok tt)
  else (s, Err (if is_file p s then NotADirectory else missing p s)).

Definition remove_file (p : path) : stm t IoError unit := fun s =>
  if is_dir p s then (s, Err IsADirectory)
  else if is_file p s then ({| files := filter (fun f => path_eqb p f.1 = false) (files s); dirs := dirs s |}, Ok tt)
  else (s, Err (missing p s)).

(** [fs::copy] opens the target, and so empties it, before it reads: a file
    copied onto itself is lost. *)
Definition copy (src dst : path) : stm t IoError unit := fun s =>
  match file src s with
  | Some b => write dst (if path_eqb src dst then EmptyString else b) s
  | None => (s, Err (if is_dir src s then InvalidInput else missing src s))
  end.

(** ** Lemmas *)

Lemma split_char_nonempty c s : split_char c s <> [].
Proof. induction s as [|a s IH]; cbn; [done|]. destruct (split_char c s); [done|]. by destruct (Ascii.eqb a c). Qed.

Lemma split_char_whole c s : count_char c s = 0 -> split_char c s = [s].
Proof.
  induction s as [|a s IH]; [done|]. cbn. destruct (Ascii.eqb a c); [done|]. intros H. by rewrite (IH H).
Qed.

Lemma split_char_joined c a b : split_char c (a +:+ String c b) = split_char c a ++ split_char c b.
Proof.
  induction a as [|x a IH].
  - change (EmptyString +:+ ?s) with s. cbn. rewrite Ascii.eqb_refl.
    destruct (split_char c b) eqn:E; [by apply split_char_nonempty in E|done].
  - rewrite str_app_cons. cbn. rewrite IH. destruct (split_char c a) eqn:E; [by apply split_char_nonempty in E|].
    cbn. by destruct (Ascii.eqb x c).
Qed.

Lemma digits_no_slash s : all_digits s = true -> count_char "/" s = 0.
Proof.
  induction s as [|a s IH]; [done|]. cbn [all_digits count_char]. intros [Ha Hs]%andb_prop. rewrite (IH Hs).
  destruct (Ascii.eqb_spec a "/") as [->|]; [done|done].
Qed.

(** A name without separators is one more component. *)
Lemma join_name base c : count_char "/" c = 0 -> is_plain c = true -> join base c = base ++ [c].
Proof.
  intros Hc Hp. unfold join. rewrite split_char_whole by done.
  assert (starts_with_char "/" c = false) as ->.
  { destruct c as [|a c]; [done|]. cbn in *. by destruct (Ascii.eqb a "/"). }
  unfold is_plain in Hp. apply negb_true_iff in Hp. cbn in *. unfold descend.
  destruct (String.eqb c ""), (String.eqb c "."), (String.eqb c ".."); done.
Qed.

Lemma descend_plain base cs : forallb is_plain cs = true -> foldl descend base cs = base ++ cs.
Proof.
  revert base. induction cs as [|c cs IH]; intros base; [by rewrite app_nil_r|]. cbn. intros [Hc Hcs]%andb_prop.
  rewrite IH by done. unfold is_plain in Hc. apply negb_true_iff in Hc. cbn in Hc. unfold descend.
  destruct (String.eqb c ""), (String.eqb c "."), (String.eqb c ".."); try done. cbn. by rewrite <- app_assoc.
Qed.

(** A path below another one. *)
Lemma join_below base k x : k <> EmptyString -> forallb is_plain (split_char "/" x) = true ->
  join base (k +:+ "/" +:+ x) = join base k ++ split_char "/" x.
Proof.
  intros Hk Hx. unfold join. change (k +:+ "/" +:+ x) with (k +:+ String "/" x). rewrite split_char_joined, foldl_app.
  rewrite descend_plain by done. destruct k as [|a k]; [done|]. rewrite str_app_cons. reflexivity.
Qed.

Lemma path_eqb_eq p q : path_eqb p q = true <-> p = q.
Proof.
  revert q. induction p as [|c p IH]; intros [|d q]; cbn; try done.
  rewrite andb_true_iff, String.eqb_eq, IH. split; [by intros [-> ->]|by intros [= -> ->]].
Qed.
Lemma path_eqb_refl p : path_eqb p p = true.
Proof. by apply path_eqb_eq. Qed.

Lemma is_prefix_spec p q : is_prefix p q = true <-> p `prefix_of` q.
Proof.
  revert q. induction p as [|c p IH]; intros [|d q]; cbn.
  - split; [intros; apply prefix_nil|done].
  - split; [intros; apply prefix_nil|done].
  - split; [done|intros H; by apply prefix_nil_inv in H].
  - rewrite andb_true_iff, String.eqb_eq, IH. split; [intros [-> H]; by apply prefix_cons|].
    intros H. split; [by eapply prefix_cons_inv_1|by eapply prefix_cons_inv_2].
Qed.

Lemma file_put p q b s : file q (put_file p b s) = if path_eqb q p then Some b else file q s.
Proof. done. Qed.
Lemma file_put_eq p b s : file p (put_file p b s) = Some b.
Proof. by rewrite file_put, path_eqb_refl. Qed.
Lemma file_put_ne p q b s : q <> p -> file q (put_file p b s) = file q s.
Proof. rewrite file_put. destruct (path_eqb q p) eqn:E; [by apply path_eqb_eq in E|done]. Qed.

Lemma is_dir_elem p s : is_dir p s = true <-> p = [] \/ p ∈ dirs s.
Proof.
  unfold is_dir. destruct p as [|c p]; [tauto|]. rewrite existsb_exists. split.
  - intros (q & Hq & <-%path_eqb_eq). right. by apply list_elem_of_In.
  - intros [?|H]; [done|]. exists (c :: p). split; [by apply list_elem_of_In|apply path_eqb_refl].
Qed.

Lemma write_ok p b s s' : write p b s = (s', Ok tt) ->
  s' = put_file p b s /\ is_dir p s = false /\ is_dir (removelast p) s = true.
Proof. unfold write. destruct (is_dir p s), (is_dir (removelast p) s); try done. by intros [= <-]. Qed.

(** More files and directories. *)
Definition grown (s s' : t) : Prop :=
  (forall p, is_dir p s = true -> is_dir p s' = true) /\ (forall p, is_file p s = true -> is_file p s' = true).

#[global] Instance grown_preorder : PreOrder grown.
Proof. split; [by split|]. intros a b c [H1 H2] [H3 H4]. split; auto. Qed.

Lemma grown_put p b s : grown s (put_file p b s).
Proof.
  split; [by intros [|]|]. intros q. unfold is_file. rewrite file_put. by destruct (path_eqb q p).
Qed.
Lemma grown_make p s : grown s (make_dirs p s).
Proof.
  split; [|done]. intros q. rewrite !is_dir_elem. intros [->|H]; [by left|right]. cbn. apply elem_of_app. by right.
Qed.

Lemma create_dir_all_ok p s s' : create_dir_all p s = (s', Ok tt) ->
  grown s s' /\ files s' = files s /\ is_dir p s' = true /\
  forall q, exists_ q s' = true -> exists_ q s = true \/ q `prefix_of` p.
Proof.
  unfold create_dir_all. destruct (is_file p s); [done|]. destruct (existsb _ _); [done|].
  destruct (is_dir p s) eqn:Ed; intros [= <-]; [by repeat split; auto|].
  split; [apply grown_make|]. split; [done|]. split.
  - apply is_dir_elem. destruct p as [|c p]; [by left|right]. cbn [make_dirs dirs]. apply elem_of_app. left.
    apply list_elem_of_fmap. exists (length (c :: p)). split; [by rewrite take_ge by done|]. apply elem_of_seq. cbn. lia.
  - intros q. unfold exists_. rewrite !orb_true_iff, !is_dir_elem. cbn [make_dirs dirs]. rewrite elem_of_app.
    intros [[->|[Hq|Hq]]|Hq]; [auto| |auto|auto]. right. apply list_elem_of_fmap in Hq as (n & -> & _). apply prefix_take.
Qed.

Lemma exists_file p s b : file p s = Some b -> exists_ p s = true.
Proof. intros H. unfold exists_, is_file. rewrite H. apply orb_true_r. Qed.

Lemma exists_grown p s s' : grown s s' -> exists_ p s = true -> exists_ p s' = true.
Proof. intros [Hd Hf]. unfold exists_. rewrite !orb_true_iff. intros [H|H]; auto. Qed.

Lemma lookup_kept f l p b : lookup p (filter (fun g => is_prefix f g.1 = false) l) = Some b -> is_prefix f p = false.
Proof.
  induction l as [|[q c] l IH]; [done|]. destruct (is_prefix f q) eqn:E.
  - rewrite filter_cons_False by (cbn; congruence). exact IH.
  - rewrite filter_cons_True by done. cbn. destruct (path_eqb p q) eqn:Ep; [|exact IH]. by apply path_eqb_eq in Ep as ->.
Qed.

(** Nothing is left at or below a removed directory. *)
Lemma removed_gone p q s s' : remove_dir_all p s = (s', Ok tt) -> p <> [] -> p `prefix_of` q -> exists_ q s' = false.
Proof.
  unfold remove_dir_all. destruct (is_dir p s); [|done]. intros [= <-] Hp Hq. pose proof Hq as Hpq.
  apply is_prefix_spec in Hpq. apply not_true_iff_false. unfold exists_. rewrite orb_true_iff, is_dir_elem. cbn [dirs].
  rewrite list_elem_of_filter. intros [[->|[H _]]|H]; [by apply prefix_nil_inv in Hq|congruence|].
  unfold is_file, file in H. cbn [files] in H. destruct (lookup q _) as [b|] eqn:E; [|done].
  apply lookup_kept in E. congruence.
Qed.

Lemma exists_put p q b s : q <> p -> exists_ q (put_file p b s) = exists_ q s.
Proof. intros H. unfold exists_, is_file. rewrite file_put_ne by done. by destruct q. Qed.

(** A removed file is gone, and nothing else is. *)
Lemma lookup_filter_ne p q l :
  lookup q (filter (fun f => path_eqb p f.1 = false) l) = if path_eqb q p then None else lookup q l.
Proof.
  induction l as [|[r c] l IH]; [by destruct (path_eqb q p)|]. destruct (path_eqb p r) eqn:E.
  - rewrite filter_cons_False by (cbn; congruence). rewrite IH. apply path_eqb_eq in E as <-. cbn.
    by destruct (path_eqb q p) eqn:F.
  - rewrite filter_cons_True by done. cbn. rewrite IH. destruct (path_eqb q r) eqn:F; [|done].
    apply path_eqb_eq in F as ->. destruct (path_eqb r p) eqn:G; [|done]. apply path_eqb_eq in G as ->.
    by rewrite path_eqb_refl in E.
Qed.

Lemma remove_file_ok p s s' : remove_file p s = (s', Ok tt) ->
  is_dir p s = false /\ dirs s' = dirs s /\ forall q, file q s' = if path_eqb q p then None else file q s.
Proof.
  unfold remove_file. destruct (is_dir p s); [done|]. destruct (is_file p s); [|done]. intros [= <-].
  split; [done|]. split; [done|]. intros q. apply lookup_filter_ne.
Qed.

Lemma copy_ok src dst s s' : copy src dst s = (s', Ok tt) ->
  exists b, file src s = Some b /\ s' = put_file dst (if path_eqb src dst then EmptyString else b) s /\ is_dir dst s = false.
Proof. unfold copy. destruct (file src s) as [b|]; [|done]. intros (-> & ? & _)%write_ok. eauto. Qed.

Lemma read_to_string_ends p s : read_to_string p s <> OutOfFuel.
Proof.
  unfold read_to_string, read. destruct (file p s) as [b|]; cbn; [by destruct (from_utf8 b)|]. by destruct (is_dir p s).
Qed.

End FileSystem.
