(* ===== verification/FileStorage.v ===== *)
(** * Storage on files: storage/implementations/file_storage.rs

    The backend keeps versions of a key as files below a directory named after
    the key, their list in a metadata file, and writes every access to a log.
    Reads go through [&self] and still write the log, so every operation here
    changes the disk.  [now] is the reading of the clock during a call.  The
    versions of a key nest, and JSON that nests too deep is not read. *)
From S2P Require Import Prelude Float64 Text Ops Auth Storage InMemory Executor FileSystem.

Module FileStorage.

Record Account : Type := {
  user_id : string; account_quota : N; account_used : N; created_at : N; last_updated : N;
}.
Record KeyMetadata : Type := {
  km_key : string; km_created_by : string; km_created_at : N; km_versions : list VersionInfo.t;
}.
Record AuditLogEntry : Type := {
  al_timestamp : N; al_user_id : string; al_action : string; al_namespace : string; al_key : option string;
  al_details : string;
}.
Inductive TransactionOp : Type :=
  | Set_ (namespace key : string) (previous_data : option bytes) (prev_version : option VersionInfo.t)
  | Delete_ (namespace key : string) (previous_data : bytes) (previous_version : N)
  | CreateNamespace (namespace : string)
  | DeleteNamespace (namespace : string) (metadata : NamespaceMetadata).

(** serde_json, the texts of I/O errors, of paths and of [Option<&str>] under [{:?}], the
    day of a time as [%Y%m%d], and the order of [read_dir]. *)
Class FileCalls : Type := {
  metadata_to_string : KeyMetadata -> res string string;
  metadata_from_str : string -> res string KeyMetadata;
  namespace_to_string : NamespaceMetadata -> res string string;
  namespace_from_str : string -> res string NamespaceMetadata;
  account_to_string : Account -> res string string;
  account_from_str : string -> res string Account;
  entry_to_string : AuditLogEntry -> res string string;
  event_from_str : string -> option StorageEvent;
  io_display : IoError -> string;
  display_path : FileSystem.path -> string;
  debug_option_str : option string -> string;
  day_of : N -> option string;
  dir_order : list string -> list string;
}.

(** How deep the JSON of a key's metadata is: an object with an array of
    versions, each an object that holds the version before it, and so on. *)
Fixpoint nesting (v : VersionInfo.t) : nat :=
  match v with
  | VersionInfo.Mk _ _ _ (Some p) => S (nesting p)
  | VersionInfo.Mk _ _ _ None => 1
  end.
Definition json_depth (m : KeyMetadata) : nat := 2 + foldr Nat.max 0 (nesting <$> km_versions m).
(** serde_json writes any depth, and refuses to read this one. *)
Definition recursion_limit : nat := 128.

(** Metadata that is written is read back below the recursion limit and refused
    from there on, and is text; log entries can be written; the text of a day
    is no path; readers end. *)
Class FileCallsLaws `{!FileCalls} : Prop := {
  metadata_read_back : forall m text, json_depth m < recursion_limit ->
    metadata_to_string m = Ok text -> metadata_from_str text = Ok m;
  metadata_too_deep : forall m text, recursion_limit <= json_depth m ->
    metadata_to_string m = Ok text -> exists e, metadata_from_str text = Err e;
  metadata_is_text : forall m text, metadata_to_string m = Ok text -> from_utf8 text = Some text;
  entry_is_written : forall e, exists text, entry_to_string e = Ok text;
  day_is_name : forall n day, day_of n = Some day -> count_char "/" day = 0;
  namespace_reads : forall text, namespace_from_str text <> OutOfFuel;
  account_reads : forall text, account_from_str text <> OutOfFuel;
}.

Record t : Type := {
  root_path : FileSystem.path;
  fs : FileSystem.t;
  transactions : list (list TransactionOp);
  namespace_cache : gmap string NamespaceMetadata;
  account_cache : gmap string Account;
}.

Definition with_fs (d : FileSystem.t) (s : t) : t :=
  {| root_path := root_path s; fs := d; transactions := transactions s; namespace_cache := namespace_cache s;
     account_cache := account_cache s |}.
Definition with_transactions (l : list (list TransactionOp)) (s : t) : t :=
  {| root_path := root_path s; fs := fs s; transactions := l; namespace_cache := namespace_cache s;
     account_cache := account_cache s |}.
Definition with_namespaces (m : gmap string NamespaceMetadata) (s : t) : t :=
  {| root_path := root_path s; fs := fs s; transactions := transactions s; namespace_cache := m;
     account_cache := account_cache s |}.
Definition with_accounts (m : gmap string Account) (s : t) : t :=
  {| root_path := root_path s; fs := fs s; transactions := transactions s; namespace_cache := namespace_cache s;
     account_cache := m |}.

Section Storage.

Context `{PL : Platform} `{FC : !FileCalls}.

Abbreviation M := (stm t StorageError.t).

(** ** Paths *)

Definition namespaces_dir (s : t) : FileSystem.path := FileSystem.join (root_path s) "namespaces".
Definition accounts_dir (s : t) : FileSystem.path := FileSystem.join (root_path s) "accounts".
Definition audit_dir (s : t) : FileSystem.path := FileSystem.join (root_path s) "audit_logs".
Definition namespace_path (namespace : string) (s : t) : FileSystem.path :=
  FileSystem.join (namespaces_dir s) namespace.
Definition keys_dir (namespace : string) (s : t) : FileSystem.path :=
  FileSystem.join (namespace_path namespace s) "keys".
Definition key_dir_path (namespace key : string) (s : t) : FileSystem.path :=
  FileSystem.join (keys_dir namespace s) key.
Definition version_path (namespace key : string) (version : N) (s : t) : FileSystem.path :=
  FileSystem.join (key_dir_path namespace key s) ("v" +:+ u64_to_string version +:+ ".data").
Definition metadata_path (namespace key : string) (s : t) : FileSystem.path :=
  FileSystem.join (key_dir_path namespace key s) "metadata.json".
Definition namespace_metadata_path (namespace : string) (s : t) : FileSystem.path :=
  FileSystem.join (namespace_path namespace s) "namespace_metadata.json".
Definition account_path (user : string) (s : t) : FileSystem.path :=
  FileSystem.join (accounts_dir s) (user +:+ ".json").

(** ** The disk *)

Definition disk {A} (f : IoError -> StorageError.t) (m : stm FileSystem.t IoError A) : M A := fun s =>
  let '(d, r) := m (fs s) in (with_fs d s, map_err f r).
(** A call on the path that the storage computes. *)
Definition disk_at {A} (f : IoError -> StorageError.t) (p : t -> FileSystem.path)
    (m : FileSystem.path -> stm FileSystem.t IoError A) : M A := fun s => disk f (m (p s)) s.
Definition reading {A} (r : t -> res StorageError.t A) : M A := fun s => (s, r s).
Definition from_io (e : IoError) : StorageError.t := StorageError.IoError "unknown" (io_display e).
Definition map_io_error (namespace : string) (key : option string) (operation : string) (e : IoError) :
    StorageError.t :=
  match e with
  | NotFound =>
      match key with
      | Some k =>
          StorageError.NotFound (namespace +:+ ":" +:+ k +:+ " (IO error: file not found during " +:+ operation +:+ ")")
      | None => StorageError.NotFound ("Namespace '" +:+ namespace +:+ "' not found during " +:+ operation)
      end
  | PermissionDenied =>
      StorageError.PermissionDenied "system" operation
        (match key with Some k => namespace +:+ ":" +:+ k | None => namespace end)
  | AlreadyExists =>
      StorageError.SerializationError "VersionData"
        ("Resource already exists: " +:+ namespace +:+ ":" +:+ default EmptyString key +:+ " (during " +:+ operation +:+ ")")
  | OutOfMemory | StorageFull => StorageError.QuotaExceeded "Storage space" 0 0
  | NotADirectory | IsADirectory | InvalidData | InvalidInput =>
      StorageError.IoError operation
        ("IO error: " +:+ io_display e +:+ " (namespace: " +:+ namespace +:+ ", key: " +:+ debug_option_str key +:+ ")")
  end.
Definition ser (data_type : string) {A} (r : res string A) : res StorageError.t A :=
  map_err (StorageError.SerializationError data_type) r.

Definition read_key_metadata (namespace key : string) (s : t) : res StorageError.t KeyMetadata :=
  let path := metadata_path namespace key s in
  if negb (FileSystem.exists_ path (fs s)) then Err (StorageError.NotFound (namespace +:+ ":" +:+ key))
  else
    metadata_str ← map_err (map_io_error namespace (Some key) "reading metadata file")
                     (FileSystem.read_to_string path (fs s));
    ser "KeyMetadata" (metadata_from_str metadata_str).
Definition write_key_metadata (namespace key : string) (metadata : KeyMetadata) : M unit :=
  _ ← disk_at (map_io_error namespace (Some key) "creating directory for metadata")
        (fun s => removelast (metadata_path namespace key s)) FileSystem.create_dir_all;
  metadata_str ← lift (ser "KeyMetadata" (metadata_to_string metadata));
  disk_at (map_io_error namespace (Some key) "opening metadata file for writing") (metadata_path namespace key)
    (fun p => FileSystem.write p metadata_str).

Definition read_version_data (namespace key : string) (version : N) (s : t) : res StorageError.t bytes :=
  let path := version_path namespace key version s in
  if negb (FileSystem.exists_ path (fs s)) then
    Err (StorageError.NotFound (namespace +:+ ":" +:+ key +:+ " (version " +:+ u64_to_string version +:+ ")"))
  else
    map_err (map_io_error namespace (Some key) ("reading version " +:+ u64_to_string version +:+ " data"))
      (FileSystem.read path (fs s)).
Definition write_version_data (namespace key : string) (version : N) (data : bytes) : M unit :=
  _ ← disk_at (map_io_error namespace (Some key) ("creating directory for version " +:+ u64_to_string version))
        (fun s => removelast (version_path namespace key version s)) FileSystem.create_dir_all;
  disk_at (map_io_error namespace (Some key) ("opening version " +:+ u64_to_string version +:+ " file for writing"))
    (version_path namespace key version) (fun p => FileSystem.write p data).

Definition write_namespace_metadata (metadata : NamespaceMetadata) : M unit :=
  let namespace := Storage.path metadata in
  _ ← disk_at (map_io_error namespace None "creating namespace directory")
        (fun s => removelast (namespace_metadata_path namespace s)) FileSystem.create_dir_all;
  metadata_str ← lift (ser "NamespaceMetadata" (namespace_to_string metadata));
  disk_at (map_io_error namespace None "opening namespace metadata file for writing")
    (namespace_metadata_path namespace) (fun p => FileSystem.write p metadata_str).

(** ** The log *)

Definition log_path (date : string) (s : t) : FileSystem.path :=
  FileSystem.join (audit_dir s) ("log_" +:+ date +:+ ".jsonl").
Definition line_feed : string := String newline EmptyString.

Definition record_audit_log (now : N) (auth : AuthContext.t) (action namespace : string) (key : option string)
    (message : string) : M unit :=
  date ← lift (match day_of now with
               | Some date => Ok date
               | None => Err (StorageError.TransactionError "Invalid timestamp")
               end);
  log_str ← lift (ser "AuditLogEntry" (entry_to_string
              {| al_timestamp := now; al_user_id := AuthContext.user_id_cloneable auth; al_action := action;
                 al_namespace := namespace; al_key := key; al_details := message |}));
  there ← reading (fun s => Ok (FileSystem.exists_ (audit_dir s) (fs s)));
  _ ← (if (there : bool) then mret tt
       else disk_at (map_io_error namespace key "creating audit log directory") audit_dir FileSystem.create_dir_all);
  disk_at (map_io_error namespace key "opening audit log file") (log_path date)
    (fun p => FileSystem.append p (log_str +:+ line_feed)).
(** [auth.as_ref().unwrap_or_else(|| panic!(..))]. *)
Definition audit (now : N) (auth : option AuthContext.t) (action namespace : string) (key : option string)
    (message : string) : M unit :=
  match auth with
  | Some auth => record_audit_log now auth action namespace key message
  | None => lift (Panic "Auth required for audit log")
  end.

Definition namespace_exists (namespace : string) (s : t) : bool :=
  bool_decide (is_Some (namespace_cache s !! namespace)) ||
  FileSystem.exists_ (namespace_path namespace s) (fs s).
Definition require_namespace (e : StorageError.t) (namespace : string) : M unit :=
  reading (fun s => if namespace_exists namespace s then Ok tt else Err e).
Definition no_namespace (namespace : string) : StorageError.t :=
  StorageError.NotFound ("Namespace not found: " +:+ namespace).

Definition record_for_rollback (op : TransactionOp) : M unit :=
  modify (fun s => match transactions s with
                   | [] => s
                   | tx :: l => with_transactions ((tx ++ [op]) :: l) s
                   end).

(** ** Permissions *)

Definition check_permission_internal (auth : AuthContext.t) (action namespace : string) : res StorageError.t unit :=
  if AuthContext.has_role "global" "admin" auth then Ok tt
  else if AuthContext.has_role namespace "admin" auth then Ok tt
  else
    let user := AuthContext.user_id_cloneable auth in
    let check required_role :=
      if existsb (fun role => AuthContext.has_role namespace role auth) required_role then Ok tt
      else Err (StorageError.PermissionDenied user action namespace) in
    if String.eqb action "read" then check ["reader"; "writer"]
    else if String.eqb action "write" then check ["writer"]
    else Err (StorageError.PermissionDenied user ("unknown action: " +:+ action) namespace).
Definition check_permission (auth : option AuthContext.t) (action namespace : string) : res StorageError.t unit :=
  match auth with
  | Some auth => check_permission_internal auth action namespace
  | None => Err (StorageError.PermissionDenied "anonymous" action namespace)
  end.

(** ** Reading *)

Definition latest_of (missing_ : string) (metadata : KeyMetadata) : res StorageError.t VersionInfo.t :=
  match last (km_versions metadata) with Some v => Ok v | None => Err (StorageError.NotFound missing_) end.
Definition qualified (namespace key : string) : string := namespace +:+ ":" +:+ key.
Definition version_text (version : N) : string := "Read version " +:+ u64_to_string version.

Definition get (now : N) (auth : option AuthContext.t) (namespace key : string) : M bytes :=
  _ ← lift (check_permission auth "read" namespace);
  _ ← require_namespace (no_namespace namespace) namespace;
  metadata ← reading (read_key_metadata namespace key);
  latest_version ← lift (latest_of (qualified namespace key +:+ " (no versions)") metadata);
  data ← reading (read_version_data namespace key (VersionInfo.version latest_version));
  _ ← audit now auth "read" namespace (Some key) (version_text (VersionInfo.version latest_version));
  mret data.

Definition get_version (now : N) (auth : option AuthContext.t) (namespace key : string) (version : N) :
    M (bytes * VersionInfo.t) :=
  _ ← lift (check_permission auth "read" namespace);
  _ ← require_namespace (no_namespace namespace) namespace;
  metadata ← reading (read_key_metadata namespace key);
  version_info ← lift (match head (filter (fun v => VersionInfo.version v = version) (km_versions metadata)) with
                       | Some v => Ok v
                       | None => Err (StorageError.NotFound
                                        (qualified namespace key +:+ " (version " +:+ u64_to_string version +:+ ")"))
                       end);
  data ← reading (read_version_data namespace key version);
  _ ← audit now auth "read_version" namespace (Some key) (version_text version);
  mret (data, version_info).

Definition list_versions (now : N) (auth : option AuthContext.t) (namespace key : string) : M (list VersionInfo.t) :=
  _ ← lift (check_permission auth "read" namespace);
  _ ← require_namespace (no_namespace namespace) namespace;
  metadata ← reading (read_key_metadata namespace key);
  _ ← audit now auth "list_versions" namespace (Some key) "Listed versions for key";
  mret (km_versions metadata).

Definition user_of (auth : option AuthContext.t) : string :=
  match auth with Some a => AuthContext.user_id_cloneable a | None => "system" end.

Definition diff_versions (now : N) (auth : option AuthContext.t) (namespace key : string) (v1 v2 : N) :
    M (VersionDiff bytes) :=
  _ ← lift (check_permission auth "read" namespace);
  '(data1, _) ← get_version now auth namespace key v1;
  '(data2, _) ← get_version now auth namespace key v2;
  _ ← audit now auth "diff_versions" namespace (Some key)
        ("Diffed versions " +:+ u64_to_string v1 +:+ " and " +:+ u64_to_string v2);
  mret {| old_version := v1; new_version := v2; diff_created_by := user_of auth; diff_timestamp := now;
          changes := if String.eqb data1 data2 then [] else [ValueChanged _ "data" data1 data2] |}.

Definition get_versioned (now : N) (auth : option AuthContext.t) (namespace key : string) :
    M (bytes * VersionInfo.t) :=
  _ ← lift (check_permission auth "read" namespace);
  _ ← require_namespace (StorageError.NotFound (qualified namespace key)) namespace;
  metadata ← reading (read_key_metadata namespace key);
  latest_version ← lift (latest_of (qualified namespace key) metadata);
  data ← reading (read_version_data namespace key (VersionInfo.version latest_version));
  _ ← match auth with
      | Some auth_ref =>
          record_audit_log now auth_ref "read" namespace (Some key)
            ("Read versioned data (v" +:+ u64_to_string (VersionInfo.version latest_version) +:+ ")")
      | None => mret tt
      end;
  mret (data, latest_version).

Definition contains (auth : option AuthContext.t) (namespace key : string) (s : t) : res StorageError.t bool :=
  _ ← check_permission auth "read" namespace;
  Ok (namespace_exists namespace s && FileSystem.exists_ (metadata_path namespace key s) (fs s)).

(** Only the directories right below [keys] are looked at. *)
Definition list_keys (now : N) (auth : option AuthContext.t) (namespace : string) (prefix : option string) :
    M (list string) :=
  _ ← lift (check_permission auth "read" namespace);
  _ ← require_namespace (no_namespace namespace) namespace;
  there ← reading (fun s => Ok (FileSystem.exists_ (keys_dir namespace s) (fs s)));
  if negb there then mret []
  else
    names ← reading (fun s => map_err from_io (FileSystem.read_dir dir_order (keys_dir namespace s) (fs s)));
    keys ← reading (fun s => Ok (filter (fun name =>
             FileSystem.is_dir (keys_dir namespace s ++ [name]) (fs s) &&
             match prefix with Some p => str_starts_with p name | None => true end = true) names));
    _ ← audit now auth "list_keys" namespace None ("Listed keys with prefix " +:+ debug_option_str prefix);
    mret keys.

(** ** Writing *)

(** [match m { Ok(a) => Some(a), Err(_) => None }]. *)
Definition attempt {A} (m : M A) : M (option A) := fun s =>
  let '(s', r) := m s in
  (s', match r with
       | Ok a => Ok (Some a)
       | Err _ => Ok None
       | Panic msg => Panic msg
       | OutOfFuel => OutOfFuel
       end).

Definition charge (user : string) (additional_bytes : N) : M unit := fun s =>
  match account_cache s !! user with
  | None => (s, Ok tt)
  | Some account =>
      (used ← lift (u64_add overflow_checks (account_used account) additional_bytes);
       if (account_quota account <? used)%N then
         throw (StorageError.QuotaExceeded ("Storage for user '" +:+ user +:+ "'") used (account_quota account))
       else
         let account := {| user_id := user_id account; account_quota := account_quota account; account_used := used;
                           created_at := created_at account; last_updated := last_updated account |} in
         _ ← modify (fun s => with_accounts (<[user := account]> (account_cache s)) s);
         account_str ← lift (ser "FileResourceAccount" (account_to_string account));
         disk_at from_io (account_path user) (fun p => FileSystem.write p account_str)) s
  end.

Definition first_version (now : N) (user : string) : VersionInfo.t := VersionInfo.Mk 1 user now None.
Definition push_version (v : VersionInfo.t) (m : KeyMetadata) : KeyMetadata :=
  {| km_key := km_key m; km_created_by := km_created_by m; km_created_at := km_created_at m;
     km_versions := km_versions m ++ [v] |}.

Definition bump_version (now : N) (user namespace key : string) (key_metadata_exists : bool) : M VersionInfo.t :=
  if key_metadata_exists then
    metadata ← reading (read_key_metadata namespace key);
    let latest := last (km_versions metadata) in
    new_version ← lift (u64_add overflow_checks (match latest with Some v => VersionInfo.version v | None => 0%N end) 1);
    let version_info := VersionInfo.Mk new_version user now latest in
    _ ← write_key_metadata namespace key (push_version version_info metadata);
    mret version_info
  else
    let version_info := first_version now user in
    _ ← write_key_metadata namespace key
          {| km_key := key; km_created_by := user; km_created_at := now; km_versions := [version_info] |};
    mret version_info.

Definition set (now : N) (auth : option AuthContext.t) (namespace key : string) (value : bytes) : M unit :=
  _ ← lift (check_permission auth "write" namespace);
  _ ← require_namespace (StorageError.NotFound (qualified namespace key)) namespace;
  _ ← disk_at from_io (key_dir_path namespace key) FileSystem.create_dir_all;
  key_metadata_exists ← reading (fun s => Ok (FileSystem.exists_ (metadata_path namespace key s) (fs s)));
  existing_data ← (if (key_metadata_exists : bool) then attempt (get now auth namespace key) else mret None);
  let existing_size := InMemoryStorage.size_of existing_data in
  let value_size := str_len value in
  _ ← (if (existing_size <? value_size)%N then charge (user_of auth) (value_size - existing_size) else mret tt);
  current_version_info ← (if key_metadata_exists then
                            metadata ← reading (read_key_metadata namespace key); mret (last (km_versions metadata))
                          else mret None);
  _ ← record_for_rollback (Set_ namespace key existing_data current_version_info);
  version_info ← bump_version now (user_of auth) namespace key key_metadata_exists;
  _ ← write_version_data namespace key (VersionInfo.version version_info) value;
  audit now auth "write" namespace (Some key)
    ("Set v" +:+ u64_to_string (VersionInfo.version version_info) +:+ " (" +:+ u64_to_string value_size +:+ " bytes)").

Definition delete (now : N) (auth : option AuthContext.t) (namespace key : string) : M unit :=
  _ ← lift (check_permission auth "write" namespace);
  _ ← require_namespace (no_namespace namespace) namespace;
  metadata ← reading (read_key_metadata namespace key);
  latest_version ← lift (latest_of (qualified namespace key +:+ " (no versions)") metadata);
  let version := VersionInfo.version latest_version in
  previous_data ← reading (read_version_data namespace key version);
  _ ← record_for_rollback (Delete_ namespace key previous_data version);
  _ ← disk_at (map_io_error namespace (Some key) "deleting key directory") (key_dir_path namespace key)
        FileSystem.remove_dir_all;
  audit now auth "delete" namespace (Some key) ("Deleted version " +:+ u64_to_string version).

(** ** Transactions: the innermost is the head of the list *)

Definition begin_transaction : M unit := modify (fun s => with_transactions ([] :: transactions s) s).
Definition pop_transaction (verb : string) : M (list TransactionOp) := fun s =>
  match transactions s with
  | tx :: l => (with_transactions l s, Ok tx)
  | [] => (s, Err (StorageError.TransactionError ("No active transaction to " +:+ verb)))
  end.
Definition commit_transaction : M unit := _ ← pop_transaction "commit"; mret tt.

(** Versions above [version] are popped from the end. *)
Fixpoint pop_above (version : N) (l : list VersionInfo.t) : list VersionInfo.t :=
  match l with
  | [] => []
  | v :: l' => if (VersionInfo.version v <=? version)%N then l else pop_above version l'
  end.
Definition restored (version : N) (m : KeyMetadata) : KeyMetadata :=
  {| km_key := km_key m; km_created_by := km_created_by m; km_created_at := km_created_at m;
     km_versions := rev (pop_above version (rev (km_versions m))) |}.

Definition remove_if_there (p : t -> FileSystem.path) : M unit :=
  there ← reading (fun s => Ok (FileSystem.exists_ (p s) (fs s)));
  if (there : bool) then disk_at from_io p FileSystem.remove_dir_all else mret tt.
Definition rollback_user : string := "SYSTEM_ROLLBACK".

Definition undo (now : N) (op : TransactionOp) : M unit :=
  match op with
  | Set_ namespace key (Some data) (Some version) =>
      _ ← write_version_data namespace key (VersionInfo.version version) data;
      metadata ← reading (read_key_metadata namespace key);
      write_key_metadata namespace key (restored (VersionInfo.version version) metadata)
  | Set_ namespace key None _ => remove_if_there (key_dir_path namespace key)
  | Set_ _ _ (Some _) None => throw (StorageError.TransactionError "Inconsistent transaction data")
  | Delete_ namespace key previous_data previous_version =>
      _ ← write_version_data namespace key previous_version previous_data;
      there ← reading (fun s => Ok (FileSystem.exists_ (metadata_path namespace key s) (fs s)));
      if (there : bool) then mret tt
      else write_key_metadata namespace key
             {| km_key := key; km_created_by := rollback_user; km_created_at := now;
                km_versions := [VersionInfo.Mk previous_version rollback_user now None] |}
  | CreateNamespace namespace =>
      _ ← remove_if_there (namespace_path namespace);
      modify (fun s => with_namespaces (base.delete namespace (namespace_cache s)) s)
  | DeleteNamespace namespace metadata =>
      _ ← modify (fun s => with_namespaces (<[namespace := metadata]> (namespace_cache s)) s);
      _ ← disk_at from_io (namespace_path namespace) FileSystem.create_dir_all;
      _ ← disk_at from_io (keys_dir namespace) FileSystem.create_dir_all;
      metadata_str ← lift (ser "NamespaceMetadata" (namespace_to_string metadata));
      disk_at from_io (namespace_metadata_path namespace) (fun p => FileSystem.write p metadata_str)
  end.
Fixpoint undo_all (now : N) (ops : list TransactionOp) : M unit :=
  match ops with [] => mret tt | op :: ops => _ ← undo now op; undo_all now ops end.
Definition rollback_transaction (now : N) : M unit :=
  transaction ← pop_transaction "rollback"; undo_all now (rev transaction).

(** ** Namespaces and accounts *)

Definition create_namespace (now : N) (auth : option AuthContext.t) (namespace : string) (quota : N)
    (parent_namespace : option string) : M unit :=
  let can_create := match auth with
                    | Some a => AuthContext.has_role "global" "admin" a ||
                                match parent_namespace with Some p => AuthContext.has_role p "admin" a | None => false end
                    | None => false
                    end in
  _ ← (if can_create then mret tt
       else throw (StorageError.PermissionDenied
              (match auth with Some a => AuthContext.user_id_cloneable a | None => "anonymous" end)
              "create_namespace" namespace));
  _ ← match parent_namespace with
      | Some parent_ns =>
          require_namespace (StorageError.NotFound ("Parent namespace not found: " +:+ parent_ns)) parent_ns
      | None => mret tt
      end;
  _ ← reading (fun s => if namespace_exists namespace s
                        then Err (StorageError.TransactionError ("Namespace already exists: " +:+ namespace)) else Ok tt);
  _ ← disk_at (map_io_error namespace None "creating namespace directory") (namespace_path namespace)
        FileSystem.create_dir_all;
  _ ← disk_at (map_io_error namespace None "creating namespace keys directory") (keys_dir namespace)
        FileSystem.create_dir_all;
  let metadata := {| path := namespace;
                     owner := match auth with Some a => AuthContext.user_id_cloneable a | None => "SYSTEM" end;
                     quota_bytes := quota; used_bytes := 0; parent := parent_namespace; attributes := ∅ |} in
  _ ← write_namespace_metadata metadata;
  _ ← modify (fun s => with_namespaces (<[namespace := metadata]> (namespace_cache s)) s);
  _ ← record_for_rollback (CreateNamespace namespace);
  match auth with
  | Some auth_ref =>
      record_audit_log now auth_ref "create_namespace" namespace None
        ("Created namespace with quota " +:+ u64_to_string quota +:+ " bytes")
  | None => mret tt
  end.

(** The list is meant up to the order of the map. *)
Definition visible_namespace (auth : option AuthContext.t) (parent_namespace : string)
    (kv : string * NamespaceMetadata) : bool :=
  (is_empty parent_namespace || bool_decide (parent kv.2 = Some parent_namespace)) &&
  match auth with
  | Some a => existsb (fun r => AuthContext.has_role kv.1 r a) ["reader"; "writer"; "admin"] ||
              AuthContext.has_role "global" "admin" a
  | None => false
  end.
Definition list_namespaces (now : N) (auth : option AuthContext.t) (parent_namespace : string) :
    M (list NamespaceMetadata) :=
  _ ← (if is_empty parent_namespace then mret tt
       else require_namespace (StorageError.NotFound ("Parent namespace not found: " +:+ parent_namespace))
              parent_namespace);
  namespaces ← reading (fun s =>
    Ok (filter (fun kv => visible_namespace auth parent_namespace kv = true) (map_to_list (namespace_cache s))).*2);
  _ ← match auth with
      | Some auth_ref =>
          record_audit_log now auth_ref "list_namespaces" parent_namespace None
            ("Listed namespaces (found " +:+ u64_to_string (N.of_nat (length namespaces)) +:+ ")")
      | None => mret tt
      end;
  mret namespaces.

(** [Path::extension]: a name that is only an extension has none. *)
Definition has_extension (ext name : string) : bool :=
  str_ends_with ("." +:+ ext) name && negb (String.eqb name ("." +:+ ext)).
Definition size_in (dir : FileSystem.path) (d : FileSystem.t) (name : string) : N :=
  match FileSystem.file (dir ++ [name]) d with
  | Some b => if has_extension "data" name then str_len b else 0
  | None => 0
  end.
Definition key_size (keys : FileSystem.path) (d : FileSystem.t) (name : string) : res StorageError.t N :=
  if FileSystem.is_dir (keys ++ [name]) d then
    names ← map_err from_io (FileSystem.read_dir dir_order (keys ++ [name]) d);
    Ok (foldr N.add 0%N (size_in (keys ++ [name]) d <$> names))
  else Ok 0%N.
Definition get_usage (auth : option AuthContext.t) (namespace : string) (s : t) : res StorageError.t N :=
  _ ← check_permission auth "read" namespace;
  if negb (namespace_exists namespace s) then Err (no_namespace namespace)
  else
    match namespace_cache s !! namespace with
    | Some metadata => Ok (used_bytes metadata)
    | None =>
        let keys := keys_dir namespace s in
        if negb (FileSystem.exists_ keys (fs s)) then Ok 0%N
        else
          names ← map_err from_io (FileSystem.read_dir dir_order keys (fs s));
          foldl (fun total name => n ← total; m ← key_size keys (fs s) name; Ok (n + m)%N) (Ok 0%N) names
    end.

Definition create_account (now : N) (auth : option AuthContext.t) (user : string) (quota : N) : M unit :=
  _ ← lift (check_permission auth "admin" "global");
  _ ← disk_at from_io accounts_dir FileSystem.create_dir_all;
  there ← reading (fun s => Ok (FileSystem.exists_ (account_path user s) (fs s)));
  if (there : bool) then throw (StorageError.TransactionError ("Account already exists for user " +:+ user))
  else
    let account := {| user_id := user; account_quota := quota; account_used := 0; created_at := now;
                      last_updated := now |} in
    _ ← modify (fun s => with_accounts (<[user := account]> (account_cache s)) s);
    account_json ← lift (ser "FileResourceAccount" (account_to_string account));
    _ ← disk_at from_io (account_path user) (fun p => FileSystem.write p account_json);
    audit now auth "account_created" "global" (Some user)
      ("Created account with " +:+ u64_to_string quota +:+ " byte quota").

(** ** Reading the log *)

Definition audit_log_path (s : t) : FileSystem.path := FileSystem.join (audit_dir s) "audit.log".
Definition selected (namespace event_type_ : option string) (e : StorageEvent) : bool :=
  match namespace with Some ns => String.eqb (event_namespace e) ns | None => true end &&
  match event_type_ with Some et => String.eqb (event_type e) et | None => true end.
(** [found] events are there before these lines. *)
Fixpoint collect_events (namespace event_type_ : option string) (limit found : nat) (ls : list bytes) :
    res StorageError.t (list StorageEvent) :=
  match ls with
  | [] => Ok []
  | line :: ls =>
      match from_utf8 line with
      | None => Err (from_io InvalidData)
      | Some text =>
          match event_from_str text with
          | Some e =>
              if selected namespace event_type_ e then
                if limit <=? found + 1 then Ok [e]
                else rest ← collect_events namespace event_type_ limit (found + 1) ls; Ok (e :: rest)
              else collect_events namespace event_type_ limit found ls
          | None => collect_events namespace event_type_ limit found ls
          end
      end
  end.
Definition get_audit_log (auth : option AuthContext.t) (namespace event_type_ : option string) (limit : nat) (s : t) :
    res StorageError.t (list StorageEvent) :=
  let effective_ns := default "global" namespace in
  match auth with
  | None => Panic "called `Option::unwrap()` on a `None` value"
  | Some a =>
      if negb (AuthContext.has_role "global" "admin" a) && negb (AuthContext.has_role effective_ns "admin" a) then
        Err (StorageError.PermissionDenied (AuthContext.user_id_cloneable a) "view_audit_log" effective_ns)
      else if negb (FileSystem.exists_ (audit_log_path s) (fs s)) then Ok []
      else
        b ← map_err from_io (FileSystem.read (audit_log_path s) (fs s));
        collect_events namespace event_type_ limit 0 (lines b)
  end.

(** ** Opening *)

(** The metadata of a directory and of those below it, except below [keys].
    The fuel bounds the depth. *)
Definition load_one (dir : FileSystem.path) : M unit := fun s =>
  let metadata_path := FileSystem.join dir "namespace_metadata.json" in
  if FileSystem.exists_ metadata_path (fs s) then
    match FileSystem.read_to_string metadata_path (fs s) with
    | Ok metadata_str =>
        match namespace_from_str metadata_str with
        | Ok metadata => (with_namespaces (<[path metadata := metadata]> (namespace_cache s)) s, Ok tt)
        | Err e => (s, Err (StorageError.SerializationError "NamespaceMetadata" e))
        | Panic m => (s, Panic m)
        | OutOfFuel => (s, OutOfFuel)
        end
    | Err e => (s, Err (StorageError.IoError "reading namespace metadata file"
                 ("Failed to read namespace metadata file '" +:+ display_path metadata_path +:+ "': " +:+ io_display e)))
    | Panic m => (s, Panic m)
    | OutOfFuel => (s, OutOfFuel)
    end
  else (s, Ok tt).
Fixpoint load_namespaces_recursive (fuel : nat) (dir : FileSystem.path) : M unit :=
  match fuel with
  | O => lift OutOfFuel
  | S fuel' =>
      there ← reading (fun s => Ok (FileSystem.is_dir dir (fs s)));
      if negb there then mret tt
      else
        _ ← load_one dir;
        names ← reading (fun s => map_err (fun e => StorageError.IoError "reading directory"
                          ("Failed to read directory '" +:+ display_path dir +:+ "': " +:+ io_display e))
                          (FileSystem.read_dir dir_order dir (fs s)));
        foldr (fun name next =>
                 sub ← reading (fun s => Ok (FileSystem.is_dir (dir ++ [name]) (fs s) && negb (String.eqb name "keys")));
                 _ ← (if (sub : bool) then load_namespaces_recursive fuel' (dir ++ [name]) else mret tt);
                 next)
          (mret tt) names
  end.
Definition depth_of (d : FileSystem.t) : nat := foldr Nat.max 0 (length <$> FileSystem.dirs d).
Definition load_namespace_cache : M unit := fun s =>
  (_ ← modify (with_namespaces ∅);
   load_namespaces_recursive (S (S (depth_of (fs s)))) (namespaces_dir s)) s.

Definition load_account (name : string) : M unit := fun s =>
  let path := accounts_dir s ++ [name] in
  if FileSystem.is_file path (fs s) && has_extension "json" name then
    match FileSystem.read_to_string path (fs s) with
    | Ok account_str =>
        match account_from_str account_str with
        | Ok account => (with_accounts (<[user_id account := account]> (account_cache s)) s, Ok tt)
        | Err e => (s, Err (StorageError.SerializationError "FileResourceAccount" e))
        | Panic m => (s, Panic m)
        | OutOfFuel => (s, OutOfFuel)
        end
    | Err e => (s, Err (StorageError.IoError "reading account file"
                 ("Failed to read account file '" +:+ display_path path +:+ "': " +:+ io_display e)))
    | Panic m => (s, Panic m)
    | OutOfFuel => (s, OutOfFuel)
    end
  else (s, Ok tt).
Definition load_account_cache : M unit := fun s =>
  (_ ← modify (with_accounts ∅);
   if negb (FileSystem.exists_ (accounts_dir s) (fs s)) then mret tt
   else
     names ← lift (map_err (fun e => StorageError.IoError "reading accounts directory"
               ("Failed to read accounts directory '" +:+ display_path (accounts_dir s) +:+ "': " +:+ io_display e))
               (FileSystem.read_dir dir_order (accounts_dir s) (fs s)));
     foldr (fun name next => _ ← load_account name; next) (mret tt) names) s.

Definition create_dir (what dir : string) : M unit :=
  disk_at (fun e => StorageError.IoError ("create_" +:+ what +:+ "_dir")
                      ("Unable to create " +:+ (if String.eqb what "audit_logs" then "audit logs" else what) +:+
                       " directory: " +:+ io_display e))
    (fun s => FileSystem.join (root_path s) dir) FileSystem.create_dir_all.
(** Beside the outcome, what is left on the disk when there is no storage. *)
Definition new (root : FileSystem.path) (d : FileSystem.t) : t * res StorageError.t unit :=
  (_ ← create_dir "namespaces" "namespaces";
   _ ← create_dir "accounts" "accounts";
   _ ← create_dir "audit_logs" "audit_logs";
   _ ← create_dir "transactions" "transactions";
   _ ← load_namespace_cache;
   load_account_cache)
    {| root_path := root; fs := d; transactions := []; namespace_cache := ∅; account_cache := ∅ |}.

(** ** Permissions are those of the other backend *)

Lemma check_permission_as_in_memory auth action namespace :
  check_permission auth action namespace = InMemoryStorage.check_permission auth action namespace.
Proof.
  destruct auth as [a|]; [|done]. unfold check_permission, check_permission_internal, InMemoryStorage.check_permission.
  destruct (AuthContext.has_role "global" "admin" a); [done|].
  destruct (AuthContext.has_role namespace "admin" a) eqn:E; [done|]. cbn. rewrite E. by rewrite !orb_false_r.
Qed.

Lemma write_implies_read auth namespace :
  check_permission auth "write" namespace = Ok tt -> check_permission auth "read" namespace = Ok tt.
Proof.
  destruct auth as [a|]; [|done]. unfold check_permission, check_permission_internal. cbn.
  repeat (case_match; try done). intros H'. by destruct (AuthContext.has_role namespace "writer" a);
    rewrite ?orb_true_r in *.
Qed.

(** ** What a successful call leaves on the disk *)

(** The same place and namespaces, and nothing was removed. *)
Definition extends (s s' : t) : Prop :=
  root_path s' = root_path s /\ namespace_cache s' = namespace_cache s /\ FileSystem.grown (fs s) (fs s').

#[local] Instance extends_preorder : PreOrder extends.
Proof.
  split; [by repeat split|]. intros a b c (H1 & H2 & H3) (J1 & J2 & J3).
  repeat (split; [congruence|]). by etrans.
Qed.

Lemma disk_at_ok {A} f p (m : FileSystem.path -> stm FileSystem.t IoError A) s s' a :
  disk_at f p m s = (s', Ok a) -> exists d, m (p s) (fs s) = (d, Ok a) /\ s' = with_fs d s.
Proof.
  unfold disk_at, disk. destruct (m (p s) (fs s)) as [d r]. intros [= <- H]. exists d. by destruct r; simplify_eq/=.
Qed.

Lemma extends_disk d s : FileSystem.grown (fs s) d -> extends s (with_fs d s).
Proof. by split; [|split]. Qed.

Lemma make_dirs_ok f p s s' : disk_at f p FileSystem.create_dir_all s = (s', Ok tt) ->
  extends s s' /\ FileSystem.files (fs s') = FileSystem.files (fs s) /\ FileSystem.is_dir (p s) (fs s') = true /\
  forall q, FileSystem.exists_ q (fs s') = true -> FileSystem.exists_ q (fs s) = true \/ q `prefix_of` p s.
Proof.
  intros (d & H & ->)%disk_at_ok. apply FileSystem.create_dir_all_ok in H as (H1 & H2 & H3 & H4).
  split; [by apply extends_disk|done].
Qed.

(** One file was written. *)
Definition wrote (p : FileSystem.path) (b : bytes) (s s' : t) : Prop :=
  extends s s' /\ FileSystem.files (fs s') = (p, b) :: FileSystem.files (fs s) /\
  FileSystem.is_dir p (fs s') = false /\ FileSystem.is_dir (removelast p) (fs s') = true.

Lemma file_wrote p b s s' q : wrote p b s s' ->
  FileSystem.file q (fs s') = if FileSystem.path_eqb q p then Some b else FileSystem.file q (fs s).
Proof. intros (_ & H & _). unfold FileSystem.file. by rewrite H. Qed.
Lemma file_wrote_eq p b s s' : wrote p b s s' -> FileSystem.file p (fs s') = Some b.
Proof. intros H. by rewrite (file_wrote _ _ _ _ _ H), FileSystem.path_eqb_refl. Qed.
Lemma file_wrote_ne p b s s' q : wrote p b s s' -> q <> p -> FileSystem.file q (fs s') = FileSystem.file q (fs s).
Proof.
  intros H Hq. rewrite (file_wrote _ _ _ _ _ H). destruct (FileSystem.path_eqb q p) eqn:E; [|done].
  by apply FileSystem.path_eqb_eq in E.
Qed.

Lemma put_wrote p b s : FileSystem.is_dir p (fs s) = false -> FileSystem.is_dir (removelast p) (fs s) = true ->
  wrote p b s (with_fs (FileSystem.put_file p b (fs s)) s).
Proof.
  intros H1 H2. split; [apply extends_disk, FileSystem.grown_put|]. split; [done|].
  split; [by destruct p|by apply FileSystem.grown_put].
Qed.

Lemma write_file_ok f p b s s' : disk_at f p (fun q => FileSystem.write q b) s = (s', Ok tt) -> wrote (p s) b s s'.
Proof. intros (d & H & ->)%disk_at_ok. apply FileSystem.write_ok in H as (-> & H1 & H2). by apply put_wrote. Qed.

Lemma append_file_ok f p b s s' : disk_at f p (fun q => FileSystem.append q b) s = (s', Ok tt) ->
  exists text, wrote (p s) text s s'.
Proof. intros (d & H & ->)%disk_at_ok. apply FileSystem.write_ok in H as (-> & H1 & H2). eexists. by apply put_wrote. Qed.

Lemma reading_ok {A} (r : t -> res StorageError.t A) s s' a : reading r s = (s', Ok a) -> s' = s /\ r s = Ok a.
Proof. unfold reading. by intros [= <- H]. Qed.
Lemma lift_ok {A} (r : res StorageError.t A) (s s' : t) a : lift r s = (s', Ok a) -> s' = s /\ r = Ok a.
Proof. unfold lift. by intros [= <- H]. Qed.

Lemma wrote_after p b s s1 s' :
  extends s s1 -> FileSystem.files (fs s1) = FileSystem.files (fs s) -> wrote p b s1 s' -> wrote p b s s'.
Proof. intros Ho Hf (H1 & H2 & H3). split; [by etrans|]. by rewrite H2, Hf. Qed.

(** Paths depend on the root alone. *)
Lemma same_paths s s' : extends s s' ->
  (forall ns k, metadata_path ns k s' = metadata_path ns k s) /\ (forall ns k v, version_path ns k v s' = version_path ns k v s) /\
  (forall ns, namespace_path ns s' = namespace_path ns s) /\ (forall d, log_path d s' = log_path d s) /\
  audit_dir s' = audit_dir s.
Proof.
  intros [H _].
  assert (namespaces_dir s' = namespaces_dir s) as Hn by (unfold namespaces_dir; congruence).
  assert (audit_dir s' = audit_dir s) as Ha by (unfold audit_dir; congruence).
  repeat split; intros; [unfold metadata_path|unfold version_path| |unfold log_path; congruence|done];
    unfold key_dir_path, keys_dir; unfold namespace_path; congruence.
Qed.

Ltac step H s r H1 := apply stm_bind_ok in H as (s & r & H1 & H).

Lemma write_key_metadata_ok ns k m s s' : write_key_metadata ns k m s = (s', Ok tt) ->
  exists text, metadata_to_string m = Ok text /\ wrote (metadata_path ns k s) text s s'.
Proof.
  unfold write_key_metadata. intros H. step H s1 u H1. step H s2 text H2. destruct u.
  apply make_dirs_ok in H1 as (Ho & Hf & _). apply lift_ok in H2 as [-> H2]. exists text.
  split; [by unfold ser in H2; destruct (metadata_to_string m); simplify_eq/=|].
  apply write_file_ok in H. destruct (same_paths _ _ Ho) as (Hp & _). rewrite Hp in H.
  by eapply wrote_after.
Qed.

Lemma write_version_data_ok ns k v data s s' : write_version_data ns k v data s = (s', Ok tt) ->
  wrote (version_path ns k v s) data s s'.
Proof.
  unfold write_version_data. intros H. step H s1 u H1. destruct u. apply make_dirs_ok in H1 as (Ho & Hf & _).
  apply write_file_ok in H. destruct (same_paths _ _ Ho) as (_ & Hp & _). rewrite Hp in H. by eapply wrote_after.
Qed.

Lemma record_audit_log_ok now a action ns key msg s s' : record_audit_log now a action ns key msg s = (s', Ok tt) ->
  exists date text, day_of now = Some date /\ wrote (log_path date s) text s s' /\
    FileSystem.exists_ (audit_dir s') (fs s') = true.
Proof.
  unfold record_audit_log. intros H. step H s1 date H1. step H s2 text H2. step H s3 there H3. step H s4 u H4.
  apply lift_ok in H1 as [-> H1]. apply lift_ok in H2 as [-> _]. apply reading_ok in H3 as [-> [= H3]]. destruct u.
  destruct (day_of now) as [d|]; [|done]. injection H1 as ->. exists date.
  assert (extends s s4 /\ FileSystem.files (fs s4) = FileSystem.files (fs s) /\
          FileSystem.exists_ (audit_dir s4) (fs s4) = true) as (Ho & Hf & He).
  { destruct there; [injection H4 as <-; by rewrite H3|]. destruct (make_dirs_ok _ _ _ _ H4) as (Ho & Hf & Hd & _).
    split; [done|]. split; [done|]. destruct (same_paths _ _ Ho) as (_ & _ & _ & _ & ->).
    unfold FileSystem.exists_. by rewrite Hd. }
  apply append_file_ok in H as [content H]. exists content. destruct (same_paths _ _ Ho) as (_ & _ & _ & Hp & _).
  rewrite Hp in H. split; [done|]. split; [by eapply wrote_after|]. destruct H as [Ho' _].
  destruct (same_paths _ _ Ho') as (_ & _ & _ & _ & ->). by eapply FileSystem.exists_grown; [apply Ho'|].
Qed.

(** ** Calls that only extend, whatever their outcome *)

Definition extending {A} (m : M A) : Prop := forall s, extends s (m s).1.

Lemma extends_by {A} (m : M A) s s' r : extending m -> m s = (s', r) -> extends s s'.
Proof. intros Hm H. specialize (Hm s). by rewrite H in Hm. Qed.

Lemma extending_bind {A B} (m : M A) (k : A -> M B) :
  extending m -> (forall a, extending (k a)) -> extending (m ≫= k).
Proof.
  intros Hm Hk s. specialize (Hm s). unfold mbind, stm_bind. destruct (m s) as [s1 []]; try done.
  etrans; [exact Hm|apply Hk].
Qed.
Lemma extending_lift {A} (r : res StorageError.t A) : extending (lift r).
Proof. by intros s. Qed.
Lemma extending_reading {A} (r : t -> res StorageError.t A) : extending (reading r).
Proof. by intros s. Qed.
Lemma extending_ret {A} (a : A) : extending (mret a).
Proof. by intros s. Qed.
Lemma extending_dirs f p : extending (disk_at f p FileSystem.create_dir_all).
Proof.
  intros s. unfold disk_at, disk, FileSystem.create_dir_all.
  repeat case_match; simplify_eq/=; by apply extends_disk; try apply FileSystem.grown_make.
Qed.
Lemma extending_append f p b : extending (disk_at f p (fun q => FileSystem.append q b)).
Proof.
  intros s. unfold disk_at, disk, FileSystem.append, FileSystem.write.
  repeat case_match; simplify_eq/=; by apply extends_disk; try apply FileSystem.grown_put.
Qed.
Lemma extending_record op : extending (record_for_rollback op).
Proof. intros s. unfold record_for_rollback, modify. cbn. by destruct (transactions s). Qed.
Lemma extending_attempt {A} (m : M A) : extending m -> extending (attempt m).
Proof. intros Hm s. specialize (Hm s). unfold attempt. by destruct (m s). Qed.

Lemma extending_if {A} (b : bool) (m n : M A) : extending m -> extending n -> extending (if b then m else n).
Proof. by destruct b. Qed.

#[local] Hint Resolve extending_if extending_bind extending_lift extending_reading extending_ret extending_dirs extending_append
  extending_record extending_attempt : file_storage.

Lemma extending_audit now auth action ns key msg : extending (audit now auth action ns key msg).
Proof.
  unfold audit. destruct auth; [|auto with file_storage]. unfold record_audit_log.
  repeat (apply extending_bind; [|intros ?]); try case_match; auto with file_storage.
Qed.
#[local] Hint Resolve extending_audit : file_storage.

Lemma extending_get now auth ns k : extending (get now auth ns k).
Proof.
  unfold get, require_namespace. repeat (apply extending_bind; [|intros ?]); auto with file_storage.
Qed.

Lemma extending_charge user n : extending (charge user n).
Proof.
  intros s. unfold charge. destruct (account_cache s !! user); [|done].
  unfold mbind, stm_bind, lift. destruct (u64_add overflow_checks (account_used a) n); try done.
  destruct (account_quota a <? a0)%N; [done|]. unfold modify, disk_at, disk, FileSystem.write.
  repeat case_match; simplify_eq/=; (split; [done|]; split; [done|]);
    first [reflexivity|apply FileSystem.grown_put].
Qed.
#[local] Hint Resolve extending_get extending_charge : file_storage.

Lemma namespace_exists_extends ns s s' : extends s s' -> namespace_exists ns s = true -> namespace_exists ns s' = true.
Proof.
  intros (H1 & H2 & H3). unfold namespace_exists. rewrite H2, !orb_true_iff. intros [H|H]; [by left|right].
  replace (namespace_path ns s') with (namespace_path ns s) by (unfold namespace_path, namespaces_dir; congruence).
  by eapply FileSystem.exists_grown.
Qed.

(** ** Files of different kinds *)

Context `{FL : !FileCallsLaws}.

Lemma metadata_path_eq ns k s : metadata_path ns k s = key_dir_path ns k s ++ ["metadata.json"].
Proof. unfold metadata_path. by rewrite FileSystem.join_name. Qed.

Lemma version_path_eq ns k v s :
  version_path ns k v s = key_dir_path ns k s ++ ["v" +:+ u64_to_string v +:+ ".data"].
Proof.
  unfold version_path. apply FileSystem.join_name; [|done]. rewrite !count_char_app.
  by rewrite (FileSystem.digits_no_slash (u64_to_string v)) by apply all_digits_u64_to_string.
Qed.

Lemma log_path_eq date s n : day_of n = Some date -> log_path date s = audit_dir s ++ ["log_" +:+ date +:+ ".jsonl"].
Proof.
  intros H%day_is_name. unfold log_path. apply FileSystem.join_name; [|done]. by rewrite !count_char_app, H.
Qed.

Lemma snoc_ne (p q : FileSystem.path) (a b : string) : a <> b -> p ++ [a] <> q ++ [b].
Proof. intros Hab H%app_inj_tail. tauto. Qed.

Lemma metadata_ne_version ns k ns' k' v s : metadata_path ns k s <> version_path ns' k' v s.
Proof. rewrite metadata_path_eq, version_path_eq. by apply snoc_ne. Qed.
Lemma log_ne_metadata date n ns k s : day_of n = Some date -> log_path date s <> metadata_path ns k s.
Proof. intros H. rewrite (log_path_eq _ _ _ H), metadata_path_eq. by apply snoc_ne. Qed.
Lemma log_ne_version date n ns k v s : day_of n = Some date -> log_path date s <> version_path ns k v s.
Proof. intros H. rewrite (log_path_eq _ _ _ H), version_path_eq. by apply snoc_ne. Qed.

(** ** Reading back *)

(** The log of the day can be appended to. *)
Definition can_log (now : N) (s : t) : Prop :=
  exists date, day_of now = Some date /\ FileSystem.exists_ (audit_dir s) (fs s) = true /\
    FileSystem.is_dir (log_path date s) (fs s) = false /\ FileSystem.is_dir (removelast (log_path date s)) (fs s) = true.

(** The metadata of a key is [m], and its latest version [v] holds [b]. *)
Definition holds (ns k : string) (m : KeyMetadata) (v : VersionInfo.t) (b : bytes) (s : t) : Prop :=
  last (km_versions m) = Some v /\
  (exists text, metadata_to_string m = Ok text /\ FileSystem.file (metadata_path ns k s) (fs s) = Some text) /\
  FileSystem.file (version_path ns k (VersionInfo.version v) s) (fs s) = Some b.

Lemma read_metadata_text ns k m text s :
  metadata_to_string m = Ok text -> FileSystem.file (metadata_path ns k s) (fs s) = Some text ->
  read_key_metadata ns k s = ser "KeyMetadata" (metadata_from_str text).
Proof.
  intros Hm Hf. unfold read_key_metadata. cbv zeta. rewrite (FileSystem.exists_file _ _ _ Hf). cbn [negb].
  unfold FileSystem.read_to_string, FileSystem.read. rewrite Hf. unfold mbind, res_bind. by rewrite (metadata_is_text _ _ Hm).
Qed.

Lemma read_metadata_of ns k m text s : json_depth m < recursion_limit ->
  metadata_to_string m = Ok text -> FileSystem.file (metadata_path ns k s) (fs s) = Some text ->
  read_key_metadata ns k s = Ok m.
Proof. intros Hd Hm Hf. by rewrite (read_metadata_text _ _ _ _ _ Hm Hf), (metadata_read_back _ _ Hd Hm). Qed.

(** Nobody reads a key whose history is too deep. *)
Lemma too_deep_to_get now auth ns k m v b s : recursion_limit <= json_depth m -> holds ns k m v b s ->
  is_ok (get now auth ns k s).2 = false.
Proof.
  intros Hd (_ & (text & Ht & Hf) & _). destruct (metadata_too_deep _ _ Hd Ht) as [e He].
  unfold get, require_namespace, mbind, stm_bind, lift, reading.
  destruct (check_permission auth "read" ns) as [[]| | |]; [|done..].
  destruct (namespace_exists ns s); [|done].
  by rewrite (read_metadata_text _ _ _ _ _ Ht Hf), He.
Qed.

Lemma read_version_of ns k v b s :
  FileSystem.file (version_path ns k v s) (fs s) = Some b -> read_version_data ns k v s = Ok b.
Proof.
  intros Hf. unfold read_version_data. cbv zeta. rewrite (FileSystem.exists_file _ _ _ Hf). cbn [negb].
  unfold FileSystem.read. by rewrite Hf.
Qed.

Lemma audit_logs now a action ns key msg s : can_log now s -> is_ok (audit now (Some a) action ns key msg s).2 = true.
Proof.
  intros (date & Hd & He & H1 & H2). unfold audit, record_audit_log. rewrite Hd.
  destruct (entry_is_written {| al_timestamp := now; al_user_id := AuthContext.user_id_cloneable a; al_action := action;
    al_namespace := ns; al_key := key; al_details := msg |}) as [text Ht].
  unfold mbind, stm_bind, lift, reading. rewrite Ht. cbn [ser map_err]. rewrite He. unfold mret, stm_ret.
  unfold disk_at, disk, FileSystem.append, FileSystem.write. by rewrite H1, H2.
Qed.

Lemma get_holds now auth ns k m v b s : json_depth m < recursion_limit ->
  check_permission auth "read" ns = Ok tt -> namespace_exists ns s = true -> holds ns k m v b s -> can_log now s ->
  (get now auth ns k s).2 = Ok b.
Proof.
  intros Hd Hp Hn (Hl & (text & Ht & Hf) & Hv) Hc. destruct auth as [a|]; [|done].
  unfold get, require_namespace. unfold mbind at 1, stm_bind at 1. cbn [lift]. rewrite Hp.
  unfold mbind at 1, stm_bind at 1, reading at 1. rewrite Hn.
  unfold mbind at 1, stm_bind at 1, reading at 1. rewrite (read_metadata_of _ _ _ _ _ Hd Ht Hf).
  unfold mbind at 1, stm_bind at 1, latest_of, lift at 1. rewrite Hl.
  unfold mbind at 1, stm_bind at 1, reading at 1. rewrite (read_version_of _ _ _ _ _ Hv).
  pose proof (audit_logs now a "read" ns (Some k) (version_text (VersionInfo.version v)) s Hc) as Ha.
  unfold mbind at 1, stm_bind at 1. by destruct (audit _ _ _ _ _ _ s) as [s' []].
Qed.

(** The metadata [m] is older versions and [v], which [user] wrote on top of the
    last of them. *)
Definition grown_by (user : string) (m : KeyMetadata) (v : VersionInfo.t) : Prop :=
  exists old, km_versions m = old ++ [v] /\ VersionInfo.created_by v = user /\ VersionInfo.prev_version v = last old.

Lemma grown_last user m v : grown_by user m v -> last (km_versions m) = Some v.
Proof. intros (old & -> & _). by rewrite last_snoc. Qed.

Lemma bump_version_ok now user ns k there s s' v : bump_version now user ns k there s = (s', Ok v) ->
  exists m text, grown_by user m v /\ metadata_to_string m = Ok text /\ wrote (metadata_path ns k s) text s s'.
Proof.
  unfold bump_version. destruct there; intros H.
  - step H s1 m0 H1. apply reading_ok in H1 as [-> _]. step H s2 n H2. apply lift_ok in H2 as [-> _].
    step H s3 u H3. destruct u. injection H as <- <-. apply write_key_metadata_ok in H3 as (text & Ht & Hw).
    eexists _, text. split; [|by split]. by exists (km_versions m0).
  - step H s3 u H3. destruct u. injection H as <- <-. apply write_key_metadata_ok in H3 as (text & Ht & Hw).
    exists {| km_key := k; km_created_by := user; km_created_at := now; km_versions := [first_version now user] |}, text.
    split; [by exists []|done].
Qed.

(** A successful [set]: some preparation, then the metadata, the data, the log. *)
Lemma set_steps now auth ns k value s s' : set now auth ns k value s = (s', Ok tt) ->
  check_permission auth "write" ns = Ok tt /\ namespace_exists ns s = true /\
  exists s1 s2 s3 m text v date line,
    extends s s1 /\ grown_by (user_of auth) m v /\ metadata_to_string m = Ok text /\
    wrote (metadata_path ns k s) text s1 s2 /\ wrote (version_path ns k (VersionInfo.version v) s) value s2 s3 /\
    day_of now = Some date /\ wrote (log_path date s) line s3 s' /\ FileSystem.exists_ (audit_dir s') (fs s') = true.
Proof.
  unfold set, require_namespace. intros H.
  step H s1 u H1. apply lift_ok in H1 as [-> Hp]. step H s1 u0 H1. apply reading_ok in H1 as [-> Hn].
  step H s1 u1 H1. step H s2 there H2. apply reading_ok in H2 as [-> _]. step H s3 existing H3. step H s4 u2 H4.
  step H s5 info H5. step H s6 u3 H6. step H s7 v H7. step H s8 u4 H8. destruct u, u0, u1, u2, u3, u4.
  split; [done|]. split; [by destruct (namespace_exists ns s)|].
  assert (extends s s6) as Ho.
  { transitivity s1; [apply (extends_by _ _ _ _ (extending_dirs _ _) H1)|].
    transitivity s3; [eapply extends_by, H3; auto with file_storage|].
    transitivity s4; [eapply extends_by, H4; auto with file_storage|].
    transitivity s5; [eapply extends_by, H5; auto with file_storage|].
    apply (extends_by _ _ _ _ (extending_record _) H6). }
  apply bump_version_ok in H7 as (m & text & Hl & Ht & Hw). apply write_version_data_ok in H8.
  destruct auth as [a|]; [|done]. apply record_audit_log_ok in H as (date & line & Hd & Hw' & He).
  destruct (same_paths _ _ Ho) as (P1 & P2 & _ & P4 & _).
  assert (extends s s7) as Ho7 by (etrans; [exact Ho|apply Hw]).
  destruct (same_paths _ _ Ho7) as (_ & Q2 & _). rewrite Q2 in H8.
  assert (extends s s8) as Ho8 by (etrans; [exact Ho7|apply H8]).
  destruct (same_paths _ _ Ho8) as (_ & _ & _ & R4 & _). rewrite R4 in Hw'. rewrite P1 in Hw.
  by exists s6, s7, s8, m, text, v, date, line.
Qed.

(** A key whose versions nest no deeper than their places in the list, as they
    do when every version was written on top of the one before, has room for 125
    of them. *)
Lemma short_history_is_shallow m :
  (forall i v, km_versions m !! i = Some v -> nesting v <= S i) -> length (km_versions m) <= 125 ->
  json_depth m < recursion_limit.
Proof.
  unfold json_depth, recursion_limit. intros Hn Hl.
  assert (foldr Nat.max 0 (nesting <$> km_versions m) <= 125); [|lia].
  assert (Forall (fun v => nesting v <= 125) (km_versions m)) as Hall.
  { apply Forall_lookup_2. intros i v Hv. pose proof (lookup_lt_Some _ _ _ Hv). specialize (Hn i v Hv). lia. }
  clear Hn Hl. induction Hall as [|v l Hv _ IH]; cbn; lia.
Qed.


(** ** Keys below other keys *)

(** The log adds its own directory and file at most. *)
Lemma record_audit_log_adds now a action ns key msg s s' q :
  record_audit_log now a action ns key msg s = (s', Ok tt) -> FileSystem.exists_ q (fs s') = true ->
  FileSystem.exists_ q (fs s) = true \/ q `prefix_of` audit_dir s \/
  exists date, day_of now = Some date /\ q = log_path date s.
Proof.
  unfold record_audit_log. intros H Hq. step H s1 date H1. step H s2 text H2. step H s3 there H3. step H s4 u H4.
  apply lift_ok in H1 as [-> H1]. apply lift_ok in H2 as [-> _]. apply reading_ok in H3 as [-> _]. destruct u.
  destruct (day_of now) as [d|]; [|done]. injection H1 as ->.
  assert (extends s s4) as Ho by (eapply extends_by, H4; auto with file_storage).
  destruct (same_paths _ _ Ho) as (_ & _ & _ & Hp & _).
  apply disk_at_ok in H as (d & Hd & ->). apply FileSystem.write_ok in Hd as (-> & _ & _). rewrite Hp in Hq.
  destruct (decide (q = log_path date s)) as [->|Hne]; [eauto|]. cbn in Hq. rewrite FileSystem.exists_put in Hq by done.
  destruct there; [injection H4 as <-; by left|]. apply make_dirs_ok in H4 as (_ & _ & _ & H4). destruct (H4 q Hq); tauto.
Qed.

Lemma last_snoc_eq (p q : FileSystem.path) (a b : string) : p ++ [a] = q ++ [b] -> a = b.
Proof. intros H%app_inj_tail. tauto. Qed.

Lemma audit_transactions now auth action ns key msg s :
  transactions (audit now auth action ns key msg s).1 = transactions s.
Proof.
  unfold audit, record_audit_log, mbind, stm_bind, lift, reading, disk_at, disk, mret, stm_ret.
  repeat case_match; simplify_eq/=; done.
Qed.

(** A successful [delete]: the latest version is recorded, and nothing is left
    below the directory of the key. *)
Lemma delete_steps now auth ns k s s' : delete now auth ns k s = (s', Ok tt) ->
  check_permission auth "write" ns = Ok tt /\ root_path s' = root_path s /\
  exists m v b, read_key_metadata ns k s = Ok m /\ last (km_versions m) = Some v /\
    read_version_data ns k (VersionInfo.version v) s = Ok b /\
    transactions s' = transactions (record_for_rollback (Delete_ ns k b (VersionInfo.version v)) s).1 /\
    (~ key_dir_path ns k s `prefix_of` audit_dir s -> forall q, key_dir_path ns k s `prefix_of` q ->
     (forall date, day_of now = Some date -> q <> log_path date s) -> FileSystem.exists_ q (fs s') = false).
Proof.
  unfold delete, require_namespace. intros H.
  step H s1 u H1. apply lift_ok in H1 as [-> Hp]. step H s1 u0 H1. apply reading_ok in H1 as [-> _].
  step H s1 m H1. apply reading_ok in H1 as [-> Hm]. step H s1 v H1. apply lift_ok in H1 as [-> Hv].
  step H s1 b H1. apply reading_ok in H1 as [-> Hb]. step H s1 u1 H1. step H s2 u2 H2. destruct u, u0, u1, u2.
  assert (extends s s1) as Ho by (eapply extends_by, H1; auto with file_storage).
  apply disk_at_ok in H2 as (d & Hd & ->). split; [done|].
  split. { destruct (extends_by _ _ _ _ (extending_audit _ _ _ _ _ _) H) as [-> _]. apply Ho. }
  exists m, v, b. split; [done|]. split. { unfold latest_of in Hv. by destruct (last (km_versions m)); simplify_eq/=. }
  split; [done|]. split.
  { pose proof (audit_transactions now auth "delete" ns (Some k)
      ("Deleted version " +:+ u64_to_string (VersionInfo.version v)) (with_fs d s1)) as Ht.
    rewrite H in Ht. cbn in Ht. rewrite Ht. by rewrite H1. }
  intros Haudit q Hq Hlog. destruct auth as [a|]; [|done].
  destruct (same_paths _ _ Ho) as (_ & _ & _ & Hlp & Hap).
  apply not_true_iff_false. intros Hex. apply (record_audit_log_adds _ _ _ _ _ _ _ _ _ H) in Hex as [Hex|[Hex|Hex]].
  - assert (key_dir_path ns k s <> []) as Hne by (intros E; apply Haudit; rewrite E; apply prefix_nil).
    replace (key_dir_path ns k s1) with (key_dir_path ns k s) in Hd
      by (unfold key_dir_path, keys_dir, namespace_path, namespaces_dir; by rewrite (proj1 Ho)).
    cbn [fs with_fs] in Hex. by rewrite (FileSystem.removed_gone _ _ _ _ Hd Hne Hq) in Hex.
  - apply Haudit. rewrite <- Hap. by etrans; [exact Hq|].
  - destruct Hex as (date & Hd' & ->). apply (Hlog date Hd'). apply Hlp.
Qed.

(** A key is a directory, and the keys whose names continue its name with a
    slash are directories below it: deleting "a" deletes "a/b" with all its
    versions, for a user who may not even know that it is there. *)
Theorem delete_takes_nested_keys now auth ns k x s s' :
  delete now auth ns k s = (s', Ok tt) -> k <> EmptyString ->
  forallb FileSystem.is_plain (split_char "/" x) = true ->
  ~ key_dir_path ns k s `prefix_of` audit_dir s ->
  contains auth ns (k +:+ "/" +:+ x) s' = Ok false.
Proof.
  intros (Hp & Hroot & m & v & b & _ & _ & _ & _ & Hgone)%delete_steps Hk Hx Haudit.
  unfold contains. rewrite (write_implies_read _ _ Hp). cbn [mbind res_bind]. f_equal. apply andb_false_iff. right.
  rewrite metadata_path_eq. replace (key_dir_path ns (k +:+ "/" +:+ x) s') with (key_dir_path ns (k +:+ "/" +:+ x) s)
    by (unfold key_dir_path, keys_dir, namespace_path, namespaces_dir; by rewrite Hroot).
  unfold key_dir_path at 1. rewrite FileSystem.join_below by done. fold (key_dir_path ns k s).
  apply (Hgone Haudit).
  - rewrite <- app_assoc. by apply prefix_app_r.
  - intros date Hd E. rewrite (log_path_eq _ _ _ Hd) in E. apply last_snoc_eq in E. done.
Qed.

Lemma write_version_data_adds ns k v data s s' q :
  write_version_data ns k v data s = (s', Ok tt) -> FileSystem.exists_ q (fs s') = true ->
  FileSystem.exists_ q (fs s) = true \/ q `prefix_of` key_dir_path ns k s \/ q = version_path ns k v s.
Proof.
  unfold write_version_data. intros H Hq. step H s1 u H1. destruct u. destruct (make_dirs_ok _ _ _ _ H1) as (Ho & _ & _ & Hnew).
  destruct (same_paths _ _ Ho) as (_ & P2 & _).
  apply disk_at_ok in H as (d & Hd & ->). apply FileSystem.write_ok in Hd as (-> & _ & _). rewrite P2 in Hq.
  destruct (decide (q = version_path ns k v s)) as [->|Hne]; [auto|]. cbn [fs with_fs] in Hq.
  rewrite FileSystem.exists_put in Hq by done. destruct (Hnew q Hq) as [|Hp]; [auto|].
  rewrite version_path_eq, List.removelast_last in Hp. auto.
Qed.

(** Rolling back a deletion brings the value back and loses the history: the
    key has one version, with the number of the latest, no predecessor, the name
    SYSTEM_ROLLBACK for its author, and the time of the rollback. *)
Theorem rollback_of_delete_loses_history now auth ns k s s1 s2 l :
  transactions s = [] :: l -> delete now auth ns k s = (s1, Ok tt) -> rollback_transaction now s1 = (s2, Ok tt) ->
  ~ key_dir_path ns k s `prefix_of` audit_dir s ->
  exists m v b, read_key_metadata ns k s = Ok m /\ last (km_versions m) = Some v /\
    read_version_data ns k (VersionInfo.version v) s = Ok b /\
    let left := VersionInfo.Mk (VersionInfo.version v) rollback_user now None in
    holds ns k {| km_key := k; km_created_by := rollback_user; km_created_at := now; km_versions := [left] |} left b s2.
Proof.
  intros Htx (Hp & Hroot & m & v & b & Hm & Hv & Hb & Ht & Hgone)%delete_steps H Haudit.
  exists m, v, b. split; [done|]. split; [done|]. split; [done|]. intros left.
  unfold rollback_transaction, pop_transaction in H. step H s3 tx H3. rewrite Ht in H3. cbn in H3. rewrite Htx in H3. cbn in H3.
  injection H3 as <- <-. cbn in H. step H s4 u H4. destruct u. injection H as ->.
  step H4 s5 u5 H5. destruct u5. pose proof H5 as Hw. apply write_version_data_ok in H5.
  step H4 s6 there H6. apply reading_ok in H6 as [-> [= H6]].
  assert (forall ns k, key_dir_path ns k (with_transactions l s1) = key_dir_path ns k s) as Hkd.
  { intros. unfold key_dir_path, keys_dir, namespace_path, namespaces_dir. cbn. by rewrite Hroot. }
  assert (extends (with_transactions l s1) s5) as Ho by apply H5.
  destruct (same_paths _ _ Ho) as (P1 & P2 & _).
  assert (there = false) as ->.
  { rewrite <- H6. apply not_true_iff_false. intros Hex. rewrite <- metadata_path_eq, P1 in Hex.
    apply (write_version_data_adds _ _ _ _ _ _ _ Hw) in Hex as [Hex|[Hex|Hex]].
    - rewrite metadata_path_eq, Hkd in Hex. cbn [fs with_transactions] in Hex. rewrite (Hgone Haudit) in Hex; [done| |].
      + by apply prefix_app_r.
      + intros date Hd E. rewrite (log_path_eq _ _ _ Hd) in E. by apply last_snoc_eq in E.
    - rewrite metadata_path_eq in Hex. apply prefix_length in Hex. rewrite length_app in Hex. cbn in Hex. lia.
    - by apply metadata_ne_version in Hex. }
  apply write_key_metadata_ok in H4 as (text & Htext & W2). rewrite P1 in W2.
  assert (extends s5 s2) as Ho2 by apply W2.
  assert (extends (with_transactions l s1) s2) as Ho3 by by etrans.
  destruct (same_paths _ _ Ho3) as (Q1 & Q2 & _). split; [done|]. rewrite Q1, Q2. split.
  - exists text. split; [done|]. by apply (file_wrote_eq _ _ _ _ W2).
  - rewrite (file_wrote_ne _ _ _ _ _ W2) by (intros E; by apply (metadata_ne_version _ _ _ _ _ _ (eq_sym E))).
    by apply (file_wrote_eq _ _ _ _ H5).
Qed.

(** ** Quotas *)

(** What users of a storage ask for. *)
Inductive request : Type :=
  | Get (namespace key : string) | GetVersion (namespace key : string) (version : N) | GetVersioned (namespace key : string)
  | ListVersions (namespace key : string) | DiffVersions (namespace key : string) (v1 v2 : N)
  | ListKeys (namespace : string) (prefix : option string) | ListNamespaces (parent : string)
  | Set_value (namespace key : string) (value : bytes) | Delete (namespace key : string)
  | Begin | Commit | Rollback
  | NewNamespace (namespace : string) (quota : N) (parent : option string)
  | NewAccount (user : string) (quota : N).
Definition forget {A} (m : M A) : M unit := _ ← m; mret tt.
Definition handle (now : N) (auth : option AuthContext.t) (r : request) : M unit :=
  match r with
  | Get ns k => forget (get now auth ns k)
  | GetVersion ns k v => forget (get_version now auth ns k v)
  | GetVersioned ns k => forget (get_versioned now auth ns k)
  | ListVersions ns k => forget (list_versions now auth ns k)
  | DiffVersions ns k v1 v2 => forget (diff_versions now auth ns k v1 v2)
  | ListKeys ns p => forget (list_keys now auth ns p)
  | ListNamespaces p => forget (list_namespaces now auth p)
  | Set_value ns k v => set now auth ns k v
  | Delete ns k => delete now auth ns k
  | Begin => begin_transaction
  | Commit => commit_transaction
  | Rollback => rollback_transaction now
  | NewNamespace ns q p => create_namespace now auth ns q p
  | NewAccount user q => create_account now auth user q
  end.

(** [m] leaves the accounts alone. *)
Definition keeping {A} (m : M A) : Prop := forall s, account_cache (m s).1 = account_cache s.
Lemma keeping_bind {A B} (m : M A) (k : A -> M B) : keeping m -> (forall a, keeping (k a)) -> keeping (m ≫= k).
Proof.
  intros Hm Hk s. specialize (Hm s). unfold mbind, stm_bind. destruct (m s) as [s1 []]; try done.
  etrans; [apply Hk|exact Hm].
Qed.
Lemma keeping_lift {A} (r : res StorageError.t A) : keeping (lift r).
Proof. done. Qed.
Lemma keeping_reading {A} (r : t -> res StorageError.t A) : keeping (reading r).
Proof. done. Qed.
Lemma keeping_ret {A} (a : A) : keeping (mret a).
Proof. done. Qed.
Lemma keeping_throw {A} e : keeping (A := A) (throw e).
Proof. done. Qed.
Lemma keeping_disk {A} f p (m : FileSystem.path -> stm FileSystem.t IoError A) : keeping (disk_at f p m).
Proof. intros s. unfold disk_at, disk. by destruct (m (p s) (fs s)). Qed.
Lemma keeping_record op : keeping (record_for_rollback op).
Proof. intros s. cbn. by destruct (transactions s). Qed.
Lemma keeping_namespaces f : keeping (modify (fun s => with_namespaces (f s) s)).
Proof. done. Qed.
Lemma keeping_attempt {A} (m : M A) : keeping m -> keeping (attempt m).
Proof. intros Hm s. specialize (Hm s). unfold attempt. by destruct (m s). Qed.
Lemma keeping_if {A} (b : bool) (m n : M A) : keeping m -> keeping n -> keeping (if b then m else n).
Proof. by destruct b. Qed.
Lemma keeping_pop verb : keeping (pop_transaction verb).
Proof. intros s. unfold pop_transaction. by destruct (transactions s). Qed.

#[local] Hint Resolve keeping_if keeping_bind keeping_lift keeping_reading keeping_ret keeping_throw keeping_disk
  keeping_record keeping_namespaces keeping_attempt keeping_pop : quota.
Ltac keeping := repeat (apply keeping_bind; [auto with quota|intros ?]); repeat case_match; auto with quota.

Lemma keeping_write_metadata ns k m : keeping (write_key_metadata ns k m).
Proof. unfold write_key_metadata. keeping. Qed.
Lemma keeping_write_version ns k v d : keeping (write_version_data ns k v d).
Proof. unfold write_version_data. keeping. Qed.
Lemma keeping_write_namespace m : keeping (write_namespace_metadata m).
Proof. unfold write_namespace_metadata. keeping. Qed.
Lemma keeping_record_audit_log now a action ns key msg : keeping (record_audit_log now a action ns key msg).
Proof. unfold record_audit_log. keeping. Qed.
#[local] Hint Resolve keeping_write_metadata keeping_write_version keeping_write_namespace
  keeping_record_audit_log : quota.
Lemma keeping_audit now auth action ns key msg : keeping (audit now auth action ns key msg).
Proof. unfold audit. keeping. Qed.
Lemma keeping_require e ns : keeping (require_namespace e ns).
Proof. apply keeping_reading. Qed.
#[local] Hint Resolve keeping_audit keeping_require : quota.
Lemma keeping_get now auth ns k : keeping (get now auth ns k).
Proof. unfold get. keeping. Qed.
Lemma keeping_get_version now auth ns k v : keeping (get_version now auth ns k v).
Proof. unfold get_version. keeping. Qed.
Lemma keeping_bump now user ns k b : keeping (bump_version now user ns k b).
Proof. unfold bump_version. destruct b; keeping. Qed.
#[local] Hint Resolve keeping_get keeping_get_version keeping_bump : quota.

Lemma keeping_diff now auth ns k v1 v2 : keeping (diff_versions now auth ns k v1 v2).
Proof.
  unfold diff_versions. apply keeping_bind; [auto with quota|intros _].
  apply keeping_bind; [auto with quota|intros [data1 _]]. apply keeping_bind; [auto with quota|intros [data2 _]]. keeping.
Qed.
#[local] Hint Resolve keeping_diff : quota.

Lemma keeping_undo now op : keeping (undo now op).
Proof.
  unfold undo, remove_if_there. destruct op as [? ? [] []| | |]; keeping.
Qed.
Lemma keeping_undo_all now ops : keeping (undo_all now ops).
Proof. induction ops; cbn; auto using keeping_undo with quota. Qed.

#[local] Hint Resolve keeping_undo_all : quota.

(** *** What a charge does to the accounts *)

Definition with_used (n : N) (a : Account) : Account :=
  {| user_id := user_id a; account_quota := account_quota a; account_used := n; created_at := created_at a;
     last_updated := last_updated a |}.
Definition charged (user : string) (n : N) (accounts : gmap string Account) : gmap string Account :=
  match accounts !! user with
  | Some a =>
      match u64_add (E := StorageError.t) overflow_checks (account_used a) n with
      | Ok used => if (account_quota a <? used)%N then accounts else <[user := with_used used a]> accounts
      | _ => accounts
      end
  | None => accounts
  end.

Lemma charge_accounts user n s : account_cache (charge user n s).1 = charged user n (account_cache s).
Proof.
  unfold charge, charged. destruct (account_cache s !! user) as [a|]; [|done].
  unfold mbind, stm_bind, lift. destruct (u64_add _ _ _) as [used| | |]; [|done..].
  destruct (account_quota a <? used)%N; [done|]. unfold modify.
  destruct (ser _ _); [|done..]. unfold disk_at, disk. by destruct (FileSystem.write _ _ _).
Qed.

(** [m] charges [user] for at most [bound] bytes, once or not at all. *)
Definition charges {A} (user : string) (bound : N) (m : M A) : Prop := forall s,
  account_cache (m s).1 = account_cache s \/
  exists n, (n <= bound)%N /\ account_cache (m s).1 = charged user n (account_cache s).

Lemma charges_after {A B} user bound (m : M A) (k : A -> M B) :
  keeping m -> (forall a, charges user bound (k a)) -> charges user bound (m ≫= k).
Proof.
  intros Hm Hk s. specialize (Hm s). unfold mbind, stm_bind. destruct (m s) as [s1 []]; auto.
  destruct (Hk a s1) as [H|(n & Hn & H)]; cbn in Hm; rewrite Hm in H; [by left|right; eauto].
Qed.
Lemma charges_before {A B} user bound (m : M A) (k : A -> M B) :
  charges user bound m -> (forall a, keeping (k a)) -> charges user bound (m ≫= k).
Proof.
  intros Hm Hk s. specialize (Hm s). unfold mbind, stm_bind. destruct (m s) as [s1 []]; auto. cbn in Hm.
  setoid_rewrite Hk. exact Hm.
Qed.

Lemma set_charges now auth ns k value : charges (user_of auth) (str_len value) (set now auth ns k value).
Proof.
  unfold set. do 5 (apply charges_after; [auto with quota|intros ?]). apply charges_before.
  - intros s. case_match; [|by left]. right. eexists. split; [|apply charge_accounts]. lia.
  - intros _. keeping.
Qed.

Lemma bind_accounts {A B} (m : M A) (k : A -> M B) s s1 a :
  m s = (s1, Ok a) -> account_cache ((m ≫= k) s).1 = account_cache (k a s1).1.
Proof. intros H. unfold mbind, stm_bind. by rewrite H. Qed.

Lemma bind_accounts_err {A B} (m : M A) (k : A -> M B) s s1 r :
  m s = (s1, r) -> is_ok r = false -> account_cache ((m ≫= k) s).1 = account_cache s1.
Proof. intros H Hr. unfold mbind, stm_bind. rewrite H. by destruct r. Qed.

(** What is left to do when an account was put in the cache. *)
Lemma keeping_account_file now auth user quota (a : Account) :
  keeping (account_json ← lift (ser "FileResourceAccount" (account_to_string a));
           _ ← disk_at from_io (account_path user) (fun p => FileSystem.write p account_json);
           audit now auth "account_created" "global" (Some user)
             ("Created account with " +:+ u64_to_string quota +:+ " byte quota")).
Proof. keeping. Qed.

(** Creating an account whose file is there is refused. *)
Lemma create_account_accounts now auth user quota s :
  account_cache (create_account now auth user quota s).1 = account_cache s \/
  FileSystem.exists_ (account_path user s) (fs s) = false /\
  account_cache (create_account now auth user quota s).1 =
    <[user := {| user_id := user; account_quota := quota; account_used := 0; created_at := now; last_updated := now |}]>
      (account_cache s).
Proof.
  unfold create_account. set (a := {| user_id := user |}).
  destruct (check_permission auth "admin" "global") as [[]|e|m|] eqn:Hp;
    [|left; by eapply bind_accounts_err..].
  erewrite !bind_accounts by reflexivity.
  pose proof (extending_dirs from_io accounts_dir s) as (Hr & _ & Hg).
  pose proof (keeping_disk from_io accounts_dir FileSystem.create_dir_all s) as Hk.
  destruct (disk_at from_io accounts_dir FileSystem.create_dir_all s) as [s1 r] eqn:E. cbn [fst] in Hr, Hg, Hk.
  destruct (is_ok r) eqn:Hok; [|left; by rewrite (bind_accounts_err _ _ _ _ _ E Hok)].
  destruct r as [[]| | |]; try discriminate. rewrite !(bind_accounts _ _ _ _ _ E).
  erewrite !bind_accounts by reflexivity.
  assert (account_path user s1 = account_path user s) as -> by (unfold account_path, accounts_dir; by rewrite Hr).
  destruct (FileSystem.exists_ (account_path user s) (fs s1)) eqn:Hex; [left; exact Hk|]. right. split.
  - apply not_true_iff_false. intros H. by rewrite (FileSystem.exists_grown _ _ _ Hg H) in Hex.
  - erewrite bind_accounts by reflexivity. rewrite keeping_account_file, <- Hk. reflexivity.
Qed.

(** *** Accounts over requests *)

(** The bytes that a request writes. *)
Definition written (r : request) : N := match r with Set_value _ _ v => str_len v | _ => 0%N end.

(** What a request leaves of an account: its quota stays, its usage stays within
    the quota, and shrinks only where an unchecked sum wraps. *)
Definition still_charged (r : request) (a a' : Account) : Prop :=
  account_quota a' = account_quota a /\
  (account_used a <= account_quota a -> account_used a' <= account_quota a)%N /\
  (overflow_checks = true \/ u64_ok (account_used a + written r) -> (account_used a <= account_used a')%N).

Lemma still_charged_refl r a : still_charged r a a.
Proof. by repeat split. Qed.

Lemma charged_still user n r accounts other a : (n <= written r)%N -> accounts !! other = Some a ->
  exists a', charged user n accounts !! other = Some a' /\ still_charged r a a'.
Proof.
  intros Hn Ha. unfold charged. destruct (accounts !! user) as [b|] eqn:Hb; [|eauto using still_charged_refl].
  destruct (u64_add _ _ _) as [used| | |] eqn:Hadd; [|eauto using still_charged_refl..].
  destruct (N.ltb_spec (account_quota b) used); [eauto using still_charged_refl|].
  destruct (decide (other = user)) as [->|Hne]; [|rewrite lookup_insert_ne by done; eauto using still_charged_refl].
  assert (b = a) as -> by congruence. rewrite lookup_insert_eq. eexists. split; [done|]. cbn.
  split; [done|]. split; [cbn; lia|]. cbn. intros Hfits. unfold u64_add in Hadd.
  destruct (N.leb_spec (account_used a + n) u64_max); [injection Hadd as <-; lia|].
  destruct Hfits as [Hoc|Hok]; [by rewrite Hoc in Hadd|unfold u64_ok in Hok; lia].
Qed.

(** C25. Whatever is asked of a storage with any outcome, no account exceeds its
    quota by it, and none gets space back: neither deleting, nor writing less,
    nor rolling back releases what was charged.  There are two exceptions: in a
    build that does not check overflow a sum that wraps, and creating an account
    again whose file is gone, which starts the cached one afresh. *)
Theorem usage_never_shrinks now auth r s user a :
  account_cache s !! user = Some a ->
  exists a', account_cache (handle now auth r s).1 !! user = Some a' /\
    (still_charged r a a' \/
     exists quota, r = NewAccount user quota /\ FileSystem.exists_ (account_path user s) (fs s) = false /\
       a' = {| user_id := user; account_quota := quota; account_used := 0; created_at := now; last_updated := now |}).
Proof.
  intros Ha.
  assert (match r with Set_value _ _ _ | NewAccount _ _ => True | _ => keeping (handle now auth r) end) as Hkeep.
  { destruct r; try done; unfold handle, forget, get_versioned, list_versions, list_keys, list_namespaces, delete,
      commit_transaction, rollback_transaction, create_namespace; solve [keeping|done]. }
  destruct r as [| | | | | | |ns k value| | | | | |other quota];
    try (exists a; rewrite (Hkeep s); eauto using still_charged_refl; fail); cbn [handle].
  - destruct (set_charges now auth ns k value s) as [->|(n & Hn & ->)]; [eauto using still_charged_refl|].
    destruct (charged_still (user_of auth) n (Set_value ns k value) (account_cache s) user a Hn Ha) as (a' & Ha' & Hs); eauto.
  - destruct (create_account_accounts now auth other quota s) as [->|(Hno & ->)]; [eauto using still_charged_refl|].
    destruct (decide (user = other)) as [->|Hne].
    + rewrite lookup_insert_eq. eexists. split; [done|]. right. eauto.
    + rewrite lookup_insert_ne by done. eauto using still_charged_refl.
Qed.

(** ** The log is written to one file and read from another *)

(** What is written to the log is never seen: the entries go to a file per
    day, [get_audit_log] reads "audit.log", which nothing writes, and returns an
    empty list to every administrator after any number of entries. *)
Theorem log_entries_not_seen now a action ns key msg admin event_type_ limit s s' :
  record_audit_log now a action ns key msg s = (s', Ok tt) ->
  FileSystem.exists_ (audit_log_path s) (fs s) = false -> AuthContext.has_role "global" "admin" admin = true ->
  FileSystem.exists_ (audit_log_path s') (fs s') = false /\ get_audit_log (Some admin) None event_type_ limit s' = Ok [].
Proof.
  intros H Hno Hadmin.
  assert (FileSystem.exists_ (audit_log_path s') (fs s') = false) as Hno'.
  { assert (audit_log_path s' = audit_log_path s) as ->.
    { destruct (extends_by _ _ _ _ (extending_audit now (Some a) action ns key msg) H) as [Hr _].
      unfold audit_log_path, audit_dir. by rewrite Hr. }
    apply not_true_iff_false. intros Hex.
    assert (audit_log_path s = audit_dir s ++ ["audit.log"]) as Hp by (unfold audit_log_path; by rewrite FileSystem.join_name).
    apply (record_audit_log_adds _ _ _ _ _ _ _ _ _ H) in Hex as [Hex|[Hex|(date & Hd & E)]]; [congruence| |].
    - rewrite Hp in Hex. apply prefix_length in Hex. rewrite length_app in Hex. cbn in Hex. lia.
    - rewrite Hp, (log_path_eq _ _ _ Hd) in E. by apply last_snoc_eq in E. }
  split; [done|]. unfold get_audit_log. cbn [default]. rewrite Hadmin. cbn [negb andb]. by rewrite Hno'.
Qed.

(** ** Opening ends *)

(** [m] ends, on a disk that it leaves alone. *)
Definition ends {A} (d : FileSystem.t) (m : M A) : Prop := forall s, fs s = d -> fs (m s).1 = d /\ (m s).2 <> OutOfFuel.

Lemma finishes_bind {A B} d (m : M A) (k : A -> M B) : ends d m -> (forall a, ends d (k a)) -> ends d (m ≫= k).
Proof.
  intros Hm Hk s Hs. destruct (Hm s Hs) as [H1 H2]. unfold mbind, stm_bind. destruct (m s) as [s1 []]; cbn in *; auto.
  by apply Hk.
Qed.

Lemma ends_load_one d dir : ends d (load_one dir).
Proof.
  intros s Hs. unfold load_one. destruct (FileSystem.exists_ _ (fs s)); [|done].
  pose proof (FileSystem.read_to_string_ends (FileSystem.join dir "namespace_metadata.json") (fs s)) as Hr.
  destruct (FileSystem.read_to_string _ _) as [text| | |]; try done.
  pose proof (namespace_reads text) as Hn. by destruct (namespace_from_str text).
Qed.

Lemma depth_of_bound d p : p ∈ FileSystem.dirs d -> length p <= depth_of d.
Proof.
  intros Hp. unfold depth_of. induction Hp as [ps|q ps Hq IH]; cbn; lia.
Qed.

Lemma load_recursive_ends d fuel dir :
  0 < fuel -> depth_of d < fuel + length dir -> ends d (load_namespaces_recursive fuel dir).
Proof.
  revert dir. induction fuel as [|fuel IH]; intros dir Hf Hd; [lia|]. cbn [load_namespaces_recursive].
  apply finishes_bind; [by intros s|intros there]. destruct there; cbn [negb]; [|by intros s].
  apply finishes_bind; [apply ends_load_one|intros _]. apply finishes_bind.
  { intros s Hs. unfold reading, FileSystem.read_dir. by repeat case_match; simplify_eq/=. }
  intros names. induction names as [|name names IHn]; cbn [foldr]; [by intros s|].
  intros s Hs. unfold mbind, stm_bind, reading.
  destruct (FileSystem.is_dir (dir ++ [name]) (fs s) && negb (String.eqb name "keys")) eqn:E; [|by apply IHn].
  apply andb_prop in E as [E _].
  assert (length (dir ++ [name]) <= depth_of d) as Hl.
  { apply depth_of_bound. rewrite <- Hs. apply FileSystem.is_dir_elem in E as [E|E]; [|done]. by apply app_eq_nil in E as []. }
  rewrite length_app in Hl. cbn in Hl. apply (finishes_bind d _ (fun _ => _) (IH (dir ++ [name]) ltac:(lia) ltac:(rewrite length_app; cbn; lia)) (fun _ => IHn) s Hs).
Qed.

Definition total {A} (m : M A) : Prop := forall s, (m s).2 <> OutOfFuel.
Lemma total_bind {A B} (m : M A) (k : A -> M B) : total m -> (forall a, total (k a)) -> total (m ≫= k).
Proof. intros Hm Hk s. specialize (Hm s). unfold mbind, stm_bind. destruct (m s) as [s1 []]; try done. apply Hk. Qed.

Lemma total_create_dir what dir : total (create_dir what dir).
Proof. intros s. unfold create_dir, disk_at, disk, FileSystem.create_dir_all. by repeat case_match; simplify_eq/=. Qed.

Lemma total_load_namespace_cache : total load_namespace_cache.
Proof.
  intros s. unfold load_namespace_cache, modify, mbind, stm_bind. cbn [fst].
  by eapply (load_recursive_ends (fs s)); [lia|lia|].
Qed.

Lemma total_load_account name : total (load_account name).
Proof.
  intros s. unfold load_account. destruct (_ && _); [|done].
  pose proof (FileSystem.read_to_string_ends (accounts_dir s ++ [name]) (fs s)) as Hr.
  destruct (FileSystem.read_to_string _ _) as [text| | |]; try done.
  pose proof (account_reads text). by destruct (account_from_str text).
Qed.

Lemma total_load_account_cache : total load_account_cache.
Proof.
  intros s. unfold load_account_cache. apply (total_bind (modify (with_accounts ∅))); [done|intros _].
  destruct (negb _); [done|]. apply total_bind.
  - intros s'. unfold lift, FileSystem.read_dir. by repeat case_match; simplify_eq/=.
  - intros names. induction names as [|name names IH]; [done|]. cbn [foldr]. apply total_bind; [apply total_load_account|done].
Qed.

(** Opening a storage ends on every disk: the walk over the directories of
    namespaces goes no deeper than the deepest of them. *)
Theorem opening_ends root d : (new root d).2 <> OutOfFuel.
Proof.
  unfold new. repeat (apply total_bind; [auto using total_create_dir, total_load_namespace_cache|intros ?]).
  apply total_load_account_cache.
Qed.

End Storage.

End FileStorage.

(** ** A concrete disk *)
Module FileExamples.

Import FileStorage.

#[local] Instance platform : Platform :=
  {| clock := N.of_nat; overflow_checks := true; debug_storage_error := fun _ => "error" |}.

Abbreviation tree := (gen_tree (N + string)).
Fixpoint version_tree (v : VersionInfo.t) : tree :=
  match v with
  | VersionInfo.Mk n c ts p =>
      GenNode 0 ([GenLeaf (inl n); GenLeaf (inr c); GenLeaf (inl ts)] ++
                 match p with Some q => [version_tree q] | None => [] end)
  end.
Fixpoint tree_version (x : tree) : option VersionInfo.t :=
  match x with
  | GenNode _ [GenLeaf (inl n); GenLeaf (inr c); GenLeaf (inl ts)] => Some (VersionInfo.Mk n c ts None)
  | GenNode _ [GenLeaf (inl n); GenLeaf (inr c); GenLeaf (inl ts); q] =>
      VersionInfo.Mk n c ts ∘ Some <$> tree_version q
  | _ => None
  end.
Definition metadata_tree (m : KeyMetadata) : tree :=
  GenNode 0 ([GenLeaf (inr (km_key m)); GenLeaf (inr (km_created_by m)); GenLeaf (inl (km_created_at m))] ++
             (version_tree <$> km_versions m)).
Definition tree_metadata (x : tree) : option KeyMetadata :=
  match x with
  | GenNode _ (GenLeaf (inr k) :: GenLeaf (inr c) :: GenLeaf (inl ts) :: vs) =>
      (fun l => {| km_key := k; km_created_by := c; km_created_at := ts; km_versions := l |}) <$> mapM tree_version vs
  | _ => None
  end.

Lemma tree_version_tree v : tree_version (version_tree v) = Some v.
Proof.
  revert v. fix IH 1. intros [n c ts [q|]]; cbn; [|done]. by rewrite (IH q).
Qed.
Lemma tree_metadata_tree m : tree_metadata (metadata_tree m) = Some m.
Proof.
  destruct m as [k c ts vs]. cbn.
  assert (mapM tree_version (version_tree <$> vs) = Some vs) as ->; [|done].
  induction vs as [|v vs IH]; [done|]. cbn. rewrite tree_version_tree. cbn. by rewrite IH.
Qed.

#[local] Instance sample_file_calls : FileCalls :=
  {| metadata_to_string := fun m => Ok (text_of_code (encode (metadata_tree m)));
     metadata_from_str := fun s =>
       match decode (code_of_text s) ≫= tree_metadata with
       | Some m => if json_depth m <? recursion_limit then Ok m else Err "recursion limit exceeded"
       | None => Err "not metadata"
       end;
     namespace_to_string := fun m => Ok (path m); namespace_from_str := fun _ => Err "not a namespace";
     account_to_string := fun a => Ok (user_id a); account_from_str := fun _ => Err "not an account";
     entry_to_string := fun e => Ok (al_action e); event_from_str := fun _ => None;
     io_display := fun _ => "I/O error"; display_path := fun p => join "/" p;
     debug_option_str := fun _ => "option"; day_of := fun _ => Some "19700101"; dir_order := fun l => l |}.

Lemma sample_metadata m : metadata_from_str (text_of_code (encode (metadata_tree m))) =
  if json_depth m <? recursion_limit then Ok m else Err "recursion limit exceeded".
Proof.
  unfold metadata_from_str, sample_file_calls. rewrite code_of_text_of_code, decode_encode.
  unfold mbind, option_bind. by rewrite tree_metadata_tree.
Qed.

#[local] Instance sample_file_laws : FileCallsLaws.
Proof.
  split; try done.
  - intros m text Hd [= <-]. rewrite sample_metadata. by apply Nat.ltb_lt in Hd as ->.
  - intros m text Hd [= <-]. rewrite sample_metadata. apply Nat.ltb_ge in Hd as ->. by eexists.
  - intros m text [= <-]. unfold from_utf8. by rewrite text_of_code_valid.
  - intros e. by eexists.
  - by intros n day [= <-].
Qed.

Definition admin : AuthContext.t := InMemoryStorage.admin.
Definition opened : t := (new ["d"] FileSystem.empty).1.
(** An account of ten bytes, a namespace, and two keys. *)
Definition filled : t :=
  ((_ ← create_account 1 (Some admin) (AuthContext.user_id_cloneable admin) 10;
    _ ← create_namespace 1 (Some admin) "c" 100 None;
    _ ← set 2 (Some admin) "c" "a" "one";
    set 3 (Some admin) "c" "a/b" "two") opened).1.

Lemma opening_ends_witness : (new ["d"] FileSystem.empty).2 <> OutOfFuel.
Proof. apply opening_ends. Defined.

Definition after_set : t := (set 6 (Some admin) "c" "e" "x" filled).1.

(** A key whose metadata names a version with 124 before it, and one more write. *)
Fixpoint deep_version (n : nat) : VersionInfo.t :=
  VersionInfo.Mk (N.of_nat n) "root" 0 (match n with O => None | S n => Some (deep_version n) end).
Definition deep : KeyMetadata :=
  {| km_key := "e"; km_created_by := "root"; km_created_at := 0; km_versions := [deep_version 124] |}.
Definition deep_filled : t := (write_key_metadata "c" "e" deep filled).1.
Definition after_deep_set : t := (set 6 (Some admin) "c" "e" "x" deep_filled).1.

(** Whether the stored metadata of the key is read. *)
Definition reads (s : t) : option bool :=
  is_ok ∘ metadata_from_str <$> FileSystem.file (metadata_path "c" "e" s) (fs s).


Definition deleted : t := (delete 7 (Some admin) "c" "a" filled).1.

Lemma not_below_log : ~ key_dir_path "c" "a" filled `prefix_of` audit_dir filled.
Proof. vm_compute. intros [l H]. discriminate. Qed.

Lemma delete_takes_nested_keys_witness :
  contains (Some admin) "c" "a/b" filled = Ok true /\ contains (Some admin) "c" "a/b" deleted = Ok false.
Proof.
  split; [evaluate|].
  apply (delete_takes_nested_keys 7 (Some admin) "c" "a" "b" filled deleted);
    [evaluate|discriminate|reflexivity|exact not_below_log].
Defined.

Definition begun : t := (begin_transaction filled).1.
Definition deleted_inside : t := (delete 7 (Some admin) "c" "a" begun).1.
Definition rolled_back : t := (rollback_transaction 7 deleted_inside).1.

Lemma rollback_of_delete_loses_history_witness :
  (list_versions 8 (Some admin) "c" "a" rolled_back).2 = Ok [VersionInfo.Mk 1 "SYSTEM_ROLLBACK" 7 None] /\
  exists m v b, read_key_metadata "c" "a" begun = Ok m /\ last (km_versions m) = Some v /\
    read_version_data "c" "a" (VersionInfo.version v) begun = Ok b /\
    let left := VersionInfo.Mk (VersionInfo.version v) rollback_user 7 None in
    holds "c" "a" {| km_key := "a"; km_created_by := rollback_user; km_created_at := 7; km_versions := [left] |} left b
      rolled_back.
Proof.
  split; [evaluate|].
  apply (rollback_of_delete_loses_history 7 (Some admin) "c" "a" begun deleted_inside rolled_back []);
    [reflexivity|evaluate|evaluate|].
  vm_compute. intros [l H]. discriminate.
Defined.

Definition charged_account : Account :=
  {| user_id := AuthContext.user_id_cloneable admin; account_quota := 10; account_used := 6; created_at := 1;
     last_updated := 1 |}.

Lemma usage_never_shrinks_witness :
  exists a', account_cache (handle 7 (Some admin) (Delete "c" "a") filled).1 !! AuthContext.user_id_cloneable admin = Some a' /\
    account_quota a' = 10%N /\ (6 <= account_used a' <= 10)%N.
Proof.
  destruct (usage_never_shrinks 7 (Some admin) (Delete "c" "a") filled (AuthContext.user_id_cloneable admin) charged_account)
    as (a' & Ha & [(Hq & Hle & Hge)|(q & Hq & _)]).
  - evaluate.
  - exists a'. split; [exact Ha|]. split; [exact Hq|]. split; [apply Hge; by left|].
    apply Hle. discriminate.
  - discriminate.
Defined.

Lemma log_entries_not_seen_witness :
  let s' := (record_audit_log 9 admin "write" "c" None "entry" filled).1 in
  FileSystem.exists_ (audit_log_path s') (fs s') = false /\ get_audit_log (Some admin) None None 10 s' = Ok [].
Proof.
  apply (log_entries_not_seen 9 admin "write" "c" None "entry" admin None 10 filled); evaluate.
Defined.

End FileExamples.
