(* ===== verification/Federation.v ===== *)
(** * The federation's proposals and votes: federation/messages.rs, error.rs, storage.rs

    Messages between nodes, and the store of federated proposals and votes: a
    cache in memory beside the storage backend.  The cache's mutex is taken and
    released within one method and no method panics while holding it, so it is
    never poisoned; the cache is part of the state.  Logging is not kept.  The
    JSON of a vote is only read back when its numbers are short decimals. *)
From S2P Require Import Prelude Float64 Text Ops Stack Memory Auth Storage InMemory Economic Executor.
From S2P Require Import Ledger Trace Machine.

(** ** federation/error.rs *)
Module FederationError.

(** An [io::Error] is kept as its text. *)
Inductive t : Type :=
  | NetworkError (msg : string)
  | TransportError (msg : string)
  | ConnectionError (msg : string)
  | ProtocolError (msg : string)
  | SerializationError (msg : string)
  | AuthenticationError (msg : string)
  | StorageError (err : StorageError.t)
  | NotFoundError (msg : string)
  | ConfigurationError (msg : string)
  | ClockError (msg : string)
  | PermissionDenied (msg : string)
  | ProposalValidationError (msg : string)
  | VoteValidationError (msg : string)
  | TimeoutError (msg : string)
  | IoError (err : string)
  | InvalidArgumentError (msg : string)
  | Other (msg : string).

Definition to_string (e : t) : string :=
  match e with
  | NetworkError msg => "Network error: " +:+ msg
  | TransportError msg => "Transport error: " +:+ msg
  | ConnectionError msg => "Connection error: " +:+ msg
  | ProtocolError msg => "Protocol error: " +:+ msg
  | SerializationError msg => "Serialization error: " +:+ msg
  | AuthenticationError msg => "Authentication error: " +:+ msg
  | StorageError err => "Storage error: " +:+ StorageError.to_string err
  | NotFoundError msg => "Not found: " +:+ msg
  | ConfigurationError msg => "Configuration error: " +:+ msg
  | ClockError msg => "Clock error: " +:+ msg
  | PermissionDenied msg => "Permission denied: " +:+ msg
  | ProposalValidationError msg => "Proposal validation error: " +:+ msg
  | VoteValidationError msg => "Vote validation error: " +:+ msg
  | TimeoutError msg => "Timeout: " +:+ msg
  | IoError err => "IO error: " +:+ err
  | InvalidArgumentError msg => "Invalid argument: " +:+ msg
  | Other msg => "Error: " +:+ msg
  end.

End FederationError.

(** ** federation/messages.rs *)

Inductive ProposalScope : Type :=
  | SingleCoop (coop : string)
  | MultiCoop (coops : list string)
  | GlobalFederation.

Inductive VotingModel : Type := OneMemberOneVote | OneCoopOneVote.

Module FederatedStatus.

Inductive t : Type := Open | Closed | Executed | Rejected | Expired.

#[global] Instance eq_dec : EqDecision t.
Proof. solve_decision. Defined.

End FederatedStatus.

Module FederatedProposal.

Record t : Type := {
  proposal_id : string;
  namespace : string;
  options : list string;
  creator : string;
  created_at : Z;
  scope : ProposalScope;
  voting_model : VotingModel;
  expires_at : option Z;
  status : FederatedStatus.t;
}.

(** [now] is the clock in seconds; before 1970 it reads 0. *)
Definition new (now : N) (proposal_id namespace : string) (options : list string) (creator : string)
    (scope : ProposalScope) (voting_model : VotingModel) : t :=
  {| proposal_id := proposal_id; namespace := namespace; options := options; creator := creator;
     created_at := i64_of_u64 now; scope := scope; voting_model := voting_model; expires_at := None;
     status := FederatedStatus.Open |}.

Definition with_expires_at (e : option Z) (self : t) : t :=
  {| proposal_id := proposal_id self; namespace := namespace self; options := options self;
     creator := creator self; created_at := created_at self; scope := scope self;
     voting_model := voting_model self; expires_at := e; status := status self |}.

Definition with_expiration {E} (overflow_checks : bool) (now : N) (expires_in_seconds : Z) (self : t) : res E t :=
  e ← i64_add overflow_checks (i64_of_u64 now) expires_in_seconds;
  Ok (with_expires_at (Some e) self).

End FederatedProposal.

Module FederatedVote.

Record t : Type := {
  proposal_id : string;
  voter : string;
  ranked_choices : list f64;
  message : string;
  signature : string;
}.

End FederatedVote.

Record NodeAnnouncement : Type := {
  node_id : string;
  capabilities : list string;
  version : string;
  name : option string;
}.
Record Ping : Type := { ping_nonce : N; ping_timestamp_ms : N }.
(** The [Duration] of a pong is in nanoseconds. *)
Record Pong : Type := { pong_nonce : N; pong_timestamp_ms : N; pong_ttl : option N }.

Inductive NetworkMessage : Type :=
  | NodeAnnouncementMessage (m : NodeAnnouncement)
  | PingMessage (m : Ping)
  | PongMessage (m : Pong)
  | ProposalBroadcast (m : FederatedProposal.t)
  | VoteSubmission (m : FederatedVote.t).

(** ** federation/storage.rs *)

(** serde_json on what the store keeps. *)
Class FederationJson : Type := {
  proposal_to_vec : FederatedProposal.t -> res string bytes;
  proposal_from_slice : bytes -> res string FederatedProposal.t;
  votes_to_vec : list FederatedVote.t -> res string bytes;
  votes_from_slice : bytes -> res string (list FederatedVote.t);
  identity_from_slice : bytes -> res string Identity.t;
}.

(** The preferences of the votes are short decimals, such as the 0.0, 1.0 and 2.0
    that the federation commands cast. *)
Definition plain_votes (vs : list FederatedVote.t) : Prop :=
  Forall (fun v => Forall short_decimal (FederatedVote.ranked_choices v)) vs.

(** What is written is read back as it was; of votes that is so when their
    preferences are short decimals, for others may be rounded or refused. *)
Class FederationJsonLaws `{FederationJson} : Prop := {
  proposal_json : forall p b, proposal_to_vec p = Ok b -> proposal_from_slice b = Ok p;
  votes_json : forall vs b, plain_votes vs -> votes_to_vec vs = Ok b -> votes_from_slice b = Ok vs;
}.

Module FederationCache.

Record t : Type := {
  proposals : gmap string FederatedProposal.t;
  votes : gmap string (list FederatedVote.t);
}.

Definition default_ : t := {| proposals := ∅; votes := ∅ |}.

Definition insert_proposal (p : FederatedProposal.t) (self : t) : t :=
  {| proposals := <[FederatedProposal.proposal_id p := p]> (proposals self); votes := votes self |}.

(** The vote of the same voter is replaced where it stands. *)
Fixpoint replace_vote (v : FederatedVote.t) (l : list FederatedVote.t) : list FederatedVote.t :=
  match l with
  | [] => [v]
  | w :: l =>
      if String.eqb (FederatedVote.voter w) (FederatedVote.voter v) then v :: l else w :: replace_vote v l
  end.

Definition insert_vote (v : FederatedVote.t) (self : t) : t :=
  let pid := FederatedVote.proposal_id v in
  {| proposals := proposals self;
     votes := <[pid := replace_vote v (default [] (votes self !! pid))]> (votes self) |}.

End FederationCache.

Record VoteTallyResult : Type := {
  tally_proposal : FederatedProposal.t;
  winner_index : N;
  winner_option : string;
  total_votes : N;
}.

Definition FEDERATION_NAMESPACE : string := "federation".
Definition VOTES_NAMESPACE : string := "votes".
Definition FEDERATION_PROPOSAL_PREFIX : string := "federation/proposals/".
Definition FEDERATION_VOTES_PREFIX : string := "federation/votes/".
Definition FEDERATION_SYNC_PREFIX : string := "federation/sync/".

Module FederationStorage.

Definition new : FederationCache.t := FederationCache.default_.

Definition make_proposal_key (proposal_id : string) : string := FEDERATION_PROPOSAL_PREFIX +:+ proposal_id.
Definition make_votes_key (proposal_id : string) : string := FEDERATION_VOTES_PREFIX +:+ proposal_id.
Definition make_sync_base_key (proposal_id : string) : string := FEDERATION_SYNC_PREFIX +:+ proposal_id.
Definition make_sync_key (proposal_id : string) : string := make_sync_base_key proposal_id +:+ "/last_seen".

Definition proposal_type : string := "icn_covm::federation::messages::FederatedProposal".
Definition votes_type : string := "alloc::vec::Vec<icn_covm::federation::messages::FederatedVote>".

(** The signature check is a stand-in: two fixed signatures pass, and else
    every text that is not empty. *)
Definition verify_signature (voter_id message signature scheme : string) (public_key : bytes) : bool :=
  if String.eqb signature "valid" || String.eqb signature "mock_signature" then true
  else if String.eqb scheme "ed25519" || String.eqb scheme "secp256k1" then
    negb (is_empty signature) && negb (is_empty message) && negb (is_empty public_key)
  else false.

Definition other {A} (details : string) : res StorageError.t A := Err (StorageError.Other details).
Definition explain (what : string) (e : StorageError.t) : StorageError.t :=
  StorageError.Other (what +:+ ": " +:+ StorageError.to_string e).

Section Store.

Context {S : Type} `{SB : StorageBackend S} `{FJ : FederationJson}.

Abbreviation state := (FederationCache.t * S)%type.
Abbreviation M := (stm (FederationCache.t * S)%type StorageError.t).

Definition on_storage {A} (m : stm S StorageError.t A) : M A := zoom snd (fun s st => (st.1, s)) m.
Definition on_cache (f : FederationCache.t -> FederationCache.t) : M unit := modify (fun st => (f st.1, st.2)).
Definition storage_map_err {A} (f : StorageError.t -> StorageError.t) (m : M A) : M A := fun st =>
  let '(st', r) := m st in (st', map_err f r).
Definition reading {A} (r : state -> res StorageError.t A) : M A := fun st => (st, r st).

(** ** Proposals *)

Definition save_proposal_as (what : string) (now : N) (auth : option AuthContext.t) (proposal : FederatedProposal.t) :
    M unit :=
  _ ← storage_map_err (explain what)
        (on_storage (StorageExtensions.set_json proposal_to_vec proposal_type now auth
                       (FederatedProposal.namespace proposal)
                       (make_proposal_key (FederatedProposal.proposal_id proposal)) proposal));
  on_cache (FederationCache.insert_proposal proposal).

Definition save_proposal (now : N) (proposal : FederatedProposal.t) : M unit :=
  save_proposal_as "Failed to save proposal to storage" now None proposal.
Definition save_proposal_with_auth (now : N) (auth : option AuthContext.t) (proposal : FederatedProposal.t) : M unit :=
  save_proposal_as "Failed to save proposal to storage with auth" now auth proposal.

Definition get_proposal (proposal_id : string) (st : state) : res StorageError.t FederatedProposal.t :=
  match FederationCache.proposals st.1 !! proposal_id with
  | Some proposal => Ok proposal
  | None =>
      map_err (explain ("Failed to retrieve proposal " +:+ proposal_id))
        (StorageExtensions.get_json proposal_from_slice proposal_type None FEDERATION_NAMESPACE
           (make_proposal_key proposal_id) st.2)
  end.

(** ** Votes *)

Definition load_identity_from_storage (identity_id : string) (storage : S) : res StorageError.t Identity.t :=
  StorageExtensions.get_identity identity_from_slice identity_id storage.

(** A panic of the lookup is not caught, unlike an error. *)
Definition voter_of (vote : FederatedVote.t) (voter_identity : option Identity.t) (storage : S) :
    res StorageError.t Identity.t :=
  match voter_identity with
  | Some id => Ok id
  | None =>
      map_err (fun _ => StorageError.NotFound ("Identity for voter " +:+ FederatedVote.voter vote +:+ " not found"))
        (load_identity_from_storage (FederatedVote.voter vote) storage)
  end.

Definition check_signature (vote : FederatedVote.t) (identity : Identity.t) : res StorageError.t unit :=
  let voter := FederatedVote.voter vote in
  match Identity.public_key identity with
  | Some pub_key =>
      match Identity.crypto_scheme identity with
      | Some scheme =>
          if verify_signature voter (FederatedVote.message vote) (FederatedVote.signature vote) scheme pub_key
          then Ok tt
          else other ("Invalid signature for vote from " +:+ voter)
      | None => other ("No crypto scheme specified for voter " +:+ voter)
      end
  | None => other ("No public key available for voter " +:+ voter)
  end.

Definition check_eligible (scope : ProposalScope) (identity : Identity.t) : res StorageError.t unit :=
  match scope with
  | SingleCoop coop_id =>
      if Identity.belongs_to coop_id identity then Ok tt
      else other ("Voter not a member of eligible cooperative " +:+ coop_id)
  | MultiCoop coop_ids =>
      if existsb (fun coop_id => Identity.belongs_to coop_id identity) coop_ids then Ok tt
      else other "Voter not a member of any eligible cooperatives"
  | GlobalFederation => Ok tt
  end.

(** The votes stored so far; a missing key is an empty list. *)
Definition stored_votes (proposal_id : string) (storage : S) : res StorageError.t (list FederatedVote.t) :=
  match StorageExtensions.get_json votes_from_slice votes_type None VOTES_NAMESPACE (make_votes_key proposal_id)
          storage with
  | Err (StorageError.NotFound _) => Ok []
  | r => map_err (explain "Failed to retrieve existing votes") r
  end.

Definition save_vote (now : N) (vote : FederatedVote.t) (voter_identity : option Identity.t) : M unit :=
  let pid := FederatedVote.proposal_id vote in
  proposal ← reading (get_proposal pid);
  if decide (FederatedProposal.status proposal = FederatedStatus.Open) then
    identity ← reading (fun st => voter_of vote voter_identity st.2);
    _ ← lift (check_signature vote identity);
    _ ← lift (check_eligible (FederatedProposal.scope proposal) identity);
    votes ← reading (fun st => stored_votes pid st.2);
    _ ← storage_map_err (explain "Failed to save votes to storage")
          (on_storage (StorageExtensions.set_json votes_to_vec votes_type now None VOTES_NAMESPACE
                         (make_votes_key pid) (votes ++ [vote])));
    on_cache (FederationCache.insert_vote vote)
  else lift (other ("Proposal " +:+ pid +:+ " is not open for voting")).

Definition get_votes (proposal_id : string) (st : state) : res StorageError.t (list FederatedVote.t) :=
  match FederationCache.votes st.1 !! proposal_id with
  | Some votes => Ok votes
  | None =>
      map_err (explain ("Failed to retrieve votes for proposal " +:+ proposal_id))
        (StorageExtensions.get_json votes_from_slice votes_type None VOTES_NAMESPACE (make_votes_key proposal_id) st.2)
  end.

End Store.

(** ** Ballots *)

(** The key under which a vote is kept when each cooperative has one vote. *)
Definition ballot_key (voter_identities : gmap string Identity.t) (vote : FederatedVote.t) : string :=
  match voter_identities !! FederatedVote.voter vote with
  | Some identity =>
      match Identity.get_metadata "coop_id" identity with
      | Some coop_id => coop_id
      | None => FederatedVote.voter vote
      end
  | None => FederatedVote.voter vote
  end.

(** Whether the vote comes from a voter whose cooperative is known; only then is
    the index compared. *)
Definition has_coop (voter_identities : gmap string Identity.t) (vote : FederatedVote.t) : bool :=
  match voter_identities !! FederatedVote.voter vote with
  | Some identity => bool_decide (is_Some (Identity.get_metadata "coop_id" identity))
  | None => false
  end.

Fixpoint coop_votes (voter_identities : gmap string Identity.t) (idx : nat) (votes : list FederatedVote.t)
    (acc : gmap string (FederatedVote.t * nat)) : gmap string (FederatedVote.t * nat) :=
  match votes with
  | [] => acc
  | vote :: votes =>
      let key := ballot_key voter_identities vote in
      let insert := <[key := (vote, idx)]> acc in
      let acc' :=
        if has_coop voter_identities vote then
          match acc !! key with
          | Some (_, existing_idx) => if existing_idx <? idx then insert else acc
          | None => insert
          end
        else insert in
      coop_votes voter_identities (idx + 1) votes acc'
  end.

Definition prepare_ranked_ballots `{Renderings} (votes : list FederatedVote.t) (proposal : FederatedProposal.t)
    (voter_identities : gmap string Identity.t) : list (list f64) :=
  match FederatedProposal.voting_model proposal with
  | OneMemberOneVote => FederatedVote.ranked_choices <$> votes
  | OneCoopOneVote => (fun p => FederatedVote.ranked_choices p.1) <$> hash_values (coop_votes voter_identities 0 votes ∅)
  end.

End FederationStorage.

(** [SystemTime::now] fails before 1970. *)
Definition current_timestamp (clock_secs : res string N) : res FederationError.t Z :=
  map_err (fun e => FederationError.ClockError ("Failed to get current timestamp: " +:+ e)) (i64_of_u64 <$> clock_secs).
Definition current_timestamp_or_default (clock_secs : res string N) (default_ : Z) : Z :=
  match current_timestamp clock_secs with
  | Ok timestamp => timestamp
  | _ => default_
  end.

(** ** Theorems *)
Module VoteTheorems.

Import FederationStorage.

Lemma replace_vote_voters v l :
  FederatedVote.voter <$> FederationCache.replace_vote v l =
  (FederatedVote.voter <$> l) ++
    (if decide (FederatedVote.voter v ∈ (FederatedVote.voter <$> l)) then [] else [FederatedVote.voter v]).
Proof.
  induction l as [|w l IH]; [done|]. cbn [FederationCache.replace_vote].
  destruct (String.eqb_spec (FederatedVote.voter w) (FederatedVote.voter v)) as [He|Hne]; cbn.
  - rewrite He, decide_True by (by left). by rewrite app_nil_r.
  - rewrite IH. f_equal. f_equal. apply decide_ext. rewrite elem_of_cons. naive_solver.
Qed.

Lemma replace_vote_nodup v l :
  NoDup (FederatedVote.voter <$> l) -> NoDup (FederatedVote.voter <$> FederationCache.replace_vote v l).
Proof.
  intros Hl. rewrite replace_vote_voters. case_decide; [by rewrite app_nil_r|].
  apply NoDup_app. repeat split; [done|set_solver|apply NoDup_singleton].
Qed.

(** What the cache shows of a sequence of votes: the last vote of every voter. *)
Definition latest (vs : list FederatedVote.t) : list FederatedVote.t :=
  foldl (fun l v => FederationCache.replace_vote v l) [] vs.

Lemma latest_snoc vs v : latest (vs ++ [v]) = FederationCache.replace_vote v (latest vs).
Proof. unfold latest. by rewrite foldl_app. Qed.

Lemma latest_nodup vs : NoDup (FederatedVote.voter <$> latest vs).
Proof.
  induction vs as [|v vs IH] using rev_ind; [constructor|].
  rewrite latest_snoc. by apply replace_vote_nodup.
Qed.

Section Store.

Context {S : Type} `{SL : StorageLaws S} `{FJL : FederationJsonLaws}.

Abbreviation state := (FederationCache.t * S)%type.

Lemma on_storage_eq {A} (m : stm S StorageError.t A) c s : on_storage m (c, s) = ((c, (m s).1), (m s).2).
Proof. unfold on_storage, zoom. cbn. by destruct (m s). Qed.

Lemma set_json_ok {T} (to_vec : T -> res string bytes) ty now auth ns k x s s' :
  StorageExtensions.set_json to_vec ty now auth ns k x s = (s', Ok tt) ->
  exists b, to_vec x = Ok b /\
    forall ns' k', view s' ns' k' = if decide (ns' = ns /\ k' = k) then Some b else view s ns' k'.
Proof.
  unfold StorageExtensions.set_json. rewrite stm_bind_ok. intros (s1 & b & Hb & Hs).
  unfold lift in Hb. destruct (to_vec x) eqn:Hx; simplify_eq/=. exists b.
  split; [done|]. by eapply law_set_ok.
Qed.

(** The state after a write that succeeded, and what was written. *)
Lemma written_ok {T} (to_vec : T -> res string bytes) ty now auth ns k x what c s st' :
  storage_map_err (explain what) (on_storage (StorageExtensions.set_json to_vec ty now auth ns k x)) (c, s) = (st', Ok tt) ->
  exists s' b, st' = (c, s') /\ to_vec x = Ok b /\
    forall ns' k', view s' ns' k' = if decide (ns' = ns /\ k' = k) then Some b else view s ns' k'.
Proof.
  unfold storage_map_err. rewrite on_storage_eq.
  destruct (StorageExtensions.set_json to_vec ty now auth ns k x s) as [s1 r] eqn:Hset. cbn.
  destruct r as [[]| | |]; intros [= <-]. apply set_json_ok in Hset as (b & Hb & Hv). by exists s1, b.
Qed.

(** A vote that is accepted passed every check, is put at the end of the stored
    votes, and replaces the voter's vote in the cache. *)
Lemma save_vote_ok now vote who c s st' :
  save_vote now vote who (c, s) = (st', Ok tt) ->
  exists proposal identity votes s' b,
    get_proposal (FederatedVote.proposal_id vote) (c, s) = Ok proposal /\
    FederatedProposal.status proposal = FederatedStatus.Open /\
    voter_of vote who s = Ok identity /\
    check_signature vote identity = Ok tt /\
    check_eligible (FederatedProposal.scope proposal) identity = Ok tt /\
    stored_votes (FederatedVote.proposal_id vote) s = Ok votes /\
    st' = (FederationCache.insert_vote vote c, s') /\
    votes_to_vec (votes ++ [vote]) = Ok b /\
    forall ns k, view s' ns k =
      if decide (ns = VOTES_NAMESPACE /\ k = make_votes_key (FederatedVote.proposal_id vote)) then Some b
      else view s ns k.
Proof.
  unfold save_vote. rewrite stm_bind_ok. intros (st1 & proposal & [= <- Hp] & Hk).
  case_decide as Hopen; [|done].
  rewrite stm_bind_ok in Hk. destruct Hk as (st2 & identity & [= <- Hid] & Hk).
  rewrite stm_bind_ok in Hk. destruct Hk as (st3 & [] & [= <- Hsig] & Hk).
  rewrite stm_bind_ok in Hk. destruct Hk as (st4 & [] & [= <- Hel] & Hk).
  rewrite stm_bind_ok in Hk. destruct Hk as (st5 & votes & [= <- Hv] & Hk).
  rewrite stm_bind_ok in Hk. destruct Hk as (st6 & [] & Hw & Hk).
  apply written_ok in Hw as (s' & b & -> & Hb & Hview). injection Hk as <-.
  by exists proposal, identity, votes, s', b.
Qed.

(** Votes accepted one after the other, each by its clock and identity. *)
Inductive accepted : state -> list FederatedVote.t -> state -> Prop :=
  | accepted_nil st : accepted st [] st
  | accepted_snoc st vs st1 now v who st2 :
      accepted st vs st1 -> save_vote now v who st1 = (st2, Ok tt) -> accepted st (vs ++ [v]) st2.

Context (reads_votes : permitted None "read" VOTES_NAMESPACE = Ok tt).

Lemma stored_votes_eq pid s :
  stored_votes pid s =
  match view s VOTES_NAMESPACE (make_votes_key pid) with
  | None => Ok []
  | Some b => map_err (fun e => explain "Failed to retrieve existing votes" (StorageError.SerializationError votes_type e))
                (votes_from_slice b)
  end.
Proof.
  unfold stored_votes, StorageExtensions.get_json. rewrite law_get, reads_votes. cbn [mbind res_bind].
  destruct (view s VOTES_NAMESPACE (make_votes_key pid)) as [b|]; [|done]. cbn [mbind res_bind].
  by destruct (votes_from_slice b).
Qed.

Lemma stored_votes_after pid b vs s : plain_votes vs ->
  votes_to_vec vs = Ok b -> view s VOTES_NAMESPACE (make_votes_key pid) = Some b -> stored_votes pid s = Ok vs.
Proof. intros Hp Hb Hv. by rewrite stored_votes_eq, Hv, (votes_json _ _ Hp Hb). Qed.

Lemma get_votes_cold pid b vs s : plain_votes vs ->
  votes_to_vec vs = Ok b -> view s VOTES_NAMESPACE (make_votes_key pid) = Some b -> get_votes pid (new, s) = Ok vs.
Proof.
  intros Hp Hb Hv. unfold get_votes, StorageExtensions.get_json. cbn.
  by rewrite lookup_empty, law_get, reads_votes, Hv; cbn; rewrite (votes_json _ _ Hp Hb).
Qed.

Definition cached (pid : string) (st : state) : list FederatedVote.t :=
  default [] (FederationCache.votes st.1 !! pid).

Lemma accepted_votes st vs st' pid olds :
  accepted st vs st' -> Forall (fun v => FederatedVote.proposal_id v = pid) vs ->
  plain_votes (olds ++ vs) ->
  stored_votes pid st.2 = Ok olds -> FederationCache.votes st.1 !! pid = None ->
  stored_votes pid st'.2 = Ok (olds ++ vs) /\ cached pid st' = latest vs /\
  (vs <> [] -> FederationCache.votes st'.1 !! pid = Some (latest vs) /\
               exists b, votes_to_vec (olds ++ vs) = Ok b /\ view st'.2 VOTES_NAMESPACE (make_votes_key pid) = Some b).
Proof.
  induction 1 as [st|st vs st1 now v who st2 Hacc IH Hsave]; intros Hpid Hplain Hold Hc.
  - rewrite app_nil_r. unfold cached. by rewrite Hc.
  - apply Forall_app in Hpid as [Hpid Hv]. apply Forall_inv in Hv. cbn beta in Hv.
    assert (plain_votes (olds ++ vs)) as Hplain'.
    { unfold plain_votes in *. rewrite app_assoc in Hplain. by apply Forall_app in Hplain as []. }
    destruct (IH Hpid Hplain' Hold Hc) as (Hst & Hca & _). destruct st1 as [c1 s1].
    apply save_vote_ok in Hsave as (p & id & votes & s' & b & _ & _ & _ & _ & _ & Hvotes & -> & Hb & Hview).
    rewrite Hv in Hvotes. cbn [snd] in Hst. rewrite Hst in Hvotes. injection Hvotes as <-.
    rewrite <- app_assoc in Hb. specialize (Hview VOTES_NAMESPACE (make_votes_key pid)). rewrite Hv in Hview.
    rewrite decide_True in Hview by done.
    assert (Hlook : FederationCache.votes (FederationCache.insert_vote v c1) !! pid = Some (latest (vs ++ [v]))).
    { cbn. rewrite Hv, lookup_insert_eq, latest_snoc. unfold cached in Hca. cbn in Hca. by rewrite Hca. }
    split; [by eapply stored_votes_after|]. split; [unfold cached; cbn [fst]; by rewrite Hlook|].
    intros _. split; [done|]. by exists b.
Qed.

(** On a backend that serves requests without a context, a store that has just
    been started on votes [olds] and accepts the votes [vs] shows the last vote
    of each voter of [vs] and none of [olds]; after a restart it shows every
    vote, repeated ones included. *)
Theorem votes_shown_depend_on_restarts st vs st' pid olds :
  accepted st vs st' -> Forall (fun v => FederatedVote.proposal_id v = pid) vs -> vs <> [] ->
  plain_votes (olds ++ vs) ->
  stored_votes pid st.2 = Ok olds -> FederationCache.votes st.1 !! pid = None ->
  get_votes pid st' = Ok (latest vs) /\ NoDup (FederatedVote.voter <$> latest vs) /\
  get_votes pid (new, st'.2) = Ok (olds ++ vs).
Proof.
  intros Hacc Hpid Hne Hplain Hold Hc.
  destruct (accepted_votes _ _ _ _ _ Hacc Hpid Hplain Hold Hc) as (_ & _ & Hshown).
  destruct (Hshown Hne) as (Hlook & b & Hb & Hview).
  split; [|split; [apply latest_nodup|by eapply get_votes_cold]].
  unfold get_votes. by rewrite Hlook.
Qed.

End Store.

(** ** Checks *)

(** The scope of a proposal as a property of the identity's cooperative. *)
Definition in_scope (scope : ProposalScope) (identity : Identity.t) : Prop :=
  match scope with
  | SingleCoop coop => Identity.get_metadata "coop_id" identity = Some coop
  | MultiCoop coops => exists coop, coop ∈ coops /\ Identity.get_metadata "coop_id" identity = Some coop
  | GlobalFederation => True
  end.

Lemma belongs_to_iff coop identity :
  Identity.belongs_to coop identity = true <-> Identity.get_metadata "coop_id" identity = Some coop.
Proof.
  unfold Identity.belongs_to. destruct (Identity.get_metadata "coop_id" identity) as [id|]; [|done].
  rewrite String.eqb_eq. naive_solver.
Qed.

Lemma check_eligible_iff scope identity : check_eligible scope identity = Ok tt <-> in_scope scope identity.
Proof.
  destruct scope as [coop|coops|]; cbn [check_eligible in_scope]; [| |done].
  - rewrite <- belongs_to_iff. by destruct (Identity.belongs_to coop identity).
  - setoid_rewrite <- belongs_to_iff. setoid_rewrite list_elem_of_In. rewrite <- existsb_exists.
    by destruct (existsb _ coops).
Qed.

(** What a signature needs: it is one of two fixed texts, or neither it nor the
    message nor the key is empty. *)
Definition passes (vote : FederatedVote.t) (identity : Identity.t) : Prop :=
  FederatedVote.signature vote = "valid" \/ FederatedVote.signature vote = "mock_signature" \/
  (FederatedVote.signature vote <> "" /\ FederatedVote.message vote <> "" /\ Identity.public_key_bytes identity <> "").

Lemma not_empty_iff s : negb (is_empty s) = true <-> s <> "".
Proof. by destruct s. Qed.

Lemma check_signature_iff vote identity : check_signature vote identity = Ok tt <-> passes vote identity.
Proof.
  unfold check_signature, Identity.public_key, Identity.crypto_scheme, verify_signature, passes. cbn [String.eqb orb].
  destruct (String.eqb_spec (FederatedVote.signature vote) "valid") as [|H1]; [naive_solver|].
  destruct (String.eqb_spec (FederatedVote.signature vote) "mock_signature") as [|H2]; [naive_solver|].
  change (String.eqb "ed25519" "ed25519" || _) with true. cbn [orb].
  rewrite <- !not_empty_iff.
  destruct (negb (is_empty (FederatedVote.signature vote))), (negb (is_empty (FederatedVote.message vote))),
    (negb (is_empty (Identity.public_key_bytes identity))); cbn; naive_solver.
Qed.

Section Accepted.

Context {S : Type} `{SL : StorageLaws S} `{FJ : FederationJson}.

(** C17. A vote is accepted only while its proposal is open and from an identity
    in the proposal's scope; of the signature no more is asked than not to be
    empty, the two test signatures pass always, and an identity given by the
    caller need not be the voter's. *)
Theorem accepted_votes_pass_the_checks now vote who c s st' :
  save_vote now vote who (c, s) = (st', Ok tt) ->
  exists proposal identity,
    get_proposal (FederatedVote.proposal_id vote) (c, s) = Ok proposal /\
    FederatedProposal.status proposal = FederatedStatus.Open /\
    (who = Some identity \/ load_identity_from_storage (FederatedVote.voter vote) s = Ok identity) /\
    in_scope (FederatedProposal.scope proposal) identity /\ passes vote identity.
Proof.
  intros (p & id & votes & s' & b & Hp & Hopen & Hid & Hsig & Hel & _)%save_vote_ok.
  exists p, id. apply check_eligible_iff in Hel. apply check_signature_iff in Hsig.
  repeat split; try done. unfold voter_of in Hid. destruct who; [left; congruence|right].
  by destruct (load_identity_from_storage _ s).
Qed.

(** ** Proposals *)

Context {FJL : FederationJsonLaws}.

(** A proposal that was saved is found by the store that saved it; after a
    restart it is found only if its namespace is that of the federation. *)
Theorem proposal_survives_in_its_namespace now auth p c s st' :
  permitted None "read" FEDERATION_NAMESPACE = Ok tt ->
  save_proposal_with_auth now auth p (c, s) = (st', Ok tt) ->
  get_proposal (FederatedProposal.proposal_id p) st' = Ok p /\
  get_proposal (FederatedProposal.proposal_id p) (new, st'.2) =
    if decide (FederatedProposal.namespace p = FEDERATION_NAMESPACE) then Ok p
    else get_proposal (FederatedProposal.proposal_id p) (new, s).
Proof.
  intros Hread. unfold save_proposal_with_auth, save_proposal_as. rewrite stm_bind_ok.
  intros (st1 & [] & Hw & Hc). apply written_ok in Hw as (s' & b & -> & Hb & Hview). injection Hc as <-.
  split; [unfold get_proposal; cbn; by rewrite lookup_insert_eq|].
  unfold get_proposal, StorageExtensions.get_json. cbn. rewrite lookup_empty, !law_get, Hread. cbn.
  rewrite Hview. case_decide as Hn.
  - destruct Hn as [<- _]. rewrite decide_True by done. cbn. by rewrite (proposal_json _ _ Hb).
  - rewrite decide_False by naive_solver. done.
Qed.

End Accepted.

(** ** Backends that refuse anonymous requests *)

Section Refused.

Context {S : Type} `{SL : StorageLaws S} `{FJ : FederationJson}.

Lemma anonymous_write_fails {T} (to_vec : T -> res string bytes) ty now ns k x what c s e :
  permitted None "write" ns = Err e ->
  exists r, storage_map_err (explain what) (on_storage (StorageExtensions.set_json to_vec ty now None ns k x)) (c, s) =
            ((c, s), r) /\ r <> Ok tt.
Proof.
  intros Hp. unfold storage_map_err. rewrite on_storage_eq. unfold StorageExtensions.set_json, lift, mbind, stm_bind.
  destruct (to_vec x) as [b| | |]; cbn; [rewrite (law_set_denied _ _ _ _ _ _ _ Hp)|..]; by eexists.
Qed.

Lemma save_proposal_refused now p st e :
  permitted None "write" (FederatedProposal.namespace p) = Err e ->
  exists r, save_proposal now p st = (st, r) /\ r <> Ok tt.
Proof.
  intros Hp. destruct st as [c s]. unfold save_proposal, save_proposal_as.
  destruct (anonymous_write_fails proposal_to_vec proposal_type now _
              (make_proposal_key (FederatedProposal.proposal_id p)) p "Failed to save proposal to storage" c s e Hp)
    as (r & Hr & Hne).
  unfold mbind, stm_bind. rewrite Hr. destruct r as [[]| | |]; [done|by eexists..].
Qed.

Lemma save_vote_refused now vote who st e :
  permitted None "write" VOTES_NAMESPACE = Err e ->
  exists r, save_vote now vote who st = (st, r) /\ r <> Ok tt.
Proof.
  intros Hp. destruct st as [c s]. unfold save_vote, mbind, stm_bind, reading, lift, other.
  destruct (get_proposal _ (c, s)) as [p| | |]; [|by eexists..]. case_decide; [|by eexists]. cbn [snd].
  destruct (voter_of vote who s) as [id| | |]; [|by eexists..].
  destruct (check_signature vote id) as [[]| | |]; [|by eexists..].
  destruct (check_eligible _ id) as [[]| | |]; [|by eexists..].
  destruct (stored_votes _ s) as [vs| | |]; [|by eexists..].
  destruct (anonymous_write_fails votes_to_vec votes_type now VOTES_NAMESPACE
              (make_votes_key (FederatedVote.proposal_id vote)) (vs ++ [vote]) "Failed to save votes to storage" c s e Hp)
    as (r & -> & Hne).
  destruct r as [[]| | |]; [done|by eexists..].
Qed.

End Refused.

(** On the in-memory backend, which refuses requests without a context, the
    store never saves a proposal of its own nor any vote: every attempt fails
    and changes nothing. *)
Theorem in_memory_refuses_federation `{FederationJson} now p vote who (st : FederationCache.t * InMemoryStorage.t) :
  (exists r, save_proposal now p st = (st, r) /\ r <> Ok tt) /\
  (exists r, save_vote now vote who st = (st, r) /\ r <> Ok tt).
Proof. split; [by eapply save_proposal_refused|by eapply save_vote_refused]. Qed.

(** What is asked of a store, with the time; in between, others who hold the
    storage may leave it as they like. *)
Inductive store_request : Type :=
  | SaveProposal (p : FederatedProposal.t)
  | SaveProposalWithAuth (auth : option AuthContext.t) (p : FederatedProposal.t)
  | SaveVote (v : FederatedVote.t) (who : option Identity.t)
  | Elsewhere (storage : InMemoryStorage.t).
Definition store_handle `{FederationJson} (now : N) (r : store_request) (st : FederationCache.t * InMemoryStorage.t) :
    FederationCache.t * InMemoryStorage.t :=
  match r with
  | SaveProposal p => (save_proposal now p st).1
  | SaveProposalWithAuth auth p => (save_proposal_with_auth now auth p st).1
  | SaveVote v who => (save_vote now v who st).1
  | Elsewhere storage => (st.1, storage)
  end.
Definition after_requests `{FederationJson} (rs : list (N * store_request)) (s : InMemoryStorage.t) :
    FederationCache.t * InMemoryStorage.t := foldl (fun st r => store_handle r.1 r.2 st) (new, s) rs.

Section InMemory.

Context `{FJ : FederationJson}.

Abbreviation state := (FederationCache.t * InMemoryStorage.t)%type.

Lemma votes_refused now v who (st : state) : exists r, save_vote now v who st = (st, r) /\ r <> Ok tt.
Proof. by eapply save_vote_refused. Qed.

Lemma save_proposal_keeps_votes what now auth p (st : state) :
  FederationCache.votes (save_proposal_as what now auth p st).1.1 = FederationCache.votes st.1.
Proof.
  destruct st as [c s]. unfold save_proposal_as, mbind, stm_bind, storage_map_err. rewrite on_storage_eq.
  by destruct (StorageExtensions.set_json _ _ _ _ _ _ _ s) as [s' []].
Qed.

Lemma store_handle_votes now r (st : state) :
  FederationCache.votes (store_handle now r st).1 = FederationCache.votes st.1.
Proof.
  destruct r as [p|auth p|v who|s]; cbn [store_handle fst]; [apply save_proposal_keeps_votes..| |done].
  by destruct (votes_refused now v who st) as (r & -> & _).
Qed.

Lemma after_requests_votes rs s : FederationCache.votes (after_requests rs s).1 = ∅.
Proof.
  unfold after_requests. induction rs as [|r rs IH] using rev_ind; [done|].
  by rewrite foldl_app; cbn [foldl]; rewrite store_handle_votes.
Qed.

(** C13. On the in-memory backend no federated vote is ever accepted: whatever
    was asked of a store since it was started, and whatever others did to the
    storage, every [save_vote] fails and changes nothing, and the votes of any
    proposal cannot be read, not even as none.  The store asks the backend
    without a context, and the backend refuses that. *)
Theorem no_vote_is_ever_accepted rs s pid :
  let st := after_requests rs s in
  (forall now v who, (save_vote now v who st).1 = st /\ is_ok (save_vote now v who st).2 = false) /\
  get_votes pid st = Err (explain ("Failed to retrieve votes for proposal " +:+ pid)
                            (StorageError.PermissionDenied "anonymous" "read" VOTES_NAMESPACE)).
Proof.
  cbv zeta. split.
  - intros now v who. destruct (votes_refused now v who (after_requests rs s)) as (r & -> & Hr).
    split; [done|]. by destruct r as [[]| | |].
  - unfold get_votes. by rewrite after_requests_votes, lookup_empty.
Qed.

End InMemory.

(** ** Ballots *)

Lemma coop_votes_spec ids votes idx acc k :
  map_Forall (fun _ p => p.2 < idx) acc ->
  fst <$> coop_votes ids idx votes acc !! k =
  match last (filter (fun v => ballot_key ids v = k) votes) with
  | Some v => Some v
  | None => fst <$> acc !! k
  end.
Proof.
  revert idx acc. induction votes as [|v votes IH]; intros idx acc Hacc; [done|]. cbn [coop_votes].
  assert (Hins : (if has_coop ids v
                  then match acc !! ballot_key ids v with
                       | Some (_, existing_idx) =>
                           if existing_idx <? idx then <[ballot_key ids v := (v, idx)]> acc else acc
                       | None => <[ballot_key ids v := (v, idx)]> acc
                       end
                  else <[ballot_key ids v := (v, idx)]> acc) = <[ballot_key ids v := (v, idx)]> acc).
  { destruct (has_coop ids v); [|done]. destruct (acc !! ballot_key ids v) as [[w i]|] eqn:Hk; [|done].
    apply Hacc in Hk. cbn in Hk. by rewrite (proj2 (Nat.ltb_lt _ _) Hk). }
  rewrite Hins, IH.
  - rewrite filter_cons. destruct (decide (ballot_key ids v = k)) as [->|Hne].
    + rewrite lookup_insert_eq, last_cons. by destruct (last _).
    + rewrite lookup_insert_ne by done. done.
  - apply map_Forall_insert_2; [cbn; lia|]. eapply map_Forall_impl; [done|]. intros ? [] ?; cbn in *; lia.
Qed.

(** When each cooperative has one vote, the ballots are, in some order, one
    for every cooperative (or voter whose cooperative is unknown): the last vote
    that was cast under its name. *)
Theorem one_ballot_for_each_cooperative `{Renderings} votes proposal ids :
  FederatedProposal.voting_model proposal = OneCoopOneVote -> (forall l, key_order l ≡ₚ l) ->
  exists ks, NoDup ks /\ (forall k, k ∈ ks <-> exists v, v ∈ votes /\ ballot_key ids v = k) /\
    Forall2 (fun k ballot => exists v, last (filter (fun v => ballot_key ids v = k) votes) = Some v /\
                                       ballot = FederatedVote.ranked_choices v)
      ks (prepare_ranked_ballots votes proposal ids).
Proof.
  intros Hm Hperm. destruct (hash_values_spec (coop_votes ids 0 votes ∅) Hperm) as (ks & Hnd & Hks & Hall).
  assert (Hspec : forall k, fst <$> coop_votes ids 0 votes ∅ !! k =
                            last (filter (fun v => ballot_key ids v = k) votes)).
  { intros k. rewrite coop_votes_spec by apply map_Forall_empty. rewrite lookup_empty. by destruct (last _). }
  exists ks. split; [done|]. split.
  - intros k. rewrite Hks, <- (fmap_is_Some fst), Hspec. rewrite last_is_Some. split.
    + intros Hne. destruct (filter _ votes) as [|v l] eqn:Hf; [done|]. exists v.
      assert (Hin : v ∈ filter (fun v => ballot_key ids v = k) votes) by (rewrite Hf; left).
      by apply list_elem_of_filter in Hin as [].
    + intros (v & Hin & Hk) Hf. assert (Hv : v ∈ filter (fun v => ballot_key ids v = k) votes)
        by by apply list_elem_of_filter. rewrite Hf in Hv. by apply not_elem_of_nil in Hv.
  - unfold prepare_ranked_ballots. rewrite Hm. apply Forall2_fmap_r. eapply Forall2_impl; [done|].
    intros k [v i] Hk. exists v. split; [|done]. by rewrite <- Hspec, Hk.
Qed.

End VoteTheorems.

(** ** Witnesses *)
Module FederationExamples.

Import FederationStorage VoteTheorems.

(** A backend that takes requests without a context as the administrator's. *)
Record Trusting : Type := { inner : InMemoryStorage.t }.
Definition as_root (auth : option AuthContext.t) : option AuthContext.t :=
  Some (default InMemoryStorage.admin auth).
Definition inside {A} (m : stm InMemoryStorage.t StorageError.t A) : stm Trusting StorageError.t A :=
  zoom inner (fun s _ => {| inner := s |}) m.

#[global] Instance trusting : StorageBackend Trusting := {|
  sb_get := fun auth ns k s => sb_get (as_root auth) ns k (inner s);
  sb_get_versioned := fun auth ns k s => sb_get_versioned (as_root auth) ns k (inner s);
  sb_get_version := fun auth ns k v s => sb_get_version (as_root auth) ns k v (inner s);
  sb_list_versions := fun auth ns k s => sb_list_versions (as_root auth) ns k (inner s);
  sb_diff_versions := fun auth ns k v w s => sb_diff_versions (as_root auth) ns k v w (inner s);
  sb_set := fun now auth ns k v => inside (sb_set now (as_root auth) ns k v);
  sb_contains := fun auth ns k s => sb_contains (as_root auth) ns k (inner s);
  sb_list_keys := fun auth ns p s => sb_list_keys (as_root auth) ns p (inner s);
  sb_list_namespaces := fun auth ns s => sb_list_namespaces (as_root auth) ns (inner s);
  sb_create_account := fun now auth u q => inside (sb_create_account now (as_root auth) u q);
  sb_create_namespace := fun now auth ns q p => inside (sb_create_namespace now (as_root auth) ns q p);
  sb_check_permission := fun auth action ns s => sb_check_permission (as_root auth) action ns (inner s);
  sb_begin_transaction := inside sb_begin_transaction;
  sb_commit_transaction := inside sb_commit_transaction;
  sb_rollback_transaction := inside sb_rollback_transaction;
  sb_get_audit_log := fun auth ns ty n s => sb_get_audit_log (as_root auth) ns ty n (inner s);
  sb_delete := fun now auth ns k => inside (sb_delete now (as_root auth) ns k);
  sb_get_usage := fun auth u s => sb_get_usage (as_root auth) u (inner s);
|}.

Lemma inside_eq {A} (m : stm InMemoryStorage.t StorageError.t A) s s' r : inside m s = (s', r) -> m (inner s) = (inner s', r).
Proof. unfold inside, zoom. destruct (m (inner s)). by intros [= <- <-]. Qed.

#[global] Instance trusting_laws : StorageLaws Trusting.
Proof.
  refine {| view := fun s => view (inner s); permitted := fun auth => permitted (as_root auth) |}.
  - intros auth action ns s. exact (law_check (as_root auth) action ns (inner s)).
  - intros auth ns k s. exact (law_get (as_root auth) ns k (inner s)).
  - intros auth ns k s b. exact (law_contains (as_root auth) ns k (inner s) b).
  - intros now auth ns k v s s' Hset. apply inside_eq in Hset. by eapply law_set_ok.
  - intros now auth ns k v s s' r Hset Hr. apply inside_eq in Hset. by eapply law_set_fail.
  - intros now auth ns k v [s] e Hp. change (inside (sb_set now (as_root auth) ns k v) {| inner := s |} = ({| inner := s |}, Err e)).
    unfold inside, zoom. cbn [inner]. by rewrite (law_set_denied _ _ _ _ _ _ _ Hp).
Defined.

Definition member (coop : string) : Identity.t :=
  Identity.add_metadata "coop_id" coop
    {| Identity.did := "did:key:z1"; Identity.public_key_bytes := "key"; Identity.private_key_bytes := None;
       Identity.public_key_multibase := "z1";
       Identity.profile := {| public_username := "name"; full_name := None; other_fields := ∅ |};
       Identity.identity_type := "member" |}.
Definition sample_proposal (ns : string) : FederatedProposal.t :=
  FederatedProposal.new 5 "p1" ns ["Yes"; "No"] "alice" (SingleCoop "coop") OneCoopOneVote.
Definition sample_vote (voter : string) (yes no : Z) : FederatedVote.t :=
  {| FederatedVote.proposal_id := "p1"; FederatedVote.voter := voter;
     FederatedVote.ranked_choices := [f64_of_Z yes; f64_of_Z no]; FederatedVote.message := "vote";
     FederatedVote.signature := "signed" |}.
(** What is written in the examples, in a table. *)
#[local] Instance float_eq_dec : EqDecision f64.
Proof. solve_decision. Defined.
#[local] Instance vote_eq_dec : EqDecision FederatedVote.t.
Proof. solve_decision. Defined.
#[local] Instance scope_eq_dec : EqDecision ProposalScope.
Proof. solve_decision. Defined.
#[local] Instance model_eq_dec : EqDecision VotingModel.
Proof. solve_decision. Defined.
#[local] Instance proposal_eq_dec : EqDecision FederatedProposal.t.
Proof. solve_decision. Defined.
Definition sample_proposals : list FederatedProposal.t := [sample_proposal "federation"; sample_proposal "governance"].
Definition sample_votes : list (list FederatedVote.t) :=
  let v1 := sample_vote "v1" 1 0 in let v2 := sample_vote "v2" 1 0 in
  [[]; [v1]; [v1; v2]; [v1; v2; sample_vote "v1" 0 1]].

#[global] Instance sample_json : FederationJson :=
  {| proposal_to_vec := table_to_vec sample_proposals; proposal_from_slice := table_from_slice sample_proposals;
     votes_to_vec := table_to_vec sample_votes; votes_from_slice := table_from_slice sample_votes;
     identity_from_slice := fun _ => Err "no identities" |}.
#[global] Instance sample_json_laws : FederationJsonLaws.
Proof. split; intros; by apply table_round_trip. Qed.

Lemma sample_plain voter yes no : (0 <= yes <= 1)%Z -> (0 <= no <= 1)%Z ->
  Forall short_decimal (FederatedVote.ranked_choices (sample_vote voter yes no)).
Proof.
  assert (forall n, (0 <= n <= 1)%Z -> short_decimal (f64_of_Z n)) as H; [|by repeat constructor; apply H].
  intros n Hn. assert (n = 0 \/ n = 1)%Z as [-> | ->] by lia.
  - split; [done|]. exists false, 0%N, 0%N. by repeat split.
  - split; [done|]. exists false, 1%N, 0%N. by repeat split.
Qed.

Definition storage : Trusting :=
  {| inner := InMemoryStorage.after [InMemoryStorage.CreateAccount 0 (Some InMemoryStorage.admin) "root" 1000000]
                InMemoryStorage.new |}.

Definition started : FederationCache.t * Trusting :=
  (save_proposal_with_auth 5 None (sample_proposal "federation") (new, storage)).1.
Definition cast (voter : string) (yes no : Z) (st : FederationCache.t * Trusting) : FederationCache.t * Trusting :=
  (save_vote 6 (sample_vote voter yes no) (Some (member "coop")) st).1.
(** The states are computed once. *)
Definition opened : FederationCache.t * Trusting := Eval vm_compute in started.
Definition one_vote : FederationCache.t * Trusting := Eval vm_compute in cast "v1" 1 0 opened.
Definition two_votes : FederationCache.t * Trusting := Eval vm_compute in cast "v2" 1 0 one_vote.
Definition three_votes : FederationCache.t * Trusting := Eval vm_compute in cast "v1" 0 1 two_votes.

(** Two voters, the first of whom votes again. *)
Lemma votes_shown_depend_on_restarts_witness :
  let vs := [sample_vote "v1" 1 0; sample_vote "v2" 1 0; sample_vote "v1" 0 1] in
  get_votes "p1" three_votes = Ok [sample_vote "v1" 0 1; sample_vote "v2" 1 0] /\ get_votes "p1" (new, three_votes.2) = Ok vs.
Proof.
  intros vs.
  assert (Hread : permitted (S := Trusting) None "read" VOTES_NAMESPACE = Ok tt) by (evaluate).
  destruct (votes_shown_depend_on_restarts Hread opened vs three_votes "p1" []) as (H1 & _ & H2).
  - pose proof (accepted_nil opened) as H0.
    apply accepted_snoc with (now := 6%N) (v := sample_vote "v1" 1 0) (who := Some (member "coop"))
      (st2 := one_vote) in H0; [|evaluate].
    apply accepted_snoc with (now := 6%N) (v := sample_vote "v2" 1 0) (who := Some (member "coop"))
      (st2 := two_votes) in H0; [|evaluate].
    apply accepted_snoc with (now := 6%N) (v := sample_vote "v1" 0 1) (who := Some (member "coop")) (st2 := three_votes) in H0;
      [exact H0|evaluate].
  - repeat constructor.
  - done.
  - repeat (apply List.Forall_cons; [by apply sample_plain|]). apply List.Forall_nil.
  - evaluate.
  - evaluate.
  - split; [exact H1|exact H2].
Defined.

(** The vote of a stranger in the name of [v1], under another member's identity. *)
Lemma accepted_votes_pass_the_checks_witness :
  let vote := sample_vote "v1" 1 0 in
  exists proposal identity,
    get_proposal "p1" started = Ok proposal /\ FederatedProposal.status proposal = FederatedStatus.Open /\
    (Some (member "coop") = Some identity \/ load_identity_from_storage "v1" started.2 = Ok identity) /\
    in_scope (FederatedProposal.scope proposal) identity /\ passes vote identity.
Proof.
  apply (accepted_votes_pass_the_checks 6 (sample_vote "v1" 1 0) (Some (member "coop")) started.1 started.2
           (cast "v1" 1 0 started)).
  evaluate.
Defined.

(** A proposal that was shared is in the namespace "governance". *)
Lemma proposal_survives_in_its_namespace_witness :
  let st' := (save_proposal_with_auth 5 None (sample_proposal "governance") (new, storage)).1 in
  get_proposal "p1" st' = Ok (sample_proposal "governance") /\
  get_proposal "p1" (new, st'.2) = get_proposal "p1" (new, storage) /\
  is_ok (get_proposal "p1" (new, storage)) = false.
Proof.
  intros st'.
  destruct (proposal_survives_in_its_namespace 5 None (sample_proposal "governance") new storage st') as [H1 H2].
  - evaluate.
  - evaluate.
  - split; [exact H1|]. split; [exact H2|]. evaluate.
Defined.

Lemma one_ballot_for_each_cooperative_witness :
  let votes := [sample_vote "v1" 1 0; sample_vote "v2" 0 1; sample_vote "v3" 1 0] in
  let ids : gmap string Identity.t := <["v1" := member "coop"]> (<["v2" := member "coop"]> ∅) in
  exists ks, NoDup ks /\ (forall k, k ∈ ks <-> exists v, v ∈ votes /\ ballot_key ids v = k) /\
    Forall2 (fun k ballot => exists v, last (filter (fun v => ballot_key ids v = k) votes) = Some v /\
                                       ballot = FederatedVote.ranked_choices v)
      ks (prepare_ranked_ballots (H := Samples.renderings) votes (sample_proposal "federation") ids).
Proof.
  intros votes ids.
  exact (one_ballot_for_each_cooperative (H := Samples.renderings) votes (sample_proposal "federation") ids eq_refl
           (fun l => Permutation_refl l)).
Defined.

(** A cooperative and a voter without one share a name: one of the two votes is lost. *)
Example names_collide :
  let votes := [sample_vote "coop" 1 0; sample_vote "v1" 0 1] in
  prepare_ranked_ballots (H := Samples.renderings) votes (sample_proposal "federation") (<["v1" := member "coop"]> ∅) =
  [[f64_of_Z 0; f64_of_Z 1]].
Proof. intros votes. evaluate. Qed.

End FederationExamples.
