(* ===== verification/FederationNode.v ===== *)
(** * The network node: federation/node.rs, events.rs and the events of behaviour.rs

    The state machine around libp2p: retries with exponential backoff, the peers
    that are known, the channel of network events that the node sends to itself,
    and the handlers of what the swarm and the channel deliver.  The swarm and
    the capacity of the channel are parameters.  A handler that waits for room
    in the channel waits for the loop that called it: it is stuck. *)
From S2P Require Import Prelude Float64 Text Ops Auth Storage Executor Trace Machine Federation.

(** [a + b] and [2.pow(n)] on the widths the retries use. *)
Definition u32_max : N := 4294967295%N.
Definition u32_add {E} (overflow_checks : bool) (a b : N) : res E N :=
  if (a + b <=? u32_max)%N then Ok (a + b)%N
  else if overflow_checks then Panic "attempt to add with overflow" else Ok ((a + b) mod 2 ^ 32)%N.
Definition u64_mul {E} (overflow_checks : bool) (a b : N) : res E N :=
  if (a * b <=? u64_max)%N then Ok (a * b)%N
  else if overflow_checks then Panic "attempt to multiply with overflow" else Ok (u64_wrap (a * b)).
Definition u64_pow2 {E} (overflow_checks : bool) (n : N) : res E N :=
  if (2 ^ n <=? u64_max)%N then Ok (2 ^ n)%N
  else if overflow_checks then Panic "attempt to multiply with overflow" else Ok (u64_wrap (2 ^ n)).

(** ** Retries *)

Definition MAX_RETRY_ATTEMPTS : N := 5.
Definition BASE_RETRY_DELAY_MS : N := 500.
Definition MAX_RETRY_DELAY_MS : N := 30000.

Module RetryStatus.

Record t : Type := {
  last_attempt : N;
  attempts : N;
  in_backoff : bool;
  current_delay_ms : N;
  operation : string;
  target : string;
}.

Definition set_in_backoff (b : bool) (self : t) : t :=
  {| last_attempt := last_attempt self; attempts := attempts self; in_backoff := b;
     current_delay_ms := current_delay_ms self; operation := operation self; target := target self |}.
Definition attempted (now attempts : N) (self : t) : t :=
  {| last_attempt := now; attempts := attempts; in_backoff := in_backoff self;
     current_delay_ms := current_delay_ms self; operation := operation self; target := target self |}.
Definition delayed (delay_ms : N) (self : t) : t :=
  {| last_attempt := last_attempt self; attempts := attempts self; in_backoff := true;
     current_delay_ms := delay_ms; operation := operation self; target := target self |}.

End RetryStatus.

Module RetryManager.

Record t : Type := {
  retries : gmap string RetryStatus.t;
  max_attempts : N;
  base_delay_ms : N;
  max_delay_ms : N;
}.

Definition new : t :=
  {| retries := ∅; max_attempts := MAX_RETRY_ATTEMPTS; base_delay_ms := BASE_RETRY_DELAY_MS;
     max_delay_ms := MAX_RETRY_DELAY_MS |}.

Definition with_retries (r : gmap string RetryStatus.t) (self : t) : t :=
  {| retries := r; max_attempts := max_attempts self; base_delay_ms := base_delay_ms self;
     max_delay_ms := max_delay_ms self |}.

Definition key_of (operation target : string) : string := operation +:+ ":" +:+ target.

(** [(delay_ms as f64 * 0.1 * (random - 0.5)) as u64]: a negative number becomes 0. *)
Definition jitter (delay_ms : N) (random : f64) : N :=
  f64_to_u64 (f64_mul (f64_mul (f64_of_Z (Z.of_N delay_ms)) (f64_of_decimal false 1 (-1)))
                      (f64_sub random (f64_round_dyadic 1 (-1) false))).

(** The entry of a first failure. *)
Definition fresh (now : N) (operation target : string) (self : t) : RetryStatus.t :=
  {| RetryStatus.last_attempt := now; RetryStatus.attempts := 0; RetryStatus.in_backoff := false;
     RetryStatus.current_delay_ms := base_delay_ms self; RetryStatus.operation := operation;
     RetryStatus.target := target |}.

(** [now] is the clock in seconds, [random] the random number; the delay is in
    milliseconds. *)
Definition record_failure {E} (checks : bool) (now : N) (random : f64) (operation target : string) :
    stm t E (option N) := fun self =>
  let key := key_of operation target in
  let status := default (fresh now operation target self) (retries self !! key) in
  let entered := with_retries (<[key := status]> (retries self)) self in
  match u32_add checks (RetryStatus.attempts status) 1 with
  | Ok attempts =>
      let status := RetryStatus.attempted now attempts status in
      let attempted := with_retries (<[key := status]> (retries self)) self in
      if (max_attempts self <=? attempts)%N then (with_retries (delete key (retries self)) self, Ok None)
      else
        let delay : res E N :=
          factor ← u64_pow2 checks (attempts - 1);
          delay_ms ← u64_mul checks (base_delay_ms self) factor;
          sum ← u64_add checks delay_ms (jitter delay_ms random);
          Ok (N.min sum (max_delay_ms self)) in
        match delay with
        | Ok delay_ms =>
            (with_retries (<[key := RetryStatus.delayed delay_ms status]> (retries self)) self, Ok (Some delay_ms))
        | Err e => (attempted, Err e)
        | Panic m => (attempted, Panic m)
        | OutOfFuel => (attempted, OutOfFuel)
        end
  | Err e => (entered, Err e)
  | Panic m => (entered, Panic m)
  | OutOfFuel => (entered, OutOfFuel)
  end.

Definition record_success (operation target : string) (self : t) : t :=
  with_retries (delete (key_of operation target) (retries self)) self.

Definition is_in_backoff (operation target : string) (self : t) : bool :=
  match retries self !! key_of operation target with
  | Some status => RetryStatus.in_backoff status
  | None => false
  end.

Definition get_all_retries `{Renderings} (self : t) : list RetryStatus.t := hash_values (retries self).

(** [entry.in_backoff = false] for a retry that is about to be made. *)
Definition clear_backoff (operation target : string) (self : t) : t :=
  let key := key_of operation target in
  match retries self !! key with
  | Some status => with_retries (<[key := RetryStatus.set_in_backoff false status]> (retries self)) self
  | None => self
  end.

End RetryManager.

(** ** The node *)

Inductive NetworkEvent : Type :=
  | PeerDiscovered (peer : string)
  | PeerConnected (peer : string)
  | PeerDisconnected (peer : string)
  | MessageReceived (peer : string) (message : NetworkMessage)
  | DhtQueryCompleted (peers_found : list string) (success : bool)
  | ProposalBroadcasted
  | ProposalReceived
  | VoteSubmitted
  | VoteReceived
  | ErrorEvent (msg : string)
  | RetryOperation (operation target : string).

(** libp2p: a swarm with its peers, addresses and protocols; dialling and
    listening may fail with a text.  [channel_accepts] says whether the channel
    takes another event while these are waiting. *)
Class SwarmCalls : Type := {
  Swarm : Type;
  sw_listen_on : string -> Swarm -> Swarm * res string unit;
  sw_dial : string -> Swarm -> Swarm * res string unit;
  sw_add_address : string -> string -> Swarm -> Swarm;
  sw_connected_peers : Swarm -> list string;
  sw_listeners : Swarm -> list string;
  parse_multiaddr : string -> res string string;
  parse_peer_id : string -> option string;
  channel_accepts : list NetworkEvent -> bool;
}.

Record NodeConfig : Type := {
  port : option N;
  bootstrap_nodes : list string;
  node_name : option string;
  node_capabilities : list string;
  protocol_version : string;
}.
Definition NodeConfig_default : NodeConfig :=
  {| port := None; bootstrap_nodes := []; node_name := None; node_capabilities := []; protocol_version := "1.0.0" |}.

(** What [ping], [kad], [mdns] and [identify] report. *)
Inductive KademliaEvent : Type :=
  | GetClosestPeersOk (peers : list string)
  | GetClosestPeersErr
  | BootstrapOk
  | BootstrapErr
  | RoutingUpdated (peer : string) (is_new_peer : bool)
  | KademliaOther.
Inductive MdnsEvent : Type :=
  | Discovered (found : list (string * string))
  | Expired (gone : list (string * string)).
Inductive IdentifyEvent : Type :=
  | Received (peer : string) (listen_addrs : list string)
  | Sent (peer : string)
  | IdentifyError (peer : string)
  | Pushed.
Inductive IcnBehaviourEvent : Type :=
  | PingEvent (peer : string) (ok : bool)
  | Kademlia (e : KademliaEvent)
  | Mdns (e : MdnsEvent)
  | Identify (e : IdentifyEvent).
Inductive SwarmEvent : Type :=
  | NewListenAddr (address : string)
  | ConnectionEstablished (peer remote_addr : string)
  | ConnectionClosed (peer : string)
  | OutgoingConnectionError (peer : option string)
  | IncomingConnectionError
  | Dialing (peer : option string)
  | ListenerClosed
  | ListenerError
  | Behaviour (e : IcnBehaviourEvent)
  | SwarmOther.

(** How a handler ends when it does not return: it failed, or it waits for the
    channel that only its caller empties. *)
Inductive Stop : Type := Failed (e : FederationError.t) | Stuck.

Record PeerInfo : Type := {
  pi_peer_id : string;
  pi_addresses : option (list string);
  pi_role : option string;
  pi_ping_ms : option N;
  pi_supported_protocols : option (list string);
  pi_last_seen : option N;
}.

Module NetworkNode.

Section Node.

Context `{SC : SwarmCalls} `{PL : Platform} `{RD : Renderings}.

(** [timers] are the tasks that send an event after a delay. *)
Record t : Type := {
  swarm : Swarm;
  local_peer_id : string;
  config : NodeConfig;
  running : bool;
  channel : list NetworkEvent;
  known_peers : gset string;
  federation_storage : FederationCache.t;
  retry_manager : RetryManager.t;
  start_time : option N;
  role : option string;
  timers : list (N * NetworkEvent);
}.

Definition with_swarm (x : Swarm) (s : t) : t :=
  {| swarm := x; local_peer_id := local_peer_id s; config := config s; running := running s; channel := channel s;
     known_peers := known_peers s; federation_storage := federation_storage s; retry_manager := retry_manager s;
     start_time := start_time s; role := role s; timers := timers s |}.
Definition with_running (x : bool) (s : t) : t :=
  {| swarm := swarm s; local_peer_id := local_peer_id s; config := config s; running := x; channel := channel s;
     known_peers := known_peers s; federation_storage := federation_storage s; retry_manager := retry_manager s;
     start_time := start_time s; role := role s; timers := timers s |}.
Definition with_channel (x : list NetworkEvent) (s : t) : t :=
  {| swarm := swarm s; local_peer_id := local_peer_id s; config := config s; running := running s; channel := x;
     known_peers := known_peers s; federation_storage := federation_storage s; retry_manager := retry_manager s;
     start_time := start_time s; role := role s; timers := timers s |}.
Definition with_peers (x : gset string) (s : t) : t :=
  {| swarm := swarm s; local_peer_id := local_peer_id s; config := config s; running := running s; channel := channel s;
     known_peers := x; federation_storage := federation_storage s; retry_manager := retry_manager s;
     start_time := start_time s; role := role s; timers := timers s |}.
Definition with_manager (x : RetryManager.t) (s : t) : t :=
  {| swarm := swarm s; local_peer_id := local_peer_id s; config := config s; running := running s; channel := channel s;
     known_peers := known_peers s; federation_storage := federation_storage s; retry_manager := x;
     start_time := start_time s; role := role s; timers := timers s |}.
Definition with_timers (x : list (N * NetworkEvent)) (s : t) : t :=
  {| swarm := swarm s; local_peer_id := local_peer_id s; config := config s; running := running s; channel := channel s;
     known_peers := known_peers s; federation_storage := federation_storage s; retry_manager := retry_manager s;
     start_time := start_time s; role := role s; timers := x |}.
Definition set_role (x : string) (s : t) : t :=
  {| swarm := swarm s; local_peer_id := local_peer_id s; config := config s; running := running s; channel := channel s;
     known_peers := known_peers s; federation_storage := federation_storage s; retry_manager := retry_manager s;
     start_time := start_time s; role := Some x; timers := timers s |}.

(** The key pair and the swarm are made by libp2p. *)
Definition new (sw : Swarm) (peer_id : string) (clock_secs : option N) (cfg : NodeConfig) : t :=
  {| swarm := sw; local_peer_id := peer_id; config := cfg; running := false; channel := []; known_peers := ∅;
     federation_storage := FederationStorage.new; retry_manager := RetryManager.new; start_time := clock_secs;
     role := None; timers := [] |}.

Abbreviation M := (stm t Stop).

Definition create_node_announcement (s : t) : NodeAnnouncement :=
  {| node_id := local_peer_id s; capabilities := node_capabilities (config s); version := protocol_version (config s);
     name := node_name (config s) |}.

(** [event_sender.send(e).await] from the task of the event loop, and
    [event_sender.try_send(e)]. *)
Definition send (e : NetworkEvent) : M unit := fun s =>
  if channel_accepts (channel s) then (with_channel (channel s ++ [e]) s, Ok tt) else (s, Err Stuck).
Definition try_send (e : NetworkEvent) : M unit := fun s =>
  if channel_accepts (channel s) then (with_channel (channel s ++ [e]) s, Ok tt)
  else (s, Err (Failed (FederationError.NetworkError "Failed to emit event: send failed because channel is full"))).

Definition add_address (peer addr : string) : M unit := modify (fun s => with_swarm (sw_add_address peer addr (swarm s)) s).
Definition dial (addr : string) : M (res string unit) := fun s =>
  let '(sw, r) := sw_dial addr (swarm s) in (with_swarm sw s, Ok r).

(** ** Retrying *)

Definition record_failure (now : N) (random : f64) (operation target : string) : M (option N) :=
  zoom retry_manager with_manager (RetryManager.record_failure overflow_checks now random operation target).

Definition dial_with_retry (addr : string) : M (res string unit) :=
  r ← dial addr;
  match r with
  | Ok _ => _ ← modify (fun s => with_manager (RetryManager.record_success "dial" addr (retry_manager s)) s); mret (Ok tt)
  | Err e => mret (Err ("Network error: Failed to dial " +:+ addr +:+ ": " +:+ e))
  | Panic m => lift (Panic m)
  | OutOfFuel => lift OutOfFuel
  end.

(** One clock reading and one random number for each failure. *)
Fixpoint connect_to_bootstrap_nodes (now : nat -> N) (random : nat -> f64) (addrs : list string) : M unit :=
  match addrs with
  | [] => mret tt
  | addr :: addrs =>
      r ← dial_with_retry addr;
      _ ← (if is_ok r then mret tt
           else delay ← record_failure (now (length addrs)) (random (length addrs)) "dial" addr;
                match delay with
                | Some d => modify (fun s => with_timers (timers s ++ [(d, RetryOperation "dial" addr)]) s)
                | None => mret tt
                end);
      connect_to_bootstrap_nodes now random addrs
  end.

(** A message that is sent again is only logged. *)
Definition retry_send_message (peer_id message_id : string) : M unit := mret tt.

Definition handle_network_event (now : N) (random : f64) (event : NetworkEvent) : M unit :=
  match event with
  | RetryOperation operation target =>
      _ ← modify (fun s => with_manager (RetryManager.clear_backoff operation target (retry_manager s)) s);
      if String.eqb operation "dial" then
        match parse_multiaddr target with
        | Ok addr =>
            r ← dial_with_retry addr;
            if is_ok r then mret tt else _ ← record_failure now random operation target; mret tt
        | _ => mret tt
        end
      else if String.eqb operation "send_message" then
        match split_once ":" target with
        | Some (peer_id_str, message_id) =>
            match parse_peer_id peer_id_str with
            | Some peer_id => retry_send_message peer_id message_id
            | None => mret tt
            end
        | None => mret tt
        end
      else mret tt
  | _ => mret tt
  end.

(** ** Events of the swarm *)

Definition handle_ping_event (peer : string) (ok : bool) : M unit := mret tt.

Definition handle_kademlia_event (event : KademliaEvent) : M unit :=
  match event with
  | GetClosestPeersOk peers => send (DhtQueryCompleted peers true)
  | GetClosestPeersErr => send (DhtQueryCompleted [] false)
  | RoutingUpdated peer true => send (PeerDiscovered peer)
  | RoutingUpdated _ false | BootstrapOk | BootstrapErr | KademliaOther => mret tt
  end.

(** Every peer is announced before the next; unknown ones are dialled, and
    whether that worked is only logged. *)
Fixpoint discover (found : list (string * string)) : M unit :=
  match found with
  | [] => mret tt
  | (peer, addr) :: found =>
      _ ← add_address peer addr;
      _ ← send (PeerDiscovered peer);
      s ← get_state;
      _ ← (if decide (peer ∈ known_peers s) then mret tt else _ ← dial addr; mret tt);
      discover found
  end.

Definition handle_mdns_event (event : MdnsEvent) : M unit :=
  match event with
  | Discovered found => discover found
  | Expired _ => mret tt
  end.

Definition handle_identify_event (event : IdentifyEvent) : M unit :=
  match event with
  | Received peer listen_addrs =>
      modify (fun s => with_swarm (foldl (fun sw addr => sw_add_address peer addr sw) (swarm s) listen_addrs) s)
  | Sent _ | IdentifyError _ | Pushed => mret tt
  end.

Definition handle_behaviour_event (event : IcnBehaviourEvent) : M unit :=
  match event with
  | PingEvent peer ok => handle_ping_event peer ok
  | Kademlia e => handle_kademlia_event e
  | Mdns e => handle_mdns_event e
  | Identify e => handle_identify_event e
  end.

Definition handle_swarm_event (event : SwarmEvent) : M unit :=
  match event with
  | ConnectionEstablished peer remote_addr =>
      _ ← add_address peer remote_addr;
      _ ← modify (fun s => with_peers ({[peer]} ∪ known_peers s) s);
      send (PeerConnected peer)
  | ConnectionClosed peer => send (PeerDisconnected peer)
  | Behaviour e => handle_behaviour_event e
  | NewListenAddr _ | OutgoingConnectionError _ | IncomingConnectionError | Dialing _ | ListenerClosed
  | ListenerError | SwarmOther => mret tt
  end.

(** ** Proposals and votes *)

(** The peers are gone through, but nothing is sent to them. *)
Definition broadcast_proposal (proposal : FederatedProposal.t) : M unit := try_send ProposalBroadcasted.
Definition submit_vote (vote : FederatedVote.t) : M unit := try_send VoteSubmitted.
Definition handle_proposal_broadcast (proposal : FederatedProposal.t) : M unit := try_send ProposalReceived.
Definition handle_vote_submission (vote : FederatedVote.t) : M unit := try_send VoteReceived.

Definition send_custom_message (peer : string) : M unit :=
  if str_starts_with "/ip4/" peer || str_starts_with "/ip6/" peer then
    throw (Failed (FederationError.NetworkError "Sending by multiaddress not implemented yet"))
  else
    match parse_peer_id peer with
    | Some _ => mret tt
    | None => throw (Failed (FederationError.NetworkError ("Invalid peer ID: " +:+ peer)))
    end.

(** ** Starting, stopping, and the loop *)

Definition listen_addr (s : t) : string :=
  match port (config s) with
  | Some p => "/ip4/0.0.0.0/tcp/" +:+ u64_to_string p
  | None => "/ip4/0.0.0.0/tcp/0"
  end.

Definition listen_on (addr : string) : M unit := fun s =>
  let '(sw, r) := sw_listen_on addr (swarm s) in
  (with_swarm sw s, map_err (fun e => Failed (FederationError.NetworkError ("Failed to listen: " +:+ e))) r).

(** [start] up to its loop; whether the loop is entered. *)
Definition start (now : nat -> N) (random : nat -> f64) : M bool :=
  s ← get_state;
  if running s then mret false
  else
    _ ← modify (with_running true);
    addr ← lift (map_err (fun e => Failed (FederationError.NetworkError ("Multiaddr error: " +:+ e)))
                   (parse_multiaddr (listen_addr s)));
    _ ← listen_on addr;
    _ ← connect_to_bootstrap_nodes now random (bootstrap_nodes (config s));
    mret true.

Definition stop (s : t) : t := with_running false s.

(** Whether the backoff of a retry is over; subtracting a later time overflows. *)
Definition is_due (now : N) (retry : RetryStatus.t) : res Stop bool :=
  if RetryStatus.in_backoff retry then
    elapsed ← u64_sub overflow_checks now (RetryStatus.last_attempt retry);
    elapsed_ms ← u64_mul overflow_checks elapsed 1000;
    Ok (RetryStatus.current_delay_ms retry <=? elapsed_ms)%N
  else Ok false.

Fixpoint retries_to_resume (now : N) (all_retries : list RetryStatus.t) : res Stop (list NetworkEvent) :=
  match all_retries with
  | [] => Ok []
  | retry :: all_retries =>
      is_due now retry ≫= fun due : bool =>
      rest ← retries_to_resume now all_retries;
      Ok (if due then RetryOperation (RetryStatus.operation retry) (RetryStatus.target retry) :: rest else rest)
  end.

(** One round of the task that resumes retries.  It sends through clones of the
    sender, each of which has a slot of its own in the channel. *)
Definition resume_retries (now : N) : M unit := fun s =>
  match retries_to_resume now (RetryManager.get_all_retries (retry_manager s)) with
  | Ok events => (with_channel (channel s ++ events) s, Ok tt)
  | Err e => (s, Err e)
  | Panic m => (s, Panic m)
  | OutOfFuel => (s, OutOfFuel)
  end.

(** What can happen to a running node: the loop takes an event of the swarm or of
    the channel and its handler returns or fails; a task sends; a call is made. *)
Inductive happening : Type :=
  | SwarmEventComes (e : SwarmEvent)
  | ChannelEventComes (now : N) (random : f64)
  | RetryTaskRuns (now : N)
  | TimerFires
  | Broadcast (p : FederatedProposal.t)
  | Vote (v : FederatedVote.t)
  | ProposalArrives (p : FederatedProposal.t)
  | VoteArrives (v : FederatedVote.t)
  | CustomMessage (peer : string)
  | Stopped.

Definition next_event (now : N) (random : f64) : M unit := fun s =>
  match channel s with
  | [] => (s, Ok tt)
  | e :: rest => handle_network_event now random e (with_channel rest s)
  end.

Definition fire_timer : M unit := fun s =>
  match timers s with
  | [] => (s, Ok tt)
  | (_, e) :: rest => (with_channel (channel s ++ [e]) (with_timers rest s), Ok tt)
  end.

Definition react (h : happening) : M unit :=
  match h with
  | SwarmEventComes e => handle_swarm_event e
  | ChannelEventComes now random => next_event now random
  | RetryTaskRuns now => resume_retries now
  | TimerFires => fire_timer
  | Broadcast p => broadcast_proposal p
  | Vote v => submit_vote v
  | ProposalArrives p => handle_proposal_broadcast p
  | VoteArrives v => handle_vote_submission v
  | CustomMessage peer => send_custom_message peer
  | Stopped => modify stop
  end.

Inductive step : t -> t -> Prop :=
  | step_intro h s s' r : react h s = (s', r) -> r <> Err Stuck -> step s s'.

(** [process_events]: the loop over what comes, until the node is stopped; a
    failure is only logged, and the panic of the retry task is not the loop's.
    When nothing more comes the loop waits, which is running out of fuel. *)
Definition goes_on (h : happening) (r : res Stop unit) : bool :=
  match r with
  | Ok _ | Err (Failed _) => true
  | Panic _ => match h with RetryTaskRuns _ => true | _ => false end
  | Err Stuck | OutOfFuel => false
  end.
Fixpoint process_events (comes : list happening) : M unit := fun s =>
  if running s then
    match comes with
    | [] => (s, OutOfFuel)
    | h :: comes =>
        let '(s', r) := react h s in
        if goes_on h r then process_events comes s' else (s', r)
    end
  else (s, Ok tt).

(** The whole of [start]. *)
Definition start_and_run (now : nat -> N) (random : nat -> f64) (comes : list happening) : M unit :=
  start now random ≫= fun entered : bool => if entered then process_events comes else mret tt.

(** ** Reading *)

Definition get_role (s : t) : option string := role s.
Definition get_start_time (s : t) : option N := start_time s.
Definition connected_peers (s : t) : list PeerInfo :=
  (fun p => {| pi_peer_id := p; pi_addresses := None; pi_role := None; pi_ping_ms := None;
               pi_supported_protocols := None; pi_last_seen := None |}) <$> sw_connected_peers (swarm s).
Definition listen_addresses (s : t) : list string := sw_listeners (swarm s).

End Node.

End NetworkNode.

(** ** Retries: theorems *)
Module RetryTheorems.

Import RetryManager.

(** The settings of [new], and entries that are still retried. *)
Record wf (m : t) : Prop := {
  wf_max : max_attempts m = MAX_RETRY_ATTEMPTS;
  wf_base : base_delay_ms m = BASE_RETRY_DELAY_MS;
  wf_delay : max_delay_ms m = MAX_RETRY_DELAY_MS;
  wf_entries : map_Forall (fun k status =>
    (1 <= RetryStatus.attempts status < MAX_RETRY_ATTEMPTS)%N /\
    (RetryStatus.current_delay_ms status <= MAX_RETRY_DELAY_MS)%N) (retries m);
}.

Lemma manager_wf_new : wf new.
Proof. by split. Qed.

Lemma wf_with_retries m r :
  wf m -> map_Forall (fun k status =>
    (1 <= RetryStatus.attempts status < MAX_RETRY_ATTEMPTS)%N /\
    (RetryStatus.current_delay_ms status <= MAX_RETRY_DELAY_MS)%N) r -> wf (with_retries r m).
Proof. intros [Hm Hb Hd _] Hr. by split. Qed.

Lemma wf_delete m k : wf m -> wf (with_retries (delete k (retries m)) m).
Proof. intros Hm. apply wf_with_retries; [done|]. apply map_Forall_delete. by apply wf_entries. Qed.
Lemma wf_insert m k status :
  wf m -> (1 <= RetryStatus.attempts status < MAX_RETRY_ATTEMPTS)%N ->
  (RetryStatus.current_delay_ms status <= MAX_RETRY_DELAY_MS)%N -> wf (with_retries (<[k := status]> (retries m)) m).
Proof. intros Hm H1 H2. apply wf_with_retries; [done|]. apply map_Forall_insert_2; [done|]. by apply wf_entries. Qed.

Lemma wf_record_success op tgt m : wf m -> wf (record_success op tgt m).
Proof. apply wf_delete. Qed.

Lemma wf_clear_backoff op tgt m : wf m -> wf (clear_backoff op tgt m).
Proof.
  intros Hm. unfold clear_backoff. destruct (retries m !! key_of op tgt) as [status|] eqn:Hs; [|done].
  destruct (wf_entries m Hm _ _ Hs). by apply wf_insert.
Qed.

(** How often an operation failed since it last succeeded or was given up. *)
Definition count (op tgt : string) (m : t) : N :=
  match retries m !! key_of op tgt with Some status => RetryStatus.attempts status | None => 0 end.

Lemma count_lt op tgt m : wf m -> (count op tgt m < MAX_RETRY_ATTEMPTS)%N.
Proof.
  intros Hm. unfold count. destruct (retries m !! key_of op tgt) as [status|] eqn:Hs; [|done].
  destruct (wf_entries m Hm _ _ Hs). lia.
Qed.

(** The entry of an operation that failed [n] times and waits [delay]. *)
Definition waits (op tgt : string) (n delay : N) (m : t) : Prop :=
  exists status, retries m !! key_of op tgt = Some status /\ RetryStatus.attempts status = n /\
    RetryStatus.current_delay_ms status = delay /\ RetryStatus.in_backoff status = true.

Lemma count_none op tgt m : retries m !! key_of op tgt = None -> count op tgt m = 0%N.
Proof. unfold count. by intros ->. Qed.

(** Half a second, doubled with every failure after the first. *)
Definition nominal (n : N) : N := BASE_RETRY_DELAY_MS * 2 ^ (n - 1).

(** The random part is a twentieth at most. *)
Lemma jitter_bounded n random : (1 <= n < MAX_RETRY_ATTEMPTS)%N -> in_unit_interval random ->
  (jitter (nominal n) random <= nominal n / 20)%N.
Proof.
  intros Hn Hr%unit_minus_half. unfold MAX_RETRY_ATTEMPTS in Hn.
  assert (n = 1 \/ n = 2 \/ n = 3 \/ n = 4)%N as Hcases by lia.
  unfold jitter. generalize dependent (f64_sub random (f64_round_dyadic 1 (-1) false)). intros x Hx.
  rewrite <- (N2Z.id (nominal n / 20)). apply f64_to_u64_at_most; [apply N2Z.is_nonneg|].
  destruct Hcases as [->|[->|[->| ->]]];
    (match goal with |- context [f64_mul (f64_mul ?a ?b) _] =>
       let c := eval vm_compute in (f64_mul a b) in change (f64_mul a b) with c end;
     eapply f64_mul_at_most; [exact Hx|by split|by vm_compute|by vm_compute]).
Qed.

Lemma record_failure_cases {E} checks now random op tgt m :
  wf m ->
  let n := (count op tgt m + 1)%N in
  exists m', wf m' /\
    (if (MAX_RETRY_ATTEMPTS <=? n)%N then
       record_failure (E := E) checks now random op tgt m = (m', Ok None) /\ retries m' !! key_of op tgt = None
     else
       count op tgt m' = n /\
       match u64_add (E := E) checks (nominal n) (jitter (nominal n) random) with
       | Ok sum => record_failure (E := E) checks now random op tgt m = (m', Ok (Some (N.min sum MAX_RETRY_DELAY_MS))) /\
                   waits op tgt n (N.min sum MAX_RETRY_DELAY_MS) m'
       | Err e => record_failure (E := E) checks now random op tgt m = (m', Err e)
       | Panic msg => record_failure (E := E) checks now random op tgt m = (m', Panic msg)
       | OutOfFuel => record_failure (E := E) checks now random op tgt m = (m', OutOfFuel)
       end).
Proof.
  intros Hm n. pose proof (count_lt op tgt m Hm) as Hlt. unfold MAX_RETRY_ATTEMPTS in *.
  unfold record_failure.
  assert (Hc : RetryStatus.attempts (default (fresh now op tgt m) (retries m !! key_of op tgt)) = count op tgt m).
  { unfold count. by destruct (retries m !! key_of op tgt). }
  assert (Hd : (RetryStatus.current_delay_ms (default (fresh now op tgt m) (retries m !! key_of op tgt)) <= MAX_RETRY_DELAY_MS)%N).
  { destruct (retries m !! key_of op tgt) as [status|] eqn:Hs; [apply (wf_entries m Hm _ _ Hs)|].
    cbn. by rewrite (wf_base m Hm). }
  rewrite Hc. unfold u32_add. rewrite (proj2 (N.leb_le (count op tgt m + 1) u32_max)) by (unfold u32_max; lia).
  fold n. assert (H1 : (1 <= n)%N) by lia. clearbody n. rewrite (wf_max m Hm). unfold MAX_RETRY_ATTEMPTS.
  destruct (N.leb_spec 5 n) as [Hge|Hn].
  - exists (with_retries (delete (key_of op tgt) (retries m)) m). split; [by apply wf_delete|]. split; [done|].
    cbn. by rewrite lookup_delete_eq.
  - rewrite (wf_base m Hm), (wf_delay m Hm).
    assert (Hpow : (2 ^ (n - 1) <= 2 ^ 3)%N) by (apply N.pow_le_mono_r; lia). cbn in Hpow.
    unfold u64_pow2, u64_mul. unfold BASE_RETRY_DELAY_MS, u64_max.
    rewrite (proj2 (N.leb_le (2 ^ (n - 1)) _)) by lia. cbn [mbind res_bind].
    rewrite (proj2 (N.leb_le (500 * 2 ^ (n - 1)) _)) by lia. cbn [mbind res_bind].
    change (500 * 2 ^ (n - 1))%N with (nominal n).
    destruct (u64_add checks (nominal n) (jitter (nominal n) random)) as [sum| | |]; cbn [mbind res_bind];
      (eexists; split; cycle 1;
        [split; cycle 1;
          [first [split; [reflexivity|eexists; split; [cbn; by rewrite lookup_insert_eq|done]]|reflexivity]
          |unfold count; cbn; by rewrite lookup_insert_eq]
        |apply wf_insert; [done|unfold MAX_RETRY_ATTEMPTS; cbn; lia|cbn; first [done|apply N.le_min_r]]]).
Qed.

(** A manager stays well formed whatever happens. *)
Lemma wf_record_failure {E} checks now random op tgt m :
  wf m -> wf (record_failure (E := E) checks now random op tgt m).1.
Proof.
  intros Hm. destruct (record_failure_cases (E := E) checks now random op tgt m Hm) as (m' & Hm' & Hcase).
  destruct (_ <=? _)%N; [destruct Hcase as [-> _]; done|]. destruct Hcase as [_ Hcase].
  destruct (u64_add _ _ _); [destruct Hcase as [-> _]|rewrite Hcase..]; done.
Qed.

(** Failures of one operation in a row, and the answer to the last. *)
Fixpoint failures {E} (checks : bool) (op tgt : string) (xs : list (N * f64)) (m : t) : t * res E (option N) :=
  match xs with
  | [] => (m, Ok None)
  | [(now, random)] => record_failure checks now random op tgt m
  | (now, random) :: xs => failures checks op tgt xs (record_failure (E := E) checks now random op tgt m).1
  end.

Lemma failures_snoc {E} checks op tgt xs x m :
  failures (E := E) checks op tgt (xs ++ [x]) m =
  record_failure checks x.1 x.2 op tgt (failures (E := E) checks op tgt xs m).1.
Proof.
  revert m. induction xs as [|[now random] xs IH]; intros m; [by destruct x|].
  cbn [failures app]. destruct (xs ++ [x]) as [|y ys] eqn:Hxs; [by destruct xs|].
  rewrite IH. destruct xs as [|[] xs]; done.
Qed.

Lemma failures_count {E} checks op tgt xs m :
  wf m -> count op tgt m = 0%N ->
  wf (failures (E := E) checks op tgt xs m).1 /\
  count op tgt (failures (E := E) checks op tgt xs m).1 = (N.of_nat (length xs) mod MAX_RETRY_ATTEMPTS)%N.
Proof.
  intros Hm H0. induction xs as [|x xs [IHw IHc]] using rev_ind; [done|]. rewrite failures_snoc.
  split; [by apply wf_record_failure|].
  destruct (record_failure_cases (E := E) checks x.1 x.2 op tgt _ IHw) as (m' & _ & Hcase).
  rewrite IHc in Hcase. rewrite length_app, Nat2N.inj_add. cbn [length]. unfold MAX_RETRY_ATTEMPTS in *.
  pose proof (N.mod_upper_bound (N.of_nat (length xs)) 5 ltac:(lia)) as Hb.
  rewrite <- N.Div0.add_mod_idemp_l.
  destruct (N.leb_spec 5 (N.of_nat (length xs) mod 5 + 1)) as [Hge|Hlt].
  - destruct Hcase as [Hr Hc%count_none]. rewrite Hr. cbn [fst]. rewrite Hc. by replace (N.of_nat (length xs) mod 5)%N with 4%N by lia.
  - rewrite N.mod_small by lia. destruct Hcase as [Hc Hr].
    destruct (u64_add _ _ _); [destruct Hr as [Hr _]|..]; rewrite Hr; cbn [fst]; rewrite Hc; lia.
Qed.

(** C24. Of an operation that keeps failing every fifth failure is the one that
    gives up: its entry is forgotten, and counting starts again.  The others are
    answered with half a second that doubles with every failure, lengthened by a
    random part of at most a twentieth and never shortened; the entry remembers
    the number of failures and the delay.  Nothing overflows, and the limit of
    thirty seconds is not reached. *)
Theorem delays_double_until_the_fifth_failure {E} checks op tgt xs now random m :
  wf m -> count op tgt m = 0%N -> in_unit_interval random ->
  let n := (N.of_nat (length xs) mod MAX_RETRY_ATTEMPTS + 1)%N in
  let m' := (failures (E := E) checks op tgt (xs ++ [(now, random)]) m).1 in
  let answer := (failures (E := E) checks op tgt (xs ++ [(now, random)]) m).2 in
  if (n =? MAX_RETRY_ATTEMPTS)%N then answer = Ok None /\ retries m' !! key_of op tgt = None
  else exists extra, (extra <= nominal n / 20)%N /\ (nominal n + extra < MAX_RETRY_DELAY_MS)%N /\
         answer = Ok (Some (nominal n + extra)%N) /\ waits op tgt n (nominal n + extra) m'.
Proof.
  intros Hm H0 Hrandom n m' answer. destruct (failures_count (E := E) checks op tgt xs m Hm H0) as [Hw Hc].
  destruct (record_failure_cases (E := E) checks now random op tgt _ Hw) as (m1 & _ & Hcase).
  unfold m', answer. rewrite failures_snoc. cbn [fst snd]. rewrite Hc in Hcase. fold n in Hcase.
  pose proof (N.mod_upper_bound (N.of_nat (length xs)) MAX_RETRY_ATTEMPTS ltac:(done)) as Hb.
  assert (1 <= n <= MAX_RETRY_ATTEMPTS)%N as H1 by (unfold n; split; [apply N.le_add_l|lia]).
  pose proof (jitter_bounded n random) as Hj.
  unfold MAX_RETRY_ATTEMPTS in *. clearbody n.
  destruct (N.eqb_spec n 5) as [He|Hne].
  - rewrite He in Hcase. cbn in Hcase. by destruct Hcase as [-> Hcase].
  - destruct (N.leb_spec 5 n) as [|Hlt]; [lia|]. destruct Hcase as [_ Hr].
    specialize (Hj ltac:(lia) Hrandom).
    assert (Hpow : (2 ^ (n - 1) <= 2 ^ 3)%N) by (apply N.pow_le_mono_r; lia). cbn in Hpow.
    assert (Hnom : (nominal n <= 4000)%N) by (unfold nominal, BASE_RETRY_DELAY_MS; lia).
    assert (Hdiv : (nominal n / 20 <= 200)%N) by (apply N.Div0.div_le_upper_bound; lia).
    unfold u64_add in Hr. rewrite (proj2 (N.leb_le _ u64_max)) in Hr by (unfold u64_max; lia).
    unfold MAX_RETRY_DELAY_MS in *. rewrite N.min_l in Hr by lia. destruct Hr as [-> Hwaits].
    exists (jitter (nominal n) random). repeat split; [done|lia|done].
Qed.

End RetryTheorems.

(** ** The node: theorems *)
Module NodeTheorems.

Import NetworkNode.

Create HintDb kept.

Section Node.

Context `{SC : SwarmCalls} `{PL : Platform} `{RD : Renderings}.

Abbreviation M := (stm t Stop).

(** What no event and no call changes: the stored proposals and votes and the
    identity and settings of the node; peers are only added, and the retries
    stay within their bounds.  Unless it [stops] the node keeps running. *)
Record kept (stops : bool) (s s' : t) : Prop := {
  kept_storage : federation_storage s' = federation_storage s;
  kept_peer_id : local_peer_id s' = local_peer_id s;
  kept_config : config s' = config s;
  kept_role : role s' = role s;
  kept_peers : known_peers s ⊆ known_peers s';
  kept_retries : RetryTheorems.wf (retry_manager s) -> RetryTheorems.wf (retry_manager s');
  kept_running : stops = false -> running s = true -> running s' = true;
}.

#[local] Instance kept_preorder stops : PreOrder (kept stops).
Proof.
  split; [by intros s|]. intros s1 s2 s3 [] []. split; [congruence..|set_solver|auto|auto].
Qed.

Section Keeping.

Context (stops : bool).

Definition keeps {A} (m : M A) : Prop := forall s, kept stops s (m s).1.

Lemma holds_bind {A B} (m : M A) (k : A -> M B) : keeps m -> (forall a, keeps (k a)) -> keeps (m ≫= k).
Proof.
  intros Hm Hk s. specialize (Hm s). unfold mbind, stm_bind. destruct (m s) as [s1 [a| | |]]; cbn in *; [|done..].
  etransitivity; [exact Hm|apply Hk].
Qed.
Lemma holds_ret {A} (a : A) : keeps (mret a).
Proof. by intros s. Qed.
Lemma holds_lift {A} (r : res Stop A) : keeps (lift r).
Proof. by intros s. Qed.
Lemma holds_throw {A} (e : Stop) : keeps (throw (A := A) e).
Proof. by intros s. Qed.
Lemma holds_get : keeps get_state.
Proof. by intros s. Qed.
Lemma holds_modify f : (forall s, kept stops s (f s)) -> keeps (modify f).
Proof. intros Hf s. apply Hf. Qed.

Lemma holds_send e : keeps (send e).
Proof. intros s. unfold send. by destruct (channel_accepts (channel s)). Qed.
Lemma holds_try_send e : keeps (try_send e).
Proof. intros s. unfold try_send. by destruct (channel_accepts (channel s)). Qed.
Lemma holds_dial addr : keeps (dial addr).
Proof. intros s. unfold dial. by destruct (sw_dial addr (swarm s)). Qed.
Lemma holds_add_address p a : keeps (add_address p a).
Proof. by intros s. Qed.
Lemma holds_record_failure now r op tgt : keeps (record_failure now r op tgt).
Proof.
  intros s. unfold record_failure, zoom.
  pose proof (fun Hw => RetryTheorems.wf_record_failure (E := Stop) overflow_checks now r op tgt (retry_manager s) Hw) as Hw.
  destruct (RetryManager.record_failure _ _ _ _ _ _) as [m' res]. by split.
Qed.

Hint Resolve holds_bind holds_ret holds_lift holds_throw holds_get holds_send holds_try_send holds_dial
  holds_add_address holds_record_failure : kept.

Lemma holds_dial_with_retry addr : keeps (dial_with_retry addr).
Proof.
  unfold dial_with_retry. apply holds_bind; [auto with kept|]. intros [[]| | |]; auto with kept.
  apply holds_bind; [|auto with kept]. apply holds_modify. intros s. split; try done. apply RetryTheorems.wf_record_success.
Qed.
Hint Resolve holds_dial_with_retry : kept.

Lemma holds_handle_network_event now r e : keeps (handle_network_event now r e).
Proof.
  destruct e as [| | | | | | | | | |op tgt]; cbn [handle_network_event]; auto with kept.
  apply holds_bind.
  { apply holds_modify. intros s. split; try done. apply RetryTheorems.wf_clear_backoff. }
  intros _. repeat case_match; auto with kept.
  apply holds_bind; [auto with kept|]. intros d. destruct (is_ok d); auto with kept.
Qed.

Lemma holds_discover found : keeps (discover found).
Proof.
  induction found as [|[p a] found IH]; cbn [discover]; [auto with kept|].
  apply holds_bind; [auto with kept|intros _]. apply holds_bind; [auto with kept|intros _].
  apply holds_bind; [auto with kept|intros s]. apply holds_bind; [|auto]. case_decide; auto with kept.
Qed.

Lemma holds_handle_swarm_event e : keeps (handle_swarm_event e).
Proof.
  destruct e as [|p a| | | | | | |b|]; cbn [handle_swarm_event]; auto with kept.
  - apply holds_bind; [auto with kept|intros _]. apply holds_bind; [|auto with kept].
    apply holds_modify. intros s. split; try done. cbn. set_solver.
  - destruct b as [|k|m|i]; cbn [handle_behaviour_event].
    + apply holds_ret.
    + destruct k as [| | | |p []|]; cbn; auto with kept.
    + destruct m; cbn; [apply holds_discover|auto with kept].
    + destruct i; cbn; auto with kept. by apply holds_modify.
Qed.

Lemma holds_react h : (h = Stopped -> stops = true) -> keeps (react h).
Proof.
  intros Hstop. destruct h; cbn [react]; auto with kept.
  - apply holds_handle_swarm_event.
  - intros s. unfold next_event. destruct (channel s) as [|e rest]; [done|].
    etransitivity; [|apply holds_handle_network_event]. by split.
  - intros s. unfold resume_retries. by destruct (retries_to_resume _ _).
  - intros s. unfold fire_timer. by destruct (timers s) as [|[] ?].
  - apply holds_try_send.
  - apply holds_try_send.
  - apply holds_try_send.
  - apply holds_try_send.
  - unfold send_custom_message. repeat case_match; auto with kept.
  - apply holds_modify. intros s. split; try done. by rewrite Hstop.
Qed.

Lemma holds_connect now random addrs : keeps (connect_to_bootstrap_nodes now random addrs).
Proof.
  induction addrs as [|addr addrs IH]; cbn [connect_to_bootstrap_nodes]; [auto with kept|].
  apply holds_bind; [auto with kept|intros r]. apply holds_bind; [|auto].
  destruct (is_ok r); [auto with kept|]. apply holds_bind; [auto with kept|].
  intros [d|]; [by apply holds_modify|auto with kept].
Qed.

End Keeping.

Lemma steps_kept s s' : rtc step s s' -> kept true s s'.
Proof.
  induction 1 as [s|s s1 s' Hstep _ IH]; [done|]. etransitivity; [|exact IH].
  destruct Hstep as [h s s1 r Hr _]. pose proof (holds_react true h ltac:(done) s) as Hk. by rewrite Hr in Hk.
Qed.

(** Whatever reaches a node, it never stores a proposal or a vote, forgets no
    peer when its connection closes, and keeps the attempts of every retry below
    five and its delay within thirty seconds. *)
Theorem nodes_store_nothing sw id secs cfg s :
  rtc step (new sw id secs cfg) s ->
  federation_storage s = FederationStorage.new /\
  (forall s', rtc step s s' -> known_peers s ⊆ known_peers s') /\
  map_Forall (fun _ status => (1 <= RetryStatus.attempts status < MAX_RETRY_ATTEMPTS)%N /\
                              (RetryStatus.current_delay_ms status <= MAX_RETRY_DELAY_MS)%N)
    (RetryManager.retries (retry_manager s)).
Proof.
  intros Hr%steps_kept. split; [apply Hr|]. split.
  - intros s' Hs%steps_kept. apply Hs.
  - apply RetryTheorems.wf_entries, (kept_retries _ _ _ Hr), RetryTheorems.manager_wf_new.
Qed.

(** ** A full channel *)

Lemma discover_sends found s :
  match (discover found s).2 with
  | Ok _ => channel (discover found s).1 = channel s ++ (PeerDiscovered <$> found.*1) /\
            (found <> [] -> exists q, length q + 1 = length (channel s) + length found /\ channel_accepts q = true)
  | Err e => e = Stuck
  | _ => False
  end.
Proof.
  revert s. induction found as [|[p a] found IH]; intros s; cbn [discover].
  { cbn. split; [by rewrite app_nil_r|done]. }
  unfold mbind, stm_bind, add_address, modify, send, get_state. cbn [channel with_swarm].
  destruct (channel_accepts (channel s)) eqn:Hacc; [|done]. cbn [known_peers with_channel with_swarm].
  assert (Hrest : forall s1, channel s1 = channel s ++ [PeerDiscovered p] ->
    match (discover found s1).2 with
    | Ok _ => channel (discover found s1).1 = channel s ++ (PeerDiscovered <$> ((p, a) :: found).*1) /\
              ((p, a) :: found <> [] -> exists q, length q + 1 = length (channel s) + length ((p, a) :: found) /\
                                                  channel_accepts q = true)
    | Err e => e = Stuck
    | _ => False
    end).
  { intros s1 Hs1. specialize (IH s1). destruct (discover found s1).2; try done. destruct IH as [-> Hq].
    rewrite Hs1, <- app_assoc. split; [done|]. intros _. destruct found as [|x found].
    - exists (channel s). cbn. split; [lia|done].
    - destruct Hq as (q & Hl & Hq); [done|]. exists q. rewrite Hs1, length_app in Hl. cbn in *. split; [lia|done]. }
  case_decide; [by apply Hrest|]. unfold dial. destruct (sw_dial _ _) as [sw r]. by apply Hrest.
Qed.

(** When the local network reports more peers at once than the channel has
    room for, the handler waits for the very loop that called it: the node is
    stuck for good. *)
Theorem large_discovery_blocks_the_node capacity found s :
  (forall q, capacity <= length q -> channel_accepts q = false) ->
  capacity < length (channel s) + length found -> found <> [] ->
  (handle_swarm_event (Behaviour (Mdns (Discovered found))) s).2 = Err Stuck.
Proof.
  intros Hcap Hlen Hne. cbn [handle_swarm_event handle_behaviour_event handle_mdns_event].
  pose proof (discover_sends found s) as Hd. destruct (discover found s).2; [|by subst|done..].
  destruct Hd as [_ Hq]. destruct (Hq Hne) as (q & Hl & Hacc). rewrite Hcap in Hacc; [done|lia].
Qed.

(** ** Starting *)

(** A node whose port cannot be opened reports it once; starting it again
    succeeds at once, without listening, because it counts as running. *)
Theorem second_start_hides_the_failure now random now' random' s addr e :
  running s = false -> parse_multiaddr (listen_addr s) = Ok addr -> (sw_listen_on addr (swarm s)).2 = Err e ->
  exists s', start now random s = (s', Err (Failed (FederationError.NetworkError ("Failed to listen: " +:+ e)))) /\
             start now' random' s' = (s', Ok false).
Proof.
  intros Hrun Hparse Hlisten. unfold start, mbind, stm_bind, get_state, modify, lift. rewrite Hrun, Hparse. cbn.
  unfold listen_on. cbn. destruct (sw_listen_on addr (swarm s)) as [sw r]. cbn in Hlisten. subst r. cbn.
  eexists. split; [reflexivity|]. reflexivity.
Qed.

Lemma running_loop comes s : running s = true -> Stopped ∉ comes -> is_ok (process_events comes s).2 = false.
Proof.
  revert s. induction comes as [|h comes IH]; intros s Hrun Hstop; cbn [process_events]; rewrite Hrun; [done|].
  apply not_elem_of_cons in Hstop as [Hh Hstop].
  pose proof (kept_running _ _ _ (holds_react false h ltac:(congruence) s) eq_refl Hrun) as Hnext.
  destruct (react h s) as [s' r]. cbn in Hnext. pose proof (IH s' Hnext Hstop) as Hrest. destruct (goes_on h r) eqn:Hgo; [done|]. by destruct r.
Qed.

(** Starting a node does not return until another task stops it: a command
    that starts its node and then means to store and send never gets there. *)
Theorem start_does_not_return sw id secs cfg now random comes :
  Stopped ∉ comes -> is_ok (start_and_run now random comes (new sw id secs cfg)).2 = false.
Proof.
  intros Hstop. unfold start_and_run, start. set (s0 := new sw id secs cfg).
  unfold mbind, stm_bind, get_state, modify, lift. cbn [running s0 new].
  destruct (parse_multiaddr (listen_addr s0)) as [addr| | |]; cbn [map_err]; [|done..].
  unfold listen_on. destruct (sw_listen_on addr _) as [sw' [[]| | |]]; cbn [map_err]; [|done..].
  match goal with |- context [connect_to_bootstrap_nodes ?n ?r ?a ?s] =>
    pose proof (kept_running _ _ _ (holds_connect false n r a s) eq_refl eq_refl) as Hrun;
    destruct (connect_to_bootstrap_nodes n r a s) as [s1 [[]| | |]] end; cbn in *; [|done..].
  by apply running_loop.
Qed.

End Node.

End NodeTheorems.

(** ** Witnesses *)
Module NodeExamples.

Import NetworkNode NodeTheorems.

(** A network on which port 1 is taken and peers are never reached by name. *)
#[local] Instance sample_swarm : SwarmCalls :=
  {| Swarm := list string;
     sw_listen_on := fun addr sw =>
       (sw, if String.eqb addr "/ip4/0.0.0.0/tcp/1" then Err "address in use" else Ok tt);
     sw_dial := fun addr sw => (addr :: sw, if str_starts_with "/dns/" addr then Err "no route" else Ok tt);
     sw_add_address := fun _ _ sw => sw; sw_connected_peers := fun _ => []; sw_listeners := fun _ => [];
     parse_multiaddr := Ok; parse_peer_id := Some; channel_accepts := fun q => length q <? 33 |}.
#[local] Existing Instance Machine.Samples.platform.
#[local] Existing Instance Machine.Samples.renderings.

Definition idle : @Swarm sample_swarm := ([] : list string).
Definition cfg (p : N) : NodeConfig :=
  {| port := Some p; bootstrap_nodes := ["/dns/a"]; node_name := None; node_capabilities := []; protocol_version := "1.0.0" |}.
Definition three_quarters : f64 := f64_round_dyadic 3 (-2) false.

Lemma delays_double_until_the_fifth_failure_witness :
  let x := (7%N, three_quarters) in
  (exists extra, (extra <= 100)%N /\ (2000 + extra < MAX_RETRY_DELAY_MS)%N /\
    (RetryTheorems.failures (E := unit) true "dial" "/dns/a" ([x; x] ++ [x]) RetryManager.new).2 = Ok (Some (2000 + extra)%N) /\
    RetryTheorems.waits "dial" "/dns/a" 3 (2000 + extra)
      (RetryTheorems.failures (E := unit) true "dial" "/dns/a" ([x; x] ++ [x]) RetryManager.new).1) /\
  (RetryTheorems.failures (E := unit) true "dial" "/dns/a" ([x; x; x; x] ++ [x]) RetryManager.new).2 = Ok None.
Proof.
  intros x. assert (in_unit_interval three_quarters) as Hx by (vm_compute; split; [discriminate|reflexivity]). split.
  - exact (RetryTheorems.delays_double_until_the_fifth_failure true "dial" "/dns/a" [x; x] 7 three_quarters
             RetryManager.new RetryTheorems.manager_wf_new eq_refl Hx).
  - exact (proj1 (RetryTheorems.delays_double_until_the_fifth_failure true "dial" "/dns/a" [x; x; x; x] 7 three_quarters
             RetryManager.new RetryTheorems.manager_wf_new eq_refl Hx)).
Defined.

Definition met : t := (react (SwarmEventComes (ConnectionEstablished "p" "/ip4/1")) (new idle "me" None (cfg 0))).1.

Lemma met_reached : rtc step (new idle "me" None (cfg 0)) met.
Proof.
  apply rtc_once. apply (step_intro (SwarmEventComes (ConnectionEstablished "p" "/ip4/1")) _ _ (Ok tt)); [|done].
  vm_compute. reflexivity.
Qed.

Lemma nodes_store_nothing_witness :
  known_peers met = {["p"]} /\ federation_storage met = FederationStorage.new /\
  (forall s', rtc step met s' -> known_peers met ⊆ known_peers s').
Proof.
  destruct (nodes_store_nothing idle "me" None (cfg 0) met met_reached) as (H1 & H2 & _).
  split; [vm_compute; reflexivity|]. split; [exact H1|exact H2].
Defined.

Lemma large_discovery_blocks_the_node_witness :
  let found := repeat ("p", "/ip4/1") 34 in
  (handle_swarm_event (Behaviour (Mdns (Discovered found))) met).2 = Err Stuck.
Proof.
  intros found. apply (large_discovery_blocks_the_node 33).
  - intros q Hq. apply Nat.ltb_ge. exact Hq.
  - vm_compute. lia.
  - discriminate.
Defined.

Lemma second_start_hides_the_failure_witness :
  exists s', start (fun _ => 0%N) (fun _ => three_quarters) (new idle "me" None (cfg 1)) =
               (s', Err (Failed (FederationError.NetworkError "Failed to listen: address in use"))) /\
             start (fun _ => 1%N) (fun _ => three_quarters) s' = (s', Ok false).
Proof.
  apply (second_start_hides_the_failure (fun _ => 0%N) (fun _ => three_quarters) (fun _ => 1%N) (fun _ => three_quarters)
           (new idle "me" None (cfg 1)) "/ip4/0.0.0.0/tcp/1" "address in use"); reflexivity.
Defined.

Lemma start_does_not_return_witness :
  is_ok (start_and_run (fun _ => 0%N) (fun _ => three_quarters)
           [SwarmEventComes (ConnectionEstablished "p" "/ip4/1"); RetryTaskRuns 3; ChannelEventComes 3 three_quarters]
           (new idle "me" None (cfg 0))).2 = false.
Proof.
  apply (start_does_not_return idle "me" None (cfg 0)). rewrite !not_elem_of_cons. repeat split; try discriminate.
  apply not_elem_of_nil.
Defined.

End NodeExamples.
