(* ===== verification/FederationCommands.v ===== *)
(** * Federation commands: cli/federation.rs and the federation methods of vm/vm.rs

    What the commands print is not kept; a listing is the list of its rows.  The
    network node of a command is made by libp2p; requests come with their options
    read.  [count_proposals] is called but not declared by the store: it is a
    parameter.  [federation_log_message] writes through a shared reference: it is
    read as a write to the machine's own storage. *)
From S2P Require Import Prelude Float64 Text Values Ops Stack Memory Auth Storage InMemory Economic Executor.
From S2P Require Import Ledger Trace Machine Governance VM Lifecycle Comments Proposals Federation FederationNode.

(** ** cli/federation.rs *)

Definition FEDERATION_PROPOSALS_PATH : string := "federation/proposals".
Definition FEDERATION_VOTES_PATH : string := "votes".
Definition FEDERATION_SYNC_PATH : string := "federation/sync".

Record FederationSyncMetadata : Type := {
  sm_proposal_id : string;
  sm_last_synced : N;
  sm_source_node : string;
  sm_comment_count : N;
  sm_vote_count : N;
}.

(** serde_json and derived [Debug] texts. *)
Class FederationCommandCalls : Type := {
  proposal_from_str : string -> res string FederatedProposal.t;
  sync_from_slice : bytes -> res string FederationSyncMetadata;
  choice_to_vec : VoteChoice.t -> res string bytes;
  value_from_str : string -> res string string;
  value_to_vec : string -> res string bytes;
  log_entry : N -> string -> string -> string -> string;
  debug_choices : list f64 -> string;
  new_uuid : nat -> string;
}.

Record ListRow : Type := {
  row_id : string;
  row_proposal : FederatedProposal.t;
  row_votes : N;
  row_sync : option FederationSyncMetadata;
}.

Record NodeStatus : Type := {
  ns_local_peer_id : string;
  ns_connected_peers : N;
  ns_listening : list string;
  ns_uptime : option (N * N * N * N);
  ns_role : option string;
  ns_proposals : N;
  ns_votes : N;
}.

Inductive federation_request : Type :=
  | ShareProposal (id to scope : string) (coops : option string) (model : string) (expires_in : option N)
  | ReceiveProposal (file : res string string) (source : option string)
  | VoteRemote (remote vote node : string)
  | Sync (id from : string) (force : bool)
  | ListProposals (status : option string)
  | Status
  | Peers (verbose : bool)
  | SendMsg (peer json : string).

Inductive shown : Type :=
  | Nothing
  | Rows (rows : list ListRow)
  | Info (s : NodeStatus)
  | PeerList (peers : list PeerInfo).

Module FederationCommands.

Section Commands.

Context {S : Type} `{SB : StorageBackend S} `{PL : Platform} `{RD : Renderings} `{SC : SwarmCalls}.
Context `{CH : Chrono} `{UC : Unicode} `{PC : !ProposalCalls} `{FJ : FederationJson} `{FC : FederationCommandCalls}.

(** [NetworkNode::new] with its key pair; counting the proposals of a storage. *)
Context (new_node : NodeConfig -> res string NetworkNode.t).
Context (count_proposals : S -> res StorageError.t N).
(** The node of the machine, if federation is on. *)
Context (network_node : option NetworkNode.t).

Abbreviation M := (stm (VM.t S) BoxError).

Definition text {A} (s : string) : res BoxError A := Err (EText s).
Definition labelled {A} (what : string) (r : res string A) : res BoxError A := map_err (fun e => EText (what +:+ e)) r.
Definition stored {A} (what : string) (r : res StorageError.t A) : res BoxError A :=
  map_err (fun e => EText (what +:+ StorageError.to_string e)) r.
Definition storage_of (vm : VM.t S) : res BoxError S :=
  match VM.get_storage_backend vm with Some storage => Ok storage | None => text "Storage backend not available" end.

(** The outcome of a call of the node; a call that is stuck does not return. *)
Definition node_call {A} (what : string) (r : res Stop A) : res BoxError A :=
  match r with
  | Ok a => Ok a
  | Err (Failed e) => text (what +:+ FederationError.to_string e)
  | Err Stuck => OutOfFuel
  | Panic m => Panic m
  | OutOfFuel => OutOfFuel
  end.

(** ** Conversions *)

Definition federated_status (st : ProposalStatus.t) : FederatedStatus.t :=
  match st with
  | ProposalStatus.Draft | ProposalStatus.Deliberation | ProposalStatus.Active | ProposalStatus.Voting =>
      FederatedStatus.Open
  | ProposalStatus.Approved => FederatedStatus.Closed
  | ProposalStatus.Executed => FederatedStatus.Executed
  | ProposalStatus.Rejected => FederatedStatus.Rejected
  | ProposalStatus.Expired => FederatedStatus.Expired
  end.

Definition local_to_federated_proposal (now : N) (local_proposal : Proposal.t) (scope : ProposalScope)
    (voting_model : VotingModel) (expires_in : option N) : res BoxError FederatedProposal.t :=
  let federated :=
    {| FederatedProposal.proposal_id := Proposal.id local_proposal; FederatedProposal.namespace := "governance";
       FederatedProposal.options := ["Yes"; "No"]; FederatedProposal.creator := Proposal.creator local_proposal;
       FederatedProposal.created_at := dt_timestamp (Proposal.created_at local_proposal);
       FederatedProposal.scope := scope; FederatedProposal.voting_model := voting_model;
       FederatedProposal.expires_at := None;
       FederatedProposal.status := federated_status (Proposal.status local_proposal) |} in
  match expires_in with
  | Some seconds =>
      e ← i64_add overflow_checks (i64_of_u64 now) (i64_of_u64 seconds);
      Ok (FederatedProposal.with_expires_at (Some e) federated)
  | None => Ok federated
  end.

Definition vote_choice_to_ranked_choices (choice : VoteChoice.t) : list f64 :=
  match choice with
  | VoteChoice.Yes => [f64_one; f64_zero]
  | VoteChoice.No => [f64_zero; f64_one]
  | VoteChoice.Abstain => [f64_zero; f64_zero]
  end.

Definition load_local_proposal (proposal_id : string) (vm : VM.t S) : res BoxError Proposal.t :=
  storage ← storage_of vm;
  data ← stored "Failed to read proposal: " (sb_get None "proposals" ("governance/proposals/" +:+ proposal_id) storage);
  labelled "Failed to parse proposal data: " (Proposals.proposal_from_slice data).

(** ** Commands that write *)

(** The body writes to the fork's storage; the fork is dropped. *)
Definition on_fork {A} (body : stm S BoxError A) : M A := fun vm =>
  (vm,
   forked ← map_err (fun e => EText ("Failed to fork VM: " +:+ VMError.to_string e)) (VM.fork vm);
   match VM.get_storage_backend forked with
   | Some storage => (body storage).2
   | None => text "Storage backend not available in forked VM"
   end).
(** [vm.commit_fork_transaction()]: on the machine, not on the fork. *)
Definition commit : M unit := fun vm =>
  let '(vm', r) := VM.commit_fork_transaction vm in
  (vm', map_err (fun e => EText ("Failed to commit fork transaction: " +:+ VMError.to_string e)) r).

(** [FederationStorage::new()] for one call; its cache is dropped with it. *)
Definition with_new_store {A} (what : string) (m : stm (FederationCache.t * S) StorageError.t A) : stm S BoxError A :=
  fun storage =>
    let '(st', r) := m (FederationStorage.new, storage) in (st'.2, stored what r).

Definition command_config (name : string) (capability : string) (addr : string) : NodeConfig :=
  {| port := Some 0%N; bootstrap_nodes := [addr]; node_name := Some name; node_capabilities := [capability];
     protocol_version := "1.0.0" |}.

Definition share_proposal (now : N) (proposal_id target_addr : string) (scope : ProposalScope)
    (voting_model : VotingModel) (expires_in : option N) (auth_context : AuthContext.t) : M unit :=
  local_proposal ← ProposalCommands.looking (load_local_proposal proposal_id);
  federated ← lift (local_to_federated_proposal now local_proposal scope voting_model expires_in);
  node ← lift (labelled "Failed to create network node: "
                 (new_node (command_config ("proposal-sharer-" +:+ new_uuid 0) "proposal-sharing" target_addr)));
  _ ← lift (node_call "Failed to broadcast proposal: " (NetworkNode.broadcast_proposal federated node).2);
  _ ← on_fork (with_new_store "Failed to store federated proposal: "
                 (FederationStorage.save_proposal_with_auth now (Some auth_context) federated));
  commit.

Definition receive_proposal (now : N) (file : res string string) (auth_context : AuthContext.t) : M unit :=
  proposal_json ← lift (labelled "Failed to read proposal file: " file);
  federated ← lift (labelled "Failed to parse proposal JSON: " (proposal_from_str proposal_json));
  _ ← on_fork (with_new_store "Failed to store federated proposal: "
                 (FederationStorage.save_proposal_with_auth now (Some auth_context) federated));
  commit.

Definition status_debug (st : FederatedStatus.t) : string :=
  match st with
  | FederatedStatus.Open => "Open" | FederatedStatus.Closed => "Closed" | FederatedStatus.Executed => "Executed"
  | FederatedStatus.Rejected => "Rejected" | FederatedStatus.Expired => "Expired"
  end.

Definition find_proposal (proposal_id : string) (vm : VM.t S) : res BoxError FederatedProposal.t :=
  storage ← storage_of vm;
  stored "Proposal not found locally: " (FederationStorage.get_proposal proposal_id (FederationStorage.new, storage)).

(** The vote that is signed with a placeholder. *)
Definition federated_vote (proposal_id voter_id : string) (choice : VoteChoice.t) : FederatedVote.t :=
  let ranked_choices := vote_choice_to_ranked_choices choice in
  {| FederatedVote.proposal_id := proposal_id; FederatedVote.voter := voter_id;
     FederatedVote.ranked_choices := ranked_choices;
     FederatedVote.message := "Vote for proposal " +:+ proposal_id +:+ " by " +:+ voter_id +:+ " with choices " +:+
                              debug_choices ranked_choices;
     FederatedVote.signature := "placeholder_signature_for_" +:+ voter_id |}.

Definition submit_remote_vote (now : N) (proposal_id : string) (vote_choice : VoteChoice.t) (target_addr : string)
    (auth_context : AuthContext.t) : M unit :=
  proposal ← ProposalCommands.looking (find_proposal proposal_id);
  if decide (FederatedProposal.status proposal = FederatedStatus.Open) then
    let voter_id := AuthContext.current_identity_did auth_context in
    node ← lift (labelled "Failed to create network node: "
                   (new_node (command_config ("vote-submitter-" +:+ new_uuid 0) "vote-submission" target_addr)));
    _ ← lift (node_call "Failed to submit vote: "
                (NetworkNode.submit_vote (federated_vote proposal_id voter_id vote_choice) node).2);
    _ ← on_fork (fun storage =>
          match labelled "Failed to serialize vote choice: " (choice_to_vec vote_choice) with
          | Ok vote_data =>
              let '(storage', r) :=
                sb_set now (Some auth_context) VOTES_NAMESPACE
                  (FEDERATION_VOTES_PATH +:+ "/" +:+ proposal_id +:+ "/" +:+ voter_id) vote_data storage in
              (storage', stored "Failed to store vote: " r)
          | Err e => (storage, Err e)
          | Panic m => (storage, Panic m)
          | OutOfFuel => (storage, OutOfFuel)
          end);
    commit
  else throw (EText ("Proposal is not open for voting. Current status: " +:+ status_debug (FederatedProposal.status proposal))).

(** The sync looks whether the proposal is here; whatever it finds, it changes
    nothing and succeeds. *)
Definition sync_proposal (proposal_id : string) (force : bool) (vm : VM.t S) : res BoxError (bool * bool) :=
  storage ← storage_of vm;
  Ok (is_ok (FederationStorage.get_proposal proposal_id (FederationStorage.new, storage)), force).

(** ** Listing *)

Definition matches_filter (status_filter : option string) (proposal : FederatedProposal.t) : bool :=
  match status_filter with
  | None => true
  | Some status =>
      let l := to_lowercase status in
      if String.eqb l "open" then bool_decide (FederatedProposal.status proposal = FederatedStatus.Open)
      else if String.eqb l "closed" then bool_decide (FederatedProposal.status proposal = FederatedStatus.Closed)
      else if String.eqb l "executed" then bool_decide (FederatedProposal.status proposal = FederatedStatus.Executed)
      else if String.eqb l "rejected" then bool_decide (FederatedProposal.status proposal = FederatedStatus.Rejected)
      else if String.eqb l "expired" then bool_decide (FederatedProposal.status proposal = FederatedStatus.Expired)
      else true
  end.

(** [if let Ok(x) = ...]: errors count as absent, a panic does not. *)
Definition ok_or_none {E A} (r : res E A) : res BoxError (option A) :=
  match r with
  | Ok a => Ok (Some a)
  | Err _ => Ok None
  | Panic m => Panic m
  | OutOfFuel => OutOfFuel
  end.

Definition list_row (auth : AuthContext.t) (status_filter : option string) (storage : S) (key : string) :
    res BoxError (option ListRow) :=
  let proposal_id := ProposalCommands.last_part key in
  data ← ok_or_none (sb_get (Some auth) FEDERATION_NAMESPACE (FederationStorage.make_proposal_key proposal_id) storage);
  match data with
  | None => Ok None
  | Some data =>
      proposal ← ok_or_none (Federation.proposal_from_slice data);
      match proposal with
      | None => Ok None
      | Some proposal =>
          if matches_filter status_filter proposal then
            sync ← ok_or_none (sb_get (Some auth) FEDERATION_NAMESPACE (FederationStorage.make_sync_key proposal_id) storage);
            sync_info ← match sync with Some d => ok_or_none (sync_from_slice d) | None => Ok None end;
            votes ← ok_or_none (sb_list_keys (Some auth) VOTES_NAMESPACE (Some (FederationStorage.make_votes_key proposal_id)) storage);
            Ok (Some {| row_id := proposal_id; row_proposal := proposal;
                        row_votes := match votes with Some keys => N.of_nat (length keys) | None => 0 end;
                        row_sync := sync_info |})
          else Ok None
      end
  end.

Fixpoint list_rows (auth : AuthContext.t) (status_filter : option string) (storage : S) (keys : list string) :
    res BoxError (list ListRow) :=
  match keys with
  | [] => Ok []
  | key :: keys =>
      row ← list_row auth status_filter storage key;
      rows ← list_rows auth status_filter storage keys;
      Ok (match row with Some r => r :: rows | None => rows end)
  end.

Definition list_federated_proposals (status_filter : option string) (auth : AuthContext.t) (vm : VM.t S) :
    res BoxError (list ListRow) :=
  storage ← storage_of vm;
  keys ← ok_or_none (sb_list_keys (Some auth) FEDERATION_NAMESPACE (Some FEDERATION_PROPOSALS_PATH) storage);
  match keys with
  | Some keys => list_rows auth status_filter storage keys
  | None => Ok []
  end.

(** ** The node *)

Definition count_federated_proposals (vm : VM.t S) : res BoxError N :=
  storage ← storage_of vm;
  stored "Failed to count proposals: " (count_proposals storage).
Definition count_federated_votes (vm : VM.t S) : res BoxError N :=
  storage ← storage_of vm;
  keys ← stored "Failed to list vote keys: " (sb_list_keys None VOTES_NAMESPACE None storage);
  Ok (N.of_nat (length keys)).

Definition federation_log_message (now : N) (uuid message : string) (auth_context : AuthContext.t) : M unit := fun vm =>
  match VM.get_storage_backend vm with
  | None => (vm, text "Storage backend not available")
  | Some storage =>
      match labelled "Failed to serialize log message: " (value_to_vec message) with
      | Ok data =>
          let '(storage', r) := sb_set now (Some auth_context) FEDERATION_NAMESPACE
                                  ("federation/logs/" +:+ u64_to_string now +:+ "-" +:+ uuid) data storage in
          (VM.set_storage_backend storage' vm, stored "Failed to store log message: " r)
      | Err e => (vm, Err e)
      | Panic m => (vm, Panic m)
      | OutOfFuel => (vm, OutOfFuel)
      end
  end.

Definition node_or_error : res BoxError NetworkNode.t :=
  match network_node with
  | Some node => Ok node
  | None => text "Federation node is not initialized. Run with --federation flag to enable federation."
  end.

(** Days, hours, minutes and seconds. *)
Definition split_uptime (uptime_seconds : N) : N * N * N * N :=
  (uptime_seconds / 86400, uptime_seconds mod 86400 / 3600, uptime_seconds mod 3600 / 60, uptime_seconds mod 60)%N.

Definition display_federation_status (now : N) (vm : VM.t S) : res BoxError NodeStatus :=
  node ← node_or_error;
  proposals ← count_federated_proposals vm;
  votes ← count_federated_votes vm;
  Ok {| ns_local_peer_id := NetworkNode.local_peer_id node;
        ns_connected_peers := N.of_nat (length (NetworkNode.connected_peers node));
        ns_listening := NetworkNode.listen_addresses node;
        ns_uptime := (fun start => split_uptime (saturating_sub now start)) <$> NetworkNode.get_start_time node;
        ns_role := NetworkNode.get_role node; ns_proposals := proposals; ns_votes := votes |}.

Definition list_federation_peers : res BoxError (list PeerInfo) :=
  node ← node_or_error; Ok (NetworkNode.connected_peers node).

Definition send_federation_message (now : N) (peer json_msg : string) (auth_context : AuthContext.t) : M unit :=
  node ← lift node_or_error;
  _ ← (if str_starts_with "/ip4/" peer || str_starts_with "/ip6/" peer then
         lift (map_err (fun _ => EText ("Invalid multiaddress: " +:+ peer)) (parse_multiaddr peer))
       else mret EmptyString);
  json_value ← lift (labelled "Invalid JSON message: " (value_from_str json_msg));
  _ ← lift (node_call "Failed to send message: " (NetworkNode.send_custom_message peer node).2);
  federation_log_message now (new_uuid 1)
    (log_entry now peer json_value (AuthContext.current_identity_did auth_context)) auth_context.

(** ** The command line *)

Definition parse_scope (auth_context : AuthContext.t) (scope_str : string) (coops : option string) : res BoxError ProposalScope :=
  if String.eqb scope_str "single-coop" then
    match head (AuthContext.memberships auth_context) with
    | Some m => Ok (SingleCoop (m_namespace m))
    | None => text "No cooperative membership found for the user"
    end
  else if String.eqb scope_str "multi-coop" then
    match coops with
    | Some s => match trim <$> split_char "," s with
                | [] => text "At least one cooperative ID must be provided for multi-coop scope"
                | coop_list => Ok (MultiCoop coop_list)
                end
    | None => text "For multi-coop scope, --coops must be provided with a comma-separated list of cooperative IDs"
    end
  else if String.eqb scope_str "global" then Ok GlobalFederation
  else text ("Invalid scope: " +:+ scope_str).

Definition parse_model (model_str : string) : res BoxError VotingModel :=
  if String.eqb model_str "one-member-one-vote" then Ok OneMemberOneVote
  else if String.eqb model_str "one-coop-one-vote" then Ok OneCoopOneVote
  else text ("Invalid voting model: " +:+ model_str).

Definition parse_addr (addr : string) : res BoxError string := labelled "Invalid multiaddress: " (parse_multiaddr addr).

Definition quietly (m : M unit) : M shown := _ ← m; mret Nothing.

Definition handle_federation_command (now : N) (auth_context : AuthContext.t) (r : federation_request) : M shown :=
  match r with
  | ShareProposal id to scope coops model expires_in =>
      target ← lift (parse_addr to);
      scope ← lift (parse_scope auth_context scope coops);
      voting_model ← lift (parse_model model);
      quietly (share_proposal now id target scope voting_model expires_in auth_context)
  | ReceiveProposal file source => quietly (receive_proposal now file auth_context)
  | VoteRemote remote vote node =>
      match VoteChoice.from_str vote with
      | Some choice =>
          target ← lift (parse_addr node);
          quietly (submit_remote_vote now remote choice target auth_context)
      | None => throw (EText ("Invalid vote choice: " +:+ vote +:+ ". Must be 'yes', 'no', or 'abstain'"))
      end
  | Sync id from force =>
      _ ← lift (parse_addr from);
      _ ← ProposalCommands.looking (sync_proposal id force); mret Nothing
  | ListProposals status =>
      rows ← ProposalCommands.looking (list_federated_proposals status auth_context); mret (Rows rows)
  | Status => s ← ProposalCommands.looking (display_federation_status now); mret (Info s)
  | Peers verbose => peers ← lift list_federation_peers; mret (PeerList peers)
  | SendMsg peer json => quietly (send_federation_message now peer json auth_context)
  end.

End Commands.

End FederationCommands.

(** ** What the commands leave behind *)
Module CommandTheorems.

Import FederationCommands ProposalCommands.

Section Commands.

Context {S : Type} `{SB : StorageBackend S} `{PL : Platform} `{RD : Renderings} `{SC : SwarmCalls}.
Context `{CH : Chrono} `{UC : Unicode} `{PC : !ProposalCalls} `{FJ : FederationJson} `{FC : FederationCommandCalls}.
Context (new_node : NodeConfig -> res string NetworkNode.t) (count_proposals : S -> res StorageError.t N).
Context (network_node : option NetworkNode.t).

Lemma inert_fork {A} (body : stm S BoxError A) : inert (FederationCommands.on_fork body).
Proof. by intros vm _. Qed.

Lemma refuses_federation_commit : refuses (S := S) FederationCommands.commit.
Proof.
  intros vm Hi. destruct (refuses_commit vm Hi) as [H1 H2]. unfold ProposalCommands.commit in H1, H2.
  unfold FederationCommands.commit. destruct (VM.commit_fork_transaction vm) as [vm' []]; by cbn in *.
Qed.

#[local] Hint Resolve inert_bind refuses_after refuses_first refuses_inert inert_lift inert_looking inert_ret
  inert_throw refuses_throw inert_fork refuses_federation_commit : federation_machine.

Lemma refuses_share now pid addr scope model expires auth :
  refuses (S := S) (share_proposal new_node now pid addr scope model expires auth).
Proof. unfold share_proposal. auto 8 with federation_machine. Qed.
Lemma refuses_receive now file auth : refuses (S := S) (receive_proposal now file auth).
Proof. unfold receive_proposal. auto 8 with federation_machine. Qed.
Lemma refuses_remote_vote now pid choice addr auth :
  refuses (S := S) (submit_remote_vote new_node now pid choice addr auth).
Proof.
  unfold submit_remote_vote. apply refuses_after; [auto with federation_machine|]. intros p.
  case_decide; auto 8 with federation_machine.
Qed.
#[local] Hint Resolve refuses_share refuses_receive refuses_remote_vote : federation_machine.

Lemma refuses_quietly (m : stm (VM.t S) BoxError unit) : refuses (S := S) m -> refuses (quietly m).
Proof. unfold quietly. auto with federation_machine. Qed.
#[local] Hint Resolve refuses_quietly : federation_machine.

(** The requests that mean to store something. *)
Definition stores (r : federation_request) : bool :=
  match r with ShareProposal _ _ _ _ _ _ | ReceiveProposal _ _ | VoteRemote _ _ _ => true | _ => false end.
Definition sends (r : federation_request) : bool := match r with SendMsg _ _ => true | _ => false end.

(** On a machine that is not itself a fork no federation command changes
    anything, but for the log entry of a sent message: sharing a proposal,
    receiving one and voting on one always fail in the end, because the fork that
    was written to is dropped and the commit is the machine's. *)
Theorem federation_commands_have_no_effect now auth r vm :
  VMExecution.transaction_active (VM.executor vm) = false -> sends r = false ->
  let outcome := handle_federation_command new_node count_proposals network_node now auth r vm in
  outcome.1 = vm /\ (stores r = true -> is_ok outcome.2 = false).
Proof.
  intros Hi Hs.
  assert (if stores r then refuses (handle_federation_command new_node count_proposals network_node now auth r)
          else inert (handle_federation_command new_node count_proposals network_node now auth r)) as H.
  { destruct r; cbn [stores handle_federation_command]; try discriminate Hs; auto 8 with federation_machine.
    - destruct (VoteChoice.from_str vote); auto 8 with federation_machine. }
  destruct (stores r); [by destruct (H _ Hi)|by split; [apply H|]].
Qed.

(** ** Conversions *)

(** A proposal is open to the federation before its own vote has begun. *)
Lemma drafts_are_open now p scope model expires fp :
  local_to_federated_proposal now p scope model expires = Ok fp ->
  FederatedProposal.status fp = FederatedStatus.Open <->
  Proposal.status p ∈ [ProposalStatus.Draft; ProposalStatus.Deliberation; ProposalStatus.Active; ProposalStatus.Voting].
Proof.
  unfold local_to_federated_proposal. intros Hfp.
  assert (FederatedProposal.status fp = federated_status (Proposal.status p)) as ->.
  { destruct expires as [n|]; [|by injection Hfp as <-]. apply res_bind_ok in Hfp as (e & _ & [= <-]). done. }
  destruct (Proposal.status p); cbn; set_solver.
Qed.

Lemma split_uptime_spec n :
  let '(d, h, m, s) := split_uptime n in
  (n = d * 86400 + h * 3600 + m * 60 + s /\ h < 24 /\ m < 60 /\ s < 60)%N.
Proof.
  unfold split_uptime. zify. Z.to_euclidean_division_equations. lia.
Qed.

End Commands.

End CommandTheorems.

(** ** A concrete request *)
Module CommandExamples.

Import FederationCommands CommandTheorems.

#[local] Existing Instance Samples.platform.
#[local] Existing Instance Samples.renderings.
#[local] Existing Instance ClockSamples.seconds.
#[local] Existing Instance LifecycleExamples.ascii_case.
#[local] Existing Instance ProposalExamples.sample_proposal_calls.
#[local] Existing Instance FederationExamples.sample_json.
#[local] Existing Instance NodeExamples.sample_swarm.

#[local] Instance sample_command_calls : FederationCommandCalls :=
  {| proposal_from_str := fun _ => Ok (FederationExamples.sample_proposal "federation");
     sync_from_slice := fun _ => Err "no metadata"; choice_to_vec := fun _ => Ok "choice"; value_from_str := Ok;
     value_to_vec := Ok; log_entry := fun _ _ m _ => m; debug_choices := fun _ => "choices"; new_uuid := fun _ => "uuid" |}.

Definition machine : VM.t InMemoryStorage.t :=
  VM.set_auth_context InMemoryStorage.admin
    (VM.with_storage_backend
       (InMemoryStorage.after [InMemoryStorage.CreateAccount 0 (Some InMemoryStorage.admin) "root" 1000000] InMemoryStorage.new)).
Definition no_nodes (c : NodeConfig) : res string NetworkNode.t := Err "no network".

(** Every step before the commit succeeds. *)
Lemma receiving_reaches_the_commit :
  (handle_federation_command no_nodes (fun _ => Ok 0%N) None 5 InMemoryStorage.admin
     (ReceiveProposal (Ok "{}") None) machine).2 =
  Err (EText "Failed to commit fork transaction: Storage error: No active transaction to commit").
Proof. vm_compute. reflexivity. Qed.

Lemma federation_commands_have_no_effect_witness :
  let outcome := handle_federation_command no_nodes (fun _ => Ok 0%N) None 5 InMemoryStorage.admin
                   (ReceiveProposal (Ok "{}") None) machine in
  outcome.1 = machine /\ is_ok outcome.2 = false.
Proof.
  destruct (federation_commands_have_no_effect no_nodes (fun _ => Ok 0%N) None 5 InMemoryStorage.admin
              (ReceiveProposal (Ok "{}") None) machine eq_refl eq_refl) as [H1 H2].
  split; [exact H1|exact (H2 eq_refl)].
Defined.

End CommandExamples.
