(* ===== verification/FederationMain.v ===== *)
(** * The federation half of main.rs

    The files of a proposal and of a vote, storing and submitting them from the
    command line, and the execution of a federated proposal: the ballots go to a
    ranked vote on a fresh machine.  Files come with their contents; the texts of
    I/O and compiler errors are kept as texts. *)
From S2P Require Import Prelude Float64 Text Values Ops Stack Memory Auth Storage InMemory Economic Executor.
From S2P Require Import Ledger Trace Machine Governance VM Lifecycle Comments Proposals Federation FederationNode.
From S2P Require Import FederationCommands.

Module AppError.

Inductive t : Type :=
  | VM (e : VMError.t)
  | Compiler (e : string)
  | IO (e : string)
  | Json (e : string)
  | Federation (e : string)
  | VMEngine (e : string)
  | Other (e : string).

Definition to_string (e : t) : string :=
  match e with
  | VM e => "VM error: " +:+ VMError.to_string e
  | Compiler e => "Compiler error: " +:+ e
  | IO e => "IO error: " +:+ e
  | Json e => "JSON error: " +:+ e
  | Federation e => "Federation error: " +:+ e
  | VMEngine e => "VM Engine error: " +:+ e
  | Other e => e
  end.

End AppError.

Module FederationMain.

(** ** Files *)

Section Files.

Context `{PL : Platform}.

(** A scope that is not known is the whole federation.  Splitting a text gives
    at least one part, so the list of cooperatives is never empty. *)
Definition parse_scope (scope creator coops : string) : ProposalScope :=
  if String.eqb scope "single" then SingleCoop creator
  else if String.eqb scope "multi" then
    match trim <$> split_char "," coops with
    | [] => GlobalFederation
    | coop_list => MultiCoop coop_list
    end
  else GlobalFederation.

Definition parse_model (model : string) : VotingModel :=
  if String.eqb model "coop" then OneCoopOneVote else OneMemberOneVote.

Definition parse_proposal (now : N) (content scope model coops : string) (expires_in : option N) :
    res AppError.t FederatedProposal.t :=
  match lines content with
  | id :: ns :: creator :: option1 :: more =>
      let creator := trim creator in
      expires_at ← match expires_in with
                   | Some seconds => Some <$> i64_add overflow_checks (i64_of_u64 now) (i64_of_u64 seconds)
                   | None => Ok None
                   end;
      Ok {| FederatedProposal.proposal_id := trim id; FederatedProposal.namespace := trim ns;
            FederatedProposal.options := trim <$> option1 :: more; FederatedProposal.creator := creator;
            FederatedProposal.created_at := i64_of_u64 now; FederatedProposal.scope := parse_scope scope creator coops;
            FederatedProposal.voting_model := parse_model model; FederatedProposal.expires_at := expires_at;
            FederatedProposal.status := FederatedStatus.Open |}
  | _ => Err (AppError.Other "Invalid proposal file format. Expected at least 4 lines: ID, namespace, creator, options")
  end.

Fixpoint parse_choices (parts : list string) : res AppError.t (list f64) :=
  match parts with
  | [] => Ok []
  | s :: parts =>
      match parse_f64 (trim s) with
      | Some x => xs ← parse_choices parts; Ok (x :: xs)
      | None => Err (AppError.Other ("Invalid ranked choice: " +:+ s))
      end
  end.

(** Without a signature in the file the vote carries the one that always passes. *)
Definition parse_vote (content : string) : res AppError.t FederatedVote.t :=
  match lines content with
  | id :: voter :: choices :: more =>
      let proposal_id := trim id in
      let voter := trim voter in
      ranked_choices ← parse_choices (split_char "," choices);
      Ok {| FederatedVote.proposal_id := proposal_id; FederatedVote.voter := voter;
            FederatedVote.ranked_choices := ranked_choices;
            FederatedVote.message :=
              match more with
              | message :: _ => trim message
              | [] => "Vote from " +:+ voter +:+ " on proposal " +:+ proposal_id +:+ " with choices " +:+ trim choices
              end;
            FederatedVote.signature := match more with _ :: signature :: _ => trim signature | _ => "valid" end |}
  | _ => Err (AppError.Other "Invalid vote file format. Expected at least 3 lines: proposal ID, voter ID, ranked choices")
  end.

End Files.

(** ** Storing and sending *)

Section Node.

Context `{PL : Platform} `{RD : Renderings} `{SC : SwarmCalls} `{FJ : FederationJson}.
Context (new_node : NodeConfig -> res string NetworkNode.t).
(** The readings and the events a node's run takes. *)
Context (nows : nat -> N) (random : nat -> f64) (comes : list NetworkNode.happening).

Definition federation {A} (what : string) (r : res string A) : res AppError.t A :=
  map_err (fun e => AppError.Federation (what +:+ e)) r.

Definition voting_config (federation_port : N) (bootstrap : list string) (node_name : string) : NodeConfig :=
  {| port := Some federation_port; bootstrap_nodes := bootstrap; node_name := Some node_name;
     node_capabilities := ["voting"]; protocol_version := "1.0.0" |}.

Definition node_result {A} (what : string) (r : res Stop A) : res AppError.t A :=
  match r with
  | Ok a => Ok a
  | Err (Failed e) => Err (AppError.Federation (what +:+ FederationError.to_string e))
  | Err Stuck => OutOfFuel
  | Panic m => Panic m
  | OutOfFuel => OutOfFuel
  end.

(** [NetworkNode::new] and [start], awaited. *)
Definition running_node (cfg : NodeConfig) : res AppError.t NetworkNode.t :=
  node ← federation "Failed to create network node: " (new_node cfg);
  let '(node', r) := NetworkNode.start_and_run nows random comes node in
  _ ← node_result "Failed to start network node: " r; Ok node'.

(** Every backend is an empty storage in memory. *)
Definition create_storage_backend : InMemoryStorage.t := InMemoryStorage.new.

(** Storing something in the node's store, then telling the network. *)
Definition store_and_send (cfg : NodeConfig) (what_store what_send : string)
    (save : stm (FederationCache.t * InMemoryStorage.t) StorageError.t unit) (tell : stm NetworkNode.t Stop unit) : res AppError.t unit :=
  node ← running_node cfg;
  let '(_, r) := save (NetworkNode.federation_storage node, create_storage_backend) in
  _ ← map_err (fun e => AppError.Federation (what_store +:+ StorageError.to_string e)) r;
  node_result what_send (tell node).2.

Definition broadcast_proposal (now : N) (file : res string string) (federation_port : N)
    (bootstrap : list string) (node_name scope model coops : string) (expires_in : option N) : res AppError.t unit :=
  content ← map_err AppError.IO file;
  proposal ← parse_proposal now content scope model coops expires_in;
  store_and_send (voting_config federation_port bootstrap node_name) "Failed to store proposal: "
    "Failed to broadcast proposal: " (FederationStorage.save_proposal now proposal)
    (NetworkNode.broadcast_proposal proposal).

Definition submit_vote (now : N) (file : res string string) (federation_port : N)
    (bootstrap : list string) (node_name : string) : res AppError.t unit :=
  content ← map_err AppError.IO file;
  vote ← parse_vote content;
  store_and_send (voting_config federation_port bootstrap node_name) "Failed to store vote: "
    "Failed to submit vote: " (FederationStorage.save_vote now vote None) (NetworkNode.submit_vote vote).

End Node.

(** ** Execution *)

Section Execution.

Context `{PL : Platform} `{RD : Renderings} `{CH : Chrono} `{PC : !ProposalCalls}.

(** Whether a proposal that expires later may be executed now; the clock is
    below 2^63 seconds. *)
Definition check_expiry (now : N) (force : bool) (proposal : FederatedProposal.t) : res AppError.t unit :=
  match FederatedProposal.expires_at proposal with
  | None => Ok tt
  | Some expires_at =>
      let current_time := i64_of_u64 now in
      if (current_time <? expires_at)%Z && negb force then
        let remaining_seconds := (expires_at - current_time)%Z in
        let remaining_minutes := Z.quot remaining_seconds 60 in
        let remaining_hours := Z.quot remaining_minutes 60 in
        Err (AppError.Federation ("Proposal has not expired yet. " +:+ i64_to_string remaining_hours +:+ " hours " +:+
               i64_to_string (Z.rem remaining_minutes 60) +:+ " minutes remaining. Use --force to override."))
      else Ok tt
  end.

(** A new identity for every voter, in the cooperative that its name starts
    with, up to the first underscore. *)
Definition mock_identity (voter : string) (id : Identity.t) : Identity.t :=
  match find_char "_" voter with
  | Some idx => Identity.add_metadata "coop_id" (String.substring 0 idx voter) id
  | None => id
  end.
Definition mock_identities (votes : list FederatedVote.t) : gmap string Identity.t :=
  foldl (fun ids vote =>
    match identity_new (FederatedVote.voter vote) with
    | Ok id => <[FederatedVote.voter vote := mock_identity (FederatedVote.voter vote) id]> ids
    | _ => ids
    end) ∅ votes.

Definition push_ballots (ballots : list (list f64)) (vm : VM.t InMemoryStorage.t) : VM.t InMemoryStorage.t :=
  foldl (fun vm pref => VM.with_stack (TypedValue.Number pref :: VM.stack vm) vm) vm (concat ballots).

(** The result of the vote is read as a number. *)
Definition as_index (v : TypedValue.t) : N :=
  match TypedValue.as_number v with Ok x => f64_to_u64 x | _ => 0 end.

Definition tally (fuel : nat) (options : list string) (ballots : list (list f64)) : res AppError.t (N * string) :=
  let '(vm, r) := Interp.execute fuel [Op.RankedVote (N.of_nat (length options)) (N.of_nat (length ballots))]
                    (push_ballots ballots VM.new) in
  _ ← map_err AppError.VM r;
  match VM.top vm with
  | Some value =>
      let winner_index := as_index value in
      match options !! N.to_nat winner_index with
      | Some winner_option => Ok (winner_index, winner_option)
      | None => Err (AppError.Federation ("Invalid winner index: " +:+ u64_to_string winner_index))
      end
  | None => Err (AppError.Federation "No result from ranked vote")
  end.

(** What is left of [execute_proposal] once its node runs: [None] when there are
    no votes. *)
Definition execute_stored {S} `{StorageBackend S} `{FederationJson} (fuel : nat) (now : N) (proposal_id : string) (force : bool)
    (st : FederationCache.t * S) : res AppError.t (option (N * string)) :=
  proposal ← map_err (fun e => AppError.Federation ("Failed to load proposal: " +:+ StorageError.to_string e))
               (FederationStorage.get_proposal proposal_id st);
  _ ← check_expiry now force proposal;
  votes ← map_err (fun e => AppError.Federation ("Failed to load votes: " +:+ StorageError.to_string e))
            (FederationStorage.get_votes proposal_id st);
  match votes with
  | [] => Ok None
  | _ =>
      let ballots := FederationStorage.prepare_ranked_ballots votes proposal (mock_identities votes) in
      Some <$> tally fuel (FederatedProposal.options proposal) ballots
  end.

(** Every command line starts from an empty storage in memory. *)
Definition setup_storage : InMemoryStorage.t := InMemoryStorage.new.

Definition execute_proposal `{SwarmCalls} `{FederationJson} (new_node : NodeConfig -> res string NetworkNode.t)
    (nows : nat -> N) (random : nat -> f64) (comes : list NetworkNode.happening)
    (fuel : nat) (now : N) (proposal_id : string) (federation_port : N) (bootstrap : list string) (node_name : string)
    (force : bool) : res AppError.t (option (N * string)) :=
  node ← running_node new_node nows random comes (voting_config federation_port bootstrap node_name);
  execute_stored fuel now proposal_id force (NetworkNode.federation_storage node, setup_storage).

End Execution.

End FederationMain.

(** ** Theorems *)
Module MainTheorems.

Import FederationMain.

Section Tally.

Context `{PL : Platform} `{RD : Renderings}.

Lemma concat_reverse {A} (ls : list (list A)) : concat (reverse (reverse <$> ls)) = reverse (concat ls).
Proof.
  induction ls as [|l ls IH]; [done|]. rewrite fmap_cons, reverse_cons, concat_app, IH. cbn [concat].
  by rewrite app_nil_r, reverse_app.
Qed.

Lemma push_ballots_stack ballots vm :
  VM.stack (push_ballots ballots vm) = (TypedValue.Number <$> reverse (concat ballots)) ++ VM.stack vm.
Proof.
  unfold push_ballots. revert vm. induction (concat ballots) as [|x l IH]; intros vm; [done|].
  cbn [foldl]. rewrite IH, reverse_cons, fmap_app, <- app_assoc. done.
Qed.

Lemma push_ballots_modes ballots (vm : VM.t InMemoryStorage.t) :
  let vm' := push_ballots ballots vm in
  VM.trace_enabled vm' = VM.trace_enabled vm /\ VM.explain_enabled vm' = VM.explain_enabled vm /\
  VM.simulation_mode vm' = VM.simulation_mode vm.
Proof.
  unfold push_ballots. revert vm. induction (concat ballots) as [|x l IH]; intros vm; [done|].
  cbn [foldl]. destruct (IH (VM.with_stack (TypedValue.Number x :: VM.stack vm) vm)) as (H1 & H2 & H3). done.
Qed.

(** A ranked vote as the only operation of a machine that is not traced. *)
Lemma execute_ranked_vote fuel c b (vm vm' : VM.t InMemoryStorage.t) :
  VM.trace_enabled vm = false -> VM.explain_enabled vm = false -> VM.simulation_mode vm = false ->
  RankedVote.handle c b vm = (vm', Ok tt) ->
  Interp.execute (1 + fuel) [Op.RankedVote c b] vm = (vm', Ok tt).
Proof.
  intros Ht He Hs Hh. unfold Interp.execute, Interp.execute_inner. cbn [Interp.run Nat.add Interp.exec_list].
  unfold VM.log_trace, modify, mbind, stm_bind. rewrite Ht. unfold VM.log_explanation. rewrite He.
  cbn [get_state]. rewrite Hs. cbn [andb].
  cbn [Interp.exec_op Interp.basic]. unfold Interp.other.
  cbn [try_handle_governance_op]. unfold mbind, stm_bind. by rewrite Hh.
Qed.

(** The winner between two options, of which the first has [yes] votes and the
    second [no]: an option without votes is never eliminated, and a tie goes
    against the first. *)
Definition two_way_winner (yes no : N) : nat := if (0 <? no)%N && ((yes =? 0) || (no <? yes))%N then 0 else 1.

Lemma two_way_round bs yes no :
  RankedVote.count_votes [false; false] bs = [yes; no] -> (yes + no = N.of_nat (length bs))%N -> bs <> [] ->
  default 0 (RankedVote.position_standing (RankedVoteFacts.run_rounds 1 bs [false; false])) = two_way_winner yes no.
Proof.
  intros Hc Hsum Hne. cbn [RankedVoteFacts.run_rounds]. unfold RankedVote.round, two_way_winner. rewrite Hc.
  cbn [RankedVote.weakest fst negb andb]. rewrite <- Hsum.
  assert (Hpos : (0 < yes + no)%N) by (rewrite Hsum; destruct bs; [done|cbn; lia]).
  rewrite (proj2 (N.ltb_lt yes (yes + no + 1))) by lia. cbn [andb].
  destruct (N.ltb_spec 0 yes) as [Hy|Hy]; cbn [fst].
  - rewrite (proj2 (N.eqb_neq yes 0)) by lia. cbn [orb].
    destruct (N.ltb_spec no yes), (N.ltb_spec 0 no); cbn; done || lia.
  - assert (yes = 0%N) as -> by lia. rewrite (proj2 (N.ltb_lt no (0 + no + 1))) by lia.
    rewrite (proj2 (N.ltb_lt 0 no)) by lia. done.
Qed.

Definition is_no (c : VoteChoice.t) : bool := bool_decide (c = VoteChoice.No).
Definition popped (c : VoteChoice.t) : list f64 := reverse (FederationCommands.vote_choice_to_ranked_choices c).

Lemma first_of_choice c :
  RankedVote.first_standing [false; false] (popped c) = Some (if is_no c then 1 else 0).
Proof. by destruct c. Qed.

Lemma count_choices cs :
  RankedVote.count_votes [false; false] (popped <$> cs) =
  [N.of_nat (length (filter (fun c => is_no c = false) cs)); N.of_nat (length (filter (fun c => is_no c = true) cs))].
Proof.
  unfold RankedVote.count_votes. induction cs as [|c cs IH] using rev_ind; [done|].
  rewrite fmap_app, foldl_app, IH. cbn [fmap list_fmap foldl]. rewrite first_of_choice, !filter_app, !length_app.
  rewrite !filter_cons, !filter_nil. destruct (is_no c); do 2 case_decide; try done; cbn -[N.of_nat N.add]; (f_equal; [lia|f_equal; lia]).
Qed.

Lemma split_choices cs :
  length (filter (fun c => is_no c = false) cs) + length (filter (fun c => is_no c = true) cs) = length cs.
Proof.
  induction cs as [|c cs IH]; [done|]. rewrite !filter_cons. destruct (is_no c); do 2 case_decide; try done; cbn [length]; lia.
Qed.

(** C14. The tally of votes cast by the federation commands counts an abstention as
    a yes, and a yes that is not opposed loses: only an option that has votes is
    eliminated, so an option nobody chose wins against a unanimous one. *)
Theorem federated_tally_counts_abstentions_as_yes fuel yes_option no_option cs :
  cs <> [] ->
  let yes := N.of_nat (length (filter (fun c => is_no c = false) cs)) in
  let no := N.of_nat (length (filter (fun c => is_no c = true) cs)) in
  tally (1 + fuel) [yes_option; no_option] (FederationCommands.vote_choice_to_ranked_choices <$> cs) =
  Ok (if (0 <? no)%N && ((yes =? 0) || (no <? yes))%N then (0%N, yes_option) else (1%N, no_option)).
Proof.
  intros Hne yes no. unfold tally. rewrite length_fmap. cbn [length].
  set (ballots := FederationCommands.vote_choice_to_ranked_choices <$> cs).
  set (vm := push_ballots ballots VM.new). set (bs := popped <$> reverse cs).
  assert (Hbs : bs = reverse (reverse <$> ballots)) by (unfold bs, ballots, popped; by rewrite <- list_fmap_compose, fmap_reverse).
  assert (Hlen : length bs = length cs) by (unfold bs; by rewrite length_fmap, length_reverse).
  assert (Hne' : bs <> []) by (intros E; rewrite E in Hlen; by destruct cs).
  assert (Hon : RankedVoteFacts.ballots_on 2 bs [] vm).
  { split.
    - apply Forall_fmap, Forall_forall. intros c _. by destruct c.
    - rewrite Hbs, concat_reverse. apply push_ballots_stack. }
  destruct (RankedVoteFacts.handle_eq 2 bs [] vm ltac:(lia) Hne' Hon) as (vm' & Hrun & Hst & _).
  rewrite Hlen in Hrun. change (N.of_nat 2) with 2%N in *.
  destruct (push_ballots_modes ballots VM.new) as (Ht & He & Hs).
  rewrite (execute_ranked_vote fuel 2 (N.of_nat (length cs)) vm vm' Ht He Hs Hrun). cbn [map_err mbind res_bind].
  assert (Hw : default 0 (RankedVote.position_standing (RankedVoteFacts.run_rounds (2 - 1) bs (replicate 2 false))) =
               two_way_winner yes no).
  { assert (Hp : forall P `{forall c, Decision (P c)}, length (filter P (reverse cs)) = length (filter P cs)).
    { intros P HP. by rewrite (reverse_Permutation cs). }
    apply two_way_round; [|unfold yes, no; rewrite <- Nat2N.inj_add, split_choices; congruence|done].
    unfold bs. rewrite count_choices. by rewrite !Hp. }
  rewrite Hw in Hst. unfold VM.top, VMStack.top. rewrite Hst. cbn [head]. unfold as_index. cbn [TypedValue.as_number].
  unfold two_way_winner. by destruct ((0 <? no)%N && _).
Qed.

End Tally.

(** ** Execution of a stored proposal *)

Section Execution.

Context `{PL : Platform} `{RD : Renderings} `{CH : Chrono} `{PC : !ProposalCalls} `{FJ : FederationJson}.

(** Executing a proposal never gets to its votes: the node's store is new and
    the storage is empty and refuses anonymous requests. *)
Theorem execution_finds_no_proposal fuel now proposal_id force :
  exists text, execute_stored fuel now proposal_id force (FederationStorage.new, setup_storage) =
               Err (AppError.Federation ("Failed to load proposal: " +:+ text)).
Proof. eexists. reflexivity. Qed.

End Execution.

End MainTheorems.

(** ** Witnesses *)
Module MainExamples.

Import MainTheorems.

#[local] Existing Instance Samples.platform.
#[local] Existing Instance Samples.renderings.

(** Three yes votes elect No; a no vote and two abstentions elect Yes. *)
Lemma federated_tally_counts_abstentions_as_yes_witness :
  let ballots := fun cs => FederationCommands.vote_choice_to_ranked_choices <$> cs in
  FederationMain.tally 1 ["Yes"; "No"] (ballots [VoteChoice.Yes; VoteChoice.Yes; VoteChoice.Yes]) = Ok (1%N, "No") /\
  FederationMain.tally 1 ["Yes"; "No"] (ballots [VoteChoice.No; VoteChoice.Abstain; VoteChoice.Abstain]) = Ok (0%N, "Yes").
Proof.
  intros ballots. split.
  - exact (federated_tally_counts_abstentions_as_yes 0 "Yes" "No" [VoteChoice.Yes; VoteChoice.Yes; VoteChoice.Yes]
             ltac:(discriminate)).
  - exact (federated_tally_counts_abstentions_as_yes 0 "Yes" "No" [VoteChoice.No; VoteChoice.Abstain; VoteChoice.Abstain]
             ltac:(discriminate)).
Defined.

(** An empty list of cooperatives is one cooperative without a name, whose
    members nobody is. *)
Example empty_coops : FederationMain.parse_scope "multi" "alice" "" = MultiCoop [""].
Proof. reflexivity. Qed.

End MainExamples.
