(* ===== verification/Engine.v ===== *)
(** * The engine: src/crates/icn-covm/src/lib.rs

    What a host program calls: a source is parsed, a machine is made from
    options, and the program runs on it, directly or compiled to bytecode.

    A machine is made over any backend: [opened] is the outcome of opening the
    one the options ask for.  The contents of files, the JSON reader of programs
    and the elapsed time are arguments; what debugging prints is not kept.  Two
    readings: the count that [execute] is expected to return is the number of
    operations, and the parameters of a run are a list of names and texts. *)
From S2P Require Import Prelude Float64 Text Values Ops Stack Memory Auth Storage InMemory Economic Executor.
From S2P Require Import Ledger Trace Machine Governance VM Preserve Bytecode BytecodeCorrect Parser Blocks Dsl Layout.

(** ** Changes to the ledger *)
Module DagDelta.

Record t : Type := {
  added_nodes : list DagNode.t;
  namespace : string;
  operations_executed : N;
  success : bool;
  error : option string;
}.

Definition new (namespace : string) : t :=
  {| added_nodes := []; namespace := namespace; operations_executed := 0; success := true; error := None |}.
Definition failed (namespace error : string) : t :=
  {| added_nodes := []; namespace := namespace; operations_executed := 0; success := false; error := Some error |}.

End DagDelta.

(** ** Options *)

Inductive StorageBackendType : Type := MemoryBackend | FileBackend (path : string).
Definition StorageBackendType_default : StorageBackendType := MemoryBackend.

Module VMOptions.

Record t : Type := {
  storage_backend : StorageBackendType;
  identity_context : option AuthContext.t;
  enable_federation : bool;
  use_bytecode : bool;
  debug_mode : bool;
  simulation_mode : bool;
  trace_execution : bool;
  explain_operations : bool;
  verbose_storage_trace : bool;
  namespace : string;
  parameters : list (string * string);
  use_stdlib : bool;
}.

Definition default_ : t :=
  {| storage_backend := StorageBackendType_default; identity_context := None; enable_federation := false;
     use_bytecode := false; debug_mode := false; simulation_mode := false; trace_execution := false;
     explain_operations := false; verbose_storage_trace := false; namespace := EmptyString; parameters := [];
     use_stdlib := false |}.

(** The default options for a caller and a namespace. *)
Definition for_caller (ctx : AuthContext.t) (ns : string) : t :=
  {| storage_backend := storage_backend default_; identity_context := Some ctx; enable_federation := false;
     use_bytecode := use_bytecode default_; debug_mode := false; simulation_mode := simulation_mode default_;
     trace_execution := trace_execution default_; explain_operations := explain_operations default_;
     verbose_storage_trace := verbose_storage_trace default_; namespace := ns; parameters := parameters default_;
     use_stdlib := use_stdlib default_ |}.

End VMOptions.

Module VMEngineError.

Inductive t : Type :=
  | VM (msg : string)
  | Compiler (msg : string)
  | IO (msg : string)
  | Json (msg : string)
  | Federation (msg : string)
  | Other (msg : string).

Definition to_string (e : t) : string :=
  match e with
  | VM msg => "VM error: " +:+ msg
  | Compiler msg => "Compiler error: " +:+ msg
  | IO msg => "IO error: " +:+ msg
  | Json msg => "JSON error: " +:+ msg
  | Federation msg => "Federation error: " +:+ msg
  | Other msg => msg
  end.

Definition from_vm (e : VMError.t) : t := VM (VMError.to_string e).
Definition from_compiler (e : CompilerError.t) : t := Compiler (CompilerError.to_string e).

End VMEngineError.

Module ExecutionResult.

Record t (S : Type) : Type := {
  success : bool;
  error : option string;
  execution_time_ms : N;
  stack : option (list TypedValue.t);
  memory : option (gmap string TypedValue.t);
  operations_executed : N;
  vm : option (VM.t S);
}.
Arguments success {S} _.
Arguments error {S} _.
Arguments execution_time_ms {S} _.
Arguments stack {S} _.
Arguments memory {S} _.
Arguments operations_executed {S} _.
Arguments vm {S} _.

End ExecutionResult.

Module Engine.

(** ** Machines from options *)

Section Create.

Context {S : Type} `{SB : StorageBackend S} `{PL : Platform} `{RD : Renderings}.

(** [if flag { f }]. *)
Definition when_set (flag : bool) (f : VM.t S -> VM.t S) (vm : VM.t S) : VM.t S := if flag then f vm else vm.

Definition configure (options : VMOptions.t) (storage : S) : VM.t S :=
  let vm := VM.with_storage_backend storage in
  let vm := match VMOptions.identity_context options with Some auth => VM.set_auth_context auth vm | None => vm end in
  let vm := VM.set_namespace (VMOptions.namespace options) vm in
  let vm := when_set (VMOptions.simulation_mode options) (VM.set_simulation_mode true) vm in
  let vm := when_set (VMOptions.trace_execution options) (VM.set_tracing true) vm in
  let vm := when_set (VMOptions.explain_operations options) (VM.set_explanation true) vm in
  when_set (VMOptions.verbose_storage_trace options) (VM.set_verbose_storage_trace true) vm.

Definition create_with_options (opened : res VMEngineError.t S) (options : VMOptions.t) : res VMEngineError.t (VM.t S) :=
  configure options <$> opened.

(** ** Running a program *)

Context `{CH : Chrono} (debug_instruction : BytecodeOp.t -> string).

Definition interpret (fuel : nat) (ops : list Op.t) (vm : VM.t S) : VM.t S * res VMError.t unit :=
  Interp.execute fuel ops vm.
Definition run_bytecode (fuel : nat) (ops : list Op.t) (vm : VM.t S) : VM.t S * res VMError.t unit :=
  let '(interpreter, r) :=
    BytecodeInterpreter.execute debug_instruction fuel
      (BytecodeInterpreter.new vm (BytecodeCompiler.compile ops)) in
  (BytecodeInterpreter.get_vm interpreter, r).

Definition parse_source (use_stdlib : bool) (source : string) : res VMEngineError.t (list Op.t) :=
  map_err VMEngineError.from_compiler
    (if use_stdlib then Dsl.parse_dsl_with_stdlib source else fst <$> Dsl.parse_dsl source).

(** How the outcome of a run is reported. *)
Definition report (elapsed_ms : N) (ops : list Op.t) (outcome : VM.t S * res VMError.t unit) :
    res VMEngineError.t (ExecutionResult.t S) :=
  let '(vm, r) := outcome in
  match r with
  | Ok _ =>
      memory ← map_err VMEngineError.from_vm (VM.get_memory_map vm);
      Ok {| ExecutionResult.success := true; ExecutionResult.error := None;
            ExecutionResult.execution_time_ms := elapsed_ms; ExecutionResult.stack := Some (VM.get_stack vm);
            ExecutionResult.memory := Some memory;
            ExecutionResult.operations_executed := N.of_nat (length ops); ExecutionResult.vm := Some vm |}
  | Err e =>
      Ok {| ExecutionResult.success := false; ExecutionResult.error := Some (VMError.to_string e);
            ExecutionResult.execution_time_ms := elapsed_ms; ExecutionResult.stack := None;
            ExecutionResult.memory := None; ExecutionResult.operations_executed := 0; ExecutionResult.vm := None |}
  | Panic m => Panic m
  | OutOfFuel => OutOfFuel
  end.

(** The machine of a run, with its parameters set. *)
Definition prepared (opened : res VMEngineError.t S) (options : VMOptions.t) : res VMEngineError.t (VM.t S) :=
  vm ← create_with_options opened options;
  let '(vm, r) := VM.set_parameters (VMOptions.parameters options) vm in
  _ ← map_err VMEngineError.from_vm r; Ok vm.

Definition execute_program_from_path (fuel : nat) (opened : res VMEngineError.t S) (elapsed_ms : N)
    (ops_from_json : string -> res string (list Op.t)) (path : string) (file : res string string)
    (options : VMOptions.t) : res VMEngineError.t (ExecutionResult.t S) :=
  program_source ← map_err VMEngineError.IO file;
  if str_ends_with ".json" path then
    ops ← map_err VMEngineError.Json (ops_from_json program_source);
    vm ← prepared opened options;
    report elapsed_ms ops (interpret fuel ops vm)
  else
    ops ← parse_source (VMOptions.use_stdlib options) program_source;
    vm ← prepared opened options;
    report elapsed_ms ops
      (if VMOptions.use_bytecode options then run_bytecode fuel ops vm else interpret fuel ops vm).

End Create.

(** The backends that options can ask for. *)
Definition open_memory : res VMEngineError.t InMemoryStorage.t := Ok InMemoryStorage.new.

(** ** Source text *)

Section Execute.

Context `{PL : Platform} `{RD : Renderings} `{CH : Chrono} (debug_instruction : BytecodeOp.t -> string).

Definition execute_dsl (fuel : nat) (src : string) (ctx : AuthContext.t) : res VMEngineError.t DagDelta.t :=
  let options := VMOptions.for_caller ctx "default" in
  ops ← parse_source (VMOptions.use_stdlib options) src;
  vm ← create_with_options open_memory options;
  let '(vm, r) := if VMOptions.use_bytecode options then run_bytecode debug_instruction fuel ops vm
                  else interpret fuel ops vm in
  _ ← map_err VMEngineError.from_vm r;
  Ok {| DagDelta.added_nodes := match VM.dag vm with Some dag => DagLedger.nodes dag | None => [] end;
        DagDelta.namespace := VMOptions.namespace options;
        DagDelta.operations_executed := N.of_nat (length ops);
        DagDelta.success := true; DagDelta.error := None |}.

End Execute.

Definition create_default_auth_context (id_name role : option string) : AuthContext.t :=
  let id_name := default "anonymous" id_name in
  let role := default "user" role in
  AuthContext.add_role_to_identity id_name "global" role (AuthContext.add_role "global" role (AuthContext.new id_name)).

End Engine.

(** ** Theorems *)

Module EngineTheorems.

Import Engine Preservation.

(** *** Programs without the right to write *)

Section Denied.

Context {S : Type} `{SB : StorageBackend S} `{PL : Platform} `{RD : Renderings} `{SL : !StorageLaws S}.

Definition denied (e : VMExecution.t S) : Prop :=
  exists x, permitted (VMExecution.auth_context e) "write" (VMExecution.namespace e) = Err x.

Lemma denied_same e e' : VMExecution.same_access e' e -> denied e -> denied e'.
Proof. intros (_ & Ha & Hn) [x H]. exists x. by rewrite Ha, Hn. Qed.

(** A storage computation that leaves the backend as it is, and an executor
    computation that does when writing is denied. *)
Definition stays {A} (m : stm S StorageError.t A) : Prop := forall b, (m b).1 = b.
Definition idle {A} (m : stm (VMExecution.t S) VMError.t A) : Prop :=
  forall e, denied e -> VMExecution.same_access (m e).1 e.

Lemma stays_bind {A B} (m : stm S StorageError.t A) (k : A -> stm S StorageError.t B) :
  stays m -> (forall a, stays (k a)) -> stays (m ≫= k).
Proof.
  intros Hm Hk b. unfold mbind, stm_bind. specialize (Hm b). destruct (m b) as [b1 [a|?|?|]]; cbn in *; subst; [apply Hk|..]; done.
Qed.
Lemma stays_query {A} (q : S -> res StorageError.t A) : stays (Economic.query q).
Proof. done. Qed.
Lemma stays_lift {A} (r : res StorageError.t A) : stays (lift r).
Proof. done. Qed.
Lemma stays_ret {A} (a : A) : stays (mret a).
Proof. done. Qed.
Lemma stays_set now auth ns k v x : permitted auth "write" ns = Err x -> stays (sb_set now auth ns k v).
Proof. intros H b. by rewrite (law_set_denied _ _ _ _ _ _ _ H). Qed.

Lemma idle_bind {A B} (m : stm (VMExecution.t S) VMError.t A) (k : A -> stm (VMExecution.t S) VMError.t B) :
  idle m -> (forall a, idle (k a)) -> idle (m ≫= k).
Proof.
  intros Hm Hk e He. unfold mbind, stm_bind. specialize (Hm e He). destruct (m e) as [e1 [a|?|?|]]; cbn in *; try done.
  destruct Hm as (H1 & H2 & H3). destruct (Hk a e1) as (K1 & K2 & K3); [by apply (denied_same e)|].
  unfold VMExecution.same_access. by rewrite K1, K2, K3.
Qed.
Lemma idle_state {A} (m : stm (VMExecution.t S) VMError.t A) : (forall e, VMExecution.same_access (m e).1 e) -> idle m.
Proof. intros H e _. apply H. Qed.
Lemma idle_now : idle VMExecution.now.
Proof. by apply idle_state. Qed.
Lemma idle_lift {A} (r : res VMError.t A) : idle (lift r).
Proof. by apply idle_state. Qed.
Lemma idle_ret {A} (a : A) : idle (mret a).
Proof. by apply idle_state. Qed.
Lemma idle_push_event ev : idle (modify (VMExecution.push_event ev)).
Proof. by apply idle_state. Qed.
Lemma idle_log cat label ev : idle (VMExecution.log_storage_event cat label ev).
Proof. by destruct ev; apply idle_state. Qed.
Lemma idle_emit_event cat msg : idle (VMExecution.emit_event cat msg).
Proof. by apply idle_state. Qed.
Lemma idle_storage {A} name (f : option AuthContext.t -> string -> stm S StorageError.t A) :
  (forall auth ns x, permitted auth "write" ns = Err x -> stays (f auth ns)) -> idle (VMExecution.storage_operation name f).
Proof.
  intros Hf e [x Hx]. unfold VMExecution.storage_operation, VMExecution.same_access.
  destruct (VMExecution.storage_backend e) as [b|] eqn:E; [|by cbn; rewrite E].
  pose proof (Hf _ _ _ Hx b) as Hb. destruct (f _ _ b) as [b' r]. cbn in *. by subst.
Qed.

Create HintDb idle.
#[local] Hint Resolve idle_now idle_lift idle_ret idle_push_event idle_log idle_emit_event stays_query stays_lift
  stays_ret : idle.

(** Split into steps; each is a hint, a storage operation, or a write. *)
Ltac idles :=
  repeat match goal with
  | |- idle (_ ≫= _) => apply idle_bind; [|intros ?]
  | |- stays (_ ≫= _) => apply stays_bind; [|intros ?]
  | |- idle (VMExecution.storage_operation _ _) => apply idle_storage; intros ? ? ? ?
  | |- stays (sb_set _ _ _ _ _) => by eapply stays_set
  | |- stays (if ?b then _ else _) => destruct b
  end; auto with idle.

Lemma idle_create_resource r : idle (VMExecution.execute_create_resource r).
Proof. unfold VMExecution.execute_create_resource, Economic.create_resource. idles. Qed.
Lemma idle_mint r a n why : idle (VMExecution.execute_mint r a n why).
Proof. unfold VMExecution.execute_mint, Economic.mint. idles. Qed.
Lemma idle_transfer r a b n why : idle (VMExecution.execute_transfer r a b n why).
Proof. unfold VMExecution.execute_transfer, Economic.transfer. idles. Qed.
Lemma idle_burn r a n why : idle (VMExecution.execute_burn r a n why).
Proof. unfold VMExecution.execute_burn, Economic.burn. idles. Qed.
Lemma idle_balance r a : idle (VMExecution.execute_balance r a).
Proof. unfold VMExecution.execute_balance. idles. Qed.
Lemma idle_store_p k v : idle (VMExecution.execute_store_p k v).
Proof. unfold VMExecution.execute_store_p, Economic.store. idles. Qed.
Lemma idle_load_p k behavior : idle (VMExecution.execute_load_p k behavior).
Proof.
  assert (Hl : idle (VMExecution.load_p_storage k)) by (unfold VMExecution.load_p_storage; idles).
  intros e He. specialize (Hl e He). unfold VMExecution.execute_load_p.
  destruct (VMExecution.load_p_storage k e) as [e1 [[data ev]|err|?|]]; cbn in Hl; [by destruct ev| |done..].
  destruct err; try done. by destruct (str_contains _ _).
Qed.
Lemma idle_reputation who n : idle (VMExecution.execute_increment_reputation who n).
Proof.
  unfold VMExecution.execute_increment_reputation. idles. intros e He. unfold VMExecution.persist_reputation.
  destruct (VMExecution.storage_backend e); [|done]. revert e He. unfold Economic.set_reputation. fold (idle (A := unit)).
  match goal with |- forall e, denied e -> VMExecution.same_access (?m e).1 e => change (idle m) end. idles.
Qed.

(** *** The relation every program keeps *)

(** The ledger stays; without the right to write, so do the storage and the right. *)
Definition untouched (s : VM.t S) (b : bool) (s' : VM.t S) : Prop :=
  VM.dag s' = VM.dag s /\ (denied (VM.executor s) -> VMExecution.same_access (VM.executor s') (VM.executor s)).

#[local] Instance untouched_outcome : Outcome untouched.
Proof.
  split; [done|done|]. intros s s1 b s2 [D1 H1] [D2 H2]. split; [congruence|]. intros He.
  specialize (H1 He). destruct (H2 (denied_same _ _ H1 He)) as (K1 & K2 & K3). destruct H1 as (L1 & L2 & L3).
  unfold VMExecution.same_access. by rewrite K1, K2, K3.
Qed.
#[local] Instance untouched_indifferent : Indifferent untouched.
Proof. split; done. Qed.

Lemma untouched_memory {A} (m : stm VMMemory.t VMError.t A) : keeps untouched (VM.on_memory m).
Proof. apply keeps_state; [exact _|]. intros s. unfold VM.on_memory, zoom. by destruct (m (VM.memory s)). Qed.
Lemma untouched_with_memory (f : VM.t S -> VMMemory.t) : keeps untouched (modify (fun s => VM.with_memory (f s) s)).
Proof. apply keeps_state; [exact _|]. done. Qed.
Lemma untouched_executor {A} (m : stm (VMExecution.t S) VMError.t A) : idle m -> keeps untouched (VM.on_executor m).
Proof.
  intros Hm. apply keeps_state; [exact _|]. intros s. unfold VM.on_executor, zoom, untouched.
  specialize (Hm (VM.executor s)). by destruct (m (VM.executor s)).
Qed.
#[local] Hint Resolve untouched_memory untouched_with_memory untouched_executor : keeps.

#[local] Instance untouched_variables : Variables untouched.
Proof.
  split; auto with keeps. intros s. unfold Interp.return_op.
  destruct (VMMemory.in_function_call _); [apply untouched_memory|done].
Qed.

Lemma untouched_pop_params name params : keeps untouched (Interp.pop_params name params).
Proof. induction params as [|x params IH]; cbn [Interp.pop_params]; keep. Qed.
#[local] Hint Resolve untouched_pop_params idle_create_resource idle_mint idle_transfer idle_burn idle_balance
  idle_store_p idle_load_p idle_reputation : keeps.

#[local] Instance untouched_controls : Controls untouched (fun _ => true).
Proof.
  pose proof (keeps_log_storage untouched) as Hlog. split.
  - intros inner name Hi. unfold Interp.execute_call. keep.
    + apply Hi, all_block_true.
    + apply keeps_state; [exact _|]. done.
  - auto with keeps.
  - intros op s _ Ht _. apply keeps_at. destruct op; try discriminate; cbn [Interp.basic];
      unfold Interp.next, Interp.store_p, Interp.load_p, Interp.other, Interp.not_implemented; keep.
Qed.

Lemma run_untouched fuel ops s : untouched s (is_ok (Interp.run fuel ops s).2) (Interp.run fuel ops s).1.
Proof. apply (keeps_run untouched (fun _ => true)), all_block_true. Qed.

End Denied.

(** *** Machines *)

Section Machines.

Context {S : Type} `{SB : StorageBackend S} `{PL : Platform} `{RD : Renderings}.

Definition modes_off (options : VMOptions.t) : bool :=
  negb (VMOptions.simulation_mode options || VMOptions.trace_execution options ||
        VMOptions.explain_operations options || VMOptions.verbose_storage_trace options).

Lemma configure_flags options (storage : S) : modes_off options = true -> Refinement.flags_off (configure options storage).
Proof.
  unfold modes_off, configure, when_set. rewrite negb_true_iff, !orb_false_iff. intros [[[-> ->] ->] ->].
  by destruct (VMOptions.identity_context options).
Qed.
Lemma configure_executor options (storage : S) :
  VM.dag (configure options storage) = Some DagLedger.new /\
  VMExecution.storage_backend (VM.executor (configure options storage)) = Some storage /\
  VMExecution.auth_context (VM.executor (configure options storage)) = VMOptions.identity_context options /\
  VMExecution.namespace (VM.executor (configure options storage)) = VMOptions.namespace options.
Proof.
  unfold configure, when_set. destruct (VMOptions.simulation_mode _), (VMOptions.trace_execution _),
    (VMOptions.explain_operations _), (VMOptions.verbose_storage_trace _), (VMOptions.identity_context _); done.
Qed.

(** The machine of a run is the configured one with other variables. *)
Lemma prepared_ok (opened : res VMEngineError.t S) options vm : prepared opened options = Ok vm ->
  exists storage m, opened = Ok storage /\ vm = VM.with_memory m (configure options storage).
Proof.
  unfold prepared, create_with_options. destruct opened as [storage|?|?|]; try done. cbn. intros [= <-]. eauto.
Qed.

Context `{CH : Chrono} (debug_instruction : BytecodeOp.t -> string).

Lemma report_ends elapsed ops (vm : VM.t S) r : report elapsed ops (vm, r) <> OutOfFuel -> r <> OutOfFuel.
Proof. by intros H ->. Qed.

Definition with_bytecode (b : bool) (o : VMOptions.t) : VMOptions.t :=
  {| VMOptions.storage_backend := VMOptions.storage_backend o;
     VMOptions.identity_context := VMOptions.identity_context o;
     VMOptions.enable_federation := VMOptions.enable_federation o; VMOptions.use_bytecode := b;
     VMOptions.debug_mode := VMOptions.debug_mode o; VMOptions.simulation_mode := VMOptions.simulation_mode o;
     VMOptions.trace_execution := VMOptions.trace_execution o;
     VMOptions.explain_operations := VMOptions.explain_operations o;
     VMOptions.verbose_storage_trace := VMOptions.verbose_storage_trace o; VMOptions.namespace := VMOptions.namespace o;
     VMOptions.parameters := VMOptions.parameters o; VMOptions.use_stdlib := VMOptions.use_stdlib o |}.

(** C6. Choosing bytecode does not change what a program does outside the special
    modes: with simulation, tracing, explanation and verbose storage traces off,
    every source file, not named as JSON, that compiles to operations of the
    supported fragment gives as bytecode the result it gives when interpreted,
    with the same stack, memory, error text and machine: if the interpreter ends
    within some fuel, the bytecode does with enough of its own. *)
Theorem bytecode_is_only_a_choice fuel (opened : res VMEngineError.t S) elapsed from_json path source options ops result :
  let go n b := execute_program_from_path debug_instruction n opened elapsed from_json path (Ok source) (with_bytecode b options) in
  str_ends_with ".json" path = false -> modes_off options = true ->
  parse_source (VMOptions.use_stdlib options) source = Ok ops -> Preservation.all_block Codegen.in_fragment ops = true ->
  go fuel false = result -> result <> OutOfFuel -> exists k, forall n, go (k + n) true = result.
Proof.
  intros go Hp Hm Hparse Hs <- Hr. unfold go, execute_program_from_path in *. rewrite Hp in *. cbn [mbind res_bind map_err] in *.
  change (VMOptions.use_stdlib (with_bytecode _ options)) with (VMOptions.use_stdlib options) in *. rewrite Hparse in *.
  cbn [mbind res_bind] in *. change (prepared opened (with_bytecode ?b options)) with (prepared opened options) in *.
  destruct (prepared opened options) as [vm|?|?|] eqn:E; [|by exists 0..]. cbn in *.
  apply prepared_ok in E as (storage & m & _ & ->). set (s := VM.with_memory _ _) in *.
  assert (Hf : Refinement.flags_off s) by exact (configure_flags options storage Hm).
  unfold interpret, Interp.execute, Interp.execute_inner in *. destruct (Interp.run fuel ops s) as [s' r] eqn:Hrun.
  destruct (Refinement.compile_outcome debug_instruction fuel ops s s' r Hs Hf Hrun (report_ends _ _ _ _ Hr)) as (k & bi & Hk & Hbi).
  exists k. intros n. unfold run_bytecode. by rewrite Hk, Hbi.
Qed.


End Machines.

(** *** Source text *)

Section Source.

Context `{PL : Platform} `{RD : Renderings} `{CH : Chrono} (debug_instruction : BytecodeOp.t -> string).

(** The machine a source runs on. *)
Definition fresh (ctx : AuthContext.t) : VM.t InMemoryStorage.t :=
  configure (VMOptions.for_caller ctx "default") InMemoryStorage.new.

(** C8. Running a source is reading it and running its operations once, without the
    standard library and without bytecode, on an empty storage that is dropped
    afterwards; the change to the ledger that it reports never has a node. *)
Theorem execute_dsl_adds_no_nodes fuel src ctx delta :
  execute_dsl debug_instruction fuel src ctx = Ok delta <->
  exists ops config s', Dsl.parse_dsl src = Ok (ops, config) /\ Interp.run fuel ops (fresh ctx) = (s', Ok tt) /\
    delta = {| DagDelta.added_nodes := []; DagDelta.namespace := "default";
               DagDelta.operations_executed := N.of_nat (length ops); DagDelta.success := true; DagDelta.error := None |}.
Proof.
  unfold execute_dsl, parse_source, create_with_options, open_memory, interpret, Interp.execute, Interp.execute_inner.
  cbn [VMOptions.use_stdlib VMOptions.use_bytecode VMOptions.for_caller VMOptions.default_ VMOptions.namespace].
  fold (fresh ctx). destruct (Dsl.parse_dsl src) as [[ops config]|?|?|]; cbn; [|naive_solver..]. unfold fresh.
  destruct (configure_executor (VMOptions.for_caller ctx "default") InMemoryStorage.new) as [Hd _].
  fold (fresh ctx) in *. pose proof (run_untouched fuel ops (fresh ctx)) as [Hu _].
  destruct (Interp.run fuel ops (fresh ctx)) as [s' [[]|?|?|]] eqn:E; cbn in *; rewrite E; cbn;
    [|(split; [done|]; intros (? & ? & ? & [= <- <-] & H & _); congruence)..].
  rewrite Hu. cbn. split; [intros [= <-]; eauto 6|]. by intros (? & ? & ? & [= <- <-] & _ & ->).
Qed.

End Source.

(** *** The contexts of the command line *)

(** The default context has one role in the namespace "global", so it may write
    elsewhere only when that role is "admin". *)
Lemma default_context_writes id role ns : ns <> "global" -> default "user" role <> "admin" ->
  is_ok (InMemoryStorage.check_permission (Some (create_default_auth_context id role)) "write" ns) = false.
Proof.
  intros Hns Hr. unfold InMemoryStorage.check_permission, create_default_auth_context, AuthContext.has_role, AuthContext.add_role.
  cbn [AuthContext.current_identity_did AuthContext.add_role_to_identity AuthContext.new].
  rewrite !AuthContext.add_role_grants_exactly. cbn [existsb].
  rewrite !AuthContext.add_role_grants_exactly.
  assert (E1 : String.eqb "admin" (default "user" role) = false) by (apply String.eqb_neq; congruence).
  assert (E2 : String.eqb ns "global" = false) by by apply String.eqb_neq.
  by rewrite E1, E2, !andb_false_r.
Qed.

End EngineTheorems.

(** ** Concrete runs *)
Module EngineExamples.

Import Engine EngineTheorems.

#[local] Existing Instance Samples.platform.
#[local] Existing Instance Samples.renderings.
#[local] Existing Instance ClockSamples.seconds.

Definition anyone : AuthContext.t := create_default_auth_context None None.
Definition no_debug (i : BytecodeOp.t) : string := "instruction".
Definition no_json (s : string) : res string (list Op.t) := Err "no JSON".

(** Adds two numbers and says so. *)
Definition adding : string := join Dsl.line_feed ["push 10"; "push 5"; "add"; "emit " +:+ Layout.in_quotes "hi"].

(** The source of lib.rs's own tests: it runs, and no node is added. *)
Lemma execute_dsl_adds_no_nodes_witness :
  match execute_dsl no_debug 3 adding anyone with
  | Ok delta => DagDelta.added_nodes delta = [] /\ DagDelta.operations_executed delta = 4%N
  | _ => False
  end.
Proof.
  destruct (execute_dsl no_debug 3 adding anyone) as [delta|?|?|] eqn:E.
  - destruct (proj1 (execute_dsl_adds_no_nodes no_debug 3 adding anyone delta) E) as (ops & config & s' & Hp & _ & ->).
    split; [reflexivity|]. cbn. revert Hp. vm_compute. by intros [= <- _].
  - revert E. vm_compute. discriminate.
  - revert E. vm_compute. discriminate.
  - revert E. vm_compute. discriminate.
Defined.

Lemma bytecode_is_only_a_choice_witness :
  let options := VMOptions.for_caller anyone "demo" in
  let go n b := execute_program_from_path no_debug n open_memory 0 no_json "sum.dsl" (Ok adding) (with_bytecode b options) in
  is_ok (go 3 false) = true /\ exists k, forall n, go (k + n) true = go 3 false.
Proof.
  intros options go. split; [vm_compute; reflexivity|].
  apply (bytecode_is_only_a_choice no_debug 3 open_memory 0 no_json "sum.dsl" adding options
           [Op.Push (Interp.num 10); Op.Push (Interp.num 5); Op.Add; Op.Emit "hi"]); try reflexivity.
  vm_compute. discriminate.
Defined.

(** The modes matter: in simulation mode a store reaches the storage when the
    program is run as bytecode, and does not when it is interpreted. *)
Lemma bytecode_stores_in_simulation :
  let s := VM.set_simulation_mode true
             (VM.set_auth_context InMemoryStorage.admin (VM.with_storage_backend InMemoryStorage.with_account)) in
  let ops := [Op.Push (Interp.num 5); Op.StoreP "k"] in
  VM.get_storage_backend (Interp.run 3 ops s).1 = VM.get_storage_backend s /\
  VM.get_storage_backend (BytecodeInterpreter.get_vm
    (BytecodeInterpreter.execute no_debug 9 (BytecodeInterpreter.new s (BytecodeCompiler.compile ops))).1)
  <> VM.get_storage_backend s.
Proof. split; vm_compute; [reflexivity|discriminate]. Qed.


End EngineExamples.
