(* ===== verification/Shell.v ===== *)
(** * Running programs from the command line: main.rs

    The commands that run a program, compare both ways of running it, read lines
    in a shell, register an identity, and look into a storage.  What a command
    prints is the list of its replies; files come with their contents, the line
    editor as the list of what it reads, and elapsed times are not kept. *)
From S2P Require Import Prelude Float64 Text Values Ops Stack Memory Auth Storage InMemory Economic Executor.
From S2P Require Import Ledger Trace Machine Governance VM Preserve Bytecode Parser Blocks Dsl Lifecycle Comments.
From S2P Require Import Proposals FileSystem FileStorage Federation FederationNode FederationCommands FederationMain Engine.

(** What the line editor returns. *)
Inductive reading : Type :=
  | Line (text : string)
  | Interrupted
  | EndOfInput
  | Broken (e : string).

Inductive reply : Type :=
  | Silent
  | Help
  | StackIs (values : list TypedValue.t)
  | MemoryIs (memory : gmap string TypedValue.t)
  | Said (text : string)
  | ResultIs (value : TypedValue.t)
  | ErrorIs (e : VMError.t)
  | ParseErrorIs (e : string).

(** The flags of a run. *)
Record Flags : Type := { simulate : bool; trace : bool; explain : bool; verbose_storage : bool }.

Module Shell.

Import Engine.

Section Commands.

Context `{PL : Platform} `{RD : Renderings} `{CH : Chrono} (debug_instruction : BytecodeOp.t -> string).

Definition engine {A} (r : res VMEngineError.t A) : res AppError.t A :=
  map_err (fun e => AppError.VMEngine (VMEngineError.to_string e)) r.

(** ** Running a program *)

Definition backend_of (storage_backend storage_path : string) : StorageBackendType :=
  if String.eqb storage_backend "memory" then MemoryBackend
  else if String.eqb storage_backend "file" then FileBackend storage_path
  else MemoryBackend.

Definition options_of (backend : StorageBackendType) (federated use_bytecode verbose use_stdlib : bool) (flags : Flags)
    (parameters : list (string * string)) : VMOptions.t :=
  {| VMOptions.storage_backend := backend; VMOptions.identity_context := None;
     VMOptions.enable_federation := federated; VMOptions.use_bytecode := use_bytecode; VMOptions.debug_mode := verbose;
     VMOptions.simulation_mode := simulate flags; VMOptions.trace_execution := trace flags;
     VMOptions.explain_operations := explain flags; VMOptions.verbose_storage_trace := verbose_storage flags;
     VMOptions.namespace := "demo"; VMOptions.parameters := parameters; VMOptions.use_stdlib := use_stdlib |}.

(** A run that failed is an error of the command. *)
Definition judge {S} (result : ExecutionResult.t S) : res AppError.t unit :=
  if ExecutionResult.success result then Ok tt
  else Err (AppError.Other (default "Unknown error" (ExecutionResult.error result))).

Definition run_program {S} `{StorageBackend S} (fuel : nat) (opened : StorageBackendType -> res VMEngineError.t S)
    (elapsed_ms : N) (ops_from_json : string -> res string (list Op.t)) (program_path : string)
    (file : res string string) (verbose use_stdlib : bool) (parameters : list (string * string)) (use_bytecode : bool)
    (storage_backend storage_path : string) (flags : Flags) : res AppError.t unit :=
  let backend := backend_of storage_backend storage_path in
  let options := options_of backend false use_bytecode verbose use_stdlib flags parameters in
  result ← engine (execute_program_from_path debug_instruction fuel (opened backend) elapsed_ms ops_from_json
                     program_path file options);
  judge result.

(** The program runs once the node's loop has ended; without a program, and
    without a machine to attach the node to, the command waits for ever. *)
Definition run_with_federation {S} `{StorageBackend S} `{SwarmCalls} `{FederationJson}
    (new_node : NodeConfig -> res string NetworkNode.t) (nows : nat -> N) (random : nat -> f64)
    (comes : list NetworkNode.happening) (fuel : nat) (opened : StorageBackendType -> res VMEngineError.t S)
    (elapsed_ms : N) (ops_from_json : string -> res string (list Op.t)) (program_path : string) (exists_ : bool)
    (file : res string string) (verbose use_stdlib : bool) (parameters : list (string * string)) (use_bytecode : bool)
    (storage_backend storage_path : string) (federation_port : N) (bootstrap_nodes : list string)
    (name : string) (capabilities : list string) (flags : Flags) : res AppError.t unit :=
  _ ← FederationMain.running_node new_node nows random comes
        {| port := Some federation_port; bootstrap_nodes := bootstrap_nodes; node_name := Some name;
           node_capabilities := capabilities; protocol_version := "1.0.0" |};
  if negb (String.eqb program_path "program.dsl") || exists_ then
    let backend := backend_of storage_backend storage_path in
    let options := options_of backend true use_bytecode verbose use_stdlib flags parameters in
    result ← engine (execute_program_from_path debug_instruction fuel (opened backend) elapsed_ms ops_from_json
                       program_path file options);
    match ExecutionResult.vm result with
    | Some _ => judge result
    | None => OutOfFuel
    end
  else OutOfFuel.

(** ** Comparing both ways of running *)

Inductive difference : Type := Differs (key : string) | OnlyInAst (key : string) | OnlyInBytecode (key : string).

Definition missing_or_different (bytecode_memory : gmap string TypedValue.t) (entry : string * TypedValue.t) : option difference :=
  match bytecode_memory !! entry.1 with
  | Some bytecode_value => if TypedValue.eq entry.2 bytecode_value then None else Some (Differs entry.1)
  | None => Some (OnlyInAst entry.1)
  end.
Definition differences (ast_memory bytecode_memory : gmap string TypedValue.t) : list difference :=
  omap (missing_or_different bytecode_memory) (map_to_list ast_memory) ++
  omap (fun entry => match ast_memory !! entry.1 with Some _ => None | None => Some (OnlyInBytecode entry.1) end)
    (map_to_list bytecode_memory).

(** Equality of vectors and of maps. *)
Fixpoint same_values (l l' : list TypedValue.t) : bool :=
  match l, l' with
  | [], [] => true
  | v :: l, v' :: l' => TypedValue.eq v v' && same_values l l'
  | _, _ => false
  end.
Definition same_memory (m m' : gmap string TypedValue.t) : bool :=
  Nat.eqb (size m) (size m') &&
  forallb (fun entry : string * TypedValue.t => match m' !! entry.1 with Some v => TypedValue.eq entry.2 v | None => false end) (map_to_list m).

(** Whether the stacks agree, and how the memories differ; [None] when one of the
    runs failed, which says nothing. *)
Record Comparison : Type := { stacks_match : option bool; memories : option (bool * list difference) }.

Definition compare {S} (ast bytecode : ExecutionResult.t S) : Comparison :=
  {| stacks_match :=
       match ExecutionResult.stack ast, ExecutionResult.stack bytecode with
       | Some l, Some l' => Some (same_values l l')
       | _, _ => None
       end;
     memories :=
       match ExecutionResult.memory ast, ExecutionResult.memory bytecode with
       | Some m, Some m' => Some (same_memory m m', if same_memory m m' then [] else differences m m')
       | _, _ => None
       end |}.

Definition run_benchmark (fuel : nat) (ops_from_json : string -> res string (list Op.t)) (program_path : string)
    (exists_ : bool) (file : res string string) (use_stdlib : bool) (parameters : list (string * string)) :
    res AppError.t Comparison :=
  if negb exists_ then Err (AppError.Other ("Program file not found: " +:+ program_path))
  else
    let go use_bytecode :=
      engine (execute_program_from_path debug_instruction fuel open_memory 0 ops_from_json program_path file
                (options_of MemoryBackend false use_bytecode false use_stdlib
                   {| simulate := true; trace := false; explain := false; verbose_storage := false |} parameters)) in
    ast_result ← go false;
    bytecode_result ← go true;
    Ok (compare ast_result bytecode_result).

(** ** Contexts and storage *)

Definition create_demo_auth_context : AuthContext.t := create_default_auth_context (Some "demo-user") (Some "user").
Definition create_admin_auth_context : AuthContext.t := create_default_auth_context (Some "admin-user") (Some "admin").
Definition setup_storage_for_demo : AuthContext.t * InMemoryStorage.t := (create_demo_auth_context, InMemoryStorage.new).

(** Failures are only warned about. *)
Definition initialize_storage {S} `{StorageBackend S} (now : N) (auth_context : AuthContext.t) : stm S AppError.t unit := fun s =>
  let '(s, r) := sb_create_account now (Some auth_context) (AuthContext.user_id auth_context) 1048576 s in
  match r with
  | Ok _ | Err _ =>
      let '(s, r) := sb_create_namespace now (Some auth_context) "demo" 1048576 None s in
      (s, match r with Ok _ | Err _ => Ok tt | Panic m => Panic m | OutOfFuel => OutOfFuel end)
  | Panic m => (s, Panic m)
  | OutOfFuel => (s, OutOfFuel)
  end.

(** ** The shell *)

Record t : Type := { vm : VM.t InMemoryStorage.t; use_bytecode : bool; flags : Flags }.

Definition with_vm (v : VM.t InMemoryStorage.t) (s : t) : t := {| vm := v; use_bytecode := use_bytecode s; flags := flags s |}.

Definition shell_context : AuthContext.t := create_demo_auth_context.

(** [run_interactive] up to its loop. *)
Definition start (use_bytecode : bool) (flags : Flags) (parameters : list (string * string)) : res AppError.t t :=
  let vm : VM.t InMemoryStorage.t := VM.new in
  let vm := VM.set_simulation_mode (simulate flags) vm in
  let vm := VM.set_tracing (trace flags) vm in
  let vm := VM.set_explanation (explain flags) vm in
  let vm := VM.set_verbose_storage_trace (verbose_storage flags) vm in
  let vm := VM.set_auth_context shell_context vm in
  let vm := VM.set_namespace "demo" vm in
  let vm := VM.set_storage_backend FederationMain.create_storage_backend vm in
  let '(vm, r) := VM.set_parameters parameters vm in
  _ ← map_err AppError.VM r;
  Ok {| vm := vm; use_bytecode := use_bytecode; flags := flags |}.

Definition reset (s : t) : t :=
  let vm : VM.t InMemoryStorage.t := VM.new in
  let vm := VM.set_simulation_mode (simulate (flags s)) vm in
  let vm := VM.set_tracing (trace (flags s)) vm in
  let vm := VM.set_explanation (explain (flags s)) vm in
  let vm := VM.set_auth_context shell_context vm in
  with_vm (VM.set_namespace "demo" vm) s.

(** A line ends in a state with a reply, or ends the shell. *)
Inductive outcome : Type :=
  | Continue (s : t) (r : reply)
  | Exit (r : res AppError.t unit).

Definition or_exit {A} (r : res AppError.t A) (k : A -> outcome) : outcome :=
  match r with
  | Ok a => k a
  | Err e => Exit (Err e)
  | Panic m => Exit (Panic m)
  | OutOfFuel => Exit OutOfFuel
  end.

(** A new shell on the memory's texts; its result is that of the old one. *)
Definition switch (to_bytecode : bool) (s : t) : outcome :=
  or_exit (map_err AppError.VM (VM.get_memory_map (vm s))) (fun memory =>
  or_exit (start to_bytecode
             {| simulate := VM.is_simulation_mode (vm s); trace := VM.is_tracing (vm s);
                explain := VM.is_explaining (vm s); verbose_storage := verbose_storage (flags s) |}
             (prod_map id TypedValue.to_string <$> map_to_list memory)) (fun s' => Continue s' Silent)).

Definition shown_top (vm : VM.t InMemoryStorage.t) : reply :=
  match VM.top vm with Some result => ResultIs result | None => Silent end.

(** A compiled line runs on a new machine, from which the stack and the memory are
    taken; its failure ends the shell. *)
Definition base_vm (s : t) : VM.t InMemoryStorage.t :=
  let vm0 : VM.t InMemoryStorage.t := VM.new in
  let vm0 := VM.set_simulation_mode (VM.is_simulation_mode (vm s)) vm0 in
  let vm0 := VM.set_tracing (VM.is_tracing (vm s)) vm0 in
  let vm0 := VM.set_explanation (VM.is_explaining (vm s)) vm0 in
  VM.set_namespace "demo" (VM.set_auth_context shell_context vm0).
Definition run_compiled (fuel : nat) (ops : list Op.t) (s : t) : outcome :=
  let '(done_vm, r) := run_bytecode debug_instruction fuel ops (base_vm s) in
  or_exit (map_err AppError.VM r) (fun _ =>
    Continue (with_vm (VM.with_memory (VM.memory done_vm) (VM.with_stack (VM.stack done_vm) (vm s))) s) (shown_top done_vm)).

Definition run_interpreted (fuel : nat) (ops : list Op.t) (s : t) : outcome :=
  let '(vm', r) := interpret fuel ops (vm s) in
  let s' := with_vm vm' s in
  match r with
  | Ok _ => Continue s' (shown_top vm')
  | Err e => Continue s' (ErrorIs e)
  | Panic m => Exit (Panic m)
  | OutOfFuel => Exit OutOfFuel
  end.

Definition run_code (fuel : nat) (code : string) (s : t) : outcome :=
  match Dsl.parse_dsl code with
  | Ok (ops, _) => if use_bytecode s then run_compiled fuel ops s else run_interpreted fuel ops s
  | Err e => Continue s (ParseErrorIs (CompilerError.to_string e))
  | Panic m => Exit (Panic m)
  | OutOfFuel => Exit OutOfFuel
  end.

(** [save] and [load] take a file name and do nothing. *)
Definition file_command (usage not_yet trimmed : string) (s : t) : outcome :=
  Continue s (Said (if is_empty (trim (String.substring 5 (String.length trimmed - 5) trimmed)) then usage else not_yet)).

Definition handle_line (fuel : nat) (line : string) (s : t) : outcome :=
  let trimmed := trim line in
  let set (f : VM.t InMemoryStorage.t -> VM.t InMemoryStorage.t) (said : string) := Continue (with_vm (f (vm s)) s) (Said said) in
  if is_empty trimmed then Continue s Silent
  else if String.eqb trimmed "exit" || String.eqb trimmed "quit" then Exit (Ok tt)
  else if String.eqb trimmed "help" then Continue s Help
  else if String.eqb trimmed "stack" then Continue s (StackIs (VM.get_stack (vm s)))
  else if String.eqb trimmed "memory" then
    or_exit (map_err AppError.VM (VM.get_memory_map (vm s))) (fun memory => Continue s (MemoryIs memory))
  else if String.eqb trimmed "reset" then Continue (reset s) (Said "VM reset")
  else if String.eqb trimmed "trace on" then set (VM.set_tracing true) "Tracing enabled"
  else if String.eqb trimmed "trace off" then set (VM.set_tracing false) "Tracing disabled"
  else if String.eqb trimmed "explain on" then set (VM.set_explanation true) "Explanation enabled"
  else if String.eqb trimmed "explain off" then set (VM.set_explanation false) "Explanation disabled"
  else if String.eqb trimmed "simulate on" then
    set (VM.set_simulation_mode true) "Simulation mode enabled (no persistent storage changes)"
  else if String.eqb trimmed "simulate off" then
    set (VM.set_simulation_mode false) "Simulation mode disabled (storage changes will be committed)"
  else if String.eqb trimmed "storage-trace on" then
    set (VM.set_verbose_storage_trace true) "Verbose storage tracing enabled"
  else if String.eqb trimmed "storage-trace off" then
    set (VM.set_verbose_storage_trace false) "Verbose storage tracing disabled"
  else if String.eqb trimmed "mode ast" then switch false s
  else if String.eqb trimmed "mode bytecode" then switch true s
  else if str_starts_with "save " trimmed then
    file_command "Usage: save <file>" "Save functionality not yet implemented" trimmed s
  else if str_starts_with "load " trimmed then
    file_command "Usage: load <file>" "Load functionality not yet implemented" trimmed s
  else run_code fuel trimmed s.

(** The loop: the replies, and how the shell ends.  At the end of the list it waits. *)
Fixpoint repl (fuel : nat) (inputs : list reading) (s : t) : list reply * res AppError.t unit :=
  match inputs with
  | [] => ([], OutOfFuel)
  | Interrupted :: _ | EndOfInput :: _ => ([], Ok tt)
  | Broken e :: _ => ([], Err (AppError.Other ("Error reading input: " +:+ e)))
  | Line line :: inputs =>
      match handle_line fuel line s with
      | Continue s' r => let '(replies, result) := repl fuel inputs s' in (r :: replies, result)
      | Exit r => ([], r)
      end
  end.

Definition run_interactive (fuel : nat) (parameters : list (string * string)) (use_bytecode : bool) (flags : Flags)
    (inputs : list reading) : list reply * res AppError.t unit :=
  match start use_bytecode flags parameters with
  | Ok s => repl fuel inputs s
  | Err e => ([], Err e)
  | Panic m => ([], Panic m)
  | OutOfFuel => ([], OutOfFuel)
  end.

End Commands.

(** ** Looking into a storage *)

Section Inspect.

Context `{PL : Platform} `{FC : !FileStorage.FileCalls}.

(** The file storage at [path] below the working directory, which is made first
    when it is missing. *)
Definition open_file_storage (cwd : FileSystem.path) (path : string) (disk : FileSystem.t) :
    FileSystem.t * res AppError.t FileStorage.t :=
  let storage_dir := FileSystem.join cwd path in
  let '(disk, r) :=
    if FileSystem.exists_ storage_dir disk then (disk, Ok tt) else FileSystem.create_dir_all storage_dir disk in
  match map_err (fun e => AppError.Other ("Failed to create storage directory: " +:+ FileStorage.io_display e)) r with
  | Ok _ =>
      let '(storage, r) := FileStorage.new storage_dir disk in
      (FileStorage.fs storage,
       _ ← map_err (fun e => AppError.Other ("Failed to initialize file storage: " +:+ StorageError.to_string e)) r; Ok storage)
  | Err e => (disk, Err e)
  | Panic m => (disk, Panic m)
  | OutOfFuel => (disk, OutOfFuel)
  end.

(** A request of the administrator's to the backend that is asked for; a storage in memory
    is a new one. *)
Definition inspecting {A} (what : string) (cwd : FileSystem.path) (storage_backend storage_path : string)
    (on_file : stm FileStorage.t StorageError.t A) (in_memory : res StorageError.t A) : stm FileSystem.t AppError.t A := fun disk =>
  let failed (r : res StorageError.t A) : res AppError.t A :=
    map_err (fun e => AppError.Other (what +:+ StorageError.to_string e)) r in
  if String.eqb storage_backend "file" then
    let '(disk, opened) := open_file_storage cwd storage_path disk in
    match opened with
    | Ok storage => let '(storage, r) := on_file storage in (FileStorage.fs storage, failed r)
    | Err e => (disk, Err e)
    | Panic m => (disk, Panic m)
    | OutOfFuel => (disk, OutOfFuel)
    end
  else (disk, failed in_memory).

Definition list_keys_command (now : N) (cwd : FileSystem.path) (namespace : string) (prefix : option string)
    (storage_backend storage_path : string) : stm FileSystem.t AppError.t (list string) :=
  inspecting "Failed to list keys: " cwd storage_backend storage_path
    (FileStorage.list_keys now (Some create_admin_auth_context) namespace prefix)
    (InMemoryStorage.list_keys (Some create_admin_auth_context) namespace prefix InMemoryStorage.new).

(** The bytes that were found; they are shown as text when they are UTF-8. *)
Definition get_value_command (now : N) (cwd : FileSystem.path) (namespace key storage_backend storage_path : string) :
    stm FileSystem.t AppError.t bytes :=
  inspecting "Failed to get value: " cwd storage_backend storage_path
    (FileStorage.get now (Some create_admin_auth_context) namespace key)
    (InMemoryStorage.get (Some create_admin_auth_context) namespace key InMemoryStorage.new).

End Inspect.

(** ** Identities *)

(** What is read of the JSON of an identity: its [id]; the metadata go to the
    identity's constructor. *)
Definition register_identity (id_of : string -> res string (option string))
    (new_identity : string -> string -> string -> res string Identity.t) (to_json : Identity.t -> res string string)
    (file : res string string) (id_type : string) (output_file : option string) : res AppError.t (option (string * string)) :=
  id_data ← map_err AppError.IO file;
  found ← map_err AppError.Json (id_of id_data);
  match found with
  | None => Err (AppError.Other "Missing 'id' field")
  | Some id =>
      identity ← map_err (fun e => AppError.Other ("Failed to create identity: " +:+ e)) (new_identity id id_type id_data);
      let auth := AuthContext.register_identity identity (AuthContext.add_role "global" "admin" (AuthContext.new "system")) in
      match output_file with
      | Some out_file => json ← map_err AppError.Json (to_json identity); Ok (Some (out_file, json))
      | None => Ok None
      end
  end.

(** ** The command line *)

(** A parameter is [name=value]; anything else stops the process. *)
Definition parse_param (s : string) : option (string * string) :=
  match split_char "=" s with
  | [name; value] => Some (name, value)
  | _ => None
  end.

Inductive RunMode : Type := Benchmark | Interactive | Federated | Plain.
Definition run_mode (benchmark interactive enable_federation : bool) : RunMode :=
  if benchmark then Benchmark else if interactive then Interactive else if enable_federation then Federated else Plain.

(** The addresses that parse; the others are warned about. *)
Definition bootstrap_addresses `{SwarmCalls} (addrs : list string) : list string :=
  omap (fun addr => match parse_multiaddr addr with Ok a => Some a | _ => None end) addrs.

End Shell.

(** ** Theorems *)
Module ShellTheorems.

Import Engine EngineTheorems Shell.

Section Shell.

Context `{PL : Platform} `{RD : Renderings} `{CH : Chrono} (debug_instruction : BytecodeOp.t -> string).

(** One line that does not end the shell. *)
Definition step (s s' : t) : Prop :=
  exists fuel line r, handle_line debug_instruction fuel line s = Continue s' r.

(** The machine of the shell acts for the demo user in the demo namespace, on the
    storage it started with, or on none after a reset. *)
Definition at_demo (v : VM.t InMemoryStorage.t) : Prop :=
  (VM.get_storage_backend v = None \/ VM.get_storage_backend v = Some InMemoryStorage.new) /\
  VMExecution.auth_context (VM.executor v) = Some shell_context /\ VMExecution.namespace (VM.executor v) = "demo".

Lemma at_demo_same v v' : VM.executor v' = VM.executor v -> at_demo v -> at_demo v'.
Proof. unfold at_demo, VM.get_storage_backend. by intros ->. Qed.

Lemma demo_denied v : at_demo v -> denied (VM.executor v).
Proof.
  intros (_ & Ha & Hn). unfold denied. rewrite Ha, Hn.
  pose proof (default_context_writes (Some "demo-user") (Some "user") "demo") as H.
  destruct (InMemoryStorage.check_permission _ _ _) as [|x|?|] eqn:E; [by discriminate H| |by discriminate E..].
  exists x. exact E.
Qed.

Lemma at_demo_run fuel ops v : at_demo v -> at_demo (interpret fuel ops v).1.
Proof.
  intros H. destruct (run_untouched fuel ops v) as [_ Hu]. destruct (Hu (demo_denied v H)) as (H1 & H2 & H3).
  unfold at_demo, VM.get_storage_backend, interpret, Interp.execute, Interp.execute_inner in *. by rewrite H1, H2, H3.
Qed.

Lemma at_demo_start b fl ps s : start b fl ps = Ok s -> at_demo (vm s).
Proof. unfold start. intros [= <-]. split; [by right|done]. Qed.

Lemma at_demo_code fuel code s s' r : at_demo (vm s) -> run_code debug_instruction fuel code s = Continue s' r -> at_demo (vm s').
Proof.
  intros H. unfold run_code. destruct (Dsl.parse_dsl code) as [[ops c]|?|?|]; [|by intros [= <- _]|done..].
  destruct (use_bytecode s).
  - unfold run_compiled. destruct (run_bytecode _ _ _ _) as [v [[]|?|?|]]; cbn; [|done..].
    intros [= <- _]. by apply (at_demo_same (vm s)).
  - unfold run_interpreted. pose proof (at_demo_run fuel ops (vm s) H) as Hv.
    destruct (interpret fuel ops (vm s)) as [v [[]|?|?|]]; intros [= <- _]; exact Hv.
Qed.

Lemma at_demo_switch b s s' r : switch b s = Continue s' r -> at_demo (vm s').
Proof.
  unfold switch. destruct (VM.get_memory_map (vm s)) as [m|?|?|]; cbn [or_exit map_err]; try done.
  destruct (start _ _ _) as [s1|?|?|] eqn:E; cbn; try done. intros [= <- _]. by apply at_demo_start in E.
Qed.

Lemma at_demo_step s s' : at_demo (vm s) -> step s s' -> at_demo (vm s').
Proof.
  intros H (fuel & line & r & Hl). unfold handle_line, file_command in Hl. set (trimmed := trim line) in *.
  repeat match type of Hl with (if ?b then _ else _) = _ => destruct b end.
  all: first [discriminate Hl | by apply at_demo_switch in Hl | by apply at_demo_code in Hl |
              injection Hl as <- _; by apply (at_demo_same (vm s)) | idtac].
  - by destruct (VM.get_memory_map (vm s)) as [m|?|?|]; cbn in Hl; [injection Hl as <- _|..].
  - injection Hl as <- _. split; [by left|done].
Qed.

(** Whatever is typed, the shell never changes a storage: it acts for a user who may
    not write, on a storage that is empty from its start, and after a reset on
    none. *)
Theorem shell_stores_nothing b fl ps s s' :
  start b fl ps = Ok s -> rtc step s s' ->
  VM.get_storage_backend (vm s') = None \/ VM.get_storage_backend (vm s') = Some InMemoryStorage.new.
Proof.
  intros Hs Hr. apply at_demo_start in Hs. cut (at_demo (vm s')); [by intros [? _]|].
  induction Hr as [s|s s1 s' H1 _ IH]; [done|]. apply IH. by eapply at_demo_step.
Qed.

(** Switching between the ways of running forgets everything: the new shell has an
    empty stack, no functions, and no variable can be loaded, although the
    variables' texts were handed over as parameters. *)
Theorem switching_forgets to_bytecode s memory :
  VM.get_memory_map (vm s) = Ok memory ->
  exists s', switch to_bytecode s = Continue s' Silent /\ use_bytecode s' = to_bytecode /\
    VM.get_stack (vm s') = [] /\ VM.get_memory_map (vm s') = Ok ∅ /\
    VMMemory.functions (VM.memory (vm s')) = ∅ /\
    forall x, VMMemory.load x (VM.memory (vm s')) = Err (VMError.UndefinedVariable x).
Proof.
  intros Hm. unfold switch. rewrite Hm. cbn [or_exit map_err]. unfold start.
  assert (Hf : forall (ps : list (string * string)) m, exists p,
    foldl (fun m kv => VMMemory.store_param kv.1 (VM.parameter_value kv.2) m) m ps = VMMemory.set_params p m).
  { induction ps as [|p ps IH]; intros m; [by exists (VMMemory.parameters m); destruct m|]. cbn [foldl].
    destruct (IH (VMMemory.store_param p.1 (VM.parameter_value p.2) m)) as [q ->]. by exists q. }
  unfold VM.set_parameters, modify. cbn [or_exit map_err mbind res_bind].
  destruct (Hf (prod_map id TypedValue.to_string <$> map_to_list memory) VMMemory.new) as [p Hp].
  eexists. split; [reflexivity|]. cbn [vm use_bytecode]. split; [done|].
  unfold VM.set_storage_backend, VM.set_namespace, VM.set_auth_context, VM.with_executor, VM.with_memory, VM.get_memory_map, VM.get_stack.
  cbn [VM.memory VM.stack VM.set_verbose_storage_trace VM.set_explanation VM.set_tracing VM.set_simulation_mode VM.with_modes
       VM.with_tracer VM.new].
  rewrite Hp. done.
Qed.

(** A compiled line does not see what earlier lines left: its stack, its memory and whether it
    fails depend on the modes alone. *)
Lemma compiled_lines_stand_alone fuel ops s1 s2 s1' r1 :
  VM.is_simulation_mode (vm s1) = VM.is_simulation_mode (vm s2) -> VM.is_tracing (vm s1) = VM.is_tracing (vm s2) ->
  VM.is_explaining (vm s1) = VM.is_explaining (vm s2) ->
  run_compiled debug_instruction fuel ops s1 = Continue s1' r1 ->
  exists s2', run_compiled debug_instruction fuel ops s2 = Continue s2' r1 /\
    VM.stack (vm s2') = VM.stack (vm s1') /\ VM.memory (vm s2') = VM.memory (vm s1').
Proof.
  intros Hs Ht He. unfold run_compiled, base_vm. rewrite Hs, Ht, He.
  destruct (run_bytecode _ _ _ _) as [v [[]|?|?|]]; cbn; [|done..]. intros [= <- <-]. by eexists.
Qed.

End Shell.

(** ** Comparing memories *)

Lemma omap_nil {A B} (f : A -> option B) l : omap f l = [] <-> forall x, x ∈ l -> f x = None.
Proof.
  induction l as [|x l IH]; [split; [|done]; intros _ y Hy; by apply not_elem_of_nil in Hy|]. cbn. destruct (f x) eqn:E.
  - split; [done|]. intros H. specialize (H x (list_elem_of_here _ _)). congruence.
  - rewrite IH. split; [intros H y [->|Hy]%elem_of_cons; [done|by apply H]|intros H y Hy; apply H; by right].
Qed.

(** The benchmark lists differences exactly when the memories are not equal: unequal
    memories without a difference do not occur. *)
Lemma differences_explain m m' : differences m m' = [] <-> same_memory m m' = true.
Proof.
  unfold differences, same_memory. rewrite app_nil, !omap_nil, andb_true_iff, Nat.eqb_eq, forallb_forall. split.
  - intros [H1 H2]. assert (Hd : dom m = dom m').
    { apply set_eq. intros k. rewrite !elem_of_dom. split; intros [v Hv].
      - specialize (H1 (k, v)). rewrite elem_of_map_to_list in H1. specialize (H1 Hv).
        unfold missing_or_different in H1. cbn in H1. destruct (m' !! k); [eauto|done].
      - specialize (H2 (k, v)). rewrite elem_of_map_to_list in H2. specialize (H2 Hv). cbn in H2.
        destruct (m !! k); [eauto|done]. }
    split; [by rewrite <- !size_dom, Hd|]. intros [k v] Hx%list_elem_of_In. specialize (H1 _ Hx).
    unfold missing_or_different in H1. cbn in *. destruct (m' !! k) as [w|]; [|done]. by destruct (TypedValue.eq v w).
  - intros [Hn H]. assert (Hsub : dom m ⊆ dom m').
    { intros k. rewrite !elem_of_dom. intros [v Hv]. specialize (H (k, v)).
      rewrite <- list_elem_of_In, elem_of_map_to_list in H. specialize (H Hv). cbn in H. destruct (m' !! k); [eauto|done]. }
    split.
    + intros [k v] Hx. unfold missing_or_different. cbn. specialize (H (k, v)). rewrite <- list_elem_of_In in H.
      specialize (H Hx). cbn in H. destruct (m' !! k); [by rewrite H|done].
    + intros [k v] Hx%elem_of_map_to_list. cbn. assert (Hk : k ∈ dom m).
      { rewrite (set_subseteq_size_eq (dom m) (dom m')); [by eapply elem_of_dom_2|done|by rewrite !size_dom, Hn]. }
      apply elem_of_dom in Hk as [w ->]. done.
Qed.

(** ** Inspection *)

(** Without a file storage there is never anything to see. *)
Lemma memory_is_never_seen `{PL : Platform} `{FC : !FileStorage.FileCalls} now cwd ns key prefix path disk :
  list_keys_command now cwd ns prefix "memory" path disk = (disk, Ok []) /\
  get_value_command now cwd ns key "memory" path disk =
    (disk, Err (AppError.Other ("Failed to get value: Key not found: " +:+ ns +:+ ":" +:+ key))).
Proof.
  unfold list_keys_command, get_value_command, inspecting. cbn [String.eqb Ascii.eqb Bool.eqb].
  assert (Hc : InMemoryStorage.check_permission (Some create_admin_auth_context) "read" ns = Ok tt) by done.
  unfold InMemoryStorage.list_keys, InMemoryStorage.get, InMemoryStorage.lookup_data. rewrite Hc.
  cbn [mbind res_bind InMemoryStorage.data InMemoryStorage.new]. by rewrite lookup_empty.
Qed.

End ShellTheorems.

(** ** Concrete sessions *)
Module ShellExamples.

Import Engine Shell ShellTheorems.

#[local] Existing Instance Samples.platform.
#[local] Existing Instance Samples.renderings.
#[local] Existing Instance ClockSamples.seconds.

Definition no_flags : Flags := {| simulate := false; trace := false; explain := false; verbose_storage := false |}.
Definition session (b : bool) (lines : list string) : list reply * res AppError.t unit :=
  run_interactive EngineExamples.no_debug 5 [] b no_flags (Line <$> lines).

(** Interpreted lines see what earlier ones stored; compiled ones do not, and end
    the shell.  The operation [load] is never run: the shell takes it for its own command. *)
Example interpreted_lines :
  session false ["push 2"; "store x"; "load x"; "push 1"; "push 3"; "add"; "quit"] =
  ([ResultIs (Interp.num 2); Silent; Said "Load functionality not yet implemented"; ResultIs (Interp.num 1);
    ResultIs (Interp.num 3); ResultIs (Interp.num 4)], Ok tt).
Proof. vm_compute. reflexivity. Qed.
Example compiled_lines :
  session true ["push 2"; "store x"] =
  ([ResultIs (Interp.num 2)], Err (AppError.VM (VMError.StackUnderflow))).
Proof. vm_compute. reflexivity. Qed.

Definition opened : t :=
  match start false no_flags [] with Ok s => s | _ => {| vm := VM.new; use_bytecode := false; flags := no_flags |} end.
Definition after_line (line : string) (s : t) : t :=
  match handle_line EngineExamples.no_debug 5 line s with Continue s' _ => s' | Exit _ => s end.

Lemma shell_stores_nothing_witness :
  let s' := after_line "storep x" (after_line "push 2" opened) in
  VM.get_storage_backend (vm s') = None \/ VM.get_storage_backend (vm s') = Some InMemoryStorage.new.
Proof.
  intros s'. apply (shell_stores_nothing EngineExamples.no_debug false no_flags [] opened s').
  - reflexivity.
  - eapply rtc_l; [exists 5, "push 2", (ResultIs (Interp.num 2)); vm_compute; reflexivity|].
    apply rtc_once. exists 5, "storep x". eexists. vm_compute. reflexivity.
Defined.

Lemma switching_forgets_witness :
  let s := after_line "store x" (after_line "push 2" opened) in
  VMMemory.load "x" (VM.memory (vm s)) = Ok (Interp.num 2) /\
  exists s', switch true s = Continue s' Silent /\
    VMMemory.load "x" (VM.memory (vm s')) = Err (VMError.UndefinedVariable "x").
Proof.
  intros s. split; [vm_compute; reflexivity|].
  destruct (switching_forgets true s {["x" := Interp.num 2]}) as (s' & H1 & _ & _ & _ & _ & H2).
  - vm_compute. reflexivity.
  - exists s'. split; [exact H1|apply H2].
Defined.

(** Minus zero equals zero; names on one side only are listed. *)
Example comparisons :
  differences {["x" := TypedValue.Number (f64_of_Z 0)]} {["x" := TypedValue.Number (f64_neg (f64_of_Z 0))]} = [] /\
  differences {["x" := Interp.num 1]} {["y" := Interp.num 1]} = [OnlyInAst "x"; OnlyInBytecode "y"].
Proof. vm_compute. done. Qed.

End ShellExamples.
