(* ===== verification/Templates.v ===== *)
(** * Governance templates: governance/templates/mod.rs and registry.rs

    A template holds the settings of a kind of proposal with its versions.
    [TemplateRegistry] keeps templates as texts in a storage, and a second copy
    in a directory when it has one; [FileBackedTemplateRegistry] keeps them in a
    directory only.  The module is not declared by governance/mod.rs, and it
    calls methods that the source does not declare ([store_string],
    [load_string], [keys_with_prefix], [Identity::id], a [delete] that starts
    with the key): these are parameters, with serde's texts, the texts of I/O
    errors and the order of a directory.  UUIDs and the time are arguments. *)
From S2P Require Import Prelude Float64 Text Ops Auth FileSystem.

Record TemplateVersion : Type := {
  version : string; author : string; created_at : N; description : string;
}.
Inductive ParameterType : Type := PString | PNumber | PBoolean | PIdentity | PResource.
Record ParameterDefinition : Type := {
  pd_name : string; pd_description : string; param_type : ParameterType; required : bool;
  default_value : option string;
}.
Inductive VotingMethod : Type := SimpleMajority | ReputationWeighted | RankedChoice.
Record VotingConfig : Type := {
  quorum : f64; threshold : f64; method : VotingMethod; deliberation_period : N; voting_period : N;
}.
Record EligibilityConfig : Type := {
  required_role : option string; minimum_reputation : option f64; custom_logic : option (list string);
}.
Record ExecutionConfig : Type := {
  on_approve : list string; on_reject : option (list string); execution_delay : option N;
}.

Module Template.

Record t : Type := {
  id : string;
  name : string;
  current : TemplateVersion;
  previous_versions : list TemplateVersion;
  parameters : gmap string ParameterDefinition;
  voting : VotingConfig;
  eligibility : EligibilityConfig;
  execution : ExecutionConfig;
}.

(** The assignments to the fields that the registries set. *)
Definition with_id (i : string) (self : t) : t :=
  {| id := i; name := name self; current := current self; previous_versions := previous_versions self;
     parameters := parameters self; voting := voting self; eligibility := eligibility self; execution := execution self |}.
Definition with_name (n : string) (self : t) : t :=
  {| id := id self; name := n; current := current self; previous_versions := previous_versions self;
     parameters := parameters self; voting := voting self; eligibility := eligibility self; execution := execution self |}.
Definition with_versions (v : TemplateVersion) (previous : list TemplateVersion) (self : t) : t :=
  {| id := id self; name := name self; current := v; previous_versions := previous;
     parameters := parameters self; voting := voting self; eligibility := eligibility self; execution := execution self |}.

(** All versions, the current one last. *)
Definition history (self : t) : list TemplateVersion := previous_versions self ++ [current self].

(** The fields that are floating point numbers. *)
Definition numbers (self : t) : list f64 :=
  quorum (voting self) :: threshold (voting self) :: option_list (minimum_reputation (eligibility self)).

(** Equal in every field that is none of these. *)
Record agree (a b : t) : Prop := {
  agree_id : id a = id b;
  agree_name : name a = name b;
  agree_history : history a = history b;
  agree_parameters : parameters a = parameters b;
  agree_method : method (voting a) = method (voting b);
  agree_deliberation : deliberation_period (voting a) = deliberation_period (voting b);
  agree_period : voting_period (voting a) = voting_period (voting b);
  agree_role : required_role (eligibility a) = required_role (eligibility b);
  agree_logic : custom_logic (eligibility a) = custom_logic (eligibility b);
  agree_execution : execution a = execution b;
}.

End Template.

Module TemplateError.

Inductive t : Type :=
  | TemplateNotFound (id : string)
  | InvalidFormat (details : string)
  | PermissionDenied (details : string)
  | StorageError (details : string)
  | IoError (details : string).

Definition to_string (e : t) : string :=
  match e with
  | TemplateNotFound id => "Template not found: " +:+ id
  | InvalidFormat details => "Invalid template format: " +:+ details
  | PermissionDenied details => "Permission denied: " +:+ details
  | StorageError details => "Storage error: " +:+ details
  | IoError details => "I/O error: " +:+ details
  end.

Definition from_storage (error : Ops.StorageError.t) : t :=
  match error with
  | Ops.StorageError.ResourceNotFound key => TemplateNotFound key
  | Ops.StorageError.PermissionDenied _ action _ => PermissionDenied action
  | _ => StorageError (Ops.StorageError.to_string error)
  end.

End TemplateError.

Class TemplateCalls : Type := {
  template_to_string : Template.t -> res string string;
  template_to_string_pretty : Template.t -> res string string;
  template_from_str : string -> res string Template.t;
  identity_id : Identity.t -> string;
  template_io_display : IoError -> string;
  entry_order : list string -> list string;
}.
(** What serde does: the text of a template is UTF-8; if it is read it is read
    as it was but for its numbers, and it is read, with its numbers, when they
    are short decimals; a quorum or threshold that is not finite was written as
    [null], which is refused. *)
Class TemplateCallsLaws `{!TemplateCalls} : Prop := {
  template_read_back : forall d text, Forall short_decimal (Template.numbers d) ->
    template_to_string d = Ok text -> template_from_str text = Ok d;
  pretty_read_back : forall d text, Forall short_decimal (Template.numbers d) ->
    template_to_string_pretty d = Ok text -> template_from_str text = Ok d;
  pretty_kept : forall d text d',
    template_to_string_pretty d = Ok text -> template_from_str text = Ok d' -> Template.agree d d';
  pretty_null : forall d text, template_to_string_pretty d = Ok text ->
    f64_is_finite (quorum (Template.voting d)) && f64_is_finite (threshold (Template.voting d)) = false ->
    exists e, template_from_str text = Err e;
  pretty_is_text : forall d text, template_to_string_pretty d = Ok text -> from_utf8 text = Some text;
  entries_kept : forall l : list string, entry_order l ≡ₚ l;
}.

(** A call of std::fs whose error [?] converts. *)
Definition template_from_io `{TemplateCalls} (e : IoError) : TemplateError.t := TemplateError.IoError (template_io_display e).
Definition on_disk `{TemplateCalls} {A} (m : stm FileSystem.t IoError A) : stm FileSystem.t TemplateError.t A :=
  fun s => let '(s', r) := m s in (s', map_err template_from_io r).
Definition format_error {A} (r : res string A) : res TemplateError.t A := map_err TemplateError.InvalidFormat r.

(** ** Templates as files *)
Module FileBackedTemplateRegistry.

Section Registry.

Context `{TC : TemplateCalls}.

Abbreviation M := (stm FileSystem.t TemplateError.t).

Record t : Type := { templates_dir : FileSystem.path }.

Definition new (templates_dir : FileSystem.path) : M t :=
  _ ← on_disk (FileSystem.create_dir_all templates_dir);
  mret {| templates_dir := templates_dir |}.

Definition template_path (id : string) (self : t) : FileSystem.path :=
  FileSystem.join (templates_dir self) (id +:+ ".json").
Definition template_exists (id : string) (self : t) (fs : FileSystem.t) : bool :=
  FileSystem.exists_ (template_path id self) fs.

(** The definition that [create_template] writes. *)
Definition created (uuid : string) (now : N) (name : string) (definition : Template.t) (author : Identity.t) :
    Template.t :=
  let definition := if is_empty (Template.id definition) then Template.with_id ("template:" +:+ uuid) definition
                    else definition in
  let version := {| version := "1.0"; author := identity_id author; created_at := now;
                    description := "Initial version of " +:+ name |} in
  Template.with_name name (Template.with_versions version (Template.previous_versions definition) definition).

Definition create_template (uuid : string) (now : N) (name : string) (definition : Template.t) (author : Identity.t)
    (self : t) : M string :=
  let definition := created uuid now name definition author in
  json ← lift (format_error (template_to_string_pretty definition));
  _ ← on_disk (FileSystem.write (template_path (Template.id definition) self) json);
  mret (Template.id definition).

Definition get_template (id : string) (self : t) (fs : FileSystem.t) : res TemplateError.t Template.t :=
  let path := template_path id self in
  if negb (FileSystem.exists_ path fs) then Err (TemplateError.TemplateNotFound id)
  else
    contents ← map_err template_from_io (FileSystem.read_to_string path fs);
    format_error (template_from_str contents).

(** Entries whose extension is [json]. *)
Definition is_json (name : string) : bool := bool_decide (FileSystem.extension name = Some "json").
Definition json_entries (dir : FileSystem.path) (fs : FileSystem.t) : res TemplateError.t (list string) :=
  names ← map_err template_from_io (FileSystem.read_dir entry_order dir fs); Ok (filter is_json names).

(** Templates that do not parse are skipped. *)
Fixpoint load_all (dir : FileSystem.path) (names : list string) (fs : FileSystem.t) :
    res TemplateError.t (list Template.t) :=
  match names with
  | [] => Ok []
  | name :: names =>
      contents ← map_err template_from_io (FileSystem.read_to_string (dir ++ [name]) fs);
      match template_from_str contents with
      | Ok template => templates ← load_all dir names fs; Ok (template :: templates)
      | Err _ => load_all dir names fs
      | Panic msg => Panic msg
      | OutOfFuel => OutOfFuel
      end
  end.
Definition list_templates (self : t) (fs : FileSystem.t) : res TemplateError.t (list Template.t) :=
  names ← json_entries (templates_dir self) fs; load_all (templates_dir self) names fs.

Definition major (v : string) : string := default "1" (head (split_char "." v)).

(** The definition that [update_template] writes over [template]. *)
Definition updated (now : N) (updated_definition : Template.t) (author : Identity.t) (template : Template.t) : Template.t :=
  let previous := Template.previous_versions template ++ [Template.current template] in
  let new_version :=
    {| version := major (version (Template.current template)) +:+ "." +:+ u64_to_string (N.of_nat (length previous + 1));
       author := identity_id author; created_at := now;
       description := "Updated version of " +:+ Template.name template |} in
  Template.with_versions new_version previous updated_definition.

Definition update_template (id : string) (now : N) (updated_definition : Template.t) (author : Identity.t) (self : t) :
    M unit :=
  template ← (fun fs => (fs, get_template id self fs));
  json ← lift (format_error (template_to_string_pretty (updated now updated_definition author template)));
  on_disk (FileSystem.write (template_path id self) json).

Definition delete_template (id : string) (self : t) : M unit := fun fs =>
  let path := template_path id self in
  if negb (FileSystem.exists_ path fs) then (fs, Err (TemplateError.TemplateNotFound id))
  else on_disk (FileSystem.remove_file path) fs.

Fixpoint copy_all (dir backup_dir : FileSystem.path) (names : list string) (count : nat) : M nat :=
  match names with
  | [] => mret count
  | name :: names =>
      _ ← on_disk (FileSystem.copy (dir ++ [name]) (backup_dir ++ [name]));
      copy_all dir backup_dir names (count + 1)
  end.
Definition backup (backup_dir : FileSystem.path) (self : t) : M nat :=
  _ ← on_disk (FileSystem.create_dir_all backup_dir);
  names ← (fun fs => (fs, json_entries (templates_dir self) fs));
  copy_all (templates_dir self) backup_dir names 0.

Definition get_template_version (id v : string) (self : t) (fs : FileSystem.t) : res TemplateError.t Template.t :=
  template ← get_template id self fs;
  if String.eqb (version (Template.current template)) v then Ok template
  else if existsb (fun prev => String.eqb (version prev) v) (Template.previous_versions template) then
    Err (TemplateError.StorageError "Retrieving specific versions is not yet implemented")
  else Err (TemplateError.TemplateNotFound (id +:+ "@" +:+ v)).

End Registry.

End FileBackedTemplateRegistry.

(** ** Templates in a storage *)
Module TemplateRegistry.

(** The methods the registry calls on its storage. *)
Class TextStore (S : Type) : Type := {
  store_string : string -> string -> option AuthContext.t -> string -> stm S StorageError.t unit;
  load_string : string -> option AuthContext.t -> string -> S -> res StorageError.t string;
  keys_with_prefix : string -> option AuthContext.t -> string -> S -> res StorageError.t (list string);
  delete_key : string -> option AuthContext.t -> string -> stm S StorageError.t unit;
}.
(** A text that was stored is what the same caller loads. *)
Class TextStoreLaws (S : Type) `{!TextStore S} : Prop := {
  loads_what_was_stored : forall key text auth ns s s',
    store_string key text auth ns s = (s', Ok tt) -> load_string key auth ns s' = Ok text;
}.

Section Registry.

Context `{TC : TemplateCalls} {S : Type} `{TS : !TextStore S}.

(** The disk is part of the state. *)
Record t : Type := { storage : S; templates_path : option FileSystem.path; fs : FileSystem.t }.
Abbreviation M := (stm t TemplateError.t).

Definition new (storage : S) (fs : FileSystem.t) : t := {| storage := storage; templates_path := None; fs := fs |}.
Definition with_templates_path (path : FileSystem.path) (self : t) : t :=
  {| storage := storage self; templates_path := Some path; fs := fs self |}.

Definition in_storage {A} (m : stm S StorageError.t A) : M A := fun self =>
  let '(s', r) := m (storage self) in
  ({| storage := s'; templates_path := templates_path self; fs := fs self |}, map_err TemplateError.from_storage r).
Definition in_files {A} (m : stm FileSystem.t IoError A) : M A := fun self =>
  let '(fs', r) := m (fs self) in
  ({| storage := storage self; templates_path := templates_path self; fs := fs' |}, map_err template_from_io r).

Definition template_key (id : string) : string := "templates:" +:+ id.

Definition ensure_templates_dir : M unit := fun self =>
  match templates_path self with
  | Some path => if negb (FileSystem.exists_ path (fs self)) then in_files (FileSystem.create_dir_all path) self
                 else (self, Ok tt)
  | None => (self, Ok tt)
  end.

(** The copy in the directory, if there is one. *)
Definition write_file (id value : string) : M unit := fun self =>
  match templates_path self with
  | Some path =>
      (_ ← ensure_templates_dir; in_files (FileSystem.write (FileSystem.join path (id +:+ ".json")) value)) self
  | None => (self, Ok tt)
  end.

Definition create_template (uuid : string) (definition : Template.t) (auth_context : option AuthContext.t) : M string :=
  let id := "template:" +:+ uuid in
  value ← lift (format_error (template_to_string definition));
  _ ← in_storage (store_string (template_key id) value auth_context "governance");
  _ ← write_file id value;
  mret id.

Definition get_template (id : string) (auth_context : option AuthContext.t) (self : t) : res TemplateError.t Template.t :=
  value ← map_err TemplateError.from_storage
            (load_string (template_key id) auth_context "governance" (storage self));
  format_error (template_from_str value).

(** Here one text that does not parse fails the whole list. *)
Fixpoint load_all (keys : list string) (auth_context : option AuthContext.t) (self : t) :
    res TemplateError.t (list Template.t) :=
  match keys with
  | [] => Ok []
  | key :: keys =>
      value ← map_err TemplateError.from_storage (load_string key auth_context "governance" (storage self));
      template ← format_error (template_from_str value);
      templates ← load_all keys auth_context self;
      Ok (template :: templates)
  end.
Definition list_templates (auth_context : option AuthContext.t) (self : t) : res TemplateError.t (list Template.t) :=
  keys ← map_err TemplateError.from_storage
           (keys_with_prefix "templates:" auth_context "governance" (storage self));
  load_all keys auth_context self.

(** The template with the extended history is a local variable that is not
    stored. *)
Definition update_template (id : string) (updated_definition : Template.t) (auth_context : option AuthContext.t) : M unit :=
  template ← (fun self => (self, get_template id auth_context self));
  let _template := Template.with_versions (Template.current template) (Template.history template) template in
  value ← lift (format_error (template_to_string updated_definition));
  _ ← in_storage (store_string (template_key id) value auth_context "governance");
  write_file id value.

Definition remove_copy (id : string) : M unit := fun self =>
  match templates_path self with
  | Some path =>
      let file_path := FileSystem.join path (id +:+ ".json") in
      if FileSystem.exists_ file_path (fs self) then in_files (FileSystem.remove_file file_path) self
      else (self, Ok tt)
  | None => (self, Ok tt)
  end.
Definition delete_template (id : string) (auth_context : option AuthContext.t) : M unit :=
  _ ← in_storage (delete_key (template_key id) auth_context "governance");
  remove_copy id.

End Registry.

End TemplateRegistry.

(** ** What the registries do *)
Module TemplateTheorems.

Lemma part_without c s p : p ∈ split_char c s -> count_char c p = 0.
Proof.
  revert p. induction s as [|a s IH]; intros p; cbn.
  - by intros ->%list_elem_of_singleton.
  - destruct (split_char c s) as [|q qs] eqn:E; [by apply FileSystem.split_char_nonempty in E|].
    destruct (Ascii.eqb a c) eqn:Ea; intros [->|H]%elem_of_cons; [done|by apply IH| |apply IH; by right].
    cbn. rewrite Ea. apply IH. by left.
Qed.

Lemma rfind_char_last c a b : count_char c b = 0 -> rfind_char c (a +:+ String c b) = Some (String.length a).
Proof.
  intros Hb. assert (rfind_char c b = None) as Hn.
  { clear a. induction b as [|x b IH]; [done|]. cbn in *. destruct (Ascii.eqb x c); [done|]. by rewrite IH. }
  induction a as [|x a IH].
  - change (EmptyString +:+ ?s) with s. cbn. by rewrite Hn, Ascii.eqb_refl.
  - rewrite str_app_cons. cbn. by rewrite IH.
Qed.


Lemma major_kept v x : FileBackedTemplateRegistry.major (FileBackedTemplateRegistry.major v +:+ "." +:+ x) =
  FileBackedTemplateRegistry.major v.
Proof.
  unfold FileBackedTemplateRegistry.major at 1. change (?m +:+ "." +:+ x) with (m +:+ String "." x).
  rewrite FileSystem.split_char_joined, FileSystem.split_char_whole; [done|].
  unfold FileBackedTemplateRegistry.major. destruct (split_char "." v) as [|p ps] eqn:E.
  - by apply FileSystem.split_char_nonempty in E.
  - cbn. eapply part_without with (s := v). rewrite E. by left.
Qed.

Section Files.

Import FileBackedTemplateRegistry.

Context `{TC : TemplateCalls} `{TL : !TemplateCallsLaws}.

Lemma on_disk_ok {A} (m : stm FileSystem.t IoError A) s s' a :
  on_disk m s = (s', Ok a) <-> m s = (s', Ok a).
Proof. unfold on_disk. destruct (m s) as [s1 [b|e|msg|]]; cbn; split; intros; by simplify_eq. Qed.

Lemma get_saved id d json self s s' : template_to_string_pretty d = Ok json ->
  on_disk (FileSystem.write (template_path id self) json) s = (s', Ok tt) ->
  get_template id self s' = format_error (template_from_str json).
Proof.
  intros Hj (-> & _ & _)%on_disk_ok%FileSystem.write_ok. unfold get_template, FileSystem.read_to_string, FileSystem.read.
  pose proof (FileSystem.file_put_eq (template_path id self) json s) as Hf.
  rewrite (FileSystem.exists_file _ _ _ Hf), Hf. cbn. by rewrite (pretty_is_text d json Hj).
Qed.

Lemma saved_then_get id d json self s s' : Forall short_decimal (Template.numbers d) ->
  template_to_string_pretty d = Ok json ->
  on_disk (FileSystem.write (template_path id self) json) s = (s', Ok tt) -> get_template id self s' = Ok d.
Proof. intros Hn Hj Hw. by rewrite (get_saved _ _ _ _ _ _ Hj Hw), (pretty_read_back d json Hn Hj). Qed.

Lemma create_writes uuid now name d a self s s' i : create_template uuid now name d a self s = (s', Ok i) ->
  exists json, template_to_string_pretty (created uuid now name d a) = Ok json /\
    i = Template.id (created uuid now name d a) /\
    on_disk (FileSystem.write (template_path i self) json) s = (s', Ok tt).
Proof.
  unfold create_template. intros H. unfold mbind, stm_bind, lift, format_error in H.
  destruct (template_to_string_pretty _) as [json| | |] eqn:Ej; cbn in H; [|done..].
  destruct (on_disk _ s) as [s1 [[]|e|msg|]] eqn:Ew; [|done..]. injection H as <- <-. eauto.
Qed.

(** An update writes [updated] in place of what it reads. *)
Lemma update_writes i now d a self s s' : update_template i now d a self s = (s', Ok tt) ->
  exists t json, get_template i self s = Ok t /\ template_to_string_pretty (updated now d a t) = Ok json /\
    get_template i self s' = format_error (template_from_str json).
Proof.
  unfold update_template, mbind, stm_bind, lift.
  destruct (get_template i self s) as [t| | |]; [|done..].
  destruct (template_to_string_pretty _) as [json| | |] eqn:Ej; cbn; [|done..].
  intros H. exists t, json. split; [done|]. split; [done|]. by eapply get_saved.
Qed.

Lemma update_then_get i now d a self s s' t t' : update_template i now d a self s = (s', Ok tt) ->
  get_template i self s = Ok t -> get_template i self s' = Ok t' -> Template.agree (updated now d a t) t'.
Proof.
  intros (t1 & json & Ht1 & Hj & Hg)%update_writes Ht Ht'. assert (t1 = t) as -> by congruence.
  rewrite Hg in Ht'. apply (pretty_kept _ json); [done|]. unfold format_error in Ht'.
  by destruct (template_from_str json); simplify_eq/=.
Qed.

(** Whatever was there before: a taken id is not refused. *)
Theorem create_then_get (uuid : string) (now : N) (name : string) (d : Template.t) (a : Identity.t) (self : t)
    (s s' : FileSystem.t) (i : string) (Hn : Forall short_decimal (Template.numbers d))
    (Hc : create_template uuid now name d a self s = (s', Ok i)) :
  i = (if is_empty (Template.id d) then "template:" +:+ uuid else Template.id d) /\
  get_template i self s' = Ok (created uuid now name d a) /\
  forall p, p <> template_path i self -> FileSystem.file p s' = FileSystem.file p s.
Proof.
  apply create_writes in Hc as (json & Hj & Hi & Hw). split; [|split].
  - rewrite Hi. unfold created. by destruct (is_empty (Template.id d)).
  - eapply saved_then_get; [|done..]. unfold created. by destruct (is_empty (Template.id d)).
  - apply on_disk_ok, FileSystem.write_ok in Hw as (-> & _ & _). intros p Hp. by apply FileSystem.file_put_ne.
Qed.

Lemma get_same_files i self s s' : FileSystem.dirs s' = FileSystem.dirs s ->
  FileSystem.file (template_path i self) s' = FileSystem.file (template_path i self) s ->
  get_template i self s' = get_template i self s.
Proof.
  intros Hd Hf. unfold get_template, FileSystem.exists_, FileSystem.read_to_string, FileSystem.read, FileSystem.is_file,
    FileSystem.is_dir. rewrite Hd, Hf. destruct (match template_path i self with [] => true | _ => _ end) eqn:E;
    [done|]. by destruct (FileSystem.file _ s).
Qed.

Theorem delete_then_gone (i : string) (self : t) (s s' : FileSystem.t)
    (Hd : delete_template i self s = (s', Ok tt)) :
  get_template i self s' = Err (TemplateError.TemplateNotFound i) /\
  forall j, template_path j self <> template_path i self -> get_template j self s' = get_template j self s.
Proof.
  unfold delete_template in Hd. destruct (negb _); [done|].
  apply on_disk_ok, FileSystem.remove_file_ok in Hd as (Hdir & Hdirs & Hfile). split.
  - unfold get_template, FileSystem.exists_, FileSystem.is_file, FileSystem.is_dir.
    rewrite Hfile, FileSystem.path_eqb_refl, Hdirs. unfold FileSystem.is_dir in Hdir. by rewrite Hdir.
  - intros j Hj. apply get_same_files; [done|]. rewrite Hfile.
    destruct (FileSystem.path_eqb _ _) eqn:E; [by apply FileSystem.path_eqb_eq in E|done].
Qed.

(** Updates one after the other, each with its time, definition and author. *)
Fixpoint updates (i : string) (us : list (N * Template.t * Identity.t)) (self : t) : stm FileSystem.t TemplateError.t unit :=
  match us with
  | [] => mret tt
  | (now, d, a) :: us => _ ← update_template i now d a self; updates i us self
  end.

Definition numbered_from (m : string) (n : nat) : string := m +:+ "." +:+ u64_to_string (N.of_nat n).

(** What can be updated or is there after the updates can be read. *)
Lemma updates_read i us self s s' t :
  updates i us self s = (s', Ok tt) -> get_template i self s' = Ok t -> exists t0, get_template i self s = Ok t0.
Proof.
  destruct us as [|[[now d] a] us]; cbn; [intros [= <-]; eauto|]. unfold mbind, stm_bind.
  destruct (update_template _ _ _ _ _ s) as [s1 [[]|e|msg|]] eqn:Eu; [|done..].
  apply update_writes in Eu as (t0 & _ & Ht0 & _). eauto.
Qed.

(** C30. Any successful updates of a template, after which it can be read, only
    extend its history: the versions it had stay, one is added for each update
    with its author, and the new versions are numbered by their places in the
    history under the major number of the first.  The identifier becomes that of
    the last definition. *)
Theorem updates_extend_history (i : string) (us : list (N * Template.t * Identity.t)) (self : t) (s s' : FileSystem.t)
    (t0 t : Template.t) (Hget : get_template i self s = Ok t0) (Hus : updates i us self s = (s', Ok tt))
    (Hread : get_template i self s' = Ok t) :
  take (length (Template.history t0)) (Template.history t) = Template.history t0 /\
  version <$> drop (length (Template.history t0)) (Template.history t) =
    numbered_from (major (version (Template.current t0))) <$> seq (length (Template.history t0) + 1) (length us) /\
  author <$> drop (length (Template.history t0)) (Template.history t) = (fun u => identity_id u.2) <$> us /\
  Template.id t = default (Template.id t0) (last ((fun u => Template.id u.1.2) <$> us)).
Proof.
  revert s t0 Hget Hus. induction us as [|[[now d] a] us IH]; intros s t0 Hget Hus.
  - injection Hus as <-. assert (t = t0) as -> by congruence. by rewrite firstn_all, drop_all.
  - cbn in Hus. unfold mbind, stm_bind in Hus. destruct (update_template _ _ _ _ _ s) as [s1 [[]|e|msg|]] eqn:Eu; [|done..].
    destruct (updates_read _ _ _ _ _ _ Hus Hread) as [t1 Hg].
    pose proof (update_then_get _ _ _ _ _ _ _ _ _ Eu Hget Hg) as [Hid _ Hh].
    destruct (IH _ _ Hg Hus) as (Hpre & Hv & Ha & Hi). clear IH.
    assert (Template.history t1 = Template.history t0 ++ [Template.current t1]) as Hh1.
    { unfold Template.history in *. apply app_inj_tail in Hh as [<- _]. done. }
    assert (Template.current t1 = Template.current (updated now d a t0)) as Hc.
    { unfold Template.history in Hh. by apply app_inj_tail in Hh as [_ <-]. }
    rewrite Hh1 in Hpre, Hv, Ha. rewrite length_app in Hpre, Hv, Ha. cbn [length] in Hpre, Hv, Ha. rewrite Hc in *.
    assert (Template.id t = default (Template.id t0) (last (Template.id d :: ((fun u => Template.id u.1.2) <$> us)))) as Hi'
      by (rewrite Hi, <- Hid, last_cons; by destruct (last _)).
    set (h0 := Template.history t0) in *. set (h := Template.history t) in *.
    assert (h = h0 ++ Template.current (updated now d a t0) :: drop (length h0 + 1) h) as Hsplit.
    { rewrite <- (take_drop (length h0 + 1) h) at 1. rewrite Hpre, <- app_assoc. done. }
    assert (drop (length h0) h = Template.current (updated now d a t0) :: drop (length h0 + 1) h) as Hd.
    { rewrite Hsplit at 1. by rewrite drop_app_length. }
    split; [rewrite Hsplit; by rewrite take_app_length|]. rewrite Hd. cbn -[last]. rewrite Hv, Ha.
    split; [|split; [done|exact Hi']].
    subst h0. unfold Template.history in *. rewrite length_app in *. cbn [length] in *. f_equal.
    replace (length (Template.previous_versions t0) + 1 + 1 + 1) with (S (length (Template.previous_versions t0) + 1 + 1)) by lia.
    unfold numbered_from. cbn [updated Template.current Template.with_versions version]. by rewrite major_kept.
Qed.

(** An update to a quorum or a threshold that is not finite succeeds, and after
    it the template can be neither read nor updated. *)
Theorem non_finite_update_is_the_last (i : string) (now : N) (d : Template.t) (a : Identity.t) (self : t)
    (s s' : FileSystem.t) (Hup : update_template i now d a self s = (s', Ok tt))
    (Hd : f64_is_finite (quorum (Template.voting d)) && f64_is_finite (threshold (Template.voting d)) = false) :
  exists e, get_template i self s' = Err (TemplateError.InvalidFormat e) /\
    forall now' d' a', update_template i now' d' a' self s' = (s', Err (TemplateError.InvalidFormat e)).
Proof.
  apply update_writes in Hup as (t & json & _ & Hj & Hg).
  destruct (pretty_null _ _ Hj Hd) as [e He]. rewrite He in Hg. cbn in Hg. exists e. split; [done|].
  intros. unfold update_template, mbind, stm_bind. by rewrite Hg.
Qed.

(** *** Backups *)

Lemma extension_json i : i <> EmptyString -> is_json (i +:+ ".json") = true.
Proof.
  intros Hi. unfold is_json, FileSystem.extension. rewrite (rfind_char_last "." i "json") by done. cbn -[drop_str].
  destruct (String.length i =? 0)%nat eqn:E.
  { apply Nat.eqb_eq in E. by destruct i. }
  pose proof (strip_prefix_app (i +:+ ".") "json") as H. unfold strip_prefix in H. rewrite str_starts_with_app in H.
  injection H as H. rewrite length_str_app in H. cbn [String.length] in H. rewrite Nat.add_1_r in H.
  rewrite str_app_assoc in H. apply bool_decide_eq_true_2. exact (f_equal Some H).
Qed.

Lemma child_of (dir : FileSystem.path) n : FileSystem.child dir (dir ++ [n]) = Some n.
Proof.
  unfold FileSystem.child. assert (FileSystem.is_prefix dir (dir ++ [n]) = true) as ->
    by (apply FileSystem.is_prefix_spec; by apply prefix_app_r).
  by rewrite drop_app_length.
Qed.

(** The files of a directory whose extension is [json] are its entries. *)
Lemma json_entry dir s names n : json_entries dir s = Ok names -> FileSystem.is_file (dir ++ [n]) s = true ->
  is_json n = true -> n ∈ names.
Proof.
  unfold json_entries, FileSystem.read_dir. destruct (FileSystem.is_dir dir s); [|by destruct (FileSystem.is_file dir s)].
  cbn. intros [= <-] Hf Hn. apply list_elem_of_filter. split; [by rewrite Hn|]. rewrite entries_kept. apply elem_of_remove_dups.
  apply list_elem_of_omap. exists (dir ++ [n]). split; [|apply child_of]. apply elem_of_app. right.
  unfold FileSystem.is_file, FileSystem.file in Hf. induction (FileSystem.files s) as [|[q b] l IH]; [done|].
  cbn in *. destruct (FileSystem.path_eqb (dir ++ [n]) q) eqn:E.
  - apply FileSystem.path_eqb_eq in E as ->. by left.
  - right. by apply IH.
Qed.

Lemma copy_all_elsewhere dir dst names count s s' n : dir <> dst -> copy_all dir dst names count s = (s', Ok n) ->
  n = count + length names /\
  (forall p, (forall name, name ∈ names -> p <> dst ++ [name]) -> FileSystem.file p s' = FileSystem.file p s) /\
  (forall name, name ∈ names -> FileSystem.file (dst ++ [name]) s' = FileSystem.file (dir ++ [name]) s).
Proof.
  intros Hne. revert count s. induction names as [|x names IH]; intros count s H.
  - injection H as <- <-. split; [cbn; lia|]. split; [done|]. intros ? []%not_elem_of_nil.
  - cbn in H. unfold mbind, stm_bind in H. destruct (on_disk _ s) as [s1 [[]|e|msg|]] eqn:E; [|done..].
    apply on_disk_ok, FileSystem.copy_ok in E as (b & Hb & -> & _).
    assert (forall a c, dir ++ [a] <> dst ++ [c]) as Hdd by (intros a c ?%app_inj_tail; naive_solver).
    assert (FileSystem.path_eqb (dir ++ [x]) (dst ++ [x]) = false) as Hx.
    { apply not_true_iff_false. rewrite FileSystem.path_eqb_eq. apply Hdd. }
    rewrite Hx in H. destruct (IH _ _ H) as (-> & Hother & Hcopied). split; [cbn; lia|]. split.
    + intros p Hp. rewrite Hother by (intros; apply Hp; by right). apply FileSystem.file_put_ne. apply Hp. by left.
    + intros name Hname. destruct (decide (name ∈ names)) as [Hin|Hout].
      * rewrite (Hcopied _ Hin). by apply FileSystem.file_put_ne.
      * apply elem_of_cons in Hname as [->|?]; [|done]. rewrite Hb, Hother; [apply FileSystem.file_put_eq|].
        intros name Hn [_ [= ->]]%app_inj_tail. done.
Qed.

Lemma plain_path i self : count_char "/" i = 0 -> i <> EmptyString ->
  template_path i self = templates_dir self ++ [i +:+ ".json"].
Proof.
  intros Hc Hi. apply FileSystem.join_name; [by rewrite count_char_app, Hc|].
  assert (5 < String.length (i +:+ ".json")) as Hlen.
  { rewrite length_str_app. cbn. destruct i; [done|]. cbn. lia. }
  unfold FileSystem.is_plain. cbn [existsb]. destruct (String.eqb_spec (i +:+ ".json") "") as [E|_];
    [rewrite E in Hlen; cbn in Hlen; lia|].
  destruct (String.eqb_spec (i +:+ ".json") ".") as [E|_]; [rewrite E in Hlen; cbn in Hlen; lia|].
  destruct (String.eqb_spec (i +:+ ".json") "..") as [E|_]; [rewrite E in Hlen; cbn in Hlen; lia|done].
Qed.

(** What is read depends on the bytes of the file only. *)
Lemma get_reads_file i self s d : get_template i self s = Ok d ->
  exists b, FileSystem.file (template_path i self) s = Some b /\
    forall self' s', FileSystem.file (template_path i self') s' = Some b -> get_template i self' s' = Ok d.
Proof.
  unfold get_template at 1. destruct (negb _); [done|]. unfold FileSystem.read_to_string, FileSystem.read.
  destruct (FileSystem.file (template_path i self) s) as [b|] eqn:Eb; [|by destruct (FileSystem.is_dir _ _)].
  intros H. exists b. split; [done|]. intros self' s' H'. unfold get_template, FileSystem.read_to_string, FileSystem.read.
  by rewrite (FileSystem.exists_file _ _ _ H'), H'.
Qed.

Lemma backup_ok dst self s s' n : backup dst self s = (s', Ok n) ->
  exists s1 names, FileSystem.create_dir_all dst s = (s1, Ok tt) /\ json_entries (templates_dir self) s1 = Ok names /\
    copy_all (templates_dir self) dst names 0 s1 = (s', Ok n).
Proof.
  unfold backup, mbind, stm_bind. destruct (on_disk _ s) as [s1 [[]|e|msg|]] eqn:E; [|done..]. apply on_disk_ok in E.
  destruct (json_entries _ _) as [names| | |] eqn:En; [|done..]. eauto.
Qed.

(** A backup into another directory holds every template that the registry
    holds, and leaves the registry as it was. *)
Theorem backup_elsewhere_keeps_templates (dst : FileSystem.path) (self : t) (s s' : FileSystem.t) (n : nat)
    (Hdst : templates_dir self <> dst) (Hb : backup dst self s = (s', Ok n)) (i : string) (d : Template.t)
    (Hname : count_char "/" i = 0) (Hi : i <> EmptyString) (Hget : get_template i self s = Ok d) :
  get_template i self s' = Ok d /\ get_template i {| templates_dir := dst |} s' = Ok d.
Proof.
  apply backup_ok in Hb as (s1 & names & Hc & Hn & Hcopy).
  apply get_reads_file in Hget as (b & Hf & Hread). rewrite plain_path in Hf by done.
  pose proof (FileSystem.create_dir_all_ok _ _ _ Hc) as (_ & Hfiles & _).
  assert (FileSystem.file (templates_dir self ++ [i +:+ ".json"]) s1 = Some b) as Hf1
    by (unfold FileSystem.file; by rewrite Hfiles).
  destruct (copy_all_elsewhere _ _ _ _ _ _ _ Hdst Hcopy) as (_ & Hother & Hcopied).
  split; apply Hread; rewrite plain_path by done; cbn.
  - rewrite Hother; [done|]. intros name _ [? _]%app_inj_tail. done.
  - rewrite Hcopied; [done|]. eapply json_entry; [done| |by apply extension_json].
    unfold FileSystem.is_file. by rewrite Hf1.
Qed.

Lemma copy_onto_itself p b s : FileSystem.file p s = Some b -> FileSystem.is_dir p s = false ->
  FileSystem.is_dir (removelast p) s = true -> FileSystem.copy p p s = (FileSystem.put_file p EmptyString s, Ok tt).
Proof. intros Hf Hd Hr. unfold FileSystem.copy, FileSystem.write. by rewrite Hf, FileSystem.path_eqb_refl, Hd, Hr. Qed.

Lemma copy_all_onto_itself dir names count s : FileSystem.is_dir dir s = true ->
  (forall x, x ∈ names -> FileSystem.is_file (dir ++ [x]) s = true /\ FileSystem.is_dir (dir ++ [x]) s = false) ->
  exists s', copy_all dir dir names count s = (s', Ok (count + length names)) /\
    (forall x, x ∈ names -> FileSystem.file (dir ++ [x]) s' = Some EmptyString) /\
    (forall p, FileSystem.file p s = Some EmptyString -> FileSystem.file p s' = Some EmptyString).
Proof.
  intros Hdir. revert count s Hdir. induction names as [|x names IH]; intros count s Hdir H.
  - exists s. cbn. rewrite Nat.add_0_r. split; [done|]. split; [|done]. intros ? []%not_elem_of_nil.
  - destruct (H x) as [Hf Hd]; [by left|]. unfold FileSystem.is_file in Hf.
    destruct (FileSystem.file (dir ++ [x]) s) as [b|] eqn:Eb; [|done].
    set (s1 := FileSystem.put_file (dir ++ [x]) EmptyString s).
    destruct (IH (count + 1) s1) as (s' & Hs' & Hempty & Hstay).
    + done.
    + intros y Hy. destruct (H y) as [Hy1 Hy2]; [by right|]. split; [|done].
      by apply (FileSystem.grown_put (dir ++ [x]) EmptyString s).
    + exists s'. split; [|split].
      * cbn [copy_all]. unfold mbind, stm_bind, on_disk. rewrite (copy_onto_itself _ b) by (rewrite ?removelast_last; done).
        cbn [map_err]. fold s1. rewrite Hs'. cbn [length]. do 2 f_equal. lia.
      * intros y [->|Hy]%elem_of_cons; [|by apply Hempty]. apply Hstay, FileSystem.file_put_eq.
      * intros p Hp. apply Hstay. unfold s1. rewrite FileSystem.file_put. by destruct (FileSystem.path_eqb p _).
Qed.

(** C31. A backup into the registry's own directory succeeds, reports every template,
    and leaves each of their files empty. *)
Theorem backup_onto_itself_empties (self : t) (s : FileSystem.t) (names : list string)
    (Hopen : FileSystem.create_dir_all (templates_dir self) s = (s, Ok tt))
    (Hnames : json_entries (templates_dir self) s = Ok names)
    (Hfiles : forall x, x ∈ names ->
      FileSystem.is_file (templates_dir self ++ [x]) s = true /\ FileSystem.is_dir (templates_dir self ++ [x]) s = false) :
  exists s', backup (templates_dir self) self s = (s', Ok (length names)) /\
    forall x, x ∈ names -> FileSystem.file (templates_dir self ++ [x]) s' = Some EmptyString.
Proof.
  pose proof (FileSystem.create_dir_all_ok _ _ _ Hopen) as (_ & _ & Hdir & _).
  destruct (copy_all_onto_itself (templates_dir self) names 0 s Hdir Hfiles) as (s' & Hs' & Hempty & _).
  exists s'. split; [|done]. unfold backup, mbind, stm_bind, on_disk. rewrite Hopen. cbn. by rewrite Hnames.
Qed.

End Files.

Section InStorage.

Context `{TC : TemplateCalls} `{TL : !TemplateCallsLaws} {S : Type} `{TS : !TemplateRegistry.TextStore S}.
Context `{TSL : !TemplateRegistry.TextStoreLaws S}.

Lemma write_file_storage i value (self : TemplateRegistry.t (S := S)) :
  TemplateRegistry.storage (TemplateRegistry.write_file i value self).1 = TemplateRegistry.storage self.
Proof.
  unfold TemplateRegistry.write_file, TemplateRegistry.ensure_templates_dir, TemplateRegistry.in_files, mbind, stm_bind.
  destruct (TemplateRegistry.templates_path self) as [path|]; [|done].
  destruct (negb _).
  - destruct (FileSystem.create_dir_all _ _) as [f1 [[]|e|msg|]]; cbn; [|done..]. by destruct (FileSystem.write _ _ _).
  - by destruct (FileSystem.write _ _ _).
Qed.

(** The storage registry keeps the definition as it is given: the version that
    is replaced does not enter its history. *)
Theorem storage_update_drops_history (i : string) (d : Template.t) (auth : option AuthContext.t)
    (self self' : TemplateRegistry.t (S := S)) (Hn : Forall short_decimal (Template.numbers d))
    (Hup : TemplateRegistry.update_template i d auth self = (self', Ok tt)) :
  TemplateRegistry.get_template i auth self' = Ok d.
Proof.
  unfold TemplateRegistry.update_template in Hup. unfold mbind, stm_bind, lift, format_error in Hup.
  destruct (TemplateRegistry.get_template i auth self) as [t0| | |]; [|done..].
  destruct (template_to_string d) as [value| | |] eqn:Ev; cbn [map_err] in Hup; [|done..].
  unfold TemplateRegistry.in_storage in Hup.
  destruct (TemplateRegistry.store_string _ _ _ _ _) as [s1 [[]|e|msg|]] eqn:Es; cbn [map_err] in Hup; [|done..].
  pose proof (f_equal (fun r => TemplateRegistry.storage r.1) Hup) as Hs. cbv beta in Hs. rewrite write_file_storage in Hs. cbn [TemplateRegistry.storage fst] in Hs. subst s1.
  unfold TemplateRegistry.get_template. rewrite (TemplateRegistry.loads_what_was_stored _ _ _ _ _ _ Es). cbn.
  by rewrite (template_read_back d value Hn Ev).
Qed.

End InStorage.

End TemplateTheorems.

(** ** Concrete registries *)
Module TemplateExamples.

Import FileBackedTemplateRegistry TemplateTheorems.

#[local] Instance template_version_eq_dec : EqDecision TemplateVersion.
Proof. solve_decision. Defined.
#[local] Instance param_type_eq_dec : EqDecision ParameterType.
Proof. solve_decision. Defined.
#[local] Instance parameter_eq_dec : EqDecision ParameterDefinition.
Proof. solve_decision. Defined.
#[local] Instance method_eq_dec : EqDecision VotingMethod.
Proof. solve_decision. Defined.
#[local] Instance voting_eq_dec : EqDecision VotingConfig.
Proof. solve_decision. Defined.
#[local] Instance eligibility_eq_dec : EqDecision EligibilityConfig.
Proof. solve_decision. Defined.
#[local] Instance execution_eq_dec : EqDecision ExecutionConfig.
Proof. solve_decision. Defined.
#[local] Instance template_eq_dec : EqDecision Template.t.
Proof. solve_decision. Defined.

Definition signer (did : string) : Identity.t :=
  {| Identity.did := did; Identity.public_key_bytes := EmptyString; Identity.private_key_bytes := None;
     Identity.public_key_multibase := EmptyString;
     Identity.profile := {| public_username := did; full_name := None; other_fields := ∅ |};
     Identity.identity_type := "member" |}.

(** The template of the tests, before it is stored, and after. *)
Definition draft : Template.t :=
  {| Template.id := "budget"; Template.name := "Test Template";
     Template.current := {| version := "1.0"; author := "nobody"; created_at := 0; description := "Test version" |};
     Template.previous_versions := []; Template.parameters := ∅;
     Template.voting := {| quorum := f64_of_Z 1; threshold := f64_of_Z 1; method := SimpleMajority;
                           deliberation_period := 86400; voting_period := 604800 |};
     Template.eligibility := {| required_role := None; minimum_reputation := None; custom_logic := None |};
     Template.execution := {| on_approve := ["emit approved"]; on_reject := None; execution_delay := None |} |}.

Definition stored (d : Template.t) (current : TemplateVersion) (previous : list TemplateVersion) : Template.t :=
  Template.with_versions current previous d.
Definition v10 : TemplateVersion :=
  {| version := "1.0"; author := "alice"; created_at := 5; description := "Initial version of Budget" |}.
Definition v12 : TemplateVersion :=
  {| version := "1.2"; author := "bob"; created_at := 6; description := "Updated version of Budget" |}.
Definition v13 : TemplateVersion :=
  {| version := "1.3"; author := "carol"; created_at := 7; description := "Updated version of Test Template" |}.
Definition first_stored : Template.t := stored (Template.with_name "Budget" draft) v10 [].
Definition second_stored : Template.t := stored draft v12 [v10].
Definition third_stored : Template.t := stored draft v13 [v10; v12].

Definition table : list Template.t := [draft; first_stored; second_stored; third_stored].

Lemma utf8_valid_unary n : utf8_valid (unary n) = true.
Proof. by induction n. Qed.

(** Templates of the table, and any whose quorum or threshold is not finite. *)
Definition finite_settings (d : Template.t) : bool :=
  f64_is_finite (quorum (Template.voting d)) && f64_is_finite (threshold (Template.voting d)).
Definition sample_to_string (d : Template.t) : res string string :=
  if finite_settings d then table_to_vec table d else Ok "null".

#[local] Instance sample_calls : TemplateCalls :=
  {| template_to_string := sample_to_string; template_to_string_pretty := sample_to_string;
     template_from_str := table_from_slice table; identity_id := Identity.did;
     template_io_display := fun _ => "error"; entry_order := fun l => l |}.

Lemma sample_read_back d text : finite_settings d = true ->
  sample_to_string d = Ok text -> table_from_slice table text = Ok d.
Proof. unfold sample_to_string. intros ->. apply table_round_trip. Qed.

Lemma short_finite d : Forall short_decimal (Template.numbers d) -> finite_settings d = true.
Proof.
  intros H. unfold Template.numbers in H. apply Forall_cons in H as [[Hq _] H]. apply Forall_cons in H as [[Ht _] _].
  unfold finite_settings. by rewrite Hq, Ht.
Qed.

#[local] Instance sample_laws : TemplateCallsLaws.
Proof.
  split; cbn -[sample_to_string table_from_slice].
  - intros d text Hn%short_finite. by apply sample_read_back.
  - intros d text Hn%short_finite. by apply sample_read_back.
  - intros d text d' H Hd'. destruct (finite_settings d) eqn:Hf.
    + rewrite (sample_read_back d text Hf H) in Hd'. by injection Hd' as <-.
    + unfold sample_to_string in H. rewrite Hf in H. by injection H as <-.
  - intros d text H Hf. unfold sample_to_string in H. fold (finite_settings d) in Hf. rewrite Hf in H.
    injection H as <-. by eexists.
  - intros d text. unfold sample_to_string. destruct (finite_settings d); [|by intros [= <-]].
    unfold table_to_vec. destruct (list_find _ _) as [[i ?]|]; [|done]. intros [= <-].
    unfold from_utf8. by rewrite utf8_valid_unary.
  - done.
Qed.

Lemma draft_numbers : Forall short_decimal (Template.numbers draft).
Proof. repeat constructor; exists false, 1%N, 0%N; repeat split; by vm_compute. Qed.

(** An update that makes the quorum NaN. *)
Definition without_quorum : Template.t :=
  {| Template.id := Template.id draft; Template.name := Template.name draft; Template.current := Template.current draft;
     Template.previous_versions := []; Template.parameters := ∅;
     Template.voting := {| quorum := SpecFloat.S754_nan; threshold := f64_of_Z 1; method := SimpleMajority;
                           deliberation_period := 86400; voting_period := 604800 |};
     Template.eligibility := Template.eligibility draft; Template.execution := Template.execution draft |}.

Definition registry : t := {| templates_dir := ["templates"] |}.
Definition opened : FileSystem.t := Eval vm_compute in (new ["templates"] FileSystem.empty).1.
Definition with_first : FileSystem.t :=
  Eval vm_compute in (create_template "u" 5 "Budget" draft (signer "alice") registry opened).1.
Definition edits : list (N * Template.t * Identity.t) := [(6%N, draft, signer "bob"); (7%N, draft, signer "carol")].
Definition with_third : FileSystem.t := Eval vm_compute in (updates "budget" edits registry with_first).1.

Lemma create_then_get_witness : get_template "budget" registry with_first = Ok first_stored.
Proof.
  destruct (create_then_get "u" 5 "Budget" draft (signer "alice") registry opened with_first "budget") as (_ & H & _).
  - exact draft_numbers.
  - vm_compute. reflexivity.
  - exact H.
Defined.

(** The versions are 1.0, 1.2 and 1.3. *)
Lemma updates_extend_history_witness :
  get_template "budget" registry with_third = Ok third_stored /\
  version <$> drop 1 (Template.history third_stored) = ["1.2"; "1.3"].
Proof.
  assert (Hread : get_template "budget" registry with_third = Ok third_stored) by (vm_compute; reflexivity).
  destruct (updates_extend_history "budget" edits registry with_first with_third first_stored third_stored)
    as (_ & Hv & _).
  - vm_compute. reflexivity.
  - vm_compute. reflexivity.
  - exact Hread.
  - split; [exact Hread|]. exact Hv.
Defined.

Lemma non_finite_update_is_the_last_witness :
  let s' := (update_template "budget" 8 without_quorum (signer "dave") registry with_third).1 in
  exists e, get_template "budget" registry s' = Err (TemplateError.InvalidFormat e).
Proof.
  intros s'.
  destruct (non_finite_update_is_the_last "budget" 8 without_quorum (signer "dave") registry with_third s')
    as (e & He & _).
  - vm_compute. reflexivity.
  - reflexivity.
  - by exists e.
Defined.

Lemma delete_then_gone_witness :
  get_template "budget" registry (delete_template "budget" registry with_third).1 = Err (TemplateError.TemplateNotFound "budget").
Proof. refine (proj1 (delete_then_gone "budget" registry with_third _ _)). vm_compute. reflexivity. Defined.

Definition backed_up : FileSystem.t := Eval vm_compute in (backup ["backup"] registry with_third).1.

Lemma backup_elsewhere_keeps_templates_witness : get_template "budget" {| templates_dir := ["backup"] |} backed_up = Ok third_stored.
Proof.
  apply (backup_elsewhere_keeps_templates ["backup"] registry with_third backed_up 1).
  - discriminate.
  - vm_compute. reflexivity.
  - reflexivity.
  - discriminate.
  - vm_compute. reflexivity.
Defined.

Lemma backup_onto_itself_empties_witness : exists s', backup ["templates"] registry with_third = (s', Ok 1) /\
  FileSystem.file ["templates"; "budget.json"] s' = Some EmptyString.
Proof.
  destruct (backup_onto_itself_empties registry with_third ["budget.json"]) as (s' & Hb & He).
  - vm_compute. reflexivity.
  - vm_compute. reflexivity.
  - intros x ->%list_elem_of_singleton. by vm_compute.
  - exists s'. split; [exact Hb|]. apply (He "budget.json"). by left.
Defined.

(** A storage that is a map. *)
#[local] Instance map_store : TemplateRegistry.TextStore (gmap string string) :=
  {| TemplateRegistry.store_string := fun key text _ _ s => (<[key := text]> s, Ok tt);
     TemplateRegistry.load_string := fun key _ _ s =>
       match s !! key with Some text => Ok text | None => Err (StorageError.NotFound key) end;
     TemplateRegistry.keys_with_prefix := fun p _ _ s =>
       Ok (filter (fun k => str_starts_with p k) (map_to_list s).*1);
     TemplateRegistry.delete_key := fun key _ _ s => (delete key s, Ok tt) |}.
#[local] Instance map_store_laws : TemplateRegistry.TextStoreLaws (gmap string string).
Proof. split. intros key text auth ns s s' [= <-]. cbn. by rewrite lookup_insert_eq. Qed.

(** Version 1.2 is current, and the history does not know of 1.0. *)
Definition in_map : TemplateRegistry.t (S := gmap string string) :=
  TemplateRegistry.new {["templates:budget" := unary 2]} FileSystem.empty.
Lemma storage_update_drops_history_witness :
  TemplateRegistry.get_template "budget" None (TemplateRegistry.update_template "budget" draft None in_map).1 = Ok draft.
Proof.
  apply (storage_update_drops_history "budget" draft None in_map); [exact draft_numbers|]. vm_compute. reflexivity.
Defined.

End TemplateExamples.
