(* ===== verification/TemplateCommands.v ===== *)
(** * The governance commands: cli/governance.rs and cli/governance_template.rs

    A command reads and changes the disk and returns what is shown, an [Output];
    an early [return] is the [Err] of the outcome.  Most commands of
    cli/governance.rs only announce what they would do.  The source does not
    hold cli/helpers ([Output], [load_identity_from_file]): its functions are
    parameters, with colours, dates, JSON values and the [Display] of a path.
    The commands hand a reference to the registry where it takes a template:
    it is read as a copy. *)
From S2P Require Import Prelude Float64 Text Ops Auth FileSystem Trace Machine Templates.

Class OutputCalls (O : Type) : Type := {
  output_error : string -> O;
  output_warning : string -> O;
  output_success : string -> O;
  output_info : string -> O;
  load_identity_from_file : FileSystem.path -> FileSystem.t -> res string Identity.t;
  bold : string -> string;
  rfc2822 : Z -> option string;
  path_display : FileSystem.path -> string;
  JsonValue : Type;
  value_from_str : string -> res string JsonValue;
  value_to_string_pretty : JsonValue -> res string string;
}.

Inductive TemplateSubcommand : Type :=
  | TList (verbose : bool)
  | TView (id : string) (verbose history : bool)
  | TCreate (name : string) (file identity : FileSystem.path)
  | TEdit (id : string) (file identity : FileSystem.path)
  | TApply (id : string) (params identity : FileSystem.path).

Inductive ProposalSubcommand : Type :=
  | PCreate (title description : string) (program : FileSystem.path) (template : option string)
      (identity : FileSystem.path) (quorum : string) (threshold : N) (weighting : string) (expires_in : option N)
      (auto_execute : bool)
  | PSubmit (file identity : FileSystem.path) (title description : option string)
  | PList (status : string) (verbose : bool) (sort : string) (limit : option N)
  | PView (id : string) (verbose votes : bool)
  | PExecute (id : string) (identity : FileSystem.path) (force : bool).

Inductive GovernanceSubcommand : Type :=
  | GProposal (command : ProposalSubcommand)
  | GTemplate (command : TemplateSubcommand)
  | GVote (id choice : string) (identity : FileSystem.path) (comment : option string) (weight : option f64).

(** The derived [Debug] texts. *)
Definition param_type_debug (t : ParameterType) : string :=
  match t with
  | PString => "String" | PNumber => "Number" | PBoolean => "Boolean" | PIdentity => "Identity" | PResource => "Resource"
  end.
Definition method_debug (m : VotingMethod) : string :=
  match m with
  | SimpleMajority => "SimpleMajority" | ReputationWeighted => "ReputationWeighted" | RankedChoice => "RankedChoice"
  end.

Definition nl : string := String newline EmptyString.

Module TemplateCommands.

Import FileBackedTemplateRegistry.

Section Commands.

Context `{TC : TemplateCalls} `{RD : Renderings} {O : Type} `{OC : !OutputCalls O}.

Abbreviation M := (stm FileSystem.t O).

(** [match ... { Ok(v) => v, Err(err) => return Output::error(what + err) }]. *)
Definition or_return {E A} (what : string) (show : E -> string) (m : stm FileSystem.t E A) : M A := fun fs =>
  let '(fs', r) := m fs in (fs', map_err (fun e => output_error (what +:+ ": " +:+ show e)) r).
Definition or_fail {E A} (what : string) (show : E -> string) (r : FileSystem.t -> res E A) : M A :=
  or_return what show (fun fs => (fs, r fs)).
Definition open_registry (templates_dir : FileSystem.path) : M FileBackedTemplateRegistry.t :=
  or_return "Failed to initialize template registry" TemplateError.to_string (new templates_dir).

(** The entries of [parameters], in the order of the map. *)
Definition params_in_order (template : Template.t) : list (string * ParameterDefinition) :=
  omap (fun k => pair k <$> Template.parameters template !! k) (key_order (map_to_list (Template.parameters template)).*1).
Definition count_of {A} (m : gmap string A) : string := u64_to_string (N.of_nat (size m)).
Definition concat_map {A} (f : A -> string) (l : list A) : string := join EmptyString (f <$> l).

Definition listed_param (p : string * ParameterDefinition) : string :=
  "    " +:+ p.1 +:+ ": " +:+ param_type_debug (param_type p.2) +:+ " (" +:+
  (if required p.2 then "required" else "optional") +:+ ")" +:+ nl.
Definition listed (verbose : bool) (template : Template.t) : string :=
  bold (Template.id template) +:+ ": " +:+ Template.name template +:+ nl +:+
  "  Version: " +:+ version (Template.current template) +:+ nl +:+
  "  Author: " +:+ author (Template.current template) +:+ nl +:+
  (if verbose then
     "  Voting method: " +:+ method_debug (method (Template.voting template)) +:+ nl +:+
     "  Quorum: " +:+ f64_to_string (quorum (Template.voting template)) +:+ nl +:+
     "  Threshold: " +:+ f64_to_string (threshold (Template.voting template)) +:+ nl +:+
     "  Parameters: " +:+ count_of (Template.parameters template) +:+ nl +:+
     concat_map listed_param (params_in_order template)
   else EmptyString) +:+ nl.

Definition list_templates (templates_dir : FileSystem.path) (verbose : bool) : M O :=
  registry ← open_registry templates_dir;
  templates ← or_fail "Failed to list templates" TemplateError.to_string
                (FileBackedTemplateRegistry.list_templates registry);
  match templates with
  | [] => throw (output_warning "No templates found.")
  | _ =>
      mret (output_success (u64_to_string (N.of_nat (length templates)) +:+ " available templates:" +:+ nl +:+ nl +:+
                            concat_map (listed verbose) templates))
  end.

Definition date_of (created_at : N) : string := default "Unknown" (rfc2822 (i64_of_u64 created_at)).
Definition numbered (l : list string) : string :=
  join EmptyString (imap (fun i op => "    " +:+ u64_to_string (N.of_nat (i + 1)) +:+ ": " +:+ op +:+ nl) l).

Definition viewed_param (verbose : bool) (p : string * ParameterDefinition) : string :=
  "  " +:+ p.1 +:+ ": " +:+ param_type_debug (param_type p.2) +:+ " " +:+
  (if required p.2 then "(required)" else "(optional)") +:+ nl +:+
  (if verbose then
     "    Description: " +:+ pd_description p.2 +:+ nl +:+
     match default_value p.2 with Some d => "    Default: " +:+ d +:+ nl | None => EmptyString end
   else EmptyString).
Definition viewed_execution (template : Template.t) : string :=
  nl +:+ "Execution Logic:" +:+ nl +:+ "  On Approve:" +:+ nl +:+ numbered (on_approve (Template.execution template)) +:+
  match on_reject (Template.execution template) with
  | Some ops => "  On Reject:" +:+ nl +:+ numbered ops
  | None => EmptyString
  end +:+
  match execution_delay (Template.execution template) with
  | Some delay => "  Execution delay: " +:+ u64_to_string (delay / 3600) +:+ " hours" +:+ nl
  | None => EmptyString
  end.
Definition viewed_version (last : nat) (i : nat) (v : TemplateVersion) : string :=
  "  Version " +:+ version v +:+ ":" +:+ nl +:+
  "    Author: " +:+ author v +:+ nl +:+
  "    Date: " +:+ date_of (created_at v) +:+ nl +:+
  "    Description: " +:+ description v +:+ nl +:+
  (if (i <? last)%nat then nl else EmptyString).
Definition viewed (verbose history : bool) (template : Template.t) : string :=
  let voting := Template.voting template in
  let eligibility := Template.eligibility template in
  let previous := Template.previous_versions template in
  "Template: " +:+ bold (Template.name template) +:+ " (" +:+ Template.id template +:+ ")" +:+ nl +:+ nl +:+
  "Version: " +:+ version (Template.current template) +:+ nl +:+
  "Author: " +:+ author (Template.current template) +:+ nl +:+
  "Created: " +:+ date_of (created_at (Template.current template)) +:+ nl +:+
  nl +:+ "Voting Configuration:" +:+ nl +:+
  "  Method: " +:+ method_debug (method voting) +:+ nl +:+
  "  Quorum: " +:+ f64_to_string (quorum voting) +:+ nl +:+
  "  Threshold: " +:+ f64_to_string (threshold voting) +:+ nl +:+
  "  Deliberation: " +:+ u64_to_string (deliberation_period voting / 86400) +:+ " days" +:+ nl +:+
  "  Voting period: " +:+ u64_to_string (voting_period voting / 86400) +:+ " days" +:+ nl +:+
  nl +:+ "Eligibility Requirements:" +:+ nl +:+
  "  Required role: " +:+ default "None" (required_role eligibility) +:+ nl +:+
  "  Minimum reputation: " +:+ default "None" (f64_to_string <$> minimum_reputation eligibility) +:+ nl +:+
  nl +:+ "Parameters (" +:+ count_of (Template.parameters template) +:+ "):" +:+ nl +:+
  concat_map (viewed_param verbose) (params_in_order template) +:+
  (if verbose then viewed_execution template else EmptyString) +:+
  (if history && negb (bool_decide (previous = [])) then
     nl +:+ "Version History:" +:+ nl +:+ join EmptyString (imap (viewed_version (length previous - 1)) previous)
   else EmptyString).

Definition view_template (templates_dir : FileSystem.path) (id : string) (verbose history : bool) : M O :=
  registry ← open_registry templates_dir;
  template ← or_fail "Failed to load template" TemplateError.to_string (get_template id registry);
  mret (output_success (viewed verbose history template)).

(** What creating and editing read first: who signs, and the template. *)
Definition read_inputs {A} (file identity_file : FileSystem.path) (unread unparsed : string)
    (parse : string -> res string A) : M (Identity.t * string * A) :=
  identity ← or_fail "Failed to load identity" id (load_identity_from_file identity_file);
  json ← or_fail unread template_io_display (FileSystem.read_to_string file);
  value ← or_fail unparsed id (fun _ => parse json);
  mret (identity, json, value).

Definition create_template (uuid : string) (now : N) (templates_dir : FileSystem.path) (name : string)
    (file identity_file : FileSystem.path) : M O :=
  '(identity, _, template) ← read_inputs file identity_file "Failed to read template file"
                               "Failed to parse template" template_from_str;
  registry ← open_registry templates_dir;
  id ← or_return "Failed to create template" TemplateError.to_string
         (FileBackedTemplateRegistry.create_template uuid now name template identity registry);
  mret (output_success ("Template '" +:+ name +:+ "' created with ID: " +:+ id)).

Definition edit_template (now : N) (templates_dir : FileSystem.path) (id : string) (file identity_file : FileSystem.path) :
    M O :=
  '(identity, _, template) ← read_inputs file identity_file "Failed to read template file"
                               "Failed to parse template" template_from_str;
  registry ← open_registry templates_dir;
  _ ← or_return "Failed to update template" TemplateError.to_string
        (update_template id now template identity registry);
  mret (output_success ("Template '" +:+ id +:+ "' updated successfully")).

Definition apply_template (templates_dir : FileSystem.path) (id : string) (params_file identity_file : FileSystem.path) :
    M O :=
  '(_, params_json, params) ← read_inputs params_file identity_file "Failed to read parameters file"
                                "Failed to parse parameters" value_from_str;
  registry ← open_registry templates_dir;
  template ← or_fail "Failed to load template" TemplateError.to_string (get_template id registry);
  mret (output_success ("Template '" +:+ Template.name template +:+ "' would be applied with parameters:" +:+ nl +:+
    match value_to_string_pretty params with Ok text => text | _ => params_json end)).

Definition execute (uuid : string) (now : N) (cmd : TemplateSubcommand) (templates_dir : FileSystem.path) : M O :=
  match cmd with
  | TList verbose => list_templates templates_dir verbose
  | TView id verbose history => view_template templates_dir id verbose history
  | TCreate name file identity => create_template uuid now templates_dir name file identity
  | TEdit id file identity => edit_template now templates_dir id file identity
  | TApply id params identity => apply_template templates_dir id params identity
  end.

End Commands.

End TemplateCommands.

Module GovernanceCommands.

Section Commands.

Context `{TC : TemplateCalls} `{RD : Renderings} `{UC : Unicode} {O : Type} `{OC : !OutputCalls O}.

Definition execute_proposal (cmd : ProposalSubcommand) : O :=
  match cmd with
  | PCreate title _ _ _ _ quorum threshold weighting _ _ =>
      output_info ("Creating proposal '" +:+ title +:+ "' with quorum '" +:+ quorum +:+ "', threshold '" +:+
                   u64_to_string threshold +:+ "%', weighting '" +:+ weighting +:+ "'")
  | PSubmit file _ _ _ => output_info ("Submitting proposal from file: " +:+ path_display file)
  | PList status verbose sort limit =>
      output_info ("Listing " +:+ default "all" (u64_to_string <$> limit) +:+ " proposals with status '" +:+ status +:+
                   "', sorted by '" +:+ sort +:+ "'" +:+ (if verbose then " (verbose)" else EmptyString))
  | PView id verbose votes =>
      let detail_level :=
        match verbose, votes with
        | true, true => "detailed with vote distribution"
        | true, false => "detailed"
        | false, true => "vote distribution only"
        | false, false => "basic"
        end in
      output_info ("Viewing proposal ID: " +:+ id +:+ " (" +:+ detail_level +:+ ")")
  | PExecute id _ force =>
      output_info ("Executing proposal ID: " +:+ id +:+ (if force then " (forced)" else EmptyString))
  end.

Definition execute_vote (id choice : string) (comment : option string) (weight : option f64) : O :=
  let lower := to_lowercase choice in
  let vote_result :=
    if existsb (String.eqb lower) ["yes"; "y"] then Some "YES"
    else if existsb (String.eqb lower) ["no"; "n"] then Some "NO"
    else if existsb (String.eqb lower) ["abstain"; "a"] then Some "ABSTAIN"
    else None in
  match vote_result with
  | None => output_error ("Invalid vote choice: '" +:+ lower +:+ "'. Must be yes, no, or abstain")
  | Some vote =>
      let weight_str := match weight with Some w => " with weight " +:+ f64_to_string w | None => EmptyString end in
      let comment_str :=
        match comment with
        | Some c => " and comment: " +:+ String quote (c +:+ String quote EmptyString)
        | None => EmptyString
        end in
      output_info ("Casting vote '" +:+ vote +:+ "'" +:+ weight_str +:+ comment_str +:+ " on proposal ID: " +:+ id)
  end.

Definition execute (uuid : string) (now : N) (cmd : GovernanceSubcommand) (data_dir : FileSystem.path) :
    stm FileSystem.t O O :=
  match cmd with
  | GProposal command => mret (execute_proposal command)
  | GTemplate template_cmd =>
      TemplateCommands.execute uuid now template_cmd (FileSystem.join data_dir "templates")
  | GVote id choice _ comment weight => mret (execute_vote id choice comment weight)
  end.

End Commands.

End GovernanceCommands.

(** ** Commands that only read *)
Module CommandTheorems.

Import TemplateCommands.

(** Creating and editing a template are the commands that write. *)
Definition writes_a_template (cmd : GovernanceSubcommand) : bool :=
  match cmd with
  | GTemplate (TCreate _ _ _) | GTemplate (TEdit _ _ _) => true
  | _ => false
  end.

Section Theorems.

Context `{TC : TemplateCalls} `{RD : Renderings} `{UC : Unicode} {O : Type} `{OC : !OutputCalls O}.

Definition keeps_files {E A} (m : stm FileSystem.t E A) : Prop :=
  forall s, FileSystem.files (m s).1 = FileSystem.files s.

Lemma files_keeps_ret {E A} (a : A) : keeps_files (mret a : stm FileSystem.t E A).
Proof. done. Qed.
Lemma files_keeps_throw {E A} (e : E) : keeps_files (throw e : stm FileSystem.t E A).
Proof. done. Qed.
Lemma files_keeps_bind {E A B} (m : stm FileSystem.t E A) (k : A -> stm FileSystem.t E B) :
  keeps_files m -> (forall a, keeps_files (k a)) -> keeps_files (m ≫= k).
Proof.
  intros Hm Hk s. unfold mbind, stm_bind. specialize (Hm s). destruct (m s) as [s1 [a|e|msg|]]; try exact Hm.
  etransitivity; [apply Hk|exact Hm].
Qed.
Lemma keeps_return {E A} what (show : E -> string) (m : stm FileSystem.t E A) :
  keeps_files m -> keeps_files (or_return what show m).
Proof. intros Hm s. unfold or_return. specialize (Hm s). by destruct (m s). Qed.
Lemma keeps_fail {E A} what (show : E -> string) (r : FileSystem.t -> res E A) : keeps_files (or_fail what show r).
Proof. by apply keeps_return. Qed.
Lemma keeps_open dir : keeps_files (open_registry dir).
Proof.
  apply keeps_return. unfold FileBackedTemplateRegistry.new. apply files_keeps_bind; [|done].
  intros s. unfold on_disk, FileSystem.create_dir_all. destruct (FileSystem.is_file dir s); [done|].
  destruct (existsb _ _); [done|]. by destruct (FileSystem.is_dir dir s).
Qed.
#[local] Hint Resolve files_keeps_ret files_keeps_throw keeps_fail keeps_open : keeps.

Lemma keeps_inputs {A} file identity unread unparsed (parse : string -> res string A) :
  keeps_files (read_inputs file identity unread unparsed parse).
Proof. unfold read_inputs. repeat (apply files_keeps_bind; [auto with keeps|intros]). auto with keeps. Qed.
#[local] Hint Resolve keeps_inputs : keeps.

(** Only creating and editing a template change files. *)
Theorem reading_commands_keep_files (uuid : string) (now : N) (cmd : GovernanceSubcommand) (data_dir : FileSystem.path)
    (s : FileSystem.t) (Hcmd : writes_a_template cmd = false) :
  FileSystem.files (GovernanceCommands.execute uuid now cmd data_dir s).1 = FileSystem.files s.
Proof.
  revert s. change (keeps_files (GovernanceCommands.execute uuid now cmd data_dir)).
  destruct cmd as [c|c|id choice identity comment weight]; [apply files_keeps_ret| |apply files_keeps_ret].
  destruct c as [verbose|id verbose history|name file identity|id file identity|id params identity]; try done; cbn.
  - unfold list_templates. repeat (apply files_keeps_bind; [auto with keeps|intros]). destruct a0; auto with keeps.
  - unfold view_template. repeat (apply files_keeps_bind; [auto with keeps|intros]). auto with keeps.
  - unfold apply_template. apply files_keeps_bind; [auto with keeps|]. intros [[i json] v].
    repeat (apply files_keeps_bind; [auto with keeps|intros]). auto with keeps.
Qed.

End Theorems.

End CommandTheorems.

Module CommandExamples.

Import CommandTheorems.

#[local] Existing Instance TemplateExamples.sample_calls.
#[local] Existing Instance Machine.Samples.renderings.

#[local] Instance lower : Unicode.
Proof. refine {| to_lowercase := str_ascii_lower; utf8_error := fun _ => EmptyString |}. done. Defined.

(** An output is its text. *)
#[local] Instance texts : OutputCalls string :=
  {| output_error := fun s => "error: " +:+ s; output_warning := fun s => "warning: " +:+ s;
     output_success := id; output_info := id; load_identity_from_file := fun _ _ => Ok (TemplateExamples.signer "alice");
     bold := id; rfc2822 := fun _ => None; path_display := join "/"; JsonValue := string;
     value_from_str := Ok; value_to_string_pretty := Ok |}.

(** Applying a template says so, and makes no proposal. *)
Definition applying : GovernanceSubcommand := GTemplate (TApply "budget" ["templates"; "budget.json"] []).
Lemma reading_commands_keep_files_witness :
  GovernanceCommands.execute "u" 8 applying [] TemplateExamples.with_first =
    (TemplateExamples.with_first,
     Ok ("Template 'Budget' would be applied with parameters:" +:+ nl +:+ unary 1)) /\
  FileSystem.files (GovernanceCommands.execute "u" 8 applying [] TemplateExamples.with_first).1 =
    FileSystem.files TemplateExamples.with_first.
Proof. split; [vm_compute; reflexivity|]. apply reading_commands_keep_files. reflexivity. Defined.

Lemma voting_says_so :
  GovernanceCommands.execute "u" 8 (GVote "p1" "Y" [] None None) [] FileSystem.empty =
    (FileSystem.empty, Ok "Casting vote 'YES' on proposal ID: p1").
Proof. vm_compute. reflexivity. Qed.

End CommandExamples.
