(* ===== verification/Macros.v ===== *)
(** * The proposal macro: compiler/macros.rs and compiler/proposal_block.rs

    [proposal_block.rs] cuts the block of a [proposal_lifecycle] line into the
    part to execute, the part for a proposal that passed and the one for a
    proposal that failed.  [macros.rs] expands the lines between the braces into
    operations that store the proposal, its attachments and its logic, by
    writing commands of the language and parsing them.  The compiler keeps only
    the name of the macro ([Op.Macro]), and nothing calls either file.

    Key generation, the JSON of a proposal, the Unicode class of a character and
    the texts of I/O errors are parameters; the disk is an argument. *)
From S2P Require Import Prelude Float64 Text Values Ops Auth Storage FileSystem Trace Machine Parser Blocks Dsl Lifecycle.

(** ** proposal_block.rs *)
Module ProposalBlock.

Import CompilerError LineParser Blocks.

(** What the loops do at the current line. *)
Inductive place : Type := Ended | Blank | At (line : string).
Definition look (lines : list string) (current_indent : nat) (i : nat) : place :=
  match lines !! i with
  | None => Ended
  | Some line =>
      if is_blank line then Blank
      else if (Common.get_indent line <=? current_indent)%nat then Ended
      else At line
  end.

(** The inner loops: lines down to the next one that is dedented. *)
Fixpoint collect (n : nat) (lines : list string) (current_indent : nat) (acc : list string) : M (list string) :=
  match n with
  | O => lift OutOfFuel
  | S n =>
      i ← get_state;
      match look lines current_indent i with
      | Ended => mret acc
      | Blank => _ ← advance; collect n lines current_indent acc
      | At line => _ ← advance; collect n lines current_indent (acc ++ [line])
      end
  end.

Record blocks : Type := {
  execution_block : list string;
  passed_block : list string;
  failed_block : option (list string);
  found_if_passed : bool;
  found_else : bool;
}.
Definition no_blocks : blocks :=
  {| execution_block := []; passed_block := []; failed_block := None; found_if_passed := false; found_else := false |}.
Definition with_passed (l : list string) (b : blocks) : blocks :=
  {| execution_block := execution_block b; passed_block := l; failed_block := failed_block b;
     found_if_passed := true; found_else := found_else b |}.
Definition with_failed (l : list string) (b : blocks) : blocks :=
  {| execution_block := execution_block b; passed_block := passed_block b; failed_block := Some l;
     found_if_passed := found_if_passed b; found_else := true |}.
Definition with_line (line : string) (b : blocks) : blocks :=
  {| execution_block := execution_block b ++ [line]; passed_block := passed_block b; failed_block := failed_block b;
     found_if_passed := found_if_passed b; found_else := found_else b |}.

(** The outer loop; [fuel] bounds the inner ones. *)
Fixpoint main_loop (n fuel : nat) (lines : list string) (current_indent : nat) (pos : SourcePosition) (b : blocks) :
    M blocks :=
  match n with
  | O => lift OutOfFuel
  | S n =>
      i ← get_state;
      match look lines current_indent i with
      | Ended => mret b
      | Blank => _ ← advance; main_loop n fuel lines current_indent pos b
      | At line =>
          current_pos ← here pos (Common.get_indent line);
          if String.eqb (trim line) "if passed:" then
            if found_if_passed b then throw (at_pos DuplicateIfPassedBlock current_pos)
            else
              _ ← advance;
              if_passed_lines ← collect fuel lines current_indent [];
              main_loop n fuel lines current_indent pos (with_passed if_passed_lines b)
          else if String.eqb (trim line) "else:" then
            if found_else b then throw (at_pos DuplicateElseBlock current_pos)
            else if negb (found_if_passed b) then throw (at_pos ElseWithoutIfPassed current_pos)
            else
              _ ← advance;
              else_lines ← collect fuel lines current_indent [];
              main_loop n fuel lines current_indent pos (with_failed else_lines b)
          else
            _ ← advance;
            main_loop n fuel lines current_indent pos (with_line line b)
      end
  end.

Definition enough (lines : list string) : nat := length lines + 1.

Definition parse_proposal_block (lines : list string) (pos : SourcePosition) :
    M (list string * list string * option (list string)) :=
  line ← current lines;
  let current_indent := Common.get_indent line in
  _ ← advance;
  b ← main_loop (enough lines) (enough lines) lines current_indent pos no_blocks;
  mret (execution_block b, passed_block b, failed_block b).

(** What it amounts to: the body is cut at its first [if passed:] line. *)
Fixpoint body (indent : nat) (lines : list string) : list string :=
  match lines with
  | [] => []
  | line :: lines =>
      if is_blank line then body indent lines
      else if (Common.get_indent line <=? indent)%nat then []
      else line :: body indent lines
  end.
Fixpoint cut (l : list string) : option (list string * list string) :=
  match l with
  | [] => Some ([], [])
  | line :: l =>
      if String.eqb (trim line) "if passed:" then Some ([], l)
      else if String.eqb (trim line) "else:" then None
      else '(e, p) ← cut l; Some (line :: e, p)
  end.

End ProposalBlock.

(** ** macros.rs *)
Class MacroCalls `{Chrono} : Type := {
  new_identity : string -> res string Identity.t;
  proposal_to_string : ProposalLifecycle.t -> res string string;
  is_alphanumeric : string -> bool;
  macro_io_display : IoError -> string;
}.

Inductive BlockType : Type := Root | Execution.

(** [s.chars()]: each character with its bytes. *)
Fixpoint chars (s : string) : list string :=
  match s with
  | EmptyString => []
  | String c s =>
      match chars s with
      | String d p :: rest =>
          if utf8_cont d then String c (String d p) :: rest else String c EmptyString :: String d p :: rest
      | rest => String c EmptyString :: rest
      end
  end.

Module Macros.

Import CompilerError.

Section Macros.

Context `{CH : Chrono} `{RD : Renderings} `{MC : !MacroCalls}.

Abbreviation R := (res string).

Definition required {A} (e : string) (v : option A) : R A := match v with Some a => Ok a | None => Err e end.

(** What [parse_proposal_block] has read. *)
Record parts : Type := {
  properties : gmap string string;
  attachments : gmap string string;
  execution_dsl : string;
  current_block : BlockType;
  execution_block_lines : list string;
}.
Definition no_parts : parts :=
  {| properties := ∅; attachments := ∅; execution_dsl := EmptyString; current_block := Root;
     execution_block_lines := [] |}.
Definition with_property (key value : string) (p : parts) : parts :=
  {| properties := <[key := value]> (properties p); attachments := attachments p; execution_dsl := execution_dsl p;
     current_block := current_block p; execution_block_lines := execution_block_lines p |}.
Definition with_attachment (name path : string) (p : parts) : parts :=
  {| properties := properties p; attachments := <[name := path]> (attachments p); execution_dsl := execution_dsl p;
     current_block := current_block p; execution_block_lines := execution_block_lines p |}.
Definition opened (p : parts) : parts :=
  {| properties := properties p; attachments := attachments p; execution_dsl := execution_dsl p;
     current_block := Execution; execution_block_lines := execution_block_lines p |}.
Definition closed (p : parts) : parts :=
  {| properties := properties p; attachments := attachments p;
     execution_dsl := join Dsl.line_feed (execution_block_lines p);
     current_block := Root; execution_block_lines := [] |}.
Definition with_execution_line (line : string) (p : parts) : parts :=
  {| properties := properties p; attachments := attachments p; execution_dsl := execution_dsl p;
     current_block := current_block p; execution_block_lines := execution_block_lines p ++ [line] |}.

Definition property_names : list string := ["title"; "quorum"; "threshold"; "discussion_duration"; "expires_at"].

(** A line outside the execution block. *)
Definition root_line (trimmed : string) (p : parts) : R parts :=
  match split_once " " trimmed with
  | None => Err ("Invalid line in proposal block: " +:+ trimmed)
  | Some (key, rest) =>
      let value := trim_matches quote (trim rest) in
      if existsb (String.eqb key) property_names then Ok (with_property key value p)
      else if String.eqb key "attachment" then
        match split_once " " value with
        | None => Err ("Invalid attachment format: " +:+ trimmed)
        | Some (name, path) =>
            let name := trim_matches quote name in
            if String.eqb (str_ascii_lower name) "logic" then
              Err "Cannot use 'logic' as a name for file attachment; it's reserved for the execution block."
            else Ok (with_attachment name (trim_matches quote path) p)
        end
      else Err ("Unknown property in proposal block: " +:+ key)
  end.

Definition block_line (line : string) (p : parts) : R parts :=
  let trimmed := trim line in
  if is_empty trimmed || starts_with_char "#" trimmed then Ok p
  else if String.eqb trimmed "execution {" then
    match current_block p with
    | Root => Ok (opened p)
    | Execution => Err "Nested execution blocks are not allowed."
    end
  else if String.eqb trimmed "}" then
    match current_block p with
    | Execution => Ok (closed p)
    | Root => Err "Unexpected closing brace '}'."
    end
  else match current_block p with
       | Root => root_line trimmed p
       | Execution => Ok (with_execution_line trimmed p)
       end.

Fixpoint block_lines (lines : list string) (p : parts) : R parts :=
  match lines with
  | [] => Ok p
  | line :: lines => p ← block_line line p; block_lines lines p
  end.

Definition parse_proposal_block (lines : list string) : R (gmap string string * gmap string string * string) :=
  p ← block_lines lines no_parts;
  match current_block p with
  | Root => Ok (properties p, attachments p, execution_dsl p)
  | Execution => Err "Unclosed execution block."
  end.

(** [Duration::days] and the others panic when they overflow. *)
Definition duration_of (d : option Duration) : R Duration :=
  match d with Some d => Ok d | None => Panic "Duration out of bounds" end.
Definition parse_duration (duration_str : string) : R (option Duration) :=
  let duration_str := trim duration_str in
  let read unit (make : Z -> option Duration) :=
    match parse_i64 (trim_end_matches unit duration_str) with
    | Some n => d ← duration_of (make n); Ok (Some d)
    | None => Ok None
    end in
  if ends_with_char "d" duration_str then read "d"%char days
  else if ends_with_char "h" duration_str then read "h"%char hours
  else if ends_with_char "m" duration_str then read "m"%char minutes
  else Ok None.

(** A backslash before every backslash and every quote. *)
Definition backslash : ascii := ascii_of_nat 92.
Definition escaped (s : string) : string :=
  replace_char quote (String backslash (String quote EmptyString))
    (replace_char backslash (String backslash (String backslash EmptyString)) s).
Definition in_quotes (s : string) : string := String quote (s +:+ String quote EmptyString).

Definition sanitized (name : string) : string :=
  join EmptyString ((fun c => if is_alphanumeric c || String.eqb c "-" || String.eqb c "_" then c else "_") <$> chars name).

(** A command of the language, parsed. *)
Definition parsed_command (text : string) : R (list Op.t) :=
  '(ops, _) ← map_err CompilerError.to_string (Dsl.parse_dsl text); Ok ops.

Definition store_attachment (proposal_id name content : string) : R (list Op.t) :=
  parsed_command ("StoreP " +:+ in_quotes "governance" +:+ "/" +:+
    in_quotes ("proposals/" +:+ proposal_id +:+ "/attachments/" +:+ name) +:+ " " +:+ in_quotes (escaped content)).

Definition read_attachment (cwd : FileSystem.path) (fs : FileSystem.t) (path : string) : R string :=
  map_err (fun e => "Failed to read attachment file '" +:+ path +:+ "': " +:+ macro_io_display e)
    (FileSystem.read_to_string (FileSystem.join cwd path) fs).

Fixpoint store_attachments (cwd : FileSystem.path) (fs : FileSystem.t) (proposal_id : string)
    (files : list (string * string)) : R (list Op.t) :=
  match files with
  | [] => Ok []
  | (name, path) :: files =>
      content ← read_attachment cwd fs path;
      parse_ops ← store_attachment proposal_id (sanitized name) content;
      rest ← store_attachments cwd fs proposal_id files;
      Ok (parse_ops ++ [Op.Emit ("Stored attachment '" +:+ name +:+ "' from " +:+ path)] ++ rest)
  end.

Definition store_logic (proposal_id execution_dsl : string) : R (list Op.t) :=
  if is_empty execution_dsl then Ok []
  else
    parse_ops ← store_attachment proposal_id "logic" execution_dsl;
    Ok (parse_ops ++ [Op.EmitEvent "governance" ("Stored execution logic for proposal " +:+ proposal_id)]).

(** The proposal that the properties describe. *)
Definition proposal_of (now : DateTime) (proposal_id : string) (properties : gmap string string) :
    R ProposalLifecycle.t :=
  title ← required "Missing 'title' property" (properties !! "title");
  quorum_str ← required "Missing 'quorum' property" (properties !! "quorum");
  threshold_str ← required "Missing 'threshold' property" (properties !! "threshold");
  quorum ← required ("Invalid quorum value: " +:+ quorum_str) (parse_u64 quorum_str);
  threshold ← required ("Invalid threshold value: " +:+ threshold_str) (parse_u64 threshold_str);
  discussion_duration ← match properties !! "discussion_duration" with Some s => parse_duration s | None => Ok None end;
  creator ← map_err (fun e => "Failed to create identity: " +:+ e)
              (new_identity (default "macro_creator" (properties !! "author")));
  Ok (ProposalLifecycle.new_backwards_compatible now proposal_id creator title quorum threshold discussion_duration None).

Definition store_lifecycle (proposal_id : string) (proposal : ProposalLifecycle.t) : R (list Op.t) :=
  proposal_json ← map_err (fun e => "Failed to serialize proposal lifecycle: " +:+ e) (proposal_to_string proposal);
  parsed_command ("StoreP " +:+ in_quotes ("governance/proposals/" +:+ proposal_id +:+ "/lifecycle") +:+ " " +:+
    in_quotes (escaped proposal_json)).

(** [millis] and [now] are the two readings of the clock. *)
Definition expand_proposal_lifecycle (cwd : FileSystem.path) (fs : FileSystem.t) (millis : Z) (now : DateTime)
    (lines : list string) : R (list Op.t) :=
  '(properties, attachments, execution_dsl) ← parse_proposal_block lines;
  let proposal_id := i64_to_string millis in
  proposal ← proposal_of now proposal_id properties;
  lifecycle_ops ← store_lifecycle proposal_id proposal;
  attachment_ops ← store_attachments cwd fs proposal_id
    (omap (fun k => pair k <$> attachments !! k) (key_order (map_to_list attachments).*1));
  logic_ops ← store_logic proposal_id execution_dsl;
  Ok ([Op.Emit ("Creating proposal " +:+ proposal_id +:+ "...")] ++ lifecycle_ops ++ attachment_ops ++ logic_ops ++
      [Op.EmitEvent "governance"
         ("Proposal " +:+ proposal_id +:+ " ('" +:+ ProposalLifecycle.title proposal +:+ "') created.")]).

Definition macro_expand (cwd : FileSystem.path) (fs : FileSystem.t) (millis : Z) (now : DateTime) (macro_name : string)
    (lines : list string) : R (list Op.t) :=
  if String.eqb macro_name "proposal_lifecycle" then expand_proposal_lifecycle cwd fs millis now lines
  else Err ("Unknown macro: " +:+ macro_name).

End Macros.

End Macros.

Module ProposalLifecycleMacro.

Record t : Type := {
  proposal_id : string;
  quorum : f64;
  threshold : f64;
  execution_block : list string;
  title : string;
  created_by : string;
  created_at : f64;
  passed_block : list string;
  failed_block : option (list string);
}.

Definition indented (lines : list string) : list string := (fun line => "    " +:+ line) <$> lines.

(** The lines that [process] expands. *)
Definition source (self : t) : list string :=
  ["title " +:+ title self; "quorum " +:+ f64_to_string (quorum self);
   "threshold " +:+ f64_to_string (threshold self); "author " +:+ created_by self] ++
  execution_block self ++
  match passed_block self with [] => [] | lines => "if passed:" :: indented lines end ++
  match failed_block self with Some (line :: lines) => "else:" :: indented (line :: lines) | _ => [] end.

Definition process `{CH : Chrono} `{RD : Renderings} `{MC : !MacroCalls} (cwd : FileSystem.path) (fs : FileSystem.t)
    (millis : Z) (now : DateTime) (self : t) : res string (list Op.t) :=
  Macros.expand_proposal_lifecycle cwd fs millis now (source self).

End ProposalLifecycleMacro.

(** ** The cut of a block *)
Module ProposalBlockTheorems.

Import CompilerError LineParser Blocks ProposalBlock.

Lemma look_ended lines ind i : look lines ind i = Ended -> body ind (drop i lines) = [].
Proof.
  unfold look. destruct (lines !! i) as [line|] eqn:E; [|intros _; by rewrite drop_ge by (by apply lookup_ge_None)].
  rewrite (drop_S _ _ _ E). cbn. destruct (is_blank line); [done|]. by destruct (_ <=? _)%nat.
Qed.
Lemma look_blank lines ind i : look lines ind i = Blank ->
  body ind (drop i lines) = body ind (drop (S i) lines) /\ i < length lines.
Proof.
  unfold look. destruct (lines !! i) as [line|] eqn:E; [|done]. rewrite (drop_S _ _ _ E). cbn.
  destruct (is_blank line); [|by destruct (_ <=? _)%nat]. intros _. split; [done|by eapply lookup_lt_Some].
Qed.
Lemma look_at lines ind i line : look lines ind i = At line ->
  body ind (drop i lines) = line :: body ind (drop (S i) lines) /\ i < length lines.
Proof.
  unfold look. destruct (lines !! i) as [l|] eqn:E; [|done]. rewrite (drop_S _ _ _ E). cbn.
  destruct (is_blank l); [done|]. destruct (_ <=? _)%nat; [done|]. intros [= ->]. split; [done|by eapply lookup_lt_Some].
Qed.

Lemma collect_body n lines ind acc i : i <= length lines -> length lines < n + i ->
  exists j, collect n lines ind acc i = (j, Ok (acc ++ body ind (drop i lines))) /\ look lines ind j = Ended /\
    i <= j <= length lines.
Proof.
  revert acc i. induction n as [|n IH]; intros acc i Hi Hn; [exfalso; lia|].
  cbn [collect]. unfold mbind, stm_bind, get_state. destruct (look lines ind i) as [| |line] eqn:E.
  - exists i. rewrite (look_ended _ _ _ E), app_nil_r. split; [done|]. split; [done|lia].
  - destruct (look_blank _ _ _ E) as [-> Hlt]. unfold advance, modify.
    destruct (IH acc (S i)) as (j & Hj & He & Hl); [lia..|]. exists j. split; [done|]. split; [done|lia].
  - destruct (look_at _ _ _ _ E) as [-> Hlt]. unfold advance, modify.
    destruct (IH (acc ++ [line]) (S i)) as (j & Hj & He & Hl); [lia..|]. exists j. rewrite Hj, <- app_assoc.
    split; [done|]. split; [done|lia].
Qed.

Lemma main_loop_ended n fuel lines ind pos b j : j <= length lines -> length lines < n + j -> look lines ind j = Ended ->
  main_loop n fuel lines ind pos b j = (j, Ok b).
Proof.
  intros Hj Hn He. destruct n as [|n]; [exfalso; lia|]. cbn. unfold mbind, stm_bind, get_state. by rewrite He.
Qed.

(** What the loop returns while it has found nothing but lines to execute. *)
Definition outcome (before : list string) (rest : option (list string * list string)) (r : nat * res CompilerError.t blocks) :
    Prop :=
  match rest with
  | Some (e, p) => exists b, r.2 = Ok b /\ execution_block b = before ++ e /\ passed_block b = p /\ failed_block b = None
  | None => exists line column, r.2 = Err (ElseWithoutIfPassed line column)
  end.

Lemma main_loop_cuts n fuel lines ind pos b i : i <= length lines -> length lines < n + i -> length lines < fuel ->
  found_if_passed b = false -> found_else b = false -> failed_block b = None -> passed_block b = [] ->
  outcome (execution_block b) (cut (body ind (drop i lines))) (main_loop n fuel lines ind pos b i).
Proof.
  revert b i. induction n as [|n IH]; intros b i Hi Hn Hfuel Hp He Hf Hpb; [exfalso; lia|].
  cbn [main_loop]. unfold mbind, stm_bind, get_state. destruct (look lines ind i) as [| |line] eqn:E.
  - rewrite (look_ended _ _ _ E). cbn. exists b. by rewrite app_nil_r.
  - destruct (look_blank _ _ _ E) as [-> Hlt]. unfold advance, modify. apply IH; done || lia.
  - destruct (look_at _ _ _ _ E) as [-> Hlt]. cbn [cut here advance modify]. unfold here, advance, modify.
    destruct (String.eqb (trim line) "if passed:").
    + rewrite Hp. destruct (collect_body fuel lines ind [] (S i)) as (j & -> & Hj & Hle); [lia..|].
      rewrite main_loop_ended by (done || lia). cbn. eexists. split; [done|]. cbn. by rewrite app_nil_r.
    + destruct (String.eqb (trim line) "else:").
      * rewrite He, Hp. cbn. unfold throw. cbn. eauto.
      * specialize (IH (with_line line b) (S i)). destruct (cut (body ind (drop (S i) lines))) as [[e p]|]; cbn.
        -- destruct IH as (b' & -> & Hb & ? & ?); try done; try lia. exists b'. cbn in Hb. rewrite <- app_assoc in Hb. done.
        -- apply IH; done || lia.
Qed.

(** C22. Parsing the block of a proposal ends on every source, and cuts the body at its
    first [if passed:] line: all that follows, [else:] lines included, is the part
    for a proposal that passed, and there is never a part for one that failed.  An
    [else:] before it is an error. *)
Theorem proposal_block_outcome (lines : list string) (pos : SourcePosition) (i : nat) (line : string)
    (Hline : lines !! i = Some line) :
  match cut (body (Common.get_indent line) (drop (S i) lines)) with
  | Some (e, p) => (parse_proposal_block lines pos i).2 = Ok (e, p, None)
  | None => exists l c, (parse_proposal_block lines pos i).2 = Err (ElseWithoutIfPassed l c)
  end.
Proof.
  pose proof (lookup_lt_Some _ _ _ Hline) as Hlt. unfold parse_proposal_block, mbind, stm_bind, current, advance, modify.
  rewrite Hline. unfold enough.
  pose proof (main_loop_cuts (length lines + 1) (length lines + 1) lines (Common.get_indent line) pos no_blocks (S i)) as H.
  destruct (cut _) as [[e p]|]; cbn in H.
  - destruct H as (b & Hb & <- & <- & Hf); try done; try lia. destruct (main_loop _ _ _ _ _ _ _) as [j r].
    cbn in Hb. subst r. cbn. by rewrite Hf.
  - destruct H as (l & c & Hb); try done; try lia. exists l, c. destruct (main_loop _ _ _ _ _ _ _) as [j r].
    cbn in Hb. by subst r.
Qed.

End ProposalBlockTheorems.

(** ** The macro never expands *)
Module MacroTheorems.

Import CompilerError LineParser Blocks Macros.

Lemma first_line r : exists p rest, lines ("StoreP " +:+ r) = ("StoreP " +:+ p) :: rest.
Proof.
  unfold lines. destruct (split_char newline r) as [|p parts] eqn:E; [by apply FileSystem.split_char_nonempty in E|].
  assert (split_char newline ("StoreP " +:+ r) = ("StoreP " +:+ p) :: parts) as ->.
  { rewrite !str_app_cons. change (EmptyString +:+ ?x) with x. cbn [split_char]. by rewrite E. }
  destruct parts as [|q parts]; [by exists p, []|].
  exists (strip_last_char carriage_return p), (close_lines (q :: parts)). by destruct p.
Qed.

Lemma storep_not_blank p : is_blank ("StoreP " +:+ p) = false.
Proof. reflexivity. Qed.

Lemma trim_storep p : exists q, trim ("StoreP " +:+ p) = "StoreP" +:+ q.
Proof.
  unfold trim. change (trim_start ("StoreP " +:+ p)) with ("StoreP " +:+ p).
  exists (trim_end (" " +:+ p)). reflexivity.
Qed.

Lemma words_storep p : exists ws, split_whitespace ("StoreP " +:+ p) = "StoreP" :: ws.
Proof. exists (words 0 EmptyString p). reflexivity. Qed.

Section Expansion.

Context `{CH : Chrono} `{RD : Renderings} `{MC : !MacroCalls}.

Lemma storep_statement p pos i : statement ("StoreP " +:+ p) pos i = (i, Err (at_pos (UnknownCommand "StoreP") pos)).
Proof.
  unfold statement, parse_line. destruct (trim_storep p) as (q & ->). cbn [starts_with_char String.append].
  change (Ascii.eqb "S" "#") with false. cbn iota. destruct (words_storep p) as (ws & ->). reflexivity.
Qed.

Lemma storep_settings q pos : Dsl.settings ("StoreP" +:+ q) pos Dsl.start = None.
Proof. reflexivity. Qed.

Lemma storep_top fuel lines q pos i :
  Dsl.top_block fuel lines ("StoreP" +:+ q) pos i = (i, Err (at_pos (UnknownBlockType ("StoreP" +:+ q)) pos)).
Proof. reflexivity. Qed.

(** The language has [storep], but commands are case-sensitive. *)
Lemma storep_unknown r : exists e, Dsl.parse_dsl ("StoreP " +:+ r) = Err e.
Proof.
  unfold Dsl.parse_dsl. destruct (first_line r) as (p & rest & ->). unfold Dsl.parse_lines, Dsl.enough.
  set (ls := ("StoreP " +:+ p) :: rest). destruct (2 * length ls + 2) as [|n] eqn:En; [lia|].
  cbn [Dsl.main_loop]. unfold mbind, stm_bind, get_state.
  change (ls !! 0) with (Some ("StoreP " +:+ p)). unfold Dsl.line_step. rewrite storep_not_blank.
  destruct (trim_storep p) as (q & Ht). rewrite Ht. unfold mbind, stm_bind, here.
  rewrite storep_settings. destruct (ends_with_char ":" ("StoreP" +:+ q)).
  - rewrite storep_top. cbn. eauto.
  - rewrite storep_statement. cbn. eauto.
Qed.

Lemma parsed_storep r : exists e, parsed_command ("StoreP " +:+ r) = Err e.
Proof. unfold parsed_command. destruct (storep_unknown r) as (e & ->). cbn. eauto. Qed.

(** C32. No macro ever expands, whatever its lines, the disk and the clock: the text it
    generates starts with [StoreP], which the language does not know, so every
    expansion ends with an error (or a panic) and never with operations. *)
Theorem macro_never_expands (cwd : FileSystem.path) (fs : FileSystem.t) (millis : Z) (now : DateTime)
    (macro_name : string) (lines : list string) (ops : list Op.t) :
  macro_expand cwd fs millis now macro_name lines <> Ok ops.
Proof.
  unfold macro_expand. destruct (String.eqb macro_name _); [|done]. unfold expand_proposal_lifecycle.
  destruct (parse_proposal_block lines) as [[[ps atts] dsl]| | |]; cbn; [|done..].
  destruct (proposal_of _ _ _) as [proposal| | |]; cbn; [|done..]. unfold store_lifecycle.
  destruct (proposal_to_string proposal) as [json| | |]; cbn -[parsed_command]; [|done..].
  destruct (parsed_storep (in_quotes ("governance/proposals/" +:+ i64_to_string millis +:+ "/lifecycle") +:+ " " +:+
    in_quotes (escaped json))) as (e & He).
  by rewrite He.
Qed.

End Expansion.

End MacroTheorems.

Module MacroExamples.

Import Blocks ProposalBlock ProposalBlockTheorems.

#[local] Existing Instance ClockSamples.seconds.
#[local] Existing Instance Machine.Samples.renderings.

(** The block of the unit test [test_proposal_block_parsing]: the test expects
    two lines for a proposal that passed and one for one that failed. *)
Definition test_block : list string :=
  ["{"; "    emit Executing"; "    if passed:"; "        emit passed"; "        transfer 1000.0"; "    else:";
   "        emit failed"; "}"].

Lemma proposal_block_outcome_witness :
  (parse_proposal_block test_block {| pos_line := 1; pos_column := 1 |} 0).2 =
    Ok (["    emit Executing"],
        ["        emit passed"; "        transfer 1000.0"; "    else:"; "        emit failed"], None).
Proof. exact (proposal_block_outcome test_block {| pos_line := 1; pos_column := 1 |} 0 "{" eq_refl). Defined.

#[local] Instance sample_macro_calls : MacroCalls :=
  {| new_identity := fun name => Ok LifecycleExamples.sample_identity; proposal_to_string := fun _ => Ok "{}";
     is_alphanumeric := fun _ => true; macro_io_display := fun _ => "error" |}.

Definition macro_lines : list string :=
  ["title " +:+ Macros.in_quotes "Repair"; "quorum 50"; "threshold 60"; "execution {"; "emit done"; "}"].
Lemma macro_error :
  Macros.macro_expand [] FileSystem.empty 7 (0%Z : DateTime) "proposal_lifecycle" macro_lines =
    Err "Unknown command: StoreP at line 1, column 1".
Proof. vm_compute. reflexivity. Qed.

(** Processing a macro fails earlier: [author] is not a property. *)
Lemma process_error :
  ProposalLifecycleMacro.process [] FileSystem.empty 7 (0%Z : DateTime)
    {| ProposalLifecycleMacro.proposal_id := "p"; ProposalLifecycleMacro.quorum := f64_of_Z 1;
       ProposalLifecycleMacro.threshold := f64_of_Z 1; ProposalLifecycleMacro.execution_block := [];
       ProposalLifecycleMacro.title := "Repair"; ProposalLifecycleMacro.created_by := "alice";
       ProposalLifecycleMacro.created_at := f64_of_Z 0; ProposalLifecycleMacro.passed_block := [];
       ProposalLifecycleMacro.failed_block := None |} = Err "Unknown property in proposal block: author".
Proof. vm_compute. reflexivity. Qed.

End MacroExamples.
