(* ===== verification/Api.v ===== *)
(** * The HTTP interface: api/proposal_api.rs and api/mod.rs

    Three requests read a proposal, its comments, or a summary of both from the
    machine that the server holds behind a lock.  A handler answers every error
    with a reply that holds the error's text, so it never rejects a request; it
    can panic.  Routing and JSON belong to warp and serde: a request is a value
    of [Request], a reply one of [Reply]. *)
From S2P Require Import Prelude Float64 Text Values Ops Stack Memory Auth Storage InMemory Economic Executor.
From S2P Require Import Ledger Trace Machine Governance VM Lifecycle Comments Proposals Views.

Import ProposalCommands ProposalViews.

(** The derived [Debug] text. *)
Definition proposal_status_debug (s : ProposalStatus.t) : string :=
  match s with
  | ProposalStatus.Draft => "Draft" | ProposalStatus.Deliberation => "Deliberation"
  | ProposalStatus.Active => "Active" | ProposalStatus.Voting => "Voting"
  | ProposalStatus.Approved => "Approved" | ProposalStatus.Executed => "Executed"
  | ProposalStatus.Rejected => "Rejected" | ProposalStatus.Expired => "Expired"
  end.

Record VoteCounts : Type := { vc_yes : Z; vc_no : Z; vc_abstain : Z; vc_total : Z }.
Record ProposalResponse : Type := {
  pr_id : string; pr_title : string; pr_creator : string; pr_status : string; pr_created_at : string;
  pr_votes : VoteCounts; pr_quorum_percentage : f64; pr_threshold_percentage : f64;
  pr_execution_result : option string;
}.
Record CommentResponse : Type := {
  cr_id : string; cr_author : string; cr_timestamp : string; cr_content : string; cr_reply_to : option string;
  cr_tags : list string; cr_reactions : gmap string N; cr_hidden : bool; cr_edit_count : N;
}.
Record Participant : Type := { pa_id : string; pa_comment_count : N }.
Record ProposalSummary : Type := {
  ps_id : string; ps_title : string; ps_status : string; ps_comment_count : nat; ps_vote_count : Z;
  ps_vote_details : VoteCounts; ps_top_participants : list Participant; ps_last_activity : string;
}.

Inductive Reply : Type :=
  | RProposal (response : ProposalResponse)
  | RComments (responses : list CommentResponse)
  | RSummary (summary : ProposalSummary)
  | RError (message : string).

(** The routes, with the query of the second. *)
Inductive Request : Type :=
  | GetProposal (id : string)
  | GetComments (id : string) (show_hidden : option bool)
  | GetSummary (id : string).

(** Handlers do not reject. *)
Inductive Rejection : Type := .

Module Api.

Section Handlers.

Context {S : Type} `{SB : StorageBackend S} `{PL : Platform} `{RD : Renderings}.
Context `{CH : Chrono} `{UC : Unicode} `{PC : !ProposalCalls} `{CC : !CommentCodec}.

Abbreviation R := (res Rejection).

Definition failed (what : string) (e : BoxError) : Reply := RError ("Failed to load " +:+ what +:+ ": " +:+ box_string e).

(** [match r { Ok(a) => .., Err(e) => error reply }]. *)
Definition answer {A} (what : string) (r : res BoxError A) (k : A -> R Reply) : R Reply :=
  match r with
  | Ok a => k a
  | Err e => Ok (failed what e)
  | Panic m => Panic m
  | OutOfFuel => OutOfFuel
  end.
(** [r.unwrap_or(d)], and a computation that has no error of its own. *)
Definition unwrap_or {A} (r : res BoxError A) (d : A) : R A :=
  match r with
  | Ok a => Ok a
  | Err _ => Ok d
  | Panic m => Panic m
  | OutOfFuel => OutOfFuel
  end.

Definition counted (proposal_id : string) (vm : VM.t S) : R VoteCounts :=
  t ← unwrap_or (count_votes proposal_id vm) no_votes_yet;
  total ← unwrap_or (sum_votes t) 0%Z;
  Ok {| vc_yes := yes_votes t; vc_no := no_votes t; vc_abstain := abstain_votes t; vc_total := total |}.

Definition yes_percentage (v : VoteCounts) : f64 :=
  if (0 <? vc_total v)%Z then f64_mul (f64_div (f64_of_Z (vc_yes v)) (f64_of_Z (vc_total v))) (f64_of_Z 100)
  else f64_zero.

Definition get_proposal (id : string) (vm_lock : VM.t S) : R Reply :=
  answer "proposal" (load_proposal_from_governance id vm_lock) (fun proposal =>
    votes ← counted id vm_lock;
    Ok (RProposal
      {| pr_id := Proposal.id proposal; pr_title := EmptyString; pr_creator := Proposal.creator proposal;
         pr_status := proposal_status_debug (Proposal.status proposal);
         pr_created_at := rfc3339 (Proposal.created_at proposal); pr_votes := votes; pr_quorum_percentage := f64_zero;
         pr_threshold_percentage := yes_percentage votes;
         pr_execution_result := Proposal.execution_result proposal |})).

(** [edit_history.len() - 1] has no room below zero. *)
Definition comment_response (c : ProposalComment.t) : R CommentResponse :=
  edit_count ← u64_sub overflow_checks (N.of_nat (length (ProposalComment.edit_history c))) 1;
  Ok {| cr_id := ProposalComment.id c; cr_author := ProposalComment.author c;
        cr_timestamp := rfc3339 (ProposalComment.timestamp c); cr_content := ProposalComment.content c;
        cr_reply_to := ProposalComment.reply_to c; cr_tags := ProposalComment.tags c;
        cr_reactions := ProposalComment.reactions c; cr_hidden := ProposalComment.hidden c;
        cr_edit_count := edit_count |}.
Fixpoint comment_responses (l : list ProposalComment.t) : R (list CommentResponse) :=
  match l with
  | [] => Ok []
  | c :: l => r ← comment_response c; rs ← comment_responses l; Ok (r :: rs)
  end.

Definition get_proposal_comments (id : string) (show_hidden : option bool) (vm_lock : VM.t S) : R Reply :=
  answer "comments" (Comments.fetch_comments_threaded id None (default false show_hidden) vm_lock) (fun comments =>
    responses ← comment_responses (values comments); Ok (RComments responses)).

(** Authors with their comments, the busiest first; the sort is stable over the
    order of the map. *)
Definition busier (a b : string * N) : bool := (b.2 <? a.2)%N.
Definition participants (comments : list ProposalComment.t) : list (string * N) :=
  let participant_activity := author_counts comments in
  sort_by busier
    (omap (fun a => pair a <$> participant_activity !! a) (key_order (map_to_list participant_activity).*1)).
Definition top_participants (comments : list ProposalComment.t) : list Participant :=
  (fun p => {| pa_id := p.1; pa_comment_count := p.2 |}) <$> take 5 (participants comments).

Definition get_proposal_summary (id : string) (vm_lock : VM.t S) : R Reply :=
  let proposal_result := load_proposal_from_governance id vm_lock in
  let comments_result := Comments.fetch_comments_threaded id None false vm_lock in
  match proposal_result, comments_result with
  | Panic m, _ => Panic m
  | OutOfFuel, _ => OutOfFuel
  | _, Panic m => Panic m
  | _, OutOfFuel => OutOfFuel
  | Err e, _ => Ok (failed "proposal" e)
  | Ok _, Err e => Ok (failed "comments" e)
  | Ok proposal, Ok comments =>
      votes ← counted id vm_lock;
      Ok (RSummary
        {| ps_id := Proposal.id proposal; ps_title := EmptyString;
           ps_status := proposal_status_debug (Proposal.status proposal); ps_comment_count := size comments;
           ps_vote_count := vc_total votes; ps_vote_details := votes;
           ps_top_participants := top_participants (values comments);
           ps_last_activity := rfc3339 (last_activity (Proposal.created_at proposal) (values comments)) |})
  end.

Definition handle (request : Request) (vm : VM.t S) : R Reply :=
  match request with
  | GetProposal id => get_proposal id vm
  | GetComments id show_hidden => get_proposal_comments id show_hidden vm
  | GetSummary id => get_proposal_summary id vm
  end.

End Handlers.

End Api.

(** ** What the replies show *)
Module ApiTheorems.

Import Api.

Section Participants.

Context `{RD : Renderings} `{CH : Chrono}.

Definition comments_by (a : string) (l : list ProposalComment.t) : N :=
  N.of_nat (length (filter (fun c => ProposalComment.author c = a) l)).

Lemma comments_by_snoc a l c :
  comments_by a (l ++ [c]) = (comments_by a l + if decide (ProposalComment.author c = a) then 1 else 0)%N.
Proof.
  unfold comments_by. rewrite filter_app, length_app, Nat2N.inj_add. f_equal. rewrite filter_cons, filter_nil.
  by destruct (decide _).
Qed.

Lemma author_counts_snoc l c : author_counts (l ++ [c]) =
  <[ProposalComment.author c := (default 0 (author_counts l !! ProposalComment.author c) + 1)%N]> (author_counts l).
Proof. unfold author_counts. by rewrite foldl_app. Qed.

Lemma author_counts_spec l a :
  author_counts l !! a = if (comments_by a l =? 0)%N then None else Some (comments_by a l).
Proof.
  induction l as [|c l IH] using rev_ind; [done|]. rewrite author_counts_snoc, comments_by_snoc.
  destruct (decide (ProposalComment.author c = a)) as [Ha|Ha].
  - rewrite Ha, lookup_insert_eq, IH. destruct (N.eqb_spec (comments_by a l) 0) as [->|E]; [done|].
    cbn [default]. destruct (N.eqb_spec (comments_by a l + 1) 0); [lia|done].
  - by rewrite lookup_insert_ne, N.add_0_r.
Qed.

Context (Horder : forall l : list string, key_order l ≡ₚ l).

Lemma elem_of_participants l a n : (a, n) ∈ participants l <-> author_counts l !! a = Some n.
Proof.
  unfold participants. rewrite sort_by_perm, list_elem_of_omap. setoid_rewrite Horder. split.
  - intros (k & _ & H). destruct (author_counts l !! k) as [m|] eqn:E; [|done]. cbn in H. by injection H as <- <-.
  - intros H. exists a. rewrite H. split; [|done]. apply list_elem_of_fmap. exists (a, n).
    split; [done|]. by apply elem_of_map_to_list.
Qed.

Lemma participants_nodup l : NoDup (participants l).*1.
Proof.
  unfold participants. rewrite sort_by_perm.
  assert (forall ks, NoDup ks -> NoDup (omap (fun a => pair a <$> author_counts l !! a) ks).*1 /\
    forall a, a ∈ (omap (fun a => pair a <$> author_counts l !! a) ks).*1 -> a ∈ ks) as H.
  { induction ks as [|k ks IH]; [split; [constructor|done]|]. intros [Hk Hks]%NoDup_cons. destruct (IH Hks) as [Hn Hin].
    cbn. destruct (author_counts l !! k); cbn; [|split; [done|intros; right; auto]]. split.
    - constructor; [|done]. intros ?%Hin. done.
    - intros a [->|Ha]%elem_of_cons; [by left|right; auto]. }
  apply H. rewrite Horder. apply NoDup_fst_map_to_list.
Qed.

Lemma sorted_impl {A} (R R' : A -> A -> Prop) l :
  (forall x y, R x y -> R' x y) -> StronglySorted R l -> StronglySorted R' l.
Proof.
  intros H Hl. induction Hl as [|z l Hl IH Hz]; constructor; [done|]. eapply Forall_impl; [exact Hz|]. auto.
Qed.

Lemma participants_sorted l : StronglySorted (fun p q => (q.2 <= p.2)%N) (participants l).
Proof.
  assert (forall p q : string * N, busier q p = false <-> (q.2 <= p.2)%N) as H
    by (intros; unfold busier; rewrite N.ltb_ge; done).
  eapply sorted_impl; [intros p q; apply H|]. unfold participants. apply sort_by_sorted.
  - intros p q. unfold busier. rewrite N.ltb_lt, N.ltb_ge. lia.
  - intros p q r. rewrite !H. lia.
Qed.

Lemma sorted_split {A} (R : A -> A -> Prop) n l x y :
  StronglySorted R l -> x ∈ take n l -> y ∈ drop n l -> R x y.
Proof.
  intros Hl. revert n. induction Hl as [|z l Hl IH Hz]; intros n Hx Hy; [by destruct n; apply elem_of_nil in Hx|].
  destruct n as [|n]; [by apply elem_of_nil in Hx|]. cbn in *. apply elem_of_cons in Hx as [->|Hx]; [|by eapply IH].
  rewrite Forall_forall in Hz. apply Hz. rewrite <- (take_drop n l). apply elem_of_app. by right.
Qed.

Lemma sorted_take {A} (R : A -> A -> Prop) n l : StronglySorted R l -> StronglySorted R (take n l).
Proof.
  intros Hl. revert n. induction Hl as [|z l Hl IH Hz]; intros [|n]; cbn; try constructor; [apply IH|].
  rewrite Forall_forall in *. intros x Hx. apply Hz. rewrite <- (take_drop n l). apply elem_of_app. by left.
Qed.

Lemma sorted_fmap {A B} (f : A -> B) (R : B -> B -> Prop) l :
  StronglySorted (fun x y => R (f x) (f y)) l -> StronglySorted R (f <$> l).
Proof. intros Hl. induction Hl as [|z l Hl IH Hz]; cbn; constructor; [done|]. by rewrite Forall_fmap. Qed.

(** C39. The summary ranks the authors of a proposal's comments: at most five, each once,
    the busiest first, each with the number of their comments; an author is only
    left out when there are five that wrote at least as many. *)
Theorem top_participants_are_the_busiest (l : list ProposalComment.t) :
  let ps := top_participants l in
  length ps <= 5 /\ NoDup (pa_id <$> ps) /\
  StronglySorted (fun p q => (pa_comment_count q <= pa_comment_count p)%N) ps /\
  (forall p, p ∈ ps -> pa_comment_count p = comments_by (pa_id p) l) /\
  (forall c, c ∈ l -> ProposalComment.author c ∉ pa_id <$> ps ->
     length ps = 5 /\ forall p, p ∈ ps -> (comments_by (ProposalComment.author c) l <= pa_comment_count p)%N).
Proof.
  cbn zeta. unfold top_participants. set (f := fun p : string * N => _).
  assert (pa_id <$> (f <$> take 5 (participants l)) = (take 5 (participants l)).*1) as Hids
    by (rewrite <- list_fmap_compose; by apply list_fmap_ext).
  rewrite Hids. rewrite length_fmap, length_take. split; [lia|]. split; [|split; [|split]].
  - rewrite fmap_take. pose proof (participants_nodup l) as H. rewrite <- (take_drop 5 (participants l).*1) in H.
    by apply NoDup_app in H as (? & _ & _).
  - apply (sorted_fmap f). exact (sorted_take _ 5 _ (participants_sorted l)).
  - intros p ([a n] & -> & Hp)%list_elem_of_fmap. cbn.
    assert ((a, n) ∈ participants l) as Hin by (rewrite <- (take_drop 5 (participants l)); apply elem_of_app; by left).
    apply elem_of_participants in Hin. rewrite author_counts_spec in Hin. by destruct (_ =? 0)%N; [|injection Hin].
  - intros c Hc Ha. set (a := ProposalComment.author c) in *.
    assert (comments_by a l <> 0%N) as Hne.
    { unfold comments_by. assert (c ∈ filter (fun c => ProposalComment.author c = a) l) as H by (by apply list_elem_of_filter).
      destruct (filter _ l); [by apply elem_of_nil in H|]. cbn. lia. }
    assert ((a, comments_by a l) ∈ participants l) as Hin.
    { apply elem_of_participants. rewrite author_counts_spec. by destruct (N.eqb_spec (comments_by a l) 0). }
    rewrite <- (take_drop 5 (participants l)) in Hin. apply elem_of_app in Hin as [Hin|Hin].
    { exfalso. apply Ha, list_elem_of_fmap. by exists (a, comments_by a l). }
    split.
    + assert (length (drop 5 (participants l)) <> 0) as H by (by destruct (drop 5 _); [apply elem_of_nil in Hin|]).
      rewrite length_drop in H. lia.
    + intros p (q & -> & Hq)%list_elem_of_fmap. exact (sorted_split _ 5 _ _ _ (participants_sorted l) Hq Hin).
Qed.

End Participants.

(** ** A server without an identity *)
Section Unauthenticated.

Context {S : Type} `{SB : StorageBackend S} `{PL : Platform} `{RD : Renderings} `{!StorageLaws S}.
Context `{CH : Chrono} `{UC : Unicode} `{PC : !ProposalCalls} `{CC : !CommentCodec}.

(** The server of the [api] command runs a machine that has no identity: on a
    backend that asks for one, every request is answered with an error, whatever
    is stored. *)
Theorem server_shows_nothing (vm : VM.t S) (request : Request)
    (Hauth : VM.get_auth_context vm = None)
    (Hdenied : forall ns, exists e, permitted None "read" ns = Err e) :
  exists message, handle request vm = Ok (RError message).
Proof.
  assert (forall ns k s, exists e, sb_get None ns k s = Err e) as Hget.
  { intros ns k s. destruct (Hdenied ns) as (e & He). exists e. by rewrite law_get, He. }
  assert (forall id, exists e, load_proposal_from_governance id vm = Err e) as Hload.
  { intros id. unfold load_proposal_from_governance, ProposalCommands.get_proposal, ProposalCommands.storage_of, read_proposal, StorageExtensions.get_json.
    destruct (VM.get_storage_backend vm) as [storage|]; [|by eexists]. unfold mbind, res_bind. rewrite Hauth.
    destruct (Hget (namespace_of vm) (proposal_key_prefix id) storage) as (e & ->). cbn. eexists. reflexivity. }
  assert (forall id show, exists e, Comments.fetch_comments_threaded id None show vm = Err e) as Hfetch.
  { intros id show. unfold Comments.fetch_comments_threaded, Comments.storage_of, Comments.proposal_exists.
    destruct (VM.get_storage_backend vm) as [storage|]; [|by eexists]. cbn.
    destruct (Hget "governance" (Comments.proposal_path id) storage) as (e & ->). cbn. eexists. reflexivity. }
  destruct request as [id|id show|id]; cbn.
  - unfold Api.get_proposal. destruct (Hload id) as (e & ->). cbn. eexists. reflexivity.
  - unfold get_proposal_comments. destruct (Hfetch id (default false show)) as (e & ->). cbn. eexists. reflexivity.
  - unfold get_proposal_summary. destruct (Hload id) as (e & ->), (Hfetch id false) as (e' & ->). by eexists.
Qed.

End Unauthenticated.

End ApiTheorems.

Module ApiExamples.

Import Api ApiTheorems.

#[local] Existing Instance Samples.platform.
#[local] Existing Instance Samples.renderings.
#[local] Existing Instance ClockSamples.seconds.
#[local] Existing Instance LifecycleExamples.ascii_case.
#[local] Existing Instance CommentExamples.sample_codec.
#[local] Existing Instance ProposalExamples.sample_proposal_calls.

Definition comment_of (id author : string) (edits : list ProposalComment.CommentVersion) : ProposalComment.t :=
  {| ProposalComment.id := id; ProposalComment.author := author; ProposalComment.timestamp := (0%Z : DateTime);
     ProposalComment.content := "text"; ProposalComment.reply_to := None; ProposalComment.tags := [];
     ProposalComment.reactions := ∅; ProposalComment.hidden := false; ProposalComment.edit_history := edits |}.

Definition discussion : list ProposalComment.t :=
  (fun p => comment_of p.1 p.2 []) <$>
    [("1", "ann"); ("2", "bob"); ("3", "bob"); ("4", "cyd"); ("5", "dan"); ("6", "eve"); ("7", "fay"); ("8", "fay")].

(** Six authors wrote; the two with two comments come first. *)
Lemma discussion_ranked : pa_comment_count <$> top_participants discussion = [2; 2; 1; 1; 1]%N.
Proof. vm_compute. reflexivity. Qed.

Lemma top_participants_are_the_busiest_witness : length (top_participants discussion) <= 5.
Proof. refine (proj1 (top_participants_are_the_busiest _ discussion)). intros l. reflexivity. Defined.

(** A comment without its first version panics in a debug build. *)
Lemma no_history_panics : comment_response (comment_of "1" "ann" []) = Panic "attempt to subtract with overflow".
Proof. vm_compute. reflexivity. Qed.

(** The machine that the command [api] hands to the server. *)
Definition served : VM.t InMemoryStorage.t := VM.with_storage_backend InMemoryStorage.with_account.

Lemma server_shows_nothing_witness : exists message, handle (GetSummary "p1") served = Ok (RError message).
Proof.
  apply (server_shows_nothing served (GetSummary "p1")).
  - reflexivity.
  - intros ns. eexists. reflexivity.
Defined.

Lemma summary_error :
  handle (GetProposal "p1") served =
    Ok (RError "Failed to load proposal: Failed to get proposal: Permission denied for user 'anonymous' to perform 'read' on 'default'").
Proof. vm_compute. reflexivity. Qed.

End ApiExamples.
