(* ===== verification/Handlers.v ===== *)
(** * The handlers of vm/ops/

    vm/ops/mod.rs declares traits for groups of operations, with an
    implementation each; the interpreter does not use them.  [Arithmetic] is
    arithmetic.rs.  The other three structs have the same fields, [OpImpl.t], and
    differ in the operations: storage.rs, governance.rs and identity.rs.

    They call storage methods that no trait declares, and [map_storage_error]
    names variants that [StorageError] does not have: the methods, the error they
    return, its translation and serde's texts are parameters.  [TypedValueError]
    holds a text where it is given an error: the error's [Display]. *)
From S2P Require Import Prelude Float64 Text Values Ops Auth Storage InMemory Economic Executor Machine.
From Stdlib Require Import SpecFloat.

(** ** arithmetic.rs *)
Module ArithmeticOpImpl.

Definition typed {A} (r : res TypedValueError.t A) : res VMError.t A :=
  map_err (fun e => VMError.TypedValueError (TypedValueError.display e)) r.
Definition invalid {A} (op : string) : res VMError.t A := Err (VMError.InvalidOperation op).
(** The negation of a first result. *)
Definition negated (r : res TypedValueError.t TypedValue.t) : res VMError.t TypedValue.t :=
  v ← typed r; typed (TypedValue.logical_not v).

Definition execute_arithmetic (a b : TypedValue.t) (op : string) : res VMError.t TypedValue.t :=
  if String.eqb op "add" then typed (TypedValue.add a b)
  else if String.eqb op "sub" then typed (TypedValue.sub a b)
  else if String.eqb op "mul" then typed (TypedValue.mul a b)
  else if String.eqb op "div" then typed (TypedValue.div a b)
  else if String.eqb op "mod" then typed (TypedValue.modulo a b)
  else invalid op.

Definition execute_comparison (a b : TypedValue.t) (op : string) : res VMError.t TypedValue.t :=
  if String.eqb op "eq" then typed (TypedValue.equals a b)
  else if String.eqb op "gt" then typed (TypedValue.greater_than a b)
  else if String.eqb op "lt" then typed (TypedValue.less_than a b)
  else if String.eqb op "gte" then negated (TypedValue.less_than a b)
  else if String.eqb op "lte" then negated (TypedValue.greater_than a b)
  else if String.eqb op "neq" then negated (TypedValue.equals a b)
  else invalid op.

Definition execute_logical (a : TypedValue.t) (op : string) : res VMError.t TypedValue.t :=
  if String.eqb op "not" then typed (TypedValue.logical_not a) else invalid op.

Definition execute_binary_logical (a b : TypedValue.t) (op : string) : res VMError.t TypedValue.t :=
  if String.eqb op "and" then typed (TypedValue.logical_and a b)
  else if String.eqb op "or" then typed (TypedValue.logical_or a b)
  else if String.eqb op "xor" then
    and_result ← typed (TypedValue.logical_and a b);
    not_and ← typed (TypedValue.logical_not and_result);
    or_result ← typed (TypedValue.logical_or a b);
    typed (TypedValue.logical_and or_result not_and)
  else invalid op.

End ArithmeticOpImpl.

(** mod.rs: operations that push a value. *)
Module TypedBuilders.

Definition push_number (value : f64) : Op.t := Op.Push (TypedValue.Number value).
Definition push_bool (value : bool) : Op.t := Op.Push (TypedValue.Boolean value).
Definition push_string (value : string) : Op.t := Op.Push (TypedValue.String value).
Definition push_null : Op.t := Op.Push TypedValue.Null.

End TypedBuilders.

(** What the handlers call on their storage: the last two arguments are the
    caller and the namespace. *)
Class OpStorage (S : Type) : Type := {
  OpError : Type;
  map_storage_error : OpError -> VMError.t;
  store_float : string -> f64 -> option AuthContext.t -> string -> stm S OpError unit;
  load_float : string -> option AuthContext.t -> string -> S -> res OpError f64;
  store_string : string -> string -> option AuthContext.t -> string -> stm S OpError unit;
  load_string : string -> option AuthContext.t -> string -> S -> res OpError string;
  create_resource : string -> option AuthContext.t -> string -> stm S OpError unit;
  mint : string -> string -> f64 -> string -> option AuthContext.t -> string -> stm S OpError unit;
  transfer : string -> string -> string -> f64 -> string -> option AuthContext.t -> string -> stm S OpError unit;
  burn : string -> string -> f64 -> string -> option AuthContext.t -> string -> stm S OpError unit;
  balance : string -> string -> option AuthContext.t -> string -> S -> res OpError f64;
  get_identity : string -> option AuthContext.t -> string -> S -> res OpError Identity.t;
  check_membership : string -> string -> option AuthContext.t -> S -> res OpError bool;
  verify_signature : Identity.t -> string -> string -> res string bool;
  value_to_string : TypedValue.t -> res string string;
  value_from_str : string -> res string TypedValue.t;
}.

(** What [execute_load_p] knows to do about a missing key: the enum in vm/ has
    other variants. *)
Inductive OpMissingKey : Type := ReturnZero | ReturnNaN | MissingIsError.

Module OpImpl.

Section Handlers.

Context {S : Type} `{OS : !OpStorage S}.

Record t : Type := { storage_backend : option S; auth_context : option AuthContext.t; namespace : string }.
Abbreviation M := (stm t VMError.t).

Definition new : t := {| storage_backend := None; auth_context := None; namespace := "default" |}.
Definition set_storage_backend (backend : S) (self : t) : t :=
  {| storage_backend := Some backend; auth_context := auth_context self; namespace := namespace self |}.
Definition set_auth_context (auth : AuthContext.t) (self : t) : t :=
  {| storage_backend := storage_backend self; auth_context := Some auth; namespace := namespace self |}.
Definition set_namespace (ns : string) (self : t) : t :=
  {| storage_backend := storage_backend self; auth_context := auth_context self; namespace := ns |}.
Definition get_auth_context (self : t) : option AuthContext.t := auth_context self.

Definition storage_operation {A} (f : option AuthContext.t -> string -> stm S OpError A) : M A := fun self =>
  match storage_backend self with
  | Some backend =>
      let '(backend', r) := f (auth_context self) (namespace self) backend in
      (set_storage_backend backend' self, map_err map_storage_error r)
  | None => (self, Err VMError.NoStorageBackend)
  end.
Definition storage_query {A} (f : option AuthContext.t -> string -> S -> res OpError A) : M A :=
  storage_operation (fun auth ns s => (s, f auth ns s)).

(** *** storage.rs *)

Definition execute_store_p (key : string) (value : TypedValue.t) : M unit :=
  match value with
  | TypedValue.Number num => storage_operation (store_float key num)
  | _ =>
      json_str ← lift (map_err VMError.SerializationError (value_to_string value));
      storage_operation (store_string key json_str)
  end.

(** [match self.storage_operation(..) { Err(ResourceNotFound) => missing, .. }]. *)
Definition unless_missing {A B} (m : M A) (found : A -> B) (missing : M B) : M B := fun self =>
  match m self with
  | (self', Ok a) => (self', Ok (found a))
  | (self', Err (VMError.ResourceNotFound _ _)) => missing self'
  | (self', Err e) => (self', Err e)
  | (self', Panic msg) => (self', Panic msg)
  | (self', OutOfFuel) => (self', OutOfFuel)
  end.

(** A text that is not JSON is a string. *)
Definition typed_text (json_str : string) : TypedValue.t :=
  match value_from_str json_str with Ok typed_value => typed_value | _ => TypedValue.String json_str end.

Definition missing_value (key : string) (missing_key_behavior : OpMissingKey) : M TypedValue.t := fun self =>
  (self,
   match missing_key_behavior with
   | ReturnZero => Ok (TypedValue.Number f64_zero)
   | ReturnNaN => Ok (TypedValue.Number S754_nan)
   | MissingIsError => Err (VMError.ResourceNotFound key (namespace self))
   end).

Definition execute_load_p (key : string) (missing_key_behavior : OpMissingKey) : M TypedValue.t :=
  unless_missing (storage_query (load_float key)) TypedValue.Number
    (unless_missing (storage_query (load_string key)) typed_text
       (missing_value key missing_key_behavior)).

(** *** governance.rs *)

Definition extract_numeric_amount (amount : TypedValue.t) : res VMError.t f64 :=
  match TypedValue.as_number amount with
  | Ok num => if f64_leb f64_zero num then Ok num else Err (VMError.InvalidAmount num)
  | Err _ => Err (VMError.TypeMismatch "Number" (TypedValue.type_name amount) "resource operation")
  | Panic msg => Panic msg
  | OutOfFuel => OutOfFuel
  end.

Definition execute_create_resource (resource : string) : M unit := storage_operation (create_resource resource).
Definition execute_mint (resource account : string) (amount : TypedValue.t) (reason : option string) : M unit :=
  numeric_amount ← lift (extract_numeric_amount amount);
  storage_operation (mint resource account numeric_amount (default "VM mint operation" reason)).
Definition execute_transfer (resource from to : string) (amount : TypedValue.t) (reason : option string) : M unit :=
  numeric_amount ← lift (extract_numeric_amount amount);
  storage_operation (transfer resource from to numeric_amount (default "VM transfer operation" reason)).
Definition execute_burn (resource account : string) (amount : TypedValue.t) (reason : option string) : M unit :=
  numeric_amount ← lift (extract_numeric_amount amount);
  storage_operation (burn resource account numeric_amount (default "VM burn operation" reason)).
Definition execute_balance (resource account : string) : M TypedValue.t :=
  balance ← storage_query (balance resource account); mret (TypedValue.Number balance).

(** *** identity.rs *)

Definition extract_reputation_amount (amount : option TypedValue.t) : res VMError.t f64 :=
  match amount with
  | None => Ok f64_one
  | Some typed_val =>
      match TypedValue.as_number typed_val with
      | Ok num => if f64_ltb f64_zero num then Ok num else Err (VMError.InvalidAmount num)
      | Err _ => Err (VMError.TypeMismatch "Number" (TypedValue.type_name typed_val) "increment_reputation")
      | Panic msg => Panic msg
      | OutOfFuel => OutOfFuel
      end
  end.

Definition execute_increment_reputation (identity_id : string) (amount : option TypedValue.t) : M unit :=
  increment_amount ← lift (extract_reputation_amount amount);
  _ ← storage_query (get_identity identity_id);
  let reputation_key := "reputation:" +:+ identity_id in
  current_reputation ← unless_missing (storage_query (load_float reputation_key)) id (mret f64_zero);
  storage_operation (store_float reputation_key (f64_add current_reputation increment_amount)).

Definition execute_verify_identity (identity_id message signature : string) : M bool :=
  identity ← storage_query (get_identity identity_id);
  lift (map_err (VMError.InvalidSignature identity_id) (verify_signature identity message signature)).

(** The namespace is the argument, not the one of the handler. *)
Definition execute_check_membership (identity_id ns : string) : M bool :=
  storage_query (fun auth _ => check_membership identity_id ns auth).

End Handlers.

End OpImpl.

(** ** Properties *)

Module HandlerTheorems.

Import ArithmeticOpImpl.

Lemma typed_ok {A} (r : res TypedValueError.t A) (v : A) : typed r = Ok v <-> r = Ok v.
Proof. unfold typed. destruct r; cbn; split; congruence. Qed.
Lemma map_err_ok {E E' A} (f : E -> E') (r : res E A) (v : A) : map_err f r = Ok v <-> r = Ok v.
Proof. destruct r; cbn; split; congruence. Qed.

Ltac by_operation :=
  repeat match goal with
  | |- context [if String.eqb ?o ?c then _ else _] => destruct (String.eqb o c); [by rewrite ?typed_ok, ?map_err_ok|]
  end.

(** The handlers compute the values that the executor of the interpreter
    computes, for all the arithmetic it has; only the errors differ. *)
Theorem handlers_compute_the_same_values (a b : TypedValue.t) (op : string) (v : TypedValue.t) :
  ArithmeticOpImpl.execute_arithmetic a b op = Ok v <-> VMExecution.execute_arithmetic a b op = Ok v.
Proof. unfold execute_arithmetic, VMExecution.execute_arithmetic, invalid. by_operation. split; congruence. Qed.

(** Every comparison and logical operation the executor has is one of the
    handlers', with the same values. *)
Theorem handlers_compare_the_same (a b : TypedValue.t) (op : string) (v : TypedValue.t) :
  (VMExecution.execute_comparison a b op = Ok v -> ArithmeticOpImpl.execute_comparison a b op = Ok v) /\
  (VMExecution.execute_binary_logical a b op = Ok v -> ArithmeticOpImpl.execute_binary_logical a b op = Ok v) /\
  (VMExecution.execute_logical a op = Ok v <-> ArithmeticOpImpl.execute_logical a op = Ok v).
Proof.
  unfold execute_comparison, VMExecution.execute_comparison, execute_binary_logical,
    VMExecution.execute_binary_logical, execute_logical, VMExecution.execute_logical, invalid.
  repeat split; cbn zeta.
  - destruct (String.eqb op "eq"); [by rewrite typed_ok, map_err_ok|].
    destruct (String.eqb op "lt") eqn:E.
    + apply String.eqb_eq in E as ->. cbn. by rewrite typed_ok, map_err_ok.
    + destruct (String.eqb op "gt"); [by rewrite typed_ok, map_err_ok | discriminate].
  - destruct (String.eqb op "and"); [by rewrite typed_ok, map_err_ok|].
    destruct (String.eqb op "or"); [by rewrite typed_ok, map_err_ok | discriminate].
  - destruct (String.eqb op "not"); [by rewrite typed_ok, map_err_ok | discriminate].
  - destruct (String.eqb op "not"); [by rewrite typed_ok, map_err_ok | discriminate].
Qed.

(** [xor] is the exclusive or of the truth of its operands, and never fails. *)
Theorem xor_is_exclusive (a b : TypedValue.t) (x y : bool) :
  TypedValue.as_boolean a = Ok x -> TypedValue.as_boolean b = Ok y ->
  execute_binary_logical a b "xor" = Ok (TypedValue.Boolean (xorb x y)).
Proof.
  intros Ha Hb. cbn. unfold TypedValue.logical_and, TypedValue.logical_or.
  rewrite Ha, Hb. by destruct x, y.
Qed.

(** [gte] is not the order of the numbers: it is the negation of the strict
    order, which NaN passes. *)
Theorem gte_negates_less (x y : f64) :
  execute_comparison (TypedValue.Number x) (TypedValue.Number y) "gte" =
  Ok (TypedValue.Boolean (negb (f64_ltb x y))) /\
  execute_comparison (TypedValue.Number x) (TypedValue.Number y) "lte" =
  Ok (TypedValue.Boolean (negb (f64_ltb y x))).
Proof. done. Qed.

Example nan_is_at_least_everything :
  execute_comparison (TypedValue.Number S754_nan) (TypedValue.Number f64_one) "gte" = Ok (TypedValue.Boolean true) /\
  execute_comparison (TypedValue.Number S754_nan) (TypedValue.Number f64_one) "lte" = Ok (TypedValue.Boolean true) /\
  f64_leb f64_one S754_nan = false.
Proof. vm_compute. auto. Qed.

Section Storage.

Context {S : Type} `{OS : !OpStorage S}.

(** An amount passes exactly when it is a number that is at least zero. *)
Theorem amounts_are_not_negative (amount : TypedValue.t) (x : f64) :
  OpImpl.extract_numeric_amount amount = Ok x <-> TypedValue.as_number amount = Ok x /\ f64_leb f64_zero x = true.
Proof.
  unfold OpImpl.extract_numeric_amount. destruct (TypedValue.as_number amount) as [y| | |]; try (split; [|intros []]; congruence).
  destruct (f64_leb f64_zero y) eqn:E; (split; [intros [= <-]; split; done | intros [[= ->] ?]; congruence]).
Qed.

(** A refused amount reaches no backend, of the three operations that move a
    resource; and without a backend every operation fails. *)
Theorem refused_amounts_change_nothing (h : OpImpl.t (S := S)) resource from to amount reason e :
  OpImpl.extract_numeric_amount amount = Err e ->
  OpImpl.execute_mint resource from amount reason h = (h, Err e) /\
  OpImpl.execute_burn resource from amount reason h = (h, Err e) /\
  OpImpl.execute_transfer resource from to amount reason h = (h, Err e).
Proof.
  intros He. unfold OpImpl.execute_mint, OpImpl.execute_burn, OpImpl.execute_transfer, mbind, stm_bind, lift.
  by rewrite He.
Qed.

(** The handler passes the backend its own caller and namespace, and keeps them. *)
Theorem operations_keep_the_caller {A} (f : option AuthContext.t -> string -> stm S (OpError (S := S)) A) h :
  OpImpl.auth_context (OpImpl.storage_operation f h).1 = OpImpl.auth_context h /\
  OpImpl.namespace (OpImpl.storage_operation f h).1 = OpImpl.namespace h.
Proof. unfold OpImpl.storage_operation. destruct (OpImpl.storage_backend h); [by case_match|done]. Qed.

(** What is stored as a number is loaded as that number. *)
Hypothesis store_load : forall key x auth ns s s',
  store_float key x auth ns s = (s', Ok tt) -> load_float key auth ns s' = Ok x.

(** Storing a number and loading it, by the same caller in the same namespace,
    gives it back, whatever text the key holds. *)
Theorem stored_numbers_are_loaded (h h' : OpImpl.t (S := S)) key x missing :
  OpImpl.execute_store_p key (TypedValue.Number x) h = (h', Ok tt) ->
  OpImpl.execute_load_p key missing h' = (h', Ok (TypedValue.Number x)).
Proof.
  unfold OpImpl.execute_store_p, OpImpl.execute_load_p, OpImpl.unless_missing, OpImpl.storage_query,
    OpImpl.storage_operation.
  destruct (OpImpl.storage_backend h) as [s|]; [|discriminate].
  destruct (store_float _ _ _ _ s) as [s' r] eqn:E. intros [= <- Hr].
  apply map_err_ok in Hr as ->. cbn. by rewrite (store_load _ _ _ _ _ _ E).
Qed.

Lemma query_keeps {A} (f : option AuthContext.t -> string -> S -> res (OpError (S := S)) A) h h' r :
  OpImpl.storage_query f h = (h', r) -> h' = h.
Proof.
  unfold OpImpl.storage_query, OpImpl.storage_operation. destruct h as [[s|] a n]; cbn; by intros [= <- _].
Qed.
Lemma missing_query_keeps {A B} (f : option AuthContext.t -> string -> S -> res (OpError (S := S)) A)
    (found : A -> B) v h h' r :
  OpImpl.unless_missing (OpImpl.storage_query f) found (mret v) h = (h', r) -> h' = h.
Proof.
  unfold OpImpl.unless_missing. destruct (OpImpl.storage_query f h) as [h1 r1] eqn:E. apply query_keeps in E as ->.
  destruct r1 as [| [] | |]; by intros [= <- _].
Qed.

Lemma missing_query_value (key : string) h h' c :
  OpImpl.unless_missing (OpImpl.storage_query (load_float key)) id (mret f64_zero) h = (h', Ok c) ->
  exists s, OpImpl.storage_backend h = Some s /\
    (load_float key (OpImpl.auth_context h) (OpImpl.namespace h) s = Ok c \/
     (exists e, load_float key (OpImpl.auth_context h) (OpImpl.namespace h) s = Err e) /\ c = f64_zero).
Proof.
  unfold OpImpl.unless_missing, OpImpl.storage_query, OpImpl.storage_operation.
  destruct (OpImpl.storage_backend h) as [s|]; [|discriminate]. exists s. split; [done|].
  destruct (load_float _ _ _ s) as [x|e| |]; cbn in *; [left; congruence | | discriminate ..].
  right. split; [by eexists|]. destruct (map_storage_error e); try discriminate; by injection H.
Qed.
Lemma reputation_amounts_are_positive amount x :
  OpImpl.extract_reputation_amount amount = Ok x -> f64_ltb f64_zero x = true.
Proof.
  unfold OpImpl.extract_reputation_amount. destruct amount as [v|]; [|by intros [= <-]].
  destruct (TypedValue.as_number v) as [y| | |]; try discriminate.
  destruct (f64_ltb f64_zero y) eqn:E; [by intros [= <-]|discriminate].
Qed.

(** An increment that succeeds leaves the old reputation, zero where there was
    none, plus a positive amount. *)
Theorem reputation_grows (h h' : OpImpl.t (S := S)) identity_id amount :
  OpImpl.execute_increment_reputation identity_id amount h = (h', Ok tt) ->
  let reputation s := load_float ("reputation:" +:+ identity_id) (OpImpl.auth_context h) (OpImpl.namespace h) s in
  exists s s' x current,
    OpImpl.storage_backend h = Some s /\ OpImpl.storage_backend h' = Some s' /\
    (reputation s = Ok current \/ (exists e, reputation s = Err e) /\ current = f64_zero) /\
    f64_ltb f64_zero x = true /\ reputation s' = Ok (f64_add current x).
Proof.
  unfold OpImpl.execute_increment_reputation. intros H. cbn zeta.
  apply stm_bind_ok in H as (h1 & x & [= <- Hx] & H). apply reputation_amounts_are_positive in Hx.
  apply stm_bind_ok in H as (h2 & i & H1 & H). apply query_keeps in H1 as ->.
  apply stm_bind_ok in H as (h3 & c & H2 & H). pose proof H2 as Hc. apply missing_query_keeps in H2 as ->.
  apply missing_query_value in Hc as (s & Es & Hc).
  unfold OpImpl.storage_operation in H. rewrite Es in H.
  destruct (store_float _ _ _ _ s) as [s' r] eqn:E. injection H as <- Hr. apply map_err_ok in Hr as ->.
  apply store_load in E. exists s, s', x, c. auto.
Qed.

End Storage.

End HandlerTheorems.

(** ** A concrete backend: numbers by key, whoever asks *)
Module HandlerExamples.

#[local] Instance numbers : OpStorage (list (string * f64)) := {|
  OpError := VMError.t;
  map_storage_error := id;
  store_float key x _ _ := fun s => ((key, x) :: s, Ok tt);
  load_float key _ _ s :=
    match find (fun p => String.eqb p.1 key) s with Some (_, x) => Ok x | None => Err (VMError.ResourceNotFound key EmptyString) end;
  store_string _ _ _ _ := throw VMError.NoStorageBackend;
  load_string key _ _ _ := Err (VMError.ResourceNotFound key EmptyString);
  create_resource _ _ _ := mret tt;
  mint _ _ _ _ _ _ := mret tt;
  transfer _ _ _ _ _ _ _ := mret tt;
  burn _ _ _ _ _ _ := mret tt;
  balance _ _ _ _ _ := Ok f64_zero;
  get_identity name _ _ _ := Ok {|
    Identity.did := name; Identity.public_key_bytes := EmptyString; Identity.private_key_bytes := None;
    Identity.public_key_multibase := EmptyString; Identity.identity_type := "member";
    Identity.profile := {| public_username := name; full_name := None; other_fields := ∅ |} |};
  check_membership _ _ _ _ := Ok true;
  verify_signature _ _ _ := Ok true;
  value_to_string _ := Ok "null";
  value_from_str _ := Err "no text";
|}.

Lemma numbers_store_load key x auth ns s s' :
  store_float (S := list (string * f64)) key x auth ns s = (s', Ok tt) ->
  load_float (S := list (string * f64)) key auth ns s' = Ok x.
Proof. cbn. intros [= <-]. cbn. by rewrite String.eqb_refl. Qed.

Definition handler : OpImpl.t (S := list (string * f64)) := OpImpl.set_storage_backend [] OpImpl.new.

Example reputation_grows_witness :
  exists h', OpImpl.execute_increment_reputation "alice" None handler = (h', Ok tt) /\
    exists s s' x current, OpImpl.storage_backend handler = Some s /\ OpImpl.storage_backend h' = Some s' /\
      f64_ltb f64_zero x = true /\
      load_float (S := list (string * f64)) "reputation:alice" None "default" s' = Ok (f64_add current x).
Proof.
  eexists. split; [vm_compute; reflexivity|].
  destruct (HandlerTheorems.reputation_grows numbers_store_load handler _ "alice" None eq_refl)
    as (s & s' & x & c & H1 & H2 & _ & H3 & H4).
  exists s, s', x, c. auto.
Defined.

(** A mint of a negative amount, or of NaN, is refused. *)
Example negative_mint :
  (OpImpl.execute_mint "tokens" "alice" (TypedValue.Number (f64_of_Z (-1))) None handler).2 =
    Err (VMError.InvalidAmount (f64_of_Z (-1))) /\
  (OpImpl.execute_mint "tokens" "alice" (TypedValue.Number S754_nan) None handler).2 =
    Err (VMError.InvalidAmount S754_nan).
Proof. vm_compute. auto. Qed.

End HandlerExamples.
