(* ===== verification/TypedVm.v ===== *)
(** * The prototype machine of typed.rs

    [TypedVM] is a second machine, whose [execute] treats two operations and
    pushes [Null] for the others.  It was written for other types than those of
    vm/: its errors are [TypedVM.error], and it takes the operand of [Push] to be a
    float, [*val], which [operand] stands for. *)
From S2P Require Import Prelude Float64 Values Ops Auth Storage InMemory Economic Memory Stack Executor Machine.

Module TypedVM.

(** The errors of the machine. *)
Inductive error : Type :=
  | StackUnderflow (op_name : string)
  | MaxRecursionDepth
  | ParameterError (s : string).

Inductive TypedLoopControl : Type := LoopNone | Break | Continue.
Record TypedCallFrame : Type := { frame_memory : gmap string TypedValue.t; return_value : option TypedValue.t }.

(** The head of [stack] is the top. *)
Record state : Type := {
  stack : list TypedValue.t;
  memory : gmap string TypedValue.t;
  functions : gmap string (list string * list Op.t);
  call_frames : list TypedCallFrame;
  recursion_depth : N;
  loop_control : TypedLoopControl;
}.
Abbreviation M := (stm state error).

Definition new : state := {|
  stack := []; memory := ∅; functions := ∅; call_frames := []; recursion_depth := 0; loop_control := LoopNone |}.
Definition with_stack (l : list TypedValue.t) (s : state) : state :=
  {| stack := l; memory := memory s; functions := functions s; call_frames := call_frames s;
     recursion_depth := recursion_depth s; loop_control := loop_control s |}.
Definition with_memory (m : gmap string TypedValue.t) (s : state) : state :=
  {| stack := stack s; memory := m; functions := functions s; call_frames := call_frames s;
     recursion_depth := recursion_depth s; loop_control := loop_control s |}.

Definition get_stack (s : state) : list TypedValue.t := rev (stack s).
Definition get_memory (key : string) (s : state) : option TypedValue.t := memory s !! key.
Definition get_memory_map (s : state) : gmap string TypedValue.t := memory s.
Definition top (s : state) : option TypedValue.t := head (stack s).

Definition parameter (value : string) : TypedValue.t :=
  match parse_f64 value with
  | Some num => TypedValue.Number num
  | None =>
      if String.eqb value "true" || String.eqb value "false" then TypedValue.Boolean (String.eqb value "true")
      else TypedValue.String value
  end.
Definition set_parameters (params : list (string * string)) : M unit :=
  modify (fun s => with_memory (foldl (fun m kv => <[kv.1 := parameter kv.2]> m) (memory s) params) s).

Definition push (v : TypedValue.t) : M unit := modify (fun s => with_stack (v :: stack s) s).
Definition pop_one (op_name : string) : M TypedValue.t := fun s =>
  match stack s with
  | v :: rest => (with_stack rest s, Ok v)
  | [] => (s, Err (StackUnderflow op_name))
  end.
Definition pop_two (op_name : string) : M (TypedValue.t * TypedValue.t) := fun s =>
  match stack s with
  | b :: a :: rest => (with_stack rest s, Ok (a, b))
  | _ => (s, Err (StackUnderflow op_name))
  end.

Definition type_error_to_vm_error (e : TypedValueError.t) : error :=
  ParameterError match e with
                 | TypedValueError.TypeMismatch expected found =>
                     "Type mismatch: expected " +:+ expected +:+ ", found " +:+ found
                 | TypedValueError.InvalidOperationForType op types =>
                     "Invalid operation " +:+ op +:+ " for types " +:+ types
                 | TypedValueError.CoercionError from to => "Cannot coerce from " +:+ from +:+ " to " +:+ to
                 | TypedValueError.ValueOutOfBounds => "Value out of bounds"
                 end.

Section Execute.

Context (operand : TypedValue.t -> f64).

(** [let (b, a) = self.pop_two("add")?] names the lower operand [b]. *)
Definition step (op : Op.t) : M unit :=
  match op with
  | Op.Push val => push (TypedValue.Number (operand val))
  | Op.Add =>
      p ← pop_two "add";
      let '(b, a) := p in
      result ← lift (map_err type_error_to_vm_error (TypedValue.add a b));
      push result
  | _ => push TypedValue.Null
  end.
Fixpoint steps (ops : list Op.t) : M unit :=
  match ops with [] => mret tt | op :: ops' => _ ← step op; steps ops' end.
Definition execute (ops : list Op.t) : M unit :=
  s ← get_state;
  if (1000 <? recursion_depth s)%N then throw MaxRecursionDepth else steps ops.

End Execute.

End TypedVM.

(** ** Properties *)
Module TypedVMTheorems.

Import TypedVM.

Section Execute.

Context (operand : TypedValue.t -> f64).

(** Everything but the stack. *)
Definition frame (s : state) : state := with_stack [] s.

Lemma step_frame op s : frame (step operand op s).1 = frame s.
Proof.
  destruct op; try done. unfold step, mbind, stm_bind, pop_two. destruct (stack s) as [|b [|a rest]]; [done..|].
  unfold lift. by destruct (map_err type_error_to_vm_error _).
Qed.
Lemma steps_frame ops s : frame (steps operand ops s).1 = frame s.
Proof.
  revert s. induction ops as [|op ops IH]; intros s; [done|]. cbn. unfold mbind, stm_bind.
  pose proof (step_frame op s) as Hs. destruct (step operand op s) as [s1 [[] | | |]]; cbn in *; try done.
  by rewrite IH.
Qed.

(** The machine has no variables, calls or loops: a run changes its stack only,
    and the recursion limit is never met by a machine that [new] made. *)
Theorem only_the_stack_changes (ops : list Op.t) (s : state) :
  frame (execute operand ops s).1 = frame s /\
  ((recursion_depth s <= 1000)%N -> execute operand ops s = steps operand ops s).
Proof.
  unfold execute, mbind, stm_bind, get_state. destruct (1000 <? recursion_depth s)%N eqn:E.
  - split; [done|]. apply N.ltb_lt in E. lia.
  - split; [apply steps_frame | done].
Qed.

(** [Add] adds the lower operand to the top one: two texts are joined the other
    way round than by the interpreter, whose machine adds the top to the lower. *)
Theorem texts_are_joined_backwards (s : state) (x y : string) (rest : list TypedValue.t) :
  stack s = TypedValue.String y :: TypedValue.String x :: rest ->
  step operand Op.Add s = (with_stack (TypedValue.String (y +:+ x) :: rest) s, Ok tt) /\
  VMExecution.execute_arithmetic (TypedValue.String x) (TypedValue.String y) "add" =
    Ok (TypedValue.String (x +:+ y)).
Proof. intros E. split; [|done]. unfold step, mbind, stm_bind, pop_two. by rewrite E. Qed.

Lemma replicate_cons {A} n (x : A) l : replicate n x ++ x :: l = x :: replicate n x ++ l.
Proof. induction n as [|n IH]; [done|]. cbn. by rewrite IH. Qed.

(** Of the other operations the machine keeps a count: one [Null] each. *)
Theorem other_operations_push_null (ops : list Op.t) (s : state) :
  Forall (fun op => match op with Op.Push _ | Op.Add => False | _ => True end) ops ->
  steps operand ops s = (with_stack (replicate (length ops) TypedValue.Null ++ stack s) s, Ok tt).
Proof.
  intros H. revert s. induction H as [|op ops Hop _ IH]; intros s; [by destruct s|].
  assert (step operand op s = push TypedValue.Null s) as E by by destruct op.
  cbn [steps]. unfold mbind, stm_bind. rewrite E. cbn. rewrite IH. cbn. by rewrite replicate_cons.
Qed.

(** The depth of the stack: [Add] makes it one less, every other operation one
    more. *)
Definition is_add (op : Op.t) : bool := match op with Op.Add => true | _ => false end.

Lemma step_depth op s s' :
  step operand op s = (s', Ok tt) ->
  length (stack s') + (if is_add op then 1 else 0) = length (stack s) + (if is_add op then 0 else 1).
Proof.
  destruct op; try by (intros [= <-]; cbn; lia).
  unfold step, mbind, stm_bind, pop_two, lift. destruct (stack s) as [|b [|a rest]]; try discriminate.
  destruct (map_err type_error_to_vm_error _); try discriminate. intros [= <-]. cbn. lia.
Qed.
Theorem stack_depth (ops : list Op.t) (s s' : state) :
  steps operand ops s = (s', Ok tt) ->
  length (stack s') + 2 * length (List.filter is_add ops) = length (stack s) + length ops.
Proof.
  revert s. induction ops as [|op ops IH]; intros s; cbn [steps].
  - intros [= <-]. cbn. lia.
  - intros H. apply stm_bind_ok in H as (s1 & [] & H1 & H2). apply step_depth in H1. apply IH in H2.
    cbn. destruct (is_add op); cbn in *; lia.
Qed.

End Execute.

(** A parameter's value: the last one given for its name, else what the memory
    held. *)
Theorem parameters_are_set (params : list (string * string)) (s s' : state) (key : string) :
  NoDup params.*1 -> set_parameters params s = (s', Ok tt) ->
  get_memory key s' =
    match (list_to_map params : gmap string string) !! key with
    | Some value => Some (parameter value)
    | None => get_memory key s
    end.
Proof.
  intros Hnd [= <-]. unfold get_memory. cbn. generalize (memory s) as m.
  induction params as [|[k v] params IH]; intros m; [done|]. cbn in *.
  apply NoDup_cons in Hnd as [Hk Hnd]. rewrite IH by done.
  destruct (decide (k = key)) as [<-|Hne].
  - rewrite lookup_insert_eq, not_elem_of_list_to_map_1, lookup_insert_eq by done. done.
  - by rewrite !lookup_insert_ne by done.
Qed.

End TypedVMTheorems.
