(* ===== verification/Identities.v ===== *)
(** * Keys and the records of identity/

    [IdentityKeys] is the rest of identity.rs: keys, signatures and the public
    JSON.  The other Modules are the records of identity/: [CoopIdentity] and
    [IdentityRegistry] are identity/identity.rs, [MemberProfile],
    [Credential] and [DelegationLink] the files of those names.

    Ed25519, multibase and serde are parameters, [KeyCalls]; what the code
    relies on is [KeyLaws]. *)
From S2P Require Import Prelude Float64 Text Values Ops Auth Storage.

Module IdentityError.

Inductive t : Type :=
  | KeyGeneration (s : string)
  | DidGeneration (s : string)
  | SigningError (s : string)
  | VerificationError (s : string)
  | InvalidKeyMaterial
  | Serialization (s : string)
  | MultibaseError (s : string)
  | ProfileFieldMissing (s : string).

Definition display (e : t) : string :=
  match e with
  | KeyGeneration s => "Key generation failed: " +:+ s
  | DidGeneration s => "DID generation failed: " +:+ s
  | SigningError s => "Signing error: " +:+ s
  | VerificationError s => "Verification error: " +:+ s
  | InvalidKeyMaterial => "Invalid key material"
  | Serialization s => "Serialization error: " +:+ s
  | MultibaseError s => "Multibase error: " +:+ s
  | ProfileFieldMissing s => "Profile field missing: " +:+ s
  end.

End IdentityError.

(** What the JSON of an identity shows. *)
Record PublicIdentity : Type := {
  pi_did : string; pi_public_key_multibase : string; pi_profile : Profile; pi_identity_type : string }.

(** Keys and signatures are 32 and 64 bytes. *)
Class KeyCalls : Type := {
  verifying_key : bytes -> bytes;
  verifying_key_from_bytes : bytes -> res string unit;
  ed25519_sign : bytes -> bytes -> bytes;
  ed25519_verify : bytes -> bytes -> bytes -> res string unit;
  multibase_encode : bytes -> string;
  multibase_decode : string -> res string bytes;
  public_json : PublicIdentity -> res string string;
}.

Class KeyLaws `{KeyCalls} : Prop := {
  verifying_key_size : forall k, String.length (verifying_key k) = 32;
  signature_size : forall k m, String.length (ed25519_sign k m) = 64;
  verifying_key_is_valid : forall k, verifying_key_from_bytes (verifying_key k) = Ok tt;
  signatures_verify : forall k m, ed25519_verify (verifying_key k) m (ed25519_sign k m) = Ok tt;
  multibase_decode_encode : forall b, multibase_decode (multibase_encode b) = Ok b;
}.

Module IdentityKeys.

Section Keys.

Context `{KC : KeyCalls}.

(** [try_into] an array of [n] bytes. *)
Definition sized (n : nat) (b : bytes) : res IdentityError.t bytes :=
  if Nat.eqb (String.length b) n then Ok b else Err IdentityError.InvalidKeyMaterial.

(** [signing_key] is the key that the system's random numbers make. *)
Definition new (signing_key : bytes) (public_username : string) (full_name : option string)
    (identity_type : string) (other_profile_fields : option (gmap string json_value)) :
    res IdentityError.t Identity.t :=
  let public_key_bytes := verifying_key signing_key in
  let public_key_multibase := multibase_encode public_key_bytes in
  Ok {| Identity.did := "did:key:" +:+ public_key_multibase;
        Identity.public_key_bytes := public_key_bytes;
        Identity.private_key_bytes := Some signing_key;
        Identity.public_key_multibase := public_key_multibase;
        Identity.profile :=
          {| public_username := public_username; full_name := full_name;
             other_fields := default ∅ other_profile_fields |};
        Identity.identity_type := identity_type |}.

Definition did (self : Identity.t) : string := Identity.did self.

Definition sign (message : bytes) (self : Identity.t) : res IdentityError.t string :=
  match Identity.private_key_bytes self with
  | Some private_bytes =>
      signing_key ← sized 32 private_bytes;
      mret (multibase_encode (ed25519_sign signing_key message))
  | None => Err IdentityError.InvalidKeyMaterial
  end.

Definition verify (message : bytes) (signature_multibase : string) (self : Identity.t) : res IdentityError.t unit :=
  key ← sized 32 (Identity.public_key_bytes self);
  _ ← map_err IdentityError.VerificationError (verifying_key_from_bytes key);
  sig_bytes ← map_err (fun e => IdentityError.MultibaseError ("Invalid signature format: " +:+ e))
                (multibase_decode signature_multibase);
  signature ← sized 64 sig_bytes;
  map_err IdentityError.VerificationError (ed25519_verify key message signature).

Definition public_username (self : Identity.t) : string := Auth.public_username (Identity.profile self).

Definition to_public_json (self : Identity.t) : res IdentityError.t string :=
  map_err IdentityError.Serialization (public_json {|
    pi_did := Identity.did self; pi_public_key_multibase := Identity.public_key_multibase self;
    pi_profile := Identity.profile self; pi_identity_type := Identity.identity_type self |}).

(** ** Properties *)

(** Without its private key. *)
Definition published (self : Identity.t) : Identity.t :=
  {| Identity.did := Identity.did self; Identity.public_key_bytes := Identity.public_key_bytes self;
     Identity.private_key_bytes := None; Identity.public_key_multibase := Identity.public_key_multibase self;
     Identity.profile := Identity.profile self; Identity.identity_type := Identity.identity_type self |}.

(** What is published verifies everything that the whole identity does, has the
    same JSON, and signs nothing. *)
Theorem published_identities (self : Identity.t) :
  (forall message signature, verify message signature (published self) = verify message signature self) /\
  to_public_json (published self) = to_public_json self /\
  (forall message, sign message (published self) = Err IdentityError.InvalidKeyMaterial).
Proof. done. Qed.

Context `{KL : !KeyLaws}.

Lemma sized_ok n b : String.length b = n -> sized n b = Ok b.
Proof. unfold sized. intros <-. by rewrite Nat.eqb_refl. Qed.

(** What a new identity signs, its published part verifies, also after its
    metadata changed. *)
Theorem signatures_are_verified (key : bytes) username name type fields self (message : bytes) k v :
  String.length key = 32 -> new key username name type fields = Ok self ->
  exists signature,
    sign message self = Ok signature /\ verify message signature self = Ok tt /\
    verify message signature (published (Identity.add_metadata k v self)) = Ok tt.
Proof.
  intros Hk [= <-]. exists (multibase_encode (ed25519_sign key message)).
  assert (forall self, Identity.public_key_bytes self = verifying_key key ->
            verify message (multibase_encode (ed25519_sign key message)) self = Ok tt) as Hv.
  { intros self Hs. unfold verify. rewrite Hs, (sized_ok 32) by apply verifying_key_size. cbn.
    rewrite verifying_key_is_valid, multibase_decode_encode. cbn.
    rewrite (sized_ok 64) by apply signature_size. cbn. by rewrite signatures_verify. }
  split; [|split]; [|by apply Hv ..]. unfold sign. cbn. by rewrite (sized_ok 32).
Qed.

(** Two identities with the same DID have the same public key. *)
Theorem dids_name_keys key1 key2 u1 u2 n1 n2 t1 t2 f1 f2 id1 id2 :
  new key1 u1 n1 t1 f1 = Ok id1 -> new key2 u2 n2 t2 f2 = Ok id2 -> did id1 = did id2 ->
  Identity.public_key_bytes id1 = Identity.public_key_bytes id2.
Proof.
  intros [= <-] [= <-] H. apply (inj (String.append "did:key:")) in H.
  apply (f_equal multibase_decode) in H. rewrite !multibase_decode_encode in H. by injection H.
Qed.

End Keys.

End IdentityKeys.

(** [if !list.contains(x) { list.push(x) }]. *)
Definition push_new (x : string) (l : list string) : list string :=
  if existsb (String.eqb x) l then l else l ++ [x].

Lemma existsb_elem x l : existsb (String.eqb x) l = true <-> x ∈ l.
Proof.
  rewrite existsb_exists. split.
  - intros (y & Hy & ->%String.eqb_eq). by apply list_elem_of_In.
  - intros H. exists x. by rewrite String.eqb_refl, <- list_elem_of_In.
Qed.
Lemma push_new_elem x y l : y ∈ push_new x l <-> y = x \/ y ∈ l.
Proof.
  unfold push_new. destruct (existsb _ l) eqn:E; [apply existsb_elem in E; set_solver | set_solver].
Qed.
Lemma push_new_NoDup x l : NoDup l -> NoDup (push_new x l).
Proof.
  unfold push_new. destruct (existsb _ l) eqn:E; [done|]. intros Hl. apply NoDup_app. split; [done|].
  split; [|apply NoDup_singleton]. intros y Hy. rewrite list_elem_of_singleton. intros ->.
  apply existsb_elem in Hy. congruence.
Qed.

(** Expired is after the expiration, which may be missing. *)
Definition after_expiration (expires_at : option N) (current_time : N) : bool :=
  match expires_at with Some expires => (expires <? current_time)%N | None => false end.
Lemma expiration_is_final e t t' : (t <= t')%N -> after_expiration e t = true -> after_expiration e t' = true.
Proof. destruct e; cbn; [rewrite !N.ltb_lt; lia | done]. Qed.

Module CoopIdentity.

Record t : Type := {
  id : string;
  public_key : option bytes;
  identity_type : string;
  crypto_scheme : option string;
  metadata : gmap string string;
  version_info : option VersionInfo.t;
}.

Definition new (id identity_type : string) : t := {|
  id := id; public_key := None; identity_type := identity_type; crypto_scheme := None; metadata := ∅;
  version_info := None |}.
Definition with_public_key (id identity_type : string) (public_key : bytes) (crypto_scheme : string) : t := {|
  id := id; public_key := Some public_key; identity_type := identity_type; crypto_scheme := Some crypto_scheme;
  metadata := ∅; version_info := None |}.
Definition add_metadata (key value : string) (self : t) : t := {|
  id := id self; public_key := public_key self; identity_type := identity_type self;
  crypto_scheme := crypto_scheme self; metadata := <[key := value]> (metadata self);
  version_info := version_info self |}.
Definition get_metadata (key : string) (self : t) : option string := metadata self !! key.
Definition belongs_to (coop_id : string) (self : t) : bool :=
  if String.eqb (identity_type self) "cooperative" then String.eqb (id self) coop_id
  else match get_metadata "coop_id" self with
       | Some member_coop_id => String.eqb member_coop_id coop_id
       | None => false
       end.
Definition get_namespace (self : t) : string :=
  if String.eqb (identity_type self) "cooperative" then "coops/" +:+ id self
  else if String.eqb (identity_type self) "member" then
    match get_metadata "coop_id" self with
    | Some coop_id => "coops/" +:+ coop_id +:+ "/members/" +:+ id self
    | None => "members/" +:+ id self
    end
  else "identities/" +:+ identity_type self +:+ "/" +:+ id self.

(** A member of a cooperative has a namespace below that of the cooperative it
    belongs to. *)
Theorem members_are_below_their_cooperative (self : t) (coop : string) :
  identity_type self = "member" -> belongs_to coop self = true ->
  get_namespace self = get_namespace (new coop "cooperative") +:+ "/members/" +:+ id self.
Proof.
  intros Ht. unfold belongs_to, get_namespace. rewrite Ht. cbn.
  destruct (get_metadata "coop_id" self) as [c|]; [|done]. intros ->%String.eqb_eq. done.
Qed.

(** A slash in an identifier makes two identities share a namespace. *)
Example shared_namespaces :
  get_namespace (add_metadata "coop_id" "blue" (new "ann" "member")) =
  get_namespace (new "blue/members/ann" "cooperative").
Proof. reflexivity. Qed.

End CoopIdentity.

(** The field [identities]; [list_by_type] is in no particular order. *)
Module IdentityRegistry.

Definition t : Type := gmap string CoopIdentity.t.
Abbreviation M := (stm t string).

Definition new : t := ∅.
Definition register (identity : CoopIdentity.t) : M unit := fun self =>
  match self !! CoopIdentity.id identity with
  | Some _ => (self, Err ("Identity with ID " +:+ CoopIdentity.id identity +:+ " already exists"))
  | None => (<[CoopIdentity.id identity := identity]> self, Ok tt)
  end.
Definition get (id : string) (self : t) : option CoopIdentity.t := self !! id.
Definition update (identity : CoopIdentity.t) : M unit := fun self =>
  match self !! CoopIdentity.id identity with
  | None => (self, Err ("Identity with ID " +:+ CoopIdentity.id identity +:+ " does not exist"))
  | Some _ => (<[CoopIdentity.id identity := identity]> self, Ok tt)
  end.
Definition list_by_type (identity_type : string) (self : t) : list CoopIdentity.t :=
  List.filter (fun i => String.eqb (CoopIdentity.identity_type i) identity_type) (map_to_list self).*2.

(** Every identity is under its own identifier. *)
Definition wf (self : t) : Prop := map_Forall (fun id i => CoopIdentity.id i = id) self.

Lemma registry_new : wf new.
Proof. apply map_Forall_empty. Qed.
Lemma registry_insert i self : wf self -> wf (<[CoopIdentity.id i := i]> self).
Proof. intros H. by apply map_Forall_insert_2. Qed.

(** [register] and [update] share the registry between them: one identity goes
    through exactly one of the two, keeps the registry well formed, is what [get]
    then gives, and leaves every other identity; the other call fails and
    changes nothing. *)
Theorem register_or_update (i : CoopIdentity.t) (self : t) :
  wf self ->
  let run := if get (CoopIdentity.id i) self then update i self else register i self in
  let other := if get (CoopIdentity.id i) self then register i self else update i self in
  run.2 = Ok tt /\ wf run.1 /\ get (CoopIdentity.id i) run.1 = Some i /\
  (forall id, id <> CoopIdentity.id i -> get id run.1 = get id self) /\
  other.1 = self /\ is_ok other.2 = false.
Proof.
  intros Hwf. cbn zeta. unfold get, register, update.
  destruct (self !! CoopIdentity.id i) eqn:E; cbn;
    (split; [done|]; split; [by apply registry_insert|]; split; [apply lookup_insert_eq|];
     split; [intros id Hid; by apply lookup_insert_ne | done]).
Qed.

Lemma list_by_type_spec ty self i :
  i ∈ list_by_type ty self <-> CoopIdentity.identity_type i = ty /\ exists id, get id self = Some i.
Proof.
  unfold list_by_type, get. rewrite list_elem_of_In, filter_In, String.eqb_eq, <- list_elem_of_In, list_elem_of_fmap.
  split.
  - intros [([id j] & -> & H) Ht]. apply elem_of_map_to_list in H. eauto.
  - intros [Ht [id H]]. split; [|done]. exists (id, i). split; [done|]. by apply elem_of_map_to_list.
Qed.

End IdentityRegistry.

Module MemberProfile.

Record t : Type := {
  identity : CoopIdentity.t;
  roles : list string;
  reputation : option f64;
  joined_at : N;
  attributes : gmap string string;
  version_info : option VersionInfo.t;
}.

Definition new (identity : CoopIdentity.t) (joined_at : N) : t := {|
  identity := identity; roles := []; reputation := None; joined_at := joined_at; attributes := ∅;
  version_info := None |}.
Definition add_role (role : string) (self : t) : t := {|
  identity := identity self; roles := push_new role (roles self); reputation := reputation self;
  joined_at := joined_at self; attributes := attributes self; version_info := version_info self |}.
Definition has_role (role : string) (self : t) : bool := existsb (String.eqb role) (roles self).
Definition add_attribute (key value : string) (self : t) : t := {|
  identity := identity self; roles := roles self; reputation := reputation self; joined_at := joined_at self;
  attributes := <[key := value]> (attributes self); version_info := version_info self |}.
Definition set_reputation (score : f64) (self : t) : t := {|
  identity := identity self; roles := roles self; reputation := Some score; joined_at := joined_at self;
  attributes := attributes self; version_info := version_info self |}.
Definition get_cooperative_id (self : t) : option string := CoopIdentity.get_metadata "coop_id" (identity self).
Definition get_namespace (self : t) : string := CoopIdentity.get_namespace (identity self).

(** A role is had exactly when it was added, and once. *)
Theorem roles_are_added (added : list string) (identity : CoopIdentity.t) (joined_at : N) (role : string) :
  let self := foldl (fun self role => add_role role self) (new identity joined_at) added in
  (has_role role self = true <-> role ∈ added) /\ NoDup (roles self).
Proof.
  cbn zeta. unfold has_role. rewrite existsb_elem.
  assert (forall self, (role ∈ roles (foldl (fun self role => add_role role self) self added) <->
                   role ∈ added \/ role ∈ roles self) /\
                  (NoDup (roles self) -> NoDup (roles (foldl (fun self role => add_role role self) self added)))) as H.
  { induction added as [|r added IH]; intros self; cbn; [set_solver|].
    destruct (IH (add_role r self)) as [H1 H2]. rewrite H1. cbn in *. rewrite push_new_elem. split; [set_solver|].
    intros Hn. by apply H2, push_new_NoDup. }
  destruct (H (new identity joined_at)) as [H1 H2]. rewrite H1. cbn in *. split; [set_solver|]. apply H2, NoDup_nil_2.
Qed.

End MemberProfile.

Module Credential.

Record t : Type := {
  id : string;
  credential_type : string;
  issuer_id : string;
  holder_id : string;
  issued_at : N;
  expires_at : option N;
  signature : option bytes;
  claims : gmap string string;
  version_info : option VersionInfo.t;
}.

Definition new (id credential_type issuer_id holder_id : string) (issued_at : N) : t := {|
  id := id; credential_type := credential_type; issuer_id := issuer_id; holder_id := holder_id;
  issued_at := issued_at; expires_at := None; signature := None; claims := ∅; version_info := None |}.
Definition with_expiration (e : N) (self : t) : t := {|
  id := id self; credential_type := credential_type self; issuer_id := issuer_id self; holder_id := holder_id self;
  issued_at := issued_at self; expires_at := Some e; signature := signature self; claims := claims self;
  version_info := version_info self |}.
Definition add_claim (key value : string) (self : t) : t := {|
  id := id self; credential_type := credential_type self; issuer_id := issuer_id self; holder_id := holder_id self;
  issued_at := issued_at self; expires_at := expires_at self; signature := signature self;
  claims := <[key := value]> (claims self); version_info := version_info self |}.
Definition sign (sig : bytes) (self : t) : t := {|
  id := id self; credential_type := credential_type self; issuer_id := issuer_id self; holder_id := holder_id self;
  issued_at := issued_at self; expires_at := expires_at self; signature := Some sig; claims := claims self;
  version_info := version_info self |}.
Definition is_expired (current_time : N) (self : t) : bool := after_expiration (expires_at self) current_time.
Definition is_signed (self : t) : bool := match signature self with Some _ => true | None => false end.
Definition get_namespace (self : t) : string := "credentials/" +:+ credential_type self +:+ "/" +:+ id self.

(** A claim added after signing leaves the credential signed: the signature is
    of what the credential was. *)
Theorem claims_change_under_the_signature (sig : bytes) (key value : string) (self : t) :
  is_signed (add_claim key value (sign sig self)) = true /\
  signature (add_claim key value (sign sig self)) = Some sig /\
  claims (add_claim key value (sign sig self)) !! key = Some value.
Proof. cbn. by rewrite lookup_insert_eq. Qed.

End Credential.

Module DelegationLink.

Record t : Type := {
  id : string;
  delegator_id : string;
  delegate_id : string;
  delegation_type : string;
  permissions : list string;
  created_at : N;
  expires_at : option N;
  signature : option bytes;
  attributes : gmap string string;
  version_info : option VersionInfo.t;
}.

Definition new (id delegator_id delegate_id delegation_type : string) (created_at : N) : t := {|
  id := id; delegator_id := delegator_id; delegate_id := delegate_id; delegation_type := delegation_type;
  permissions := []; created_at := created_at; expires_at := None; signature := None; attributes := ∅;
  version_info := None |}.
Definition with_permissions (l : list string) (self : t) : t := {|
  id := id self; delegator_id := delegator_id self; delegate_id := delegate_id self;
  delegation_type := delegation_type self; permissions := l; created_at := created_at self;
  expires_at := expires_at self; signature := signature self; attributes := attributes self;
  version_info := version_info self |}.
Definition add_permission (permission : string) (self : t) : t :=
  with_permissions (push_new permission (permissions self)) self.
Definition with_expiration (e : N) (self : t) : t := {|
  id := id self; delegator_id := delegator_id self; delegate_id := delegate_id self;
  delegation_type := delegation_type self; permissions := permissions self; created_at := created_at self;
  expires_at := Some e; signature := signature self; attributes := attributes self;
  version_info := version_info self |}.
Definition add_attribute (key value : string) (self : t) : t := {|
  id := id self; delegator_id := delegator_id self; delegate_id := delegate_id self;
  delegation_type := delegation_type self; permissions := permissions self; created_at := created_at self;
  expires_at := expires_at self; signature := signature self; attributes := <[key := value]> (attributes self);
  version_info := version_info self |}.
Definition sign (sig : bytes) (self : t) : t := {|
  id := id self; delegator_id := delegator_id self; delegate_id := delegate_id self;
  delegation_type := delegation_type self; permissions := permissions self; created_at := created_at self;
  expires_at := expires_at self; signature := Some sig; attributes := attributes self;
  version_info := version_info self |}.
Definition is_expired (current_time : N) (self : t) : bool := after_expiration (expires_at self) current_time.
Definition has_permission (permission : string) (self : t) : bool :=
  existsb (String.eqb permission) (permissions self).
Definition is_signed (self : t) : bool := match signature self with Some _ => true | None => false end.
Definition get_namespace (self : t) : string := "delegations/" +:+ delegation_type self +:+ "/" +:+ id self.

(** Adding a permission gives that one and no other; permissions are only
    listed once. *)
Theorem add_permission_gives (p q : string) (self : t) :
  (has_permission q (add_permission p self) = true <-> q = p \/ has_permission q self = true) /\
  (NoDup (permissions self) -> NoDup (permissions (add_permission p self))).
Proof.
  unfold has_permission. rewrite !existsb_elem. cbn. rewrite push_new_elem. split; [done|]. apply push_new_NoDup.
Qed.

(** A delegation that has expired stays expired, and keeps its permissions. *)
Theorem expired_delegations (e now later : N) (p : string) (self : t) :
  (now <= later)%N ->
  (is_expired now (with_expiration e self) = true -> is_expired later (with_expiration e self) = true) /\
  has_permission p (with_expiration e self) = has_permission p self.
Proof. intros Ht. split; [by apply expiration_is_final | done]. Qed.

End DelegationLink.

(** ** A concrete run, with keys that sign by their own bytes *)
Module IdentityExamples.

Definition zeros : bytes := "00000000000000000000000000000000".
Definition public (k : bytes) : bytes := if Nat.eqb (String.length k) 32 then k else zeros.

#[local] Instance keys : KeyCalls := {|
  verifying_key := public;
  verifying_key_from_bytes _ := Ok tt;
  ed25519_sign k _ := public k +:+ public k;
  ed25519_verify k _ s := if String.eqb s (k +:+ k) then Ok tt else Err "signature error";
  multibase_encode b := "z" +:+ b;
  multibase_decode s := match s with String "z" b => Ok b | _ => Err "unknown base" end;
  public_json i := Ok (pi_did i);
|}.

Lemma public_size k : String.length (public k) = 32.
Proof. unfold public. by destruct (Nat.eqb_spec (String.length k) 32) as [->|]. Qed.
#[local] Instance keys_laws : KeyLaws.
Proof.
  split; intros; cbn; rewrite ?length_str_app, ?public_size, ?String.eqb_refl; try done.
Qed.

Lemma signatures_are_verified_witness :
  exists signature self,
    IdentityKeys.new zeros "ann" None "member" None = Ok self /\
    IdentityKeys.sign "yes" self = Ok signature /\ IdentityKeys.verify "yes" signature self = Ok tt.
Proof.
  edestruct (IdentityKeys.signatures_are_verified zeros "ann" None "member" None _ "yes" "coop_id" "blue" eq_refl eq_refl)
    as (s & H1 & H2 & _).
  eexists s, _. split; [reflexivity|]. split; [exact H1|exact H2].
Defined.

(** A short key is refused, and so is a signature that is not one. *)
Example refusals :
  IdentityKeys.sized 32 "short" = Err IdentityError.InvalidKeyMaterial /\
  (self ← IdentityKeys.new zeros "ann" None "member" None; IdentityKeys.verify "yes" "signature" self) =
    Err (IdentityError.MultibaseError "Invalid signature format: unknown base").
Proof. vm_compute. auto. Qed.

End IdentityExamples.
