(* ===== verification/Log.v ===== *)
(** * The log: events.rs

    An event is printed, in the format that [set_log_format] chose, and appended
    to the file that [set_log_file] chose.  [Log.state] holds both choices, what
    was printed and the file system.  The choices are behind locks, that no
    panic poisons.  The present time as a text is an argument; serde's JSON of
    an event and [str::to_uppercase] are parameters. *)
From S2P Require Import Prelude Float64 Text Ops Auth Storage InMemory FileSystem.

Record Event : Type := {
  level : string; tag : string; message : string; timestamp : string; data : option string }.

Inductive LogFormat : Type := Pretty | Json.

(** Why [emit] fails. *)
Inductive LogError : Type := Io (e : IoError) | Unserializable (e : string).

Class LogCalls : Type := {
  event_json : Event -> res string string;
  to_uppercase : string -> string;
}.

Module Log.

Record state : Type := {
  log_format : LogFormat;
  log_file : option string;
  printed : list string;
  files : FileSystem.t;
}.
Abbreviation M := (stm state LogError).

Definition new (fs : FileSystem.t) : state :=
  {| log_format := Pretty; log_file := None; printed := []; files := fs |}.

(** *** Events *)

Definition event (now level tag message : string) : Event :=
  {| level := level; tag := tag; message := message; timestamp := now; data := None |}.
Definition with_data (data : string) (self : Event) : Event :=
  {| level := level self; tag := tag self; message := message self; timestamp := timestamp self;
     data := Some data |}.
Definition info (now tag message : string) : Event := event now "info" tag message.
Definition warn (now tag message : string) : Event := event now "warn" tag message.
Definition error (now tag message : string) : Event := event now "error" tag message.

Definition escape (code : string) : string := String (ascii_of_nat 27) ("[" +:+ code +:+ "m").
Definition level_color (level : string) : string :=
  if String.eqb level "info" then escape "32"
  else if String.eqb level "warn" then escape "33"
  else if String.eqb level "error" then escape "31"
  else escape "0".

(** What follows the first T, up to the first dot. *)
Definition time_str (timestamp : string) : string :=
  let after := match split_char "T" timestamp with _ :: t :: _ => t | _ => timestamp end in
  match split_char "." after with t :: _ => t | [] => EmptyString end.

Section Emit.

Context `{LC : LogCalls} (cwd : FileSystem.path).

Definition line_feed : string := String (ascii_of_nat 10) EmptyString.

Definition plain_line (self : Event) : string :=
  timestamp self +:+ " [" +:+ to_uppercase (level self) +:+ "] [" +:+ tag self +:+ "] " +:+ message self.
Definition pretty_line (self : Event) : string :=
  level_color (level self) +:+ time_str (timestamp self) +:+ " [" +:+ to_uppercase (level self) +:+ "] [" +:+
  tag self +:+ "] " +:+ message self +:+ escape "0".

Definition println (line : string) : M unit := modify (fun s => {|
  log_format := log_format s; log_file := log_file s; printed := printed s ++ [line]; files := files s |}).
Definition in_files {A} (m : stm FileSystem.t IoError A) : M A := fun s =>
  let '(fs, r) := m (files s) in
  ({| log_format := log_format s; log_file := log_file s; printed := printed s; files := fs |}, map_err Io r).

(** A text whose last component is a name. *)
Definition append_to_file (file_path content : string) : M unit :=
  let path := FileSystem.join cwd file_path in
  s ← get_state;
  _ ← (if FileSystem.exists_ (removelast path) (files s) then mret tt
       else in_files (FileSystem.create_dir_all (removelast path)));
  in_files (FileSystem.append path (content +:+ line_feed)).

Definition to_log_file (log_file : option string) (line : string) : M unit :=
  match log_file with Some file_path => append_to_file file_path line | None => mret tt end.
Definition emit_pretty (self : Event) (log_file : option string) : M unit :=
  _ ← println (pretty_line self); to_log_file log_file (plain_line self).
Definition emit_json (self : Event) (log_file : option string) : M unit :=
  json ← lift (map_err Unserializable (event_json self));
  _ ← println json; to_log_file log_file json.
Definition emit (self : Event) : M unit :=
  s ← get_state;
  match log_format s with
  | Pretty => emit_pretty self (log_file s)
  | Json => emit_json self (log_file s)
  end.

Definition set_log_format (format : LogFormat) : M unit := modify (fun s => {|
  log_format := format; log_file := log_file s; printed := printed s; files := files s |}).
Definition set_log_file (file_path : option string) : M unit := modify (fun s => {|
  log_format := log_format s; log_file := file_path; printed := printed s; files := files s |}).

End Emit.

End Log.

(** ** Properties *)
Module LogTheorems.

Import Log.

Section Emit.

Context `{LC : LogCalls} (cwd : FileSystem.path).

(** The line an event adds to the log file in the present format. *)
Definition file_line (s : state) (e : Event) : res string string :=
  match log_format s with Pretty => Ok (plain_line e) | Json => event_json e end.

Definition log_content (path : FileSystem.path) (s : state) : bytes :=
  default EmptyString (FileSystem.file path (files s)).

Lemma create_keeps_files p fs q : FileSystem.file q (FileSystem.create_dir_all p fs).1 = FileSystem.file q fs.
Proof. unfold FileSystem.create_dir_all. by repeat case_match. Qed.

Lemma append_spec p b fs q :
  FileSystem.file q (FileSystem.append p b fs).1 =
  if is_ok (FileSystem.append p b fs).2 && FileSystem.path_eqb q p
  then Some (default EmptyString (FileSystem.file p fs) +:+ b) else FileSystem.file q fs.
Proof.
  unfold FileSystem.append, FileSystem.write. destruct (FileSystem.is_dir p fs); [done|].
  by destruct (FileSystem.is_dir (removelast p) fs).
Qed.

Lemma append_to_file_spec file_path content s q :
  let path := FileSystem.join cwd file_path in
  let out := append_to_file cwd file_path content s in
  FileSystem.file q (files out.1) =
  if is_ok out.2 && FileSystem.path_eqb q path
  then Some (log_content path s +:+ (content +:+ line_feed)) else FileSystem.file q (files s).
Proof.
  cbn zeta. unfold append_to_file, mbind, stm_bind, get_state, log_content.
  assert (forall s1, (forall q, FileSystem.file q (files s1) = FileSystem.file q (files s)) ->
    let out := in_files (FileSystem.append (FileSystem.join cwd file_path) (content +:+ line_feed)) s1 in
    FileSystem.file q (files out.1) =
    if is_ok out.2 && FileSystem.path_eqb q (FileSystem.join cwd file_path)
    then Some (default EmptyString (FileSystem.file (FileSystem.join cwd file_path) (files s)) +:+ (content +:+ line_feed))
    else FileSystem.file q (files s)) as Happ.
  { intros s1 H1. cbn zeta. unfold in_files.
    pose proof (append_spec (FileSystem.join cwd file_path) (content +:+ line_feed) (files s1) q) as Ha.
    destruct (FileSystem.append _ _ _) as [fs r]. cbn in *. rewrite Ha, !H1. by destruct r. }
  destruct (FileSystem.exists_ _ _); [by apply Happ|].
  pose proof (create_keeps_files (removelast (FileSystem.join cwd file_path)) (files s)) as Hc.
  destruct (in_files (FileSystem.create_dir_all _) s) as [s1 r] eqn:E. unfold in_files in E.
  destruct (FileSystem.create_dir_all _ (files s)) as [fs r']. injection E as <- <-.
  destruct r' as [[]| | |]; [by apply Happ|by apply Hc ..].
Qed.

Lemma to_log_file_spec line s q :
  let out := to_log_file cwd (log_file s) line s in
  FileSystem.file q (files out.1) =
  match log_file s with
  | Some file_path =>
      if is_ok out.2 && FileSystem.path_eqb q (FileSystem.join cwd file_path)
      then Some (log_content (FileSystem.join cwd file_path) s +:+ (line +:+ line_feed))
      else FileSystem.file q (files s)
  | None => FileSystem.file q (files s)
  end.
Proof. cbn zeta. unfold to_log_file. destruct (log_file s); [apply append_to_file_spec | done]. Qed.

(** An event that is emitted adds its line to the end of the log file, and one
    that is not adds nothing; without a log file, and in every other file,
    nothing changes. *)
Theorem log_only_grows (e : Event) (s : state) (q : FileSystem.path) :
  let out := emit cwd e s in
  FileSystem.file q (files out.1) =
  match log_file s, out.2, file_line s e with
  | Some file_path, Ok _, Ok line =>
      if FileSystem.path_eqb q (FileSystem.join cwd file_path)
      then Some (log_content (FileSystem.join cwd file_path) s +:+ (line +:+ line_feed))
      else FileSystem.file q (files s)
  | _, _, _ => FileSystem.file q (files s)
  end.
Proof.
  cbn zeta. unfold emit, mbind, stm_bind, get_state, file_line.
  assert (forall shown line,
    let out := (_ ← println shown; to_log_file cwd (log_file s) line) s in
    FileSystem.file q (files out.1) =
    match log_file s, out.2 with
    | Some file_path, Ok _ =>
        if FileSystem.path_eqb q (FileSystem.join cwd file_path)
        then Some (log_content (FileSystem.join cwd file_path) s +:+ (line +:+ line_feed))
        else FileSystem.file q (files s)
    | _, _ => FileSystem.file q (files s)
    end) as H.
  { intros shown line. cbn zeta. unfold mbind, stm_bind, println, modify.
    pose proof (to_log_file_spec line {| log_format := log_format s; log_file := log_file s;
      printed := printed s ++ [shown]; files := files s |} q) as Hl. cbn in Hl. rewrite Hl.
    destruct (log_file s); [|done]. unfold log_content. by destruct (to_log_file _ _ _ _).2. }
  destruct (log_format s).
  - unfold emit_pretty. rewrite H. destruct (log_file s); [by case_match|done].
  - destruct (event_json e) as [json| | |] eqn:E;
      [|by unfold emit_json; rewrite E; destruct (log_file s) ..].
    assert (emit_json cwd e (log_file s) s = (_ ← println json; to_log_file cwd (log_file s) json) s) as ->
      by (unfold emit_json, mbind, stm_bind, lift; by rewrite E).
    rewrite H. destruct (log_file s); [by case_match|done].
Qed.

Lemma to_log_file_settings lf line s :
  let out := to_log_file cwd lf line s in
  log_format out.1 = log_format s /\ log_file out.1 = log_file s /\ printed out.1 = printed s.
Proof.
  destruct lf as [f|]; [|done]. cbn zeta. unfold to_log_file, append_to_file, mbind, stm_bind, get_state.
  assert (forall A (m : stm FileSystem.t IoError A) s1, let out := in_files m s1 in
    log_format out.1 = log_format s1 /\ log_file out.1 = log_file s1 /\ printed out.1 = printed s1) as Hi.
  { intros A m s1. unfold in_files. by destruct (m (files s1)). }
  destruct (FileSystem.exists_ _ _); [by apply Hi|].
  specialize (Hi _ (FileSystem.create_dir_all (removelast (FileSystem.join cwd f)))) as H1.
  specialize (H1 s). destruct (in_files _ s) as [s1 [[]| | |]]; cbn in H1; try done.
  destruct (Hi _ (FileSystem.append (FileSystem.join cwd f) (line +:+ line_feed)) s1) as (-> & -> & ->). done.
Qed.

(** An event never changes where events go, and is printed at most once. *)
Theorem emit_settings (e : Event) (s : state) :
  let out := emit cwd e s in
  log_format out.1 = log_format s /\ log_file out.1 = log_file s /\
  exists shown, printed out.1 = printed s ++ shown /\ length shown <= 1.
Proof.
  cbn zeta. unfold emit, mbind, stm_bind, get_state. destruct (log_format s) eqn:E.
  - unfold emit_pretty, mbind, stm_bind, println, modify.
    destruct (to_log_file_settings (log_file s) (plain_line e) {| log_format := log_format s; log_file := log_file s;
      printed := printed s ++ [pretty_line e]; files := files s |}) as (-> & -> & ->).
    split; [done|]. split; [done|]. by exists [pretty_line e].
  - unfold emit_json, mbind, stm_bind, lift. destruct (event_json e) as [json| | |]; cbn;
      try (split; [done|]; split; [done|]; exists []; rewrite app_nil_r; split; [done|]; cbn; lia).
    destruct (to_log_file_settings (log_file s) json {| log_format := log_format s; log_file := log_file s;
      printed := printed s ++ [json]; files := files s |}) as (-> & -> & ->).
    split; [done|]. split; [done|]. exists [json]. split; [done|]. cbn. lia.
Qed.

Fixpoint emit_all (es : list Event) : M unit :=
  match es with [] => mret tt | e :: es' => _ ← emit cwd e; emit_all es' end.

(** The lines of some events, one after the other. *)
Fixpoint file_text (es : list Event) : string :=
  match es with [] => EmptyString | e :: es' => (plain_line e +:+ line_feed) +:+ file_text es' end.

(** C40. Events that are all emitted, in the readable format, are in the log
    file in their order, after what was there. *)
Theorem log_is_the_events (es : list Event) (s s' : state) (file_path : string) :
  log_format s = Pretty -> log_file s = Some file_path -> emit_all es s = (s', Ok tt) ->
  let path := FileSystem.join cwd file_path in
  log_content path s' = log_content path s +:+ file_text es.
Proof.
  cbn zeta. revert s. induction es as [|e es IH]; intros s Hf Hl H; cbn [emit_all file_text] in *.
  - injection H as <-. by rewrite str_app_nil_r.
  - apply stm_bind_ok in H as (s1 & [] & H1 & H2).
    pose proof (emit_settings e s) as (Ef & El & _). pose proof (log_only_grows e s (FileSystem.join cwd file_path)) as Hg.
    rewrite H1 in *. cbn in Ef, El, Hg. unfold file_line in Hg. rewrite Hl, Hf, FileSystem.path_eqb_refl in Hg.
    rewrite (IH s1) by (done || congruence). unfold log_content at 1. rewrite Hg. apply str_app_assoc.
Qed.

End Emit.

End LogTheorems.

Module LogExamples.

Import Log.

#[local] Instance calls : LogCalls := {|
  event_json _ := Err "no JSON";
  to_uppercase s := if String.eqb s "info" then "INFO" else s;
|}.

Definition logging : state := (set_log_file (Some "vm.log") (new FileSystem.empty)).1.

Lemma log_is_the_events_witness :
  let es := [info "2024-01-02T03:04:05.6Z" "vm" "start"; warn "2024-01-02T03:04:06.7Z" "vm" "stop"] in
  let path := FileSystem.join [] "vm.log" in
  exists s', LogTheorems.emit_all [] es logging = (s', Ok tt) /\
    LogTheorems.log_content path s' = LogTheorems.log_content path logging +:+ LogTheorems.file_text es.
Proof.
  eexists. split; [vm_compute; reflexivity|].
  apply (LogTheorems.log_is_the_events [] _ logging _ "vm.log" eq_refl eq_refl). vm_compute. reflexivity.
Defined.

(** A line feed in a message makes a second line, which reads as an event. *)
Example a_message_of_two_lines :
  LogTheorems.file_text [info "t1" "vm" ("stop" +:+ line_feed +:+ "t2 [INFO] [vm] admitted")] =
  LogTheorems.file_text [info "t1" "vm" "stop"; info "t2" "vm" "admitted"].
Proof. reflexivity. Qed.

End LogExamples.
