(* ===== verification/DagSync.v ===== *)
(** * The DAG commands: cli/dag_sync.rs and their part of main.rs

    The commands answer with figures written in the source and change nothing:
    a command is a function of its arguments, of whether the machine has a
    network node and of the clock.  What is logged, and the pauses, are left out.
    [parse_peer] reads and prints again a multiaddress, and [elapsed] is the time
    a sync took as a text. *)
From S2P Require Import Prelude Float64 Text Ops Auth Storage FileSystem Machine Templates TemplateCommands Engine.

Inductive DagSubcommand : Type :=
  | Sync (peer : string) (namespace : option string) (limit : N) (verbose : bool)
  | Status (verbose : bool) (namespace : option string)
  | Export (output : FileSystem.path) (namespace : option string) (format : string)
  | Import (input : FileSystem.path) (namespace : option string) (force : bool)
  | Gossip (enable : bool) (interval max_peers : N) (namespaces : option string).

(** What the command line holds of an option or flag, by subcommand. *)
Inductive DagMatches : Type :=
  | SyncMatches (peer namespace limit : option string) (verbose : bool)
  | StatusMatches (verbose : bool) (namespace : option string)
  | ExportMatches (output : option FileSystem.path) (namespace format : option string)
  | ImportMatches (input : option FileSystem.path) (namespace : option string) (force : bool)
  | GossipMatches (enable : bool) (interval max_peers namespaces : option string)
  | OtherMatches.

(** [Output] as main.rs takes it apart. *)
Inductive Output : Type := Info (message : string) | Warning (message : string) | OutputError (message : string).

Module DagSync.

Section Commands.

Context (parse_peer : string -> res string string) (elapsed : string) (path_display : FileSystem.path -> string).
Context (federated : bool).

Definition get_network_node : res string unit :=
  if federated then Ok tt else Err "Federation mode is not enabled".

Definition sync_with_peer (peer_addr : string) (namespace : option string) (limit : N) (verbose : bool) :
    res string Output :=
  peer ← map_err (fun e => "Invalid peer address: " +:+ e) (parse_peer peer_addr);
  _ ← get_network_node;
  let vertices_synced := 120%N in
  let bytes_transferred := (1024 * 53)%N in
  mret (Info ("DAG sync completed with peer " +:+ peer +:+ ":" +:+ nl +:+
    "- Vertices synced: " +:+ u64_to_string vertices_synced +:+ nl +:+
    "- Data transferred: " +:+
    f64_to_fixed 2 (f64_div (f64_of_Z (Z.of_N bytes_transferred)) (f64_of_Z 1024)) +:+ " KB" +:+ nl +:+
    "- Time elapsed: " +:+ elapsed)).

(** Seconds, by the clock at the start and at the end of the command. *)
Definition last_update (started now : N) : res string string :=
  if (started <? 120)%N then Panic "attempt to subtract with overflow"
  else
    let last_updated := (started - 120)%N in
    if (now <? last_updated)%N then Panic "attempt to subtract with overflow"
    else
      let seconds_ago := (now - last_updated)%N in
      Ok ("Last updated: " +:+
          (if (seconds_ago <? 60)%N then u64_to_string seconds_ago +:+ " seconds ago"
           else if (seconds_ago <? 3600)%N then u64_to_string (seconds_ago / 60) +:+ " minutes ago"
           else u64_to_string (seconds_ago / 3600) +:+ " hours ago") +:+ nl).

Definition detailed_statistics : string :=
  nl +:+ "Detailed Statistics:" +:+ nl +:+ "--------------------" +:+ nl +:+
  "Vertex Types:" +:+ nl +:+ "- Proposal: 142" +:+ nl +:+ "- Vote: 987" +:+ nl +:+ "- Identity: 35" +:+ nl +:+
  "- Storage: 271" +:+ nl +:+
  nl +:+ "Space Usage:" +:+ nl +:+ "- Total: 2.75 MB" +:+ nl +:+ "- Governance: 1.2 MB" +:+ nl +:+
  "- Identity: 0.5 MB" +:+ nl +:+ "- Storage: 1.05 MB" +:+ nl +:+
  nl +:+ "Sync History:" +:+ nl +:+ "- Last full sync: 2 hours ago" +:+ nl +:+ "- Peers synced with: 5" +:+ nl +:+
  "- Gossip messages last hour: 23" +:+ nl.

Definition show_dag_status (started now : N) (verbose : bool) (namespace : option string) : res string Output :=
  let head :=
    "DAG Status" +:+ match namespace with Some ns => " (namespace: " +:+ ns +:+ ")" | None => EmptyString end +:+ nl +:+
    "--------------------" +:+ nl +:+ "Total vertices: 1435" +:+ nl +:+ "Total edges: 2301" +:+ nl +:+
    match namespace with
    | Some ns =>
        "Namespace '" +:+ ns +:+ "' vertices: 245" +:+ nl +:+
        "Namespace '" +:+ ns +:+ "' size: " +:+ f64_to_fixed 2 (f64_of_decimal false 1125 (-1)) +:+ " KB" +:+ nl
    | None =>
        "Namespaces:" +:+ nl +:+ "- governance" +:+ nl +:+ "- identity" +:+ nl +:+ "- storage" +:+ nl
    end in
  updated ← last_update started now;
  mret (Info (head +:+ updated +:+ if verbose then detailed_statistics else EmptyString)).

Definition export_dag (output_path : FileSystem.path) (namespace : option string) (format : string) : res string Output :=
  if negb (existsb (String.eqb format) ["json"; "msgpack"]) then
    Ok (OutputError ("Unsupported export format: " +:+ format))
  else
    Ok (Info ("DAG state exported to " +:+ path_display output_path +:+ ":" +:+ nl +:+
      "- Format: " +:+ format +:+ nl +:+ "- Vertices exported: 1435" +:+ nl +:+
      "- File size: " +:+ f64_to_fixed 2 (f64_of_decimal false 2486 (-1)) +:+ " KB" +:+ nl +:+
      "- Namespace: " +:+ default "all" namespace)).

Definition import_dag (input_path : FileSystem.path) (namespace : option string) (force : bool) : res string Output :=
  Ok (Info ("DAG state imported from " +:+ path_display input_path +:+ ":" +:+ nl +:+
    "- Vertices imported: 1250" +:+ nl +:+ "- Vertices skipped: 185" +:+ nl +:+
    (if force then "- Conflicts resolved (force mode): 3" else "- Conflicts detected: 3") +:+ nl +:+
    "- Target namespace: " +:+ default "from file" namespace +:+ nl)).

Definition parse_namespaces (namespaces : option string) : list string :=
  match namespaces with
  | Some ns_str => List.filter (fun s => negb (String.eqb s EmptyString)) (trim <$> split_char "," ns_str)
  | None => []
  end.

Definition configure_gossip (enable : bool) (interval max_peers : N) (namespaces : option string) : res string Output :=
  _ ← get_network_node;
  let namespaces_vec := parse_namespaces namespaces in
  let ns_str := match namespaces_vec with [] => "all" | _ => String.concat ", " namespaces_vec end in
  mret (Info ("DAG gossip sync " +:+ (if enable then "enabled" else "disabled") +:+ ":" +:+ nl +:+
    "- Sync interval: " +:+ u64_to_string interval +:+ " seconds" +:+ nl +:+
    "- Max peers: " +:+ u64_to_string max_peers +:+ nl +:+ "- Namespaces: " +:+ ns_str)).

Definition execute (started now : N) (cmd : DagSubcommand) : res string Output :=
  match cmd with
  | Sync peer namespace limit verbose => sync_with_peer peer namespace limit verbose
  | Status verbose namespace => show_dag_status started now verbose namespace
  | Export output namespace format => export_dag output namespace format
  | Import input namespace force => import_dag input namespace force
  | Gossip enable interval max_peers namespaces => configure_gossip enable interval max_peers namespaces
  end.

(** *** main.rs *)

Definition required {A} (name : string) (arg : option A) : res string A :=
  match arg with Some v => Ok v | None => Err ("Missing required argument: " +:+ name) end.
(** [.map(|s| s.parse().unwrap_or(n)).unwrap_or(n)]. *)
Definition number_or (n : N) (arg : option string) : N :=
  match arg with Some s => default n (parse_u64 s) | None => n end.

Definition dag_command (m : DagMatches) : res string DagSubcommand :=
  match m with
  | SyncMatches peer namespace limit verbose =>
      peer ← required "peer" peer; mret (Sync peer namespace (number_or 1000 limit) verbose)
  | StatusMatches verbose namespace => Ok (Status verbose namespace)
  | ExportMatches output namespace format =>
      output ← required "output" output; mret (Export output namespace (default "json" format))
  | ImportMatches input namespace force =>
      input ← required "input" input; mret (Import input namespace force)
  | GossipMatches enable interval max_peers namespaces =>
      Ok (Gossip enable (number_or 300 interval) (number_or 3 max_peers) namespaces)
  | OtherMatches => Err "Unknown dag subcommand"
  end.

(** What is printed. *)
Definition run (started now : N) (m : DagMatches) : res string string :=
  cmd ← dag_command m;
  output ← execute started now cmd;
  match output with
  | Info message => Ok message
  | Warning message => Ok ("⚠️  Warning: " +:+ message)
  | OutputError message => Err message
  end.

End Commands.

End DagSync.

(** ** Properties *)
Module DagSyncTheorems.

Import DagSync.

Section Commands.

Context (parse_peer : string -> res string string) (elapsed : string) (path_display : FileSystem.path -> string).

(** The machine of main.rs has no network node: from the command line, a sync
    and a change of gossip fail, whatever they are asked. *)
Theorem network_commands_fail started now :
  (forall peer namespace limit verbose,
     is_ok (run parse_peer elapsed path_display false started now (SyncMatches peer namespace limit verbose)) = false) /\
  (forall enable interval max_peers namespaces,
     run parse_peer elapsed path_display false started now (GossipMatches enable interval max_peers namespaces) =
     Err "Federation mode is not enabled").
Proof.
  split; [|done]. intros [peer|] namespace limit verbose; [|done]. unfold run, execute, sync_with_peer. cbn.
  by destruct (parse_peer peer).
Qed.

(** An export or import does not read the machine or the disk: its answer is the
    same for all of them, and an import always succeeds. *)
Theorem imports_always_succeed federated started now input namespace force :
  run parse_peer elapsed path_display federated started now (ImportMatches (Some input) namespace force) =
  run parse_peer elapsed path_display (negb federated) 0 0 (ImportMatches (Some input) namespace force) /\
  is_ok (run parse_peer elapsed path_display federated started now (ImportMatches (Some input) namespace force)) = true.
Proof. done. Qed.

(** The status is always two minutes old, unless the command took a minute; on
    a clock that is not two minutes past its origin there is none. *)
Theorem status_is_two_minutes_old (started now : N) :
  ((120 <= started <= now)%N -> (now < started + 60)%N ->
     last_update started now = Ok ("Last updated: 2 minutes ago" +:+ nl)) /\
  ((started < 120)%N -> forall verbose namespace,
     is_ok (show_dag_status started now verbose namespace) = false).
Proof.
  unfold show_dag_status, last_update. split.
  - intros [H1 H2] H3. rewrite (proj2 (N.ltb_ge _ _) H1), (proj2 (N.ltb_ge _ _)) by lia.
    rewrite (proj2 (N.ltb_ge (now - (started - 120)) 60)), (proj2 (N.ltb_lt _ _)) by lia.
    replace ((now - (started - 120)) / 60)%N with 2%N; [done|].
    apply (N.div_unique _ 60 2 (now - started)); lia.
  - intros H verbose namespace. by rewrite (proj2 (N.ltb_lt _ _) H).
Qed.

(** A limit or interval that is not a number is taken for the default. *)
Theorem numbers_fall_back (n : N) (s : string) : parse_u64 s = None -> number_or n (Some s) = number_or n None.
Proof. intros H. cbn. by rewrite H. Qed.

(** No namespace is empty or has blanks around it. *)
Theorem namespaces_are_trimmed (namespaces : option string) (ns : string) :
  ns ∈ parse_namespaces namespaces -> ns <> EmptyString /\ exists s, ns = trim s.
Proof.
  destruct namespaces as [l|]; cbn; [|by intros ?%elem_of_nil].
  intros [H1 H2]%list_elem_of_In%filter_In. apply list_elem_of_In, list_elem_of_fmap in H1 as (s & -> & _).
  split; [|by exists s]. intros E. by rewrite E in H2.
Qed.

End Commands.

Example exported_size : f64_to_fixed 2 (f64_of_decimal false 2486 (-1)) = "248.60".
Proof. vm_compute. reflexivity. Qed.
Example gossip_namespaces : parse_namespaces (Some " governance, ,storage,") = ["governance"; "storage"].
Proof. vm_compute. reflexivity. Qed.
Example status_text :
  run Ok "500.00ms" (String.concat "/") false 1000 1003 (StatusMatches false (Some "votes")) =
  Ok (String.concat nl ["DAG Status (namespace: votes)"; "--------------------"; "Total vertices: 1435";
        "Total edges: 2301"; "Namespace 'votes' vertices: 245"; "Namespace 'votes' size: 112.50 KB";
        "Last updated: 2 minutes ago"; EmptyString]).
Proof. vm_compute. reflexivity. Qed.

End DagSyncTheorems.
