(* ===== verification/VmFederation.v ===== *)
(** * The federation of a machine: vm/federation.rs and vm/federation_ext.rs

    Both files give the machine the same methods, by different means.
    [FederationVM] and [ProposalExecutor] are federation.rs, where the machine
    has a node and the node a log store, whose methods are not declared: they
    are the parameters [NodeLog].  [VMFederationExtension] is federation_ext.rs,
    over the machine's own storage; vm/vm.rs has these methods again
    ([FederationCommands]).

    federation.rs also names variants that messages.rs does not have, the
    default scope and voting model: they are parameters, with the derived
    [Debug] texts.  An error is its text. *)
From S2P Require Import Prelude Float64 Text Values Ops Stack Memory Auth Storage InMemory Economic Executor.
From S2P Require Import Ledger Trace Machine Governance VM Lifecycle Comments Proposals Federation FederationNode FederationCommands.

Inductive FederationVMError : Type :=
  | NotEnabled | NetworkError (s : string) | StoreError (s : string) | MessageError (s : string).

Definition FederationVMError_to_string (e : FederationVMError) : string :=
  match e with
  | NotEnabled => "Federation is not enabled"
  | NetworkError s => "Network error: " +:+ s
  | StoreError s => "Storage error: " +:+ s
  | MessageError s => "Message error: " +:+ s
  end.

(** A JSON message; what is not a text, a number or null is its JSON. *)
Inductive LogField : Type := LText (s : string) | LInt (n : Z) | LNull | LJson (s : string).
Inductive LogMessage : Type := LObject (fields : gmap string LogField) | LOther (json : string).

(** The log store of a node. *)
Class NodeLog (F : Type) : Type := {
  count_proposals : F -> res string N;
  count_votes : F -> res string N;
  store_raw : string -> string -> string -> stm F string unit;
  message_to_string : LogMessage -> string;
}.

(** *** federation.rs *)
Module FederationVM.

Section Machine.

Context {F : Type} `{NL : !NodeLog F} {V : Type}.

(** A machine, with the log store of its node if it has one. *)
Record t : Type := { vm : V; federation_node : option F }.

Definition not_enabled {A} : res string A := Err (FederationVMError_to_string NotEnabled).
Definition get_network_node (self : t) : option F := federation_node self.
Definition count_federated_proposals (self : t) : res string N :=
  match federation_node self with Some storage => count_proposals storage | None => not_enabled end.
Definition count_federated_votes (self : t) : res string N :=
  match federation_node self with Some storage => count_votes storage | None => not_enabled end.

Definition log_entry (timestamp : Z) (auth_context : AuthContext.t) (message : LogMessage) : LogMessage :=
  match message with
  | LObject map =>
      LObject (<["sender_did" := LText (AuthContext.current_identity_did auth_context)]>
                 (<["timestamp" := LInt timestamp]> map))
  | LOther json => LOther json
  end.
Definition federation_log_message (timestamp : Z) (message : LogMessage) (auth_context : AuthContext.t) :
    stm t string unit := fun self =>
  match federation_node self with
  | Some storage =>
      let '(storage', r) :=
        store_raw "logs" ("fed_log:" +:+ i64_to_string timestamp)
          (message_to_string (log_entry timestamp auth_context message)) storage in
      ({| vm := vm self; federation_node := Some storage' |}, r)
  | None => (self, not_enabled)
  end.

End Machine.

Arguments t : clear implicits.

End FederationVM.

Module ProposalExecutor.

Section Executor.

Context {F : Type} `{NL : !NodeLog F} {V : Type}.
Context (Simple : VotingModel) (Local : ProposalScope).
Context (scope_debug : ProposalScope -> string) (model_debug : VotingModel -> string).

Record t : Type := {
  vm : FederationVM.t F V;
  auth_context : AuthContext.t;
  dsl_code : option string;
  bytecode : option bytes;
  parent_hash : option string;
  scope : option ProposalScope;
  voting_model : option VotingModel;
  expires_in : option N;
}.

Definition new (vm : FederationVM.t F V) (auth_context : AuthContext.t) : t := {|
  vm := vm; auth_context := auth_context; dsl_code := None; bytecode := None; parent_hash := None; scope := None;
  voting_model := None; expires_in := None |}.
Definition with_parent_hash (h : string) (self : t) : t := {|
  vm := vm self; auth_context := auth_context self; dsl_code := dsl_code self; bytecode := bytecode self;
  parent_hash := Some h; scope := scope self; voting_model := voting_model self; expires_in := expires_in self |}.
Definition with_scope (sc : ProposalScope) (self : t) : t := {|
  vm := vm self; auth_context := auth_context self; dsl_code := dsl_code self; bytecode := bytecode self;
  parent_hash := parent_hash self; scope := Some sc; voting_model := voting_model self;
  expires_in := expires_in self |}.
Definition with_voting_model (m : VotingModel) (self : t) : t := {|
  vm := vm self; auth_context := auth_context self; dsl_code := dsl_code self; bytecode := bytecode self;
  parent_hash := parent_hash self; scope := scope self; voting_model := Some m; expires_in := expires_in self |}.
Definition with_expiry (seconds : N) (self : t) : t := {|
  vm := vm self; auth_context := auth_context self; dsl_code := dsl_code self; bytecode := bytecode self;
  parent_hash := parent_hash self; scope := scope self; voting_model := voting_model self;
  expires_in := Some seconds |}.
Definition load_dsl (code : string) (self : t) : t := {|
  vm := vm self; auth_context := auth_context self; dsl_code := Some code; bytecode := bytecode self;
  parent_hash := parent_hash self; scope := scope self; voting_model := voting_model self;
  expires_in := expires_in self |}.
(** [file] is the outcome of reading it. *)
Definition load_dsl_file (file : res string string) (self : t) : res string t :=
  code ← file; mret (load_dsl code self).
Definition load_bytecode (code : bytes) (self : t) : t := {|
  vm := vm self; auth_context := auth_context self; dsl_code := dsl_code self; bytecode := Some code;
  parent_hash := parent_hash self; scope := scope self; voting_model := voting_model self;
  expires_in := expires_in self |}.

(** The program and the bytecode are only looked at to write a log line.
    [executed_at] and [timestamp] are two readings of the clock. *)
Definition execute (executed_at timestamp : Z) (self : t) : res string (FederationVM.t F V) :=
  match FederationVM.get_network_node (vm self) with
  | None => Err "Federation is not enabled on this VM"
  | Some _ =>
      let voting_model := default Simple (voting_model self) in
      let scope := default Local (scope self) in
      let log_entry := LObject
        (<["type" := LText "proposal_execution"]>
        (<["scope" := LText (scope_debug scope)]>
        (<["voting_model" := LText (model_debug voting_model)]>
        (<["parent_hash" := match parent_hash self with Some h => LText h | None => LNull end]>
        (<["executed_at" := LInt executed_at]> ∅))))) in
      let '(vm', r) := FederationVM.federation_log_message timestamp log_entry (auth_context self) (vm self) in
      _ ← r; mret vm'
  end.

(** ** Properties *)

(** An execution executes nothing: the machine it returns is the one it was
    given, and the program, the bytecode and the expiry make no difference. *)
Theorem execution_runs_nothing (executed_at timestamp : Z) (self : t) (code : string) (b : bytes) (seconds : N) :
  execute executed_at timestamp (with_expiry seconds (load_bytecode b (load_dsl code self))) =
    execute executed_at timestamp self /\
  (forall vm', execute executed_at timestamp self = Ok vm' ->
     FederationVM.vm vm' = FederationVM.vm (vm self)).
Proof.
  split; [done|]. intros vm'. unfold execute, FederationVM.get_network_node, FederationVM.federation_log_message.
  destruct (FederationVM.federation_node (vm self)) as [storage|]; [|discriminate].
  destruct (store_raw _ _ _ storage) as [storage' [[]| | |]]; cbn; try discriminate. by intros [= <-].
Qed.

(** Every execution that succeeds leaves an entry: its key is the second of the
    execution, so that a store which keeps one text per key forgets the earlier
    of two executions in a second. *)
Theorem executions_are_logged (executed_at timestamp : Z) (self : t) (vm' : FederationVM.t F V) :
  execute executed_at timestamp self = Ok vm' ->
  exists storage storage' json,
    FederationVM.federation_node (vm self) = Some storage /\
    FederationVM.federation_node vm' = Some storage' /\
    store_raw "logs" ("fed_log:" +:+ i64_to_string timestamp) json storage = (storage', Ok tt).
Proof.
  unfold execute, FederationVM.get_network_node, FederationVM.federation_log_message.
  destruct (FederationVM.federation_node (vm self)) as [storage|]; [|discriminate].
  destruct (store_raw _ _ ?[json] storage) as [storage' [[]| | |]] eqn:E; cbn; try discriminate.
  intros [= <-]. exists storage, storage'. by eexists.
Qed.

End Executor.

Arguments t : clear implicits.

End ProposalExecutor.

(** *** federation_ext.rs *)
Module VMFederationExtension.

Section Machine.

Context {S : Type} `{SB : StorageBackend S} `{PL : Platform} `{RD : Renderings} `{SC : SwarmCalls}.
Context `{CH : Chrono} `{UC : Unicode} `{PC : !ProposalCalls} `{FJ : FederationJson} `{FC : FederationCommandCalls}.
Context (count_proposals : S -> res StorageError.t N).

(** A machine with its node. *)
Record t : Type := { vm : VM.t S; network_node : option NetworkNode.t }.

Definition get_network_node (self : t) : option NetworkNode.t := network_node self.
Definition set_network_node (node : NetworkNode.t) (self : t) : t := {| vm := vm self; network_node := Some node |}.

Definition storage_backend (self : t) : res string S :=
  match VM.get_storage_backend (vm self) with Some storage => Ok storage | None => Err "Storage backend not available" end.
Definition count_federated_proposals (self : t) : res string N :=
  storage ← storage_backend self; map_err StorageError.to_string (count_proposals storage).
Definition count_federated_votes (self : t) : res string N :=
  storage ← storage_backend self;
  keys ← map_err (fun e => "Failed to list vote keys: " +:+ StorageError.to_string e)
           (sb_list_keys None VOTES_NAMESPACE None storage);
  Ok (N.of_nat (length keys)).
Definition federation_log_message (now : N) (uuid message : string) (auth_context : AuthContext.t) :
    stm t string unit := fun self =>
  match storage_backend self with
  | Ok storage =>
      match map_err (fun e => "Failed to serialize log message: " +:+ e) (value_to_vec message) with
      | Ok data =>
          let '(storage', r) := sb_set now (Some auth_context) FEDERATION_NAMESPACE
                                  ("federation/logs/" +:+ u64_to_string now +:+ "-" +:+ uuid) data storage in
          ({| vm := VM.set_storage_backend storage' (vm self); network_node := network_node self |},
           map_err (fun e => "Failed to store log message: " +:+ StorageError.to_string e) r)
      | Err e => (self, Err e)
      | Panic m => (self, Panic m)
      | OutOfFuel => (self, OutOfFuel)
      end
  | Err e => (self, Err e)
  | Panic m => (self, Panic m)
  | OutOfFuel => (self, OutOfFuel)
  end.

(** ** Properties *)

(** The two implementations of the trait agree: the counts, and the machine
    after a log message.  Only the error of counting proposals has another text. *)
Theorem extensions_agree (self : t) (now : N) (uuid message : string) (auth : AuthContext.t) (n : N) :
  (count_federated_proposals self = Ok n <-> FederationCommands.count_federated_proposals count_proposals (vm self) = Ok n) /\
  (count_federated_votes self = Ok n <-> FederationCommands.count_federated_votes (vm self) = Ok n) /\
  vm (federation_log_message now uuid message auth self).1 =
    (FederationCommands.federation_log_message now uuid message auth (vm self)).1 /\
  ((federation_log_message now uuid message auth self).2 = Ok tt <->
   (FederationCommands.federation_log_message now uuid message auth (vm self)).2 = Ok tt).
Proof.
  unfold count_federated_proposals, FederationCommands.count_federated_proposals, count_federated_votes,
    FederationCommands.count_federated_votes, federation_log_message, FederationCommands.federation_log_message,
    storage_backend, FederationCommands.storage_of, FederationCommands.stored, FederationCommands.labelled.
  destruct (VM.get_storage_backend (vm self)) as [storage|]; [|by repeat split]. cbn.
  split; [destruct (count_proposals storage); cbn; split; congruence|].
  split; [destruct (sb_list_keys _ _ _ storage); cbn; split; congruence|].
  destruct (value_to_vec message); cbn; [|by repeat split ..].
  by destruct (sb_set _ _ _ _ _ storage) as [storage' [[]| | |]]; repeat split.
Qed.

End Machine.

End VMFederationExtension.

(** ** Two executions in one second, over a store of one text per key *)
Module VmFederationExamples.

Definition logs : Type := list (string * string).
#[local] Instance kept : NodeLog logs := {|
  count_proposals _ := Ok 0%N;
  count_votes _ := Ok 0%N;
  store_raw _ key text := fun s => ((key, text) :: List.filter (fun e => negb (String.eqb e.1 key)) s, Ok tt);
  message_to_string m := "message";
|}.

Definition run_at (timestamp : Z) (vm : FederationVM.t logs nat) : res string (FederationVM.t logs nat) :=
  ProposalExecutor.execute OneMemberOneVote GlobalFederation (fun _ => "scope") (fun _ => "model") timestamp timestamp
    (ProposalExecutor.new vm (AuthContext.new "did:alice")).
Definition entries (r : res string (FederationVM.t logs nat)) : option nat :=
  match r with Ok vm => length <$> FederationVM.federation_node vm | _ => None end.

Example one_entry_for_two :
  entries (vm ← run_at 5 {| FederationVM.vm := 0; FederationVM.federation_node := Some [] |}; run_at 5 vm) = Some 1 /\
  entries (vm ← run_at 5 {| FederationVM.vm := 0; FederationVM.federation_node := Some [] |}; run_at 6 vm) = Some 2.
Proof. vm_compute. auto. Qed.

Lemma executions_are_logged_witness :
  exists vm', run_at 5 {| FederationVM.vm := 0; FederationVM.federation_node := Some [] |} = Ok vm' /\
    exists storage', FederationVM.federation_node vm' = Some storage'.
Proof.
  eexists. split; [vm_compute; reflexivity|].
  edestruct (ProposalExecutor.executions_are_logged (F := logs) (V := nat) OneMemberOneVote GlobalFederation
    (fun _ => "scope") (fun _ => "model") 5 5 (ProposalExecutor.new {| FederationVM.vm := 0;
    FederationVM.federation_node := Some [] |} (AuthContext.new "did:alice"))) as (s & s' & j & _ & H & _);
    [vm_compute; reflexivity|]. exact (ex_intro _ s' H).
Defined.

End VmFederationExamples.
