(* ===== verification/CommandLine.v ===== *)
(** * The command line: the grammars and the reading of options

    main.rs, cli/proposal.rs and cli/federation.rs declare their commands to
    clap and read the options back by name.  A declared command is a [Command],
    without its help texts; clap itself is the interface [ArgMatches], and what
    its documentation says of reading declared options is [ArgMatchesLaws].
    Reading a command gives the call that follows it. *)
From S2P Require Import Prelude Float64 Text Ops Auth Storage InMemory Economic FileSystem Machine Proposals Federation FederationNode FederationCommands Templates TemplateCommands DagSync.

(** ** Declarations *)

Inductive ValueType : Type := TString | TPath | TF64 | TI64 | TU64 | TU32 | TU16.
Definition value_of (ty : ValueType) : Type :=
  match ty with TString => string | TPath => string | TF64 => f64 | TI64 => Z | TU64 | TU32 | TU16 => N end.

Inductive ArgAction : Type := Value (ty : ValueType) | SetTrue | Append.

Record Arg : Type := {
  arg_id : string;
  short : option ascii;
  required : bool;
  required_unless_present : option string;
  default_value : option string;
  global : bool;
  action : ArgAction;
}.

Inductive Command : Type :=
  MkCommand (name : string) (subcommand_required : bool) (args : list Arg) (subcommands : list Command).
Definition command_name (c : Command) : string := let 'MkCommand n _ _ _ := c in n.
Definition subcommand_required (c : Command) : bool := let 'MkCommand _ r _ _ := c in r.
Definition command_args (c : Command) : list Arg := let 'MkCommand _ _ a _ := c in a.
Definition subcommands (c : Command) : list Command := let 'MkCommand _ _ _ s := c in s.

(** [Arg::new(id)] with one of its builder methods. *)
Definition arg_new (id : string) : Arg :=
  {| arg_id := id; short := None; required := false; required_unless_present := None; default_value := None;
     global := false; action := Value TString |}.
Definition with_short (s : ascii) (a : Arg) : Arg :=
  {| arg_id := arg_id a; short := Some s; required := required a;
     required_unless_present := required_unless_present a; default_value := default_value a; global := global a;
     action := action a |}.
Definition must (a : Arg) : Arg :=
  {| arg_id := arg_id a; short := short a; required := true;
     required_unless_present := required_unless_present a; default_value := default_value a; global := global a;
     action := action a |}.
Definition unless (other : string) (a : Arg) : Arg :=
  {| arg_id := arg_id a; short := short a; required := required a;
     required_unless_present := Some other; default_value := default_value a; global := global a;
     action := action a |}.
Definition or_else (v : string) (a : Arg) : Arg :=
  {| arg_id := arg_id a; short := short a; required := required a;
     required_unless_present := required_unless_present a; default_value := Some v; global := global a;
     action := action a |}.
Definition everywhere (a : Arg) : Arg :=
  {| arg_id := arg_id a; short := short a; required := required a;
     required_unless_present := required_unless_present a; default_value := default_value a; global := true;
     action := action a |}.
Definition acting (act : ArgAction) (a : Arg) : Arg :=
  {| arg_id := arg_id a; short := short a; required := required a;
     required_unless_present := required_unless_present a; default_value := default_value a; global := global a;
     action := act |}.
Definition flag (id : string) : Arg := acting SetTrue (arg_new id).
Definition append (id : string) : Arg := acting Append (arg_new id).
Definition typed (ty : ValueType) (id : string) : Arg := acting (Value ty) (arg_new id).
Definition needed (id : string) : Arg := must (arg_new id).

(** ** main.rs *)
Module MainCommand.

Definition api_cmd : Command :=
  MkCommand "api" false [with_short "p" (or_else "3030" (typed TU16 "port"))] [].

Definition run : Command :=
  MkCommand "run" false
    [with_short "p" (or_else "program.dsl" (arg_new "program")); with_short "v" (flag "verbose");
     with_short "P" (append "param"); with_short "i" (flag "interactive"); flag "json"; flag "stdlib";
     with_short "b" (flag "bytecode"); flag "benchmark"; or_else "memory" (arg_new "storage-backend");
     or_else "./storage" (arg_new "storage-path"); flag "enable-federation"; or_else "0" (arg_new "federation-port");
     append "bootstrap-nodes"; or_else "icn-covm-node" (arg_new "node-name"); append "capabilities";
     flag "simulate"; flag "trace"; flag "explain"; flag "verbose-storage-trace"] [].

Definition identity : Command :=
  MkCommand "identity" false []
    [MkCommand "register" false
       [with_short "f" (needed "file"); with_short "t" (or_else "member" (arg_new "type"));
        with_short "o" (arg_new "output")] []].

(** [keys] and [storage] are declared alike. *)
Definition storage_options : list Arg :=
  [or_else "file" (arg_new "storage-backend"); or_else "./storage" (arg_new "storage-path")].
Definition list_keys : Command :=
  MkCommand "list-keys" false [needed "namespace"; with_short "p" (arg_new "prefix")] [].
Definition get_value : Command := MkCommand "get-value" false [needed "namespace"; needed "key"] [].
Definition keys : Command := MkCommand "keys" false storage_options [list_keys; get_value].
Definition storage : Command := MkCommand "storage" false storage_options [list_keys; get_value].

Definition dag : Command :=
  MkCommand "dag" false []
    [MkCommand "sync" false
       [with_short "p" (needed "peer"); with_short "n" (arg_new "namespace");
        with_short "l" (or_else "1000" (arg_new "limit")); with_short "v" (flag "verbose")] [];
     MkCommand "status" false [with_short "v" (flag "verbose"); with_short "n" (arg_new "namespace")] [];
     MkCommand "export" false
       [with_short "o" (needed "output"); with_short "n" (arg_new "namespace");
        with_short "f" (or_else "json" (arg_new "format"))] [];
     MkCommand "import" false
       [with_short "i" (needed "input"); with_short "n" (arg_new "namespace"); with_short "f" (flag "force")] [];
     MkCommand "gossip" false
       [with_short "e" (flag "enable"); with_short "i" (or_else "300" (arg_new "interval"));
        with_short "m" (or_else "3" (arg_new "max-peers")); with_short "n" (arg_new "namespaces")] []].

End MainCommand.

(** ** cli/federation.rs *)
Definition federation_command : Command :=
  MkCommand "federation" true []
    [MkCommand "share-proposal" false
       [needed "id"; needed "to"; or_else "single-coop" (arg_new "scope"); arg_new "coops";
        or_else "one-member-one-vote" (arg_new "model"); typed TU64 "expires-in"] [];
     MkCommand "receive-proposal" false [arg_new "source"; needed "file"] [];
     MkCommand "vote" false [needed "remote"; needed "vote"; needed "node"] [];
     MkCommand "sync" false [needed "id"; needed "from"; flag "force"] [];
     MkCommand "list" false [arg_new "status"] [];
     MkCommand "status" false [] [];
     MkCommand "peers" false [with_short "v" (flag "verbose")] [];
     MkCommand "send-msg" false [needed "peer"; needed "json"] []].

(** ** cli/proposal.rs *)
Module ProposalCommand.

Definition create : Command :=
  MkCommand "create" false
    [needed "id"; needed "title"; needed "description"; must (typed TF64 "quorum"); must (typed TF64 "threshold");
     needed "logic"; arg_new "expires-in"; arg_new "creator"; arg_new "logic-path"; arg_new "discussion-path";
     arg_new "attachments"; typed TI64 "min-deliberation"; arg_new "discussion-duration";
     typed TU64 "required-participants"] [].

Definition attach : Command := MkCommand "attach" false [needed "id"; must (typed TPath "file"); arg_new "name"] [].

(** A comment of a proposal. *)
Definition about_comment (name : string) (more : list Arg) : Command :=
  MkCommand name false (needed "id" :: needed "proposal-id" :: more) [].
Definition comment_commands : list Command :=
  [MkCommand "comment" false [needed "id"; needed "content"; arg_new "parent"; append "tag"] [];
   about_comment "comment-react" [needed "reaction"];
   about_comment "comment-tag" [must (append "tag")];
   MkCommand "thread" false [needed "id"; flag "show-hidden"] [];
   about_comment "comment-edit" [needed "text"];
   about_comment "comment-hide" [];
   about_comment "comment-history" []].

Definition about_proposal (name : string) (more : list Arg) : Command :=
  MkCommand name false (needed "id" :: more) [].
Definition lifecycle_commands : list Command :=
  [about_proposal "edit" [typed TPath "new-body"; typed TPath "new-logic"];
   about_proposal "publish" [];
   about_proposal "vote" [needed "vote"; arg_new "as"];
   about_proposal "transition" [needed "state"; arg_new "result"; flag "force"]].
Definition view_commands : list Command :=
  [about_proposal "view" [];
   MkCommand "list" false [arg_new "status"; arg_new "creator"; typed TU32 "limit"] [];
   about_proposal "comments" [arg_new "sort"];
   about_proposal "simulate" [];
   about_proposal "dag-trace" [];
   about_proposal "summary" [];
   about_proposal "execute" [];
   about_proposal "view-comments" [flag "threaded"];
   about_proposal "export" [arg_new "output"]].
Definition dag_commands : list Command :=
  [MkCommand "dag-export-all" false [needed "output"] [];
   MkCommand "dag-import" false [needed "input"] [];
   MkCommand "dag-export-selected" false
     [unless "proposal-id" (arg_new "ids"); unless "ids" (arg_new "proposal-id"); needed "output"] [];
   MkCommand "dag-diff" false [needed "base"; needed "other"; arg_new "output"] [];
   MkCommand "dag-summary" false [arg_new "file"] []].

Definition proposal_command : Command :=
  MkCommand "proposal" true [everywhere (arg_new "dag-path"); everywhere (or_else "default" (arg_new "namespace"))]
    (create :: attach :: comment_commands ++ lifecycle_commands ++ view_commands ++ dag_commands).

End ProposalCommand.

Definition main_command : Command :=
  MkCommand "icn-covm" false []
    [MainCommand.run; MainCommand.identity; MainCommand.keys; MainCommand.storage; MainCommand.dag;
     ProposalCommand.proposal_command; federation_command; MkCommand "demo" false [] []; MainCommand.api_cmd].

(** ** What was parsed *)

(** The error of [ArgMatches] is none: reading panics or answers. *)
Class ArgMatches (M : Type) : Type := {
  get_one : forall ty, string -> M -> res string (option (value_of ty));
  get_many : string -> M -> res string (option (list string));
  get_flag : string -> M -> res string bool;
  subcommand : M -> option (string * M);
  (** The matches of a command, with the options it has from the commands above. *)
  parsed : list Arg -> Command -> M -> Prop;
}.

Definition find_arg (id : string) (args : list Arg) : option Arg := find (fun a => String.eqb (arg_id a) id) args.
Definition given_or_default (a : Arg) : bool := required a || match default_value a with Some _ => true | None => false end.

Class ArgMatchesLaws (M : Type) `{!ArgMatches M} : Prop := {
  one_declared : forall above c m id a ty,
    parsed above c m -> find_arg id (above ++ command_args c) = Some a -> action a = Value ty ->
    exists v, get_one ty id m = Ok v /\ (given_or_default a = true -> v <> None);
  (** Of two options that need each other, one is there. *)
  one_of_two : forall above c m id a id' a' ty ty',
    parsed above c m -> find_arg id (above ++ command_args c) = Some a -> action a = Value ty ->
    required_unless_present a = Some id' -> find_arg id' (above ++ command_args c) = Some a' ->
    action a' = Value ty' -> get_one ty id m = Ok None -> get_one ty' id' m <> Ok None;
  many_declared : forall above c m id a,
    parsed above c m -> find_arg id (above ++ command_args c) = Some a -> action a = Append ->
    exists l, get_many id m = Ok l;
  flag_declared : forall above c m id a,
    parsed above c m -> find_arg id (above ++ command_args c) = Some a -> action a = SetTrue ->
    exists b, get_flag id m = Ok b;
  (** An option that is not declared is never there, and panics in a debug build. *)
  one_undeclared : forall above c m id ty,
    parsed above c m -> find_arg id (above ++ command_args c) = None ->
    match get_one ty id m with Ok (Some _) | Err _ => False | _ => True end;
  subcommand_declared : forall above c m,
    parsed above c m ->
    match subcommand m with
    | Some (name, m') =>
        exists c', c' ∈ subcommands c /\ command_name c' = name /\
                   parsed (above ++ List.filter global (command_args c)) c' m'
    | None => subcommand_required c = false
    end;
}.

(** What main.rs does of a program. *)
Record RunOptions : Type := {
  ro_program : string; ro_verbose : bool; ro_stdlib : bool; ro_bytecode : bool; ro_params : list (string * string);
  ro_storage_backend : string; ro_storage_path : string; ro_simulate : bool; ro_trace : bool; ro_explain : bool;
  ro_verbose_storage_trace : bool;
}.

Inductive Action : Type :=
  | RunBenchmark (o : RunOptions)
  | RunInteractive (o : RunOptions)
  | RunWithFederation (o : RunOptions) (federation_port : N) (bootstrap_nodes : list string) (node_name : string)
      (capabilities : list string)
  | RunProgram (o : RunOptions)
  | RegisterIdentity (id_file id_type : string) (output_file : option string)
  | ListKeys (namespace : string) (prefix : option string) (storage_backend storage_path : string)
  | GetValue (namespace key storage_backend storage_path : string)
  | Dag (m : DagMatches)
  | Demo
  | StartApi (port : N)
  | Exit (code : Z).

Inductive ProposalCall : Type :=
  | CallCreate (id title description : string) (quorum threshold : f64) (logic_path : string)
      (discussion_path attachments expires_in : option string) (min_deliberation : option Z)
      (discussion_duration : option string) (required_participants : option N) (creator : option string)
  | CallAttach (id file : string) (name : option string)
  | CallComment (id content : string) (parent : option string)
  | CallView (id : string)
  | CallEdit (id : string) (title description : option string)
  | CallPublish (id : string)
  | CallVote (id choice : string) (delegate : option string)
  | CallTransition (id state : string)
  | CallList (status : option string)
  | CallComments (id : string) (sort : option string)
  | CallSimulate (id : string)
  | CallDagTrace (id : string)
  | CallSummary (id : string)
  | CallExecute (id : string)
  | CallViewComments (id : string) (threaded : bool)
  | CallExport (id : string) (output : option string)
  | CallCommentReact (id proposal_id reaction : string)
  | CallCommentTag (id proposal_id : string) (tags : list string)
  | CallThread (id : string) (show_hidden : bool)
  | CallCommentEdit (id proposal_id text : string)
  | CallCommentHide (id proposal_id : string)
  | CallCommentHistory (id proposal_id : string)
  | CallDagExportAll (output : string)
  | CallDagImport (input : string)
  | CallDagExportProposal (id output : string)
  | CallDagExportSelected (ids : list string) (output : string)
  | CallDagDiff (base other : string) (output : option string)
  | CallDagSummary (file : option string).

Module CommandLine.

Section Reading.

Context {M : Type} `{AM : !ArgMatches M}.

(** [get_one(..).ok_or(message)?]. *)
Definition required_one (ty : ValueType) (message id : string) (m : M) : res string (value_of ty) :=
  v ← get_one ty id m; match v with Some v => Ok v | None => Err message end.
Abbreviation text := (required_one TString).
Abbreviation optional := (get_one TString).

(** [s.split('=')] has two parts. *)
Definition key_value (s : string) : option (string * string) :=
  match split_char "=" s with [k; v] => Some (k, v) | _ => None end.
Fixpoint key_values (l : list string) : option (list (string * string)) :=
  match l with [] => Some [] | s :: l' => kv ← key_value s; kvs ← key_values l'; Some (kv :: kvs) end.

(** *** main.rs *)

(** [parse_u16] is [str::parse]; a node address that does not parse is left out. *)
Context (parse_u16 : string -> res string N) (parse_multiaddr : string -> res string string).

Definition addresses (l : list string) : list string :=
  omap (fun addr => match parse_multiaddr addr with Ok a => Some a | _ => None end) l.

Definition read_run (m : M) : res string Action :=
  params ← get_many "param" m;
  match key_values (default [] params) with
  | None => Ok (Exit 1)
  | Some params =>
      verbose ← get_flag "verbose" m;
      program_path ← text "Missing required argument: program" "program" m;
      use_stdlib ← get_flag "stdlib" m;
      use_bytecode ← get_flag "bytecode" m;
      storage_backend ← optional "storage-backend" m;
      storage_path ← optional "storage-path" m;
      enable_federation ← get_flag "enable-federation" m;
      port_text ← optional "federation-port" m;
      federation_port ← map_err (fun e => "Invalid federation port: " +:+ e) (parse_u16 (default "0" port_text));
      bootstrap_nodes ← get_many "bootstrap-nodes" m;
      node_name ← optional "node-name" m;
      capabilities ← get_many "capabilities" m;
      simulate ← get_flag "simulate" m;
      trace ← get_flag "trace" m;
      explain ← get_flag "explain" m;
      verbose_storage_trace ← get_flag "verbose-storage-trace" m;
      benchmark ← get_flag "benchmark" m;
      let o := {| ro_program := program_path; ro_verbose := verbose; ro_stdlib := use_stdlib;
                  ro_bytecode := use_bytecode; ro_params := params;
                  ro_storage_backend := default "memory" storage_backend;
                  ro_storage_path := default "./storage" storage_path; ro_simulate := simulate; ro_trace := trace;
                  ro_explain := explain; ro_verbose_storage_trace := verbose_storage_trace |} in
      if (benchmark : bool) then Ok (RunBenchmark o)
      else
        interactive ← get_flag "interactive" m;
        if (interactive : bool) then Ok (RunInteractive o)
        else if (enable_federation : bool) then
          Ok (RunWithFederation o federation_port (addresses (default [] bootstrap_nodes))
                (default "unknown-node" node_name) (default [] capabilities))
        else Ok (RunProgram o)
  end.

Definition read_identity (m : M) : res string Action :=
  match subcommand m with
  | Some ("register", r) =>
      id_file ← text "Missing required argument: file" "file" r;
      id_type ← text "Missing required argument: type" "type" r;
      output_file ← optional "output" r;
      Ok (RegisterIdentity id_file id_type output_file)
  | _ => Err "Unknown identity subcommand"
  end.

(** The arms for [keys] and [storage], which differ in the error. *)
Definition read_storage (unknown : string) (m : M) : res string Action :=
  storage_backend ← text "Missing required argument: storage-backend" "storage-backend" m;
  storage_path ← text "Missing required argument: storage-path" "storage-path" m;
  match subcommand m with
  | Some ("list-keys", l) =>
      namespace ← text "Missing required argument: namespace" "namespace" l;
      prefix ← optional "prefix" l;
      Ok (ListKeys namespace prefix storage_backend storage_path)
  | Some ("get-value", g) =>
      namespace ← text "Missing required argument: namespace" "namespace" g;
      key ← text "Missing required argument: key" "key" g;
      Ok (GetValue namespace key storage_backend storage_path)
  | _ => Err unknown
  end.

Definition read_dag (cwd : FileSystem.path) (m : M) : res string DagMatches :=
  match subcommand m with
  | Some ("sync", s) =>
      peer ← optional "peer" s; namespace ← optional "namespace" s; limit ← optional "limit" s;
      verbose ← get_flag "verbose" s; Ok (SyncMatches peer namespace limit verbose)
  | Some ("status", s) =>
      verbose ← get_flag "verbose" s; namespace ← optional "namespace" s; Ok (StatusMatches verbose namespace)
  | Some ("export", e) =>
      output ← optional "output" e; namespace ← optional "namespace" e; format ← optional "format" e;
      Ok (ExportMatches (FileSystem.join cwd <$> output) namespace format)
  | Some ("import", i) =>
      input ← optional "input" i; namespace ← optional "namespace" i; force ← get_flag "force" i;
      Ok (ImportMatches (FileSystem.join cwd <$> input) namespace force)
  | Some ("gossip", g) =>
      enable ← get_flag "enable" g; interval ← optional "interval" g; max_peers ← optional "max-peers" g;
      namespaces ← optional "namespaces" g; Ok (GossipMatches enable interval max_peers namespaces)
  | _ => Ok OtherMatches
  end.

Definition read_main (cwd : FileSystem.path) (m : M) : res string Action :=
  match subcommand m with
  | Some ("run", m') => read_run m'
  | Some ("identity", m') => read_identity m'
  | Some ("keys", m') => read_storage "Unknown keys subcommand" m'
  | Some ("storage", m') => read_storage "Unknown storage subcommand" m'
  | Some ("dag", m') => d ← read_dag cwd m'; Ok (Dag d)
  | Some ("demo", _) => Ok Demo
  | Some ("api", m') => port ← get_one TU16 "port" m'; Ok (StartApi (default 3030%N port))
  | _ => Err "Unknown command"
  end.

(** *** cli/proposal.rs *)

Definition id_of (m : M) : res string string := text "Proposal ID is required" "id" m.
Definition comment_ids (m : M) : res string (string * string) :=
  comment_id ← text "Comment ID is required" "id" m;
  proposal_id ← text "Proposal ID is required" "proposal-id" m;
  Ok (comment_id, proposal_id).

Definition read_create (m : M) : res string ProposalCall :=
  proposal_id ← id_of m;
  title ← text "Title is required" "title" m;
  description ← text "Description is required" "description" m;
  quorum ← required_one TF64 "Quorum is required" "quorum" m;
  threshold ← required_one TF64 "Threshold is required" "threshold" m;
  logic ← optional "logic" m;
  logic_path ← match logic with
               | Some p => Ok p
               | None => text "No logic path provided" "logic-path" m
               end;
  discussion_path ← optional "discussion-path" m;
  attachments ← optional "attachments" m;
  expires_in ← optional "expires-in" m;
  min_deliberation ← get_one TI64 "min-deliberation" m;
  discussion_duration ← optional "discussion-duration" m;
  required_participants ← get_one TU64 "required-participants" m;
  creator ← optional "creator" m;
  Ok (CallCreate proposal_id title description quorum threshold logic_path discussion_path attachments expires_in
        min_deliberation discussion_duration required_participants creator).

Definition read_attach (m : M) : res string ProposalCall :=
  proposal_id ← id_of m;
  file_path ← required_one TPath "File path is required" "file" m;
  name ← optional "name" m;
  Ok (CallAttach proposal_id file_path name).

(** The grammar of [edit] has neither a title nor a description. *)
Definition read_edit (m : M) : res string ProposalCall :=
  proposal_id ← id_of m;
  title ← optional "title" m;
  description ← optional "description" m;
  match title, description with
  | None, None => Err "At least one field (title, description) must be provided for editing"
  | _, _ => Ok (CallEdit proposal_id title description)
  end.

Definition read_comment (name : string) (m : M) : res string ProposalCall :=
  if String.eqb name "comment" then
    proposal_id ← id_of m; content ← text "Comment content is required" "content" m; parent ← optional "parent" m;
    Ok (CallComment proposal_id content parent)
  else if String.eqb name "comment-react" then
    ids ← comment_ids m; reaction ← text "Reaction is required" "reaction" m;
    Ok (CallCommentReact ids.1 ids.2 reaction)
  else if String.eqb name "comment-tag" then
    ids ← comment_ids m; tags ← get_many "tag" m; Ok (CallCommentTag ids.1 ids.2 (default [] tags))
  else if String.eqb name "thread" then
    proposal_id ← id_of m; show_hidden ← get_flag "show-hidden" m; Ok (CallThread proposal_id show_hidden)
  else if String.eqb name "comment-edit" then
    ids ← comment_ids m; new_text ← text "New text is required" "text" m; Ok (CallCommentEdit ids.1 ids.2 new_text)
  else if String.eqb name "comment-hide" then ids ← comment_ids m; Ok (CallCommentHide ids.1 ids.2)
  else ids ← comment_ids m; Ok (CallCommentHistory ids.1 ids.2).

Definition read_dag_command (name : string) (m : M) : res string ProposalCall :=
  if String.eqb name "dag-export-all" then output ← text "Output path is required" "output" m; Ok (CallDagExportAll output)
  else if String.eqb name "dag-import" then input ← text "Input path is required" "input" m; Ok (CallDagImport input)
  else if String.eqb name "dag-export-selected" then
    output ← text "Output path is required" "output" m;
    proposal_id ← optional "proposal-id" m;
    match proposal_id with
    | Some proposal_id => Ok (CallDagExportProposal proposal_id output)
    | None =>
        ids_str ← optional "ids" m;
        match ids_str with
        | Some ids_str => Ok (CallDagExportSelected (trim <$> split_char "," ids_str) output)
        | None => Err "Either proposal-id or ids must be specified"
        end
    end
  else if String.eqb name "dag-diff" then
    base ← text "Base DAG file path is required" "base" m; other ← text "Other DAG file path is required" "other" m;
    output ← optional "output" m; Ok (CallDagDiff base other output)
  else file ← optional "file" m; Ok (CallDagSummary file).

Definition read_other (name : string) (m : M) : res string ProposalCall :=
  if String.eqb name "view" then id ← id_of m; Ok (CallView id)
  else if String.eqb name "publish" then id ← id_of m; Ok (CallPublish id)
  else if String.eqb name "vote" then
    id ← id_of m; choice ← text "Vote choice is required" "vote" m; delegate ← optional "as" m;
    Ok (CallVote id choice delegate)
  else if String.eqb name "transition" then
    id ← id_of m; state ← text "State is required" "state" m; Ok (CallTransition id state)
  else if String.eqb name "list" then status ← optional "status" m; Ok (CallList status)
  else if String.eqb name "comments" then id ← id_of m; sort ← optional "sort" m; Ok (CallComments id sort)
  else if String.eqb name "simulate" then id ← id_of m; Ok (CallSimulate id)
  else if String.eqb name "dag-trace" then id ← id_of m; Ok (CallDagTrace id)
  else if String.eqb name "summary" then id ← id_of m; Ok (CallSummary id)
  else if String.eqb name "execute" then id ← id_of m; Ok (CallExecute id)
  else if String.eqb name "view-comments" then
    id ← id_of m; threaded ← get_flag "threaded" m; Ok (CallViewComments id threaded)
  else if String.eqb name "export" then id ← id_of m; output ← optional "output" m; Ok (CallExport id output)
  else Panic "internal error: entered unreachable code: Subcommand should be required".

Definition comment_names : list string :=
  ["comment"; "comment-react"; "comment-tag"; "thread"; "comment-edit"; "comment-hide"; "comment-history"].
Definition dag_names : list string := ["dag-export-all"; "dag-import"; "dag-export-selected"; "dag-diff"; "dag-summary"].

(** The two options of every proposal command, and the call. *)
Definition read_proposal (m : M) : res string (option string * option string * ProposalCall) :=
  dag_path ← optional "dag-path" m;
  namespace ← optional "namespace" m;
  call ←
    match subcommand m with
    | Some (name, m') =>
        if String.eqb name "create" then read_create m'
        else if String.eqb name "attach" then read_attach m'
        else if String.eqb name "edit" then read_edit m'
        else if existsb (String.eqb name) comment_names then read_comment name m'
        else if existsb (String.eqb name) dag_names then read_dag_command name m'
        else read_other name m'
    | None => Panic "internal error: entered unreachable code: Subcommand should be required"
    end;
  Ok (dag_path, namespace, call).

(** *** cli/federation.rs *)

Definition missing (id : string) (m : M) : res string string := text ("Missing required argument: " +:+ id) id m.

(** [read_file] is the file system. *)
Definition read_federation (read_file : string -> res string string) (m : M) : res string federation_request :=
  match subcommand m with
  | Some (name, m') =>
      if String.eqb name "share-proposal" then
        id ← missing "id" m'; to ← missing "to" m'; scope ← missing "scope" m'; coops ← optional "coops" m';
        model ← missing "model" m'; expires_in ← get_one TU64 "expires-in" m';
        Ok (ShareProposal id to scope coops model expires_in)
      else if String.eqb name "receive-proposal" then
        file ← missing "file" m'; source ← optional "source" m'; Ok (ReceiveProposal (read_file file) source)
      else if String.eqb name "vote" then
        remote ← missing "remote" m'; vote ← missing "vote" m'; node ← missing "node" m'; Ok (VoteRemote remote vote node)
      else if String.eqb name "sync" then
        id ← missing "id" m'; from ← missing "from" m'; force ← get_flag "force" m';
        Ok (FederationCommands.Sync id from force)
      else if String.eqb name "list" then status ← optional "status" m'; Ok (ListProposals status)
      else if String.eqb name "status" then Ok FederationCommands.Status
      else if String.eqb name "peers" then verbose ← get_flag "verbose" m'; Ok (Peers verbose)
      else if String.eqb name "send-msg" then
        peer ← missing "peer" m'; json ← missing "json" m'; Ok (SendMsg peer json)
      else Err "Unknown federation subcommand"
  | None => Err "Unknown federation subcommand"
  end.

End Reading.

End CommandLine.

(** ** Properties *)
Module CommandLineTheorems.

Import CommandLine.

Section Reading.

Context {M : Type} `{AML : ArgMatchesLaws M}.

Lemma required_reads above c (m : M) ty message id a :
  parsed above c m -> find_arg id (above ++ command_args c) = Some a -> action a = Value ty ->
  given_or_default a = true -> exists v, required_one ty message id m = Ok v.
Proof.
  intros Hp Ha Ht Hg. destruct (one_declared above c m id a ty Hp Ha Ht) as (v & Hv & Hs).
  unfold required_one. rewrite Hv. cbn. destruct v as [v|]; [by exists v|]. by destruct (Hs Hg).
Qed.

(** Read the next option of the command that [H] says was parsed. *)
Ltac declared_arg H id k :=
  match type of H with
  | parsed ?above ?c _ =>
      let r := eval vm_compute in (find_arg id (above ++ command_args c)) in
      match r with Some ?a => k above c a end
  end.
Ltac read_next H :=
  match goal with
  | |- context [required_one ?ty ?msg ?id ?m] =>
      declared_arg H id ltac:(fun above c a =>
        let v := fresh "v" in
        destruct (required_reads above c m ty msg id a H eq_refl eq_refl eq_refl) as [v ->])
  | |- context [get_one ?ty ?id ?m] =>
      declared_arg H id ltac:(fun above c a =>
        let v := fresh "v" in let Hv := fresh "Hv" in
        destruct (one_declared above c m id a ty H eq_refl eq_refl) as (v & -> & Hv);
        first [specialize (Hv eq_refl); destruct v as [v|]; [clear Hv|done] | clear Hv])
  | |- context [get_flag ?id ?m] =>
      declared_arg H id ltac:(fun above c a =>
        let v := fresh "v" in destruct (flag_declared above c m id a H eq_refl eq_refl) as [v ->])
  | |- context [get_many ?id ?m] =>
      declared_arg H id ltac:(fun above c a =>
        let v := fresh "v" in destruct (many_declared above c m id a H eq_refl eq_refl) as [v ->])
  end; cbn [mbind res_bind].

Ltac reads H := unfold id_of, comment_ids, missing; repeat read_next H; eauto.

Definition proposal_options : list Arg := List.filter global (command_args ProposalCommand.proposal_command).

Lemma create_reads (m : M) : parsed proposal_options ProposalCommand.create m -> exists r, read_create m = Ok r.
Proof. intros H. unfold read_create. reads H. Qed.

Lemma attach_reads (m : M) : parsed proposal_options ProposalCommand.attach m -> exists r, read_attach m = Ok r.
Proof. intros H. unfold read_attach. reads H. Qed.

(** What follows the name of a subcommand of [cs] is read without an error. *)
Definition all_read {A} (read : string -> M -> res string A) (cs : list Command) : Prop :=
  forall c m, c ∈ cs -> parsed proposal_options c m -> exists r, read (command_name c) m = Ok r.

Ltac each_command Hc :=
  repeat (apply elem_of_cons in Hc as [->|Hc]; [|]); [..|by apply elem_of_nil in Hc].

Lemma comments_read : all_read read_comment ProposalCommand.comment_commands.
Proof. intros c m Hc H. each_command Hc; unfold read_comment; cbn; reads H. Qed.

Lemma views_read : all_read read_other
  (ProposalCommand.view_commands ++ List.filter (fun c => negb (String.eqb (command_name c) "edit"))
                                      ProposalCommand.lifecycle_commands).
Proof. intros c m Hc H. each_command Hc; unfold read_other; cbn; reads H. Qed.

Lemma dags_read : all_read read_dag_command ProposalCommand.dag_commands.
Proof.
  intros c m Hc H. each_command Hc; unfold read_dag_command; cbn; [reads H..| |reads H|reads H].
  read_next H.
  destruct (one_declared _ _ m "proposal-id" _ TString H eq_refl eq_refl) as (p & Hp & _). rewrite Hp. cbn.
  destruct p as [p|]; [by eexists|].
  destruct (one_declared _ _ m "ids" _ TString H eq_refl eq_refl) as (i & Hi & _). rewrite Hi. cbn.
  destruct i as [i|]; [by eexists|]. exfalso.
  by apply (one_of_two _ _ m "proposal-id" _ "ids" _ TString TString H eq_refl eq_refl eq_refl eq_refl eq_refl Hp).
Qed.

(** C38. Of a command line that clap accepts, every proposal command but [edit] finds
    all the options it reads: no message about a missing option is ever shown,
    and no subcommand is unknown. *)
Theorem proposal_options_are_there (m : M) :
  parsed [] ProposalCommand.proposal_command m -> (forall m', subcommand m <> Some ("edit", m')) ->
  exists r, read_proposal m = Ok r.
Proof.
  intros H Hedit. unfold read_proposal. do 2 read_next H.
  pose proof (subcommand_declared _ _ m H) as Hs.
  destruct (subcommand m) as [[name m']|]; [|done]. destruct Hs as (c & Hc & <- & Hp).
  change (parsed proposal_options c m') in Hp.
  assert (forall A (r : res string A) (f : A -> option string * option string * ProposalCall),
            (exists a, r = Ok a) -> exists b, (a ← r; Ok (f a)) = Ok b) as Hok.
  { intros A r f [a ->]. by eexists. }
  apply Hok. cbn [ProposalCommand.proposal_command subcommands] in Hc.
  apply elem_of_cons in Hc as [->|Hc]; [by apply create_reads|].
  apply elem_of_cons in Hc as [->|Hc]; [by apply attach_reads|].
  rewrite !elem_of_app in Hc. destruct Hc as [Hc|[Hc|[Hc|Hc]]].
  - pose proof (comments_read c m' Hc Hp) as Hr. each_command Hc; exact Hr.
  - destruct (String.eqb (command_name c) "edit") eqn:E.
    { apply String.eqb_eq in E. rewrite E in Hedit. by destruct (Hedit m'). }
    assert (exists r, read_other (command_name c) m' = Ok r) as Hr.
    { apply views_read; [|done]. apply elem_of_app. right. apply list_elem_of_In, filter_In.
      split; [by apply list_elem_of_In|by rewrite E]. }
    each_command Hc; first [exact Hr | discriminate E].
  - assert (exists r, read_other (command_name c) m' = Ok r) as Hr.
    { apply views_read; [|done]. apply elem_of_app. by left. }
    each_command Hc; exact Hr.
  - pose proof (dags_read c m' Hc Hp) as Hr. each_command Hc; exact Hr.
Qed.

(** [edit] never gets past its options: the title and the description are not
    declared, so they are missing, or the program panics. *)
Theorem edit_never_edits (m m' : M) :
  parsed [] ProposalCommand.proposal_command m -> subcommand m = Some ("edit", m') ->
  is_ok (read_proposal m) = false.
Proof.
  intros H Hs. unfold read_proposal. do 2 read_next H.
  pose proof (subcommand_declared _ _ m H) as Hd. rewrite Hs in *. destruct Hd as (c & Hc & Hn & Hp).
  assert (c = ProposalCommand.about_proposal "edit" [typed TPath "new-body"; typed TPath "new-logic"]) as ->.
  { cbn in Hc. each_command Hc; done. }
  change (parsed proposal_options (ProposalCommand.about_proposal "edit" [typed TPath "new-body"; typed TPath "new-logic"]) m') in Hp.
  cbn [String.eqb]. unfold read_edit, id_of. cbn. read_next Hp.
  pose proof (one_undeclared _ _ m' "title" TString Hp eq_refl) as Ht.
  pose proof (one_undeclared _ _ m' "description" TString Hp eq_refl) as Hde.
  by destruct (get_one TString "title" m') as [[]| | |], (get_one TString "description" m') as [[]| | |].
Qed.

(** The federation commands read all their options. *)
Theorem federation_options_are_there (read_file : string -> res string string) (m : M) :
  parsed [] federation_command m -> exists r, read_federation read_file m = Ok r.
Proof.
  intros H. unfold read_federation. pose proof (subcommand_declared _ _ m H) as Hs.
  destruct (subcommand m) as [[name m']|]; [|done]. destruct Hs as (c & Hc & <- & Hp).
  cbn [federation_command subcommands] in Hc. each_command Hc; cbn; reads Hp.
Qed.

Context (parse_u16 : string -> res string N) (parse_multiaddr : string -> res string string).

(** The arms of main.rs do not have the commands that it declares for proposals
    and the federation: both are unknown, with any options. *)
Theorem declared_commands_are_unknown (cwd : FileSystem.path) (m m' : M) :
  ProposalCommand.proposal_command ∈ subcommands main_command /\
  federation_command ∈ subcommands main_command /\
  (subcommand m = Some ("proposal", m') \/ subcommand m = Some ("federation", m') ->
   read_main parse_u16 parse_multiaddr cwd m = Err "Unknown command").
Proof.
  split; [by repeat constructor|]. split; [by repeat constructor|].
  unfold read_main. by intros [->| ->].
Qed.

(** A program is run in one of four ways, or main.rs exits with a parameter that
    is not a key and a value; the port is read even if the federation is off,
    and the benchmark comes before the interactive shell. *)
Theorem run_options_are_there (m : M) :
  parsed [] MainCommand.run m ->
  match read_run parse_u16 parse_multiaddr m with
  | Ok (RunBenchmark _) => get_flag "benchmark" m = Ok true
  | Ok (RunInteractive _) => get_flag "benchmark" m = Ok false /\ get_flag "interactive" m = Ok true
  | Ok (RunWithFederation _ _ _ _ _) => get_flag "interactive" m = Ok false /\ get_flag "enable-federation" m = Ok true
  | Ok (RunProgram _) => get_flag "interactive" m = Ok false /\ get_flag "enable-federation" m = Ok false
  | Ok (Exit code) => code = 1%Z
  | Ok _ => False
  | Err e => exists port text, get_one TString "federation-port" m = Ok (Some port) /\
               parse_u16 port = Err text /\ e = "Invalid federation port: " +:+ text
  | Panic _ | OutOfFuel =>
      exists port, get_one TString "federation-port" m = Ok (Some port) /\ is_ok (parse_u16 port) = false
  end.
Proof.
  intros H. unfold read_run. repeat read_next H.
  destruct (key_values _) as [params|]; [|done].
  match goal with |- context [parse_u16 ?p] => destruct (parse_u16 p) as [port|e|t|] eqn:Ep end;
    cbn [map_err mbind res_bind]; [|by eauto|by eexists; rewrite Ep ..].
  by repeat match goal with |- context [if ?b then _ else _] => destruct b end.
Qed.

(** [keys] and [storage] find what they read; without a subcommand, which clap
    lets pass, they are unknown. *)
Theorem storage_options_are_there (unknown : string) (m : M) :
  parsed [] MainCommand.keys m \/ parsed [] MainCommand.storage m ->
  match subcommand m with
  | Some _ => exists a, read_storage unknown m = Ok a
  | None => read_storage unknown m = Err unknown
  end.
Proof.
  intros [H|H]; unfold read_storage; repeat read_next H; pose proof (subcommand_declared _ _ m H) as Hs;
    (destruct (subcommand m) as [[name m']|]; [|done]); destruct Hs as (c & Hc & <- & Hp);
    cbn [MainCommand.keys MainCommand.storage subcommands] in Hc; each_command Hc; cbn; reads Hp.
Qed.

(** The messages of the [dag] commands about missing options are never shown. *)
Theorem dag_options_are_there (cwd : FileSystem.path) (m : M) :
  parsed [] MainCommand.dag m ->
  exists d, read_dag cwd m = Ok d /\
    match subcommand m with
    | Some _ => exists cmd, DagSync.dag_command d = Ok cmd
    | None => DagSync.dag_command d = Err "Unknown dag subcommand"
    end.
Proof.
  intros H. unfold read_dag. pose proof (subcommand_declared _ _ m H) as Hs.
  destruct (subcommand m) as [[name m']|]; [|by eexists]. destruct Hs as (c & Hc & <- & Hp).
  cbn [MainCommand.dag subcommands] in Hc.
  each_command Hc; cbn; repeat read_next Hp; eexists; (split; [reflexivity|]); by eexists.
Qed.

End Reading.

End CommandLineTheorems.

(** ** A command line that gives every option *)
Module CommandLineExamples.

Import CommandLine.

#[local] Instance type_eq_dec : EqDecision ValueType.
Proof. solve_decision. Defined.

(** The matches of a command below [above], and of its subcommand. *)
Inductive Line : Type := Given (above : list Arg) (c : Command) (sub : option Line).

Definition sample (ty : ValueType) : value_of ty :=
  match ty with
  | TString => "text" | TPath => "path" | TF64 => f64_one | TI64 => 1%Z | TU64 => 1%N | TU32 => 1%N | TU16 => 1%N
  end.
Definition lookup_arg (id : string) (l : Line) : option Arg :=
  let 'Given above c _ := l in find_arg id (above ++ command_args c).
Fixpoint parsed_line (above : list Arg) (c : Command) (l : Line) : Prop :=
  let 'Given above' c' sub := l in
  above' = above /\ c' = c /\
  match sub with
  | Some l' => exists c'', c'' ∈ subcommands c /\ parsed_line (above ++ List.filter global (command_args c)) c'' l'
  | None => subcommand_required c = false
  end.
Definition name_of (l : Line) : string := let 'Given _ c _ := l in command_name c.

#[local] Instance lines : ArgMatches Line := {|
  get_one ty id l :=
    match lookup_arg id l with
    | Some a =>
        match action a with
        | Value ty' => if decide (ty' = ty) then Ok (Some (sample ty)) else Panic "Mismatch between definition and access"
        | _ => Panic "Mismatch between definition and access"
        end
    | None => Ok None
    end;
  get_many id l := match lookup_arg id l with Some _ => Ok (Some ["key=value"]) | None => Ok None end;
  get_flag id l := match lookup_arg id l with Some _ => Ok true | None => Panic "undeclared" end;
  subcommand l := let 'Given _ _ sub := l in (fun l' => (name_of l', l')) <$> sub;
  parsed := parsed_line;
|}.

#[local] Instance lines_laws : ArgMatchesLaws Line.
Proof.
  split; intros above c [above' c' sub]; cbn.
  - intros id a ty (-> & -> & _) -> Ha. rewrite Ha. rewrite decide_True by done. by eexists.
  - intros id a id' a' ty ty' (-> & -> & _) -> Ha _ _ _. rewrite Ha. by rewrite decide_True.
  - intros id a (-> & -> & _) -> Ha. by eexists.
  - intros id a (-> & -> & _) -> Ha. by eexists.
  - intros id ty (-> & -> & _) ->. done.
  - intros (-> & -> & H). destruct sub as [l'|]; [|done]. cbn. destruct H as (c'' & Hc & Hp).
    exists c''. destruct l' as [a'' d s]. cbn in *. destruct Hp as (-> & -> & Hp). done.
Qed.

Definition proposal_line (c : Command) : Line :=
  Given [] ProposalCommand.proposal_command (Some (Given CommandLineTheorems.proposal_options c None)).
Definition edit : Command :=
  ProposalCommand.about_proposal "edit" [typed TPath "new-body"; typed TPath "new-logic"].

Lemma proposal_line_parsed c :
  c ∈ subcommands ProposalCommand.proposal_command -> subcommand_required c = false ->
  parsed [] ProposalCommand.proposal_command (proposal_line c).
Proof. intros Hc Hr. cbn. split; [done|]. split; [done|]. by exists c. Qed.

Lemma proposal_options_are_there_witness :
  exists r, read_proposal (proposal_line ProposalCommand.create) = Ok r.
Proof.
  apply (CommandLineTheorems.proposal_options_are_there (proposal_line ProposalCommand.create)).
  - apply proposal_line_parsed; [by repeat constructor|done].
  - intros m'. discriminate.
Defined.

Lemma edit_never_edits_witness : is_ok (read_proposal (proposal_line edit)) = false.
Proof.
  apply (CommandLineTheorems.edit_never_edits (proposal_line edit) (Given CommandLineTheorems.proposal_options edit None)).
  - apply proposal_line_parsed; [by repeat constructor|done].
  - reflexivity.
Defined.

(** No two options of a command share a name or a letter, and none takes the
    letter of the help. *)
Fixpoint clash_free (above : list Arg) (c : Command) : bool :=
  let 'MkCommand _ _ args subs := c in
  bool_decide (NoDup (arg_id <$> above ++ args)) && bool_decide (NoDup ("h"%char :: omap short (above ++ args))) &&
  forallb (clash_free (above ++ List.filter global args)) subs &&
  bool_decide (NoDup (command_name <$> subs)).

Example grammar_has_no_clashes : clash_free [] main_command = true.
Proof. vm_compute. reflexivity. Qed.

End CommandLineExamples.
