(* ===== verification/Demo.v ===== *)
(** * The demonstration: cli/proposal_demo.rs

    A script over the machine and an empty memory storage: a proposal is stored,
    discussed, voted on, approved, and its logic executed.  What is printed is
    not kept.  The JSON of the script's comments and votes are parameters, the
    clock gives a reading of each kind for every step. *)
From S2P Require Import Prelude Float64 Text Values Ops Stack Memory Auth Storage InMemory Economic Executor.
From S2P Require Import Ledger Trace Machine Governance VM Parser Blocks Dsl Lifecycle Comments Proposals.

(** The comments and votes of the script, of types of their own. *)
Record DemoComment : Type := {
  dc_id : string; dc_author : string; dc_content : string; dc_reply_to : option string; dc_tags : list string }.
Record DemoVote : Type := { dv_voter : string; dv_vote : string; dv_reason : string }.

Module Demo.

Section Script.

Context `{PL : Platform} `{RD : Renderings} `{CH : Chrono} `{UC : Unicode} `{PC : !ProposalCalls}.
Context (comment_to_vec : DateTime -> DemoComment -> res string bytes) (comment_from_slice : bytes -> res string DemoComment).
Context (vote_to_vec : DateTime -> DemoVote -> res string bytes).
Context (fuel : nat) (stamp : nat -> N) (now : nat -> DateTime).

Abbreviation M := (stm (VM.t InMemoryStorage.t) BoxError).

Definition user_id : string := "demo_user".
Definition auth : AuthContext.t :=
  AuthContext.add_role "governance" "admin" (AuthContext.add_role "global" "admin" (AuthContext.new user_id)).

(** [vm.with_storage_mut(f)??] and [vm.with_storage(f)??]. *)
Definition storing (f : stm InMemoryStorage.t StorageError.t unit) : M unit := fun vm =>
  match VM.with_storage_mut f vm with
  | (vm', Ok r) => (vm', map_err EStorage r)
  | (vm', Err e) => (vm', Err (EVM e))
  | (vm', Panic m) => (vm', Panic m)
  | (vm', OutOfFuel) => (vm', OutOfFuel)
  end.
Definition storage_read {A} (f : InMemoryStorage.t -> res StorageError.t A) : M A := fun vm =>
  (vm, r ← map_err EVM (VM.with_storage f vm); map_err EStorage r).

Definition init_storage : M unit :=
  storing (InMemoryStorage.create_namespace (stamp 0) (Some auth) "governance" 1000000 None).

Definition put (n : nat) (key : string) (value : bytes) : M unit :=
  storing (InMemoryStorage.set (stamp n) (Some auth) "governance" key value).
Definition put_json (n : nat) (key : string) (value : res string bytes) (type_name : string) : M unit :=
  b ← lift (map_err (fun e => EStorage (StorageError.SerializationError type_name e)) value); put n key b.
Definition get (key : string) : M bytes := storage_read (InMemoryStorage.get (Some auth) "governance" key).
Definition keys_under (prefix : string) : M (list string) :=
  storage_read (InMemoryStorage.list_keys (Some auth) "governance" (Some prefix)).

Definition logic_path : string := "governance/logic/repair_budget.dsl".
Definition logic_lines : list string :=
  [EmptyString; "    # Demo proposal logic"; "    # Increments budgets for repairs"; "    ";
   "    # Store budget approval timestamp";
   "    set_value " +:+ TypedValue.dquote +:+ "budget_timestamp" +:+ TypedValue.dquote +:+ " timestamp"; "    ";
   "    # Set repair budget";
   "    set_value " +:+ TypedValue.dquote +:+ "repair_budget" +:+ TypedValue.dquote +:+ " 5000"; "    ";
   "    # Log approval";
   "    emit " +:+ TypedValue.dquote +:+ "budget_approved" +:+ TypedValue.dquote +:+ " data=" +:+ TypedValue.dquote +:+
     "Repair budget approved for 5000 credits" +:+ TypedValue.dquote; "    ";
   "    # Return success"; "    push 1"; "    "].
Definition logic_content : string := String.concat TypedValue.newline logic_lines.

Definition proposal_id : string := "demo-proposal-001".
Definition first_draft : Proposal.t :=
  Proposal.new (now 0) proposal_id user_id (Some logic_path) None (Some "governance/discussions/budget")
    ["doc1.txt"; "budget.xlsx"].

Definition load : M Proposal.t :=
  b ← get (Proposal.storage_key first_draft);
  lift (map_err (fun e => EStorage (StorageError.SerializationError ProposalCommands.proposal_type e)) (proposal_from_slice b)).
Definition save (n : nat) (p : Proposal.t) : M unit :=
  put_json n (Proposal.storage_key p) (proposal_to_vec p) ProposalCommands.proposal_type.

(** A transition: what is stored is read, changed, stored and read again. *)
Definition transition (n : nat) (mark : Proposal.t -> Proposal.t) : M Proposal.t :=
  p ← load; _ ← save n (mark p); load.

Definition comment1 : DemoComment :=
  {| dc_id := "comment-demo-001"; dc_author := user_id;
     dc_content := "This looks like a good proposal! I support increasing the repair budget.";
     dc_reply_to := None; dc_tags := [] |}.
Definition comment2 : DemoComment :=
  {| dc_id := "comment-demo-002"; dc_author := user_id;
     dc_content := "I'm adding a reply to my own comment as an example of threaded discussion.";
     dc_reply_to := Some (dc_id comment1); dc_tags := ["example"; "reply"] |}.
Definition comment_type : string := "icn_covm::cli::proposal::ProposalComment".
Definition comments_path : string := "governance/proposals/" +:+ proposal_id +:+ "/comments".
Definition add_comment (n : nat) (c : DemoComment) : M unit :=
  put_json n (comments_path +:+ "/" +:+ dc_id c) (comment_to_vec (now n) c) comment_type.
Fixpoint load_comments (keys : list string) : M (list DemoComment) :=
  match keys with
  | [] => mret []
  | k :: keys =>
      b ← get k;
      c ← lift (map_err (fun e => EStorage (StorageError.SerializationError comment_type e)) (comment_from_slice b));
      cs ← load_comments keys; mret (c :: cs)
  end.

Definition votes_path : string := "governance/proposals/" +:+ proposal_id +:+ "/votes".
Definition vote1 : DemoVote :=
  {| dv_voter := "member1"; dv_vote := "yes"; dv_reason := "This budget increase is necessary" |}.
Definition vote2 : DemoVote := {| dv_voter := "member2"; dv_vote := "yes"; dv_reason := "I agree with this proposal" |}.

Definition execute_logic (p : Proposal.t) : M unit :=
  path ← lift (match Proposal.logic_path p with
               | Some path => Ok path
               | None => Err (EText "Proposal does not have a logic path specified")
               end);
  content ← get path;
  source ← lift (match from_utf8 content with
                 | Some text => Ok text
                 | None => Err (EText ("Failed to parse logic content as UTF-8: " +:+ utf8_error content))
                 end);
  program ← lift (map_err (fun e => EText (CompilerError.to_string e)) (Dsl.parse_dsl source));
  _ ← modify (VM.set_namespace "governance");
  _ ← (fun vm => let '(vm', r) := Interp.execute fuel program.1 vm in (vm', map_err EVM r));
  budget ← get "repair_budget";
  match from_utf8 budget with
  | Some _ => mret tt
  | None => throw (EText ("Failed to parse budget value as UTF-8: " +:+ utf8_error budget))
  end.

Definition script : M unit :=
  _ ← init_storage;
  _ ← put 1 logic_path logic_content;
  _ ← save 2 first_draft;
  _ ← load;
  _ ← transition 3 (Proposal.mark_deliberation (now 1));
  _ ← add_comment 4 comment1;
  _ ← add_comment 5 comment2;
  comment_keys ← keys_under comments_path;
  _ ← load_comments comment_keys;
  _ ← transition 6 Proposal.mark_voting;
  _ ← put_json 7 (votes_path +:+ "/vote1") (vote_to_vec (now 2) vote1) "serde_json::value::Value";
  _ ← put_json 8 (votes_path +:+ "/vote2") (vote_to_vec (now 3) vote2) "serde_json::value::Value";
  _ ← keys_under votes_path;
  p ← transition 9 Proposal.mark_approved;
  execute_logic p.

Definition run_proposal_demo : VM.t InMemoryStorage.t * res BoxError unit :=
  script (VM.with_storage_backend InMemoryStorage.new).

End Script.

End Demo.

(** ** What becomes of it *)
Module DemoTheorems.

Import Demo.

Section Script.

Context `{PL : Platform} `{RD : Renderings} `{CH : Chrono} `{UC : Unicode} `{PC : !ProposalCalls}.
Context (comment_to_vec : DateTime -> DemoComment -> res string bytes) (comment_from_slice : bytes -> res string DemoComment).
Context (vote_to_vec : DateTime -> DemoVote -> res string bytes).
Context (fuel : nat) (stamp : nat -> N) (now : nat -> DateTime).

(** The demonstration never gets past its first write: the user is an
    administrator without an account. *)
Theorem demo_always_fails :
  (run_proposal_demo comment_to_vec comment_from_slice vote_to_vec fuel stamp now).2 =
  Err (EStorage (StorageError.PermissionDenied user_id "write (no account)"
                   ("governance:" +:+ logic_path))).
Proof. reflexivity. Qed.

Lemma logic_does_not_parse : Dsl.parse_dsl logic_content = Err (CompilerError.UnknownCommand "set_value" 6 5).
Proof. vm_compute. reflexivity. Qed.

(** With an account it would get no further than the logic, which is not a
    program of the language: on every machine that holds it, the execution of
    the approved proposal fails and changes nothing. *)
Theorem logic_never_runs (p : Proposal.t) (path : string) (vm : VM.t InMemoryStorage.t) (storage : InMemoryStorage.t) :
  Proposal.logic_path p = Some path -> VM.get_storage_backend vm = Some storage ->
  InMemoryStorage.get (Some auth) "governance" path storage = Ok logic_content ->
  execute_logic fuel p vm = (vm, Err (EText "Unknown command: set_value at line 6, column 5")).
Proof.
  intros Hp Hs Hg. unfold execute_logic. rewrite Hp.
  rewrite (stm_bind_eq (lift (Ok path)) _ vm vm path) by done.
  rewrite (stm_bind_eq _ _ vm vm logic_content); [|].
  2: { unfold get, storage_read, VM.with_storage. rewrite Hs. cbn [map_err mbind res_bind]. by rewrite Hg. }
  rewrite (stm_bind_eq _ _ vm vm logic_content) by (vm_compute; reflexivity).
  apply stm_bind_err. unfold lift. by rewrite logic_does_not_parse.
Qed.

End Script.

End DemoTheorems.
