(* ===== verification/LedgerFiles.v ===== *)
(** * The ledger by namespace: the files of icn-ledger

    The last two methods of [DagLedger]: the file of a namespace, beside the file
    of the ledger, and the export of a namespace to it.  A path is a text whose
    last component is a name; what is written is on the disk of [FileSystem].
    serde's pretty JSON of nodes and the text of an IO error are parameters. *)
From S2P Require Import Prelude Float64 Text Ledger FileSystem.

Module LedgerFiles.

(** The text up to the last slash, with it, and the name after it. *)
Definition split_name (path : string) : string * string :=
  match rfind_char "/" path with
  | Some i => (String.substring 0 (S i) path, drop_str (S i) path)
  | None => (EmptyString, path)
  end.

(** [Path::file_stem] and [Path::extension] of a name. *)
Definition stem_and_extension (name : string) : string * string :=
  match FileSystem.extension name with
  | Some e => (String.substring 0 (String.length name - S (String.length e)) name, e)
  | None => (name, EmptyString)
  end.

Definition namespaced_name (stem extension namespace : string) : string :=
  stem +:+ "_" +:+ namespace +:+ (if String.eqb extension EmptyString then EmptyString else "." +:+ extension).

Definition get_namespaced_file_path (namespace : string) (self : DagLedger.t) : res string string :=
  match DagLedger.file_path self with
  | Some file_path =>
      let '(parent, name) := split_name file_path in
      if String.eqb name EmptyString || String.eqb name ".." then Err "Invalid file path"
      else
        let '(stem, extension) := stem_and_extension name in
        Ok (parent +:+ namespaced_name stem extension namespace)
  | None => Err "File path is not set"
  end.

Section Export.

Context (nodes_to_string_pretty : list DagNode.t -> res string string) (io_text : IoError -> string).
Context (cwd : FileSystem.path).

Definition export_namespace_to_file (namespace : string) (self : DagLedger.t) : stm FileSystem.t string unit := fun fs =>
  match get_namespaced_file_path namespace self with
  | Ok path =>
      match map_err (fun e => "Failed to serialize: " +:+ e)
              (nodes_to_string_pretty (DagLedger.nodes_by_namespace namespace self)) with
      | Ok json =>
          let '(fs', r) := FileSystem.write (FileSystem.join cwd path) json fs in
          (fs', map_err (fun e => "Failed to write to " +:+ path +:+ ": " +:+ io_text e) r)
      | Err e => (fs, Err e)
      | Panic m => (fs, Panic m)
      | OutOfFuel => (fs, OutOfFuel)
      end
  | Err e => (fs, Err e)
  | Panic m => (fs, Panic m)
  | OutOfFuel => (fs, OutOfFuel)
  end.

(** ** Properties *)

Lemma str_app_inj_r (a b s : string) : a +:+ s = b +:+ s -> a = b.
Proof.
  revert b. induction a as [|x a IH]; intros [|y b] H; [done| | |].
  - apply (f_equal String.length) in H. rewrite !length_str_app in H. cbn in H. lia.
  - apply (f_equal String.length) in H. rewrite !length_str_app in H. cbn in H. lia.
  - rewrite !str_app_cons in H. injection H as -> H. by rewrite (IH b H).
Qed.

(** Two namespaces never share a file. *)
Theorem namespaces_have_their_files (self : DagLedger.t) (ns1 ns2 path : string) :
  get_namespaced_file_path ns1 self = Ok path -> get_namespaced_file_path ns2 self = Ok path -> ns1 = ns2.
Proof.
  unfold get_namespaced_file_path. destruct (DagLedger.file_path self) as [p|]; [|discriminate].
  destruct (split_name p) as [parent name]. destruct (_ || _); [discriminate|].
  destruct (stem_and_extension name) as [stem e]. intros [= <-] [= H].
  unfold namespaced_name in H. apply str_app_inj_l, str_app_inj_l, str_app_inj_l in H.
  by apply str_app_inj_r in H.
Qed.

(** An export that succeeds leaves the nodes of the namespace in its file and
    every other file as it was; one that fails changes no file. *)
Theorem export_writes_the_namespace (namespace : string) (self : DagLedger.t) (fs : FileSystem.t) :
  let out := export_namespace_to_file namespace self fs in
  match out.2 with
  | Ok _ => exists path json,
      get_namespaced_file_path namespace self = Ok path /\
      nodes_to_string_pretty (filter (fun n => DagNode.namespace n = namespace) (DagLedger.nodes self)) = Ok json /\
      out.1 = FileSystem.put_file (FileSystem.join cwd path) json fs
  | _ => out.1 = fs
  end.
Proof.
  cbn zeta. unfold export_namespace_to_file.
  destruct (get_namespaced_file_path namespace self) as [path| | |]; try done.
  destruct (nodes_to_string_pretty _) as [json| | |] eqn:E; try done. cbn [map_err].
  pose proof (FileSystem.write_ok (FileSystem.join cwd path) json fs) as Hw.
  unfold FileSystem.write in *. destruct (FileSystem.is_dir _ fs); [done|].
  destruct (FileSystem.is_dir _ fs); [|done]. cbn. by exists path, json.
Qed.

End Export.

(** A namespace with slashes leaves the directory of the ledger. *)
Example namespace_outside :
  (path ← get_namespaced_file_path "x/../../votes" (DagLedger.set_path "data/dag.jsonl" DagLedger.new);
   Ok (FileSystem.join ["srv"] path)) = @Ok string _ ["srv"; "votes.jsonl"] /\
  get_namespaced_file_path "votes" (DagLedger.set_path "data/dag.jsonl" DagLedger.new) = Ok "data/dag_votes.jsonl".
Proof. vm_compute. auto. Qed.

Lemma namespaces_have_their_files_witness :
  get_namespaced_file_path "votes" (DagLedger.set_path "dag" DagLedger.new) = Ok "dag_votes" /\ "votes" = "votes".
Proof.
  split; [reflexivity|].
  exact (namespaces_have_their_files (DagLedger.set_path "dag" DagLedger.new) "votes" "votes" "dag_votes" eq_refl eq_refl).
Defined.

End LedgerFiles.
